(* ===== verification/_CoqProject ===== *)
-Q . S2P
Prelude.v
Monad.v
RawMem.v
Machine.v
CString.v
Ports.v
Bitmap.v
DList.v
Thread.v
Sync.v
Ioqueue.v
Global.v
Interrupt.v
Screen.v
Tss.v
Timer.v
Console.v
Steps.v
Keyboard.v
Paging.v
Loader.v
Memory.v
Mapping.v
KHeap.v
PoolInit.v
Task.v
Entry.v
Preempt.v
Spawn.v
UserPages.v
Kernel.v
Boot.v
Init.v
Start.v
Process.v
Enter.v
Execute.v
LoadKernel.v
Bringup.v
Main.v
