(* ===== verification/Prelude.v ===== *)
(** * oslearn: a verification library

    oslearn is a teaching kernel for 32-bit x86 processors, in C with some
    assembly.  This library translates its C code into executable definitions
    and proves what the code does.  File names without [.v] are relative to the
    repository's source directory.

    ** The program

    boot/loader.S asks the BIOS for the size of the memory, brings the processor
    into protected mode, reads the kernel's file from the disk, makes the first
    page tables (the first megabyte is mapped at 0 and at 3 GB, the page
    directory is at 1 MB and its last entry leads to itself), turns paging on,
    copies the file's segments and jumps to the kernel.  [main] (kernel/main.c) calls [init_all]
    (kernel/init.c), which sets up the interrupt tables (kernel/interrupt.c),
    the pools of frames and the heap of pages (kernel/memory.c), the threads
    (thread/thread.c), the timer, the console and the keyboard (device/) and
    the task state segment (userprog/tss.c).  Then it starts two threads, which
    echo what is typed.  Lists (lib/kernel/list.c) are the queues of the
    scheduler; bitmaps (lib/kernel/bitmap.c) record pages and frames;
    semaphores and locks (thread/sync.c) block threads; the timer's interrupt
    ends time slices; the keyboard's interrupt fills a ring buffer
    (device/ioqueue.c), which the threads empty.  userprog/process.c makes user
    processes; nothing calls it yet.

    ** The model

    - Monad.v: code is a function from a state to an outcome: [Done], [Panic]
      (an assertion failed: the code spins), [Fault] (an access to memory that
      is not there, or C without a meaning), [Hang] (a loop that went round
      [loop_bound] times) and [Yield] (the processor was handed over by
      [switch_to]; what remains to be done is a continuation).  [wp] is the
      weakest precondition with a protocol for hand-overs, panics and faults;
      hangs are never allowed, and faults only where a theorem is about one, so
      every [wp] is a statement of total correctness.  [loop_bound] is 2^33, twice the number of addresses of the
      machine: no loop of the code that ends goes round more often, since each
      counts a 32-bit word or walks through memory.  The bound is a binary
      number, which costs nothing to evaluate.
    - RawMem.v: the class [RawMem] of byte-addressed memories and the class
      [RawMemLaws] of promises about a region [R] with the contents [f]
      ([backs m R f]); words are little-endian.  All code and all rules of the
      library routines are stated over the classes.  There are four
      implementations of the laws.  [flat] is a finite map of bytes.
      [paged_laws] (Paging.v) is physical memory behind the processor's address
      translation.  [keeping_laws] promises besides that physical bytes outside
      the region do not change, which is what code that runs while page tables
      matter needs.  [own_laws] (Task.v) turns bytes that belong to nobody into
      memory of one's own while the scheduler's invariant holds.
    - Machine.v: the state ([kstate]: memory, interrupt flag, stack pointer,
      static variables, characters sent to the screen, port traffic, descriptor
      table registers), the primitives, assertions, and the class [Layout] of
      the addresses the linker chooses.  Wrap-around is written out: [u8],
      [u16], [u32], [s8], [s16], [s32].
    - The screen is the sequence of the characters sent to it.  The position of
      the cursor ([cursor]) follows from them, since the kernel starts with the
      cursor where the loader's line ends; [put_char] faults on a backspace in
      the first cell.  Screen.v says what the characters do to the cells, and
      that its cursor is this one ([screen_cursor], [put_char_screen]).
    - Descriptors live in memory: ltr and the loader's moves to segment
      registers fetch and check them and mark them busy or accessed
      ([use_desc]), and the return to a program fetches and checks those of its
      code and its stack ([iret_checks]).
    - Pointers to functions are addresses ([fn name]); string literals are
      addresses ([lit text]), except where they are only printed ([put_lit]).

    ** The components

    - CString.v: lib/string.c.  Bitmap.v: lib/kernel/bitmap.c.  DList.v:
      lib/kernel/list.c, a refinement of finite sequences.
    - Thread.v: [schedule], [thread_block], [thread_unblock] and [switch_to]
      (thread/thread.c, thread/switch.S); [sched] is the abstract scheduler,
      [rep] says that memory represents one, [wf] is its invariant.
    - Sync.v: semaphores and locks; [ksys] is the scheduler with them and with
      the bytes that other components own, [sys] the invariant of the whole.
    - Ioqueue.v: the ring buffer, a refinement of a FIFO of 63 bytes.
      Keyboard.v: the keyboard's handler, a refinement of a machine on keys.
      Timer.v: device/timer.c.  Console.v: device/console.c.
    - Steps.v: ticks, blocks and wake-ups as a step relation on the abstract
      scheduler, with its reachable states, and runs of the machine that perform
      them.
    - Ports.v: lib/kernel/io.h.  Screen.v: lib/kernel/print.S down to the cells
      of the video memory, a refinement of a terminal.
    - Global.v: descriptor formats as the processor decodes them.  Interrupt.v:
      kernel/interrupt.c.  Tss.v: userprog/tss.c and the system call table.
    - Entry.v: kernel/kernel.S and lib/user/syscall.c: the frame the processor
      pushes, the entries, [intr_exit], the system call.  Preempt.v: the timer's
      interrupt from the entry through the scheduler to the return.
    - Paging.v: the translation, the self-mapped tables, [vspace] (a region
      mapped one to one outside the tables, with free frames).  Memory.v: all
      of kernel/memory.c.  Mapping.v: [page_table_add] and [addr_v2p] against
      the translation.  KHeap.v: [malloc_page] and [get_kernel_pages].
      PoolInit.v: [mem_init].
    - Task.v: creating threads.  Spawn.v: [thread_start] on the paged machine.
      Boot.v: [thread_init].  Init.v: [init_all] from the memory the loader
      leaves.  Start.v: [main] and the two threads.
    - Kernel.v: the kernel's objects and its heap together ([kernel_at]), and
      how steps on them compose.
    - UserPages.v: [get_a_page] for a process.  Process.v: userprog/process.c,
      the directory of a process and the switch to it.  Enter.v:
      [start_process], the way out of the kernel.  Execute.v:
      [process_execute].
    - Loader.v: boot/loader.S and include/boot.inc: [detect_memory],
      [rd_disk_m_32], [setup_page], [kernel_init] and the code around them; the
      BIOS's answers and the disk's words are parameters.  LoadKernel.v: the
      32-bit part as a whole, on physical memory up to [turn_on_paging] and
      behind the tables from there on.  Bringup.v: the loader followed by
      [init_all].  Main.v: the loader followed by [main].

    ** What the theorems show

    - Scheduling: [schedule] is one step of the abstract round-robin scheduler;
      the thread at position n gets the processor after n calls; a blocked
      thread does not run until it is unblocked; every run of the machine makes
      the steps of the abstract scheduler; whatever the events, the code ends in
      an assertion or in a memory whose threads have the statuses that their
      places call for; an interrupt gives the interrupted code its registers back.
    - Blocking: under any interference [sema_down] holds the semaphore when it
      returns; [sema_up], [lock_acquire], the buffer's operations and the
      keyboard's handler do what their abstract counterparts do, up to the
      backspace in the first cell, which faults; a lock is never given back.
    - Memory: [mem_init] establishes the invariants of the pools and the heap;
      [page_table_add] adds one page to the translation and moves nothing;
      [malloc_page] finds fresh pages and free frames and keeps everything
      else; [get_kernel_pages] returns zeros; the failures are the assertions
      the theorems name.
    - Threads: [thread_init] establishes [sys]; [thread_start] takes a page
      from the heap and leaves [sys] with one thread more and the heap's
      invariant with one frame less; a switch to its stack runs
      [kernel_thread] with its function and argument.
    - Processes: the directory [create_page_dir] makes translates kernel
      addresses as the present one; [process_activate] keeps the kernel's
      memory and its invariant across the reload of the directory register;
      [get_a_page] maps one page for a process; [start_process] leaves for the
      program with privilege 3 on a mapped stack if the program begins below
      1 MB, where the user's code segment ends, and faults if it does not;
      [process_execute] makes
      fresh pages into a process that is ready, and keeps everything else.
    - Boot: [detect_memory] stores the largest end of a range but for the last
      one; [kernel_init] copies the segments; the loader's 32-bit part ends at
      the kernel's entry with the first tables in force and the segments in
      place; with [init_all] behind it all the invariants hold in the address
      space the loader built, and with [main] behind it the machine reaches
      [main]'s loop with two threads ready.
    - Start: [init_all] establishes all the invariants together; what is printed
      appears at the cursor.
    - Tables: the interrupt and segment descriptors are what the processor is
      meant to read, and where they are not the theorems say so.
    - The list and string routines, the bitmap search and their limits.

    Each property with hypotheses has a witness on a concrete machine, evaluated
    by the kernel, in the Module [examples] at the end of its file.

    ** Not modelled

    - boot/mbr.S, which loads the loader in real mode, the texts that the BIOS
      prints, and the instructions that switch to protected mode (the A20 gate,
      cr0): the theorems on the 32-bit part start from the loader's data and
      zeroed memory behind the first tables ([real_mode_done]).
    - Interrupts during the start: nothing in the source turns them off before
      the gates are in place, so the runs of the loader and of [main] are those
      that no interrupt arrives in.
    - The stack: a thread's saved stack pointer is modelled, its frames are
      not, so an overflow into the control block is not excluded.  The theorems
      on the loader as a whole leave the 64 bytes under its stack pointer open;
      [kernel_init_loads] speaks of [kernel_init] alone and leaves out what its
      pushes and calls write below the stack pointer.
    - Segments: limits and privileges are checked where a descriptor is loaded
      and could fail the check, that is by [ltr], by the loader and on the way
      into a program.  The return to interrupted code finds the segment it was
      interrupted in, so [intr_exit] has no check; the pops of ds, es, fs and gs
      in it, and the stores to the screen's segment, load descriptors that are
      marked as accessed, or mark those of the user, which is not modelled.
    - The cursor after [set_cursor]: [general_intr_handler] calls it, prints no
      backspace and never returns.
    - The translation caches of the processor: a changed entry counts at once.

    ** What is left

    - [get_user_pages] is modelled without a theorem; nothing calls it. *)

From Stdlib Require Export ZArith Lia.
From Stdlib Require Export Ascii String.
From stdpp Require Export base list gmap strings.
From Stdlib Require Import ZifyNat ZifyBool.

#[global] Open Scope Z_scope.

(** ** Tactics *)

(** Linear arithmetic with the quotients and remainders of constants. *)
Ltac zlia := Z.to_euclidean_division_equations; lia.

(** Split conjunctions in the hypotheses and in the goal. *)
Ltac splits := repeat match goal with |- _ /\ _ => split end.
Ltac unpack :=
  repeat match goal with
    | H : _ /\ _ |- _ => destruct H
    | H : exists _, _ |- _ => destruct H
    end.

(** ** Machine integers

    Every C integer is a [Z]; [u8], [u16], [u32] are the conversions to the
    unsigned types, [s8], [s16], [s32] those to the signed ones. *)

Definition u8 (x : Z) : Z := x mod 2 ^ 8.
Definition u16 (x : Z) : Z := x mod 2 ^ 16.
Definition u32 (x : Z) : Z := x mod 2 ^ 32.

Definition s8 (x : Z) : Z := (x + 2 ^ 7) mod 2 ^ 8 - 2 ^ 7.
Definition s16 (x : Z) : Z := (x + 2 ^ 15) mod 2 ^ 16 - 2 ^ 15.
Definition s32 (x : Z) : Z := (x + 2 ^ 31) mod 2 ^ 32 - 2 ^ 31.

Definition is_u8 (x : Z) : Prop := 0 <= x < 256.
Definition is_u32 (x : Z) : Prop := 0 <= x < 4294967296.

Lemma u8_small x : is_u8 x -> u8 x = x.
Proof. unfold is_u8, u8. zlia. Qed.

Lemma u32_small x : is_u32 x -> u32 x = x.
Proof. unfold is_u32, u32. zlia. Qed.

Lemma u32_range x : is_u32 (u32 x).
Proof. unfold is_u32, u32. zlia. Qed.

Lemma u8_range x : is_u8 (u8 x).
Proof. unfold is_u8, u8. zlia. Qed.

Lemma s32_small x : - 2 ^ 31 <= x < 2 ^ 31 -> s32 x = x.
Proof. unfold s32. zlia. Qed.

Lemma s32_u32 x : s32 (u32 x) = s32 x.
Proof. unfold s32, u32. zlia. Qed.

Lemma u32_s32 x : u32 (s32 x) = u32 x.
Proof. unfold s32, u32. zlia. Qed.

Lemma s8_small x : - 2 ^ 7 <= x < 2 ^ 7 -> s8 x = x.
Proof. unfold s8. zlia. Qed.

(** ** Bits *)

Lemma testbit_above x n i : 0 <= x < 2 ^ n -> n <= i -> Z.testbit x i = false.
Proof.
  intros Hx Hi. destruct (Z.eq_dec x 0) as [-> | Hne]; [apply Z.bits_0 |].
  apply Z.bits_above_log2; [lia |].
  apply Z.log2_lt_pow2; [lia |].
  apply Z.lt_le_trans with (2 ^ n); [lia |]. apply Z.pow_le_mono_r; lia.
Qed.

(** A byte is determined by its eight bits. *)
Lemma byte_full x : is_u8 x ->
  (forall k, 0 <= k < 8 -> Z.testbit x k = true) -> x = 255.
Proof.
  intros Hx Hb. apply Z.bits_inj'. intros i Hi.
  destruct (Z.lt_ge_cases i 8) as [Hlt | Hge].
  - rewrite Hb by lia.
    assert (i = 0 \/ i = 1 \/ i = 2 \/ i = 3 \/ i = 4 \/ i = 5 \/ i = 6 \/ i = 7)
      as Hc by lia.
    repeat (destruct Hc as [-> | Hc]; [reflexivity |]). subst; reflexivity.
  - rewrite (testbit_above x 8) by (unfold is_u8 in Hx; lia).
    rewrite (testbit_above 255 8) by lia. reflexivity.
Qed.

(** A number without bits from [n] on is below [2 ^ n]. *)
Lemma below_of_bits x n : 0 <= n ->
  (forall i, n <= i -> Z.testbit x i = false) -> 0 <= x < 2 ^ n.
Proof.
  intros Hn Hb. assert (x mod 2 ^ n = x) as <-.
  { rewrite <- Z.land_ones by done. apply Z.bits_inj'. intros i Hi.
    rewrite Z.land_spec. destruct (Z.lt_ge_cases i n) as [Hlt | Hge].
    - by rewrite Z.ones_spec_low, andb_true_r by lia.
    - by rewrite Hb by lia. }
  apply Z.mod_pos_bound. apply Z.pow_pos_nonneg; lia.
Qed.

(** Numbers without common bits are or-ed by adding them. *)
Lemma lor_disjoint x y n : 0 <= n -> 0 <= x < 2 ^ n -> Z.lor x (y * 2 ^ n) = x + y * 2 ^ n.
Proof.
  intros Hn Hx. assert (Z.land x (y * 2 ^ n) = 0) as Hl.
  { apply Z.bits_inj'. intros i Hi. rewrite Z.land_spec, Z.bits_0.
    destruct (Z.lt_ge_cases i n) as [Hlt | Hge].
    - by rewrite Z.mul_pow2_bits_low, andb_false_r.
    - by rewrite (testbit_above x n). }
  rewrite Z.add_nocarry_lxor by done. by rewrite Z.lxor_lor.
Qed.

Lemma lor_disjoint' x y n : 0 <= n -> 0 <= x < 2 ^ n -> Z.lor (y * 2 ^ n) x = y * 2 ^ n + x.
Proof. intros Hn Hx. rewrite Z.lor_comm, lor_disjoint by done. lia. Qed.

(** A field of [n] bits at [k]. *)
Lemma land_shiftl_ones x n k : 0 <= n -> 0 <= k ->
  Z.land x (Z.shiftl (Z.ones n) k) = Z.shiftl (Z.land (Z.shiftr x k) (Z.ones n)) k.
Proof.
  intros Hn Hk. apply Z.bits_inj'. intros i Hi. rewrite Z.land_spec, !Z.shiftl_spec by done.
  destruct (Z.lt_ge_cases i k) as [Hlt | Hge].
  - by rewrite !(Z.testbit_neg_r _ (i - k)), andb_false_r by lia.
  - rewrite Z.land_spec, Z.shiftr_spec by lia. by replace (i - k + k) with i by lia.
Qed.

Lemma land_ffff x : Z.land x 0xffff = x mod 2 ^ 16.
Proof. change 0xffff with (Z.ones 16). by apply Z.land_ones. Qed.

Lemma shiftr_div x n : 0 <= n -> Z.shiftr x n = x / 2 ^ n.
Proof. apply Z.shiftr_div_pow2. Qed.

Lemma shiftl1_testbit k i : 0 <= k -> Z.testbit (Z.shiftl 1 k) i = (i =? k).
Proof.
  intros Hk. rewrite Z.shiftl_1_l.
  destruct (Z.eqb_spec i k) as [-> | Hne].
  - apply Z.pow2_bits_true. lia.
  - apply Z.pow2_bits_false. lia.
Qed.

(** Masking with one bit is zero exactly when that bit is clear. *)
Lemma land_shiftl1_eqb x k : 0 <= k ->
  (Z.land x (Z.shiftl 1 k) =? 0) = negb (Z.testbit x k).
Proof.
  intros Hk. destruct (Z.testbit x k) eqn:Hb; cbn.
  - apply Z.eqb_neq. intros Heq.
    assert (Z.testbit (Z.land x (Z.shiftl 1 k)) k = false) as Hf
      by (rewrite Heq; apply Z.bits_0).
    rewrite Z.land_spec, shiftl1_testbit, Hb, Z.eqb_refl in Hf by lia.
    discriminate.
  - apply Z.eqb_eq. apply Z.bits_inj'. intros i Hi.
    rewrite Z.land_spec, shiftl1_testbit, Z.bits_0 by lia.
    destruct (Z.eqb_spec i k) as [-> | _]; [rewrite Hb |]; apply andb_false_r || reflexivity.
Qed.

(** ** Characters and string literals *)

Definition chr (a : Ascii.ascii) : Z := Z.of_N (Ascii.N_of_ascii a).

Fixpoint bytes_of (s : string) : list Z :=
  match s with
  | EmptyString => []
  | String a s' => chr a :: bytes_of s'
  end.

(** ** Bounded quantifiers, decided by evaluation *)

Definition zrange (n : Z) : list Z := map Z.of_nat (seq 0 (Z.to_nat n)).

Lemma zrange_spec n i : In i (zrange n) <-> 0 <= i < n.
Proof.
  unfold zrange. rewrite in_map_iff. split.
  - intros (k & <- & Hk). apply in_seq in Hk. lia.
  - intros Hi. exists (Z.to_nat i). split; [lia |]. apply in_seq. lia.
Qed.

Lemma zrange_forallb (P : Z -> bool) n : forallb P (zrange n) = true ->
  forall i, 0 <= i < n -> P i = true.
Proof. intros HP i Hi. rewrite forallb_forall in HP. by apply HP, zrange_spec. Qed.
