(* ===== verification/Monad.v ===== *)
(** The effects of kernel code: state, panics, faults, endless loops and the
    hand-over of the processor, with a weakest-precondition calculus. *)

From S2P Require Import Prelude.

(** What [panic_spin] prints: file, line, function and condition. *)
Record panic_info := mk_panic {
  pi_file : string; pi_line : Z; pi_func : string; pi_cond : string }.

(** The outcome of running a piece of kernel code on a state.
    [Done]: it returned.  [Yield s k]: it called [switch_to], another thread
    now runs from [s], and [k] is what remains to be done when this thread is
    switched to again.  [Panic]: it ended in [panic_spin]'s [while(1)].
    [Fault]: the processor raised an exception, for an access to memory that
    is not there or for a segment (or the code passed a point where C gives no
    meaning).  [Hang]: a loop went round [loop_bound] times. *)
Inductive outcome (S A : Type) : Type :=
| Done (a : A) (s : S)
| Yield (s : S) (k : S -> outcome S A)
| Panic (p : panic_info) (s : S)
| Fault (s : S)
| Hang (s : S).
Arguments Done {S A}. Arguments Yield {S A}. Arguments Panic {S A}.
Arguments Fault {S A}. Arguments Hang {S A}.

Definition cmd (S A : Type) : Type := S -> outcome S A.

Fixpoint obind {S A B} (o : outcome S A) (f : A -> cmd S B) : outcome S B :=
  match o with
  | Done a s => f a s
  | Yield s k => Yield s (fun s' => obind (k s') f)
  | Panic p s => Panic p s
  | Fault s => Fault s
  | Hang s => Hang s
  end.

Definition cret {S A} (a : A) : cmd S A := fun s => Done a s.
Definition cbind {S A B} (c : cmd S A) (f : A -> cmd S B) : cmd S B :=
  fun s => obind (c s) f.
Definition get {S A} (p : S -> A) : cmd S A := fun s => Done (p s) s.
Definition modify {S} (g : S -> S) : cmd S unit := fun s => Done tt (g s).
Definition fault {S A} : cmd S A := fun s => Fault s.
Definition hang {S A} : cmd S A := fun s => Hang s.
Definition panic {S A} (p : panic_info) : cmd S A := fun s => Panic p s.
Definition yield {S} : cmd S unit := fun s => Yield s (fun s' => Done tt s').

Declare Scope cmd_scope.
Delimit Scope cmd_scope with cmd.
Bind Scope cmd_scope with cmd.
Notation "'do' x <- c ; d" := (cbind c (fun x => d))
  (at level 10, x name, c at level 100, d at level 200,
   format "'[v' 'do'  x  <-  c ; '/' d ']'") : cmd_scope.
Notation "'do' ' p <- c ; d" := (cbind c (fun x => match x with p => d end))
  (at level 10, p pattern, c at level 100, d at level 200) : cmd_scope.
Notation "c ;; d" := (cbind c (fun _ => d))
  (at level 100, d at level 200, right associativity) : cmd_scope.
Notation "'when' b 'then' c" := (if b then c else cret tt)
  (at level 10, b at level 100, c at level 100) : cmd_scope.
#[global] Open Scope cmd_scope.

(** ** Loops

    [loop p body x] goes round [body] at most [p] times: [inl x'] means go
    round again with [x'], [inr r] leave the loop with [r].  The bound is
    binary, so that the constant [loop_bound] costs nothing to evaluate. *)

Fixpoint loop {S X R} (p : positive) (body : X -> cmd S (X + R)) (x : X)
  : cmd S (X + R) :=
  match p with
  | xH => body x
  | xO q =>
      do r <- loop q body x;
      match r with inl x' => loop q body x' | inr y => cret (inr y) end
  | xI q =>
      do r <- body x;
      match r with
      | inl x' =>
          do r' <- loop q body x';
          match r' with inl x'' => loop q body x'' | inr y => cret (inr y) end
      | inr y => cret (inr y)
      end
  end.

(** Twice the number of addresses of the machine. *)
Definition loop_bound : positive := 8589934592.

Definition while_ {S X R} (body : X -> cmd S (X + R)) (x : X) : cmd S R :=
  do r <- loop loop_bound body x;
  match r with inl _ => hang | inr y => cret y end.

(** ** Weakest preconditions

    A protocol says what a thread guarantees when it hands over the
    processor, what it may assume when it gets it back, and which panics and
    faults are allowed.  Hangs never are. *)

Record protocol (S : Type) := mk_protocol {
  guar : S -> Prop;
  rely : S -> S -> Prop;
  may_panic : panic_info -> S -> Prop;
  may_fault : S -> Prop }.
Arguments mk_protocol {S}. Arguments guar {S}. Arguments rely {S}.
Arguments may_panic {S}. Arguments may_fault {S}.

(** Run to completion: no hand-over, no panic, no fault. *)
Definition seq_only {S} : protocol S :=
  mk_protocol (fun _ => False) (fun _ _ => False) (fun _ _ => False) (fun _ => False).

(** Run to completion, panics described by [P]. *)
Definition seq_panic {S} (P : panic_info -> S -> Prop) : protocol S :=
  mk_protocol (fun _ => False) (fun _ _ => False) P (fun _ => False).

(** Run into a fault. *)
Definition seq_fault {S} : protocol S :=
  mk_protocol (fun _ => False) (fun _ _ => False) (fun _ _ => False) (fun _ => True).

Fixpoint wpo {S A} (G : protocol S) (Q : A -> S -> Prop) (o : outcome S A)
  : Prop :=
  match o with
  | Done a s => Q a s
  | Yield s k => guar G s /\ forall s', rely G s s' -> wpo G Q (k s')
  | Panic p s => may_panic G p s
  | Fault s => may_fault G s
  | Hang _ => False
  end.

Definition wp {S A} (G : protocol S) (c : cmd S A) (s : S) (Q : A -> S -> Prop)
  : Prop := wpo G Q (c s).

Section wp.
Context {S : Type}.
Implicit Types (G : protocol S) (s : S).

Lemma wpo_bind {A B} G (Q : B -> S -> Prop) (o : outcome S A) f :
  wpo G (fun a s => wp G (f a) s Q) o -> wpo G Q (obind o f).
Proof.
  induction o as [a s | s k IH | p s | s | s]; cbn; auto.
  intros [Hg Hk]. split; [done |]. intros s' Hr. apply IH, Hk, Hr.
Qed.

Lemma wp_bind {A B} G (c : cmd S A) (f : A -> cmd S B) s Q :
  wp G c s (fun a s' => wp G (f a) s' Q) -> wp G (cbind c f) s Q.
Proof. apply wpo_bind. Qed.

Lemma wpo_mono {A} G (Q Q' : A -> S -> Prop) o :
  (forall a s, Q a s -> Q' a s) -> wpo G Q o -> wpo G Q' o.
Proof.
  intros HQ. induction o as [a s | s k IH | p s | s | s]; cbn; auto.
  intros [Hg Hk]. split; [done |]. intros s' Hr. apply IH, Hk, Hr.
Qed.

Lemma wp_mono {A} G (c : cmd S A) s (Q Q' : A -> S -> Prop) :
  wp G c s Q -> (forall a s', Q a s' -> Q' a s') -> wp G c s Q'.
Proof. intros Hw HQ. eapply wpo_mono; eauto. Qed.

Lemma wp_ret {A} G (a : A) s Q : Q a s -> wp G (cret a) s Q.
Proof. done. Qed.

Lemma wp_get {A} G (p : S -> A) s Q : Q (p s) s -> wp G (get p) s Q.
Proof. done. Qed.

Lemma wp_modify G (g : S -> S) s (Q : unit -> S -> Prop) :
  Q tt (g s) -> wp G (modify g) s Q.
Proof. done. Qed.

Lemma wp_panic {A} G p s (Q : A -> S -> Prop) :
  may_panic G p s -> wp G (panic p) s Q.
Proof. done. Qed.

Lemma wp_yield G s (Q : unit -> S -> Prop) :
  guar G s -> (forall s', rely G s s' -> Q tt s') -> wp G yield s Q.
Proof. split; done. Qed.

(** What holds of a run to completion holds under every protocol. *)
Lemma wp_weaken {A} G (c : cmd S A) s Q : wp seq_only c s Q -> wp G c s Q.
Proof. unfold wp. destruct (c s); cbn; tauto. Qed.

Lemma wp_seq_only {A} (c : cmd S A) s Q :
  wp seq_only c s Q <-> exists a s', c s = Done a s' /\ Q a s'.
Proof.
  unfold wp. split.
  - destruct (c s); cbn; try tauto. eauto.
  - intros (a & s' & -> & HQ). done.
Qed.

(** A rule in continuation style gives the result of a run. *)
Lemma done_wp {A} (c : cmd S A) s r s1 :
  (forall Q : A -> S -> Prop, Q r s1 -> wp seq_only c s Q) -> c s = Done r s1.
Proof.
  intros Hw. destruct (proj1 (wp_seq_only c s (fun r' s' => r' = r /\ s' = s1)))
    as (a & s' & Hc & -> & ->); [by apply Hw | done].
Qed.

Lemma wp_seq_panic {A} (c : cmd S A) s P :
  wp (seq_panic P) c s (fun _ _ => False) ->
  exists p s', c s = Panic p s' /\ P p s'.
Proof. unfold wp. destruct (c s); cbn; try tauto. eauto. Qed.

(** A run that cannot but fault. *)
Lemma faults_wp {A} (c : cmd S A) s :
  (forall G (Q : A -> S -> Prop), (forall s', may_fault G s') -> wp G c s Q) -> exists s', c s = Fault s'.
Proof.
  intros Hw. specialize (Hw seq_fault (fun _ _ => False) (fun _ => I)).
  unfold wp in Hw. destruct (c s); cbn in Hw; try tauto. eauto.
Qed.

(** What comes before a hand-over runs to completion; [Phi] looks at the
    outcome of the rest. *)
Lemma seq_then {A B} (c : cmd S A) (f : A -> cmd S B) s (Phi : outcome S B -> Prop) :
  wp seq_only c s (fun a s' => Phi (f a s')) -> Phi (cbind c f s).
Proof. intros (a & s' & Hc & HP)%wp_seq_only. unfold cbind. by rewrite Hc. Qed.

Lemma seq_done {A} (c : cmd S A) s (Phi : outcome S A -> Prop) :
  wp seq_only c s (fun a s' => Phi (Done a s')) -> Phi (c s).
Proof. intros (a & s' & Hc & HP)%wp_seq_only. by rewrite Hc. Qed.

(** The rule for loops: an invariant indexed by the number of rounds left. *)
Lemma wp_loop {X R} G (body : X -> cmd S (X + R)) (I : nat -> X -> S -> Prop)
  (Q : R -> S -> Prop) :
  (forall n x s, I n x s ->
     wp G (body x) s (fun r s' =>
       match r with
       | inl x' => exists n', (n' < n)%nat /\ I n' x' s'
       | inr y => Q y s' end)) ->
  forall p n x s, I n x s ->
    wp G (loop p body x) s (fun r s' =>
      match r with
      | inl x' => exists n', (n' + Pos.to_nat p <= n)%nat /\ I n' x' s'
      | inr y => Q y s' end).
Proof.
  intros Hbody. induction p as [q IH | q IH |]; intros n x s HI; cbn [loop].
  - apply wp_bind. eapply wp_mono; [apply Hbody, HI |].
    intros [x' | y] s' Hr; [| apply wp_ret, Hr].
    destruct Hr as (n' & Hlt & HI').
    apply wp_bind. eapply wp_mono; [eapply IH, HI' |].
    intros [x'' | y] s'' Hr; [| apply wp_ret, Hr].
    destruct Hr as (n'' & Hlt' & HI'').
    eapply wp_mono; [eapply IH, HI'' |].
    intros [x3 | y] s3 Hr; [| done].
    destruct Hr as (n3 & Hlt3 & HI3). exists n3. split; [lia | done].
  - apply wp_bind. eapply wp_mono; [eapply IH, HI |].
    intros [x'' | y] s'' Hr; [| apply wp_ret, Hr].
    destruct Hr as (n'' & Hlt' & HI'').
    eapply wp_mono; [eapply IH, HI'' |].
    intros [x3 | y] s3 Hr; [| done].
    destruct Hr as (n3 & Hlt3 & HI3). exists n3. split; [lia | done].
  - eapply wp_mono; [apply Hbody, HI |].
    intros [x' | y] s' Hr; [| done].
    destruct Hr as (n' & Hlt & HI'). exists n'. split; [lia | done].
Qed.

(** A loop whose rounds are bounded by a measure below [loop_bound] ends. *)
Lemma wp_while {X R} G (body : X -> cmd S (X + R)) (I : nat -> X -> S -> Prop)
  (Q : R -> S -> Prop) n x s :
  (forall n x s, I n x s ->
     wp G (body x) s (fun r s' =>
       match r with
       | inl x' => exists n', (n' < n)%nat /\ I n' x' s'
       | inr y => Q y s' end)) ->
  I n x s -> Z.of_nat n < Z.pos loop_bound ->
  wp G (while_ body x) s Q.
Proof.
  intros Hbody HI Hn. unfold while_. apply wp_bind.
  eapply wp_mono; [eapply wp_loop; [apply Hbody | apply HI] |].
  intros [x' | y] s' Hr; [| apply wp_ret, Hr].
  destruct Hr as (n' & Hle & _). exfalso. lia.
Qed.

(** A loop that is never left. *)
Lemma loop_spin {X R} (body : X -> cmd S (X + R)) x : (forall s, body x s = Done (inl x) s) ->
  forall p s, loop p body x s = Done (inl x) s.
Proof.
  intros Hb p. induction p as [p IH | p IH |]; intros s; cbn [loop].
  - unfold cbind. rewrite Hb. cbn [obind]. rewrite IH. cbn [obind]. by rewrite IH.
  - unfold cbind. rewrite IH. cbn [obind]. by rewrite IH.
  - apply Hb.
Qed.

Lemma while_spin {X R} (body : X -> cmd S (X + R)) x s : (forall s, body x s = Done (inl x) s) -> while_ body x s = Hang s.
Proof. intros Hb. unfold while_, cbind. by rewrite loop_spin. Qed.

(** A loop whose first round hands over the processor hands it over. *)
Lemma loop_yield {X R} (body : X -> cmd S (X + R)) x s s1 k : body x s = Yield s1 k ->
  forall p, exists k', loop p body x s = Yield s1 k'.
Proof.
  intros Hy. induction p as [q [k' IH] | q [k' IH] |]; cbn [loop]; unfold cbind;
    rewrite ?Hy, ?IH; by eexists.
Qed.

Lemma while_yield {X R} (body : X -> cmd S (X + R)) x s s1 k : body x s = Yield s1 k ->
  exists k', while_ body x s = Yield s1 k'.
Proof.
  intros Hy. destruct (loop_yield body x s s1 k Hy loop_bound) as [k' Hk].
  unfold while_, cbind. rewrite Hk. by eexists.
Qed.

(** ** Bounded numbers of hand-overs

    [wpn over G n c s Q]: [wp] for the first [n] hand-overs; [over] is what a
    further one has to prove: [False] when there must be none, [True] when
    nothing is said about what follows it.  The postcondition gets the number
    of hand-overs left. *)
Fixpoint wpno {A} (over : Prop) G (n : nat) (Q : nat -> A -> S -> Prop) (o : outcome S A) {struct o} : Prop :=
  match o with
  | Done a s => Q n a s
  | Yield s k => guar G s /\
      match n with O => over | Datatypes.S n' => forall s', rely G s s' -> wpno over G n' Q (k s') end
  | Panic p s => may_panic G p s
  | Fault _ | Hang _ => False
  end.

Definition wpn {A} over G n (c : cmd S A) s Q : Prop := wpno over G n Q (c s).

Lemma wpno_bind {A B} over G n (Q : nat -> B -> S -> Prop) (o : outcome S A) f :
  wpno over G n (fun n a s => wpn over G n (f a) s Q) o -> wpno over G n Q (obind o f).
Proof.
  revert n. induction o as [a s | s k IH | p s | s | s]; intros n; cbn; try done.
  intros [Hg Hk]. split; [done |]. destruct n as [| n]; [done |].
  intros s' Hr. apply IH, Hk, Hr.
Qed.

Lemma wpn_bind {A B} over G n (c : cmd S A) (f : A -> cmd S B) s Q :
  wpn over G n c s (fun n a s' => wpn over G n (f a) s' Q) -> wpn over G n (cbind c f) s Q.
Proof. apply wpno_bind. Qed.

Lemma wpn_mono {A} over G n (c : cmd S A) s (Q Q' : nat -> A -> S -> Prop) :
  wpn over G n c s Q -> (forall n a s', Q n a s' -> Q' n a s') -> wpn over G n c s Q'.
Proof.
  intros Hw HQ. unfold wpn in *. revert n Hw.
  induction (c s) as [a s1 | s1 k IH | p s1 | s1 | s1]; intros n; cbn; auto.
  intros [Hg Hk]. split; [done |]. destruct n as [| n]; [done |].
  intros s' Hr. apply IH, Hk, Hr.
Qed.

Lemma wpn_seq {A} over G n (c : cmd S A) s (Q : nat -> A -> S -> Prop) :
  wp seq_only c s (Q n) -> wpn over G n c s Q.
Proof. unfold wp, wpn. destruct (c s); cbn; tauto. Qed.

(** A loop each of whose rounds hands over the processor or leaves it. *)
Lemma wpn_loop {X R} over G (body : X -> cmd S (X + R)) (I : nat -> X -> S -> Prop)
  (Q : nat -> R -> S -> Prop) :
  (forall n x s, I n x s -> wpn over G n (body x) s (fun n' r s' =>
     match r with
     | inl x' => (n' < n)%nat /\ I n' x' s'
     | inr y => Q n' y s' end)) ->
  forall p n x s, I n x s -> wpn over G n (loop p body x) s (fun n' r s' =>
    match r with
    | inl x' => (n' + Pos.to_nat p <= n)%nat /\ I n' x' s'
    | inr y => Q n' y s' end).
Proof.
  intros Hbody. induction p as [q IH | q IH |]; intros n x s HI; cbn [loop].
  - apply wpn_bind. eapply wpn_mono; [apply Hbody, HI |].
    intros n1 [x1 | y] s1 Hr; [| exact Hr]. destruct Hr as [Hlt HI1].
    apply wpn_bind. eapply wpn_mono; [eapply IH, HI1 |].
    intros n2 [x2 | y] s2 Hr; [| exact Hr]. destruct Hr as [Hlt2 HI2].
    eapply wpn_mono; [eapply IH, HI2 |].
    intros n3 [x3 | y] s3 Hr; [| done]. destruct Hr as [Hlt3 HI3]. split; [lia | done].
  - apply wpn_bind. eapply wpn_mono; [eapply IH, HI |].
    intros n2 [x2 | y] s2 Hr; [| exact Hr]. destruct Hr as [Hlt2 HI2].
    eapply wpn_mono; [eapply IH, HI2 |].
    intros n3 [x3 | y] s3 Hr; [| done]. destruct Hr as [Hlt3 HI3]. split; [lia | done].
  - eapply wpn_mono; [apply Hbody, HI |].
    intros n1 [x1 | y] s1 Hr; [| done]. destruct Hr as [Hlt HI1]. split; [lia | done].
Qed.

Lemma wpn_while {X R} over G (body : X -> cmd S (X + R)) (I : nat -> X -> S -> Prop)
  (Q : nat -> R -> S -> Prop) n x s :
  (forall n x s, I n x s -> wpn over G n (body x) s (fun n' r s' =>
     match r with
     | inl x' => (n' < n)%nat /\ I n' x' s'
     | inr y => Q n' y s' end)) ->
  I n x s -> Z.of_nat n < Z.pos loop_bound -> wpn over G n (while_ body x) s Q.
Proof.
  intros Hbody HI Hn. unfold while_. apply wpn_bind.
  eapply wpn_mono; [eapply wpn_loop; [apply Hbody | apply HI] |].
  intros n' [x' | y] s' Hr; [| exact Hr]. exfalso. lia.
Qed.
End wp.

Arguments loop : simpl never.
Arguments while_ : simpl never.
Arguments cbind : simpl never.
Arguments wp : simpl never.
Arguments wpn : simpl never.
Lemma loop_bound_eq : Z.pos loop_bound = 8589934592.
Proof. done. Qed.
#[global] Opaque loop_bound.

(** The side condition of [wp_while]. *)
Ltac bounded := rewrite loop_bound_eq; unfold is_u32, is_u8 in *; lia.

Ltac wp_step :=
  match goal with
  | |- wp _ (cbind _ _) _ _ => apply wp_bind
  | |- wp _ (cret _) _ _ => apply wp_ret
  | |- wp _ (get _) _ _ => apply wp_get
  | |- wp _ (modify _) _ _ => apply wp_modify
  end.
