(* ===== verification/RawMem.v ===== *)
(** Byte-addressed memory: the interface the kernel's routines are written
    against, little-endian words, and the flat implementation. *)

From S2P Require Import Prelude Monad.

(** ** The interface

    A raw memory reads and writes single bytes at (virtual) addresses, either
    of which may fail; the code is written against these two operations.  What
    the proofs rely on is the promise [backs m R f]: on the region [R] the
    memory [m] behaves as an array of bytes with contents [f], until something
    outside [R] is written.  One memory can make several such promises: see
    the two for the paged memory. *)

Class RawMem (M : Type) := {
  ldb : M -> Z -> option Z;
  stb : M -> Z -> Z -> option M }.

(** The contents [f] with the byte at [a] replaced by [v]. *)
Definition upd (f : Z -> Z) (a v : Z) : Z -> Z :=
  fun b => if b =? a then v else f b.

Class RawMemLaws (M : Type) `{RawMem M} := {
  backs : M -> (Z -> Prop) -> (Z -> Z) -> Prop;
  backs_addr m R f a : backs m R f -> R a -> is_u32 a;
  backs_byte m R f a : backs m R f -> R a -> is_u8 (f a);
  backs_ld m R f a : backs m R f -> R a -> ldb m a = Some (f a);
  backs_st m R f a v : backs m R f -> R a -> is_u8 v ->
    exists m', stb m a v = Some m' /\ backs m' R (upd f a v);
  backs_mono m (R R' : Z -> Prop) f f' : backs m R f ->
    (forall a, R' a -> R a) -> (forall a, R' a -> f' a = f a) ->
    backs m R' f' }.

(** ** Contents as little-endian words *)

Definition w16 (f : Z -> Z) (a : Z) : Z := f a + 2 ^ 8 * f (a + 1).
Definition w32 (f : Z -> Z) (a : Z) : Z :=
  f a + 2 ^ 8 * f (a + 1) + 2 ^ 16 * f (a + 2) + 2 ^ 24 * f (a + 3).

Definition upd16 (f : Z -> Z) (a v : Z) : Z -> Z :=
  upd (upd f a (v mod 2 ^ 8)) (a + 1) (v / 2 ^ 8 mod 2 ^ 8).
Definition upd32 (f : Z -> Z) (a v : Z) : Z -> Z :=
  upd (upd (upd (upd f a (v mod 2 ^ 8)) (a + 1) (v / 2 ^ 8 mod 2 ^ 8))
    (a + 2) (v / 2 ^ 16 mod 2 ^ 8)) (a + 3) (v / 2 ^ 24 mod 2 ^ 8).

(** The [n] bytes from [a]. *)
Definition span (a n : Z) : Z -> Prop := fun b => a <= b < a + n.
Definition inside (R : Z -> Prop) (a n : Z) : Prop := forall b, span a n b -> R b.

Lemma inside_sub R a n a' n' : inside R a n -> a <= a' -> a' + n' <= a + n ->
  inside R a' n'.
Proof. intros H Ha Hn b Hb. apply H. unfold span in *. lia. Qed.

(** Membership of an address or a span in a region known to contain a span. *)
Ltac region :=
  first
    [ match goal with H : ?P |- ?Q => constr_eq P Q; exact H end
    | match goal with
      | H : inside ?R _ _ |- inside ?R _ _ => solve [apply (inside_sub _ _ _ _ _ H); lia]
      | H : inside ?R _ _ |- ?R _ => solve [apply H; unfold span; lia]
      | |- inside (span _ _) _ _ => solve [intros ? ?; unfold span in *; lia]
      end ].

Lemma upd_eq f a v : upd f a v a = v.
Proof. unfold upd. by rewrite Z.eqb_refl. Qed.

Lemma upd_ne f a v b : b <> a -> upd f a v b = f b.
Proof. intros H. unfold upd. destruct (Z.eqb_spec b a); [lia | done]. Qed.

Ltac upd_cases :=
  repeat match goal with
    | |- context [?x =? ?y] => destruct (Z.eqb_spec x y); try lia
    end; try reflexivity.

Lemma w32_upd_ne f a v b : a < b \/ b + 4 <= a -> w32 (upd f a v) b = w32 f b.
Proof. intros H. unfold w32. by rewrite !upd_ne by lia. Qed.

Lemma w32_upd32_eq f a v : is_u32 v -> w32 (upd32 f a v) a = v.
Proof.
  intros H. unfold w32, upd32, upd, is_u32 in *. upd_cases; zlia.
Qed.

Lemma w32_upd32_ne f a v b : a + 4 <= b \/ b + 4 <= a ->
  w32 (upd32 f a v) b = w32 f b.
Proof. intros H. unfold w32, upd32, upd. upd_cases. Qed.

Lemma upd32_ne f a v b : a + 4 <= b \/ b + 1 <= a -> upd32 f a v b = f b.
Proof. intros H. unfold upd32, upd. upd_cases. Qed.

Lemma w16_upd16_eq f a v : 0 <= v < 2 ^ 16 -> w16 (upd16 f a v) a = v.
Proof. intros H. unfold w16, upd16, upd. upd_cases; zlia. Qed.

Lemma w16_upd16_mod f a v : w16 (upd16 f a v) a = v mod 2 ^ 16.
Proof. unfold w16, upd16, upd. upd_cases; zlia. Qed.

Lemma w16_upd16_ne f a v b : a + 2 <= b \/ b + 2 <= a ->
  w16 (upd16 f a v) b = w16 f b.
Proof. intros H. unfold w16, upd16, upd. upd_cases. Qed.

Lemma w16_upd32_ne f a v b : a + 4 <= b \/ b + 2 <= a ->
  w16 (upd32 f a v) b = w16 f b.
Proof. intros H. unfold w16, upd32, upd. upd_cases. Qed.

Lemma w16_upd_ne f a v b : a < b \/ b + 2 <= a -> w16 (upd f a v) b = w16 f b.
Proof. intros H. unfold w16. by rewrite !upd_ne by lia. Qed.

Lemma w32_upd16_ne f a v b : a + 2 <= b \/ b + 4 <= a ->
  w32 (upd16 f a v) b = w32 f b.
Proof. intros H. unfold w32, upd16, upd. upd_cases. Qed.

Lemma upd16_ne f a v b : a + 2 <= b \/ b + 1 <= a -> upd16 f a v b = f b.
Proof. intros H. unfold upd16, upd. upd_cases. Qed.

Lemma upd32_bytes f a v : upd32 f a v =
  upd (upd (upd (upd f a (v mod 2 ^ 8)) (a + 1) (v / 2 ^ 8 mod 2 ^ 8))
    (a + 2) (v / 2 ^ 16 mod 2 ^ 8)) (a + 3) (v / 2 ^ 24 mod 2 ^ 8).
Proof. done. Qed.

Lemma w32_range f a : (forall b, span a 4 b -> is_u8 (f b)) -> is_u32 (w32 f a).
Proof.
  intros H. unfold w32, is_u32, is_u8, span in *.
  pose proof (H a). pose proof (H (a + 1)). pose proof (H (a + 2)).
  pose proof (H (a + 3)). lia.
Qed.

Lemma w16_range f a : (forall b, span a 2 b -> is_u8 (f b)) -> 0 <= w16 f a < 2 ^ 16.
Proof.
  intros H. unfold w16, is_u8, span in *. pose proof (H a). pose proof (H (a + 1)). lia.
Qed.

(** Two contents that agree on the four bytes agree on the word. *)
Lemma w32_ext f g a : (forall b, span a 4 b -> f b = g b) -> w32 f a = w32 g a.
Proof. intros H. unfold w32. unfold span in H. by rewrite !H by lia. Qed.

Lemma w32_shift f g a c : (forall k, 0 <= k < 4 -> f (a + k) = g (c + k)) -> w32 f a = w32 g c.
Proof.
  intros H. unfold w32. pose proof (H 0 ltac:(lia)) as H0. rewrite !Z.add_0_r in H0. by rewrite H0, !H by lia.
Qed.

Lemma w16_ext f g a : (forall b, span a 2 b -> f b = g b) -> w16 f a = w16 g a.
Proof. intros H. unfold w16. unfold span in H. by rewrite !H by lia. Qed.

Create Rewrite HintDb mem.
#[export] Hint Rewrite upd_eq w32_upd32_eq w16_upd16_eq
  using (solve [assumption | unfold is_u32, is_u8 in *; lia]) : mem.
#[export] Hint Rewrite upd_ne w32_upd_ne w32_upd32_ne upd32_ne w16_upd32_ne
  w16_upd16_ne w16_upd_ne w32_upd16_ne upd16_ne
  using (solve [unfold is_u32, is_u8 in *; lia]) : mem.
Ltac mem := autorewrite with mem.

(** ** Loads and stores of words through the interface *)

Section words.
Context {M : Type} {RM : RawMem M} {RL : RawMemLaws M}.
Implicit Types (m : M) (R : Z -> Prop) (f : Z -> Z).

Definition ldw (m : M) (a : Z) : option Z :=
  b0 ← ldb m a; b1 ← ldb m (a + 1); b2 ← ldb m (a + 2); b3 ← ldb m (a + 3);
  Some (b0 + 2 ^ 8 * b1 + 2 ^ 16 * b2 + 2 ^ 24 * b3).

Definition stw (m : M) (a v : Z) : option M :=
  m ← stb m a (v mod 2 ^ 8);
  m ← stb m (a + 1) (v / 2 ^ 8 mod 2 ^ 8);
  m ← stb m (a + 2) (v / 2 ^ 16 mod 2 ^ 8);
  stb m (a + 3) (v / 2 ^ 24 mod 2 ^ 8).

Definition ldh (m : M) (a : Z) : option Z :=
  b0 ← ldb m a; b1 ← ldb m (a + 1); Some (b0 + 2 ^ 8 * b1).

Definition sth (m : M) (a v : Z) : option M :=
  m ← stb m a (v mod 2 ^ 8); stb m (a + 1) (v / 2 ^ 8 mod 2 ^ 8).

Lemma backs_inside_u32 m R f a n : backs m R f -> inside R a n -> 0 < n ->
  0 <= a /\ a + n <= 4294967296.
Proof.
  intros Hb Hi Hn. pose proof (backs_addr m R f a Hb) as H1.
  pose proof (backs_addr m R f (a + n - 1) Hb) as H2. unfold is_u32 in *.
  specialize (H1 ltac:(apply Hi; unfold span; lia)).
  specialize (H2 ltac:(apply Hi; unfold span; lia)). lia.
Qed.

Lemma backs_w32 m R f a : backs m R f -> inside R a 4 -> is_u32 (w32 f a).
Proof. intros Hb Hi. apply w32_range. intros b Hs. eapply backs_byte; eauto. Qed.

Lemma backs_ldw m R f a : backs m R f -> inside R a 4 ->
  ldw m a = Some (w32 f a).
Proof.
  intros Hb Hi. unfold ldw.
  by rewrite !(backs_ld m R f) by (done || (apply Hi; unfold span; lia)).
Qed.

Lemma backs_ldh m R f a : backs m R f -> inside R a 2 ->
  ldh m a = Some (w16 f a).
Proof.
  intros Hb Hi. unfold ldh.
  by rewrite !(backs_ld m R f) by (done || (apply Hi; unfold span; lia)).
Qed.

Lemma backs_stw m R f a v : backs m R f -> inside R a 4 ->
  exists m', stw m a v = Some m' /\ backs m' R (upd32 f a v).
Proof.
  intros Hb Hi. unfold stw.
  destruct (backs_st m R f a (v mod 2 ^ 8) Hb) as (m1 & -> & H1);
    [apply Hi; unfold span; lia | apply u8_range |]. cbn.
  destruct (backs_st m1 R _ (a + 1) (v / 2 ^ 8 mod 2 ^ 8) H1) as (m2 & -> & H2);
    [apply Hi; unfold span; lia | apply u8_range |]. cbn.
  destruct (backs_st m2 R _ (a + 2) (v / 2 ^ 16 mod 2 ^ 8) H2) as (m3 & -> & H3);
    [apply Hi; unfold span; lia | apply u8_range |]. cbn.
  apply (backs_st m3 R); [done | apply Hi; unfold span; lia | apply u8_range].
Qed.

Lemma backs_sth m R f a v : backs m R f -> inside R a 2 ->
  exists m', sth m a v = Some m' /\ backs m' R (upd16 f a v).
Proof.
  intros Hb Hi. unfold sth.
  destruct (backs_st m R f a (v mod 2 ^ 8) Hb) as (m1 & -> & H1);
    [apply Hi; unfold span; lia | apply u8_range |]. cbn.
  apply (backs_st m1 R); [done | apply Hi; unfold span; lia | apply u8_range].
Qed.
End words.

#[global] Opaque upd w32 upd32 w16 upd16.

(** ** The flat implementation: every address of the machine is there *)

Abbreviation flat := (gmap Z Z).

Definition flat_at (m : flat) (a : Z) : Z := u8 (default 0 (m !! a)).

Definition addr_ok (a : Z) : bool := (0 <=? a) && (a <? 4294967296).

#[global] Instance flat_mem : RawMem flat := {|
  ldb m a := if addr_ok a then Some (flat_at m a) else None;
  stb m a v := if addr_ok a then Some (<[a := v]> m) else None |}.

Definition flat_holds (m : flat) (R : Z -> Prop) (f : Z -> Z) : Prop :=
  forall a, R a -> is_u32 a /\ f a = flat_at m a.

Lemma addr_ok_spec a : addr_ok a = true <-> is_u32 a.
Proof. unfold addr_ok, is_u32. lia. Qed.

#[global] Instance flat_laws : RawMemLaws flat.
Proof.
  apply (Build_RawMemLaws flat flat_mem flat_holds); cbn.
  - intros m R f a Hb Ha. by apply Hb.
  - intros m R f a Hb Ha. destruct (Hb a Ha) as [_ ->]. apply u8_range.
  - intros m R f a Hb Ha. destruct (Hb a Ha) as [Hu ->].
    apply addr_ok_spec in Hu. by rewrite Hu.
  - intros m R f a v Hb Ha Hv. destruct (Hb a Ha) as [Hu _].
    pose proof (proj2 (addr_ok_spec a) Hu) as ->. eexists. split; [done |].
    intros b HRb. destruct (Hb b HRb) as [Hub Hfb]. split; [done |].
    unfold flat_at. destruct (Z.eq_dec b a) as [-> | Hne].
    + rewrite upd_eq, lookup_insert_eq. cbn. by rewrite u8_small.
    + rewrite upd_ne, lookup_insert_ne by done. apply Hfb.
  - intros m R R' f f' Hb Hsub Heq a Ha. rewrite (Heq a Ha). by apply Hb, Hsub.
Defined.

(** The whole address space of a flat memory. *)
Lemma flat_backs (m : flat) : backs m is_u32 (flat_at m).
Proof. intros a Ha. done. Qed.

(** A flat memory holding the given words (address, value), for examples. *)
Definition flat_word (m : flat) (av : Z * Z) : flat :=
  let '(a, v) := av in
  <[a := v mod 2 ^ 8]> (<[a + 1 := v / 2 ^ 8 mod 2 ^ 8]>
  (<[a + 2 := v / 2 ^ 16 mod 2 ^ 8]> (<[a + 3 := v / 2 ^ 24 mod 2 ^ 8]> m))).
Definition flat_of (ws : list (Z * Z)) : flat := foldl flat_word ∅ ws.
