(* ===== verification/Machine.v ===== *)
(** The kernel's state and the primitives every component uses: memory
    accesses, port I/O, the screen output of lib/kernel/print.S, the interrupt
    flag (kernel/interrupt.c, lines 158-188) and assertions (kernel/debug.[ch]). *)

From S2P Require Import Prelude Monad RawMem.

(** ** Data *)

(** enum intr_status of kernel/interrupt.h. *)
Inductive intr_status := INTR_OFF | INTR_ON.
#[global] Instance intr_status_eq_dec : EqDecision intr_status.
Proof. solve_decision. Defined.

(** The scalar global and static variables whose address is never taken. *)
Record kvars := mk_kvars {
  main_thread : Z;        (* thread/thread.c *)
  thread_tag : Z;         (* thread/thread.c *)
  next_pid : Z;           (* thread/thread.c, static of allocate_pid *)
  ticks : Z;              (* device/timer.c *)
  ctrl_status : bool;     (* device/keyboard.c, and the next four *)
  shift_status : bool;
  alt_status : bool;
  caps_lock_status : bool;
  ext_scancode : bool }.

(** The descriptor-table and task registers. *)
Inductive table_reg := IDTR | GDTR | TR.

#[local] Set Primitive Projections.
(** The machine as the kernel sees it: memory, EFLAGS.IF, the stack pointer,
    the scalar variables, and the devices: the characters handed to
    [put_char] (latest first), the bytes sent to ports (latest first), what
    each input port holds, and the operands of lidt, lgdt and ltr (latest
    first). *)
Record kstate (M : Type) := mk_kstate {
  kmem : M;
  kif : bool;
  kesp : Z;
  kvar : kvars;
  kout : list Z;
  kports : list (Z * Z);
  kinb : Z -> Z;
  ktab : list (table_reg * Z) }.
#[local] Unset Primitive Projections.
Arguments mk_kstate {M}. Arguments kmem {M}. Arguments kif {M}.
Arguments kesp {M}. Arguments kvar {M}. Arguments kout {M}.
Arguments kports {M}. Arguments kinb {M}. Arguments ktab {M}.

(** Where the linker put what the code takes the address of: variables that
    live in memory, functions and string literals. *)
Class Layout := {
  thread_ready_list : Z;
  thread_all_list : Z;
  pid_lock : Z;
  console_lock : Z;
  kbd_buf : Z;
  kernel_pool : Z;
  user_pool : Z;
  kernel_vaddr : Z;
  idt : Z;
  idt_table : Z;
  intr_name : Z;
  intr_entry_table : Z;
  syscall_table : Z;
  tss : Z;
  fn : string -> Z;
  lit : string -> Z }.

Section setters.
Context {M : Type}.
Definition set_mem (m : M) (s : kstate M) : kstate M :=
  mk_kstate m (kif s) (kesp s) (kvar s) (kout s) (kports s) (kinb s) (ktab s).
Definition set_if (b : bool) (s : kstate M) : kstate M :=
  mk_kstate (kmem s) b (kesp s) (kvar s) (kout s) (kports s) (kinb s) (ktab s).
Definition set_esp (e : Z) (s : kstate M) : kstate M :=
  mk_kstate (kmem s) (kif s) e (kvar s) (kout s) (kports s) (kinb s) (ktab s).
Definition set_var (v : kvars) (s : kstate M) : kstate M :=
  mk_kstate (kmem s) (kif s) (kesp s) v (kout s) (kports s) (kinb s) (ktab s).
Definition put_out (c : list Z) (s : kstate M) : kstate M :=
  mk_kstate (kmem s) (kif s) (kesp s) (kvar s) (c ++ kout s) (kports s) (kinb s) (ktab s).
Definition put_port (pv : Z * Z) (s : kstate M) : kstate M :=
  mk_kstate (kmem s) (kif s) (kesp s) (kvar s) (kout s) (pv :: kports s) (kinb s) (ktab s).
Definition put_table (rv : table_reg * Z) (s : kstate M) : kstate M :=
  mk_kstate (kmem s) (kif s) (kesp s) (kvar s) (kout s) (kports s) (kinb s) (rv :: ktab s).
End setters.

(** The operand of the last lgdt. *)
Fixpoint gdtr (l : list (table_reg * Z)) : Z :=
  match l with [] => 0 | (GDTR, v) :: _ => v | _ :: l' => gdtr l' end.

Lemma put_out_app {M} o1 o2 (s : kstate M) : put_out o1 (put_out o2 s) = put_out (o1 ++ o2) s.
Proof. unfold put_out. cbn. by rewrite app_assoc. Qed.

(** ** The cursor

    The position, 0 to 1999, that the controller keeps; here it is the one the
    characters sent so far have moved it to.  The loader has written the 17
    characters of loadermsg at the start of row 0x18, the cursor following.
    ([set_cursor] is called in [general_intr_handler] only, which prints no
    backspace and does not return.) *)
Definition BOOT_CURSOR : Z := 0x18 * 80 + 17.

Definition next_line (p : Z) : Z := let q := 80 * (p / 80 + 1) in if q <? 2000 then q else 1920.
Definition cursor_step (p c : Z) : Z :=
  if (c =? 0xd) || (c =? 0xa) then next_line p
  else if c =? 0x8 then p - 1
  else if p + 1 <? 2000 then p + 1 else next_line p.
Definition cursor_after (p : Z) (l : list Z) : Z := fold_left cursor_step l p.
Definition cursor {M} (s : kstate M) : Z := cursor_after BOOT_CURSOR (rev (kout s)).

(** No character of [l], printed from position [p], is a backspace in the first
    cell. *)
Fixpoint can_print (p : Z) (l : list Z) : bool :=
  match l with [] => true | c :: l => negb ((c =? 0x8) && (p =? 0)) && can_print (cursor_step p c) l end.

Lemma can_print_app p l1 l2 : can_print p (l1 ++ l2) = can_print p l1 && can_print (cursor_after p l1) l2.
Proof. revert p. induction l1 as [| c l1 IH]; intros p; cbn; [done |]. by rewrite IH, andb_assoc. Qed.

(** Without backspaces everything can be printed. *)
Lemma can_print_all l : Forall (fun c => c <> 0x8) l -> forall p, can_print p l = true.
Proof.
  induction 1 as [| c l Hc _ IH]; intros p; cbn [can_print]; [done |].
  by rewrite (proj2 (Z.eqb_neq _ _) Hc), IH.
Qed.

Lemma cursor_put_out {M} l (s : kstate M) : cursor (put_out (rev l) s) = cursor_after (cursor s) l.
Proof. unfold cursor, cursor_after. cbn [kout put_out]. by rewrite rev_app_distr, rev_involutive, fold_left_app. Qed.
Lemma cursor_put_one {M} c (s : kstate M) : cursor (put_out [c] s) = cursor_step (cursor s) c.
Proof. exact (cursor_put_out [c] s). Qed.

(** From [s] to [s'] nothing but memory and devices has changed: the bytes [ps]
    were sent to ports and the tables [ts] loaded, latest first. *)
Record grew {M} (s s' : kstate M) (ps : list (Z * Z)) (ts : list (table_reg * Z)) : Prop := mk_grew {
  gw_if : kif s' = kif s;
  gw_esp : kesp s' = kesp s;
  gw_var : kvar s' = kvar s;
  gw_inb : kinb s' = kinb s;
  gw_ports : kports s' = ps ++ kports s;
  gw_tab : ktab s' = ts ++ ktab s }.

Lemma grew_trans {M} (s s1 s2 : kstate M) ps1 ts1 ps2 ts2 :
  grew s s1 ps1 ts1 -> grew s1 s2 ps2 ts2 -> grew s s2 (ps2 ++ ps1) (ts2 ++ ts1).
Proof.
  intros [H1 H2 H3 H4 H5 H6] [H1' H2' H3' H4' H5' H6']. split; try congruence.
  - by rewrite H5', H5, app_assoc.
  - by rewrite H6', H6, app_assoc.
Qed.

(** The newline of the C string literals. *)
Definition nl : string := String (Ascii.ascii_of_nat 10) EmptyString.

Section machine.
Context {M : Type} {RM : RawMem M}.

Definition K (A : Type) : Type := cmd (kstate M) A.

(** ** Memory *)
Definition load {A} (g : M -> option A) : K A :=
  fun s => match g (kmem s) with Some v => Done v s | None => Fault s end.
Definition store (g : M -> option M) : K unit :=
  fun s => match g (kmem s) with Some m => Done tt (set_mem m s) | None => Fault s end.

Definition ld8 (a : Z) : K Z := load (fun m => ldb m a).
Definition ld16 (a : Z) : K Z := load (fun m => ldh m a).
Definition ld32 (a : Z) : K Z := load (fun m => ldw m a).
Definition st8 (a v : Z) : K unit := store (fun m => stb m a (u8 v)).
Definition st16 (a v : Z) : K unit := store (fun m => sth m a v).
Definition st32 (a v : Z) : K unit := store (fun m => stw m a v).

(** ** Ports (lib/kernel/io.h) *)
Definition outb (port data : Z) : K unit := modify (put_port (port, data)).
Definition inb (port : Z) : K Z := get (fun s => u8 (kinb s port)).

(** lidt, lgdt and ltr: the register takes its operand.  What ltr does to the
    descriptor is in Tss.v. *)
Definition load_table (r : table_reg) (operand : Z) : K unit := modify (put_table (r, operand)).

(** ** The screen (lib/kernel/print.S), as the characters sent to it

    [put_char] with the effect of a character on the position of the cursor:
    a backspace in the first cell stores beyond the video segment, which is a
    general protection fault.  What happens to the cells is in Screen.v. *)
Definition put_char (c : Z) : K unit :=
  fun s => if (u8 c =? 0x8) && (cursor s =? 0) then Fault s else Done tt (put_out [u8 c] s).

(** [put_str] on a string literal; those of the kernel hold no backspace, nor
    do digits. *)
Definition put_lit (t : string) : K unit := modify (put_out (rev (bytes_of t))).

(** [put_str]: up to the terminating zero. *)
Definition put_str (p : Z) : K unit :=
  while_ (fun a =>
    do c <- ld8 a;
    if c =? 0 then cret (inr tt) else put_char c;; cret (inl (a + 1))) p.

(** The eight hexadecimal digits that [put_int] puts into its buffer. *)
Definition hex_digit (d : Z) : Z := if 9 <? d then d + chr "A"%char - 10 else d + chr "0"%char.
Definition put_int_buffer (num : Z) : list Z :=
  map (fun i => hex_digit (Z.land (Z.shiftr num (4 * i)) 15)) [7; 6; 5; 4; 3; 2; 1; 0].
(** It skips the leading zeros, but prints one of eight. *)
Fixpoint skip_prefix_0 (l : list Z) : list Z :=
  match l with
  | [] => [chr "0"%char]
  | c :: l' => if c =? chr "0"%char then skip_prefix_0 l' else l
  end.
Definition int_digits (num : Z) : list Z := skip_prefix_0 (put_int_buffer (u32 num)).
Definition put_int (num : Z) : K unit := modify (put_out (rev (int_digits num))).

(** ** The interrupt flag (kernel/interrupt.c) *)
Definition intr_get_status : K intr_status :=
  get (fun s => if kif s then INTR_ON else INTR_OFF).

Definition intr_enable : K intr_status :=
  do st <- intr_get_status;
  match st with
  | INTR_ON => cret INTR_ON
  | INTR_OFF => modify (set_if true);; cret INTR_OFF
  end.

Definition intr_disable : K intr_status :=
  do st <- intr_get_status;
  match st with
  | INTR_ON => modify (set_if false);; cret INTR_ON
  | INTR_OFF => cret INTR_OFF
  end.

Definition intr_set_status (status : intr_status) : K intr_status :=
  match status with INTR_ON => intr_enable | INTR_OFF => intr_disable end.

(** ** Assertions (kernel/debug.[ch]) *)
Definition panic_spin {A} (filename : string) (line : Z) (func condition : string) : K A :=
  intr_disable;;
  put_lit (nl ++ nl ++ nl ++ "!!!!! error !!!!!" ++ nl);;
  put_lit "filename: ";; put_lit filename;; put_lit nl;;
  put_lit "line: 0x";; put_int line;; put_lit nl;;
  put_lit "function: ";; put_lit func;; put_lit nl;;
  put_lit "condition: ";; put_lit condition;; put_lit nl;;
  panic (mk_panic filename line func condition).

Definition ASSERT (file : string) (line : Z) (func condition : string) (b : bool) : K unit :=
  if b then cret tt else panic_spin file line func condition.

(** [running_thread] of thread/thread.c: the page the stack pointer is in. *)
Definition page_of (a : Z) : Z := Z.land a 0xfffff000.
Definition running_thread : K Z := get (fun s => page_of (kesp s)).
End machine.

Lemma page_of_u32 a : is_u32 a -> is_u32 (page_of a).
Proof.
  unfold is_u32, page_of. intros Ha. apply (below_of_bits _ 32); [lia |].
  intros i Hi. rewrite Z.land_spec, (testbit_above a 32) by lia. done.
Qed.

(** ** Rules for the primitives *)

Section rules.
Context {M : Type} {RM : RawMem M} {RL : RawMemLaws M}.
Implicit Types (s : kstate M) (R : Z -> Prop) (f : Z -> Z)
  (G : protocol (kstate M)).

Lemma wp_ld8 G a s R f (Q : Z -> kstate M -> Prop) :
  backs (kmem s) R f -> R a -> (is_u8 (f a) -> Q (f a) s) -> wp G (ld8 a) s Q.
Proof.
  intros Hb Hi HQ. pose proof (backs_byte _ _ _ _ Hb Hi).
  unfold wp, ld8, load. rewrite (backs_ld _ R f) by done. cbn. auto.
Qed.

Lemma wp_ld32 G a s R f (Q : Z -> kstate M -> Prop) :
  backs (kmem s) R f -> inside R a 4 -> (is_u32 (w32 f a) -> Q (w32 f a) s) ->
  wp G (ld32 a) s Q.
Proof.
  intros Hb Hi HQ. pose proof (backs_w32 _ _ _ _ Hb Hi).
  unfold wp, ld32, load. rewrite (backs_ldw _ R f) by done. cbn. auto.
Qed.

(** Accesses whose result on the memory is known. *)
Lemma wp_ld32_at G a s v (Q : Z -> kstate M -> Prop) :
  ldw (kmem s) a = Some v -> Q v s -> wp G (ld32 a) s Q.
Proof. intros Hl HQ. unfold wp, ld32, load. by rewrite Hl. Qed.

Lemma wp_ld8_at G a s v (Q : Z -> kstate M -> Prop) :
  ldb (kmem s) a = Some v -> Q v s -> wp G (ld8 a) s Q.
Proof. intros Hl HQ. unfold wp, ld8, load. by rewrite Hl. Qed.

Lemma wp_st32_at G a v s m (Q : unit -> kstate M -> Prop) :
  stw (kmem s) a v = Some m -> Q tt (set_mem m s) -> wp G (st32 a v) s Q.
Proof. intros Hl HQ. unfold wp, st32, store. by rewrite Hl. Qed.

Lemma wp_st8_at G a v s m (Q : unit -> kstate M -> Prop) :
  stb (kmem s) a (u8 v) = Some m -> Q tt (set_mem m s) -> wp G (st8 a v) s Q.
Proof. intros Hl HQ. unfold wp, st8, store. by rewrite Hl. Qed.

Lemma wp_ld16 G a s R f (Q : Z -> kstate M -> Prop) :
  backs (kmem s) R f -> inside R a 2 -> Q (w16 f a) s -> wp G (ld16 a) s Q.
Proof.
  intros Hb Hi HQ. unfold wp, ld16, load. by rewrite (backs_ldh _ R f) by done.
Qed.

Lemma wp_st8 G a v s R f (Q : unit -> kstate M -> Prop) :
  backs (kmem s) R f -> R a ->
  (forall m, backs m R (upd f a (u8 v)) -> Q tt (set_mem m s)) ->
  wp G (st8 a v) s Q.
Proof.
  intros Hb Hi HQ. unfold wp, st8, store.
  destruct (backs_st _ _ _ _ (u8 v) Hb Hi (u8_range v)) as (m & -> & Hm). by apply HQ.
Qed.

Lemma wp_st32 G a v s R f (Q : unit -> kstate M -> Prop) :
  backs (kmem s) R f -> inside R a 4 ->
  (forall m, backs m R (upd32 f a v) -> Q tt (set_mem m s)) ->
  wp G (st32 a v) s Q.
Proof.
  intros Hb Hi HQ. unfold wp, st32, store.
  destruct (backs_stw _ _ _ _ v Hb Hi) as (m & -> & Hm). by apply HQ.
Qed.

Lemma wp_st16 G a v s R f (Q : unit -> kstate M -> Prop) :
  backs (kmem s) R f -> inside R a 2 ->
  (forall m, backs m R (upd16 f a v) -> Q tt (set_mem m s)) ->
  wp G (st16 a v) s Q.
Proof.
  intros Hb Hi HQ. unfold wp, st16, store.
  destruct (backs_sth _ _ _ _ v Hb Hi) as (m & -> & Hm). by apply HQ.
Qed.

(** A character is printed, or it is a backspace in the first cell. *)
Lemma wp_put_char G c s (Q : unit -> kstate M -> Prop) :
  (can_print (cursor s) [u8 c] = true -> Q tt (put_out [u8 c] s)) ->
  (can_print (cursor s) [u8 c] = false -> may_fault G s) ->
  wp G (put_char c) s Q.
Proof.
  unfold wp, put_char. cbn [can_print]. rewrite andb_true_r.
  destruct ((u8 c =? 0x8) && (cursor s =? 0)); cbn; auto.
Qed.

Lemma wp_put_plain G c s (Q : unit -> kstate M -> Prop) :
  u8 c <> 0x8 -> Q tt (put_out [u8 c] s) -> wp G (put_char c) s Q.
Proof.
  intros Hc HQ. apply wp_put_char; [done |]. rewrite can_print_all; [done |]. by apply Forall_singleton.
Qed.

Definition status_of (b : bool) : intr_status := if b then INTR_ON else INTR_OFF.

Lemma wp_intr_disable G s Q :
  Q (status_of (kif s)) (set_if false s) -> wp G intr_disable s Q.
Proof.
  destruct s as [m b e v o p i r]. unfold status_of, wp. destruct b; done.
Qed.

Lemma wp_intr_enable G s Q :
  Q (status_of (kif s)) (set_if true s) -> wp G intr_enable s Q.
Proof.
  destruct s as [m b e v o p i r]. unfold status_of, wp. destruct b; done.
Qed.

Lemma wp_intr_set_status G b s Q :
  Q (status_of (kif s)) (set_if b s) -> wp G (intr_set_status (status_of b)) s Q.
Proof. destruct b; [apply wp_intr_enable | apply wp_intr_disable]. Qed.

Lemma wp_assert G file line func cond b s (Q : unit -> kstate M -> Prop) :
  b = true -> Q tt s -> wp G (ASSERT file line func cond b) s Q.
Proof. intros -> HQ. done. Qed.

Lemma wp_running_thread G s (Q : Z -> kstate M -> Prop) :
  Q (page_of (kesp s)) s -> wp G running_thread s Q.
Proof. done. Qed.

(** A failing assertion ends in [panic_spin], whatever the rest was to do. *)
Lemma wp_panic_spin {A} G file line func cond s (Q : A -> kstate M -> Prop) :
  (forall s', kmem s' = kmem s -> may_panic G (mk_panic file line func cond) s') ->
  wp G (panic_spin file line func cond) s Q.
Proof.
  intros Hp. unfold panic_spin. apply wp_bind, wp_intr_disable.
  repeat (apply wp_bind; first [apply wp_modify]). by apply wp_panic, Hp.
Qed.

Lemma wp_assert_fails G file line func cond s (Q : unit -> kstate M -> Prop) :
  (forall s', kmem s' = kmem s -> may_panic G (mk_panic file line func cond) s') ->
  wp G (ASSERT file line func cond false) s Q.
Proof. apply (wp_panic_spin (A := unit)). Qed.
End rules.

(** ** Results of sequential runs

    [runs_to c s r R f]: from [s], the command [c] returns [r], changes
    nothing but the memory, and leaves it with the contents [f] on [R]. *)
Definition runs_to {M A : Type} {RM : RawMem M} {RL : RawMemLaws M} (c : K (M := M) A) (s : kstate M) (r : A)
  (R : Z -> Prop) (f : Z -> Z) : Prop :=
  exists m, c s = Done r (set_mem m s) /\ backs m R f.

Section runs.
Context {M : Type} {RM : RawMem M} {RL : RawMemLaws M}.

(** A rule in continuation style gives the result of the run. *)
Lemma runs_to_wp {A} (c : K (M := M) A) s r R f :
  (forall Q : A -> kstate M -> Prop,
     (forall m, backs m R f -> Q r (set_mem m s)) -> wp seq_only c s Q) ->
  runs_to c s r R f.
Proof.
  intros Hw.
  destruct (proj1 (wp_seq_only c s (fun r' s' =>
    r' = r /\ exists m, s' = set_mem m s /\ backs m R f))) as (a & s' & Hc & -> & m & -> & Hm).
  - apply Hw. intros m Hm. eauto.
  - exists m. done.
Qed.

Lemma returns_wp {A} (c : K (M := M) A) s r :
  (forall Q : A -> kstate M -> Prop, Q r s -> wp seq_only c s Q) -> c s = Done r s.
Proof.
  apply done_wp.
Qed.

(** A run that can only end in the panic [p]. *)
Lemma panics_wp {A} (c : K (M := M) A) s p :
  (forall (G : protocol (kstate M)) (Q : A -> kstate M -> Prop),
     (forall s', kmem s' = kmem s -> may_panic G p s') -> wp G c s Q) ->
  exists s', c s = Panic p s' /\ kmem s' = kmem s.
Proof.
  intros Hw.
  destruct (wp_seq_panic c s (fun p' s' => p' = p /\ kmem s' = kmem s))
    as (p' & s' & Hc & -> & Hm); [apply Hw; done |]. eauto.
Qed.
End runs.

Arguments ASSERT : simpl never.
Arguments panic_spin : simpl never.
Arguments put_char : simpl never.
#[global] Opaque ld8 ld16 ld32 st8 st16 st32 intr_disable intr_enable
  intr_set_status running_thread.

(** ** A concrete machine for the examples: flat memory, interrupts off, the
    stack pointer in the main thread's page (boot/loader.S, line 390). *)
Definition vars0 : kvars := mk_kvars 0 0 0 0 false false false false false.
Definition machine_of (m : flat) : kstate flat :=
  mk_kstate m false 0xc009eff0 vars0 [] [] (fun _ => 0) [].

(** One possible link map. *)
Definition demo_layout : Layout := {|
  thread_ready_list := 0xc0008000;
  thread_all_list := 0xc0008010;
  pid_lock := 0xc0008020;
  console_lock := 0xc0008040;
  kbd_buf := 0xc0008060;
  kernel_pool := 0xc0008100;
  user_pool := 0xc0008140;
  kernel_vaddr := 0xc0008180;
  idt := 0xc0008200;
  idt_table := 0xc0008800;
  intr_name := 0xc0008c00;
  intr_entry_table := 0xc0009000;
  syscall_table := 0xc0009200;
  tss := 0xc0009300;
  fn := fun _ => 0xc0001000;
  lit := fun _ => 0xc0007000 |}.
