(* ===== verification/CString.v ===== *)
(** lib/string.c: the kernel's byte-string routines, over any raw memory. *)

From S2P Require Import Prelude Monad RawMem Machine.

(** ** The routines *)

Section code.
Context {M : Type} {RM : RawMem M}.

#[local] Abbreviation ASSERT_ := (ASSERT "lib/string.c").

Definition memset (dst value size : Z) : K (M := M) unit :=
  ASSERT_ 6 "memset" "dst" (negb (dst =? 0));;
  while_ (fun '(p, size) =>
    if 0 <? size then st8 p value;; cret (inl (p + 1, size - 1))
    else cret (inr tt)) (dst, size).

Definition memcpy (dst src size : Z) : K (M := M) unit :=
  ASSERT_ 12 "memcpy" "dst" (negb (dst =? 0));;
  ASSERT_ 13 "memcpy" "src" (negb (src =? 0));;
  while_ (fun '(p_dst, p_src, size) =>
    if 0 <? size then
      do c <- ld8 p_src; st8 p_dst c;; cret (inl (p_dst + 1, p_src + 1, size - 1))
    else cret (inr tt)) (dst, src, size).

(** Plain [char] is signed on the target. *)
Definition memcmp (a b size : Z) : K (M := M) Z :=
  ASSERT_ 20 "memcmp" "a" (negb (a =? 0));;
  ASSERT_ 20 "memcmp" "b" (negb (b =? 0));;
  while_ (fun '(pa, pb, size) =>
    if 0 <? size then
      do x <- ld8 pa; do y <- ld8 pb;
      if s8 y <? s8 x then cret (inr 1)
      else if s8 x <? s8 y then cret (inr (-1))
      else cret (inl (pa + 1, pb + 1, size - 1))
    else cret (inr 0)) (a, b, size).

Definition strcpy (dst src : Z) : K (M := M) Z :=
  while_ (fun '(p_dst, src) =>
    do c <- ld8 src;
    if c =? 0 then cret (inr tt)
    else do c <- ld8 src; st8 p_dst c;; cret (inl (p_dst + 1, src + 1))) (dst, src);;
  cret dst.

Definition strlen (str : Z) : K (M := M) Z :=
  ASSERT_ 39 "strlen" "str" (negb (str =? 0));;
  while_ (fun '(str, count) =>
    do c <- ld8 str;
    if c =? 0 then cret (inr count) else cret (inl (str + 1, u32 (count + 1))))
    (str, 0).

Definition strcmp (a b : Z) : K (M := M) Z :=
  ASSERT_ 46 "strcmp" "a" (negb (a =? 0));;
  ASSERT_ 46 "strcmp" "b" (negb (b =? 0));;
  while_ (fun '(a, b) =>
    do x <- ld8 a; do y <- ld8 b;
    if negb (x =? 0) && negb (y =? 0) then
      if s8 y <? s8 x then cret (inr 1)
      else if s8 x <? s8 y then cret (inr (-1))
      else cret (inl (a + 1, b + 1))
    else if negb (x =? 0) then cret (inr 1)
    else if negb (y =? 0) then cret (inr (-1))
    else cret (inr 0)) (a, b).

(** [*str == ch] compares a signed character with an unsigned one. *)
Definition strchr (str ch : Z) : K (M := M) Z :=
  ASSERT_ 59 "strchr" "str" (negb (str =? 0));;
  while_ (fun str =>
    do c <- ld8 str;
    if c =? 0 then cret (inr 0)
    else if s8 c =? u8 ch then cret (inr str)
    else cret (inl (str + 1))) str.

Definition strrchr (str ch : Z) : K (M := M) Z :=
  ASSERT_ 68 "strrchr" "str" (negb (str =? 0));;
  while_ (fun '(str, last_char) =>
    do c <- ld8 str;
    if c =? 0 then cret (inr last_char)
    else cret (inl (str + 1, if s8 c =? u8 ch then str else last_char))) (str, 0).

Definition strcat (dst src : Z) : K (M := M) Z :=
  ASSERT_ 79 "strcat" "dst" (negb (dst =? 0));;
  ASSERT_ 80 "strcat" "src" (negb (src =? 0));;
  do str <- while_ (fun str =>
    do c <- ld8 str;
    if c =? 0 then cret (inr (str + 1)) else cret (inl (str + 1))) dst;
  while_ (fun '(str, src) =>
    do c <- ld8 src; st8 str c;;
    if c =? 0 then cret (inr tt) else cret (inl (str + 1, src + 1))) (str - 1, src);;
  cret dst.

Definition strchrs (str ch : Z) : K (M := M) Z :=
  ASSERT_ 91 "strchrs" "str" (negb (str =? 0));;
  while_ (fun '(p, ch_cnt) =>
    do c <- ld8 p;
    if c =? 0 then cret (inr ch_cnt)
    else cret (inl (p + 1, if s8 c =? u8 ch then u32 (ch_cnt + 1) else ch_cnt)))
    (str, 0).
End code.

(** ** Strings and blocks in memory *)

(** The bytes [l] at [p]; the zero-terminated string [l] at [p]. *)
Fixpoint block (f : Z -> Z) (p : Z) (l : list Z) : Prop :=
  match l with [] => True | c :: l' => f p = c /\ block f (p + 1) l' end.
Fixpoint cstr (f : Z -> Z) (p : Z) (l : list Z) : Prop :=
  match l with [] => f p = 0 | c :: l' => f p = c /\ c <> 0 /\ cstr f (p + 1) l' end.

(** The same, decided. *)
Fixpoint cstrb (f : Z -> Z) (p : Z) (l : list Z) : bool :=
  match l with [] => f p =? 0 | c :: l' => (f p =? c) && negb (c =? 0) && cstrb f (p + 1) l' end.

(** The contents [f] with the bytes [l] written at [p]. *)
Fixpoint updl (f : Z -> Z) (p : Z) (l : list Z) : Z -> Z :=
  match l with [] => f | c :: l' => updl (upd f p c) (p + 1) l' end.

Definition len (l : list Z) : Z := Z.of_nat (length l).

Lemma len_cons c l : len (c :: l) = 1 + len l.
Proof. unfold len. cbn [length]. lia. Qed.
Lemma len_nil : len [] = 0. Proof. done. Qed.
Lemma len_app l l' : len (l ++ l') = len l + len l'.
Proof. unfold len. rewrite length_app. lia. Qed.
Lemma len_nonneg l : 0 <= len l. Proof. unfold len. lia. Qed.

Lemma updl_out f p l a : a < p \/ p + len l <= a -> updl f p l a = f a.
Proof.
  revert f p. induction l as [| c l IH]; intros f p Ha; cbn; [done |].
  rewrite len_cons in Ha. pose proof (len_nonneg l).
  rewrite IH by lia. apply upd_ne. lia.
Qed.

Lemma block_updl f p l : block (updl f p l) p l.
Proof.
  revert f p. induction l as [| c l IH]; intros f p; cbn; [done |].
  split; [| apply IH]. rewrite updl_out by lia. apply upd_eq.
Qed.

Lemma updl_in f p l a : p <= a < p + len l ->
  updl f p l a = nth (Z.to_nat (a - p)) l 0.
Proof.
  revert f p. induction l as [| c l IH]; intros f p Ha; [rewrite len_nil in Ha; lia |].
  rewrite len_cons in Ha. cbn [updl]. destruct (Z.eq_dec a p) as [-> | Hne].
  - rewrite updl_out, upd_eq by lia. by rewrite Z.sub_diag.
  - rewrite IH by lia. replace (Z.to_nat (a - p)) with (S (Z.to_nat (a - (p + 1)))) by lia.
    done.
Qed.

Lemma updl_app f p l l' : updl f p (l ++ l') = updl (updl f p l) (p + len l) l'.
Proof.
  revert f p. induction l as [| c l IH]; intros f p; cbn [app updl].
  - by rewrite len_nil, Z.add_0_r.
  - rewrite IH, len_cons. by replace (p + (1 + len l)) with (p + 1 + len l) by lia.
Qed.

Lemma block_ext f g p l : (forall a, span p (len l) a -> g a = f a) ->
  block f p l -> block g p l.
Proof.
  revert p. induction l as [| c l IH]; intros p Hfg; cbn; [done |].
  rewrite len_cons in Hfg. pose proof (len_nonneg l). unfold span in *.
  intros [Hp Hl]. split; [rewrite Hfg by lia; done | apply IH; [| done]].
  intros a Ha. apply Hfg. lia.
Qed.

Lemma cstrb_spec f l : forall p, cstrb f p l = true -> cstr f p l.
Proof.
  induction l as [| c l IH]; intros p; cbn [cstrb cstr]; [by intros ->%Z.eqb_eq |].
  intros [[->%Z.eqb_eq Hc%negb_true_iff%Z.eqb_neq]%andb_true_iff Hl]%andb_true_iff. auto.
Qed.

Lemma cstr_ext f g p l : (forall a, span p (len l + 1) a -> g a = f a) ->
  cstr f p l -> cstr g p l.
Proof.
  revert p. induction l as [| c l IH]; intros p Hfg; cbn.
  - intros <-. apply Hfg. unfold span. rewrite len_nil. lia.
  - rewrite len_cons in Hfg. pose proof (len_nonneg l). unfold span in *.
    intros (Hp & Hc & Hl). split; [rewrite Hfg by lia; done | split; [done |]].
    apply IH; [| done]. intros a Ha. apply Hfg. lia.
Qed.

Lemma block_app f p l l' : block f p (l ++ l') <->
  block f p l /\ block f (p + len l) l'.
Proof.
  revert p. induction l as [| c l IH]; intros p; cbn [app block].
  - rewrite len_nil, Z.add_0_r. tauto.
  - rewrite IH, len_cons. replace (p + 1 + len l) with (p + (1 + len l)) by lia. tauto.
Qed.

(** A terminated string is a block of nonzero bytes and a zero. *)
Lemma cstr_block f p l :
  cstr f p l <-> block f p (l ++ [0]) /\ Forall (fun c => c <> 0) l.
Proof.
  revert p. induction l as [| c l IH]; intros p; cbn.
  - split; [intros ->; by repeat constructor | intros [[-> _] _]; done].
  - rewrite IH, Forall_cons. tauto.
Qed.

(** ** Reference functions *)

(** The C comparison of byte sequences, characters signed. *)
Fixpoint cmp_chars (l l' : list Z) : Z :=
  match l, l' with
  | [], [] => 0
  | _ :: _, [] => 1
  | [], _ :: _ => -1
  | x :: l, y :: l' =>
      if s8 y <? s8 x then 1 else if s8 x <? s8 y then -1 else cmp_chars l l'
  end.

(** Position of the first, of the last, and number of the characters that
    satisfy [P]. *)
Fixpoint find_first (P : Z -> bool) (p : Z) (l : list Z) : Z :=
  match l with
  | [] => 0
  | c :: l' => if P c then p else find_first P (p + 1) l'
  end.
Fixpoint find_last (P : Z -> bool) (p last : Z) (l : list Z) : Z :=
  match l with
  | [] => last
  | c :: l' => find_last P (p + 1) (if P c then p else last) l'
  end.
Definition count_chars (P : Z -> bool) (l : list Z) : Z := len (filter (fun c => P c = true) l).

Definition eq_char (ch : Z) (c : Z) : bool := s8 c =? u8 ch.

(** ** Specifications

    Every rule is for a memory [m] that backs [f] on a region containing the
    operands; the routine returns, and the memory then backs the stated
    contents. *)

Section spec.
Context {M : Type} {RM : RawMem M} {RL : RawMemLaws M}.
Implicit Types (s : kstate M) (R : Z -> Prop) (f : Z -> Z).

Lemma inside_cons R p n : 0 <= n -> inside R p (1 + n) -> R p /\ inside R (p + 1) n.
Proof.
  intros Hn Hi. split; [apply Hi; unfold span; lia |].
  eapply inside_sub; [done | lia | lia].
Qed.

(** Storing a list of bytes one after the other: the loops of memset,
    memcpy, strcpy and strcat. *)
Definition memset_inv s R f' (v : Z) (n : nat) (x : Z * Z) s' : Prop :=
  exists m f, s' = set_mem m s /\ backs m R f /\ x.2 = Z.of_nat n /\
    inside R x.1 x.2 /\ updl f x.1 (replicate n (u8 v)) = f'.

Lemma wp_memset G s R f dst v size (Q : unit -> kstate M -> Prop) :
  backs (kmem s) R f -> inside R dst size -> dst <> 0 -> is_u32 size ->
  (forall m, backs m R (updl f dst (replicate (Z.to_nat size) (u8 v))) ->
     Q tt (set_mem m s)) ->
  wp G (memset dst v size) s Q.
Proof.
  intros Hb Hi Hd Hs HQ. unfold memset, is_u32 in *.
  apply wp_bind, wp_assert; [lia |].
  eapply (wp_while _ _ (memset_inv s R (updl f dst (replicate (Z.to_nat size) (u8 v))) v)
    _ (Z.to_nat size)).
  - intros n [p sz] s' (m & g & -> & Hg & Hsz & Hin & Heq). cbn in *.
    destruct (Z.ltb_spec 0 sz) as [Hpos | Hz].
    + destruct n as [| n]; [lia |].
      apply wp_bind. eapply wp_st8; [done | |].
      { apply Hin. unfold span. lia. }
      intros m' Hm'. apply wp_ret. exists n. split; [lia |].
      exists m', (upd g p (u8 v)). cbn. split; [done |]. split; [done |].
      split; [lia |]. split; [| done].
      eapply inside_sub; [done | lia | lia].
    + apply wp_ret. destruct n; [| lia]. cbn in Heq. subst g. by apply HQ.
  - exists (kmem s), f. cbn. split; [by destruct s |]. split; [done |].
    split; [lia |]. split; done.
  - bounded.
Qed.

Lemma wp_memcpy G s R f dst src l (Q : unit -> kstate M -> Prop) :
  backs (kmem s) R f -> inside R dst (len l) -> inside R src (len l) ->
  dst <> 0 -> src <> 0 -> is_u32 (len l) -> block f src l ->
  dst + len l <= src \/ src + len l <= dst ->
  (forall m, backs m R (updl f dst l) -> Q tt (set_mem m s)) ->
  wp G (memcpy dst src (len l)) s Q.
Proof.
  intros Hb Hd Hs Hd0 Hs0 Hl Hblk Hdis HQ. unfold memcpy.
  apply wp_bind, wp_assert; [lia |]. apply wp_bind, wp_assert; [lia |].
  eapply (wp_while _ _ (fun n '(pd, ps, sz) s' => exists m g l',
    s' = set_mem m s /\ backs m R g /\ n = length l' /\ sz = len l' /\
    inside R pd sz /\ inside R ps sz /\ block g ps l' /\
    (pd + sz <= ps \/ ps + sz <= pd) /\ updl g pd l' = updl f dst l) _ (length l)).
  - intros n [[pd ps] sz] s' (m & g & l' & -> & Hg & -> & -> & Hpd & Hps & Hbl & Hdj & Heq).
    destruct l' as [| c l'].
    + rewrite len_nil, Z.ltb_irrefl. apply wp_ret. cbn in Heq. subst. by apply HQ.
    + rewrite len_cons in *. pose proof (len_nonneg l').
      apply inside_cons in Hpd as [Hpd Hpd']; [| done].
      apply inside_cons in Hps as [Hps Hps']; [| done].
      destruct (Z.ltb_spec 0 (1 + len l')) as [_ |]; [| lia].
      destruct Hbl as [Hc Hbl].
      apply wp_bind. eapply wp_ld8; [done | done |]. intros Hu. rewrite Hc in *.
      apply wp_bind. eapply wp_st8; [done | done |]. rewrite u8_small by done.
      intros m' Hm'. apply wp_ret. exists (length l'). split; [cbn; lia |].
      exists m', (upd g pd c), l'. split; [done |]. split; [done |].
      split; [done |]. split; [lia |]. replace (1 + len l' - 1) with (len l') by lia.
      split; [done |]. split; [done |]. split; [| split; [lia | done]].
      eapply block_ext; [| done]. intros a Ha. unfold span in Ha. apply upd_ne. lia.
  - exists (kmem s), f, l. split; [by destruct s |]. done.
  - unfold len in *. bounded.
Qed.

Lemma wp_memcmp G s R f a b la lb (Q : Z -> kstate M -> Prop) :
  backs (kmem s) R f -> inside R a (len la) -> inside R b (len lb) ->
  a <> 0 -> b <> 0 -> is_u32 (len la) -> length la = length lb ->
  block f a la -> block f b lb -> Q (cmp_chars la lb) s ->
  wp G (memcmp a b (len la)) s Q.
Proof.
  intros Hb Ha Hb' Ha0 Hb0 Hl Hlen Hbla Hblb HQ. unfold memcmp.
  apply wp_bind, wp_assert; [lia |]. apply wp_bind, wp_assert; [lia |].
  eapply (wp_while _ _ (fun n '(pa, pb, sz) s' => exists la' lb',
    s' = s /\ n = length la' /\ length la' = length lb' /\ sz = len la' /\
    inside R pa (len la') /\ inside R pb (len lb') /\ block f pa la' /\ block f pb lb' /\
    cmp_chars la' lb' = cmp_chars la lb) _ (length la)).
  - intros n [[pa pb] sz] s' (la' & lb' & -> & -> & Hll & -> & Hia & Hib & Hba & Hbb & Heq).
    destruct la' as [| x la'], lb' as [| y lb']; try discriminate.
    + rewrite len_nil, Z.ltb_irrefl. apply wp_ret. cbn in Heq. by rewrite Heq.
    + rewrite len_cons in *. pose proof (len_nonneg la'). pose proof (len_nonneg lb').
      apply inside_cons in Hia as [Hia Hia']; [| done].
      apply inside_cons in Hib as [Hib Hib']; [| done].
      destruct (Z.ltb_spec 0 (1 + len la')) as [_ |]; [| lia].
      destruct Hba as [<- Hba], Hbb as [<- Hbb]. cbn [cmp_chars] in Heq.
      apply wp_bind. eapply wp_ld8; [done | done |]. intros _.
      apply wp_bind. eapply wp_ld8; [done | done |]. intros _.
      revert Heq. case_match; [intros Heq; apply wp_ret; by rewrite Heq |].
      case_match; [intros Heq; apply wp_ret; by rewrite Heq |]. intros Heq.
      apply wp_ret. exists (length la'). split; [cbn; lia |].
      exists la', lb'. cbn in Hll. replace (1 + len la' - 1) with (len la') by lia.
      repeat (split; [done || lia |]). done.
  - exists la, lb. done.
  - unfold len in *. bounded.
Qed.

Lemma wp_strcpy G s R f dst src l (Q : Z -> kstate M -> Prop) :
  backs (kmem s) R f -> inside R dst (len l) -> inside R src (len l + 1) ->
  cstr f src l -> dst + len l <= src \/ src + len l + 1 <= dst ->
  (forall m, backs m R (updl f dst l) -> Q dst (set_mem m s)) ->
  wp G (strcpy dst src) s Q.
Proof.
  intros Hb Hd Hs Hstr Hdis HQ. unfold strcpy. apply wp_bind.
  pose proof (len_nonneg l).
  pose proof (backs_inside_u32 _ _ _ _ _ Hb Hs ltac:(lia)).
  eapply (wp_while _ _ (fun n '(pd, ps) s' => exists m g l',
    s' = set_mem m s /\ backs m R g /\ n = length l' /\
    inside R pd (len l') /\ inside R ps (len l' + 1) /\ cstr g ps l' /\
    (pd + len l' <= ps \/ ps + len l' + 1 <= pd) /\ updl g pd l' = updl f dst l)
    _ (length l)).
  - intros n [pd ps] s' (m & g & l' & -> & Hg & -> & Hpd & Hps & Hbl & Hdj & Heq).
    destruct l' as [| c l']; cbn [cstr] in Hbl.
    + apply wp_bind. eapply wp_ld8; [done | apply Hps; unfold span; rewrite len_nil; lia |].
      intros _. rewrite Hbl. apply wp_ret, wp_ret. cbn in Heq. subst. by apply HQ.
    + rewrite len_cons in *. pose proof (len_nonneg l').
      replace (1 + len l' + 1) with (1 + (len l' + 1)) in Hps by lia.
      apply inside_cons in Hpd as [Hpd Hpd']; [| done].
      apply inside_cons in Hps as [Hps Hps']; [| lia].
      destruct Hbl as (Hc & Hc0 & Hbl).
      apply wp_bind. eapply wp_ld8; [done | done |]. intros Hu. rewrite Hc in *.
      destruct (Z.eqb_spec c 0) as [| _]; [done |].
      apply wp_bind. eapply wp_ld8; [done | done |]. intros _. rewrite Hc.
      apply wp_bind. eapply wp_st8; [done | done |]. rewrite u8_small by done.
      intros m' Hm'. apply wp_ret. exists (length l'). split; [cbn; lia |].
      exists m', (upd g pd c), l'. repeat (split; [done || lia |]).
      split; [| split; [lia | done]].
      eapply cstr_ext; [| done]. intros a Ha. unfold span in Ha. apply upd_ne. lia.
  - exists (kmem s), f, l. split; [by destruct s |]. done.
  - unfold len in *. bounded.
Qed.

(** The walks along a terminated string: what remains of it is the measure. *)
Lemma cstr_head R f p l : inside R p (len l + 1) -> cstr f p l ->
  R p /\ (l = [] /\ f p = 0 \/
    exists l', l = f p :: l' /\ f p <> 0 /\ inside R (p + 1) (len l' + 1) /\
      cstr f (p + 1) l').
Proof.
  intros Hi Hs. split; [apply Hi; unfold span; pose proof (len_nonneg l); lia |].
  destruct l as [| c l]; [by left | right]. destruct Hs as (<- & Hc & Hs).
  exists l. repeat split; try done. eapply inside_sub; [done | lia |].
  rewrite len_cons. lia.
Qed.

Lemma wp_strlen G s R f p l (Q : Z -> kstate M -> Prop) :
  backs (kmem s) R f -> inside R p (len l + 1) -> p <> 0 -> cstr f p l ->
  Q (len l) s -> wp G (strlen p) s Q.
Proof.
  intros Hb Hi Hp Hs HQ. unfold strlen. apply wp_bind, wp_assert; [lia |].
  pose proof (len_nonneg l). pose proof (backs_inside_u32 _ _ _ _ _ Hb Hi ltac:(lia)).
  eapply (wp_while _ _ (fun n '(q, c) s' => exists l', s' = s /\ n = length l' /\
    inside R q (len l' + 1) /\ cstr f q l' /\ c + len l' = len l /\ 0 <= c) _ (length l)).
  - intros n [q c] s' (l' & -> & -> & Hq & Hl & Hc & Hc0).
    destruct (cstr_head _ _ _ _ Hq Hl) as [HR [[-> Hz] | (l'' & -> & Hne & Hi' & Hs')]];
      apply wp_bind; (eapply wp_ld8; [done | done |]); intros _.
    + rewrite Hz. apply wp_ret. rewrite len_nil in Hc. by replace c with (len l) by lia.
    + destruct (Z.eqb_spec (f q) 0); [done |]. apply wp_ret. rewrite len_cons in Hc.
      pose proof (len_nonneg l''). exists (length l''). split; [cbn; lia |].
      exists l''. rewrite u32_small by (unfold is_u32; lia).
      repeat (split; [done || lia |]). lia.
  - exists l. repeat (split; [done || lia |]). done.
  - unfold len in *. bounded.
Qed.

Lemma wp_strcmp G s R f a b la lb (Q : Z -> kstate M -> Prop) :
  backs (kmem s) R f -> inside R a (len la + 1) -> inside R b (len lb + 1) ->
  a <> 0 -> b <> 0 -> cstr f a la -> cstr f b lb -> Q (cmp_chars la lb) s ->
  wp G (strcmp a b) s Q.
Proof.
  intros Hb Ha Hb' Ha0 Hb0 Hsa Hsb HQ. unfold strcmp.
  apply wp_bind, wp_assert; [lia |]. apply wp_bind, wp_assert; [lia |].
  pose proof (len_nonneg la). pose proof (backs_inside_u32 _ _ _ _ _ Hb Ha ltac:(lia)).
  eapply (wp_while _ _ (fun n '(pa, pb) s' => exists la' lb', s' = s /\ n = length la' /\
    inside R pa (len la' + 1) /\ inside R pb (len lb' + 1) /\ cstr f pa la' /\
    cstr f pb lb' /\ cmp_chars la' lb' = cmp_chars la lb) _ (length la)).
  - intros n [pa pb] s' (la' & lb' & -> & -> & Hia & Hib & Hla & Hlb & Heq).
    destruct (cstr_head _ _ _ _ Hia Hla) as [HRa Hca].
    destruct (cstr_head _ _ _ _ Hib Hlb) as [HRb Hcb].
    apply wp_bind. eapply wp_ld8; [done | done |]. intros _.
    apply wp_bind. eapply wp_ld8; [done | done |]. intros _.
    destruct Hca as [[-> H0a] | (la2 & -> & Hnea & Hia' & Hsa')],
      Hcb as [[-> H0b] | (lb2 & -> & Hneb & Hib' & Hsb')]; cbn [cmp_chars] in Heq;
      repeat match goal with
        | H : f ?p = 0 |- context [f ?p =? 0] => rewrite H, Z.eqb_refl
        | H : f ?p <> 0 |- context [f ?p =? 0] => rewrite (proj2 (Z.eqb_neq _ _) H)
        end; cbn [negb andb]; try (apply wp_ret; by rewrite Heq).
    revert Heq. case_match; [intros Heq; apply wp_ret; by rewrite Heq |].
    case_match; [intros Heq; apply wp_ret; by rewrite Heq |]. intros Heq.
    apply wp_ret. exists (length la2). split; [cbn; lia |].
    exists la2, lb2. repeat (split; [done || lia |]). done.
  - exists la, lb. repeat (split; [done || lia |]). done.
  - unfold len in *. bounded.
Qed.

Lemma wp_strchr G s R f p l ch (Q : Z -> kstate M -> Prop) :
  backs (kmem s) R f -> inside R p (len l + 1) -> p <> 0 -> cstr f p l ->
  Q (find_first (eq_char ch) p l) s -> wp G (strchr p ch) s Q.
Proof.
  intros Hb Hi Hp Hs HQ. unfold strchr. apply wp_bind, wp_assert; [lia |].
  pose proof (len_nonneg l). pose proof (backs_inside_u32 _ _ _ _ _ Hb Hi ltac:(lia)).
  eapply (wp_while _ _ (fun n q s' => exists l', s' = s /\ n = length l' /\
    inside R q (len l' + 1) /\ cstr f q l' /\
    find_first (eq_char ch) q l' = find_first (eq_char ch) p l) _ (length l)).
  - intros n q s' (l' & -> & -> & Hq & Hl & Heq).
    destruct (cstr_head _ _ _ _ Hq Hl) as [HR [[-> Hz] | (l'' & -> & Hne & Hi' & Hs')]];
      apply wp_bind; (eapply wp_ld8; [done | done |]); intros _; cbn in Heq.
    + rewrite Hz. apply wp_ret. by rewrite Heq.
    + destruct (Z.eqb_spec (f q) 0); [done |]. revert Heq. unfold eq_char at 1.
      case_match; intros Heq; apply wp_ret; [by rewrite Heq |].
      exists (length l''). split; [cbn; lia |]. exists l''. done.
  - exists l. done.
  - unfold len in *. bounded.
Qed.

Lemma wp_strrchr G s R f p l ch (Q : Z -> kstate M -> Prop) :
  backs (kmem s) R f -> inside R p (len l + 1) -> p <> 0 -> cstr f p l ->
  Q (find_last (eq_char ch) p 0 l) s -> wp G (strrchr p ch) s Q.
Proof.
  intros Hb Hi Hp Hs HQ. unfold strrchr. apply wp_bind, wp_assert; [lia |].
  pose proof (len_nonneg l). pose proof (backs_inside_u32 _ _ _ _ _ Hb Hi ltac:(lia)).
  eapply (wp_while _ _ (fun n '(q, r) s' => exists l', s' = s /\ n = length l' /\
    inside R q (len l' + 1) /\ cstr f q l' /\
    find_last (eq_char ch) q r l' = find_last (eq_char ch) p 0 l) _ (length l)).
  - intros n [q r] s' (l' & -> & -> & Hq & Hl & Heq).
    destruct (cstr_head _ _ _ _ Hq Hl) as [HR [[-> Hz] | (l'' & -> & Hne & Hi' & Hs')]];
      apply wp_bind; (eapply wp_ld8; [done | done |]); intros _; cbn in Heq.
    + rewrite Hz. apply wp_ret. by rewrite Heq.
    + destruct (Z.eqb_spec (f q) 0); [done |]. apply wp_ret.
      exists (length l''). split; [cbn; lia |]. exists l''. done.
  - exists l. done.
  - unfold len in *. bounded.
Qed.

Lemma count_chars_cons P c l :
  count_chars P (c :: l) = (if P c then 1 else 0) + count_chars P l.
Proof.
  unfold count_chars. rewrite filter_cons. case_decide as Hc.
  - rewrite Hc, len_cons. done.
  - apply not_true_is_false in Hc. by rewrite Hc.
Qed.

Lemma wp_strchrs G s R f p l ch (Q : Z -> kstate M -> Prop) :
  backs (kmem s) R f -> inside R p (len l + 1) -> p <> 0 -> cstr f p l ->
  Q (count_chars (eq_char ch) l) s -> wp G (strchrs p ch) s Q.
Proof.
  intros Hb Hi Hp Hs HQ. unfold strchrs. apply wp_bind, wp_assert; [lia |].
  pose proof (len_nonneg l). pose proof (backs_inside_u32 _ _ _ _ _ Hb Hi ltac:(lia)).
  eapply (wp_while _ _ (fun n '(q, c) s' => exists l', s' = s /\ n = length l' /\
    inside R q (len l' + 1) /\ cstr f q l' /\ 0 <= c /\ c + len l' <= len l /\
    c + count_chars (eq_char ch) l' = count_chars (eq_char ch) l) _ (length l)).
  - intros n [q c] s' (l' & -> & -> & Hq & Hl & Hc0 & Hc & Heq).
    destruct (cstr_head _ _ _ _ Hq Hl) as [HR [[-> Hz] | (l'' & -> & Hne & Hi' & Hs')]];
      apply wp_bind; (eapply wp_ld8; [done | done |]); intros _.
    + rewrite Hz. apply wp_ret. replace c with (count_chars (eq_char ch) l); [done |].
      rewrite <- Heq. unfold count_chars at 1. cbn. rewrite len_nil. lia.
    + destruct (Z.eqb_spec (f q) 0); [done |]. apply wp_ret. rewrite len_cons in Hc.
      pose proof (len_nonneg l''). rewrite count_chars_cons in Heq. unfold eq_char in Heq at 1.
      exists (length l''). split; [cbn; lia |]. exists l''.
      repeat (split; [done |]). rewrite u32_small by (unfold is_u32; lia).
      case_match; lia.
  - exists l. repeat (split; [done || lia |]). done.
  - unfold len in *. bounded.
Qed.

(** The first loop of strcat: to the byte after the terminator. *)
Lemma wp_to_end G s R f p l (Q : Z -> kstate M -> Prop) :
  backs (kmem s) R f -> inside R p (len l + 1) -> cstr f p l ->
  Q (p + len l + 1) s ->
  wp G (while_ (fun str => do c <- ld8 str;
    if c =? 0 then cret (inr (str + 1)) else cret (inl (str + 1))) p) s Q.
Proof.
  intros Hb Hi Hs HQ.
  pose proof (len_nonneg l). pose proof (backs_inside_u32 _ _ _ _ _ Hb Hi ltac:(lia)).
  eapply (wp_while _ _ (fun n q s' => exists l', s' = s /\ n = length l' /\
    inside R q (len l' + 1) /\ cstr f q l' /\ q + len l' = p + len l) _ (length l)).
  - intros n q s' (l' & -> & -> & Hq & Hl & Heq).
    destruct (cstr_head _ _ _ _ Hq Hl) as [HR [[-> Hz] | (l'' & -> & Hne & Hi' & Hs')]];
      apply wp_bind; (eapply wp_ld8; [done | done |]); intros _.
    + rewrite Hz. apply wp_ret. rewrite len_nil in Heq.
      by replace (q + 1) with (p + len l + 1) by lia.
    + destruct (Z.eqb_spec (f q) 0); [done |]. apply wp_ret. rewrite len_cons in Heq.
      exists (length l''). split; [cbn; lia |]. exists l''.
      repeat (split; [done |]). lia.
  - exists l. repeat (split; [done || lia |]). done.
  - unfold len in *. bounded.
Qed.

Lemma wp_strcat G s R f dst src ld ls (Q : Z -> kstate M -> Prop) :
  backs (kmem s) R f -> inside R dst (len ld + len ls + 1) ->
  inside R src (len ls + 1) -> dst <> 0 -> src <> 0 ->
  cstr f dst ld -> cstr f src ls ->
  dst + len ld + len ls + 1 <= src \/ src + len ls + 1 <= dst + len ld ->
  (forall m, backs m R (updl f (dst + len ld) (ls ++ [0])) -> Q dst (set_mem m s)) ->
  wp G (strcat dst src) s Q.
Proof.
  intros Hb Hd Hs Hd0 Hs0 Hsd Hss Hdis HQ. unfold strcat.
  apply wp_bind, wp_assert; [lia |]. apply wp_bind, wp_assert; [lia |].
  pose proof (len_nonneg ls). pose proof (len_nonneg ld).
  pose proof (backs_inside_u32 _ _ _ _ _ Hb Hs ltac:(lia)).
  apply wp_bind. eapply wp_to_end; [done | | done |].
  { region. }
  apply wp_bind. replace (dst + len ld + 1 - 1) with (dst + len ld) by lia.
  eapply (wp_while _ _ (fun n '(pd, ps) s' => exists m g l',
    s' = set_mem m s /\ backs m R g /\ n = length l' /\
    inside R pd (len l' + 1) /\ inside R ps (len l' + 1) /\ cstr g ps l' /\
    (pd + len l' + 1 <= ps \/ ps + len l' + 1 <= pd) /\
    updl g pd (l' ++ [0]) = updl f (dst + len ld) (ls ++ [0])) _ (length ls)).
  - intros n [pd ps] s' (m & g & l' & -> & Hg & -> & Hpd & Hps & Hbl & Hdj & Heq).
    pose proof (len_nonneg l').
    destruct (cstr_head _ _ _ _ Hps Hbl) as [HR [[-> Hz] | (l'' & -> & Hne & Hi' & Hs')]];
      apply wp_bind; (eapply wp_ld8; [done | done |]); intros Hu;
      apply wp_bind; (eapply wp_st8; [done | apply Hpd; unfold span; lia |]);
      rewrite u8_small by done; intros m' Hm'.
    + rewrite Hz in *. apply wp_ret, wp_ret. cbn [app updl] in Heq.
      rewrite Heq in Hm'. by apply HQ.
    + destruct (Z.eqb_spec (g ps) 0); [done |]. apply wp_ret. rewrite len_cons in *.
      pose proof (len_nonneg l''). exists (length l''). split; [cbn; lia |].
      exists m', (upd g pd (g ps)), l''. repeat (split; [done || lia |]).
      split; [region |]. split; [done |].
      split; [| split; [lia | done]].
      eapply cstr_ext; [| done]. intros a Ha. unfold span in Ha. apply upd_ne. lia.
  - exists (kmem s), f, ls. split; [by destruct s |]. repeat (split; [done || lia |]).
    split; [region |]. repeat (split; [done || lia |]). done.
  - unfold len in *. bounded.
Qed.
End spec.

(** The comparison is zero exactly on equal byte sequences, and swapping the
    operands changes its sign. *)
Lemma s8_inj x y : is_u8 x -> is_u8 y -> s8 x = s8 y -> x = y.
Proof. unfold is_u8, s8. zlia. Qed.

Lemma cmp_chars_eq l l' : Forall is_u8 l -> Forall is_u8 l' ->
  cmp_chars l l' = 0 <-> l = l'.
Proof.
  revert l'. induction l as [| x l IH]; intros [| y l'] Hl Hl'; cbn; try (split; congruence || done).
  apply Forall_cons in Hl as [Hx Hl]. apply Forall_cons in Hl' as [Hy Hl'].
  destruct (Z.ltb_spec (s8 y) (s8 x)); [split; [done | intros [= -> ->]; lia] |].
  destruct (Z.ltb_spec (s8 x) (s8 y)); [split; [done | intros [= -> ->]; lia] |].
  rewrite IH by done. assert (x = y) as -> by (apply s8_inj; [done | done | lia]).
  split; [by intros -> | by intros [= ->]].
Qed.

Lemma cmp_chars_opp l l' : cmp_chars l' l = - cmp_chars l l'.
Proof.
  revert l'. induction l as [| x l IH]; intros [| y l']; cbn; try done.
  destruct (Z.ltb_spec (s8 y) (s8 x)), (Z.ltb_spec (s8 x) (s8 y)); try lia. apply IH.
Qed.

(** A character above 127 is never found: it compares unequal as a signed one. *)
Lemma eq_char_high ch c : 128 <= ch < 256 -> is_u8 c -> eq_char ch c = false.
Proof. unfold eq_char, s8, u8, is_u8. intros Hch Hc. apply Z.eqb_neq. zlia. Qed.

Lemma eq_char_low ch c : 0 <= ch < 128 -> is_u8 c -> eq_char ch c = (c =? ch).
Proof.
  unfold eq_char, s8, u8, is_u8. intros Hch Hc.
  destruct (Z.eqb_spec c ch) as [-> |]; [apply Z.eqb_eq | apply Z.eqb_neq]; zlia.
Qed.

(** ** Properties *)

Section properties.
Context {M : Type} {RM : RawMem M} {RL : RawMemLaws M}.
Implicit Types (s : kstate M) (R : Z -> Prop) (f : Z -> Z).

Lemma cstr_bytes (m : M) R f p l : backs m R f -> inside R p (len l + 1) ->
  cstr f p l -> Forall is_u8 l.
Proof.
  intros Hb. revert p. induction l as [| c l IH]; intros p Hi Hs; [constructor |].
  rewrite len_cons in Hi. pose proof (len_nonneg l). destruct Hs as (<- & _ & Hs).
  constructor; [eapply backs_byte; [done | region] |]. eapply IH; [| done].
  eapply inside_sub; [done | lia | lia].
Qed.

(** The same by addresses. *)
Lemma wp_memset_span G s R f dst v size (Q : unit -> kstate M -> Prop) :
  backs (kmem s) R f -> inside R dst size -> dst <> 0 -> is_u32 size ->
  (forall m f', backs m R f' -> (forall a, span dst size a -> f' a = u8 v) ->
     (forall a, ~ span dst size a -> f' a = f a) -> Q tt (set_mem m s)) ->
  wp G (memset dst v size) s Q.
Proof.
  intros Hb Hi Hd Hs HQ. eapply wp_memset; [done .. |]. intros m Hm. unfold is_u32 in Hs.
  pose proof (length_replicate (Z.to_nat size) (u8 v)).
  apply (HQ m _ Hm); intros a Ha; unfold span in Ha.
  - rewrite updl_in by (unfold len; lia).
    rewrite nth_lookup, lookup_replicate_2; [done | lia].
  - apply updl_out. unfold len. lia.
Qed.

(** What memset leaves in memory. *)
Theorem memset_fills s R f dst v size :
  backs (kmem s) R f -> inside R dst size -> dst <> 0 -> is_u32 size ->
  exists f', runs_to (memset dst v size) s tt R f' /\
    forall a, f' a = if decide (span dst size a) then u8 v else f a.
Proof.
  intros Hb Hi Hd Hs. eexists. split.
  - apply runs_to_wp. intros Q HQ. eapply wp_memset; eauto.
  - unfold is_u32 in Hs. intros a.
    pose proof (length_replicate (Z.to_nat size) (u8 v)).
    case_decide as Ha; unfold span in Ha.
    + rewrite updl_in by (unfold len; lia).
      rewrite nth_lookup, lookup_replicate_2; [done | lia].
    + apply updl_out. unfold len. lia.
Qed.

(** memcpy of blocks that do not overlap. *)
Theorem memcpy_copies s R f dst src l :
  backs (kmem s) R f -> inside R dst (len l) -> inside R src (len l) ->
  dst <> 0 -> src <> 0 -> is_u32 (len l) -> block f src l ->
  dst + len l <= src \/ src + len l <= dst ->
  exists f', runs_to (memcpy dst src (len l)) s tt R f' /\ block f' dst l /\
    forall a, ~ span dst (len l) a -> f' a = f a.
Proof.
  intros Hb Hd Hs Hd0 Hs0 Hl Hblk Hdis. exists (updl f dst l). split.
  - apply runs_to_wp. intros Q HQ. eapply wp_memcpy; eauto.
  - split; [apply block_updl |]. intros a Ha. apply updl_out. unfold span in Ha. lia.
Qed.

(** The order of strcmp (and, on blocks, of memcmp). *)
Theorem strcmp_orders s R f a b la lb :
  backs (kmem s) R f -> inside R a (len la + 1) -> inside R b (len lb + 1) ->
  a <> 0 -> b <> 0 -> cstr f a la -> cstr f b lb ->
  strcmp a b s = Done (cmp_chars la lb) s /\
  strcmp b a s = Done (- cmp_chars la lb) s /\ (cmp_chars la lb = 0 <-> la = lb).
Proof.
  intros Hb Hia Hib Ha0 Hb0 Hla Hlb. split; [| split].
  - apply returns_wp. intros Q HQ. eapply wp_strcmp; eauto.
  - rewrite <- cmp_chars_opp. apply returns_wp. intros Q HQ. eapply wp_strcmp; eauto.
  - apply cmp_chars_eq; eapply cstr_bytes; eauto.
Qed.

(** strcpy copies the characters and nothing after them. *)
Theorem strcpy_leaves_no_terminator s R f dst src l :
  backs (kmem s) R f -> inside R dst (len l) -> inside R src (len l + 1) ->
  cstr f src l -> dst + len l <= src \/ src + len l + 1 <= dst ->
  exists f', runs_to (strcpy dst src) s dst R f' /\ block f' dst l /\
    f' (dst + len l) = f (dst + len l) /\
    (f (dst + len l) <> 0 -> ~ cstr f' dst l) /\
    forall a, ~ span dst (len l) a -> f' a = f a.
Proof.
  intros Hb Hd Hs Hl Hdis. exists (updl f dst l).
  assert (updl f dst l (dst + len l) = f (dst + len l)) as Hend
    by (apply updl_out; lia).
  split; [apply runs_to_wp; intros Q HQ; eapply wp_strcpy; eauto |].
  split; [apply block_updl |]. split; [done |]. split.
  - intros Hne [Hz _]%cstr_block. apply block_app in Hz as [_ [Hz _]].
    congruence.
  - intros a Ha. apply updl_out. unfold span in Ha. lia.
Qed.

(** strcat appends, terminator included. *)
Theorem strcat_appends s R f dst src ld ls :
  backs (kmem s) R f -> inside R dst (len ld + len ls + 1) ->
  inside R src (len ls + 1) -> dst <> 0 -> src <> 0 ->
  cstr f dst ld -> cstr f src ls ->
  dst + len ld + len ls + 1 <= src \/ src + len ls + 1 <= dst + len ld ->
  exists f', runs_to (strcat dst src) s dst R f' /\ cstr f' dst (ld ++ ls) /\
    forall a, ~ span (dst + len ld) (len ls + 1) a -> f' a = f a.
Proof.
  intros Hb Hd Hs Hd0 Hs0 Hld Hls Hdis.
  exists (updl f (dst + len ld) (ls ++ [0])).
  assert (forall a, ~ span (dst + len ld) (len ls + 1) a ->
    updl f (dst + len ld) (ls ++ [0]) a = f a) as Hout.
  { intros a Ha. apply updl_out. rewrite len_app. unfold span in Ha.
    change (len [0]) with 1. lia. }
  split; [apply runs_to_wp; intros Q HQ; eapply wp_strcat; eauto |].
  split; [| done].
  apply cstr_block in Hld as [Hbd Hnd], Hls as [_ Hns].
  apply cstr_block. split; [| by apply Forall_app].
  rewrite <- app_assoc. apply block_app. split; [| apply block_updl].
  apply block_app in Hbd as [Hbd _]. eapply block_ext; [| done].
  intros a Ha. apply Hout. unfold span in *. lia.
Qed.

(** The first occurrence; and no character above 127 is ever found. *)
Lemma find_first_spec P p l :
  (find_first P p l = 0 /\ Forall (fun c => P c = false) l) \/
  (exists l1 c l2, l = l1 ++ c :: l2 /\ P c = true /\
    Forall (fun c => P c = false) l1 /\ find_first P p l = p + len l1).
Proof.
  revert p. induction l as [| c l IH]; intros p; cbn; [by left |].
  destruct (P c) eqn:HP.
  - right. exists [], c, l. rewrite len_nil. repeat split; [done | constructor | lia].
  - destruct (IH (p + 1)) as [[Hf Hl] | (l1 & x & l2 & -> & HPx & Hl & Hf)].
    + left. split; [done |]. by constructor.
    + right. exists (c :: l1), x, l2. rewrite len_cons.
      repeat split; [done | by constructor | lia].
Qed.

(** [strchr] returns the address of the first occurrence of a character below
    128, or 0 when there is none; a character of 128 or more is never found,
    since the string's characters are signed. *)
Theorem strchr_finds s R f p l ch :
  backs (kmem s) R f -> inside R p (len l + 1) -> p <> 0 -> cstr f p l -> is_u8 ch ->
  exists r, strchr p ch s = Done r s /\
    (128 <= ch -> r = 0) /\
    (ch < 128 -> (r = 0 /\ (ch ∉ l)) \/
      exists l1 l2, l = l1 ++ (ch :: l2) /\ (ch ∉ l1) /\ r = p + len l1).
Proof.
  intros Hb Hi Hp Hl Hch. pose proof (cstr_bytes _ _ _ _ _ Hb Hi Hl) as Hu.
  exists (find_first (eq_char ch) p l).
  split; [apply returns_wp; intros Q HQ; eapply wp_strchr; eauto |].
  pose proof (find_first_spec (eq_char ch) p l) as Hff. unfold is_u8 in Hch. split.
  - intros Hge. destruct Hff as [[Hf _] | (l1 & c & l2 & -> & Hc & _)]; [done |].
    apply Forall_app in Hu as [_ Hu]. apply Forall_cons in Hu as [Hcu _].
    rewrite eq_char_high in Hc by (done || lia). discriminate.
  - intros Hlt.
    assert (forall l', Forall is_u8 l' -> Forall (fun c => eq_char ch c = false) l' -> ch ∉ l')
      as Hnot.
    { intros l' Hu' Hl' Hin. rewrite Forall_forall in Hl', Hu'.
      specialize (Hl' _ Hin). rewrite eq_char_low in Hl' by (first [lia | exact (Hu' _ Hin)]). lia. }
    destruct Hff as [[Hf Hn] | (l1 & c & l2 & -> & Hc & Hn & Hf)]; [left; auto | right].
    apply Forall_app in Hu as [Hu1 Hu2]. apply Forall_cons in Hu2 as [Hcu _].
    rewrite eq_char_low in Hc by (done || lia).
    assert (c = ch) as -> by lia. exists l1, l2. auto.
Qed.
End properties.

(** ** Examples, in flat memory: strings at 0x1000 and 0x2000 *)

Module examples.
#[local] Existing Instance demo_layout.
(** "hi" at 0x1000 (followed by other text) and "ok" at 0x2000. *)
Definition m0 : flat :=
  flat_of [(0x1000, 0x006968); (0x1004, 0x41414141); (0x2000, 0x006b6f); (0x3000, 0x41414141)].
Definition st : kstate flat := machine_of m0.
Lemma all_in a n : 0 <= a -> a + n <= 4294967296 -> inside is_u32 a n.
Proof. intros Ha Hn b Hb. unfold span, is_u32 in *. lia. Qed.

Lemma memset_fills_witness :
  exists f', runs_to (memset 0x3000 0x141 2) st tt is_u32 f' /\
    forall a, f' a = if decide (span 0x3000 2 a) then u8 0x141 else flat_at m0 a.
Proof.
  apply (memset_fills st is_u32 (flat_at m0) 0x3000 0x141 2).
  - apply flat_backs.
  - apply all_in; lia.
  - lia.
  - unfold is_u32. lia.
Defined.

Lemma memcpy_copies_witness :
  exists f', runs_to (memcpy 0x3000 0x1000 2) st tt is_u32 f' /\ block f' 0x3000 [0x68; 0x69].
Proof.
  unshelve epose proof (memcpy_copies st is_u32 (flat_at m0) 0x3000 0x1000 [0x68; 0x69] _ _ _ _ _ _ _ _)
    as (f' & Hr & Hb & _).
  - apply flat_backs.
  - apply all_in; vm_compute; discriminate.
  - apply all_in; vm_compute; discriminate.
  - lia.
  - lia.
  - vm_compute. split; [discriminate | reflexivity].
  - vm_compute. repeat split.
  - right. vm_compute. discriminate.
  - exists f'. split; [exact Hr | exact Hb].
Defined.

Lemma strcmp_orders_witness : strcmp 0x1000 0x2000 st = Done (-1) st.
Proof.
  unshelve epose proof (strcmp_orders st is_u32 (flat_at m0) 0x1000 0x2000
    [0x68; 0x69] [0x6f; 0x6b] _ _ _ _ _ _ _) as (Hs & _).
  - apply flat_backs.
  - apply all_in; vm_compute; discriminate.
  - apply all_in; vm_compute; discriminate.
  - lia.
  - lia.
  - vm_compute. repeat split; discriminate.
  - vm_compute. repeat split; discriminate.
  - rewrite Hs. reflexivity.
Defined.

(** Copied over "AAAA", the string "ok" runs into the old text. *)
Lemma strcpy_leaves_no_terminator_witness :
  exists f', runs_to (strcpy 0x3000 0x2000) st 0x3000 is_u32 f' /\
    ~ cstr f' 0x3000 [0x6f; 0x6b].
Proof.
  unshelve epose proof (strcpy_leaves_no_terminator st is_u32 (flat_at m0) 0x3000 0x2000 [0x6f; 0x6b] _ _ _ _ _)
    as (f' & Hr & _ & _ & Hn & _).
  - apply flat_backs.
  - apply all_in; vm_compute; discriminate.
  - apply all_in; vm_compute; discriminate.
  - vm_compute. repeat split; discriminate.
  - right. vm_compute. discriminate.
  - exists f'. split; [exact Hr |]. apply Hn. vm_compute. discriminate.
Defined.

Lemma strcat_appends_witness :
  exists f', runs_to (strcat 0x1000 0x2000) st 0x1000 is_u32 f' /\
    cstr f' 0x1000 [0x68; 0x69; 0x6f; 0x6b].
Proof.
  unshelve epose proof (strcat_appends st is_u32 (flat_at m0) 0x1000 0x2000 [0x68; 0x69] [0x6f; 0x6b] _ _ _ _ _ _ _ _)
    as (f' & Hr & Hc & _).
  - apply flat_backs.
  - apply all_in; vm_compute; discriminate.
  - apply all_in; vm_compute; discriminate.
  - lia.
  - lia.
  - vm_compute. repeat split; discriminate.
  - vm_compute. repeat split; discriminate.
  - left. vm_compute. discriminate.
  - exists f'. split; [exact Hr | exact Hc].
Defined.

Lemma strchr_finds_witness : exists r, strchr 0x1000 0x69 st = Done r st /\
  ((r = 0 /\ (0x69 ∉ [0x68; 0x69])) \/ exists l1 l2, [0x68; 0x69] = l1 ++ 0x69 :: l2 /\
    (0x69 ∉ l1) /\ r = 0x1000 + len l1).
Proof.
  unshelve epose proof (strchr_finds st is_u32 (flat_at m0) 0x1000 [0x68; 0x69] 0x69 _ _ _ _ _)
    as (r & Hr & _ & Hlow).
  - apply flat_backs.
  - apply all_in; vm_compute; discriminate.
  - lia.
  - vm_compute. repeat split; discriminate.
  - unfold is_u8. lia.
  - exists r. split; [exact Hr |]. apply Hlow. lia.
Defined.
End examples.
