(* ===== verification/Ports.v ===== *)
(** lib/kernel/io.h: the transfers of words between a port and memory. *)

From S2P Require Import Prelude Monad RawMem Machine CString.

Section code.
Context {M : Type} {RM : RawMem M}.

(** rep insw: [dev i] is what the port delivers at the [i]-th read. *)
Definition insw (dev : Z -> Z) (addr word_count : Z) : K (M := M) unit :=
  while_ (fun '(edi, ecx) =>
    if ecx =? 0 then cret (inr tt)
    else st16 edi (u16 (dev (word_count - ecx)));; cret (inl (u32 (edi + 2), ecx - 1))) (addr, word_count).

(** rep outsw *)
Definition outsw (port addr word_count : Z) : K (M := M) unit :=
  while_ (fun '(esi, ecx) =>
    if ecx =? 0 then cret (inr tt)
    else do w <- ld16 esi; modify (put_port (port, w));; cret (inl (u32 (esi + 2), ecx - 1))) (addr, word_count).
End code.

(** The words at [a], the last one first, as they are sent. *)
Fixpoint words_sent (f : Z -> Z) (port a : Z) (n : nat) : list (Z * Z) :=
  match n with O => [] | S n => (port, w16 f (a + 2 * Z.of_nat n)) :: words_sent f port a n end.

Definition put_ports {M} (o : list (Z * Z)) (s : kstate M) : kstate M :=
  mk_kstate (kmem s) (kif s) (kesp s) (kvar s) (kout s) (o ++ kports s) (kinb s) (ktab s).

Section rules.
Context {M : Type} {RM : RawMem M} {RL : RawMemLaws M}.
Implicit Types (s : kstate M) (R : Z -> Prop) (f : Z -> Z) (G : protocol (kstate M)).

Lemma wp_outsw G s R f port a n (Q : unit -> kstate M -> Prop) :
  backs (kmem s) R f -> is_u32 a -> 0 <= n -> inside R a (2 * n) ->
  Q tt (put_ports (words_sent f port a (Z.to_nat n)) s) -> wp G (outsw port a n) s Q.
Proof.
  intros Hb Ha Hn Hi HQ. unfold outsw.
  assert (0 < n -> 0 <= a /\ a + 2 * n <= 2 ^ 32) as Hau.
  { intros Hn0. apply (backs_inside_u32 _ _ _ _ _ Hb Hi). lia. }
  eapply (wp_while _ _ (fun k '(p, c) s' => 0 <= c <= n /\ k = Z.to_nat c /\ (c <> 0 -> p = a + 2 * (n - c)) /\
    s' = put_ports (words_sent f port a (Z.to_nat (n - c))) s) _ (Z.to_nat n)).
  - intros k [p c] s' (Hc & -> & Hp & ->). destruct (Z.eqb_spec c 0) as [-> | Hne].
    + apply wp_ret. by rewrite Z.sub_0_r.
    + specialize (Hp Hne). subst p. specialize (Hau ltac:(lia)). apply wp_bind.
      eapply wp_ld16; [exact Hb | region |]. apply wp_bind, wp_modify, wp_ret.
      exists (Z.to_nat (c - 1)). split; [lia |]. split; [lia |]. split; [done |]. split.
      * intros Hc1. rewrite u32_small by (unfold is_u32; lia). lia.
      * replace (Z.to_nat (n - (c - 1))) with (S (Z.to_nat (n - c))) by lia. cbn [words_sent].
        by replace (a + 2 * Z.of_nat (Z.to_nat (n - c))) with (a + 2 * (n - c)) by lia.
  - split; [lia |]. split; [done |]. split; [intros _; lia |]. rewrite Z.sub_diag. by destruct s.
  - rewrite loop_bound_eq. destruct (Z.eq_dec n 0); lia.
Qed.

Lemma wp_insw G s R f dev a n (Q : unit -> kstate M -> Prop) :
  backs (kmem s) R f -> is_u32 a -> 0 <= n -> inside R a (2 * n) ->
  (forall m f', backs m R f' -> (forall i, 0 <= i < n -> w16 f' (a + 2 * i) = u16 (dev i)) ->
     (forall b, ~ span a (2 * n) b -> f' b = f b) -> Q tt (set_mem m s)) ->
  wp G (insw dev a n) s Q.
Proof.
  intros Hb Ha Hn Hi HQ. unfold insw.
  assert (0 < n -> 0 <= a /\ a + 2 * n <= 2 ^ 32) as Hau.
  { intros Hn0. apply (backs_inside_u32 _ _ _ _ _ Hb Hi). lia. }
  eapply (wp_while _ _ (fun k '(p, c) s' => exists m f', s' = set_mem m s /\ backs m R f' /\ 0 <= c <= n /\
    k = Z.to_nat c /\ (c <> 0 -> p = a + 2 * (n - c)) /\
    (forall i, 0 <= i < n - c -> w16 f' (a + 2 * i) = u16 (dev i)) /\
    (forall b, ~ span a (2 * n) b -> f' b = f b)) _ (Z.to_nat n)).
  - intros k [p c] s' (m & f' & -> & Hm & Hc & -> & Hp & Hw & Ho). destruct (Z.eqb_spec c 0) as [-> | Hne].
    + apply wp_ret. apply (HQ m f'); [done | | done]. intros i Hi'. apply Hw. lia.
    + specialize (Hp Hne). subst p. specialize (Hau ltac:(lia)). apply wp_bind.
      eapply wp_st16; [exact Hm | region |]. intros m2 Hm2. apply wp_ret.
      exists (Z.to_nat (c - 1)). split; [lia |]. eexists m2, _. split; [done |]. split; [exact Hm2 |].
      split; [lia |]. split; [done |]. split; [intros Hc1; rewrite u32_small by (unfold is_u32; lia); lia |]. split.
      * intros i Hi'. destruct (Z.eq_dec i (n - c)) as [-> | Hne'].
        -- apply w16_upd16_eq. unfold u16. zlia.
        -- rewrite w16_upd16_ne by lia. apply Hw. lia.
      * intros b Hbb. unfold span in *. rewrite upd16_ne by lia. by apply Ho.
  - exists (kmem s), f. split; [by destruct s |]. split; [done |]. split; [lia |]. split; [done |].
    split; [intros _; lia |]. split; [lia | done].
  - rewrite loop_bound_eq. destruct (Z.eq_dec n 0); lia.
Qed.

Lemma words_sent_nth f port a n i : (i < n)%nat ->
  nth_error (rev (words_sent f port a n)) i = Some (port, w16 f (a + 2 * Z.of_nat i)).
Proof.
  assert (forall k, length (words_sent f port a k) = k) as Hlen by (intros k; induction k; cbn; congruence).
  induction n as [| n IH]; intros Hi; [lia |]. cbn [words_sent rev].
  destruct (decide (i < n)%nat) as [Hlt | Hge].
  - rewrite nth_error_app1 by (rewrite length_rev, Hlen; lia). by apply IH.
  - rewrite nth_error_app2 by (rewrite length_rev, Hlen; lia).
    rewrite length_rev, Hlen. replace (i - n)%nat with O by lia. by replace n with i by lia.
Qed.

(** ** Property *)

(** What [outsw] sends is the words of the buffer in their order, and a device
    that delivers them again has [insw] store them: the buffer arrives at the
    other address, and nothing else changes. *)
Theorem words_roundtrip s R f dev port a b n :
  backs (kmem s) R f -> is_u32 a -> is_u32 b -> 0 <= n -> inside R a (2 * n) -> inside R b (2 * n) ->
  exists s1, outsw port a n s = Done tt s1 /\ kmem s1 = kmem s /\
    exists o, kports s1 = rev o ++ kports s /\ length o = Z.to_nat n /\
    ((forall i, 0 <= i < n -> nth_error o (Z.to_nat i) = Some (port, dev i)) ->
     exists m f', insw dev b n s1 = Done tt (set_mem m s1) /\ backs m R f' /\
       (forall i, 0 <= i < n -> w16 f' (b + 2 * i) = w16 f (a + 2 * i)) /\
       (forall c, ~ span b (2 * n) c -> f' c = f c)).
Proof.
  intros Hb Ha Hbb Hn Hia Hib. set (s1 := put_ports (words_sent f port a (Z.to_nat n)) s).
  exists s1. split.
  { destruct (proj1 (wp_seq_only (outsw port a n) s (fun _ s' => s' = s1))) as ([] & s' & Hc & ->); [| done].
    by eapply wp_outsw. }
  split; [done |]. exists (rev (words_sent f port a (Z.to_nat n))). rewrite rev_involutive. split; [done |].
  split. { rewrite length_rev. generalize (Z.to_nat n). intros k. induction k; cbn; congruence. }
  intros Hdev.
  destruct (proj1 (wp_seq_only (insw dev b n) s1 (fun _ s' => exists m f', s' = set_mem m s1 /\ backs m R f' /\
    (forall i, 0 <= i < n -> w16 f' (b + 2 * i) = u16 (dev i)) /\ (forall c, ~ span b (2 * n) c -> f' c = f c))))
    as ([] & s' & Hc & m & f' & -> & Hm & Hw & Ho).
  { eapply wp_insw; [exact Hb | done .. |]. intros m f' Hm Hw Ho. by exists m, f'. }
  exists m, f'. split; [exact Hc |]. split; [exact Hm |]. split; [| exact Ho].
  intros i Hi. rewrite Hw by done. specialize (Hdev i Hi). rewrite words_sent_nth in Hdev by lia.
  injection Hdev as Hdev. rewrite <- Hdev. rewrite Z2Nat.id by lia. apply Z.mod_small.
  apply w16_range. intros c Hcc. eapply backs_byte; [exact Hb |]. apply Hia. unfold span in *. lia.
Qed.
End rules.

(** Two words are copied from 0x1000 to 0x2000. *)
Module examples.
Definition st : kstate flat := machine_of (flat_of [(0x1000, 0x12345678)]).

Lemma words_roundtrip_witness : exists s1 m f', outsw 0x1f0 0x1000 2 st = Done tt s1 /\
  insw (fun i => if i =? 0 then 0x5678 else 0x1234) 0x2000 2 s1 = Done tt (set_mem m s1) /\
  backs m is_u32 f' /\ w16 f' 0x2002 = 0x1234.
Proof.
  destruct (words_roundtrip st is_u32 (flat_at (kmem st)) (fun i => if i =? 0 then 0x5678 else 0x1234)
    0x1f0 0x1000 0x2000 2) as (s1 & H1 & _ & o & Ho & Hlen & Hin).
  - apply flat_backs.
  - done.
  - done.
  - lia.
  - intros a Ha. unfold span, is_u32 in *. lia.
  - intros a Ha. unfold span, is_u32 in *. lia.
  - assert (outsw 0x1f0 0x1000 2 st = Done tt (put_ports [(0x1f0, 0x1234); (0x1f0, 0x5678)] st)) as Hrun
      by (by vm_compute).
    rewrite Hrun in H1. assert (s1 = put_ports [(0x1f0, 0x1234); (0x1f0, 0x5678)] st) as -> by congruence.
    cbn [kports put_ports] in Ho. rewrite !app_nil_r in Ho.
    assert (o = [(0x1f0, 0x5678); (0x1f0, 0x1234)]) as -> by (rewrite <- (rev_involutive o), <- Ho; done).
    destruct Hin as (m & f' & H2 & H3 & H4 & _).
    + intros i Hi. assert (i = 0 \/ i = 1) as [-> | ->] by lia; done.
    + eexists _, m, f'. split; [reflexivity |]. split; [exact H2 |]. split; [exact H3 |].
      specialize (H4 1 ltac:(lia)). change (0x2000 + 2 * 1) with 0x2002 in H4. rewrite H4. by vm_compute.
Defined.
End examples.
