(* ===== verification/Bitmap.v ===== *)
(** lib/kernel/bitmap.[ch]: bitmaps in memory, and the first-fit search that
    allocates runs of bits. *)

From S2P Require Import Prelude Monad RawMem Machine CString.

(** ** The routines

    struct bitmap: [btmp_bytes_len] at offset 0, the pointer [bits] at 4. *)

Section code.
Context {M : Type} {RM : RawMem M}.

#[local] Abbreviation ASSERT_ := (ASSERT "lib/kernel/bitmap.c").

Definition btmp_bytes_len (btmp : Z) : K (M := M) Z := ld32 btmp.
Definition bits (btmp : Z) : K (M := M) Z := ld32 (btmp + 4).

Definition bitmap_init (btmp : Z) : K (M := M) unit :=
  do b <- bits btmp; do n <- btmp_bytes_len btmp; memset b 0 n.

Definition bitmap_scan_test (btmp bit_idx : Z) : K (M := M) Z :=
  let byte_idx := bit_idx / 8 in
  let bit_odd := bit_idx mod 8 in
  do b <- bits btmp; do x <- ld8 (b + byte_idx);
  cret (Z.land x (Z.shiftl 1 bit_odd)).

(** The three loops of [bitmap_scan]. *)
Definition skip_full_bytes (btmp : Z) : K (M := M) Z :=
  while_ (fun idx_byte =>
    do b <- bits btmp; do x <- ld8 (b + idx_byte);
    if x =? 0xff then
      do n <- btmp_bytes_len btmp;
      if idx_byte <? n then cret (inl (u32 (idx_byte + 1))) else cret (inr idx_byte)
    else cret (inr idx_byte)) 0.

Definition skip_set_bits (btmp idx_byte : Z) : K (M := M) Z :=
  while_ (fun idx_bit =>
    do b <- bits btmp; do x <- ld8 (b + idx_byte);
    if Z.land (u8 (Z.shiftl 1 idx_bit)) x =? 0 then cret (inr idx_bit)
    else cret (inl (idx_bit + 1))) 0.

Definition find_run (btmp cnt bit_left next_bit : Z) : K (M := M) Z :=
  while_ (fun '(bit_left, next_bit, count) =>
    if 0 <? bit_left then
      do t <- bitmap_scan_test btmp next_bit;
      let count := if t =? 0 then u32 (count + 1) else 0 in
      if cnt =? count then cret (inr (s32 (u32 (next_bit - cnt + 1))))
      else cret (inl (u32 (bit_left - 1), u32 (next_bit + 1), count))
    else cret (inr (-1))) (bit_left, next_bit, 1).

Definition bitmap_scan (btmp cnt : Z) : K (M := M) Z :=
  do idx_byte <- skip_full_bytes btmp;
  do n <- btmp_bytes_len btmp;
  ASSERT_ 19 "bitmap_scan" "idx_byte < btmp->btmp_bytes_len" (idx_byte <? n);;
  do n <- btmp_bytes_len btmp;
  if idx_byte =? n then cret (-1)
  else
    do idx_bit <- skip_set_bits btmp idx_byte;
    let bit_idx_start := s32 (u32 (idx_byte * 8 + idx_bit)) in
    if cnt =? 1 then cret bit_idx_start
    else
      do n <- btmp_bytes_len btmp;
      find_run btmp cnt (u32 (n * 8 - bit_idx_start)) (u32 (bit_idx_start + 1)).

Definition bitmap_set (btmp bit_idx value : Z) : K (M := M) unit :=
  ASSERT_ 47 "bitmap_set" "0 == value || 1 == value" ((value =? 0) || (value =? 1));;
  let byte_idx := bit_idx / 8 in
  let bit_odd := bit_idx mod 8 in
  do b <- bits btmp; do x <- ld8 (b + byte_idx);
  if negb (value =? 0) then st8 (b + byte_idx) (Z.lor x (Z.shiftl 1 bit_odd))
  else st8 (b + byte_idx) (Z.land x (Z.lnot (Z.shiftl 1 bit_odd))).
End code.

(** ** Bitmaps as sets of bits *)

(** Bit [i] of the array of bytes at [b]. *)
Definition bit (f : Z -> Z) (b i : Z) : bool := Z.testbit (f (b + i / 8)) (i mod 8).

Definition free_run (f : Z -> Z) (b i cnt : Z) : Prop :=
  forall j, i <= j < i + cnt -> bit f b j = false.

(** [r] is the start of the first run of [cnt] clear bits that ends by [limit]. *)
Definition first_fit (f : Z -> Z) (b limit cnt r : Z) : Prop :=
  0 <= r /\ r + cnt <= limit /\ free_run f b r cnt /\
  forall i, 0 <= i < r -> ~ free_run f b i cnt.

(** The structure at [btmp] describes [n] bytes at [b], apart from itself; the
    region holds the structure, the bytes and the one after them. *)
Record is_bitmap (R : Z -> Prop) (f : Z -> Z) (btmp b n : Z) : Prop := {
  bm_len : w32 f btmp = n;
  bm_bits : w32 f (btmp + 4) = b;
  bm_struct : inside R btmp 8;
  bm_bytes : inside R b (n + 1);
  bm_apart : btmp + 8 <= b \/ b + n <= btmp;
  bm_size : 0 <= n < 2 ^ 27 }.

Lemma bit_upd f b i (v : bool) x j : 0 <= i -> 0 <= j -> is_u8 x ->
  (forall k, 0 <= k < 8 -> Z.testbit x k = if k =? i mod 8 then v else Z.testbit (f (b + i / 8)) k) ->
  bit (upd f (b + i / 8) x) b j = if j =? i then v else bit f b j.
Proof.
  intros Hi Hj Hx Hk. unfold bit. destruct (Z.eq_dec (j / 8) (i / 8)) as [He | Hne].
  - rewrite He, upd_eq, Hk by zlia.
    destruct (Z.eqb_spec j i) as [-> | Hji]; [by rewrite Z.eqb_refl |].
    destruct (Z.eqb_spec (j mod 8) (i mod 8)); [zlia | done].
  - rewrite upd_ne by lia. destruct (Z.eqb_spec j i) as [-> |]; [lia | done].
Qed.

Lemma set_bit_spec x k : is_u8 x -> 0 <= k < 8 ->
  is_u8 (Z.lor x (Z.shiftl 1 k)) /\
  forall j, 0 <= j < 8 -> Z.testbit (Z.lor x (Z.shiftl 1 k)) j = if j =? k then true else Z.testbit x j.
Proof.
  intros Hx Hk. split.
  - apply (below_of_bits _ 8); [lia |]. intros i Hi.
    rewrite Z.lor_spec, shiftl1_testbit, (testbit_above x 8) by (unfold is_u8 in Hx; lia).
    apply Z.eqb_neq. lia.
  - intros j Hj. rewrite Z.lor_spec, shiftl1_testbit by lia.
    destruct (j =? k); [apply orb_true_r | apply orb_false_r].
Qed.

Lemma clear_bit_spec x k : is_u8 x -> 0 <= k < 8 ->
  is_u8 (Z.land x (Z.lnot (Z.shiftl 1 k))) /\
  forall j, 0 <= j < 8 -> Z.testbit (Z.land x (Z.lnot (Z.shiftl 1 k))) j =
    if j =? k then false else Z.testbit x j.
Proof.
  intros Hx Hk. unfold is_u8 in Hx. split.
  - apply (below_of_bits _ 8); [lia |]. intros i Hi.
    by rewrite Z.land_spec, (testbit_above x 8) by lia.
  - intros j Hj. rewrite Z.land_spec, Z.lnot_spec, shiftl1_testbit by lia.
    destruct (j =? k); [apply andb_false_r | apply andb_true_r].
Qed.

(** ** Specifications *)

Section spec.
Context {M : Type} {RM : RawMem M} {RL : RawMemLaws M}.
Context (R : Z -> Prop) (f : Z -> Z) (btmp b n : Z) (Hbm : is_bitmap R f btmp b n).
Implicit Types (s : kstate M).

Lemma wp_bits G s (Q : Z -> kstate M -> Prop) :
  backs (kmem s) R f -> Q b s -> wp G (bits btmp) s Q.
Proof.
  destruct Hbm. intros Hb HQ. unfold bits. eapply wp_ld32; [done | region |].
  intros _. by rewrite bm_bits0.
Qed.

Lemma wp_btmp_bytes_len G s (Q : Z -> kstate M -> Prop) :
  backs (kmem s) R f -> Q n s -> wp G (btmp_bytes_len btmp) s Q.
Proof.
  destruct Hbm. intros Hb HQ. unfold btmp_bytes_len. eapply wp_ld32; [done | region |].
  intros _. by rewrite bm_len0.
Qed.

(** Reading byte [i] of the array. *)
Lemma wp_byte G s i (Q : Z -> kstate M -> Prop) :
  backs (kmem s) R f -> 0 <= i <= n -> (is_u8 (f (b + i)) -> Q (f (b + i)) s) ->
  wp G (do b <- bits btmp; ld8 (b + i)) s Q.
Proof.
  intros Hb Hi HQ. apply wp_bind, wp_bits; [done |].
  eapply wp_ld8; [done | destruct Hbm; region | done].
Qed.

Lemma wp_bitmap_scan_test G s i (Q : Z -> kstate M -> Prop) :
  backs (kmem s) R f -> 0 <= i < 8 * n + 8 ->
  (forall t, (t =? 0) = negb (bit f b i) -> Q t s) ->
  wp G (bitmap_scan_test btmp i) s Q.
Proof.
  intros Hb Hi HQ. unfold bitmap_scan_test. apply wp_bind, wp_bits; [done |].
  apply wp_bind. eapply wp_ld8; [done | |].
  { destruct Hbm. apply bm_bytes0. unfold span. zlia. }
  intros _. apply wp_ret, HQ. apply land_shiftl1_eqb. zlia.
Qed.

Lemma wp_bitmap_init G s (Q : unit -> kstate M -> Prop) :
  backs (kmem s) R f -> b <> 0 ->
  (forall m, backs m R (updl f b (replicate (Z.to_nat n) 0)) -> Q tt (set_mem m s)) ->
  wp G (bitmap_init btmp) s Q.
Proof.
  intros Hb Hb0 HQ. unfold bitmap_init. apply wp_bind, wp_bits; [done |].
  apply wp_bind, wp_btmp_bytes_len; [done |].
  eapply wp_memset; [done | destruct Hbm; region | done | | done].
  destruct Hbm. unfold is_u32. lia.
Qed.

(** The contents after [bitmap_set]. *)
Definition set_contents (i : Z) (v : bool) : Z -> Z :=
  let x := f (b + i / 8) in
  let one := Z.shiftl 1 (i mod 8) in
  upd f (b + i / 8) (if v then Z.lor x one else Z.land x (Z.lnot one)).

Lemma bit_set_contents i v j : is_u8 (f (b + i / 8)) -> 0 <= i -> 0 <= j ->
  bit (set_contents i v) b j = if j =? i then v else bit f b j.
Proof.
  intros Hx Hi Hj. unfold set_contents.
  destruct (set_bit_spec _ (i mod 8) Hx ltac:(zlia)) as [Hs1 Hs2].
  destruct (clear_bit_spec _ (i mod 8) Hx ltac:(zlia)) as [Hc1 Hc2].
  destruct v; apply bit_upd; auto.
Qed.

Lemma wp_bitmap_set G s i (v : bool) (Q : unit -> kstate M -> Prop) :
  backs (kmem s) R f -> 0 <= i < 8 * n + 8 ->
  (is_u8 (f (b + i / 8)) -> forall m, backs m R (set_contents i v) -> Q tt (set_mem m s)) ->
  wp G (bitmap_set btmp i (if v then 1 else 0)) s Q.
Proof.
  intros Hb Hi HQ. unfold bitmap_set.
  apply wp_bind, wp_assert; [by destruct v |].
  apply wp_bind, wp_bits; [done |].
  assert (R (b + i / 8)) as HR by (destruct Hbm; apply bm_bytes0; unfold span; zlia).
  apply wp_bind. eapply wp_ld8; [done | done |]. intros Hx.
  pose proof (set_bit_spec _ (i mod 8) Hx ltac:(zlia)) as [Hs _].
  pose proof (clear_bit_spec _ (i mod 8) Hx ltac:(zlia)) as [Hc _].
  destruct v; cbn [Z.eqb negb]; (eapply wp_st8; [done | done |]);
    rewrite u8_small by done; by apply HQ.
Qed.

(** The first loop stops at the first byte that is not full, or at the end. *)
Lemma wp_skip_full_bytes G s (Q : Z -> kstate M -> Prop) :
  backs (kmem s) R f ->
  (forall k, 0 <= k <= n -> (forall i, 0 <= i < k -> f (b + i) = 255) ->
     (k < n -> is_u8 (f (b + k)) /\ f (b + k) <> 255) -> Q k s) ->
  wp G (skip_full_bytes btmp) s Q.
Proof.
  intros Hb HQ. pose proof (bm_size _ _ _ _ _ Hbm) as Hn. unfold skip_full_bytes.
  eapply (wp_while _ _ (fun k x s' => s' = s /\ 0 <= x <= n /\ k = Z.to_nat (n - x) /\
    forall i, 0 <= i < x -> f (b + i) = 255) _ (Z.to_nat n)).
  - intros k x s' (-> & Hx & -> & Hfull). apply wp_bind, wp_bits; [done |].
    apply wp_bind. eapply wp_ld8; [done | destruct Hbm; region |]. intros Hu.
    destruct (Z.eqb_spec (f (b + x)) 255) as [He | Hne]; [| apply wp_ret, HQ; auto].
    apply wp_bind, wp_btmp_bytes_len; [done |].
    destruct (Z.ltb_spec x n) as [Hlt | Hge]; apply wp_ret.
    + exists (Z.to_nat (n - (x + 1))). split; [lia |].
      rewrite u32_small by (unfold is_u32; lia). split; [done |]. split; [lia |].
      split; [done |]. intros i Hi. destruct (Z.eq_dec i x) as [-> |]; [done |].
      apply Hfull. lia.
    + apply HQ; [lia | done | lia].
  - split; [done |]. split; [lia |]. split; [lia |]. intros i Hi. lia.
  - bounded.
Qed.

(** The second stops at the lowest clear bit of that byte. *)
Lemma wp_skip_set_bits G s k (Q : Z -> kstate M -> Prop) :
  backs (kmem s) R f -> 0 <= k < n -> is_u8 (f (b + k)) -> f (b + k) <> 255 ->
  (forall j, 0 <= j < 8 -> Z.testbit (f (b + k)) j = false ->
     (forall i, 0 <= i < j -> Z.testbit (f (b + k)) i = true) -> Q j s) ->
  wp G (skip_set_bits btmp k) s Q.
Proof.
  intros Hb Hk Hu Hne HQ. unfold skip_set_bits.
  eapply (wp_while _ _ (fun c j s' => s' = s /\ 0 <= j < 8 /\ c = Z.to_nat (8 - j) /\
    forall i, 0 <= i < j -> Z.testbit (f (b + k)) i = true) _ 8%nat).
  - intros c j s' (-> & Hj & -> & Hset). apply wp_bind, wp_bits; [done |].
    apply wp_bind. eapply wp_ld8; [done | destruct Hbm; region |]. intros _.
    rewrite u8_small.
    2: { unfold is_u8. rewrite Z.shiftl_1_l. split; [lia |].
         apply (Z.pow_lt_mono_r 2 j 8); lia. }
    rewrite Z.land_comm, land_shiftl1_eqb by lia.
    destruct (Z.testbit (f (b + k)) j) eqn:Hbit; cbn [negb]; apply wp_ret; [| by apply HQ].
    assert (j <> 7) as Hj7.
    { intros ->. apply Hne, byte_full; [done |]. intros i Hi.
      destruct (Z.eq_dec i 7) as [-> |]; [done |]. apply Hset. lia. }
    exists (Z.to_nat (8 - (j + 1))). split; [lia |]. split; [done |]. split; [lia |].
    split; [done |]. intros i Hi. destruct (Z.eq_dec i j) as [-> |]; [done |].
    apply Hset. lia.
  - split; [done |]. split; [lia |]. split; [done |]. intros i Hi. lia.
  - bounded.
Qed.

(** The third looks for the first run of [cnt] clear bits, up to and
    including the bit after the last. *)
Lemma wp_find_run G s cnt st (Q : Z -> kstate M -> Prop) :
  backs (kmem s) R f -> 2 <= cnt -> is_u32 cnt -> 0 <= st < 8 * n -> bit f b st = false ->
  (forall i, 0 <= i < st -> bit f b i = true) ->
  (forall r, first_fit f b (8 * n + 1) cnt r -> Q r s) ->
  ((forall i, 0 <= i -> i + cnt <= 8 * n + 1 -> ~ free_run f b i cnt) -> Q (-1) s) ->
  wp G (find_run btmp cnt (8 * n - st) (st + 1)) s Q.
Proof.
  intros Hb Hcnt Hcu Hst Hfree Hbefore HQ HQ'.
  pose proof (bm_size _ _ _ _ _ Hbm) as Hn. unfold find_run, is_u32 in *.
  eapply (wp_while _ _ (fun k '(l, p, c) s' => s' = s /\ k = Z.to_nat l /\ 0 <= l /\
    p + l = 8 * n + 1 /\ st < p /\ 0 <= c < cnt /\ c <= p - st /\
    (forall i, p - c <= i < p -> bit f b i = false) /\
    (forall i, 0 <= i -> i + cnt <= p -> ~ free_run f b i cnt) /\
    (p - c = st \/ bit f b (p - c - 1) = true)) _ (Z.to_nat (8 * n - st))).
  - intros k [[l p] c] s' (-> & -> & Hl & Hp & Hstp & Hc & Hcs & Hrun & Hno & Hedge).
    destruct (Z.ltb_spec 0 l) as [Hpos | Hz].
    2: { apply wp_ret, HQ'. intros i Hi Hic. apply Hno; lia. }
    apply wp_bind, wp_bitmap_scan_test; [done | lia |]. intros t ->.
    assert (forall i, 0 <= i -> i < p - c -> i + cnt = p + 1 -> ~ free_run f b i cnt) as Hlast.
    { intros i Hi Hic Hip Hf. destruct Hedge as [He | He].
      - specialize (Hbefore i ltac:(lia)).
        rewrite (Hf i) in Hbefore by lia. discriminate.
      - rewrite (Hf (p - c - 1)) in He by lia. discriminate. }
    destruct (bit f b p) eqn:Hbit; cbn [negb].
    + destruct (Z.eqb_spec cnt 0); [lia |]. apply wp_ret.
      exists (Z.to_nat (l - 1)). split; [lia |].
      rewrite !u32_small by (unfold is_u32; lia).
      repeat (split; [done || lia |]). split.
      * intros i Hi Hip Hf. destruct (Z.eq_dec (i + cnt) (p + 1)) as [He | Hne].
        -- rewrite (Hf p) in Hbit by lia. discriminate.
        -- apply (Hno i); [lia | lia | done].
      * right. by replace (p + 1 - 0 - 1) with p by lia.
    + rewrite (u32_small (c + 1)) by (unfold is_u32; lia).
      assert (forall i, p - c <= i < p + 1 -> bit f b i = false) as Hrun'.
      { intros i Hi. destruct (Z.eq_dec i p) as [-> |]; [done |]. apply Hrun. lia. }
      destruct (Z.eqb_spec cnt (c + 1)) as [He | Hne]; apply wp_ret.
      * rewrite u32_small by (unfold is_u32; lia). rewrite s32_small by lia.
        apply HQ. split; [lia |]. split; [lia |]. split.
        -- intros j Hj. apply Hrun'. lia.
        -- intros i Hi. apply Hno; lia.
      * exists (Z.to_nat (l - 1)). split; [lia |].
        rewrite !u32_small by (unfold is_u32; lia).
        repeat (split; [done || lia |]). split; [intros; apply Hrun'; lia |]. split.
        -- intros i Hi Hip. destruct (Z.eq_dec (i + cnt) (p + 1)) as [He' | Hne'].
           ++ apply Hlast; lia.
           ++ apply Hno; lia.
        -- by replace (p + 1 - (c + 1)) with (p - c) by lia.
  - repeat (split; [done || lia |]). split.
    + intros i Hi. by replace i with st by lia.
    + split; [| left; lia]. intros i Hi Hic Hf.
      specialize (Hbefore i ltac:(lia)). rewrite (Hf i) in Hbefore by lia. discriminate.
  - bounded.
Qed.
End spec.

Section scan.
Context {M : Type} {RM : RawMem M} {RL : RawMemLaws M}.
Context (R : Z -> Prop) (f : Z -> Z) (btmp b n : Z) (Hbm : is_bitmap R f btmp b n).
Implicit Types (s : kstate M).

(** The end of the search: the whole bitmap for one bit, one bit more for
    several. *)
Definition scan_limit (cnt : Z) : Z := if cnt =? 1 then 8 * n else 8 * n + 1.

(** With the byte and the bit found, all bits before are set. *)
Lemma bits_before k j : 0 <= k -> 0 <= j < 8 ->
  (forall i, 0 <= i < k -> f (b + i) = 255) ->
  (forall i, 0 <= i < j -> Z.testbit (f (b + k)) i = true) ->
  forall i, 0 <= i < k * 8 + j -> bit f b i = true.
Proof.
  intros Hk Hj Hfull Hset i Hi. unfold bit.
  destruct (Z.eq_dec (i / 8) k) as [He | Hne].
  - rewrite He. apply Hset. zlia.
  - rewrite Hfull by zlia. change 255 with (Z.ones 8).
    apply Z.ones_spec_low. zlia.
Qed.

Lemma bit_of_byte k j : 0 <= j < 8 -> bit f b (k * 8 + j) = Z.testbit (f (b + k)) j.
Proof.
  intros Hj. unfold bit. replace ((k * 8 + j) / 8) with k by zlia.
  by replace ((k * 8 + j) mod 8) with j by zlia.
Qed.

Lemma wp_scan_from G s cnt (Q : Z -> kstate M -> Prop) :
  backs (kmem s) R f ->
  ((forall i, 0 <= i < 8 * n -> bit f b i = true) -> forall s', kmem s' = kmem s ->
     may_panic G (mk_panic "lib/kernel/bitmap.c" 19 "bitmap_scan" "idx_byte < btmp->btmp_bytes_len") s') ->
  (forall st, 0 <= st < 8 * n -> bit f b st = false -> (forall i, 0 <= i < st -> bit f b i = true) ->
     if cnt =? 1 then Q st s else wp G (find_run btmp cnt (8 * n - st) (st + 1)) s Q) ->
  wp G (bitmap_scan btmp cnt) s Q.
Proof.
  intros Hb HP HQ. unfold bitmap_scan. pose proof (bm_size _ _ _ _ _ Hbm) as Hn.
  apply wp_bind. eapply wp_skip_full_bytes; [done | done |]. intros k Hk Hfull Hpart.
  apply wp_bind. eapply wp_btmp_bytes_len; [done | done |].
  destruct (Z.ltb_spec k n) as [Hkn | Hge].
  2: { apply wp_bind, wp_assert_fails. apply HP. intros i Hi. unfold bit.
       rewrite Hfull by zlia. change 255 with (Z.ones 8). apply Z.ones_spec_low. zlia. }
  apply wp_bind, wp_assert; [done |].
  apply wp_bind. eapply wp_btmp_bytes_len; [done | done |].
  destruct (Z.eqb_spec k n); [lia |]. destruct (Hpart Hkn) as [Hu Hne].
  apply wp_bind. eapply wp_skip_set_bits; [done | done | lia | done | done |]. intros j Hj Hbit Hset.
  rewrite (u32_small (k * 8 + j)) by (unfold is_u32; lia). rewrite s32_small by lia.
  specialize (HQ (k * 8 + j) ltac:(lia) ltac:(by rewrite bit_of_byte) (bits_before k j ltac:(lia) Hj Hfull Hset)).
  destruct (cnt =? 1); [by apply wp_ret |].
  apply wp_bind. eapply wp_btmp_bytes_len; [done | done |].
  rewrite !u32_small by (unfold is_u32; lia). by replace (n * 8) with (8 * n) by lia.
Qed.

Lemma wp_bitmap_scan G s cnt (Q : Z -> kstate M -> Prop) :
  backs (kmem s) R f -> 1 <= cnt -> is_u32 cnt ->
  (exists i, 0 <= i < 8 * n /\ bit f b i = false) ->
  (forall r, first_fit f b (scan_limit cnt) cnt r -> Q r s) ->
  ((forall i, 0 <= i -> i + cnt <= scan_limit cnt -> ~ free_run f b i cnt) -> Q (-1) s) ->
  wp G (bitmap_scan btmp cnt) s Q.
Proof.
  intros Hb Hcnt Hcu (i0 & Hi0 & Hf0) HQ HQ'. apply wp_scan_from; [done | |].
  - intros Hfull. by rewrite Hfull in Hf0.
  - intros st Hst Hfree Hbefore. unfold scan_limit in *. destruct (Z.eqb_spec cnt 1) as [-> | Hc1].
    + apply HQ. split; [lia |]. split; [lia |]. split.
      * intros i Hi. by replace i with st by lia.
      * intros i Hi Hf. specialize (Hbefore i ltac:(lia)). rewrite (Hf i) in Hbefore by lia. discriminate.
    + eapply wp_find_run; try done; lia.
Qed.

(** A full bitmap: the assertion before the test for -1 fails. *)
Lemma wp_bitmap_scan_full G s cnt (Q : Z -> kstate M -> Prop) :
  backs (kmem s) R f -> (forall i, 0 <= i < 8 * n -> bit f b i = true) ->
  (forall s', kmem s' = kmem s -> may_panic G (mk_panic "lib/kernel/bitmap.c" 19
     "bitmap_scan" "idx_byte < btmp->btmp_bytes_len") s') ->
  wp G (bitmap_scan btmp cnt) s Q.
Proof.
  intros Hb Hfull HP. apply wp_scan_from; [done | done |].
  intros st Hst Hfree _. by rewrite Hfull in Hfree.
Qed.

(** The third loop ends for every count, 0 and more than there are bits
    included. *)
Lemma wp_find_run_ends G s cnt st (Q : Z -> kstate M -> Prop) :
  backs (kmem s) R f -> is_u32 cnt -> 0 <= st < 8 * n ->
  (forall r, -1 <= r <= 8 * n + 1 -> Q r s) ->
  wp G (find_run btmp cnt (8 * n - st) (st + 1)) s Q.
Proof.
  intros Hb Hcu Hst HQ. pose proof (bm_size _ _ _ _ _ Hbm) as Hn. unfold find_run, is_u32 in *.
  eapply (wp_while _ _ (fun k '(l, p, c) s' => s' = s /\ k = Z.to_nat l /\ 0 <= l /\
    p + l = 8 * n + 1 /\ 1 <= p /\ 0 <= c <= p) _ (Z.to_nat (8 * n - st))).
  - intros k [[l p] c] s' (-> & -> & Hl & Hp & Hp1 & Hc).
    destruct (Z.ltb_spec 0 l) as [Hpos | Hz]; [| apply wp_ret, HQ; lia].
    apply wp_bind, wp_bitmap_scan_test with R f b n; [done | done | lia |]. intros t _. cbv zeta.
    rewrite (u32_small (c + 1)) by (unfold is_u32; lia).
    assert (0 <= (if t =? 0 then c + 1 else 0) <= p + 1) as Hc' by (destruct (t =? 0); lia).
    destruct (Z.eqb_spec cnt (if t =? 0 then c + 1 else 0)) as [He | Hne]; apply wp_ret.
    + rewrite u32_small by (unfold is_u32; lia). rewrite s32_small by lia. apply HQ. lia.
    + exists (Z.to_nat (l - 1)). split; [lia |]. rewrite !u32_small by (unfold is_u32; lia).
      split; [done |]. split; [done |]. lia.
  - repeat (split; [done || lia |]). lia.
  - bounded.
Qed.
End scan.

(** ** Properties *)

Section properties.
Context {M : Type} {RM : RawMem M} {RL : RawMemLaws M}.

(** bitmap_set changes one bit and no other; bitmap_scan_test reads it. *)
Theorem bitmap_set_then_test (s : kstate M) R f btmp b n i (v : bool) :
  backs (kmem s) R f -> is_bitmap R f btmp b n -> 0 <= i < 8 * n ->
  exists m f', bitmap_set btmp i (if v then 1 else 0) s = Done tt (set_mem m s) /\
    backs m R f' /\ is_bitmap R f' btmp b n /\
    (forall j, 0 <= j -> bit f' b j = if j =? i then v else bit f b j) /\
    (forall a, a <> b + i / 8 -> f' a = f a) /\
    exists t, bitmap_scan_test btmp i (set_mem m s) = Done t (set_mem m s) /\
      (t = 0 <-> v = false).
Proof.
  intros Hb Hbm Hi.
  assert (is_u8 (f (b + i / 8))) as Hu.
  { eapply backs_byte; [done |]. destruct Hbm. apply bm_bytes0. unfold span. zlia. }
  destruct (runs_to_wp (bitmap_set btmp i (if v then 1 else 0)) s tt R
    (set_contents f b i v)) as (m & Hrun & Hm).
  { intros Q HQ. eapply wp_bitmap_set; [done | done | lia | auto]. }
  pose proof (bit_set_contents f b i v) as Hbit.
  exists m, (set_contents f b i v). split; [done |]. split; [done |].
  assert (is_bitmap R (set_contents f b i v) btmp b n) as Hbm'.
  { destruct Hbm. unfold set_contents. split; try done.
    - rewrite w32_upd_ne by zlia. done.
    - rewrite w32_upd_ne by zlia. done. }
  split; [done |]. split; [intros; apply Hbit; lia || done |]. split.
  - intros a Ha. unfold set_contents. by apply upd_ne.
  - destruct (proj1 (wp_seq_only (bitmap_scan_test btmp i) (set_mem m s)
      (fun t s' => s' = set_mem m s /\ (t =? 0) = negb v))) as (t & s' & Ht & -> & Htv).
    { eapply wp_bitmap_scan_test; [done | done | lia |]. intros t Ht. split; [done |].
      rewrite Ht, Hbit, Z.eqb_refl by (lia || done). done. }
    exists t. split; [done |]. destruct v; cbn in Htv; lia.
Qed.

(** C36. bitmap_scan is first fit, on the bits of the bitmap and, for more than
    one bit, the bit that follows them, as long as some bit of the bitmap is
    free: -1 means that there are free bits but not [cnt] in a row.  On a full
    bitmap the search ends in its assertion. *)
Theorem bitmap_scan_first_fit (s : kstate M) R f btmp b n cnt :
  backs (kmem s) R f -> is_bitmap R f btmp b n -> 1 <= cnt -> is_u32 cnt ->
  ((exists i, 0 <= i < 8 * n /\ bit f b i = false) ->
   exists r, bitmap_scan btmp cnt s = Done r s /\
    ((exists i, 0 <= i /\ i + cnt <= scan_limit n cnt /\ free_run f b i cnt) ->
       first_fit f b (scan_limit n cnt) cnt r) /\
    ((forall i, 0 <= i -> i + cnt <= scan_limit n cnt -> ~ free_run f b i cnt) -> r = -1)) /\
  ((forall i, 0 <= i < 8 * n -> bit f b i = true) ->
   exists s', bitmap_scan btmp cnt s = Panic (mk_panic "lib/kernel/bitmap.c" 19
     "bitmap_scan" "idx_byte < btmp->btmp_bytes_len") s' /\ kmem s' = kmem s).
Proof.
  intros Hb Hbm Hc Hcu. split.
  2: { intros Hfull. apply panics_wp. intros G Q HP. eapply wp_bitmap_scan_full; eauto. }
  intros Hex.
  destruct (proj1 (wp_seq_only (bitmap_scan btmp cnt) s (fun r s' => s' = s /\
    (first_fit f b (scan_limit n cnt) cnt r \/ r = -1 /\
      forall i, 0 <= i -> i + cnt <= scan_limit n cnt -> ~ free_run f b i cnt))))
    as (r & s' & Hr & -> & Hcase).
  { eapply wp_bitmap_scan; eauto. }
  exists r. split; [done |]. destruct Hcase as [Hff | [-> Hno]].
  - split; [done |]. intros Hno. exfalso.
    destruct Hff as (H0 & H1 & H2 & _). by apply (Hno r).
  - split; [| done]. intros (i & H0 & H1 & H2). exfalso. by apply (Hno i).
Qed.

(** When no run of [cnt >= 2] clear bits lies in the bitmap but its last
    [cnt - 1] bits and the bit after it are clear, the run that is returned
    ends outside the bitmap. *)
Theorem bitmap_scan_overruns (s : kstate M) R f btmp b n cnt :
  backs (kmem s) R f -> is_bitmap R f btmp b n -> 2 <= cnt <= 8 * n ->
  (forall i, 0 <= i -> i + cnt <= 8 * n -> ~ free_run f b i cnt) ->
  free_run f b (8 * n + 1 - cnt) cnt ->
  bitmap_scan btmp cnt s = Done (8 * n + 1 - cnt) s.
Proof.
  intros Hb Hbm Hc Hno Hrun. pose proof (bm_size _ _ _ _ _ Hbm) as Hn.
  apply returns_wp. intros Q HQ.
  eapply wp_bitmap_scan; [done | done | lia | unfold is_u32; lia | | |].
  - exists (8 * n - 1). split; [lia |]. apply Hrun. lia.
  - unfold scan_limit. destruct (Z.eqb_spec cnt 1); [lia |].
    intros r (H0 & H1 & H2 & H3).
    assert (r = 8 * n + 1 - cnt) as ->; [| done].
    destruct (Z.lt_ge_cases r (8 * n + 1 - cnt)); [| lia].
    exfalso. apply (Hno r); [lia | lia | done].
  - unfold scan_limit. destruct (Z.eqb_spec cnt 1); [lia |].
    intros Hall. exfalso. apply (Hall (8 * n + 1 - cnt)); [lia | lia | done].
Qed.

(** On a full bitmap the search does not return -1: it panics. *)
Theorem bitmap_scan_full_panics (s : kstate M) R f btmp b n cnt :
  backs (kmem s) R f -> is_bitmap R f btmp b n ->
  (forall i, 0 <= i < 8 * n -> bit f b i = true) ->
  exists s', bitmap_scan btmp cnt s = Panic (mk_panic "lib/kernel/bitmap.c" 19
    "bitmap_scan" "idx_byte < btmp->btmp_bytes_len") s' /\ kmem s' = kmem s.
Proof.
  intros Hb Hbm Hfull. apply panics_wp. intros G Q HP.
  eapply wp_bitmap_scan_full; eauto.
Qed.

(** C10. [bitmap_scan] ends for every contents of the bitmap and every count, 0 and
    counts beyond the size included, with the memory as it was: it returns a
    number from -1 to one past the number of bits, or, exactly when no bit is
    free, it ends in its assertion. *)
Theorem bitmap_scan_terminates (s : kstate M) R f btmp b n cnt :
  backs (kmem s) R f -> is_bitmap R f btmp b n -> is_u32 cnt ->
  (exists r, bitmap_scan btmp cnt s = Done r s /\ -1 <= r <= 8 * n + 1 /\ exists i, 0 <= i < 8 * n /\ bit f b i = false) \/
  (exists s', bitmap_scan btmp cnt s = Panic (mk_panic "lib/kernel/bitmap.c" 19
     "bitmap_scan" "idx_byte < btmp->btmp_bytes_len") s' /\ kmem s' = kmem s /\
   forall i, 0 <= i < 8 * n -> bit f b i = true).
Proof.
  intros Hb Hbm Hc.
  destruct (existsb (fun i => negb (bit f b i)) (zrange (8 * n))) eqn:Hex.
  - left. apply existsb_exists in Hex as (i & Hi%zrange_spec & Hf%negb_true_iff).
    destruct (proj1 (wp_seq_only (bitmap_scan btmp cnt) s (fun r s' => s' = s /\ -1 <= r <= 8 * n + 1)))
      as (r & s' & Hr & -> & Hb'); [| exists r; split; [done |]; split; [done |]; by exists i].
    eapply wp_scan_from; [done | done | |].
    + intros Hfull. by rewrite Hfull in Hf.
    + intros st Hst _ _. destruct (Z.eqb_spec cnt 1); [split; [done | lia] |].
      by eapply wp_find_run_ends.
  - right. assert (forall i, 0 <= i < 8 * n -> bit f b i = true) as Hall.
    { intros i Hi%zrange_spec. destruct (bit f b i) eqn:Hb'; [done |]. apply not_true_iff_false in Hex.
      destruct Hex. apply existsb_exists. exists i. by rewrite Hb'. }
    destruct (panics_wp (bitmap_scan btmp cnt) s (mk_panic "lib/kernel/bitmap.c" 19
      "bitmap_scan" "idx_byte < btmp->btmp_bytes_len")) as (s' & Hs' & Hk); [| by exists s'].
    intros G Q HP. by eapply wp_bitmap_scan_full.
Qed.
End properties.

(** ** Examples: a bitmap of one byte, in flat memory *)

Module examples.
#[local] Existing Instance demo_layout.
(** The structure at 0x1000 describes the byte at 0x2000, followed by zeros. *)
Definition mem_with (byte : Z) : flat := flat_of [(0x1000, 1); (0x1004, 0x2000); (0x2000, byte)].
Definition st (byte : Z) : kstate flat := machine_of (mem_with byte).
Definition free_runb (f : Z -> Z) (b i cnt : Z) : bool :=
  forallb (fun j => negb (bit f b (i + j))) (zrange cnt).

Lemma free_runb_spec f b i cnt : free_runb f b i cnt = true <-> free_run f b i cnt.
Proof.
  unfold free_runb, free_run. rewrite forallb_forall. split.
  - intros Hj j Hij. specialize (Hj (j - i)). rewrite zrange_spec in Hj.
    specialize (Hj ltac:(lia)). replace (i + (j - i)) with j in Hj by lia.
    by apply negb_true_iff.
  - intros Hj k Hk%zrange_spec. apply negb_true_iff, Hj. lia.
Qed.

Lemma st_bitmap byte : is_u32 byte ->
  is_bitmap is_u32 (flat_at (mem_with byte)) 0x1000 0x2000 1.
Proof.
  intros Hb. split.
  - by vm_compute.
  - by vm_compute.
  - intros a Ha. unfold span, is_u32 in *. lia.
  - intros a Ha. unfold span, is_u32 in *. lia.
  - lia.
  - lia.
Qed.

Lemma bitmap_set_then_test_witness :
  exists m f', bitmap_set 0x1000 4 1 (st 0x0f) = Done tt (set_mem m (st 0x0f)) /\
    backs m is_u32 f' /\ bit f' 0x2000 4 = true.
Proof.
  unshelve epose proof (bitmap_set_then_test (st 0x0f) is_u32 (flat_at (mem_with 0x0f)) 0x1000 0x2000 1 4 true _ _ _)
    as (m & f' & Hs & Hb & _ & Hj & _).
  - apply flat_backs.
  - apply st_bitmap. unfold is_u32. lia.
  - lia.
  - exists m, f'. split; [exact Hs |]. split; [exact Hb |]. apply (Hj 4). lia.
Defined.

Lemma bitmap_scan_first_fit_witness :
  (exists r, bitmap_scan 0x1000 2 (st 0x2b) = Done r (st 0x2b) /\
    first_fit (flat_at (mem_with 0x2b)) 0x2000 9 2 r) /\
  exists s', bitmap_scan 0x1000 1 (st 0xff) = Panic (mk_panic "lib/kernel/bitmap.c" 19
    "bitmap_scan" "idx_byte < btmp->btmp_bytes_len") s'.
Proof.
  split.
  - destruct (bitmap_scan_first_fit (st 0x2b) is_u32 (flat_at (mem_with 0x2b)) 0x1000 0x2000 1 2) as [Hfree _].
    + apply flat_backs.
    + apply st_bitmap. unfold is_u32. lia.
    + lia.
    + unfold is_u32. lia.
    + destruct Hfree as (r & Hr & Hff & _); [exists 2; split; [lia | by vm_compute] |].
      exists r. split; [exact Hr |]. apply Hff. exists 6. split; [lia |].
      split; [by vm_compute |]. apply free_runb_spec. by vm_compute.
  - destruct (bitmap_scan_first_fit (st 0xff) is_u32 (flat_at (mem_with 0xff)) 0x1000 0x2000 1 1) as [_ Hfull].
    + apply flat_backs.
    + apply st_bitmap. unfold is_u32. lia.
    + lia.
    + unfold is_u32. lia.
    + destruct Hfull as (s' & Hs' & _); [apply zrange_forallb; by vm_compute |]. exists s'. exact Hs'.
Defined.

(** Seven bits taken: asked for two, the search returns bits 7 and 8. *)
Lemma bitmap_scan_overruns_witness : bitmap_scan 0x1000 2 (st 0x7f) = Done 7 (st 0x7f).
Proof.
  apply (bitmap_scan_overruns (st 0x7f) is_u32 (flat_at (mem_with 0x7f)) 0x1000 0x2000 1 2).
  - apply flat_backs.
  - apply st_bitmap. unfold is_u32. lia.
  - lia.
  - intros i Hi Hi2 Hf. apply free_runb_spec in Hf.
    assert (negb (free_runb (flat_at (mem_with 0x7f)) 0x2000 i 2) = true) as Hn.
    { apply (zrange_forallb (fun i => negb (free_runb (flat_at (mem_with 0x7f)) 0x2000 i 2)) 7);
        [by vm_compute | lia]. }
    rewrite Hf in Hn. discriminate.
  - apply free_runb_spec. by vm_compute.
Defined.

Lemma bitmap_scan_terminates_witness :
  exists r, bitmap_scan 0x1000 0 (st 0x2b) = Done r (st 0x2b) /\ -1 <= r <= 9.
Proof.
  destruct (bitmap_scan_terminates (st 0x2b) is_u32 (flat_at (mem_with 0x2b)) 0x1000 0x2000 1 0)
    as [(r & H1 & H2 & _) | (s' & _ & _ & Hall)].
  - apply flat_backs.
  - apply st_bitmap. unfold is_u32. lia.
  - unfold is_u32. lia.
  - by exists r.
  - specialize (Hall 2 ltac:(lia)). by vm_compute in Hall.
Defined.

Lemma bitmap_scan_full_panics_witness :
  exists s', bitmap_scan 0x1000 1 (st 0xff) = Panic (mk_panic "lib/kernel/bitmap.c" 19
    "bitmap_scan" "idx_byte < btmp->btmp_bytes_len") s' /\ kmem s' = mem_with 0xff.
Proof.
  apply (bitmap_scan_full_panics (st 0xff) is_u32 (flat_at (mem_with 0xff)) 0x1000 0x2000 1 1).
  - apply flat_backs.
  - apply st_bitmap. unfold is_u32. lia.
  - apply zrange_forallb. by vm_compute.
Defined.
End examples.
