(* ===== verification/DList.v ===== *)
(** lib/kernel/list.[ch]: intrusive doubly linked lists with a head and a tail
    node, in memory, and their refinement of finite sequences. *)

From S2P Require Import Prelude Monad RawMem Machine.

(** ** The routines

    struct list_elem: [prev] at offset 0, [next] at 4; struct list: the nodes
    [head] at 0 and [tail] at 8. *)

Section code.
Context {M : Type} {RM : RawMem M}.

Definition list_init (list : Z) : K (M := M) unit :=
  st32 list 0;; st32 (list + 4) (list + 8);;
  st32 (list + 8) list;; st32 (list + 12) 0.

Definition list_insert_before (before elem : Z) : K (M := M) unit :=
  do old_status <- intr_disable;
  do p <- ld32 before; st32 (p + 4) elem;;
  do p <- ld32 before; st32 elem p;;
  st32 (elem + 4) before;;
  st32 before elem;;
  intr_set_status old_status;; cret tt.

Definition list_push (plist elem : Z) : K (M := M) unit :=
  do n <- ld32 (plist + 4); list_insert_before n elem.

Definition list_append (plist elem : Z) : K (M := M) unit :=
  list_insert_before (plist + 8) elem.

Definition list_remove (pelem : Z) : K (M := M) unit :=
  do old_status <- intr_disable;
  do p <- ld32 pelem; do n <- ld32 (pelem + 4); st32 (p + 4) n;;
  do n <- ld32 (pelem + 4); do p <- ld32 pelem; st32 n p;;
  intr_set_status old_status;; cret tt.

Definition list_pop (plist : Z) : K (M := M) Z :=
  do elem <- ld32 (plist + 4); list_remove elem;; cret elem.

Definition list_empty (plist : Z) : K (M := M) bool :=
  do n <- ld32 (plist + 4); cret (n =? plist + 8).

Definition list_len (plist : Z) : K (M := M) Z :=
  do elem <- ld32 (plist + 4);
  while_ (fun '(elem, length) =>
    if elem =? plist + 8 then cret (inr length)
    else do n <- ld32 (elem + 4); cret (inl (n, u32 (length + 1)))) (elem, 0).

(** The callback and its argument are parameters, as in the source. *)
Definition list_traversal (plist : Z) (func : Z -> Z -> K (M := M) Z) (arg : Z) : K Z :=
  do elem <- ld32 (plist + 4);
  do e <- list_empty plist;
  if e then cret 0
  else
    while_ (fun elem =>
      if elem =? plist + 8 then cret (inr 0)
      else
        do r <- func elem arg;
        if negb (r =? 0) then cret (inr elem)
        else do n <- ld32 (elem + 4); cret (inl n)) elem.

Definition elem_find (plist obj_elem : Z) : K (M := M) bool :=
  do elem <- ld32 (plist + 4);
  while_ (fun elem =>
    if elem =? plist + 8 then cret (inr false)
    else if elem =? obj_elem then cret (inr true)
    else do n <- ld32 (elem + 4); cret (inl n)) elem.
End code.

(** ** The abstraction: the sequence of nodes between head and tail *)

Definition links (f : Z -> Z) (a b : Z) : Prop := w32 f (a + 4) = b /\ w32 f b = a.

Fixpoint linked (f : Z -> Z) (a : Z) (ys : list Z) : Prop :=
  match ys with [] => True | b :: ys' => links f a b /\ linked f b ys' end.

(** Two nodes do not overlap. *)
Definition apart (a b : Z) : Prop := a + 8 <= b \/ b + 8 <= a.

(** The nodes of the list [l] with elements [xs]. *)
Definition nodes (l : Z) (xs : list Z) : list Z := l :: xs ++ [l + 8].

Record dlist (R : Z -> Prop) (f : Z -> Z) (l : Z) (xs : list Z) : Prop := {
  dl_linked : linked f l (xs ++ [l + 8]);
  dl_nodup : NoDup (nodes l xs);
  dl_apart : forall x y, x ∈ nodes l xs -> y ∈ nodes l xs -> x <> y -> apart x y;
  dl_inside : forall x, x ∈ nodes l xs -> inside R x 8 }.

(** Outside the nodes [ns], the contents [f'] are those of [f]. *)
Definition same_outside (ns : list Z) (f f' : Z -> Z) : Prop :=
  forall a, (forall y, y ∈ ns -> ~ span y 8 a) -> f' a = f a.

Lemma same_outside_w32 ns f f' a : same_outside ns f f' ->
  (forall y, y ∈ ns -> y + 8 <= a \/ a + 4 <= y) -> w32 f' a = w32 f a.
Proof.
  intros Hs Ha. apply w32_ext. intros b Hb. apply Hs. intros y Hy Hyb.
  specialize (Ha y Hy). unfold span in *. lia.
Qed.

Definition lastd (a : Z) (ys : list Z) : Z := default a (last ys).

Lemma lastd_cons a b ys : lastd a (b :: ys) = lastd b ys.
Proof. unfold lastd. rewrite last_cons. by destruct (last ys). Qed.

Lemma lastd_snoc a ys b : lastd a (ys ++ [b]) = b.
Proof. unfold lastd. by rewrite last_snoc. Qed.

Lemma lastd_elem a ys : lastd a ys ∈ a :: ys.
Proof.
  revert a. induction ys as [| b ys IH]; intros a; [by apply list_elem_of_singleton |].
  rewrite lastd_cons. apply elem_of_cons. right. apply IH.
Qed.

Lemma linked_app f a ys zs : linked f a (ys ++ zs) <->
  linked f a ys /\ linked f (lastd a ys) zs.
Proof.
  revert a. induction ys as [| b ys IH]; intros a; cbn [app linked].
  - unfold lastd. cbn. tauto.
  - rewrite IH, lastd_cons. tauto.
Qed.

(** What [linked] reads: the next of every node but the last, the prev of
    every node but the first. *)
Lemma linked_ext f f' a ys : NoDup (a :: ys) ->
  (forall x, x ∈ a :: ys -> x <> lastd a ys -> w32 f' (x + 4) = w32 f (x + 4)) ->
  (forall x, x ∈ ys -> w32 f' x = w32 f x) ->
  linked f a ys -> linked f' a ys.
Proof.
  revert a. induction ys as [| b ys IH]; intros a Hnd Hn Hp; cbn [linked]; [done |].
  intros [[H1 H2] Hl]. apply NoDup_cons in Hnd as [Ha Hnd]. rewrite lastd_cons in Hn. split.
  - split.
    + rewrite Hn; [done | by left | ]. intros ->. apply Ha, lastd_elem.
    + rewrite Hp; [done | by left].
  - apply IH; [done | | | done].
    + intros x Hx. apply Hn. by right.
    + intros x Hx. apply Hp. by right.
Qed.

(** A list does not change when its nodes are not written. *)
Lemma dlist_frame R f f' l xs :
  (forall x a, x ∈ nodes l xs -> span x 8 a -> f' a = f a) ->
  dlist R f l xs -> dlist R f' l xs.
Proof.
  intros Hf [Hl Hnd Hap Hin]. split; try done.
  eapply linked_ext; [done | | | done].
  - intros x Hx _. apply w32_ext. intros b Hb. apply (Hf x); [done |]. unfold span in *. lia.
  - intros x Hx. apply w32_ext. intros b Hb. apply (Hf x); [by right |]. unfold span in *. lia.
Qed.

Lemma dlist_outside R f f' ns l xs : same_outside ns f f' ->
  (forall x y, x ∈ nodes l xs -> y ∈ ns -> apart x y) ->
  dlist R f l xs -> dlist R f' l xs.
Proof.
  intros Hs Hap. apply dlist_frame. intros x a Hx Ha. apply Hs. intros y Hy Hya.
  specialize (Hap x y Hx Hy). unfold apart, span in *. lia.
Qed.

(** The first node after the head, or the tail. *)
Definition hdd (l : Z) (xs : list Z) : Z := default (l + 8) (head xs).

Lemma dlist_first R f l xs : dlist R f l xs -> w32 f (l + 4) = hdd l xs.
Proof. intros [Hl _ _ _]. destruct xs as [| x xs]; cbn in Hl; apply Hl. Qed.

(** Distinct addresses are no more than there are addresses. *)
Lemma nodup_addresses (xs : list Z) N : NoDup xs -> (forall x, x ∈ xs -> 0 <= x < N) ->
  Z.of_nat (length xs) <= Z.max 0 N.
Proof.
  intros Hnd Hx.
  assert (length xs <= length (seqZ 0 N))%nat as Hle.
  { apply submseteq_length, NoDup_submseteq; [done |].
    intros x Hin. apply elem_of_seqZ. specialize (Hx x Hin). lia. }
  rewrite length_seqZ in Hle. lia.
Qed.

(** ** Insertion and removal of contents *)

Definition insert_contents (f : Z -> Z) (b e : Z) : Z -> Z :=
  let p := w32 f b in
  upd32 (upd32 (upd32 (upd32 f (p + 4) e) e p) (e + 4) b) b e.

Definition remove_contents (f : Z -> Z) (e : Z) : Z -> Z :=
  let p := w32 f e in
  let n := w32 f (e + 4) in
  upd32 (upd32 f (p + 4) n) n p.

(** The node at which [xs2] starts in [xs1 ++ xs2]. *)
Lemma dlist_split R f l xs1 xs2 : dlist R f l (xs1 ++ xs2) ->
  exists rest, xs2 ++ [l + 8] = hdd l xs2 :: rest /\
    linked f l xs1 /\ links f (lastd l xs1) (hdd l xs2) /\ linked f (hdd l xs2) rest /\
    nodes l (xs1 ++ xs2) = (l :: xs1) ++ hdd l xs2 :: rest.
Proof.
  intros [Hl _ _ _]. rewrite <- app_assoc in Hl. apply linked_app in Hl as [Hl1 Hl2].
  exists (tail xs2 ++ match xs2 with [] => [] | _ => [l + 8] end).
  unfold nodes, hdd in *. destruct xs2 as [| b xs2]; cbn in *.
  - rewrite app_nil_r. tauto.
  - rewrite <- app_assoc. tauto.
Qed.

Ltac apart_lia := unfold apart, is_u32, span in *; lia.

(** What the four stores of an insertion of [e] between [p] and [b] leave. *)
Lemma insert_reads f b e : let p := w32 f b in let f' := insert_contents f b e in
  apart e p -> apart e b -> apart p b -> is_u32 e -> is_u32 p -> is_u32 b ->
  (links f' p e /\ links f' e b) /\
  (forall x, apart e x -> x = p \/ apart x p -> x = b \/ apart x b ->
     (x <> p -> w32 f' (x + 4) = w32 f (x + 4)) /\ (x <> b -> w32 f' x = w32 f x)) /\
  same_outside [e; p; b] f f'.
Proof.
  intros p f' Hep Heb Hpb He Hp Hb. unfold f', insert_contents, links. fold p.
  split; [| split].
  - repeat split; repeat (rewrite w32_upd32_ne by apart_lia); by apply w32_upd32_eq.
  - intros x Hex Hxp Hxb. split; intros Hne.
    + destruct Hxb as [-> | Hxb]; by rewrite !w32_upd32_ne by apart_lia.
    + destruct Hxp as [-> | Hxp]; by rewrite !w32_upd32_ne by apart_lia.
  - intros a Ha. pose proof (Ha e). pose proof (Ha p). pose proof (Ha b).
    unfold span in *. by rewrite !upd32_ne by (apart_lia || set_solver by lia).
Qed.

(** What the two stores of a removal of [e] between [p] and [n] leave. *)
Lemma remove_reads f e : let p := w32 f e in let n := w32 f (e + 4) in
  let f' := remove_contents f e in
  apart p n -> is_u32 p -> is_u32 n ->
  links f' p n /\
  (forall x, x = p \/ apart x p -> x = n \/ apart x n ->
     (x <> p -> w32 f' (x + 4) = w32 f (x + 4)) /\ (x <> n -> w32 f' x = w32 f x)) /\
  same_outside [p; n] f f'.
Proof.
  intros p n f' Hpn Hp Hn. unfold f', remove_contents, links. fold p n.
  split; [| split].
  - repeat split; repeat (rewrite w32_upd32_ne by apart_lia); by apply w32_upd32_eq.
  - intros x Hxp Hxn. split; intros Hne.
    + destruct Hxn as [-> | Hxn]; by rewrite !w32_upd32_ne by apart_lia.
    + destruct Hxp as [-> | Hxp]; by rewrite !w32_upd32_ne by apart_lia.
  - intros a Ha. pose proof (Ha p). pose proof (Ha n).
    unfold span in *. by rewrite !upd32_ne by (apart_lia || set_solver by lia).
Qed.

(** The two pieces of a list around an insertion or a removal. *)
Lemma linked_pieces f f' l xs1 b rest :
  NoDup ((l :: xs1) ++ b :: rest) ->
  (forall x, x ∈ (l :: xs1) ++ b :: rest ->
     (x <> lastd l xs1 -> w32 f' (x + 4) = w32 f (x + 4)) /\ (x <> b -> w32 f' x = w32 f x)) ->
  linked f l xs1 -> linked f b rest -> linked f' l xs1 /\ linked f' b rest.
Proof.
  intros Hnd Hx Hl1 Hl2. apply NoDup_app in Hnd as (Hnd1 & Hdj & Hnd2).
  pose proof (lastd_elem l xs1) as Hp.
  assert (forall x, x ∈ l :: xs1 -> x <> b) as Hb by (intros x Hin ->; apply (Hdj b Hin); by left).
  assert (forall x, x ∈ b :: rest -> x <> lastd l xs1) as Hpr by (intros x Hin ->; by apply (Hdj _ Hp)).
  split; (eapply linked_ext; [done | | | done]).
  - intros x Hin Hne. apply (proj1 (Hx x ltac:(apply elem_of_app; by left))). done.
  - intros x Hin. apply (proj2 (Hx x ltac:(apply elem_of_app; left; by right))).
    apply Hb. by right.
  - intros x Hin _. apply (proj1 (Hx x ltac:(apply elem_of_app; by right))). by apply Hpr.
  - intros x Hin. apply (proj2 (Hx x ltac:(apply elem_of_app; right; by right))).
    intros ->. by apply NoDup_cons in Hnd2 as [? _].
Qed.

Lemma nodes_middle l xs1 e xs2 : nodes l (xs1 ++ e :: xs2) ≡ₚ e :: nodes l (xs1 ++ xs2).
Proof.
  unfold nodes. rewrite <- !app_assoc. cbn [app].
  change (l :: xs1 ++ e :: xs2 ++ [l + 8]) with ((l :: xs1) ++ e :: (xs2 ++ [l + 8])).
  symmetry. apply (Permutation_middle (l :: xs1)).
Qed.

(** The nodes of a list, its structure apart: what an insertion adds to. *)
Lemma nodes_insert R f f' l xs1 e xs2 : dlist R f l (xs1 ++ xs2) -> inside R e 8 ->
  (forall y, y ∈ nodes l (xs1 ++ xs2) -> apart e y) ->
  linked f' l ((xs1 ++ e :: xs2) ++ [l + 8]) -> dlist R f' l (xs1 ++ e :: xs2).
Proof.
  intros [_ Hnd Hsep Hin] He Hap Hl. split; [done | | |].
  - rewrite nodes_middle. apply NoDup_cons. split; [| done]. intros Hc.
    specialize (Hap e Hc). apart_lia.
  - intros x y. rewrite nodes_middle, !elem_of_cons. intros [-> | Hx] [-> | Hy] Hne.
    + done.
    + by apply Hap.
    + specialize (Hap x Hx). apart_lia.
    + by apply Hsep.
  - intros x. rewrite nodes_middle, elem_of_cons. intros [-> | Hx]; auto.
Qed.

Lemma nodes_remove R f f' l xs1 e xs2 : dlist R f l (xs1 ++ e :: xs2) ->
  linked f' l ((xs1 ++ xs2) ++ [l + 8]) -> dlist R f' l (xs1 ++ xs2).
Proof.
  intros [_ Hnd Hsep Hin] Hl. rewrite nodes_middle in Hnd.
  apply NoDup_cons in Hnd as [_ Hnd]. split; [done | done | |].
  - intros x y Hx Hy. apply Hsep; rewrite nodes_middle; by right.
  - intros x Hx. apply Hin. rewrite nodes_middle. by right.
Qed.

Section contents.
Context {M : Type} {RM : RawMem M} {RL : RawMemLaws M}.

Lemma dlist_node_u32 (m : M) R f l xs x : backs m R f -> dlist R f l xs ->
  x ∈ nodes l xs -> is_u32 x.
Proof.
  intros Hb [_ _ _ Hin] Hx. eapply backs_addr; [done |].
  specialize (Hin x Hx). region.
Qed.

Lemma insert_dlist (m : M) R f l xs1 xs2 e : backs m R f ->
  dlist R f l (xs1 ++ xs2) -> inside R e 8 ->
  (forall y, y ∈ nodes l (xs1 ++ xs2) -> apart e y) ->
  let b := hdd l xs2 in
  dlist R (insert_contents f b e) l (xs1 ++ e :: xs2) /\
  w32 f b ∈ nodes l (xs1 ++ xs2) /\ b ∈ nodes l (xs1 ++ xs2) /\ apart (w32 f b) b /\
  same_outside (e :: nodes l (xs1 ++ xs2)) f (insert_contents f b e).
Proof.
  intros Hb Hd He Hap b.
  destruct (dlist_split _ _ _ _ _ Hd) as (rest & Htl & Hl1 & [Hpb Hbp] & Hl2 & Hns).
  fold b in Htl, Hpb, Hbp, Hl2, Hns. set (p := lastd l xs1) in *.
  assert (p ∈ nodes l (xs1 ++ xs2)) as Hp by (rewrite Hns; apply elem_of_app; left; apply lastd_elem).
  assert (b ∈ nodes l (xs1 ++ xs2)) as Hbn by (rewrite Hns; apply elem_of_app; right; by left).
  assert (p <> b) as Hne.
  { destruct Hd as [_ Hnd _ _]. rewrite Hns in Hnd. apply NoDup_app in Hnd as (_ & Hdj & _).
    intros He'. apply (Hdj p (lastd_elem _ _)). rewrite He'. by left. }
  pose proof (dl_apart _ _ _ _ Hd p b Hp Hbn Hne) as Hpb'. rewrite Hbp.
  destruct (insert_reads f b e) as ([Hpe Heb] & Hreads & Hout); rewrite ?Hbp in *;
    [by apply Hap | by apply Hap | done | eapply backs_addr; [done | region]
    | by eapply dlist_node_u32 | by eapply dlist_node_u32 |].
  split; [| split; [done | split; [done | split; [done |]]]].
  - eapply nodes_insert; [done .. |]. rewrite <- app_assoc. cbn [app]. rewrite Htl.
    destruct (linked_pieces f (insert_contents f b e) l xs1 b rest) as [Hl1' Hl2'];
      [rewrite <- Hns; apply Hd | | done | done |].
    + rewrite <- Hns. intros x Hx. apply Hreads; [by apply Hap | |].
      * destruct (Z.eq_dec x p); [by left | right; by apply Hd].
      * destruct (Z.eq_dec x b); [by left | right; by apply Hd].
    + apply linked_app. split; [done |]. fold p. cbn [linked]. done.
  - intros a Ha. apply Hout. intros y. rewrite !elem_of_cons.
    intros [-> | [-> | [-> | Hy]]]; [apply Ha; by left | apply Ha; by right | apply Ha; by right |].
    by apply not_elem_of_nil in Hy.
Qed.

Lemma remove_dlist (m : M) R f l xs1 e xs2 : backs m R f ->
  dlist R f l (xs1 ++ e :: xs2) ->
  let p := w32 f e in let n := w32 f (e + 4) in
  dlist R (remove_contents f e) l (xs1 ++ xs2) /\
  p ∈ nodes l (xs1 ++ xs2) /\ n ∈ nodes l (xs1 ++ xs2) /\ apart p n /\
  apart e p /\ apart e n /\
  same_outside (nodes l (xs1 ++ xs2)) f (remove_contents f e).
Proof.
  intros Hb Hd p n.
  destruct (dlist_split _ _ _ _ _ Hd) as (rest' & Htl' & Hl1 & [Hpe Hep] & Hl2 & _).
  cbn [app] in Htl'. injection Htl' as Htl'.
  unfold hdd in *. cbn in Hpe, Hep, Hl2. rewrite <- Htl' in Hl2.
  assert (exists rest, xs2 ++ [l + 8] = n :: rest /\ linked f n rest /\ w32 f n = e)
    as (rest & Htl & Hl3 & Hne).
  { destruct (xs2 ++ [l + 8]) as [| n' rest] eqn:Hx2; [by destruct xs2 |].
    cbn [linked] in Hl2. destruct Hl2 as [[Hn1 Hn2] Hl2].
    unfold n. exists rest. rewrite Hn1. done. }
  assert (nodes l (xs1 ++ xs2) = (l :: xs1) ++ n :: rest) as Hns.
  { unfold nodes. rewrite <- app_assoc, Htl. done. }
  assert (lastd l xs1 = p) as Hp by (unfold p; by rewrite <- Hep).
  pose proof (lastd_elem l xs1) as Hpin.
  pose proof (dl_nodup _ _ _ _ Hd) as Hnd. rewrite nodes_middle, Hns in Hnd.
  apply NoDup_cons in Hnd as [Hen Hnd]. rewrite Hp in Hpin.
  assert (p ∈ nodes l (xs1 ++ xs2)) as Hpn by (rewrite Hns; apply elem_of_app; by left).
  assert (n ∈ nodes l (xs1 ++ xs2)) as Hnn by (rewrite Hns; apply elem_of_app; right; by left).
  assert (forall x y, x ∈ e :: nodes l (xs1 ++ xs2) -> y ∈ e :: nodes l (xs1 ++ xs2) -> x <> y -> apart x y)
    as Hsep by (intros x y; rewrite <- nodes_middle; apply Hd).
  assert (p <> n) as Hpn'.
  { intros He2. apply NoDup_app in Hnd as (_ & Hdj & _). apply (Hdj p Hpin). rewrite He2. by left. }
  assert (apart p n) as Hap by (apply Hsep; [by right .. | done]).
  assert (forall x, x ∈ nodes l (xs1 ++ xs2) -> is_u32 x) as Hu.
  { intros x Hx. eapply dlist_node_u32; [done | done |]. rewrite nodes_middle. by right. }
  destruct (remove_reads f e) as (Hlk & Hreads & Hout); [done | by apply Hu | by apply Hu |].
  fold p n in Hlk, Hreads, Hout.
  split; [| repeat (split; [done |])].
  - eapply nodes_remove; [done |]. rewrite <- app_assoc, Htl.
    destruct (linked_pieces f (remove_contents f e) l xs1 n rest) as [Hl1' Hl2']; [done | | done | done |].
    + rewrite <- Hns, Hp. intros x Hx. apply Hreads.
      * destruct (Z.eq_dec x p); [by left | right; apply Hsep; [by right .. | done]].
      * destruct (Z.eq_dec x n); [by left | right; apply Hsep; [by right .. | done]].
    + apply linked_app. split; [done |]. rewrite Hp. cbn [linked]. done.
  - rewrite <- Hns in Hen.
    split; [apply Hsep; [by left | by right | by intros <-] |].
    split; [apply Hsep; [by left | by right | by intros <-] |].
    intros a Ha. apply Hout. intros y. rewrite !elem_of_cons.
    intros [-> | [-> | Hy]]; [by apply Ha | by apply Ha |]. by apply not_elem_of_nil in Hy.
Qed.
End contents.

(** ** Specifications *)

Section spec.
Context {M : Type} {RM : RawMem M} {RL : RawMemLaws M}.
Implicit Types (s : kstate M) (R : Z -> Prop) (f : Z -> Z).

Lemma dlist_inside R f l xs x k : dlist R f l xs -> x ∈ nodes l xs -> 0 <= k <= 4 ->
  inside R (x + k) 4.
Proof. intros Hd Hx Hk. pose proof (dl_inside _ _ _ _ Hd x Hx). region. Qed.

Lemma head_node l xs : l ∈ nodes l xs.
Proof. by left. Qed.
Lemma tail_node l xs : l + 8 ∈ nodes l xs.
Proof. unfold nodes. right. apply elem_of_app. right. by left. Qed.
Lemma elem_node l xs x : x ∈ xs -> x ∈ nodes l xs.
Proof. intros Hx. unfold nodes. right. apply elem_of_app. by left. Qed.

Lemma wp_next G s R f l xs x (Q : Z -> kstate M -> Prop) :
  backs (kmem s) R f -> dlist R f l xs -> x ∈ nodes l xs ->
  Q (w32 f (x + 4)) s -> wp G (ld32 (x + 4)) s Q.
Proof.
  intros Hb Hd Hx HQ. eapply wp_ld32; [done | eapply dlist_inside; [done | done | lia] | done].
Qed.

Lemma wp_prev G s R f l xs x (Q : Z -> kstate M -> Prop) :
  backs (kmem s) R f -> dlist R f l xs -> x ∈ nodes l xs ->
  Q (w32 f x) s -> wp G (ld32 x) s Q.
Proof.
  intros Hb Hd Hx HQ. rewrite <- (Z.add_0_r x) at 1.
  eapply wp_ld32; [done | eapply dlist_inside; [done | done | lia] |].
  by rewrite Z.add_0_r.
Qed.

Lemma wp_list_init G s R f l (Q : unit -> kstate M -> Prop) :
  backs (kmem s) R f -> inside R l 16 ->
  (forall m f', backs m R f' -> dlist R f' l [] ->
     (forall a, ~ span l 16 a -> f' a = f a) -> Q tt (set_mem m s)) ->
  wp G (list_init l) s Q.
Proof.
  intros Hb Hi HQ. unfold list_init.
  pose proof (backs_inside_u32 _ _ _ _ _ Hb Hi ltac:(lia)) as Hl.
  apply wp_bind. eapply wp_st32; [done | region |]. intros m1 H1.
  apply wp_bind. eapply wp_st32; [done | region |]. intros m2 H2.
  apply wp_bind. eapply wp_st32; [done | region |]. intros m3 H3.
  eapply wp_st32; [done | region |]. intros m4 H4.
  eapply HQ; [done | |].
  - split.
    + cbn. repeat split; unfold is_u32;
        repeat (rewrite w32_upd32_ne by lia); apply w32_upd32_eq; unfold is_u32; lia.
    + unfold nodes. cbn. apply NoDup_cons. split; [| apply NoDup_singleton].
      rewrite list_elem_of_singleton. lia.
    + intros x y. unfold nodes. cbn. rewrite !elem_of_cons.
      intros [-> | [-> | Hx]] [-> | [-> | Hy]] Hne; unfold apart; try lia;
        by apply not_elem_of_nil in Hx || by apply not_elem_of_nil in Hy.
    + intros x. unfold nodes. cbn. rewrite !elem_of_cons.
      intros [-> | [-> | Hx]]; [region | region |]. by apply not_elem_of_nil in Hx.
  - intros a Ha. unfold span in Ha. by rewrite !upd32_ne by lia.
Qed.

Lemma wp_list_insert_before G s R f l xs1 xs2 e (Q : unit -> kstate M -> Prop) :
  backs (kmem s) R f -> dlist R f l (xs1 ++ xs2) -> inside R e 8 ->
  (forall y, y ∈ nodes l (xs1 ++ xs2) -> apart e y) ->
  (forall m f', backs m R f' -> dlist R f' l (xs1 ++ e :: xs2) ->
     same_outside (e :: nodes l (xs1 ++ xs2)) f f' -> Q tt (set_mem m s)) ->
  wp G (list_insert_before (hdd l xs2) e) s Q.
Proof.
  intros Hb Hd He Hap HQ.
  destruct (insert_dlist _ _ _ _ _ _ _ Hb Hd He Hap) as (Hd' & Hp & Hbn & Hpb & Hout).
  set (b := hdd l xs2) in *. pose proof (Hap _ Hp) as Hep. pose proof (Hap _ Hbn) as Heb.
  pose proof (dl_inside _ _ _ _ Hd _ Hp) as Hpi. pose proof (dl_inside _ _ _ _ Hd _ Hbn) as Hbi.
  unfold list_insert_before. apply wp_bind, wp_intr_disable.
  apply wp_bind. eapply wp_ld32; [done | region |]. intros _.
  apply wp_bind. eapply wp_st32; [done | region |]. intros m1 H1.
  apply wp_bind. eapply wp_ld32; [done | region |]. intros _.
  rewrite w32_upd32_ne by apart_lia.
  apply wp_bind. eapply wp_st32; [done | region |]. intros m2 H2.
  apply wp_bind. eapply wp_st32; [done | region |]. intros m3 H3.
  apply wp_bind. eapply wp_st32; [done | region |]. intros m4 H4.
  apply wp_bind, wp_intr_set_status, wp_ret. by eapply HQ.
Qed.

Lemma wp_list_append G s R f l xs e (Q : unit -> kstate M -> Prop) :
  backs (kmem s) R f -> dlist R f l xs -> inside R e 8 ->
  (forall y, y ∈ nodes l xs -> apart e y) ->
  (forall m f', backs m R f' -> dlist R f' l (xs ++ [e]) ->
     same_outside (e :: nodes l xs) f f' -> Q tt (set_mem m s)) ->
  wp G (list_append l e) s Q.
Proof.
  intros Hb Hd He Hap HQ. rewrite <- (app_nil_r xs) in Hd, Hap, HQ.
  eapply (wp_list_insert_before G s R f l xs []); [done .. |].
  intros m f' Hm Hd' Hout. eapply HQ; [done | by rewrite app_nil_r | done].
Qed.

Lemma wp_list_push G s R f l xs e (Q : unit -> kstate M -> Prop) :
  backs (kmem s) R f -> dlist R f l xs -> inside R e 8 ->
  (forall y, y ∈ nodes l xs -> apart e y) ->
  (forall m f', backs m R f' -> dlist R f' l (e :: xs) ->
     same_outside (e :: nodes l xs) f f' -> Q tt (set_mem m s)) ->
  wp G (list_push l e) s Q.
Proof.
  intros Hb Hd He Hap HQ. unfold list_push. apply wp_bind.
  eapply wp_next; [done | done | apply head_node |].
  rewrite (dlist_first _ _ _ _ Hd).
  eapply (wp_list_insert_before G s R f l [] xs); done.
Qed.

Lemma wp_list_remove G s R f l xs1 e xs2 (Q : unit -> kstate M -> Prop) :
  backs (kmem s) R f -> dlist R f l (xs1 ++ e :: xs2) ->
  (forall m f', backs m R f' -> dlist R f' l (xs1 ++ xs2) ->
     same_outside (nodes l (xs1 ++ xs2)) f f' -> Q tt (set_mem m s)) ->
  wp G (list_remove e) s Q.
Proof.
  intros Hb Hd HQ.
  destruct (remove_dlist _ _ _ _ _ _ _ Hb Hd) as (Hd' & Hp & Hn & Hpn & Hep & Hen & Hout).
  assert (e ∈ nodes l (xs1 ++ e :: xs2)) as He by (rewrite nodes_middle; by left).
  pose proof (dl_inside _ _ _ _ Hd _ He) as Hei.
  pose proof (dl_inside _ _ _ _ Hd' _ Hp) as Hpi. pose proof (dl_inside _ _ _ _ Hd' _ Hn) as Hni.
  unfold list_remove. apply wp_bind, wp_intr_disable.
  apply wp_bind. eapply wp_ld32; [done | region |]. intros _.
  apply wp_bind. eapply wp_ld32; [done | region |]. intros _.
  apply wp_bind. eapply wp_st32; [done | region |]. intros m1 H1.
  apply wp_bind. eapply wp_ld32; [done | region |]. intros _.
  rewrite w32_upd32_ne by apart_lia.
  apply wp_bind. eapply wp_ld32; [done | region |]. intros _.
  rewrite w32_upd32_ne by apart_lia.
  apply wp_bind. eapply wp_st32; [done | region |]. intros m2 H2.
  apply wp_bind, wp_intr_set_status, wp_ret. by eapply HQ.
Qed.

Lemma wp_list_pop G s R f l x xs (Q : Z -> kstate M -> Prop) :
  backs (kmem s) R f -> dlist R f l (x :: xs) ->
  (forall m f', backs m R f' -> dlist R f' l xs ->
     same_outside (nodes l xs) f f' -> Q x (set_mem m s)) ->
  wp G (list_pop l) s Q.
Proof.
  intros Hb Hd HQ. unfold list_pop. apply wp_bind.
  eapply wp_next; [done | done | apply head_node |].
  rewrite (dlist_first _ _ _ _ Hd). cbn. apply wp_bind.
  eapply (wp_list_remove G s R f l [] x xs); [done | done |].
  intros m f' Hm Hd' Hout. apply wp_ret. by eapply HQ.
Qed.

Lemma dlist_nonempty R f l xs x : dlist R f l xs -> x ∈ xs -> (x =? l + 8) = false.
Proof.
  intros [_ Hnd _ _] Hx. apply Z.eqb_neq. intros ->. unfold nodes in Hnd.
  apply NoDup_cons in Hnd as [_ Hnd]. apply NoDup_app in Hnd as (_ & Hdj & _).
  apply (Hdj _ Hx). by left.
Qed.

Lemma wp_list_empty G s R f l xs (Q : bool -> kstate M -> Prop) :
  backs (kmem s) R f -> dlist R f l xs ->
  Q (bool_decide (xs = [])) s -> wp G (list_empty l) s Q.
Proof.
  intros Hb Hd HQ. unfold list_empty. apply wp_bind.
  eapply wp_next; [done | done | apply head_node |].
  rewrite (dlist_first _ _ _ _ Hd). apply wp_ret. destruct xs as [| x xs]; cbn.
  - by rewrite Z.eqb_refl.
  - by rewrite (dlist_nonempty _ _ _ _ _ Hd) by by left.
Qed.

(** Walking along a list: [xs1] has been passed, [xs2] is still to come. *)
Lemma walk_step R f l xs1 x xs2 : dlist R f l (xs1 ++ x :: xs2) ->
  w32 f (x + 4) = hdd l xs2.
Proof.
  intros [Hl _ _ _]. rewrite <- app_assoc in Hl. apply linked_app in Hl as [_ Hl].
  cbn in Hl. destruct Hl as [_ Hl]. destruct xs2 as [| y xs2]; cbn in Hl; apply Hl.
Qed.

Lemma dlist_length (m : M) R f l xs : backs m R f -> dlist R f l xs ->
  Z.of_nat (length xs) + 2 <= 4294967296.
Proof.
  intros Hb Hd. pose proof (nodup_addresses (nodes l xs) 4294967296 (dl_nodup _ _ _ _ Hd)) as Hn.
  unfold nodes in Hn. cbn in Hn. rewrite length_app in Hn. cbn in Hn.
  enough (Z.of_nat (S (length xs + 1)) <= Z.max 0 4294967296) by lia.
  apply Hn. intros x Hx. by eapply dlist_node_u32.
Qed.

(** The generic loop over the elements: it stops at the first element on
    which the round leaves the loop, or at the tail. *)
Lemma wp_walk {Y A : Type} (el : Y -> Z) G (body : Y -> K (M := M) (Y + A)) s R f l xs y0
  (I : list Z -> Y -> Prop) (Q : A -> kstate M -> Prop) :
  backs (kmem s) R f -> dlist R f l xs -> I [] y0 -> el y0 = hdd l xs ->
  (forall y, I xs y -> el y = l + 8 -> wp G (body y) s (fun r s' =>
     match r with inl _ => False | inr a => Q a s' end)) ->
  (forall xs1 e xs2 y, xs = xs1 ++ e :: xs2 -> I xs1 y -> el y = e ->
     wp G (body y) s (fun r s' =>
       match r with
       | inl y' => s' = s /\ el y' = w32 f (e + 4) /\ I (xs1 ++ [e]) y'
       | inr a => Q a s' end)) ->
  wp G (while_ body y0) s Q.
Proof.
  intros Hb Hd HI0 Hel Hend Hstep.
  eapply (wp_while _ _ (fun n y s' => exists xs1 xs2, s' = s /\ xs = xs1 ++ xs2 /\
    el y = hdd l xs2 /\ n = S (length xs2) /\ I xs1 y) _ (S (length xs))).
  - intros n y s' (xs1 & xs2 & -> & Hxs & He & -> & HI). destruct xs2 as [| e xs2].
    + rewrite app_nil_r in Hxs. subst xs1. eapply wp_mono; [by apply Hend |].
      intros [r | a] s' Hr; [done | done].
    + eapply wp_mono; [by eapply Hstep |].
      intros [y' | a] s' Hr; [| done]. destruct Hr as (-> & Hy' & HI').
      exists (S (length xs2)). split; [cbn; lia |]. exists (xs1 ++ [e]), xs2.
      rewrite <- app_assoc, Hy'. repeat (split; [done |]). split; [| done].
      eapply walk_step. by rewrite <- Hxs.
  - exists [], xs. done.
  - pose proof (dlist_length _ _ _ _ _ Hb Hd). bounded.
Qed.

Lemma wp_list_len G s R f l xs (Q : Z -> kstate M -> Prop) :
  backs (kmem s) R f -> dlist R f l xs -> Q (Z.of_nat (length xs)) s ->
  wp G (list_len l) s Q.
Proof.
  intros Hb Hd HQ. unfold list_len. apply wp_bind.
  eapply wp_next; [done | done | apply head_node |]. rewrite (dlist_first _ _ _ _ Hd).
  pose proof (dlist_length _ _ _ _ _ Hb Hd) as Hlen.
  eapply (wp_walk fst _ _ _ _ _ _ _ _ (fun xs1 y => y.2 = Z.of_nat (length xs1))); try done.
  - intros [e c] Hc He. cbn in *. rewrite He, Z.eqb_refl, Hc. by apply wp_ret.
  - intros xs1 e xs2 [e' c] Hxs Hc He. cbn in *. subst e' c.
    assert (e ∈ xs) as Hin by (rewrite Hxs; apply elem_of_app; right; by left).
    rewrite (dlist_nonempty _ _ _ _ _ Hd) by done.
    apply wp_bind. eapply wp_next; [done | done | by apply elem_node |].
    apply wp_ret. cbn. split; [done |]. split; [done |].
    rewrite Hxs, length_app in Hlen. cbn in Hlen.
    rewrite u32_small by (unfold is_u32; lia). rewrite length_app. cbn. lia.
Qed.

Lemma wp_elem_find G s R f l xs x (Q : bool -> kstate M -> Prop) :
  backs (kmem s) R f -> dlist R f l xs -> Q (bool_decide (x ∈ xs)) s ->
  wp G (elem_find l x) s Q.
Proof.
  intros Hb Hd HQ. unfold elem_find. apply wp_bind.
  eapply wp_next; [done | done | apply head_node |]. rewrite (dlist_first _ _ _ _ Hd).
  eapply (wp_walk (fun e => e) _ _ _ _ _ _ _ _ (fun xs1 _ => x ∉ xs1)); try done.
  - intros Hin. by apply not_elem_of_nil in Hin.
  - intros y Hx ->. rewrite Z.eqb_refl. apply wp_ret.
    by rewrite (bool_decide_false _ Hx) in HQ.
  - intros xs1 e xs2 y Hxs Hx ->.
    assert (e ∈ xs) as Hin by (rewrite Hxs; apply elem_of_app; right; by left).
    rewrite (dlist_nonempty _ _ _ _ _ Hd) by done.
    destruct (Z.eqb_spec e x) as [-> | Hne].
    + apply wp_ret. by rewrite bool_decide_true in HQ.
    + apply wp_bind. eapply wp_next; [done | done | by apply elem_node |].
      apply wp_ret. split; [done |]. split; [done |].
      rewrite not_elem_of_app, list_elem_of_singleton. split; [done | congruence].
Qed.

(** The first element that satisfies the callback (which only computes). *)
Fixpoint first_such (P : Z -> bool) (xs : list Z) : Z :=
  match xs with [] => 0 | x :: xs' => if P x then x else first_such P xs' end.

Lemma first_such_app P xs1 xs2 : Forall (fun x => P x = false) xs1 ->
  first_such P (xs1 ++ xs2) = first_such P xs2.
Proof. induction 1 as [| x xs1 Hx _ IH]; cbn; [done |]. by rewrite Hx. Qed.

Lemma wp_list_traversal G s R f l xs func arg P (Q : Z -> kstate M -> Prop) :
  backs (kmem s) R f -> dlist R f l xs ->
  (forall x, x ∈ xs -> exists v, func x arg s = Done v s /\ (v =? 0) = negb (P x)) ->
  Q (first_such P xs) s -> wp G (list_traversal l func arg) s Q.
Proof.
  intros Hb Hd Hf HQ. unfold list_traversal. apply wp_bind.
  eapply wp_next; [done | done | apply head_node |]. rewrite (dlist_first _ _ _ _ Hd).
  apply wp_bind. eapply wp_list_empty; [done | done |].
  case_bool_decide as Hxs; [subst xs; by apply wp_ret |].
  eapply (wp_walk (fun e => e) _ _ _ _ _ _ _ _ (fun xs1 _ => Forall (fun x => P x = false) xs1));
    try done.
  - intros y Hx ->. rewrite Z.eqb_refl. apply wp_ret.
    rewrite <- (app_nil_r xs), first_such_app in HQ by done. done.
  - intros xs1 e xs2 y Hxs12 Hx ->.
    assert (e ∈ xs) as Hin by (rewrite Hxs12; apply elem_of_app; right; by left).
    rewrite (dlist_nonempty _ _ _ _ _ Hd) by done.
    destruct (Hf e Hin) as (v & Hv & Hz). apply wp_bind. unfold wp at 1. rewrite Hv. cbn [wpo].
    rewrite Hz, negb_involutive. destruct (P e) eqn:HPe.
    + apply wp_ret. rewrite Hxs12, first_such_app in HQ by done. cbn in HQ. by rewrite HPe in HQ.
    + apply wp_bind. eapply wp_next; [done | done | by apply elem_node |].
      apply wp_ret. split; [done |]. split; [done |].
      apply Forall_app. split; [done | by constructor].
Qed.
End spec.

(** ** Properties *)

Section properties.
Context {M : Type} {RM : RawMem M} {RL : RawMemLaws M}.

(** C33. The list routines implement a sequence: append adds at the end, push at
    the front, remove takes out any element, pop returns and takes the first;
    none writes outside the nodes involved. *)
Theorem list_refines_sequence (s : kstate M) R f l xs e :
  backs (kmem s) R f -> dlist R f l xs -> inside R e 8 ->
  (forall y, y ∈ nodes l xs -> apart e y) ->
  (exists f', runs_to (list_append l e) s tt R f' /\ dlist R f' l (xs ++ [e]) /\
     same_outside (e :: nodes l xs) f f') /\
  (exists f', runs_to (list_push l e) s tt R f' /\ dlist R f' l (e :: xs) /\
     same_outside (e :: nodes l xs) f f') /\
  (forall xs1 x xs2, xs = xs1 ++ (x :: xs2) ->
     exists f', runs_to (list_remove x) s tt R f' /\ dlist R f' l (xs1 ++ xs2) /\
  same_outside (nodes l (xs1 ++ xs2)) f f') /\
  (forall x xs2, xs = x :: xs2 ->
     exists f', runs_to (list_pop l) s x R f' /\ dlist R f' l xs2 /\
  same_outside (nodes l xs2) f f').
Proof.
  intros Hb Hd He Hap.
  assert (forall A (c : K (M := M) A) r (P : (Z -> Z) -> Prop),
    (forall Q : A -> kstate M -> Prop,
       (forall m f', backs m R f' -> P f' -> Q r (set_mem m s)) -> wp seq_only c s Q) ->
    exists f', runs_to c s r R f' /\ P f') as Hrun.
  { intros A c r P Hw.
    destruct (proj1 (wp_seq_only c s (fun a s' => a = r /\ exists m f', s' = set_mem m s /\
  backs m R f' /\ P f'))) as (a & s' & Hc & -> & m & f' & -> & Hm & HP).
    { apply Hw. eauto 10. }
    exists f'. split; [by exists m | done]. }
  split; [| split; [| split]].
  - apply (Hrun _ _ _ (fun f' => _ /\ _)). intros Q HQ.
    eapply wp_list_append; [done .. |]. intros m f' Hm H1 H2. by eapply HQ.
  - apply (Hrun _ _ _ (fun f' => _ /\ _)). intros Q HQ.
    eapply wp_list_push; [done .. |]. intros m f' Hm H1 H2. by eapply HQ.
  - intros xs1 x xs2 ->. apply (Hrun _ _ _ (fun f' => _ /\ _)). intros Q HQ.
    eapply wp_list_remove; [done .. |]. intros m f' Hm H1 H2. by eapply HQ.
  - intros x xs2 ->. apply (Hrun _ _ _ (fun f' => _ /\ _)). intros Q HQ.
    eapply wp_list_pop; [done .. |]. intros m f' Hm H1 H2. by eapply HQ.
Qed.

(** The queries: emptiness, length, membership and the first element that
    satisfies a predicate; they end and change nothing. *)
Theorem list_queries (s : kstate M) R f l xs x (P : Z -> bool) arg :
  backs (kmem s) R f -> dlist R f l xs ->
  list_empty l s = Done (bool_decide (xs = [])) s /\
  list_len l s = Done (Z.of_nat (length xs)) s /\
  elem_find l x s = Done (bool_decide (x ∈ xs)) s /\
  list_traversal l (fun e _ => cret (if P e then 1 else 0)) arg s = Done (first_such P xs) s.
Proof.
  intros Hb Hd. repeat split; apply returns_wp; intros Q HQ.
  - eapply wp_list_empty; eauto.
  - eapply wp_list_len; eauto.
  - eapply wp_elem_find; eauto.
  - eapply wp_list_traversal; [done | done | | done].
    intros e He. eexists. split; [done |]. by destruct (P e).
Qed.
End properties.

(** ** Deciding on concrete contents *)

Fixpoint linkedb (f : Z -> Z) (a : Z) (ys : list Z) : bool :=
  match ys with
  | [] => true
  | b :: ys' => (w32 f (a + 4) =? b) && (w32 f b =? a) && linkedb f b ys'
  end.

(** Ordered by address so that one pass shows the nodes apart. *)
Definition apartb (xs : list Z) : bool :=
  forallb (fun x => forallb (fun y =>
    (x =? y) || (x + 8 <=? y) || (y + 8 <=? x)) xs) xs.

Definition dlistb (f : Z -> Z) (l : Z) (xs : list Z) : bool :=
  linkedb f l (xs ++ [l + 8]) && bool_decide (NoDup (nodes l xs)) &&
  apartb (nodes l xs) &&
  forallb (fun x => (0 <=? x) && (x + 8 <=? 4294967296)) (nodes l xs).

Lemma linkedb_spec f a ys : linkedb f a ys = true -> linked f a ys.
Proof.
  revert a. induction ys as [| b ys IH]; intros a; cbn; [done |].
  rewrite !andb_true_iff, !Z.eqb_eq. intros [[H1 H2] H3].
  split; [by split | by apply IH].
Qed.

Lemma apartb_spec xs : apartb xs = true ->
  forall x y, x ∈ xs -> y ∈ xs -> x <> y -> apart x y.
Proof.
  unfold apartb. rewrite forallb_forall. intros Ha x y Hx Hy Hne.
  apply list_elem_of_In in Hx, Hy. specialize (Ha x Hx).
  rewrite forallb_forall in Ha. specialize (Ha y Hy). unfold apart. lia.
Qed.

Lemma dlistb_spec f l xs : dlistb f l xs = true -> dlist is_u32 f l xs.
Proof.
  unfold dlistb. rewrite !andb_true_iff, forallb_forall. intros [[[H1 H2] H3] H4]. split.
  - by apply linkedb_spec.
  - by apply bool_decide_eq_true in H2.
  - by apply apartb_spec.
  - intros x Hx b Hb. apply list_elem_of_In in Hx. specialize (H4 x Hx).
    unfold span, is_u32 in *. lia.
Qed.

(** The words of a list in memory. *)
Fixpoint link_words (a : Z) (ys : list Z) : list (Z * Z) :=
  match ys with [] => [] | b :: ys' => (a + 4, b) :: (b, a) :: link_words b ys' end.
Definition dlist_words (l : Z) (xs : list Z) : list (Z * Z) := link_words l (xs ++ [l + 8]).

Module examples.
#[local] Existing Instance demo_layout.
(** A list at 0x1000 with the elements 0x3000, 0x2000, 0x4000. *)
Definition mem : flat := flat_of (dlist_words 0x1000 [0x3000; 0x2000; 0x4000]).
Definition st : kstate flat := machine_of mem.

Lemma st_dlist : dlist is_u32 (flat_at mem) 0x1000 [0x3000; 0x2000; 0x4000].
Proof. apply dlistb_spec. by vm_compute. Qed.

Lemma list_refines_sequence_witness :
  exists f', runs_to (list_append 0x1000 0x5000) st tt is_u32 f' /\
    dlist is_u32 f' 0x1000 [0x3000; 0x2000; 0x4000; 0x5000].
Proof.
  unshelve epose proof (list_refines_sequence st is_u32 (flat_at mem) 0x1000
    [0x3000; 0x2000; 0x4000] 0x5000 _ st_dlist _ _) as (Ha & _).
  - apply flat_backs.
  - intros b Hb. unfold span, is_u32 in *. lia.
  - intros y Hy. apply list_elem_of_In in Hy. cbn in Hy. unfold apart.
    intuition (subst; lia).
  - destruct Ha as (f' & Hr & Hd & _). exists f'. split; [exact Hr | exact Hd].
Defined.

Lemma list_queries_witness :
  list_len 0x1000 st = Done 3 st /\ elem_find 0x1000 0x2000 st = Done true st.
Proof.
  unshelve epose proof (list_queries st is_u32 (flat_at mem) 0x1000
    [0x3000; 0x2000; 0x4000] 0x2000 (fun _ => true) 0 _ st_dlist) as (_ & Hlen & Hf & _).
  - apply flat_backs.
  - split; [exact Hlen | exact Hf].
Defined.
End examples.
