(* ===== verification/Thread.v ===== *)
(** thread/thread.[ch] and thread/switch.S: the scheduler.  The PCB, the
    operations [schedule], [thread_block], [thread_unblock] and [switch_to],
    the abstract scheduler they implement and its invariant.  Creating threads
    is in Task.v. *)

From S2P Require Import Prelude Monad RawMem Machine DList.

(** ** Data *)

(** enum task_status. *)
Inductive task_status :=
| TASK_RUNNING | TASK_READY | TASK_BLOCKED | TASK_WAITING | TASK_HANDGING | TASK_DIED.
#[global] Instance task_status_eq_dec : EqDecision task_status.
Proof. solve_decision. Defined.

Definition code (st : task_status) : Z :=
  match st with
  | TASK_RUNNING => 0 | TASK_READY => 1 | TASK_BLOCKED => 2
  | TASK_WAITING => 3 | TASK_HANDGING => 4 | TASK_DIED => 5
  end.

(** struct task_struct: the addresses of its members (i386 layout). *)
Definition self_kstack (t : Z) : Z := t.
Definition pid (t : Z) : Z := t + 4.
Definition status (t : Z) : Z := t + 8.
Definition priority (t : Z) : Z := t + 12.
Definition name (t : Z) : Z := t + 13.
Definition ticks_left (t : Z) : Z := t + 29.
Definition elapsed_ticks (t : Z) : Z := t + 32.
Definition general_tag (t : Z) : Z := t + 36.
Definition all_list_tag (t : Z) : Z := t + 44.
Definition pgdir (t : Z) : Z := t + 52.
Definition userprog_vaddr (t : Z) : Z := t + 56.
Definition stack_magic (t : Z) : Z := t + 68.
Definition task_struct_size : Z := 72.

(** elem2entry(struct task_struct, general_tag, e). *)
Definition general_entry (e : Z) : Z := e - 36.

Definition set_thread_tag (x : Z) (v : kvars) : kvars :=
  mk_kvars (main_thread v) x (next_pid v) (ticks v) (ctrl_status v)
    (shift_status v) (alt_status v) (caps_lock_status v) (ext_scancode v).

(** The statuses of a thread that has given up the processor. *)
Definition waiting_code (st : Z) : bool :=
  (code TASK_BLOCKED =? st) || (code TASK_WAITING =? st) || (code TASK_HANDGING =? st).

(** ** The code *)

Section code.
Context {M : Type} {RM : RawMem M} {LY : Layout}.

(** [switch_to]: save the stack pointer in the PCB of [cur], load that of
    [next]; from here the other thread runs, until this one is switched to. *)
Definition switch_to (cur next : Z) : K (M := M) unit :=
  do esp <- get kesp; st32 (self_kstack cur) esp;;
  do esp' <- ld32 (self_kstack next); modify (set_esp esp');;
  yield.

Definition schedule : K (M := M) unit :=
  do old <- intr_get_status;
  ASSERT "thread/thread.c" 114 "schedule" "INTR_OFF == intr_get_status()"
    (bool_decide (INTR_OFF = old));;
  do cur <- running_thread;
  do st <- ld32 (status cur);
  (when code TASK_RUNNING =? st then
    do found <- elem_find thread_ready_list (general_tag cur);
    ASSERT "thread/thread.c" 118 "schedule"
      "!elem_find(&thread_ready_list, &cur->general_tag)" (negb found);;
    list_append thread_ready_list (general_tag cur);;
    do p <- ld8 (priority cur); st8 (ticks_left cur) p;;
    st32 (status cur) (code TASK_READY));;
  do empty <- list_empty thread_ready_list;
  ASSERT "thread/thread.c" 126 "schedule" "!list_empty(&thread_ready_list)" (negb empty);;
  do tag <- list_pop thread_ready_list;
  modify (fun s => set_var (set_thread_tag tag (kvar s)) s);;
  do tag <- get (fun s => thread_tag (kvar s));
  let next := general_entry tag in
  st32 (status next) (code TASK_RUNNING);;
  put_lit "switch to :";; put_int next;; put_lit nl;;
  switch_to cur next.

Definition thread_block (stat : task_status) : K (M := M) unit :=
  ASSERT "thread/thread.c" 151 "thread_block"
    "TASK_BLOCKED == stat || TASK_WAITING == stat || TASK_HANDGING == stat"
    (waiting_code (code stat));;
  do old_status <- intr_disable;
  do cur_thread <- running_thread;
  st32 (status cur_thread) (code stat);;
  schedule;;
  intr_set_status old_status;; cret tt.

Definition thread_unblock (pthread : Z) : K (M := M) unit :=
  do old_status <- intr_disable;
  do st <- ld32 (status pthread);
  ASSERT "thread/thread.c" 161 "thread_unblock"
    ("TASK_BLOCKED == pthread->status || TASK_WAITING == pthread->status || " ++
     "TASK_HANDGING == pthread->status") (waiting_code st);;
  do st <- ld32 (status pthread);
  (when negb (code TASK_READY =? st) then
    do found <- elem_find thread_ready_list (general_tag pthread);
    (when found then panic_spin "thread/thread.c" 167 "thread_unblock"
      ("thread_unblock: blocked thread in ready_list" ++ nl));;
    list_push thread_ready_list (general_tag pthread);;
    st32 (status pthread) (code TASK_READY));;
  intr_set_status old_status;; cret tt.
End code.

(** ** The abstract scheduler

    What a PCB holds, the queues of threads (the ready queue and the waiters
    of semaphores, each known by the address of its struct list), the threads
    in [thread_all_list], and the stack pointer, which tells the running
    thread. *)

Record tview := mk_tview {
  tv_kstack : Z; tv_status : task_status; tv_priority : Z; tv_ticks : Z;
  tv_elapsed : Z; tv_pgdir : Z; tv_magic : Z }.

Record sched := mk_sched {
  esp : Z;
  queues : gmap Z (list Z);
  tasks : gmap Z tview;
  all_threads : list Z }.

Definition cur (A : sched) : Z := page_of (esp A).

Definition with_status (st : task_status) (v : tview) : tview :=
  mk_tview (tv_kstack v) st (tv_priority v) (tv_ticks v) (tv_elapsed v) (tv_pgdir v) (tv_magic v).
Definition with_kstack (k : Z) (v : tview) : tview :=
  mk_tview k (tv_status v) (tv_priority v) (tv_ticks v) (tv_elapsed v) (tv_pgdir v) (tv_magic v).
Definition with_ticks (n : Z) (v : tview) : tview :=
  mk_tview (tv_kstack v) (tv_status v) (tv_priority v) n (tv_elapsed v) (tv_pgdir v) (tv_magic v).
Definition with_elapsed (n : Z) (v : tview) : tview :=
  mk_tview (tv_kstack v) (tv_status v) (tv_priority v) (tv_ticks v) n (tv_pgdir v) (tv_magic v).

Definition set_task (t : Z) (v : tview) (A : sched) : sched :=
  mk_sched (esp A) (queues A) (<[t := v]> (tasks A)) (all_threads A).
Definition set_queue (l : Z) (ts : list Z) (A : sched) : sched :=
  mk_sched (esp A) (<[l := ts]> (queues A)) (tasks A) (all_threads A).
Definition jump (e : Z) (A : sched) : sched := mk_sched e (queues A) (tasks A) (all_threads A).

Section spec.
Context {LY : Layout}.

(** The ready queue once the running thread has been put at its end, which
    is done only when it has not given up the processor itself. *)
Definition requeue (A : sched) : option sched :=
  v ← tasks A !! cur A;
  q ← queues A !! thread_ready_list;
  Some (if decide (tv_status v = TASK_RUNNING)
        then set_task (cur A) (with_status TASK_READY (with_ticks (tv_priority v) v))
               (set_queue thread_ready_list (q ++ [cur A]) A)
        else A).

(** The first thread of the ready queue gets the processor. *)
Definition dispatch (A : sched) : option sched :=
  q ← queues A !! thread_ready_list;
  next ← head q;
  vn ← tasks A !! next;
  let A1 := set_task next (with_status TASK_RUNNING vn) (set_queue thread_ready_list (tail q) A) in
  vc ← tasks A1 !! cur A;
  let A2 := set_task (cur A) (with_kstack (esp A) vc) A1 in
  vn' ← tasks A2 !! next;
  Some (jump (tv_kstack vn') A2).

Definition sched_next (A : sched) : option sched := requeue A ≫= dispatch.
End spec.

(** ** The representation in memory *)

Record task_at (f : Z -> Z) (t : Z) (v : tview) : Prop := mk_task_at {
  at_kstack : w32 f (self_kstack t) = tv_kstack v;
  at_status : w32 f (status t) = code (tv_status v);
  at_priority : f (priority t) = tv_priority v;
  at_ticks : f (ticks_left t) = tv_ticks v;
  at_elapsed : w32 f (elapsed_ticks t) = tv_elapsed v;
  at_pgdir : w32 f (pgdir t) = tv_pgdir v;
  at_magic : w32 f (stack_magic t) = tv_magic v }.

(** Objects of [n] bytes at [a] and of [k] bytes at [b] do not overlap. *)
Definition clear (a n b k : Z) : Prop := a + n <= b \/ b + k <= a.

Record rep {LY : Layout} (R : Z -> Prop) (f : Z -> Z) (A : sched) : Prop := mk_rep {
  rep_queue l ts : queues A !! l = Some ts -> dlist R f l (map general_tag ts);
  rep_member l ts t : queues A !! l = Some ts -> t ∈ ts -> is_Some (tasks A !! t);
  rep_single l l' ts ts' t : queues A !! l = Some ts -> queues A !! l' = Some ts' ->
    t ∈ ts -> t ∈ ts' -> l = l';
  rep_task t v : tasks A !! t = Some v -> task_at f t v;
  rep_inside t : is_Some (tasks A !! t) -> inside R t task_struct_size;
  rep_tasks t t' : is_Some (tasks A !! t) -> is_Some (tasks A !! t') -> t <> t' ->
    clear t task_struct_size t' task_struct_size;
  rep_queues l l' : is_Some (queues A !! l) -> is_Some (queues A !! l') -> l <> l' ->
    clear l 16 l' 16;
  rep_tq t l : is_Some (tasks A !! t) -> is_Some (queues A !! l) ->
    clear t task_struct_size l 16;
  rep_all : dlist R f thread_all_list (map all_list_tag (all_threads A));
  rep_all_member t : t ∈ all_threads A -> is_Some (tasks A !! t);
  rep_all_queue l : is_Some (queues A !! l) -> clear thread_all_list 16 l 16;
  rep_all_task t : is_Some (tasks A !! t) -> clear t task_struct_size thread_all_list 16 }.

(** The bytes of a control block the scheduler uses: all but the number, the name
    and [userprog_vaddr], which are the thread's own. *)
Definition task_identity (t b : Z) : Prop := span (pid t) 2 b \/ span (name t) 16 b \/ span (userprog_vaddr t) 12 b.
Definition task_footprint (t b : Z) : Prop := span t task_struct_size b /\ ~ task_identity t b.

(** The bytes the scheduler owns. *)
Definition footprint {LY : Layout} (A : sched) (b : Z) : Prop :=
  (exists l, is_Some (queues A !! l) /\ span l 16 b) \/
  (exists t, is_Some (tasks A !! t) /\ task_footprint t b) \/
  span thread_all_list 16 b.

(** [f'] is [f] but for bytes the scheduler owns. *)
Definition sched_only {LY : Layout} (A : sched) (f f' : Z -> Z) : Prop :=
  forall b, ~ footprint A b -> f' b = f b.

Lemma sched_only_trans {LY : Layout} A A' f g h :
  (forall b, footprint A' b -> footprint A b) ->
  sched_only A f g -> sched_only A' g h -> sched_only A f h.
Proof. intros Hs Hfg Hgh b Hb. rewrite Hgh by auto. auto. Qed.

Ltac fields := unfold self_kstack, status, priority, ticks_left, elapsed_ticks, general_tag,
  all_list_tag, pgdir, stack_magic, name, pid, userprog_vaddr, task_struct_size in *.

(** The members besides the tags. *)
Definition task_scalar (t b : Z) : Prop := task_footprint t b /\ ~ span (general_tag t) 16 b.

Lemma task_at_ext f f' t v :
  (forall b, task_scalar t b -> f' b = f b) ->
  task_at f t v -> task_at f' t v.
Proof.
  intros Hf [H1 H2 H3 H4 H5 H6 H7].
  assert (forall a, a = t \/ a = t + 8 \/ a = t + 32 \/ a = t + 52 \/ a = t + 68 -> w32 f' a = w32 f a) as Hw.
  { intros a Ha. apply w32_ext. intros b Hb. apply Hf. unfold task_scalar, task_footprint, task_identity, span in *. fields. lia. }
  split; fields.
  1, 2, 5, 6, 7: rewrite Hw by lia; done.
  all: rewrite Hf; [done |]; unfold task_scalar, task_footprint, task_identity, span; fields; lia.
Qed.

Lemma general_tag_inj : Inj (=) (=) general_tag.
Proof. intros a b. unfold general_tag. lia. Qed.
#[global] Existing Instance general_tag_inj.

Lemma elem_of_tags t ts : general_tag t ∈ map general_tag ts <-> t ∈ ts.
Proof.
  split.
  - intros (u & Hu & Hin)%list_elem_of_fmap. by rewrite (inj general_tag _ _ Hu).
  - intros Hin. by apply list_elem_of_fmap_2.
Qed.

Lemma nodes_tags n l ts : n ∈ nodes l (map general_tag ts) <->
  n = l \/ n = l + 8 \/ exists t, t ∈ ts /\ n = general_tag t.
Proof.
  unfold nodes. rewrite elem_of_cons, elem_of_app, list_elem_of_singleton. split.
  - intros [-> | [(t & -> & Ht)%list_elem_of_fmap | ->]]; eauto.
  - intros [-> | [-> | (t & Ht & ->)]]; [by left | by right; right |].
    right. left. by apply elem_of_tags.
Qed.

Lemma nodes_all n l ts : n ∈ nodes l (map all_list_tag ts) <->
  n = l \/ n = l + 8 \/ exists t, t ∈ ts /\ n = all_list_tag t.
Proof.
  unfold nodes. rewrite elem_of_cons, elem_of_app, list_elem_of_singleton. split.
  - intros [-> | [(t & -> & Ht)%list_elem_of_fmap | ->]]; eauto.
  - intros [-> | [-> | (t & Ht & ->)]]; [by left | by right; right |].
    right. left. by apply list_elem_of_fmap_2.
Qed.

(** Objects that do not overlap. *)
Ltac clear_lia := unfold clear, task_scalar, task_footprint, task_identity, span, apart, task_struct_size, general_tag, all_list_tag,
  pid, name, userprog_vaddr in *; lia.

Section rep.
Context {LY : Layout}.

(** What the operations on one queue may write. *)
Definition queue_node (A : sched) (l : Z) (ts : list Z) (n : Z) : Prop :=
  n = l \/ n = l + 8 \/
  exists t, n = general_tag t /\ is_Some (tasks A !! t) /\
    (t ∈ ts \/ forall l' ts', queues A !! l' = Some ts' -> ~ t ∈ ts').

(** Those writes stay away from the other queues and from what a PCB holds
    besides its tag. *)
Lemma queue_node_apart R f A l ts n l' ts' y : rep R f A -> queues A !! l = Some ts ->
  queue_node A l ts n -> queues A !! l' = Some ts' -> l' <> l ->
  y ∈ nodes l' (map general_tag ts') -> apart y n.
Proof.
  intros HA Hl Hn Hl' Hne Hy. apply nodes_tags in Hy.
  pose proof (rep_queues _ _ _ HA l' l (mk_is_Some _ _ Hl') (mk_is_Some _ _ Hl) Hne) as Hq.
  assert (forall t, t ∈ ts' -> is_Some (tasks A !! t)) as Hts
    by (intros t; eapply rep_member; eauto).
  assert (forall t l0, is_Some (tasks A !! t) -> is_Some (queues A !! l0) ->
    clear t task_struct_size l0 16) as Htq by apply (rep_tq _ _ _ HA).
  destruct Hn as [-> | [-> | (u & -> & Hu & Hfree)]];
    destruct Hy as [-> | [-> | (t & Ht & ->)]]; try clear_lia.
  1, 2: specialize (Htq t l (Hts t Ht) (mk_is_Some _ _ Hl)); clear_lia.
  1, 2: specialize (Htq u l' Hu (mk_is_Some _ _ Hl')); clear_lia.
  assert (t <> u) as Htu.
  { intros ->. destruct Hfree as [Hin | Hfree].
    - apply Hne. eapply (rep_single _ _ _ HA); eauto.
    - eapply Hfree; eauto. }
  pose proof (rep_tasks _ _ _ HA t u (Hts t Ht) Hu Htu). clear_lia.
Qed.

Lemma queue_node_task R f A l ts n t b : rep R f A -> is_Some (queues A !! l) ->
  queue_node A l ts n -> is_Some (tasks A !! t) -> span t 72 b -> span n 8 b ->
  span (general_tag t) 8 b.
Proof.
  intros HA Hl Hn Ht Hb Hnb.
  pose proof (rep_tq _ _ _ HA t l Ht Hl) as Htl.
  destruct Hn as [-> | [-> | (u & -> & Hu & _)]]; [exfalso; clear_lia .. |].
  destruct (Z.eq_dec t u) as [-> | Htu]; [done |].
  pose proof (rep_tasks _ _ _ HA t u Ht Hu Htu). exfalso. clear_lia.
Qed.

(** Nor do they touch the list of all threads. *)
Lemma queue_node_all R f A l ts n y : rep R f A -> is_Some (queues A !! l) -> queue_node A l ts n ->
  y ∈ nodes thread_all_list (map all_list_tag (all_threads A)) -> apart y n.
Proof.
  intros HA Hl Hn Hy%nodes_all. pose proof (rep_all_queue _ _ _ HA l Hl) as Hq.
  destruct Hn as [-> | [-> | (u & -> & Hu & _)]];
    destruct Hy as [-> | [-> | (t & Ht%(rep_all_member _ _ _ HA) & ->)]]; try clear_lia.
  1, 2: pose proof (rep_tq _ _ _ HA t l Ht Hl); clear_lia.
  1, 2: pose proof (rep_all_task _ _ _ HA u Hu); clear_lia.
  destruct (Z.eq_dec t u) as [-> | Htu]; [clear_lia |].
  pose proof (rep_tasks _ _ _ HA t u Ht Hu Htu). clear_lia.
Qed.

(** Writes to one PCB besides its tags touch it neither. *)
Lemma all_frame R f f' A t : rep R f A -> is_Some (tasks A !! t) ->
  (forall b, ~ task_scalar t b -> f' b = f b) ->
  dlist R f' thread_all_list (map all_list_tag (all_threads A)).
Proof.
  intros HA Ht Hf. apply dlist_frame with f; [| apply (rep_all _ _ _ HA)].
  intros x a Hx%nodes_all Ha. apply Hf. intros [Hat Hng].
  pose proof (rep_all_task _ _ _ HA t Ht).
  destruct Hx as [-> | [-> | (u & Hu%(rep_all_member _ _ _ HA) & ->)]]; [clear_lia .. |].
  destruct (Z.eq_dec t u) as [-> | Hne]; [clear_lia |].
  pose proof (rep_tasks _ _ _ HA t u Ht Hu Hne). clear_lia.
Qed.

(** A queue operation: the list at [l] now is [ts']; the threads in it were
    in it before or were in no queue. *)
Lemma rep_relink R f f' A l ts ts' ns : rep R f A -> queues A !! l = Some ts ->
  (forall t, t ∈ ts' -> t ∈ ts \/
     (is_Some (tasks A !! t) /\ forall l' ts', queues A !! l' = Some ts' -> ~ t ∈ ts')) ->
  dlist R f' l (map general_tag ts') -> same_outside ns f f' ->
  (forall n, n ∈ ns -> queue_node A l ts n) ->
  rep R f' (set_queue l ts' A).
Proof.
  intros HA Hl Hts' Hd Hout Hns. pose proof (mk_is_Some _ _ Hl) as Hl_.
  assert (forall l0 ts0, queues (set_queue l ts' A) !! l0 = Some ts0 ->
    (l0 = l /\ ts0 = ts') \/ (l0 <> l /\ queues A !! l0 = Some ts0)) as Hlk.
  { intros l0 ts0. cbn. rewrite lookup_insert_Some.
    intros [[-> ->] | [Hne H0]]; [by left | right; done]. }
  assert (forall l0, is_Some (queues (set_queue l ts' A) !! l0) -> is_Some (queues A !! l0)) as His.
  { intros l0 [ts0 [[-> _] | [_ H']]%Hlk]; eauto. }
  split; cbn [tasks set_queue].
  - intros l0 ts0 [[-> ->] | [Hne H0]]%Hlk; [done |].
    eapply dlist_outside; [exact Hout | | by eapply rep_queue].
    intros y n Hy Hn. exact (queue_node_apart R f A l ts n l0 ts0 y HA Hl (Hns n Hn) H0 Hne Hy).
  - intros l0 ts0 t [[-> ->] | [Hne H0]]%Hlk Ht; [| by eapply rep_member].
    destruct (Hts' t Ht) as [Ht' | [Ht' _]]; [by eapply rep_member | done].
  - intros l1 l2 ts1 ts2 t [[-> ->] | [Hne1 H1]]%Hlk [[-> ->] | [Hne2 H2]]%Hlk Ht1 Ht2;
      [done | | | by eapply (rep_single _ _ _ HA l1 l2)].
    + destruct (Hts' t Ht1) as [Ht | [_ Hf]]; [by eapply (rep_single _ _ _ HA l l2) |].
      by destruct (Hf _ _ H2).
    + destruct (Hts' t Ht2) as [Ht | [_ Hf]]; [by eapply (rep_single _ _ _ HA l1 l) |].
      by destruct (Hf _ _ H1).
  - intros t v Ht. eapply task_at_ext; [| by eapply rep_task]. intros b [[Hb _] Hng].
    apply Hout. intros n Hn Hnb. apply Hng.
    assert (span (general_tag t) 8 b) by (eapply (queue_node_task R f A l ts n); eauto). clear_lia.
  - intros t Ht. by apply (rep_inside _ _ _ HA).
  - intros t t' Ht Ht'. by apply (rep_tasks _ _ _ HA).
  - intros l1 l2 H1 H2. apply (rep_queues _ _ _ HA); auto.
  - intros t l0 Ht H0. apply (rep_tq _ _ _ HA); auto.
  - eapply dlist_outside; [exact Hout | | apply (rep_all _ _ _ HA)].
    intros y n Hy Hn. exact (queue_node_all R f A l ts n y HA Hl_ (Hns n Hn) Hy).
  - apply (rep_all_member _ _ _ HA).
  - intros l0 H0. apply (rep_all_queue _ _ _ HA); auto.
  - apply (rep_all_task _ _ _ HA).
Qed.

(** A write to a PCB that leaves its queue tag alone. *)
Lemma rep_update R f f' A t v' : rep R f A -> is_Some (tasks A !! t) ->
  task_at f' t v' ->
  (forall b, ~ task_scalar t b -> f' b = f b) ->
  rep R f' (set_task t v' A).
Proof.
  intros HA Ht Hv Hf.
  assert (forall t0, is_Some (tasks (set_task t v' A) !! t0) -> is_Some (tasks A !! t0)) as His.
  { intros t0. cbn. rewrite lookup_insert_is_Some. intros [<- | [_ H']]; done. }
  split; cbn [queues set_task].
  - intros l ts Hl. apply dlist_frame with f; [| by eapply rep_queue].
    intros x a Hx Ha. apply Hf. intros [Hat Hng]. apply nodes_tags in Hx.
    pose proof (rep_tq _ _ _ HA t l Ht (mk_is_Some _ _ Hl)).
    destruct Hx as [-> | [-> | (u & Hu & ->)]]; [clear_lia .. |].
    destruct (Z.eq_dec t u) as [-> | Hne]; [clear_lia |].
    pose proof (rep_tasks _ _ _ HA t u Ht (rep_member _ _ _ HA _ _ _ Hl Hu) Hne). clear_lia.
  - intros l ts u Hl Hu. cbn. rewrite lookup_insert_is_Some.
    destruct (Z.eq_dec t u) as [-> | Hne]; [by left | right].
    split; [done | by eapply rep_member].
  - apply (rep_single _ _ _ HA).
  - intros u v. cbn. rewrite lookup_insert_Some. intros [[<- <-] | [Hne Hu]]; [done |].
    eapply task_at_ext; [| by eapply rep_task]. intros b Hb. apply Hf.
    pose proof (rep_tasks _ _ _ HA t u Ht (mk_is_Some _ _ Hu) Hne). clear_lia.
  - intros u Hu. apply (rep_inside _ _ _ HA); auto.
  - intros u u' Hu Hu'. apply (rep_tasks _ _ _ HA); auto.
  - apply (rep_queues _ _ _ HA).
  - intros u l Hu Hl. apply (rep_tq _ _ _ HA); auto.
  - exact (all_frame R f f' A t HA Ht Hf).
  - intros u Hu. cbn. rewrite lookup_insert_is_Some.
    destruct (Z.eq_dec t u) as [-> | Hne]; [by left | right].
    split; [done | by apply (rep_all_member _ _ _ HA)].
  - apply (rep_all_queue _ _ _ HA).
  - intros u Hu. apply (rep_all_task _ _ _ HA); auto.
Qed.

(** Outside the scheduler's bytes memory may change. *)
Lemma rep_ext R f f' A : rep R f A -> (forall b, footprint A b -> f' b = f b) -> rep R f' A.
Proof.
  intros HA Hf. split; try apply HA.
  - intros l ts Hl. apply dlist_frame with f; [| by eapply rep_queue].
    intros x a Hx Ha. apply Hf. apply nodes_tags in Hx.
    destruct Hx as [-> | [-> | (u & Hu & ->)]].
    + left. exists l. split; [by eexists |]. unfold span in *. lia.
    + left. exists l. split; [by eexists |]. unfold span in *. lia.
    + right. left. exists u. split; [by eapply rep_member | clear_lia].
  - intros t v Ht. eapply task_at_ext; [| by eapply rep_task]. intros b [Hb _]. apply Hf.
    right. left. exists t. split; [by eexists | done].
  - apply dlist_frame with f; [| apply (rep_all _ _ _ HA)].
    intros x a Hx%nodes_all Ha. apply Hf. right.
    destruct Hx as [-> | [-> | (u & Hu%(rep_all_member _ _ _ HA) & ->)]]; [right; clear_lia .. |].
    left. exists u. split; [done | clear_lia].
Qed.

Lemma rep_jump R f A e : rep R f A -> rep R f (jump e A).
Proof. intros [H1 H2 H3 H4 H5 H6 H7 H8 H9 H10 H11 H12]. by split. Qed.
End rep.

(** ** The operations on the representation *)

Section ops.
Context {M : Type} {RM : RawMem M} {RL : RawMemLaws M} {LY : Layout}.
Implicit Types (s : kstate M) (R : Z -> Prop) (f : Z -> Z) (A : sched)
  (G : protocol (kstate M)).

(** [t] waits in no queue. *)
Definition queued_nowhere (A : sched) (t : Z) : Prop :=
  forall l ts, queues A !! l = Some ts -> ~ t ∈ ts.

Lemma task_bytes R f A t k n : rep R f A -> is_Some (tasks A !! t) ->
  0 <= k -> k + n <= 72 -> inside R (t + k) n.
Proof.
  intros HA Ht Hk Hn. pose proof (rep_inside _ _ _ HA t Ht).
  eapply inside_sub; [done | lia | unfold task_struct_size; lia].
Qed.

Lemma task_byte R f A t k : rep R f A -> is_Some (tasks A !! t) ->
  0 <= k < 72 -> R (t + k).
Proof.
  intros HA Ht Hk. apply (task_bytes _ _ _ t k 1 HA Ht); unfold span; lia.
Qed.

Lemma apart_from_queue R f A l ts t : rep R f A -> queues A !! l = Some ts ->
  is_Some (tasks A !! t) -> ~ t ∈ ts ->
  forall y, y ∈ nodes l (map general_tag ts) -> apart (general_tag t) y.
Proof.
  intros HA Hl Ht Hnin y Hy. apply nodes_tags in Hy.
  pose proof (rep_tq _ _ _ HA t l Ht (mk_is_Some _ _ Hl)).
  destruct Hy as [-> | [-> | (u & Hu & ->)]];
    [unfold clear, apart, task_struct_size, general_tag in *; lia .. |].
  pose proof (rep_tasks _ _ _ HA t u Ht (rep_member _ _ _ HA _ _ _ Hl Hu)
    ltac:(by intros ->)).
  unfold clear, apart, task_struct_size, general_tag in *; lia.
Qed.

Lemma queue_nodes_spec A l ts t : is_Some (tasks A !! t) -> queued_nowhere A t ->
  (forall u, u ∈ ts -> is_Some (tasks A !! u)) ->
  forall n, n ∈ general_tag t :: nodes l (map general_tag ts) -> queue_node A l ts n.
Proof.
  intros Ht Hf Hts n. rewrite elem_of_cons, nodes_tags. unfold queue_node.
  intros [-> | [-> | [-> | (u & Hu & ->)]]]; [| by left | by right; left |].
  - right. right. exists t. split; [done |]. split; [done |]. by right.
  - right. right. exists u. split; [done |]. split; [by apply Hts |]. by left.
Qed.

Lemma same_outside_sched A l ts ns f f' : is_Some (queues A !! l) ->
  same_outside ns f f' -> (forall n, n ∈ ns -> queue_node A l ts n) ->
  sched_only A f f'.
Proof.
  intros Hl Hout Hns b Hb. apply Hout. intros n Hn Hnb. apply Hb.
  destruct (Hns n Hn) as [-> | [-> | (t & -> & Ht & _)]].
  - left. exists l. unfold span in *. split; [done | lia].
  - left. exists l. unfold span in *. split; [done | lia].
  - right. left. exists t. split; [done | clear_lia].
Qed.

Lemma wp_enqueue G s R f A l ts t (Q : unit -> kstate M -> Prop) :
  backs (kmem s) R f -> rep R f A -> queues A !! l = Some ts ->
  is_Some (tasks A !! t) -> queued_nowhere A t ->
  (forall m f', backs m R f' -> rep R f' (set_queue l (ts ++ [t]) A) ->
     sched_only A f f' -> Q tt (set_mem m s)) ->
  wp G (list_append l (general_tag t)) s Q.
Proof.
  intros Hb HA Hl Ht Hf HQ.
  assert (forall u, u ∈ ts -> is_Some (tasks A !! u)) as Hts
    by (intros u; by eapply (rep_member _ _ _ HA)).
  pose proof (queue_nodes_spec A l ts t Ht Hf Hts) as Hns.
  eapply wp_list_append; [done | by apply (rep_queue _ _ _ HA) | | |].
  - by apply (task_bytes _ _ _ _ 36 _ HA).
  - eapply apart_from_queue; eauto.
  - intros m f' Hm Hd Hout. apply (HQ m f'); [done | |].
    + eapply rep_relink; [done | done | | by rewrite map_app | done | done].
      intros u [Hu | ->%list_elem_of_singleton]%elem_of_app; [by left | by right].
    + by eapply same_outside_sched.
Qed.

Lemma wp_enqueue_front G s R f A l ts t (Q : unit -> kstate M -> Prop) :
  backs (kmem s) R f -> rep R f A -> queues A !! l = Some ts ->
  is_Some (tasks A !! t) -> queued_nowhere A t ->
  (forall m f', backs m R f' -> rep R f' (set_queue l (t :: ts) A) ->
     sched_only A f f' -> Q tt (set_mem m s)) ->
  wp G (list_push l (general_tag t)) s Q.
Proof.
  intros Hb HA Hl Ht Hf HQ.
  assert (forall u, u ∈ ts -> is_Some (tasks A !! u)) as Hts
    by (intros u; by eapply (rep_member _ _ _ HA)).
  pose proof (queue_nodes_spec A l ts t Ht Hf Hts) as Hns.
  eapply wp_list_push; [done | by apply (rep_queue _ _ _ HA) | | |].
  - by apply (task_bytes _ _ _ _ 36 _ HA).
  - eapply apart_from_queue; eauto.
  - intros m f' Hm Hd Hout. apply (HQ m f'); [done | |].
    + eapply rep_relink; [done | done | | done | done | done].
      intros u [-> | Hu]%elem_of_cons; [by right | by left].
    + by eapply same_outside_sched.
Qed.

Lemma wp_dequeue G s R f A l ts t (Q : Z -> kstate M -> Prop) :
  backs (kmem s) R f -> rep R f A -> queues A !! l = Some (t :: ts) ->
  (forall m f', backs m R f' -> rep R f' (set_queue l ts A) ->
     sched_only A f f' -> Q (general_tag t) (set_mem m s)) ->
  wp G (list_pop l) s Q.
Proof.
  intros Hb HA Hl HQ.
  assert (forall n, n ∈ nodes l (map general_tag ts) -> queue_node A l (t :: ts) n) as Hns.
  { intros n [-> | [-> | (u & Hu & ->)]]%nodes_tags; [by left | by right; left |].
    right. right. exists u. split; [done |]. split; [| left; by right].
    eapply (rep_member _ _ _ HA); [done | by right]. }
  eapply wp_list_pop; [done | by apply (rep_queue _ _ _ HA _ _ Hl) |].
  intros m f' Hm Hd Hout. apply (HQ m f'); [done | |].
  - eapply rep_relink; [done | done | | done | done | done].
    intros u Hu. left. by right.
  - by eapply same_outside_sched.
Qed.

Lemma wp_queue_empty G s R f A l ts (Q : bool -> kstate M -> Prop) :
  backs (kmem s) R f -> rep R f A -> queues A !! l = Some ts ->
  Q (bool_decide (ts = [])) s -> wp G (list_empty l) s Q.
Proof.
  intros Hb HA Hl HQ. eapply wp_list_empty; [done | by apply (rep_queue _ _ _ HA) |].
  by destruct ts.
Qed.

Lemma wp_queue_find G s R f A l ts t (Q : bool -> kstate M -> Prop) :
  backs (kmem s) R f -> rep R f A -> queues A !! l = Some ts ->
  Q (bool_decide (t ∈ ts)) s -> wp G (elem_find l (general_tag t)) s Q.
Proof.
  intros Hb HA Hl HQ. eapply wp_elem_find; [done | by apply (rep_queue _ _ _ HA) |].
  by rewrite (bool_decide_ext _ _ (elem_of_tags t ts)).
Qed.

(** Reads and writes of the members of a PCB. *)
Lemma wp_task_status G s R f A t v (Q : Z -> kstate M -> Prop) :
  backs (kmem s) R f -> rep R f A -> tasks A !! t = Some v ->
  Q (code (tv_status v)) s -> wp G (ld32 (status t)) s Q.
Proof.
  intros Hb HA Ht HQ. eapply wp_ld32; [done | by apply (task_bytes _ _ _ _ 8 _ HA) |].
  by rewrite (at_status _ _ _ (rep_task _ _ _ HA _ _ Ht)).
Qed.

Lemma wp_task_priority G s R f A t v (Q : Z -> kstate M -> Prop) :
  backs (kmem s) R f -> rep R f A -> tasks A !! t = Some v ->
  (is_u8 (tv_priority v) -> Q (tv_priority v) s) -> wp G (ld8 (priority t)) s Q.
Proof.
  intros Hb HA Ht HQ.
  eapply wp_ld8; [done | by apply (task_byte _ _ _ _ 12 HA) |].
  by rewrite (at_priority _ _ _ (rep_task _ _ _ HA _ _ Ht)).
Qed.

Lemma wp_task_kstack G s R f A t v (Q : Z -> kstate M -> Prop) :
  backs (kmem s) R f -> rep R f A -> tasks A !! t = Some v ->
  Q (tv_kstack v) s -> wp G (ld32 (self_kstack t)) s Q.
Proof.
  intros Hb HA Ht HQ. unfold self_kstack. rewrite <- (Z.add_0_r t).
  eapply wp_ld32; [done | by apply (task_bytes _ _ _ _ 0 _ HA) |].
  pose proof (at_kstack _ _ _ (rep_task _ _ _ HA _ _ Ht)) as Hk. unfold self_kstack in Hk.
  rewrite Z.add_0_r, Hk. done.
Qed.

Lemma upd32_task f t k n b : k = 0 \/ k = 8 \/ k = 32 \/ k = 52 \/ k = 68 ->
  ~ task_scalar t b -> upd32 f (t + k) n b = f b.
Proof.
  intros Hk Hb. rewrite upd32_ne; [done |].
  destruct (Z.lt_ge_cases b (t + k)); [lia |]. destruct (Z.lt_ge_cases b (t + k + 4)); [| lia].
  exfalso. apply Hb. clear_lia.
Qed.

Lemma upd_task f t k n b : k = 12 \/ k = 29 ->
  ~ task_scalar t b -> upd f (t + k) n b = f b.
Proof.
  intros Hk Hb. rewrite upd_ne; [done |]. intros ->.
  apply Hb. clear_lia.
Qed.

Lemma update_sched_only A t f f' : is_Some (tasks A !! t) ->
  (forall b, ~ task_scalar t b -> f' b = f b) ->
  sched_only A f f'.
Proof.
  intros Ht Hf b Hb. apply Hf. intros [Hs _]. apply Hb. right. left. by exists t.
Qed.

Lemma code_u32 st : is_u32 (code st).
Proof. by destruct st. Qed.

Lemma code_inj : Inj (=) (=) code.
Proof. intros [] []; done. Qed.

(** A write of one member, given as a write of the whole view. *)
Lemma rep_write32 R f A t v v' k n : rep R f A -> tasks A !! t = Some v ->
  k = 0 \/ k = 8 \/ k = 32 \/ k = 52 \/ k = 68 -> task_at (upd32 f (t + k) n) t v' ->
  rep R (upd32 f (t + k) n) (set_task t v' A) /\ sched_only A f (upd32 f (t + k) n).
Proof.
  intros HA Ht H1 Hv. split.
  - eapply rep_update; [done | done | done |]. intros b Hb. by apply upd32_task.
  - eapply update_sched_only; [done |]. intros b Hb. by apply upd32_task.
Qed.

Lemma wp_set_status G s R f A t v st (Q : unit -> kstate M -> Prop) :
  backs (kmem s) R f -> rep R f A -> tasks A !! t = Some v ->
  (forall m f', backs m R f' -> rep R f' (set_task t (with_status st v) A) ->
     sched_only A f f' -> Q tt (set_mem m s)) ->
  wp G (st32 (status t) (code st)) s Q.
Proof.
  intros Hb HA Ht HQ. pose proof (code_u32 st) as Hc.
  eapply wp_st32; [done | by apply (task_bytes _ _ _ _ 8 _ HA) |]. intros m Hm.
  destruct (rep_write32 R f A t v (with_status st v) 8 (code st)) as [Hr Ho]; try done.
  - lia.
  - destruct (rep_task _ _ _ HA _ _ Ht). split; cbn; fields; by mem.
  - by eapply HQ.
Qed.

Lemma wp_set_kstack G s R f A t v k (Q : unit -> kstate M -> Prop) :
  backs (kmem s) R f -> rep R f A -> tasks A !! t = Some v -> is_u32 k ->
  (forall m f', backs m R f' -> rep R f' (set_task t (with_kstack k v) A) ->
     sched_only A f f' -> Q tt (set_mem m s)) ->
  wp G (st32 (self_kstack t) k) s Q.
Proof.
  intros Hb HA Ht Hk HQ. unfold self_kstack. rewrite <- (Z.add_0_r t).
  eapply wp_st32; [done | by apply (task_bytes _ _ _ _ 0 _ HA) |]. intros m Hm.
  destruct (rep_write32 R f A t v (with_kstack k v) 0 k) as [Hr Ho]; try done.
  - lia.
  - rewrite Z.add_0_r. destruct (rep_task _ _ _ HA _ _ Ht). split; cbn; fields; by mem.
  - by eapply HQ.
Qed.

Lemma wp_set_ticks G s R f A t v n (Q : unit -> kstate M -> Prop) :
  backs (kmem s) R f -> rep R f A -> tasks A !! t = Some v -> is_u8 n ->
  (forall m f', backs m R f' -> rep R f' (set_task t (with_ticks n v) A) ->
     sched_only A f f' -> Q tt (set_mem m s)) ->
  wp G (st8 (ticks_left t) n) s Q.
Proof.
  intros Hb HA Ht Hn HQ.
  eapply wp_st8; [done | by apply (task_byte _ _ _ _ 29 HA) |].
  rewrite (u8_small n) by done. intros m Hm.
  assert (forall b, ~ task_scalar t b ->
    upd f (ticks_left t) n b = f b) as Hf by (intros b Hb'; apply upd_task; [lia .. | done]).
  eapply HQ; [done | | by eapply update_sched_only].
  eapply rep_update; [done | done | | done].
  destruct (rep_task _ _ _ HA _ _ Ht). split; cbn; fields; by mem.
Qed.
End ops.

(** ** The invariant of the scheduler *)

Record wf {LY : Layout} (A : sched) : Prop := mk_wf {
  wf_esp : is_u32 (esp A);
  wf_queue : is_Some (queues A !! thread_ready_list);
  wf_nodup l ts : queues A !! l = Some ts -> NoDup ts;
  wf_member l ts t : queues A !! l = Some ts -> t ∈ ts -> is_Some (tasks A !! t);
  wf_cur : is_Some (tasks A !! cur A);
  wf_stacks t v : tasks A !! t = Some v -> t <> cur A -> page_of (tv_kstack v) = t;
  wf_words t v : tasks A !! t = Some v -> is_u32 (tv_kstack v);
  wf_ready q t v : queues A !! thread_ready_list = Some q -> t ∈ q ->
    tasks A !! t = Some v -> tv_status v = TASK_READY;
  wf_waiters l ts t v : queues A !! l = Some ts -> l <> thread_ready_list -> t ∈ ts ->
    tasks A !! t = Some v -> waiting_code (code (tv_status v)) = true;
  wf_runnable t v : tasks A !! t = Some v -> tv_status v = TASK_READY ->
    exists q, queues A !! thread_ready_list = Some q /\ t ∈ q;
  wf_running t v : tasks A !! t = Some v -> tv_status v = TASK_RUNNING -> t = cur A }.

(** The running thread has status [st]. *)
Definition cur_status (A : sched) (st : task_status) : Prop :=
  exists v, tasks A !! cur A = Some v /\ tv_status v = st.

Section invariant.
Context {LY : Layout}.

Lemma running_nowhere A : wf A -> cur_status A TASK_RUNNING -> queued_nowhere A (cur A).
Proof.
  intros HA (v & Hv & Hst) l ts Hl Hin.
  destruct (Z.eq_dec l thread_ready_list) as [-> | Hne].
  - by rewrite (wf_ready _ HA _ _ _ Hl Hin Hv) in Hst.
  - pose proof (wf_waiters _ HA _ _ _ _ Hl Hne Hin Hv) as Hw. by rewrite Hst in Hw.
Qed.

(** Putting the running thread at the end of the ready queue. *)
Lemma requeue_wf A st : wf A -> cur_status A st -> st <> TASK_READY ->
  exists A1, requeue A = Some A1 /\ wf A1 /\ esp A1 = esp A /\
    (forall t v, tasks A1 !! t = Some v -> tv_status v <> TASK_RUNNING) /\
    queues A1 !! thread_ready_list =
      (q ← queues A !! thread_ready_list;
       Some (if decide (st = TASK_RUNNING) then q ++ [cur A] else q)).
Proof.
  intros HA (v & Hv & Hst) Hne. destruct (wf_queue _ HA) as [q Hq].
  unfold requeue. rewrite Hv, Hq. cbn. rewrite Hst.
  destruct (decide (st = TASK_RUNNING)) as [-> | Hnr].
  2: { exists A. split; [done |]. split; [done |]. split; [done |]. split; [| done].
       intros t u Hu Hr. pose proof (wf_running _ HA _ _ Hu Hr) as ->. congruence. }
  pose proof (running_nowhere A HA ltac:(by exists v)) as Hnow.
  eexists. split; [done |]. split; [| split; [done | split]].
  - destruct HA. split; cbn; try done.
    + rewrite lookup_insert_is_Some. by left.
    + intros l ts. rewrite lookup_insert_Some. intros [[<- <-] | [_ Hl]]; [| by eapply wf_nodup0].
      apply NoDup_app. split; [by eapply wf_nodup0 |]. split; [| apply NoDup_singleton].
      intros t Ht ->%list_elem_of_singleton. by eapply Hnow.
    + intros l ts t. rewrite lookup_insert_Some, lookup_insert_is_Some. intros Hl Hin.
      destruct (decide (cur A = t)) as [Ht | Ht]; [by left | right]. split; [done |].
      destruct Hl as [[_ <-] | [_ Hl]]; [| by eapply wf_member0].
      apply elem_of_app in Hin as [Hin | ->%list_elem_of_singleton]; [by eapply wf_member0 | done].
    + rewrite lookup_insert_is_Some. by left.
    + intros t u. rewrite lookup_insert_Some. intros [[<- <-] | [_ Hu]] Hc; [done |]. by eapply wf_stacks0.
    + intros t u. rewrite lookup_insert_Some. intros [[<- <-] | [_ Hu]]; [| by eapply wf_words0].
      cbn. by eapply wf_words0.
    + intros q' t u. rewrite lookup_insert_eq. intros [= <-].
      rewrite lookup_insert_Some, elem_of_app, list_elem_of_singleton.
      intros Hin [[_ <-] | [Hn Hu]]; [done |].
      destruct Hin as [Hin | ->]; [by eapply wf_ready0 | done].
    + intros l ts t u. rewrite lookup_insert_Some. intros [[<- _] | [Hn Hl]] Hl' Hin; [done |].
      rewrite lookup_insert_Some. intros [[<- <-] | [_ Hu]]; [| by eapply wf_waiters0].
      by destruct (Hnow _ _ Hl).
    + intros t u. rewrite lookup_insert_eq, lookup_insert_Some.
      intros [[<- <-] | [Hn Hu]] Hr; eexists; (split; [done |]).
      * apply elem_of_app. right. by apply list_elem_of_singleton.
      * destruct (wf_runnable0 _ _ Hu Hr) as (q' & Hq' & Hin). apply elem_of_app. left. congruence.
    + intros t u. rewrite lookup_insert_Some. intros [[<- <-] | [Hn Hu]] Hr; [done |].
      by eapply wf_running0.
  - intros t u. cbn. rewrite lookup_insert_Some. intros [[<- <-] | [Hn Hu]]; [done |].
    intros Hr. apply Hn. symmetry. by eapply (wf_running _ HA).
  - cbn. by rewrite lookup_insert_eq.
Qed.

(** What giving the processor to [next] does to a PCB. *)
Definition view_after (A : sched) (next t : Z) (v : tview) : tview :=
  let v1 := if decide (t = cur A) then with_kstack (esp A) v else v in
  if decide (t = next) then with_status TASK_RUNNING v1 else v1.

Lemma dispatch_eq A next q : wf A -> queues A !! thread_ready_list = Some (next :: q) ->
  exists A', dispatch A = Some A' /\ queues A' = <[thread_ready_list := q]> (queues A) /\
    (forall t, tasks A' !! t = view_after A next t <$> tasks A !! t) /\
    page_of (esp A') = next /\ is_u32 (esp A').
Proof.
  intros HA Hq. destruct (wf_member _ HA _ _ next Hq ltac:(by left)) as [vn Hn].
  destruct (wf_cur _ HA) as [vc Hc].
  pose proof (wf_esp _ HA) as Hesp. pose proof (wf_words _ HA _ _ Hn) as Hk.
  unfold dispatch. rewrite Hq. cbn [mbind option_bind head]. rewrite Hn.
  cbn [mbind option_bind set_task set_queue tasks queues esp tail].
  destruct (decide (cur A = next)) as [Heq | Hne].
  - subst next. rewrite lookup_insert_eq. cbn. rewrite lookup_insert_eq. cbn.
    eexists. split; [done |]. split; [done |]. split; [| done]. intros t. cbn.
    unfold view_after. destruct (decide (t = cur A)) as [-> | Ht].
    + by rewrite lookup_insert_eq, Hn.
    + rewrite !lookup_insert_ne by done. by destruct (tasks A !! t).
  - rewrite lookup_insert_ne, Hc by done. cbn.
    rewrite lookup_insert_ne, lookup_insert_eq by done. cbn.
    eexists. split; [done |]. split; [done |]. split; [| split; [| done]].
    + intros t. cbn. unfold view_after. destruct (decide (t = cur A)) as [-> | Ht].
      * rewrite lookup_insert_eq, Hc. cbn. by rewrite decide_False.
      * rewrite lookup_insert_ne by done. destruct (decide (t = next)) as [-> | Htn].
        -- by rewrite lookup_insert_eq, Hn.
        -- rewrite lookup_insert_ne by done. by destruct (tasks A !! t).
    + cbn. apply (wf_stacks _ HA _ _ Hn). done.
Qed.

Lemma view_after_status A next t v : t <> next ->
  tv_status (view_after A next t v) = tv_status v.
Proof. intros Hne. unfold view_after. rewrite (decide_False (P := t = next)) by done. by case_decide. Qed.

Lemma view_after_kstack A next t v :
  tv_kstack (view_after A next t v) = if decide (t = cur A) then esp A else tv_kstack v.
Proof. unfold view_after. repeat case_decide; done. Qed.

(** Giving the processor to the head of the ready queue. *)
Lemma dispatch_wf A next q : wf A ->
  (forall t v, tasks A !! t = Some v -> tv_status v <> TASK_RUNNING) ->
  queues A !! thread_ready_list = Some (next :: q) ->
  exists A', dispatch A = Some A' /\ wf A' /\ cur A' = next /\
    cur_status A' TASK_RUNNING /\ queues A' = <[thread_ready_list := q]> (queues A).
Proof.
  intros HA Hnr Hq. destruct (dispatch_eq A next q HA Hq) as (A' & Hd & HqA & Ht & He & Hu).
  exists A'. split; [done |].
  destruct (wf_member _ HA _ _ next Hq ltac:(by left)) as [vn Hn].
  assert (forall t v', tasks A' !! t = Some v' ->
    exists v, tasks A !! t = Some v /\ v' = view_after A next t v) as Hv.
  { intros t v'. rewrite Ht. intros (v & -> & Hv)%fmap_Some. by exists v. }
  assert (tasks A' !! next = Some (view_after A next next vn)) as Hn' by (by rewrite Ht, Hn).
  assert (tv_status (view_after A next next vn) = TASK_RUNNING) as Hrun
    by (unfold view_after; by rewrite (decide_True (P := next = next))).
  pose proof (wf_nodup _ HA _ _ Hq) as [Hnq Hndq]%NoDup_cons.
  split; [| split; [done | split; [by exists (view_after A next next vn); unfold cur; rewrite He |]]]; [| done].
  split; rewrite ?HqA.
  - done.
  - rewrite lookup_insert_is_Some. by left.
  - intros l ts. rewrite lookup_insert_Some. intros [[_ <-] | [_ Hl]]; [done | by eapply (wf_nodup _ HA)].
  - intros l ts t. rewrite lookup_insert_Some, Ht, fmap_is_Some. intros [[_ <-] | [_ Hl]] Hin.
    + eapply (wf_member _ HA); [done | by right].
    + by eapply (wf_member _ HA).
  - unfold cur. rewrite He. by eexists.
  - intros t v' (v & Htv & ->)%Hv Hne. rewrite view_after_kstack. case_decide as Hc; [done |].
    by eapply (wf_stacks _ HA).
  - intros t v' (v & Htv & ->)%Hv. rewrite view_after_kstack.
    case_decide; [apply (wf_esp _ HA) | by eapply (wf_words _ HA)].
  - intros q' t v'. rewrite lookup_insert_eq. intros [= <-] Hin (v & Htv & ->)%Hv.
    rewrite view_after_status by (by intros ->). eapply (wf_ready _ HA); [done | by right | done].
  - intros l ts t v' Hl Hlr Hin (v & Htv & ->)%Hv. rewrite lookup_insert_ne in Hl by done.
    pose proof (wf_waiters _ HA _ _ _ _ Hl Hlr Hin Htv) as Hw.
    destruct (decide (t = next)) as [-> | Hne]; [| by rewrite view_after_status].
    by rewrite (wf_ready _ HA _ _ _ Hq ltac:(by left) Htv) in Hw.
  - intros t v' (v & Htv & ->)%Hv Hr. exists q. rewrite lookup_insert_eq. split; [done |].
    destruct (decide (t = next)) as [-> | Hne]; [by rewrite Hn in Htv; simplify_eq; congruence |].
    rewrite view_after_status in Hr by done.
    destruct (wf_runnable _ HA _ _ Htv Hr) as (q' & Hq' & Hin). rewrite Hq in Hq'.
    injection Hq' as <-. by apply elem_of_cons in Hin as [-> | Hin].
  - intros t v' (v & Htv & ->)%Hv Hr. unfold cur. rewrite He.
    destruct (decide (t = next)) as [-> | Hne]; [done |].
    rewrite view_after_status in Hr by done. by destruct (Hnr _ _ Htv).
Qed.
End invariant.

(** ** The operations implement the abstract scheduler *)

Section refinement.
Context {M : Type} {RM : RawMem M} {RL : RawMemLaws M} {LY : Layout}.
Implicit Types (s : kstate M) (R : Z -> Prop) (f : Z -> Z) (A : sched)
  (G : protocol (kstate M)).

(** The state in which [switch_to] hands over the processor to the running
    thread of [A']. *)
Definition switched (m : M) (A' : sched) (s : kstate M) : kstate M :=
  mk_kstate m (kif s) (esp A') (set_thread_tag (general_tag (cur A')) (kvar s))
    (rev (bytes_of nl) ++ rev (int_digits (cur A')) ++ rev (bytes_of "switch to :") ++ kout s)
    (kports s) (kinb s) (ktab s).

Lemma set_queue_footprint A l ts b : is_Some (queues A !! l) ->
  footprint (set_queue l ts A) b -> footprint A b.
Proof.
  intros Hl [(l' & Hl' & Hb) | Ht]; [left | by right]. exists l'. split; [| done].
  cbn in Hl'. rewrite lookup_insert_is_Some in Hl'. by destruct Hl' as [<- | [_ Hl']].
Qed.

Lemma set_task_footprint A t v b : is_Some (tasks A !! t) ->
  footprint (set_task t v A) b -> footprint A b.
Proof.
  intros Ht [Hl | [(t' & Ht' & Hb) | Ha]]; [by left | right; left | by right; right]. exists t'. split; [| done].
  cbn in Ht'. rewrite lookup_insert_is_Some in Ht'. by destruct Ht' as [<- | [_ Ht']].
Qed.

Lemma set_mem_mem (m m' : M) s : set_mem m (set_mem m' s) = set_mem m s.
Proof. done. Qed.

(** The part of [schedule] that puts the running thread back. *)
Lemma wp_requeue s R f A A1 v (Q : unit -> kstate M -> Prop) :
  backs (kmem s) R f -> rep R f A -> wf A -> tasks A !! cur A = Some v ->
  requeue A = Some A1 ->
  (forall m f', backs m R f' -> rep R f' A1 -> sched_only A f f' -> Q tt (set_mem m s)) ->
  wp seq_only (when code TASK_RUNNING =? code (tv_status v) then
    do found <- elem_find thread_ready_list (general_tag (cur A));
    ASSERT "thread/thread.c" 118 "schedule"
      "!elem_find(&thread_ready_list, &cur->general_tag)" (negb found);;
    list_append thread_ready_list (general_tag (cur A));;
    do p <- ld8 (priority (cur A)); st8 (ticks_left (cur A)) p;;
    st32 (status (cur A)) (code TASK_READY)) s Q.
Proof.
  intros Hb Hr HA Hv Hq HQ. destruct (wf_queue _ HA) as [q Hl].
  unfold requeue in Hq. rewrite Hv, Hl in Hq. cbn in Hq.
  destruct (decide (tv_status v = TASK_RUNNING)) as [Hst | Hst].
  2: { injection Hq as <-. rewrite (proj2 (Z.eqb_neq _ _)) by (destruct (tv_status v); done).
       apply wp_ret. destruct s. by eapply HQ. }
  injection Hq as <-. rewrite Hst, Z.eqb_refl.
  pose proof (running_nowhere A HA ltac:(by exists v)) as Hnow.
  apply wp_bind. eapply wp_queue_find; [done .. |].
  rewrite bool_decide_false by (by eapply Hnow).
  apply wp_bind, wp_assert; [done |].
  apply wp_bind. eapply wp_enqueue; [done | done | done | by eexists | done |].
  intros m1 f1 Hm1 Hr1 Ho1. apply wp_bind.
  eapply wp_task_priority; [done | done | done |]. intros Hp.
  apply wp_bind. eapply wp_set_ticks; [done | done | done | done |].
  intros m2 f2 Hm2 Hr2 Ho2. rewrite set_mem_mem.
  eapply wp_set_status; [done | done | cbn; apply lookup_insert_eq |].
  intros m3 f3 Hm3 Hr3 Ho3. rewrite set_mem_mem. eapply (HQ m3 f3); [done | |].
  - revert Hr3. unfold set_task at 1. cbn. by rewrite insert_insert_eq.
  - eapply sched_only_trans; [| exact Ho1 |].
    { intros b. by eapply (set_queue_footprint A). }
    eapply sched_only_trans; [| exact Ho2 | exact Ho3].
    intros b. apply set_task_footprint. by exists v.
Qed.

(** The part that gives the processor to the next thread. *)
Lemma dispatch_then s R f A A' next q (Phi : outcome (kstate M) unit -> Prop) :
  backs (kmem s) R f -> rep R f A -> wf A -> kesp s = esp A ->
  queues A !! thread_ready_list = Some (next :: q) -> dispatch A = Some A' -> cur A' = next ->
  (forall m f', backs m R f' -> rep R f' A' -> sched_only A f f' ->
     Phi (Yield (switched m A' s) (fun s' => Done tt s'))) ->
  Phi ((do tag <- list_pop thread_ready_list;
        modify (fun s => set_var (set_thread_tag tag (kvar s)) s);;
        do tag <- get (fun s => thread_tag (kvar s));
        let next := general_entry tag in
        st32 (status next) (code TASK_RUNNING);;
        put_lit "switch to :";; put_int next;; put_lit nl;;
        switch_to (cur A) next) s).
Proof.
  intros Hb Hr HA Hesp Hq Hd Hcur HPhi.
  destruct (rep_member _ _ _ Hr _ _ next Hq ltac:(by left)) as [vn Hn].
  apply seq_then. eapply wp_dequeue; [done .. |]. intros m2 f2 Hm2 Hr2 Ho2.
  apply seq_then, wp_modify, seq_then, wp_get. cbn [thread_tag set_thread_tag kvar set_var].
  assert (general_entry (general_tag next) = next) as -> by (unfold general_entry, general_tag; lia).
  apply seq_then. eapply wp_set_status; [exact Hm2 | exact Hr2 | exact Hn |].
  intros m3 f3 Hm3 Hr3 Ho3.
  apply seq_then, wp_modify. apply seq_then, wp_modify. apply seq_then, wp_modify.
  unfold switch_to. apply seq_then, wp_get.
  unfold dispatch in Hd. rewrite Hq in Hd. cbn [mbind option_bind head] in Hd.
  rewrite Hn in Hd. cbn [mbind option_bind tail] in Hd.
  set (B1 := set_task next _ _) in *.
  destruct (tasks B1 !! cur A) as [vc |] eqn:Hc; [cbn [mbind option_bind] in Hd | done].
  set (B2 := set_task (cur A) _ _) in *.
  destruct (tasks B2 !! next) as [vn' |] eqn:Hn'; [cbn [mbind option_bind] in Hd | done].
  injection Hd as <-. cbn [kesp put_out set_mem set_var]. rewrite Hesp.
  apply seq_then. eapply wp_set_kstack; [exact Hm3 | exact Hr3 | exact Hc | apply (wf_esp _ HA) |].
  intros m4 f4 Hm4 Hr4 Ho4.
  apply seq_then. eapply wp_task_kstack; [exact Hm4 | exact Hr4 | exact Hn' |].
  apply seq_then, wp_modify. rewrite <- Hcur.
  apply (HPhi m4 f4); [done | by apply rep_jump |].
  eapply sched_only_trans; [| exact Ho2 |].
  { intros b. by apply (set_queue_footprint A). }
  eapply sched_only_trans; [| exact Ho3 | exact Ho4].
  intros b. apply set_task_footprint. by exists vn.
Qed.

Lemma requeue_footprint A A1 b : requeue A = Some A1 -> footprint A1 b -> footprint A b.
Proof.
  unfold requeue. destruct (tasks A !! cur A) as [v |] eqn:Hv; [cbn | done].
  destruct (queues A !! thread_ready_list) as [q |] eqn:Hq; [cbn | done].
  intros [= <-]. case_decide; [| done]. intros Hb.
  apply (set_queue_footprint A thread_ready_list (q ++ [cur A])); [by exists q |].
  eapply set_task_footprint; [| done]. by exists v.
Qed.

(** [schedule]: one step of the abstract scheduler, then the hand-over. *)
Lemma schedule_then s R f A A' st (Phi : outcome (kstate M) unit -> Prop) :
  backs (kmem s) R f -> rep R f A -> wf A -> kif s = false -> kesp s = esp A ->
  cur_status A st -> st <> TASK_READY -> sched_next A = Some A' ->
  (forall m f', backs m R f' -> rep R f' A' -> sched_only A f f' ->
     Phi (Yield (switched m A' s) (fun s' => Done tt s'))) ->
  Phi (schedule s).
Proof.
  intros Hb Hr HA Hif Hesp Hst Hnr Hnext HPhi.
  destruct (requeue_wf A st HA Hst Hnr) as (A1 & Hq & HA1 & He1 & Hnr1 & Hq1).
  unfold sched_next in Hnext. rewrite Hq in Hnext. cbn in Hnext.
  destruct (wf_queue _ HA1) as [[| next q] Hq1'].
  { exfalso. unfold dispatch in Hnext. by rewrite Hq1' in Hnext. }
  destruct Hst as (v & Hv & Hst).
  unfold schedule. apply seq_then, wp_get. rewrite Hif.
  apply seq_then, wp_assert; [done |]. apply seq_then, wp_running_thread.
  rewrite Hesp. change (page_of (esp A)) with (cur A).
  apply seq_then. eapply wp_task_status; [done | done | done |].
  apply seq_then. eapply wp_requeue; [done .. |]. intros m1 f1 Hm1 Hr1 Ho1.
  apply seq_then. eapply wp_queue_empty; [done .. |]. apply seq_then, wp_assert; [done |].
  destruct (dispatch_wf A1 next q HA1 Hnr1 Hq1') as (B & HB & _ & HBc & _).
  rewrite HB in Hnext. injection Hnext as ->.
  assert (cur A = cur A1) as -> by (unfold cur; by rewrite He1).
  eapply (dispatch_then (set_mem m1 s)); [done .. | by rewrite He1 | done | done | done |].
  intros m f' Hm Hr' Ho. apply (HPhi m f'); [done | done |].
  eapply sched_only_trans; [| exact Ho1 | exact Ho]. intros b. by apply requeue_footprint.
Qed.

(** The step keeps the invariant, and the processor goes to a running
    thread; it fails only when there is nobody to run. *)
Lemma sched_next_wf A st : wf A -> cur_status A st -> st <> TASK_READY ->
  match sched_next A with
  | Some A' => wf A' /\ cur_status A' TASK_RUNNING
  | None => st <> TASK_RUNNING /\ queues A !! thread_ready_list = Some []
  end.
Proof.
  intros HA Hst Hnr.
  destruct (requeue_wf A st HA Hst Hnr) as (A1 & Hq & HA1 & He1 & Hnr1 & Hq1).
  unfold sched_next. rewrite Hq. cbn. destruct (wf_queue _ HA) as [q Hq0].
  rewrite Hq0 in Hq1. cbn in Hq1.
  destruct (wf_queue _ HA1) as [[| next q1] Hq1'].
  - unfold dispatch. rewrite Hq1'. cbn. rewrite Hq1 in Hq1'. case_decide; [by destruct q |].
    split; [done | congruence].
  - destruct (dispatch_wf A1 next q1 HA1 Hnr1 Hq1') as (B & -> & HB & _ & Hrun & _). done.
Qed.

(** Nobody to run: [schedule] ends in its assertion. *)
Lemma schedule_stuck s R f A st G (Q : unit -> kstate M -> Prop) :
  backs (kmem s) R f -> rep R f A -> wf A -> kif s = false -> kesp s = esp A ->
  cur_status A st -> st <> TASK_READY -> sched_next A = None ->
  (forall s', kmem s' = kmem s -> may_panic G (mk_panic "thread/thread.c" 126 "schedule"
     "!list_empty(&thread_ready_list)") s') ->
  wp G (schedule (M := M)) s Q.
Proof.
  intros Hb Hr HA Hif Hesp Hst Hnr Hnext HQ.
  pose proof (sched_next_wf A st HA Hst Hnr) as Hs. rewrite Hnext in Hs. destruct Hs as [Hns Hq].
  destruct Hst as (v & Hv & <-). unfold schedule. apply wp_bind, wp_get. rewrite Hif.
  apply wp_bind, wp_assert; [done |]. apply wp_bind, wp_running_thread.
  rewrite Hesp. change (page_of (esp A)) with (cur A).
  apply wp_bind. eapply wp_task_status; [done | done | done |].
  rewrite (proj2 (Z.eqb_neq _ _)) by (destruct (tv_status v); done).
  apply wp_bind, wp_ret, wp_bind. eapply wp_queue_empty; [done .. |].
  apply wp_bind. apply wp_assert_fails. intros s' Hs'. by apply HQ.
Qed.

Definition blocked (stat : task_status) (v : tview) (A : sched) : sched :=
  set_task (cur A) (with_status stat v) A.

(** [thread_block]: the running thread gets the status [stat], the processor
    goes to the next one, and this one goes on with its old interrupt flag. *)
Lemma thread_block_then s R f A A' v stat (Phi : outcome (kstate M) unit -> Prop) :
  backs (kmem s) R f -> rep R f A -> kesp s = esp A -> tasks A !! cur A = Some v ->
  waiting_code (code stat) = true -> wf (blocked stat v A) ->
  sched_next (blocked stat v A) = Some A' ->
  (forall m f' k, backs m R f' -> rep R f' A' -> sched_only A f f' ->
     (forall s', k s' = Done tt (set_if (kif s) s')) ->
     Phi (Yield (switched m A' (set_if false s)) k)) ->
  Phi (thread_block stat s).
Proof.
  intros Hb Hr Hesp Hv Hw HA Hnext HPhi. unfold thread_block.
  apply seq_then, wp_assert; [done |]. apply seq_then, wp_intr_disable.
  apply seq_then, wp_running_thread. cbn [kesp set_if]. rewrite Hesp.
  change (page_of (esp A)) with (cur A).
  apply seq_then. eapply wp_set_status; [done | done | done |]. intros m1 f1 Hm1 Hr1 Ho1.
  unfold cbind at 1.
  apply (schedule_then (set_mem m1 (set_if false s)) R f1 (blocked stat v A) A' stat
    (fun o => Phi (obind o (fun _ => cbind (intr_set_status (status_of (kif s))) (fun _ => cret tt)))));
    try done.
  { exists (with_status stat v). split; [apply lookup_insert_eq | done]. }
  { by intros ->. }
  intros m f' Hm Hr' Ho. cbn [obind]. apply HPhi with (f' := f'); [done | done | |].
  - eapply sched_only_trans; [| exact Ho1 | exact Ho].
    intros b. apply set_task_footprint. by exists v.
  - intros s'. apply (done_wp (intr_set_status (status_of (kif s));; cret tt)). intros Q HQ.
    apply wp_bind, wp_intr_set_status, wp_ret, HQ.
Qed.

(** [thread_unblock]: the thread comes to the front of the ready queue. *)
Definition unblocked (t : Z) (v : tview) (q : list Z) (A : sched) : sched :=
  set_task t (with_status TASK_READY v) (set_queue thread_ready_list (t :: q) A).

Lemma set_if_restore m b s : kif s = b -> set_if b (set_mem m (set_if false s)) = set_mem m s.
Proof. intros <-. done. Qed.

Lemma wp_thread_unblock G s R f A t v q (Q : unit -> kstate M -> Prop) :
  backs (kmem s) R f -> rep R f A -> tasks A !! t = Some v ->
  queues A !! thread_ready_list = Some q -> queued_nowhere A t ->
  waiting_code (code (tv_status v)) = true ->
  (forall m f', backs m R f' -> rep R f' (unblocked t v q A) -> sched_only A f f' ->
     Q tt (set_mem m s)) ->
  wp G (thread_unblock (M := M) t) s Q.
Proof.
  intros Hb Hr Ht Hq Hnow Hw HQ. unfold thread_unblock.
  apply wp_bind, wp_intr_disable.
  apply wp_bind. eapply wp_task_status; [done .. |]. apply wp_bind, wp_assert; [done |].
  apply wp_bind. eapply wp_task_status; [done .. |].
  rewrite (proj2 (Z.eqb_neq _ _)) by (destruct (tv_status v); done). cbn [negb].
  apply wp_bind, wp_bind. eapply wp_queue_find; [done .. |].
  rewrite bool_decide_false by (by eapply Hnow).
  apply wp_bind, wp_ret, wp_bind.
  eapply wp_enqueue_front; [done | done | done | by exists v | done |].
  intros m1 f1 Hm1 Hr1 Ho1. eapply wp_set_status; [done | done | done |].
  intros m2 f2 Hm2 Hr2 Ho2. apply wp_bind, wp_intr_set_status, wp_ret.
  rewrite set_mem_mem, set_if_restore by done. apply (HQ m2 f2); [done | done |].
  eapply sched_only_trans; [| exact Ho1 | exact Ho2].
  intros b. apply (set_queue_footprint A). by exists q.
Qed.

(** It keeps the invariant. *)
Lemma unblocked_wf A t v q : wf A -> tasks A !! t = Some v ->
  queues A !! thread_ready_list = Some q -> queued_nowhere A t ->
  waiting_code (code (tv_status v)) = true -> wf (unblocked t v q A).
Proof.
  intros HA Ht Hq Hnow Hw. destruct HA. split; cbn; try done.
  - rewrite lookup_insert_is_Some. by left.
  - intros l ts. rewrite lookup_insert_Some. intros [[<- <-] | [_ Hl]]; [| by eapply wf_nodup0].
    apply NoDup_cons. split; [by eapply Hnow | by eapply wf_nodup0].
  - intros l ts u. rewrite lookup_insert_Some, lookup_insert_is_Some. intros Hl Hin.
    destruct (decide (t = u)) as [Hu | Hu]; [by left | right]. split; [done |].
    destruct Hl as [[_ <-] | [_ Hl]]; [| by eapply wf_member0].
    apply elem_of_cons in Hin as [-> | Hin]; [done | by eapply wf_member0].
  - rewrite lookup_insert_is_Some. destruct (decide (t = cur A)); [by left | by right].
  - intros u w. rewrite lookup_insert_Some. intros [[<- <-] | [_ Hu]] Hc;
      [by apply (wf_stacks0 _ v) | by eapply wf_stacks0].
  - intros u w. rewrite lookup_insert_Some. intros [[<- <-] | [_ Hu]];
      [by apply (wf_words0 t v) | by eapply wf_words0].
  - intros q' u w. rewrite lookup_insert_eq. intros [= <-] Hin.
    rewrite lookup_insert_Some. intros [[_ <-] | [Hne Hu]]; [done |].
    apply elem_of_cons in Hin as [-> | Hin]; [done | by eapply wf_ready0].
  - intros l ts u w. rewrite lookup_insert_Some. intros [[<- _] | [Hn Hl]] Hl' Hin; [done |].
    rewrite lookup_insert_Some. intros [[<- _] | [_ Hu]]; [by destruct (Hnow _ _ Hl) |].
    by eapply wf_waiters0.
  - intros u w. rewrite lookup_insert_eq, lookup_insert_Some.
    intros [[<- <-] | [Hn Hu]] Hr; eexists; (split; [done |]); [by left | right].
    destruct (wf_runnable0 _ _ Hu Hr) as (q' & Hq' & Hin). congruence.
  - intros u w. rewrite lookup_insert_Some. intros [[<- <-] | [_ Hu]] Hr; [done |].
    by eapply wf_running0.
Qed.

(** So do the other queue operations: the running thread gives up the
    processor, it joins the waiters of a semaphore, a waiter leaves. *)
Lemma blocked_wf A v stat : wf A -> tasks A !! cur A = Some v -> tv_status v = TASK_RUNNING ->
  waiting_code (code stat) = true -> wf (blocked stat v A).
Proof.
  intros HA Hv Hst Hw.
  pose proof (running_nowhere A HA ltac:(by exists v)) as Hnow.
  destruct HA. split; cbn; try done.
  - intros l ts t Hl Hin. rewrite lookup_insert_is_Some.
    destruct (decide (cur A = t)); [by left | right; split; [done | by eapply wf_member0]].
  - rewrite lookup_insert_is_Some. by left.
  - intros t u. rewrite lookup_insert_Some. intros [[<- _] | [_ Hu]] Hc; [done | by eapply wf_stacks0].
  - intros t u. rewrite lookup_insert_Some. intros [[<- <-] | [_ Hu]];
      [by apply (wf_words0 (cur A) v) | by eapply wf_words0].
  - intros q t u Hq Hin. rewrite lookup_insert_Some.
    intros [[<- _] | [_ Hu]]; [by destruct (Hnow _ _ Hq) | by eapply wf_ready0].
  - intros l ts t u Hl Hlr Hin. rewrite lookup_insert_Some.
    intros [[_ <-] | [_ Hu]]; [done | by eapply wf_waiters0].
  - intros t u. rewrite lookup_insert_Some. intros [[_ <-] | [_ Hu]] Hr; [| by eapply wf_runnable0].
    cbn in Hr. by rewrite Hr in Hw.
  - intros t u. rewrite lookup_insert_Some. intros [[<- _] | [_ Hu]] Hr; [done | by eapply wf_running0].
Qed.

Lemma waiter_wf A l ts t v : wf A -> queues A !! l = Some ts -> l <> thread_ready_list ->
  tasks A !! t = Some v -> waiting_code (code (tv_status v)) = true -> queued_nowhere A t ->
  wf (set_queue l (ts ++ [t]) A).
Proof.
  intros HA Hl Hlr Ht Hw Hnow. destruct HA. split; cbn; try done.
  - by rewrite lookup_insert_ne.
  - intros l' ts'. rewrite lookup_insert_Some. intros [[_ <-] | [_ Hl']]; [| by eapply wf_nodup0].
    apply NoDup_app. split; [by eapply wf_nodup0 |]. split; [| apply NoDup_singleton].
    intros u Hu ->%list_elem_of_singleton. by eapply Hnow.
  - intros l' ts' u. rewrite lookup_insert_Some. intros [[_ <-] | [_ Hl']] Hin; [| by eapply wf_member0].
    apply elem_of_app in Hin as [Hin | ->%list_elem_of_singleton]; [by eapply wf_member0 | by exists v].
  - intros q u w. rewrite lookup_insert_ne by done. apply wf_ready0.
  - intros l' ts' u w. rewrite lookup_insert_Some. intros [[_ <-] | [_ Hl']] Hn Hin Hu;
      [| by eapply wf_waiters0].
    apply elem_of_app in Hin as [Hin | ->%list_elem_of_singleton]; [by eapply (wf_waiters0 l) |].
    by simplify_eq.
  - intros u w. rewrite lookup_insert_ne by done. apply wf_runnable0.
Qed.

Lemma woken_wf A l ts t : wf A -> queues A !! l = Some (t :: ts) -> l <> thread_ready_list ->
  wf (set_queue l ts A).
Proof.
  intros HA Hl Hlr. destruct HA. split; cbn; try done.
  - by rewrite lookup_insert_ne.
  - intros l' ts'. rewrite lookup_insert_Some. intros [[_ <-] | [_ Hl']]; [| by eapply wf_nodup0].
    apply wf_nodup0 in Hl. by apply NoDup_cons in Hl as [_ ?].
  - intros l' ts' u. rewrite lookup_insert_Some. intros [[_ <-] | [_ Hl']] Hin; [| by eapply wf_member0].
    eapply wf_member0; [done | by right].
  - intros q u w. rewrite lookup_insert_ne by done. apply wf_ready0.
  - intros l' ts' u w. rewrite lookup_insert_Some. intros [[_ <-] | [_ Hl']] Hn Hin Hu;
      [| by eapply wf_waiters0].
    eapply (wf_waiters0 l); [done | done | by right | done].
  - intros u w. rewrite lookup_insert_ne by done. apply wf_runnable0.
Qed.

Lemma woken_nowhere R f A l ts t : rep R f A -> wf A -> queues A !! l = Some (t :: ts) ->
  queued_nowhere (set_queue l ts A) t.
Proof.
  intros Hr HA Hl l' ts' Hl' Hin. cbn in Hl'. apply lookup_insert_Some in Hl' as [[_ <-] | [Hne Hl']].
  - apply (wf_nodup _ HA) in Hl. by apply NoDup_cons in Hl as [? _].
  - apply Hne. eapply (rep_single _ _ _ Hr); [done | done | by left | done].
Qed.

(** What a failed run of the scheduler ends in. *)
Definition nobody_ready : panic_info :=
  mk_panic "thread/thread.c" 126 "schedule" "!list_empty(&thread_ready_list)".

Lemma schedule_panics s R f A st :
  backs (kmem s) R f -> rep R f A -> wf A -> kif s = false -> kesp s = esp A ->
  cur_status A st -> st <> TASK_READY -> sched_next A = None ->
  exists s', schedule (M := M) s = Panic nobody_ready s'.
Proof.
  intros Hb Hr HA Hif He Hst Hnr Hn.
  destruct (panics_wp (schedule (M := M)) s nobody_ready) as (s' & Hs' & _); [| by eexists].
  intros G Q HQ. by eapply schedule_stuck.
Qed.

Lemma thread_block_stuck s R f A v stat (Phi : outcome (kstate M) unit -> Prop) :
  backs (kmem s) R f -> rep R f A -> kesp s = esp A -> tasks A !! cur A = Some v ->
  waiting_code (code stat) = true -> wf (blocked stat v A) ->
  sched_next (blocked stat v A) = None ->
  (forall s', Phi (Panic nobody_ready s')) -> Phi (thread_block stat s).
Proof.
  intros Hb Hr He Hv Hw HA Hn HPhi. unfold thread_block.
  apply seq_then, wp_assert; [done |]. apply seq_then, wp_intr_disable.
  apply seq_then, wp_running_thread. cbn [kesp set_if]. rewrite He.
  change (page_of (esp A)) with (cur A).
  apply seq_then. eapply wp_set_status; [done | done | done |]. intros m1 f1 Hm1 Hr1 Ho1.
  destruct (schedule_panics (set_mem m1 (set_if false s)) R f1 (blocked stat v A) stat) as (s' & Hs');
    try done.
  { exists (with_status stat v). split; [apply lookup_insert_eq | done]. }
  { by intros ->. }
  unfold cbind at 1. rewrite Hs'. apply HPhi.
Qed.

(** A status that is not one of waiting is refused. *)
Definition block_refused : panic_info := mk_panic "thread/thread.c" 151 "thread_block"
  "TASK_BLOCKED == stat || TASK_WAITING == stat || TASK_HANDGING == stat".
Definition unblock_refused : panic_info := mk_panic "thread/thread.c" 161 "thread_unblock"
  ("TASK_BLOCKED == pthread->status || TASK_WAITING == pthread->status || " ++ "TASK_HANDGING == pthread->status").

Lemma thread_block_refuses s stat : waiting_code (code stat) = false ->
  exists s', thread_block (M := M) stat s = Panic block_refused s'.
Proof.
  intros Hw. destruct (panics_wp (thread_block (M := M) stat) s block_refused) as (s' & Hs' & _); [| by eexists].
  intros G Q HQ. unfold thread_block. rewrite Hw. apply wp_bind. by apply wp_assert_fails.
Qed.

Lemma thread_unblock_refuses s R f A t v : backs (kmem s) R f -> rep R f A -> tasks A !! t = Some v ->
  waiting_code (code (tv_status v)) = false -> exists s', thread_unblock t s = Panic unblock_refused s'.
Proof.
  intros Hb Hr Ht Hw. destruct (panics_wp (thread_unblock t) s unblock_refused) as (s' & Hs' & _); [| by eexists].
  intros G Q HQ. unfold thread_unblock. apply wp_bind, wp_intr_disable.
  apply wp_bind. eapply wp_task_status; [exact Hb | done .. |]. rewrite Hw.
  apply wp_bind. by apply wp_assert_fails.
Qed.

(** A step touches no queue but the ready queue. *)
Lemma sched_next_queues A A' l : sched_next A = Some A' -> l <> thread_ready_list ->
  queues A' !! l = queues A !! l.
Proof.
  unfold sched_next, requeue, dispatch. intros Hn Hl. simplify_option_eq;
    by rewrite ?lookup_insert_ne by done.
Qed.

(** A step creates and destroys no thread and no queue. *)
Definition same_objects (A A' : sched) : Prop :=
  (forall t, is_Some (tasks A' !! t) <-> is_Some (tasks A !! t)) /\
  (forall l, is_Some (queues A' !! l) <-> is_Some (queues A !! l)).

Lemma same_objects_refl A : same_objects A A.
Proof. done. Qed.
Lemma same_objects_trans A B C : same_objects A B -> same_objects B C -> same_objects A C.
Proof. intros [H1 H2] [H3 H4]. split; intros x; [by rewrite H3 | by rewrite H4]. Qed.
Lemma same_objects_footprint A A' b : same_objects A A' -> footprint A' b <-> footprint A b.
Proof. intros [H1 H2]. unfold footprint. by setoid_rewrite H1; setoid_rewrite H2. Qed.

Lemma insert_is_Some {X} (m : gmap Z X) k x i : is_Some (m !! k) ->
  is_Some (<[k := x]> m !! i) <-> is_Some (m !! i).
Proof.
  intros Hk. rewrite lookup_insert_is_Some. destruct (decide (k = i)) as [-> | Hne].
  - split; [done | by left].
  - split; [by intros [Hki | [_ Hi]] | by right].
Qed.

Lemma set_queue_objects A l ts : is_Some (queues A !! l) -> same_objects A (set_queue l ts A).
Proof. intros Hl. split; [done |]. intros l'. cbn. by apply insert_is_Some. Qed.
Lemma set_task_objects A t v : is_Some (tasks A !! t) -> same_objects A (set_task t v A).
Proof. intros Ht. split; [| done]. intros t'. cbn. by apply insert_is_Some. Qed.

Lemma requeue_objects A A' : requeue A = Some A' -> same_objects A A'.
Proof.
  unfold requeue. destruct (tasks A !! cur A) as [v |] eqn:Hv; [cbn | done].
  destruct (queues A !! thread_ready_list) as [q |] eqn:Hq; [cbn | done].
  intros [= <-]. case_decide; [| done].
  eapply same_objects_trans; [by apply set_queue_objects; exists q |].
  apply set_task_objects. by exists v.
Qed.

Lemma dispatch_objects A A' : dispatch A = Some A' -> same_objects A A'.
Proof.
  unfold dispatch. destruct (queues A !! thread_ready_list) as [[| n q] |] eqn:Hq; try done.
  cbn [mbind option_bind head]. destruct (tasks A !! n) as [vn |] eqn:Hn; [| done].
  cbn [mbind option_bind tail]. set (A1 := set_task n _ _).
  destruct (tasks A1 !! cur A) as [vc |] eqn:Hc; [| done]. cbn [mbind option_bind].
  set (A2 := set_task (cur A) _ _). destruct (tasks A2 !! n); [| done]. intros [= <-].
  assert (same_objects A A1) as H1.
  { eapply same_objects_trans; [by apply set_queue_objects; eexists |].
    apply set_task_objects. by exists vn. }
  assert (same_objects A1 A2) as H2 by (apply set_task_objects; by eexists).
  exact (same_objects_trans _ _ _ H1 H2).
Qed.

Lemma sched_next_objects A A' : sched_next A = Some A' -> same_objects A A'.
Proof.
  unfold sched_next. destruct (requeue A) as [A1 |] eqn:Hq; [| done]. intros Hd.
  eapply same_objects_trans; [by apply requeue_objects | by apply dispatch_objects].
Qed.
End refinement.

(** ** Sequences of scheduling steps *)

Section sequences.
Context {LY : Layout}.

Fixpoint slices (n : nat) (A : sched) : option sched :=
  match n with O => Some A | S n' => sched_next A ≫= slices n' end.

(** The running thread goes to the end of the line, the next one runs. *)
Lemma sched_next_rotates A q : wf A -> cur_status A TASK_RUNNING ->
  queues A !! thread_ready_list = Some q ->
  exists A' q', sched_next A = Some A' /\ wf A' /\ cur_status A' TASK_RUNNING /\
    queues A' !! thread_ready_list = Some q' /\ cur A' :: q' = q ++ [cur A].
Proof.
  intros HA Hst Hq.
  destruct (requeue_wf A TASK_RUNNING HA Hst ltac:(done)) as (A1 & Hr & HA1 & _ & Hnr1 & Hq1).
  rewrite Hq in Hq1. cbn in Hq1. unfold sched_next. rewrite Hr. cbn.
  destruct (q ++ [cur A]) as [| next q'] eqn:Hline; [by destruct q |].
  destruct (dispatch_wf A1 next q' HA1 Hnr1 Hq1) as (A' & -> & HA' & Hc & Hrun & HqA').
  exists A', q'. rewrite HqA', lookup_insert_eq, Hc. done.
Qed.

(** A step does not touch the status of a thread that waits. *)
Lemma sched_next_waiting A A' st t v : wf A -> cur_status A st -> st <> TASK_READY ->
  sched_next A = Some A' -> tasks A !! t = Some v -> waiting_code (code (tv_status v)) = true ->
  exists v', tasks A' !! t = Some v' /\ tv_status v' = tv_status v.
Proof.
  intros HA Hst Hnr Hn Ht Hw.
  destruct (requeue_wf A st HA Hst Hnr) as (A1 & Hr & HA1 & _ & Hnr1 & Hq1).
  unfold sched_next in Hn. rewrite Hr in Hn. cbn in Hn.
  destruct (wf_queue _ HA1) as [[| next q] Hq]; [unfold dispatch in Hn; by rewrite Hq in Hn |].
  destruct (dispatch_eq A1 next q HA1 Hq) as (B & HB & _ & HtB & _ & _).
  rewrite Hn in HB. injection HB as <-.
  assert (exists v1, tasks A1 !! t = Some v1 /\ tv_status v1 = tv_status v) as (v1 & Hv1 & Hst1).
  { destruct Hst as (vc & Hvc & Hst). destruct (wf_queue _ HA) as [q0 Hq0].
    revert Hr. unfold requeue. rewrite Hvc, Hq0. cbn. intros [= <-].
    case_decide as Hrun; [| by exists v]. exists v. split; [| done]. cbn.
    rewrite lookup_insert_ne; [done |]. intros <-. rewrite Ht in Hvc. simplify_eq.
    by rewrite Hrun in Hw. }
  exists (view_after A1 next t v1). rewrite HtB, Hv1. split; [done |].
  rewrite view_after_status; [done |]. intros ->.
  rewrite (wf_ready _ HA1 _ _ _ Hq ltac:(by left) Hv1) in Hst1. by rewrite <- Hst1 in Hw.
Qed.
End sequences.

(** ** Properties *)

(** The memory and the stack pointer represent the scheduler state. *)
Definition represents {M : Type} {RM : RawMem M} {RL : RawMemLaws M} {LY : Layout} (R : Z -> Prop) (s : kstate M) (A : sched) : Prop :=
  exists f, backs (kmem s) R f /\ rep R f A /\ kesp s = esp A.

Section represents.
Context {M : Type} {RM : RawMem M} {RL : RawMemLaws M} {LY : Layout}.

(** One call of [schedule] is one step of the abstract scheduler. *)
Lemma schedule_step (s : kstate M) R A st :
  represents R s A -> wf A -> kif s = false -> cur_status A st -> st <> TASK_READY ->
  match sched_next A with
  | Some A' =>
      wf A' /\ cur_status A' TASK_RUNNING /\
      exists s', schedule s = Yield s' (fun s'' => Done tt s'') /\
        represents R s' A' /\ kif s' = false /\
        thread_tag (kvar s') = general_tag (cur A') /\ kports s' = kports s
  | None =>
      exists s', schedule s = Panic (mk_panic "thread/thread.c" 126 "schedule"
        "!list_empty(&thread_ready_list)") s'
  end.
Proof.
  intros (f & Hb & Hr & He) HA Hif Hst Hnr.
  pose proof (sched_next_wf A st HA Hst Hnr) as Hs.
  destruct (sched_next A) as [A' |] eqn:Hn.
  - destruct Hs as [HA' Hrun]. split; [done |]. split; [done |].
    pattern (schedule s). eapply (schedule_then s R f A A' st); try done.
    intros m f' Hm Hr' _. eexists. split; [done |]. split; [by exists f' |]. done.
  - destruct (panics_wp (schedule (M := M)) s (mk_panic "thread/thread.c" 126 "schedule"
      "!list_empty(&thread_ready_list)")) as (s' & Hs' & _); [| by eexists].
    intros G Q HQ. by eapply schedule_stuck.
Qed.

(** [n] calls of [schedule], each by the thread that runs then: the threads
    hand the processor on from one to the next. *)
Fixpoint switches (n : nat) (s : kstate M) : option (kstate M) :=
  match n with
  | O => Some s
  | S n' => match schedule s with Yield s' _ => switches n' s' | _ => None end
  end.

Lemma switches_slices n (s : kstate M) R A st :
  represents R s A -> wf A -> kif s = false -> cur_status A st -> st <> TASK_READY ->
  match slices n A with
  | Some A' => exists s', switches n s = Some s' /\ represents R s' A' /\ kif s' = false
  | None => switches n s = None
  end.
Proof.
  revert s A st. induction n as [| n IH]; intros s A st Hr HA Hif Hst Hnr; cbn [slices switches].
  - by exists s.
  - pose proof (schedule_step s R A st Hr HA Hif Hst Hnr) as Hs.
    destruct (sched_next A) as [A1 |]; cbn [mbind option_bind].
    + destruct Hs as (HA1 & Hrun & s1 & -> & Hr1 & Hif1 & _). by apply (IH s1 A1 TASK_RUNNING).
    + by destruct Hs as [s1 ->].
Qed.

(** On the abstract scheduler, [n] steps rotate the line by [n] places. *)
Lemma slices_rotate A q xs1 t xs2 : wf A -> cur_status A TASK_RUNNING ->
  queues A !! thread_ready_list = Some q -> cur A :: q = xs1 ++ (t :: xs2) ->
  exists A', slices (length xs1) A = Some A' /\ wf A' /\ cur_status A' TASK_RUNNING /\
    cur A' = t /\ queues A' !! thread_ready_list = Some (xs2 ++ xs1).
Proof.
  revert A q xs2. induction xs1 as [| x xs1 IH]; intros A q xs2 HA Hst Hq Hline.
  - injection Hline as <- <-. exists A. rewrite app_nil_r. done.
  - injection Hline as <- ->.
    destruct (sched_next_rotates A _ HA Hst Hq) as (A1 & q1 & Hn & HA1 & Hst1 & Hq1 & Hl1).
    cbn [length slices]. rewrite Hn. cbn. rewrite <- app_assoc in Hl1.
    destruct (IH A1 q1 (xs2 ++ [cur A]) HA1 Hst1 Hq1 Hl1) as (A' & -> & HA' & Hst' & Hc & Hq').
    exists A'. rewrite <- app_assoc in Hq'. done.
Qed.

Lemma slices_avoid A A' st t v n : wf A -> cur_status A st -> st <> TASK_READY ->
  tasks A !! t = Some v -> waiting_code (code (tv_status v)) = true ->
  slices (S n) A = Some A' -> cur A' <> t.
Proof.
  revert A st v. induction n as [| n IH]; intros A st v HA Hst Hnr Ht Hw Hs; cbn in Hs.
  all: pose proof (sched_next_wf A st HA Hst Hnr) as Hn.
  all: destruct (sched_next A) as [A1 |] eqn:Hn1; [cbn in Hs | done].
  all: destruct Hn as [HA1 Hrun].
  all: destruct (sched_next_waiting A A1 st t v HA Hst Hnr Hn1 Ht Hw) as (v1 & Hv1 & Hst1).
  - injection Hs as <-. intros <-. destruct Hrun as (w & Hw' & Hr).
    rewrite Hv1 in Hw'. simplify_eq. rewrite <- Hst1, Hr in Hw. done.
  - eapply (IH A1 TASK_RUNNING v1); try done. by rewrite Hst1.
Qed.
End represents.

Section properties.
Context {M : Type} {RM : RawMem M} {RL : RawMemLaws M} {LY : Layout}.

(** C12. With interrupts off, [schedule] performs exactly one step of the abstract
    scheduler: a running thread goes to the end of the ready queue with its
    slice refilled, the head of the queue gets the processor, its stack pointer
    is loaded and the old one saved; the invariant is kept, and the thread that
    called it simply returns when it runs again.  When nobody can run it ends
    in the assertion on the empty ready queue. *)
Theorem schedule_refines (s : kstate M) R A st :
  represents R s A -> wf A -> kif s = false -> cur_status A st -> st <> TASK_READY ->
  match sched_next A with
  | Some A' =>
      wf A' /\ cur_status A' TASK_RUNNING /\
      exists s', schedule s = Yield s' (fun s'' => Done tt s'') /\
        represents R s' A' /\ kif s' = false /\
        thread_tag (kvar s') = general_tag (cur A') /\ kports s' = kports s
  | None =>
      exists s', schedule s = Panic (mk_panic "thread/thread.c" 126 "schedule"
        "!list_empty(&thread_ready_list)") s'
  end.
Proof. apply schedule_step. Qed.

(** C13. Round robin: while the running threads only use up their slices, the
    thread at position [n] of the line "running thread, ready queue" gets the
    processor after exactly [n] calls of [schedule], and the line has been
    rotated. *)
Theorem round_robin (s : kstate M) R A q xs1 t xs2 :
  represents R s A -> wf A -> kif s = false -> cur_status A TASK_RUNNING ->
  queues A !! thread_ready_list = Some q -> cur A :: q = xs1 ++ (t :: xs2) ->
  exists s' A', switches (length xs1) s = Some s' /\ page_of (kesp s') = t /\
    represents R s' A' /\ wf A' /\ cur_status A' TASK_RUNNING /\
    queues A' !! thread_ready_list = Some (xs2 ++ xs1).
Proof.
  intros Hr HA Hif Hst Hq Hline.
  destruct (slices_rotate A q xs1 t xs2 HA Hst Hq Hline) as (A' & Hs & HA' & Hst' & Hc & Hq').
  pose proof (switches_slices (length xs1) s R A TASK_RUNNING Hr HA Hif Hst ltac:(done)) as Hw.
  rewrite Hs in Hw. destruct Hw as (s' & Hsw & Hr' & _). exists s', A'.
  split; [done |]. split; [| done]. destruct Hr' as (f & _ & _ & ->). done.
Qed.

(** C14. A thread that has given up the processor does not run again, however
    often [schedule] is called, until somebody unblocks it. *)
Theorem blocked_stays_off (s s' : kstate M) R A st t v n :
  represents R s A -> wf A -> kif s = false -> cur_status A st -> st <> TASK_READY ->
  tasks A !! t = Some v -> waiting_code (code (tv_status v)) = true ->
  switches (S n) s = Some s' -> page_of (kesp s') <> t.
Proof.
  intros Hr HA Hif Hst Hnr Ht Hw Hs.
  pose proof (switches_slices (S n) s R A st Hr HA Hif Hst Hnr) as Hsl.
  destruct (slices (S n) A) as [A' |] eqn:HA'; [| by rewrite Hs in Hsl].
  destruct Hsl as (s1 & Hs1 & (f & _ & _ & He) & _). rewrite Hs in Hs1. injection Hs1 as <-.
  rewrite He. by apply (slices_avoid A A' st t v n).
Qed.

(** [thread_block]: the caller gets the status, the next ready thread the
    processor, and when the caller runs again it returns with the interrupt
    flag it had. *)
Theorem thread_block_gives_up (s : kstate M) R A A' v stat :
  represents R s A -> wf A -> tasks A !! cur A = Some v -> tv_status v = TASK_RUNNING ->
  waiting_code (code stat) = true -> sched_next (blocked stat v A) = Some A' ->
  exists s' k, thread_block stat s = Yield s' k /\ represents R s' A' /\ kif s' = false /\
    cur_status A' TASK_RUNNING /\ cur A' <> cur A /\
    (forall s'', k s'' = Done tt (set_if (kif s) s'')).
Proof.
  intros (f & Hb & Hr & He) HA Hv Hst Hw Hn.
  pose proof (blocked_wf A v stat HA Hv Hst Hw) as HB.
  assert (cur_status (blocked stat v A) stat) as Hcs
    by (exists (with_status stat v); split; [apply lookup_insert_eq | done]).
  assert (stat <> TASK_READY) as Hnr by (by intros ->).
  pose proof (sched_next_wf _ _ HB Hcs Hnr) as Hs. rewrite Hn in Hs. destruct Hs as [HA' Hrun].
  assert (cur A' <> cur A) as Hne.
  { intros Hc. pose proof Hcs as (w & Hw1 & Hw2).
    destruct (sched_next_waiting _ A' stat (cur A) w HB ltac:(by exists w) Hnr Hn Hw1
      ltac:(by rewrite Hw2)) as (w' & Hw' & Hsw).
    destruct Hrun as (u & Hu & Hru). rewrite Hc, Hw' in Hu. simplify_eq.
    by rewrite <- Hsw, Hru in Hw. }
  pattern (thread_block stat s). eapply thread_block_then; try done.
  intros m f' k Hm Hr' _ Hk. eexists _, k. split; [done |].
  split; [by exists f' |]. done.
Qed.
End properties.

(** ** Deciding on concrete contents *)

Definition clearb (a n b k : Z) : bool := (a + n <=? b) || (b + k <=? a).
Definition memb (t : Z) (ts : list Z) : bool := bool_decide (t ∈ ts).

Definition task_atb (f : Z -> Z) (t : Z) (v : tview) : bool :=
  (w32 f (self_kstack t) =? tv_kstack v) && (w32 f (status t) =? code (tv_status v)) &&
  (f (priority t) =? tv_priority v) && (f (ticks_left t) =? tv_ticks v) &&
  (w32 f (elapsed_ticks t) =? tv_elapsed v) && (w32 f (pgdir t) =? tv_pgdir v) &&
  (w32 f (stack_magic t) =? tv_magic v).

Definition qmap := list (Z * list Z).
Definition tmap := list (Z * tview).
Definition sched_of (e : Z) (qs : qmap) (ts : tmap) : sched :=
  mk_sched e (list_to_map qs) (list_to_map ts) (map fst ts).

Definition allb {LY : Layout} (f : Z -> Z) (qs : qmap) (ts : tmap) : bool :=
  dlistb f thread_all_list (map all_list_tag (map fst ts)) &&
  forallb (fun '(l, _) => clearb thread_all_list 16 l 16) qs &&
  forallb (fun '(t, _) => clearb t 72 thread_all_list 16) ts.

Definition repb {LY : Layout} (f : Z -> Z) (qs : qmap) (ts : tmap) : bool :=
  forallb (fun '(l, q) => dlistb f l (map general_tag q) &&
    forallb (fun t => memb t (map fst ts)) q) qs &&
  forallb (fun '(l, q) => forallb (fun '(l', q') => (l =? l') ||
    (clearb l 16 l' 16 && forallb (fun t => negb (memb t q')) q)) qs) qs &&
  forallb (fun '(t, v) => task_atb f t v && (0 <=? t) && (t + 72 <=? 4294967296)) ts &&
  forallb (fun '(t, _) => forallb (fun '(t', _) => (t =? t') || clearb t 72 t' 72) ts) ts &&
  forallb (fun '(t, _) => forallb (fun '(l, _) => clearb t 72 l 16) qs) ts &&
  allb f qs ts.

Lemma forallb_elem {A} (P : A -> bool) xs x : forallb P xs = true -> x ∈ xs -> P x = true.
Proof. rewrite forallb_forall. intros H Hx. by apply H, list_elem_of_In. Qed.

Lemma is_Some_elem {A} (xs : list (Z * A)) t :
  is_Some ((list_to_map xs : gmap Z A) !! t) -> exists x, (t, x) ∈ xs.
Proof. intros [x Hx]. exists x. by apply elem_of_list_to_map_2. Qed.

Lemma task_atb_spec f t v : task_atb f t v = true -> task_at f t v.
Proof. unfold task_atb. rewrite !andb_true_iff, !Z.eqb_eq. intros [[[[[[]]]]]]. by split. Qed.

Lemma allb_spec {LY : Layout} f qs ts : allb f qs ts = true ->
  dlist is_u32 f thread_all_list (map all_list_tag (map fst ts)) /\
  (forall l q, (l, q) ∈ qs -> clear thread_all_list 16 l 16) /\
  (forall t v, (t, v) ∈ ts -> clear t task_struct_size thread_all_list 16).
Proof.
  unfold allb. rewrite !andb_true_iff. intros [[H1 H2] H3].
  split; [by apply dlistb_spec |]. split.
  - intros l q Hl. pose proof (forallb_elem _ _ _ H2 Hl) as Hx. cbn in Hx. unfold clearb, clear in *. lia.
  - intros t v Ht. pose proof (forallb_elem _ _ _ H3 Ht) as Hx. cbn in Hx.
    unfold clearb, clear, task_struct_size in *. lia.
Qed.

Lemma repb_spec {LY : Layout} f e qs ts : repb f qs ts = true -> rep is_u32 f (sched_of e qs ts).
Proof.
  unfold repb. rewrite !andb_true_iff. intros [[[[[H1 H2] H3] H4] H5] H6].
  destruct (allb_spec f qs ts H6) as (Ha1 & Ha2 & Ha3). clear H6.
  assert (forall l q, (list_to_map qs : gmap Z (list Z)) !! l = Some q ->
    dlist is_u32 f l (map general_tag q) /\ forall t, t ∈ q -> t ∈ map fst ts) as Hq.
  { intros l q Hl%elem_of_list_to_map_2. pose proof (forallb_elem _ _ _ H1 Hl) as Hx.
    cbn in Hx. apply andb_true_iff in Hx as [Hd Ht]. split; [by apply dlistb_spec |].
    intros t Hin. exact (proj1 (bool_decide_eq_true _) (forallb_elem _ _ _ Ht Hin)). }
  assert (forall l q l' q', (l, q) ∈ qs -> (l', q') ∈ qs -> l <> l' ->
    clear l 16 l' 16 /\ forall t, t ∈ q -> ~ t ∈ q') as Hqq.
  { intros l q l' q' Hl Hl' Hne. pose proof (forallb_elem _ _ _ H2 Hl) as Hx. cbn in Hx.
    pose proof (forallb_elem _ _ _ Hx Hl') as Hy. cbn in Hy.
    apply orb_true_iff in Hy as [Hy | Hy]; [lia |]. apply andb_true_iff in Hy as [Hc Ht].
    split; [unfold clearb, clear in *; lia |]. intros t Hin.
    pose proof (forallb_elem _ _ _ Ht Hin) as Hn. cbn in Hn.
    apply negb_true_iff, bool_decide_eq_false in Hn. done. }
  assert (forall t v, (t, v) ∈ ts -> task_at f t v /\ 0 <= t /\ t + 72 <= 4294967296) as Ht.
  { intros t v Hin. pose proof (forallb_elem _ _ _ H3 Hin) as Hx. cbn in Hx.
    rewrite !andb_true_iff in Hx. destruct Hx as [[Hv Ha] Hb].
    split; [by apply task_atb_spec | lia]. }
  split; cbn [queues tasks sched_of].
  - intros l q Hl. by apply Hq.
  - intros l q t Hl Hin. destruct (list_to_map ts !! t) as [v |] eqn:Hv; [by eexists |].
    apply not_elem_of_list_to_map_2 in Hv. by destruct Hv; apply (Hq l q).
  - intros l l' q q' t Hl%elem_of_list_to_map_2 Hl'%elem_of_list_to_map_2 Hin Hin'.
    destruct (Z.eq_dec l l') as [| Hne]; [done |].
    by destruct (proj2 (Hqq _ _ _ _ Hl Hl' Hne) t Hin).
  - intros t v Hv%elem_of_list_to_map_2. by apply Ht.
  - intros t [v Hv]%is_Some_elem b Hb. destruct (Ht t v Hv) as (_ & Ha & Hc).
    unfold span, task_struct_size, is_u32 in *. lia.
  - intros t t' [v Hv]%is_Some_elem [v' Hv']%is_Some_elem Hne.
    pose proof (forallb_elem _ _ _ H4 Hv) as Hx. cbn in Hx.
    pose proof (forallb_elem _ _ _ Hx Hv') as Hy. cbn in Hy.
    unfold clearb, clear, task_struct_size in *. lia.
  - intros l l' [v Hv]%is_Some_elem [v' Hv']%is_Some_elem Hne. by apply (Hqq _ _ _ _ Hv Hv').
  - intros t l [v Hv]%is_Some_elem [v' Hv']%is_Some_elem.
    pose proof (forallb_elem _ _ _ H5 Hv) as Hx. cbn in Hx.
    pose proof (forallb_elem _ _ _ Hx Hv') as Hy. cbn in Hy.
    unfold clearb, clear, task_struct_size in *. lia.
  - exact Ha1.
  - intros t ([t' v] & -> & Hin)%list_elem_of_fmap. cbn.
    destruct (list_to_map ts !! t') as [w |] eqn:Hw; [by eexists |].
    apply not_elem_of_list_to_map_2 in Hw. destruct Hw. apply list_elem_of_fmap. by exists (t', v).
  - intros l [q Hl]%is_Some_elem. by apply (Ha2 l q).
  - intros t [v Hv]%is_Some_elem. by apply (Ha3 t v).
Qed.

Section deciding.
Context {LY : Layout}.

Definition readyb (qs : qmap) (t : Z) : bool :=
  existsb (fun '(l, q) => (l =? thread_ready_list) && memb t q) qs.

Definition wfb (e : Z) (qs : qmap) (ts : tmap) : bool :=
  (0 <=? e) && (e <? 4294967296) && memb (page_of e) (map fst ts) &&
  memb thread_ready_list (map fst qs) && bool_decide (NoDup (map fst qs)) &&
  forallb (fun '(_, q) => bool_decide (NoDup q) && forallb (fun t => memb t (map fst ts)) q) qs &&
  forallb (fun '(t, v) => (0 <=? tv_kstack v) && (tv_kstack v <? 4294967296) &&
    ((t =? page_of e) || (page_of (tv_kstack v) =? t)) &&
    (negb (bool_decide (tv_status v = TASK_RUNNING)) || (t =? page_of e)) &&
    (negb (bool_decide (tv_status v = TASK_READY)) || readyb qs t)) ts &&
  forallb (fun '(l, q) => forallb (fun '(t, v) => negb (memb t q) ||
    (if l =? thread_ready_list then bool_decide (tv_status v = TASK_READY)
     else waiting_code (code (tv_status v)))) ts) qs.

Lemma memb_spec t ts : memb t ts = true <-> t ∈ ts.
Proof. apply bool_decide_eq_true. Qed.

Lemma wfb_spec e qs ts : wfb e qs ts = true -> wf (sched_of e qs ts).
Proof.
  unfold wfb. rewrite !andb_true_iff, bool_decide_eq_true, !memb_spec.
  intros [[[[[[[He1 He2] Hcur] Hq] Hnd] H1] H2] H3].
  assert (forall {A} (xs : list (Z * A)) t, t ∈ map fst xs ->
    is_Some ((list_to_map xs : gmap Z A) !! t)) as Hdom.
  { intros A xs t Hin. destruct (list_to_map xs !! t) as [x |] eqn:Hx; [by eexists |].
    by apply not_elem_of_list_to_map_2 in Hx. }
  assert (forall l q, (l, q) ∈ qs -> NoDup q /\ forall t, t ∈ q -> t ∈ map fst ts) as HQ.
  { intros l q Hl. pose proof (forallb_elem _ _ _ H1 Hl) as Hx. cbn in Hx.
    rewrite andb_true_iff, bool_decide_eq_true in Hx. destruct Hx as [Hx Hy]. split; [done |].
    intros t Hin. apply memb_spec. exact (forallb_elem _ _ _ Hy Hin). }
  assert (forall l q t v, (l, q) ∈ qs -> (t, v) ∈ ts -> t ∈ q ->
    (if l =? thread_ready_list then bool_decide (tv_status v = TASK_READY)
     else waiting_code (code (tv_status v))) = true) as Hqs.
  { intros l q t v Hl Ht Hin. pose proof (forallb_elem _ _ _ H3 Hl) as Hx. cbn in Hx.
    pose proof (forallb_elem _ _ _ Hx Ht) as Hy. cbn in Hy.
    by rewrite (proj2 (memb_spec t q) Hin) in Hy. }
  assert (forall t v, (t, v) ∈ ts -> is_u32 (tv_kstack v) /\
    (t <> page_of e -> page_of (tv_kstack v) = t) /\
    (tv_status v = TASK_RUNNING -> t = page_of e) /\
    (tv_status v = TASK_READY -> readyb qs t = true)) as HT.
  { intros t v Ht. pose proof (forallb_elem _ _ _ H2 Ht) as Hx. cbn in Hx.
    rewrite !andb_true_iff, !orb_true_iff, !negb_true_iff, !bool_decide_eq_false in Hx.
    unfold is_u32. destruct Hx as [[[[Hx1 Hx2] Hx3] Hx4] Hx5].
    split; [lia |]. split; [lia |]. split.
    - intros Hs. destruct Hx4 as [Hx4 | Hx4]; [done | lia].
    - intros Hs. by destruct Hx5. }
  split; cbn [queues tasks sched_of esp]; unfold cur; cbn [esp].
  - unfold is_u32. lia.
  - by apply Hdom.
  - intros l q Hl%elem_of_list_to_map_2. by eapply HQ.
  - intros l q t Hl%elem_of_list_to_map_2 Hin. apply Hdom. by eapply HQ.
  - by apply Hdom.
  - intros t v Ht%elem_of_list_to_map_2. by apply HT.
  - intros t v Ht%elem_of_list_to_map_2. by apply (HT t).
  - intros q t v Hl%elem_of_list_to_map_2 Hin Ht%elem_of_list_to_map_2.
    pose proof (Hqs _ _ _ _ Hl Ht Hin) as Hx. by rewrite Z.eqb_refl, bool_decide_eq_true in Hx.
  - intros l q t v Hl%elem_of_list_to_map_2 Hlr Hin Ht%elem_of_list_to_map_2.
    pose proof (Hqs _ _ _ _ Hl Ht Hin) as Hx. by rewrite (proj2 (Z.eqb_neq _ _) Hlr) in Hx.
  - intros t v Ht%elem_of_list_to_map_2 Hs. destruct (HT t v Ht) as (_ & _ & _ & Hr).
    specialize (Hr Hs). unfold readyb in Hr. apply existsb_exists in Hr as ([l q] & Hin & Hx).
    apply andb_true_iff in Hx as [Hl%Z.eqb_eq Hm%memb_spec]. subst l. exists q.
    split; [| done]. apply elem_of_list_to_map_1; [done |]. by apply list_elem_of_In.
  - intros t v Ht%elem_of_list_to_map_2 Hs. by apply (HT t v Ht).
Qed.
End deciding.

(** The words of a PCB in memory. *)
Definition task_words (t : Z) (v : tview) : list (Z * Z) :=
  [(self_kstack t, tv_kstack v); (status t, code (tv_status v));
   (priority t, tv_priority v); (t + 28, 256 * tv_ticks v);
   (elapsed_ticks t, tv_elapsed v); (pgdir t, tv_pgdir v);
   (stack_magic t, tv_magic v)].

Definition sched_words {LY : Layout} (qs : qmap) (ts : tmap) : list (Z * Z) :=
  concat (map (fun '(l, q) => dlist_words l (map general_tag q)) qs) ++
  dlist_words thread_all_list (map all_list_tag (map fst ts)) ++
  concat (map (fun '(t, v) => task_words t v) ts).

(** Three threads: the first runs, the second is ready, the third waits. *)
Module examples.
#[local] Existing Instance demo_layout.
Definition t1 : Z := 0xc009e000.
Definition t2 : Z := 0xc0100000.
Definition t3 : Z := 0xc0101000.
Definition v1 : tview := mk_tview 0 TASK_RUNNING 31 7 0 0 0x19851122.
Definition v2 : tview := mk_tview (t2 + 3664) TASK_READY 8 8 0 0 0x19851122.
Definition v3 : tview := mk_tview (t3 + 3664) TASK_BLOCKED 8 8 0 0 0x19851122.
Definition waiters : Z := 0xc0009400.
Definition qs : qmap := [(thread_ready_list, [t2]); (waiters, [t3])].
Definition ts : tmap := [(t1, v1); (t2, v2); (t3, v3)].
Definition mem : flat := flat_of (sched_words qs ts).
Definition A0 : sched := sched_of 0xc009eff0 qs ts.
Definition st0 : kstate flat := machine_of mem.

Lemma A0_wf : wf A0.
Proof. apply wfb_spec. by vm_compute. Qed.

Lemma st0_represents : represents is_u32 st0 A0.
Proof.
  exists (flat_at mem). split; [apply flat_backs |]. split; [| done].
  apply repb_spec. by vm_compute.
Qed.

Lemma A0_running : cur_status A0 TASK_RUNNING.
Proof. exists v1. split; by vm_compute. Qed.

Lemma schedule_refines_witness :
  exists A' s', sched_next A0 = Some A' /\ cur A' = t2 /\
    schedule st0 = Yield s' (fun s'' => Done tt s'') /\ represents is_u32 s' A'.
Proof.
  pose proof (schedule_refines st0 is_u32 A0 TASK_RUNNING st0_represents A0_wf
    eq_refl A0_running ltac:(done)) as Hs.
  destruct (sched_next A0) as [A' |] eqn:Hn; [| by vm_compute in Hn].
  destruct Hs as (_ & _ & s' & H1 & H2 & _). exists A', s'.
  split; [done |]. split; [| split; [exact H1 | exact H2]].
  vm_compute in Hn. by injection Hn as <-.
Defined.

Lemma round_robin_witness : exists s' A', switches 1 st0 = Some s' /\ page_of (kesp s') = t2 /\
  queues A' !! thread_ready_list = Some [t1].
Proof.
  destruct (round_robin st0 is_u32 A0 [t2] [t1] t2 [] st0_represents A0_wf eq_refl A0_running)
    as (s' & A' & H1 & H2 & _ & _ & _ & H3).
  - by vm_compute.
  - by vm_compute.
  - exists s', A'. split; [exact H1 |]. split; [exact H2 | exact H3].
Defined.

Lemma blocked_stays_off_witness : exists s', switches 2 st0 = Some s' /\ page_of (kesp s') <> t3.
Proof.
  pose proof (switches_slices 2 st0 is_u32 A0 TASK_RUNNING st0_represents A0_wf eq_refl A0_running
    ltac:(done)) as Hs.
  destruct (slices 2 A0) as [A' |] eqn:HA; [| clear Hs; by vm_compute in HA].
  destruct Hs as (s' & Hs & _). exists s'. split; [exact Hs |].
  exact (blocked_stays_off st0 s' is_u32 A0 TASK_RUNNING t3 v3 1 st0_represents A0_wf eq_refl
    A0_running ltac:(done) ltac:(by vm_compute) ltac:(done) Hs).
Defined.

Lemma thread_block_gives_up_witness :
  exists A' s' k, sched_next (blocked TASK_WAITING v1 A0) = Some A' /\
    thread_block TASK_WAITING st0 = Yield s' k /\ represents is_u32 s' A' /\ cur A' <> t1.
Proof.
  destruct (sched_next (blocked TASK_WAITING v1 A0)) as [A' |] eqn:Hn; [| by vm_compute in Hn].
  unshelve epose proof (thread_block_gives_up st0 is_u32 A0 A' v1 TASK_WAITING
    st0_represents A0_wf _ eq_refl eq_refl Hn) as (s' & k & H1 & H2 & _ & _ & H3 & _).
  - by vm_compute.
  - exists A', s', k. split; [done |]. split; [exact H1 |]. split; [exact H2 | exact H3].
Defined.
End examples.
