(* ===== verification/Sync.v ===== *)
(** thread/sync.[ch]: binary semaphores and locks. *)

From S2P Require Import Prelude Monad RawMem Machine DList Thread.

(** struct semaphore: [value] at 0, [waiters] at 4; struct lock: [holder] at 0,
    [semaphore] at 4, [holder_repeat_nr] at 24. *)
Definition value (psema : Z) : Z := psema.
Definition waiters (psema : Z) : Z := psema + 4.
Definition holder (plock : Z) : Z := plock.
Definition semaphore (plock : Z) : Z := plock + 4.
Definition holder_repeat_nr (plock : Z) : Z := plock + 24.

Section code.
Context {M : Type} {RM : RawMem M} {LY : Layout}.

Definition sema_init (psema v : Z) : K (M := M) unit :=
  st8 (value psema) v;; list_init (waiters psema).

Definition lock_init (plock : Z) : K (M := M) unit :=
  st32 (holder plock) 0;;
  st32 (holder_repeat_nr plock) 0;;
  sema_init (semaphore plock) 1.

(** One round of the loop of [sema_down]. *)
Definition sema_wait (psema : Z) : K (M := M) (unit + unit) :=
  do v <- ld8 (value psema);
  if 0 =? v then
    do cur <- running_thread; do found <- elem_find (waiters psema) (general_tag cur);
    ASSERT "thread/sync.c" 23 "sema_down"
      "!elem_find(&psema->waiters, &running_thread()->general_tag)" (negb found);;
    do cur <- running_thread; do found <- elem_find (waiters psema) (general_tag cur);
    (when found then panic_spin "thread/sync.c" 27 "sema_down"
      "sema_down: thread blocked has been in waiters_listn");;
    do cur <- running_thread; list_append (waiters psema) (general_tag cur);;
    thread_block TASK_BLOCKED;;
    cret (inl tt)
  else cret (inr tt).

Definition sema_down (psema : Z) : K (M := M) unit :=
  do old_status <- intr_disable;
  while_ (fun _ => sema_wait psema) tt;;
  do v <- ld8 (value psema); st8 (value psema) (v - 1);;
  do v <- ld8 (value psema);
  ASSERT "thread/sync.c" 35 "sema_down" "0 == psema->value" (0 =? v);;
  intr_set_status old_status;; cret tt.

Definition sema_up (psema : Z) : K (M := M) unit :=
  do old_status <- intr_disable;
  do v <- ld8 (value psema);
  ASSERT "thread/sync.c" 42 "sema_up" "0 == psema->value" (0 =? v);;
  do empty <- list_empty (waiters psema);
  (when negb empty then
    do tag <- list_pop (waiters psema);
    let thread_blocked := general_entry tag in
    thread_unblock thread_blocked);;
  do v <- ld8 (value psema); st8 (value psema) (v + 1);;
  do v <- ld8 (value psema);
  ASSERT "thread/sync.c" 49 "sema_up" "1 == psema->value" (1 =? v);;
  intr_set_status old_status;; cret tt.

Definition lock_acquire (plock : Z) : K (M := M) unit :=
  do cur <- running_thread; do h <- ld32 (holder plock);
  if cur =? h then
    do n <- ld32 (holder_repeat_nr plock); st32 (holder_repeat_nr plock) (n + 1)
  else
    sema_down (semaphore plock);;
    do cur <- running_thread; st32 (holder plock) cur;;
    do n <- ld32 (holder_repeat_nr plock);
    ASSERT "thread/sync.c" 61 "lock_acquire" "0 == plock->holder_repeat_nr" (0 =? n);;
    st32 (holder_repeat_nr plock) 1.

Definition lock_release (plock : Z) : K (M := M) unit :=
  do cur <- running_thread; do h <- ld32 (holder plock);
  ASSERT "thread/sync.c" 68 "lock_release" "running_thread() == plock->holder" (cur =? h);;
  do n <- ld32 (holder_repeat_nr plock);
  if 0 <? n then
    do n <- ld32 (holder_repeat_nr plock); st32 (holder_repeat_nr plock) (n - 1)
  else
    do n <- ld32 (holder_repeat_nr plock);
    ASSERT "thread/sync.c" 74 "lock_release" "1 == plock->holder_repeat_nr" (1 =? n);;
    st32 (holder plock) 0;;
    st32 (holder_repeat_nr plock) 0;;
    sema_up (semaphore plock).
End code.

(** ** The abstract state: the scheduler, the semaphores and the locks

    Semaphores and locks are known by their addresses; the waiters of the
    semaphore [p] are the queue [waiters p] of the scheduler; a lock is its
    holder (0 for none) and the number of times it holds it.  [own] are bytes
    that belong to other components, with the contents [data]: nothing here
    changes them. *)

Record ksys := mk_ksys {
  ks : sched;
  semas : gmap Z Z;
  locks : gmap Z (Z * Z);
  own : Z -> Prop;
  data : Z -> Z }.

Definition with_ks (A : sched) (K : ksys) : ksys :=
  mk_ksys A (semas K) (locks K) (own K) (data K).
Definition set_sema (p v : Z) (K : ksys) : ksys :=
  mk_ksys (ks K) (<[p := v]> (semas K)) (locks K) (own K) (data K).
Definition set_lock (p h n : Z) (K : ksys) : ksys :=
  mk_ksys (ks K) (semas K) (<[p := (h, n)]> (locks K)) (own K) (data K).
Definition set_data (g : Z -> Z) (K : ksys) : ksys :=
  mk_ksys (ks K) (semas K) (locks K) (own K) g.

(** The bytes of a lock besides its semaphore. *)
Definition lock_bytes (p b : Z) : Prop := span p 4 b \/ span (p + 24) 4 b.

Record sys_rep {LY : Layout} (R : Z -> Prop) (f : Z -> Z) (K : ksys) : Prop := mk_sys_rep {
  sr_sched : rep R f (ks K);
  sr_value p v : semas K !! p = Some v -> f p = v /\ (v = 0 \/ v = 1) /\ R p;
  sr_sema p : is_Some (semas K !! p) -> ~ footprint (ks K) p /\
    is_Some (queues (ks K) !! waiters p) /\ waiters p <> thread_ready_list;
  sr_words p h n : locks K !! p = Some (h, n) ->
    w32 f (holder p) = h /\ w32 f (holder_repeat_nr p) = n;
  sr_lock p b : is_Some (locks K !! p) -> lock_bytes p b ->
    R b /\ ~ footprint (ks K) b /\ ~ is_Some (semas K !! b);
  sr_locks p q : is_Some (locks K !! p) -> is_Some (locks K !! q) -> p <> q -> clear p 28 q 28;
  sr_semaphore p : is_Some (locks K !! p) -> is_Some (semas K !! semaphore p);
  sr_data b : own K b -> f b = data K b;
  sr_own b : own K b -> R b /\ ~ footprint (ks K) b /\ ~ is_Some (semas K !! b) /\
    forall p, is_Some (locks K !! p) -> ~ lock_bytes p b }.

Section rep.
Context {LY : Layout}.

(** What changes no semaphore's value, no lock and no byte of the others' leaves
    the rest of the system alone; so does the scheduler. *)
Lemma sys_step_but R f f' K A' : sys_rep R f K -> rep R f' A' -> same_objects (ks K) A' ->
  (forall b, is_Some (semas K !! b) \/ (exists p, is_Some (locks K !! p) /\ lock_bytes p b) \/ own K b -> f' b = f b) ->
  sys_rep R f' (with_ks A' K).
Proof.
  intros HK HA' Hob Ho. pose proof Hob as [_ Hq].
  split; cbn [ks semas locks own data with_ks].
  - done.
  - intros p v Hp. destruct (sr_value _ _ _ HK p v Hp) as (Hf & Hv & HR).
    split; [| done]. rewrite Ho; [done |]. left. by exists v.
  - intros p Hp. destruct (sr_sema _ _ _ HK p Hp) as (Hf & Hw & Hr).
    rewrite same_objects_footprint, Hq by done. done.
  - intros p h n Hp.
    assert (forall b, lock_bytes p b -> f' b = f b) as Hl.
    { intros b Hbb. apply Ho. right. left. exists p. split; [by eexists | done]. }
    rewrite !(w32_ext f' f); [by apply (sr_words _ _ _ HK) | |].
    + intros b Hbb. apply Hl. by right.
    + intros b Hbb. apply Hl. by left.
  - intros p b Hp Hb. rewrite same_objects_footprint by done. by apply (sr_lock _ _ _ HK p).
  - apply (sr_locks _ _ _ HK).
  - apply (sr_semaphore _ _ _ HK).
  - intros b Hb. rewrite Ho; [by apply (sr_data _ _ _ HK) | by right; right].
  - intros b Hb. rewrite same_objects_footprint by done. by apply (sr_own _ _ _ HK).
Qed.

Lemma sys_step R f f' K A' : sys_rep R f K -> rep R f' A' -> same_objects (ks K) A' ->
  sched_only (ks K) f f' -> sys_rep R f' (with_ks A' K).
Proof.
  intros HK HA' Hob Ho. apply (sys_step_but R f); [done.. |]. intros b [Hb | [(p & Hp & Hb) | Hb]]; apply Ho.
  - by apply (sr_sema _ _ _ HK).
  - by apply (sr_lock _ _ _ HK p b).
  - by apply (sr_own _ _ _ HK).
Qed.

(** A write to the value of a semaphore. *)
Lemma sys_set_sema R f K p v : sys_rep R f K -> is_Some (semas K !! p) -> v = 0 \/ v = 1 ->
  sys_rep R (upd f p v) (set_sema p v K).
Proof.
  intros HK Hp Hv. destruct (sr_sema _ _ _ HK p Hp) as (Hf & Hw & Hr).
  assert (forall q, is_Some (semas (set_sema p v K) !! q) -> is_Some (semas K !! q)) as His
    by (intros q; cbn; by rewrite insert_is_Some).
  split; cbn [ks locks own data set_sema].
  - apply (rep_ext R f); [apply (sr_sched _ _ _ HK) |]. intros b Hb. apply upd_ne. by intros ->.
  - intros q w. cbn. rewrite lookup_insert_Some. intros [[<- <-] | [Hne Hq]].
    + rewrite upd_eq. destruct Hp as [v0 Hp]. split; [done |]. split; [done |].
      by apply (sr_value _ _ _ HK p v0).
    + rewrite upd_ne by done. by apply (sr_value _ _ _ HK).
  - intros q Hq. apply (sr_sema _ _ _ HK). by apply His.
  - intros q h n Hq. assert (forall b, lock_bytes q b -> upd f p v b = f b) as Hl.
    { intros b Hb. apply upd_ne. intros ->.
      destruct (sr_lock _ _ _ HK q p) as (_ & _ & Hn); [by eexists | done | done]. }
    rewrite !(w32_ext (upd f p v) f); [by apply (sr_words _ _ _ HK) | |].
    + intros b Hbb. apply Hl. by right.
    + intros b Hbb. apply Hl. by left.
  - intros q b Hq Hb. destruct (sr_lock _ _ _ HK q b Hq Hb) as (H1 & H2 & H3).
    split; [done |]. split; [done |]. intros Hs. by apply H3, His.
  - apply (sr_locks _ _ _ HK).
  - intros q Hq. cbn. rewrite insert_is_Some by done. by apply (sr_semaphore _ _ _ HK).
  - intros b Hb. rewrite upd_ne; [by apply (sr_data _ _ _ HK) |]. intros ->.
    by destruct (sr_own _ _ _ HK p Hb) as (_ & _ & Hn & _).
  - intros b Hb. destruct (sr_own _ _ _ HK b Hb) as (H1 & H2 & H3 & H4).
    split; [done |]. split; [done |]. split; [| done]. intros Hs. by apply H3, His.
Qed.

(** Writes to the two words of a lock. *)
Lemma sys_set_lock R f f' K p h n : sys_rep R f K -> is_Some (locks K !! p) ->
  (forall b, ~ lock_bytes p b -> f' b = f b) ->
  w32 f' (holder p) = h -> w32 f' (holder_repeat_nr p) = n ->
  sys_rep R f' (set_lock p h n K).
Proof.
  intros HK Hp Hf Hh Hn.
  assert (forall q, is_Some (locks (set_lock p h n K) !! q) -> is_Some (locks K !! q)) as His
    by (intros q; cbn; by rewrite insert_is_Some).
  split; cbn [ks semas own data set_lock].
  - apply (rep_ext R f); [apply (sr_sched _ _ _ HK) |]. intros b Hb. apply Hf. intros Hl.
    by destruct (sr_lock _ _ _ HK p b Hp Hl) as (_ & Hn' & _).
  - intros q v Hq. rewrite Hf; [by apply (sr_value _ _ _ HK) |]. intros Hl.
    destruct (sr_lock _ _ _ HK p q Hp Hl) as (_ & _ & Hn'). apply Hn'. by exists v.
  - apply (sr_sema _ _ _ HK).
  - intros q h' n'. cbn. rewrite lookup_insert_Some. intros [[<- [= <- <-]] | [Hne Hq]]; [done |].
    pose proof (sr_locks _ _ _ HK p q Hp (mk_is_Some _ _ Hq) Hne) as Hc.
    rewrite !(w32_ext f' f); [by apply (sr_words _ _ _ HK) | |];
      intros b Hb; apply Hf; unfold lock_bytes, span, clear, holder, holder_repeat_nr in *; lia.
  - intros q b Hq. apply (sr_lock _ _ _ HK). by apply His.
  - intros q q' Hq Hq'. apply (sr_locks _ _ _ HK); by apply His.
  - intros q Hq. apply (sr_semaphore _ _ _ HK). by apply His.
  - intros b Hb. rewrite Hf; [by apply (sr_data _ _ _ HK) |].
    by apply (sr_own _ _ _ HK b Hb).
  - intros b Hb. destruct (sr_own _ _ _ HK b Hb) as (H1 & H2 & H3 & H4).
    split; [done |]. split; [done |]. split; [done |]. intros q Hq. by apply H4, His.
Qed.

(** Writes to the bytes of other components. *)
Lemma sys_set_data R f f' K : sys_rep R f K -> (forall b, ~ own K b -> f' b = f b) ->
  sys_rep R f' (set_data f' K).
Proof.
  intros HK Hf. split; cbn [ks semas locks own data set_data]; try apply HK.
  - apply (rep_ext R f); [apply (sr_sched _ _ _ HK) |]. intros b Hb. apply Hf. intros Ho.
    by destruct (sr_own _ _ _ HK b Ho) as (_ & Hn & _).
  - intros p v Hp. rewrite Hf; [by apply (sr_value _ _ _ HK) |]. intros Ho.
    destruct (sr_own _ _ _ HK p Ho) as (_ & _ & Hn & _). apply Hn. by exists v.
  - intros p h n Hp.
    assert (forall b, lock_bytes p b -> f' b = f b) as Hl.
    { intros b Hb. apply Hf. intros Ho.
      destruct (sr_own _ _ _ HK b Ho) as (_ & _ & _ & Hn). by apply (Hn p); [eexists |]. }
    rewrite !(w32_ext f' f); [by apply (sr_words _ _ _ HK) | |].
    + intros b Hbb. apply Hl. by right.
    + intros b Hbb. apply Hl. by left.
  - done.
Qed.

(** The contents [data] matter on [own] only. *)
Lemma sys_data_ext R f K g : sys_rep R f K -> (forall b, own K b -> g b = data K b) ->
  sys_rep R f (set_data g K).
Proof.
  intros HK Hg. split; cbn [ks semas locks own data set_data]; try apply HK.
  intros b Hb. rewrite Hg by done. by apply (sr_data _ _ _ HK).
Qed.
End rep.

(** The machine state represents the abstract state. *)
Record sys {M : Type} {RM : RawMem M} {RL : RawMemLaws M} {LY : Layout} (R : Z -> Prop) (s : kstate M) (K : ksys)
  : Prop := mk_sys {
  sys_contents : exists f, backs (kmem s) R f /\ sys_rep R f K;
  sys_esp : kesp s = esp (ks K);
  sys_wf : wf (ks K);
  sys_running : cur_status (ks K) TASK_RUNNING }.

Section rules.
Context {M : Type} {RM : RawMem M} {RL : RawMemLaws M} {LY : Layout}.
Implicit Types (s : kstate M) (R : Z -> Prop) (f : Z -> Z) (K : ksys) (G : protocol (kstate M)).

Lemma wp_value G s R f K p v (Q : Z -> kstate M -> Prop) :
  backs (kmem s) R f -> sys_rep R f K -> semas K !! p = Some v ->
  Q v s -> wp G (ld8 (value p)) s Q.
Proof.
  intros Hb HK Hp HQ. destruct (sr_value _ _ _ HK p v Hp) as (Hf & _ & HR).
  eapply wp_ld8; [done | done |]. unfold value. by rewrite Hf.
Qed.

Lemma wp_set_value G s R f K p v (Q : unit -> kstate M -> Prop) :
  backs (kmem s) R f -> sys_rep R f K -> is_Some (semas K !! p) -> v = 0 \/ v = 1 ->
  (forall m f', backs m R f' -> sys_rep R f' (set_sema p v K) -> Q tt (set_mem m s)) ->
  wp G (st8 (value p) v) s Q.
Proof.
  intros Hb HK Hp Hv HQ. pose proof Hp as [v0 Hv0].
  destruct (sr_value _ _ _ HK p v0 Hv0) as (Hf & _ & HR).
  eapply wp_st8; [done | done |]. intros m Hm. eapply HQ; [done |].
  rewrite u8_small by (unfold is_u8; lia). by apply sys_set_sema.
Qed.

Lemma sys_intro m s R f K : backs m R f -> sys_rep R f K -> kesp s = esp (ks K) ->
  wf (ks K) -> cur_status (ks K) TASK_RUNNING -> sys R (set_mem m s) K.
Proof. intros. split; [by exists f | done ..]. Qed.

(** The abstract step of a thread that finds the semaphore taken: it joins
    the waiters, is blocked, and the next thread runs. *)
Definition sema_block (p : Z) (K : ksys) : option ksys :=
  ts ← queues (ks K) !! waiters p;
  v ← tasks (ks K) !! cur (ks K);
  A' ← sched_next (blocked TASK_BLOCKED v (set_queue (waiters p) (ts ++ [cur (ks K)]) (ks K)));
  Some (with_ks A' K).

Lemma blocking_wf K p ts v (R : Z -> Prop) f : sys_rep R f K -> wf (ks K) ->
  is_Some (semas K !! p) -> queues (ks K) !! waiters p = Some ts ->
  tasks (ks K) !! cur (ks K) = Some v -> tv_status v = TASK_RUNNING ->
  wf (blocked TASK_BLOCKED v (set_queue (waiters p) (ts ++ [cur (ks K)]) (ks K))).
Proof.
  intros HK HA Hp Hts Hv Hst.
  destruct (sr_sema _ _ _ HK p Hp) as (_ & _ & Hne).
  pose proof (running_nowhere _ HA ltac:(by exists v)) as Hnow.
  pose proof (blocked_wf _ v TASK_BLOCKED HA Hv Hst ltac:(done)) as HB.
  apply (waiter_wf (blocked TASK_BLOCKED v (ks K)) (waiters p) ts (cur (ks K))
    (with_status TASK_BLOCKED v) HB Hts Hne); [apply lookup_insert_eq | done | exact Hnow].
Qed.

(** A round of [sema_down] that has to wait: the thread joins the waiters. *)
Lemma sema_wait_enqueues s R f K p ts v (Phi : outcome (kstate M) (unit + unit) -> Prop) :
  backs (kmem s) R f -> sys_rep R f K -> kesp s = esp (ks K) -> wf (ks K) ->
  semas K !! p = Some 0 -> tasks (ks K) !! cur (ks K) = Some v -> tv_status v = TASK_RUNNING ->
  queues (ks K) !! waiters p = Some ts ->
  (forall m f', backs m R f' ->
     rep R f' (set_queue (waiters p) (ts ++ [cur (ks K)]) (ks K)) -> sched_only (ks K) f f' ->
     Phi (obind (thread_block TASK_BLOCKED (set_mem m s)) (fun _ => cret (inl tt)))) ->
  Phi (sema_wait p s).
Proof.
  intros Hb HK He HA Hp Hv Hst Hts HPhi.
  pose proof (sr_sched _ _ _ HK) as Hr.
  pose proof (running_nowhere _ HA ltac:(by exists v)) as Hnow.
  unfold sema_wait. apply seq_then. eapply wp_value; [done .. |]. rewrite Z.eqb_refl.
  apply seq_then, wp_running_thread. rewrite He. change (page_of (esp (ks K))) with (cur (ks K)).
  apply seq_then. eapply wp_queue_find; [done .. |].
  rewrite bool_decide_false by (by eapply Hnow). apply seq_then, wp_assert; [done |].
  apply seq_then, wp_running_thread. rewrite He. change (page_of (esp (ks K))) with (cur (ks K)).
  apply seq_then. eapply wp_queue_find; [done .. |].
  rewrite bool_decide_false by (by eapply Hnow). apply seq_then, wp_ret.
  apply seq_then, wp_running_thread. rewrite He. change (page_of (esp (ks K))) with (cur (ks K)).
  apply seq_then. eapply wp_enqueue; [done | done | done | by exists v | done |].
  intros m f' Hm Hr' Ho. by apply (HPhi m f').
Qed.

(** Then the next thread runs. *)
Lemma sema_wait_then s R f K K' p (Phi : outcome (kstate M) (unit + unit) -> Prop) :
  backs (kmem s) R f -> sys_rep R f K -> kesp s = esp (ks K) -> wf (ks K) ->
  cur_status (ks K) TASK_RUNNING -> kif s = false -> semas K !! p = Some 0 ->
  sema_block p K = Some K' ->
  (forall m k, sys R (switched m (ks K') s) K' ->
     (forall s', k s' = Done (inl tt) (set_if false s')) ->
     Phi (Yield (switched m (ks K') s) k)) ->
  Phi (sema_wait p s).
Proof.
  intros Hb HK He HA (v & Hv & Hst) Hif Hp Hbl HPhi.
  pose proof (mk_is_Some _ _ Hp) as Hps.
  pose proof (sr_sema _ _ _ HK p Hps) as (_ & [ts Hts] & Hne).
  pose proof (sr_sched _ _ _ HK) as Hr.
  pose proof (running_nowhere _ HA ltac:(by exists v)) as Hnow.
  pose proof (blocking_wf K p ts v R f HK HA Hps Hts Hv Hst) as HB.
  unfold sema_block in Hbl. rewrite Hts, Hv in Hbl. cbn in Hbl.
  set (B := blocked _ _ _) in *. destruct (sched_next B) as [A' |] eqn:Hn; [| done].
  injection Hbl as <-.
  eapply sema_wait_enqueues; try done. intros m1 f1 Hm1 Hr1 Ho1.
  assert (same_objects (ks K) A') as Hob.
  { eapply same_objects_trans; [by apply set_queue_objects; exists ts |].
    eapply same_objects_trans; [| by apply sched_next_objects].
    apply set_task_objects. by exists v. }
  assert (cur_status B TASK_BLOCKED) as Hcs
    by (eexists; split; [apply lookup_insert_eq | done]).
  pose proof (sched_next_wf B TASK_BLOCKED HB Hcs ltac:(done)) as Hs. rewrite Hn in Hs.
  assert (set_if false s = s) as Hs0 by (unfold set_if; by rewrite <- Hif).
  set (A1 := set_queue _ _ (ks K)) in *.
  apply (thread_block_then (set_mem m1 s) R f1 A1 A' v TASK_BLOCKED
    (fun o => Phi (obind o (fun _ => cret (inl tt))))); try done.
  intros m f' k Hm Hr' Ho Hk. cbn [obind].
  assert (switched m A' (set_if false (set_mem m1 s)) = switched m A' s) as ->
    by (rewrite <- Hs0 at 2; done).
  apply HPhi.
  - split; [exists f'; split; [done |] | done | apply Hs | apply Hs].
    apply (sys_step R f f' K A' HK Hr' Hob).
    eapply sched_only_trans; [| exact Ho1 | exact Ho]. intros b. by apply set_queue_footprint.
  - intros s'. rewrite Hk. cbn [obind kif set_mem]. by rewrite Hif.
Qed.

(** A round that finds the semaphore free leaves the loop. *)
Lemma wp_sema_free G s R f K p (Q : unit + unit -> kstate M -> Prop) :
  backs (kmem s) R f -> sys_rep R f K -> semas K !! p = Some 1 ->
  Q (inr tt) s -> wp G (sema_wait p) s Q.
Proof.
  intros Hb HK Hp HQ. unfold sema_wait. apply wp_bind. eapply wp_value; [done .. |].
  by apply wp_ret.
Qed.

(** The end of [sema_down]: the semaphore is taken. *)
Lemma wp_sema_take G s R K p old (Q : unit -> kstate M -> Prop) :
  sys R s K -> semas K !! p = Some 1 ->
  (forall m, sys R (set_mem m s) (set_sema p 0 K) -> Q tt (set_if old (set_mem m s))) ->
  wp G (do v <- ld8 (value p); st8 (value p) (v - 1);;
        do v <- ld8 (value p);
        ASSERT "thread/sync.c" 35 "sema_down" "0 == psema->value" (0 =? v);;
        intr_set_status (status_of old);; cret tt) s Q.
Proof.
  intros [(f & Hb & HK) He HA Hrun] Hp HQ. apply wp_bind. eapply wp_value; [done .. |].
  apply wp_bind. eapply wp_set_value; [done | done | by eexists | by left |].
  intros m f' Hm HK'. apply wp_bind.
  eapply wp_value; [exact Hm | exact HK' | apply lookup_insert_eq |].
  apply wp_bind, wp_assert; [done |]. apply wp_bind, wp_intr_set_status, wp_ret.
  apply HQ. by apply (sys_intro m s R f').
Qed.

(** A round that has to wait when no other thread is ready. *)
Lemma sema_wait_stuck s R f K p (Phi : outcome (kstate M) (unit + unit) -> Prop) :
  backs (kmem s) R f -> sys_rep R f K -> kesp s = esp (ks K) -> wf (ks K) ->
  cur_status (ks K) TASK_RUNNING -> semas K !! p = Some 0 ->
  sema_block p K = None ->
  (forall s', Phi (Panic nobody_ready s')) -> Phi (sema_wait p s).
Proof.
  intros Hb HK He HA (v & Hv & Hst) Hp Hbl HPhi.
  pose proof (mk_is_Some _ _ Hp) as Hps.
  pose proof (sr_sema _ _ _ HK p Hps) as (_ & [ts Hts] & Hne).
  pose proof (sr_sched _ _ _ HK) as Hr.
  pose proof (running_nowhere _ HA ltac:(by exists v)) as Hnow.
  pose proof (blocking_wf K p ts v R f HK HA Hps Hts Hv Hst) as HB.
  unfold sema_block in Hbl. rewrite Hts, Hv in Hbl. cbn in Hbl.
  set (B := blocked _ _ _) in *. destruct (sched_next B) as [A' |] eqn:Hn; [done |]. clear Hbl.
  eapply sema_wait_enqueues; try done. intros m1 f1 Hm1 Hr1 Ho1.
  set (A1 := set_queue _ _ (ks K)) in *.
  eapply (thread_block_stuck (set_mem m1 s) R f1 A1 v TASK_BLOCKED
    (fun o => Phi (obind o (fun _ => cret (inl tt))))); try done.
Qed.

Lemma sema_block_facts K K' p ts (R : Z -> Prop) f : sys_rep R f K -> wf (ks K) ->
  cur_status (ks K) TASK_RUNNING -> is_Some (semas K !! p) ->
  queues (ks K) !! waiters p = Some ts -> sema_block p K = Some K' ->
  cur (ks K') <> cur (ks K) /\ queues (ks K') !! waiters p = Some (ts ++ [cur (ks K)]) /\
  semas K' = semas K /\ locks K' = locks K.
Proof.
  intros HK HA (v & Hv & Hst) Hp Hts Hbl.
  pose proof (blocking_wf K p ts v R f HK HA Hp Hts Hv Hst) as HB.
  unfold sema_block in Hbl. rewrite Hts, Hv in Hbl. cbn in Hbl.
  set (B := blocked _ _ _) in *. destruct (sched_next B) as [A' |] eqn:Hn; [| done].
  injection Hbl as <-. cbn [ks semas locks with_ks].
  assert (tasks B !! cur B = Some (with_status TASK_BLOCKED v)) as HvB by apply lookup_insert_eq.
  assert (cur_status B TASK_BLOCKED) as Hcs by (by eexists).
  pose proof (sched_next_wf B TASK_BLOCKED HB Hcs ltac:(done)) as Hs. rewrite Hn in Hs.
  destruct Hs as [_ (w & Hw & Hrun)]. split; [| split; [| done]].
  - intros Hc. destruct (sched_next_waiting B A' _ _ _ HB Hcs ltac:(done) Hn HvB eq_refl)
      as (w' & Hw' & Hsw). change (cur B) with (cur (ks K)) in Hw'. rewrite Hc, Hw' in Hw.
    simplify_eq. by rewrite Hsw in Hrun.
  - rewrite (sched_next_queues _ _ _ Hn) by (by apply (sr_sema _ _ _ HK)).
    cbn. by rewrite lookup_insert_eq.
Qed.

(** What a thread [me] waiting for the semaphore [p] leaves to the others: it
    is in the queue, blocked, and does not run.  What it expects when it is
    resumed: it runs, and the semaphore is free, or (if [steal]) another
    thread has taken it in between. *)
Definition waits_for R (me p : Z) s : Prop :=
  exists K ts, sys R s K /\ kif s = false /\ cur (ks K) <> me /\ semas K !! p = Some 0 /\
    queues (ks K) !! waiters p = Some ts /\ me ∈ ts.
Definition resumed R (me p : Z) (steal : Prop) s : Prop :=
  exists K v, sys R s K /\ kif s = false /\ cur (ks K) = me /\ semas K !! p = Some v /\
    (v = 1 \/ (v = 0 /\ steal)).
Definition sema_protocol R me p (steal : Prop) : protocol (kstate M) :=
  mk_protocol (waits_for R me p) (fun _ => resumed R me p steal) (fun e _ => e = nobody_ready) (fun _ => False).

Lemma sema_wait_round R me p steal n s :
  (exists K v, sys R s K /\ kif s = false /\ cur (ks K) = me /\ semas K !! p = Some v /\
     (v = 1 \/ (v = 0 /\ (steal \/ (1 <= n)%nat)))) ->
  wpn steal (sema_protocol R me p steal) n (sema_wait p) s (fun n' r s' =>
    match r with
    | inl _ => (n' < n)%nat /\ exists K v, sys R s' K /\ kif s' = false /\ cur (ks K) = me /\
        semas K !! p = Some v /\ (v = 1 \/ (v = 0 /\ (steal \/ (1 <= n')%nat)))
    | inr _ => exists K, sys R s' K /\ kif s' = false /\ cur (ks K) = me /\ semas K !! p = Some 1
    end).
Proof.
  intros (K & v & [(f & Hb & HK) He HA Hrun] & Hif & Hcur & Hp & Hv).
  destruct Hv as [-> | [-> Hn]].
  - apply wpn_seq. eapply wp_sema_free; [done .. |]. exists K.
    split; [split; [by exists f | done ..] | done].
  - unfold wpn. destruct (sema_block p K) as [K' |] eqn:Hbl.
    + destruct (sr_sema _ _ _ HK p ltac:(by eexists)) as (_ & [ts Hts] & _).
      pose proof (sema_block_facts K K' p ts R f HK HA Hrun ltac:(by eexists) Hts Hbl)
        as (Hc' & Hq' & Hs' & _).
      eapply sema_wait_then; try done. intros m k Hsys Hk. split.
      { exists K', (ts ++ [cur (ks K)]). rewrite Hs', <- Hcur.
        split; [done |]. split; [done |]. split; [done |]. split; [done |]. split; [done |].
        apply elem_of_app. right. by apply list_elem_of_singleton. }
      destruct n as [| n]; [by destruct Hn as [Hst | Hn]; [| lia] |].
      intros s' (K1 & v1 & Hs1 & Hi1 & Hc1 & Hp1 & Hv1). rewrite Hk. cbn [wpno].
      assert (set_if false s' = s') as -> by (unfold set_if; by rewrite <- Hi1).
      split; [lia |]. exists K1, v1. split; [done |]. split; [done |]. split; [done |].
      split; [done |]. destruct Hv1 as [-> | [-> Hst]]; [by left | right]. split; [done | by left].
    + eapply sema_wait_stuck; try done.
Qed.

Lemma sema_down_wpn R K s p v n steal :
  sys R s K -> semas K !! p = Some v -> steal \/ (1 <= n)%nat -> Z.of_nat n < Z.pos loop_bound ->
  wpn steal (sema_protocol R (cur (ks K)) p steal) n (sema_down p) s (fun _ _ s' =>
    exists K', sys R s' K' /\ kif s' = kif s /\ cur (ks K') = cur (ks K) /\
      semas K' !! p = Some 0).
Proof.
  intros Hsys Hp Hn Hb. unfold sema_down.
  apply wpn_bind, wpn_seq, wp_intr_disable, wpn_bind.
  eapply wpn_mono.
  - apply (wpn_while _ _ _ (fun n' _ s' => exists K' v', sys R s' K' /\ kif s' = false /\
      cur (ks K') = cur (ks K) /\ semas K' !! p = Some v' /\
      (v' = 1 \/ (v' = 0 /\ (steal \/ (1 <= n')%nat))))
      (fun n' _ s' => exists K', sys R s' K' /\ kif s' = false /\ cur (ks K') = cur (ks K) /\
         semas K' !! p = Some 1)); [| | done].
    + intros n' x s' HI. eapply wpn_mono; [by apply sema_wait_round |]. by intros n1 [[] | []] s1.
    + exists K, v. destruct Hsys as [(f & Hbk & HK) He HA Hrun].
      split; [split; [by exists f | done ..] |]. split; [done |]. split; [done |].
      split; [done |]. destruct (sr_value _ _ _ HK p v Hp) as (_ & [-> | ->] & _); [right | left]; done.
  - intros n' [] s' (K' & Hs' & Hi' & Hc' & Hp'). apply wpn_seq.
    eapply wp_sema_take; [done | done |]. intros m Hm. exists (set_sema p 0 K').
    split; [| split; [done |]].
    + destruct Hm as [(f & Hbk & HK) He HA Hrun]. split; [by exists f | done ..].
    + split; [done |]. cbn. by rewrite lookup_insert_eq.
Qed.

(** The first waiter becomes ready, at the front of the ready queue. *)
Definition sema_wake (p : Z) (K : ksys) : ksys :=
  match queues (ks K) !! waiters p, queues (ks K) !! thread_ready_list with
  | Some (t :: ts), Some q =>
      match tasks (ks K) !! t with
      | Some v => with_ks (unblocked t v q (set_queue (waiters p) ts (ks K))) K
      | None => K
      end
  | _, _ => K
  end.

Lemma wp_wake {A} G s R f K p (e : cmd (kstate M) A) (Q : A -> kstate M -> Prop) :
  backs (kmem s) R f -> sys_rep R f K -> kesp s = esp (ks K) -> wf (ks K) ->
  cur_status (ks K) TASK_RUNNING -> is_Some (semas K !! p) ->
  (forall m, sys R (set_mem m s) (sema_wake p K) -> wp G e (set_mem m s) Q) ->
  wp G (do empty <- list_empty (waiters p);
        (when negb empty then
          do tag <- list_pop (waiters p);
          let thread_blocked := general_entry tag in thread_unblock thread_blocked);;
        e) s Q.
Proof.
  intros Hb HK He HA Hrun Hp HQ. pose proof (sr_sched _ _ _ HK) as Hr.
  pose proof (sr_sema _ _ _ HK p Hp) as (_ & [ts Hts] & Hne).
  destruct (wf_queue _ HA) as [q Hq]. unfold sema_wake in HQ. rewrite Hts, Hq in HQ.
  apply wp_bind. eapply wp_queue_empty; [done .. |]. destruct ts as [| t ts].
  { apply wp_bind, wp_ret, (HQ (kmem s)). split; [exists f; by split | done ..]. }
  rewrite bool_decide_false by done. cbn [negb].
  destruct (wf_member _ HA _ _ t Hts ltac:(by left)) as [v Hv]. rewrite Hv in HQ.
  apply wp_bind, wp_bind. eapply wp_dequeue; [done .. |]. intros m1 f1 Hm1 Hr1 Ho1. cbv zeta.
  assert (general_entry (general_tag t) = t) as -> by (unfold general_entry, general_tag; lia).
  set (A1 := set_queue (waiters p) ts (ks K)) in *.
  assert (wf A1) as HA1 by (by eapply woken_wf).
  assert (queues A1 !! thread_ready_list = Some q) as Hq1 by (cbn; by rewrite lookup_insert_ne).
  assert (waiting_code (code (tv_status v)) = true) as Hw
    by exact (wf_waiters _ HA _ _ t v Hts Hne ltac:(by left) Hv).
  pose proof (woken_nowhere R f (ks K) _ ts t Hr HA Hts) as Hnow.
  eapply wp_thread_unblock; [exact Hm1 | exact Hr1 | exact Hv | exact Hq1 | exact Hnow | exact Hw |].
  intros m2 f2 Hm2 Hr2 Ho2. rewrite set_mem_mem. apply HQ.
  split; [exists f2; split; [done |] | done | by apply unblocked_wf |].
  - apply (sys_step R f f2 K _ HK Hr2).
    + apply (same_objects_trans _ A1); [by apply set_queue_objects; eexists |].
      apply (same_objects_trans _ (set_queue thread_ready_list (t :: q) A1));
        [by apply set_queue_objects; eexists |]. apply set_task_objects. by exists v.
    + eapply sched_only_trans; [| exact Ho1 | exact Ho2]. intros b. apply set_queue_footprint. by eexists.
  - destruct Hrun as (u & Hu & Hru). exists u. split; [| done]. cbn.
    rewrite lookup_insert_ne; [done |]. change (cur (unblocked t v q A1)) with (cur (ks K)).
    intros ->. rewrite Hv in Hu. simplify_eq. by rewrite Hru in Hw.
Qed.

Lemma sema_wake_semas p K : semas (sema_wake p K) = semas K /\ locks (sema_wake p K) = locks K.
Proof. unfold sema_wake. by repeat case_match. Qed.

Lemma wp_sema_up G s R K p (Q : unit -> kstate M -> Prop) :
  sys R s K -> semas K !! p = Some 0 ->
  (forall m, sys R (set_mem m s) (set_sema p 1 (sema_wake p K)) -> Q tt (set_mem m s)) ->
  wp G (sema_up p) s Q.
Proof.
  intros [(f & Hb & HK) He HA Hrun] Hp HQ. unfold sema_up.
  apply wp_bind, wp_intr_disable. apply wp_bind. eapply wp_value; [done .. |].
  apply wp_bind, wp_assert; [done |].
  apply (wp_wake G (set_if false s) R f K); try done.
  intros m [(f1 & Hb1 & HK1) He1 HA1 Hrun1]. destruct (sema_wake_semas p K) as [Hse _].
  assert (semas (sema_wake p K) !! p = Some 0) as Hp1 by (by rewrite Hse).
  apply wp_bind. eapply wp_value; [exact Hb1 | exact HK1 | exact Hp1 |].
  apply wp_bind. eapply wp_set_value; [exact Hb1 | exact HK1 | by eexists | by right |].
  intros m2 f2 Hb2 HK2. apply wp_bind.
  eapply wp_value; [exact Hb2 | exact HK2 | apply lookup_insert_eq |].
  apply wp_bind, wp_assert; [done |]. apply wp_bind, wp_intr_set_status, wp_ret.
  rewrite set_mem_mem, set_if_restore by done. apply HQ. split; [by exists f2 | done ..].
Qed.

(** ** Locks *)

Lemma wp_holder G s R f K p h n (Q : Z -> kstate M -> Prop) :
  backs (kmem s) R f -> sys_rep R f K -> locks K !! p = Some (h, n) ->
  Q h s -> wp G (ld32 (holder p)) s Q.
Proof.
  intros Hb HK Hp HQ. destruct (sr_words _ _ _ HK p h n Hp) as [Hh _].
  eapply wp_ld32; [done | | by rewrite Hh]. intros b Hbb.
  apply (sr_lock _ _ _ HK p); [by eexists | by left].
Qed.

Lemma wp_repeat G s R f K p h n (Q : Z -> kstate M -> Prop) :
  backs (kmem s) R f -> sys_rep R f K -> locks K !! p = Some (h, n) ->
  (is_u32 n -> Q n s) -> wp G (ld32 (holder_repeat_nr p)) s Q.
Proof.
  intros Hb HK Hp HQ. destruct (sr_words _ _ _ HK p h n Hp) as [_ Hn].
  eapply wp_ld32; [done | | by rewrite Hn]. intros b Hbb.
  apply (sr_lock _ _ _ HK p); [by eexists | by right].
Qed.

Lemma lock_inside R f K p : sys_rep R f K -> is_Some (locks K !! p) ->
  inside R (holder p) 4 /\ inside R (holder_repeat_nr p) 4.
Proof.
  intros HK Hp. split; intros b Hb; apply (sr_lock _ _ _ HK p); [done | by left | done | by right].
Qed.

Lemma wp_set_holder G s R f K p h n h' (Q : unit -> kstate M -> Prop) :
  backs (kmem s) R f -> sys_rep R f K -> locks K !! p = Some (h, n) -> is_u32 h' ->
  (forall m f', backs m R f' -> sys_rep R f' (set_lock p h' n K) -> Q tt (set_mem m s)) ->
  wp G (st32 (holder p) h') s Q.
Proof.
  intros Hb HK Hp Hh' HQ. pose proof (mk_is_Some _ _ Hp) as Hs.
  destruct (lock_inside R f K p HK Hs) as [Hi _]. destruct (sr_words _ _ _ HK p h n Hp) as [_ Hn].
  eapply wp_st32; [done | done |]. intros m Hm. eapply HQ; [done |].
  apply (sys_set_lock R f); [done | done | | |]; unfold holder, holder_repeat_nr, lock_bytes, span in *.
  - intros b Hbb. apply upd32_ne. lia.
  - by apply w32_upd32_eq.
  - by rewrite w32_upd32_ne by lia.
Qed.

Lemma wp_set_repeat G s R f K p h n n' (Q : unit -> kstate M -> Prop) :
  backs (kmem s) R f -> sys_rep R f K -> locks K !! p = Some (h, n) -> is_u32 n' ->
  (forall m f', backs m R f' -> sys_rep R f' (set_lock p h n' K) -> Q tt (set_mem m s)) ->
  wp G (st32 (holder_repeat_nr p) n') s Q.
Proof.
  intros Hb HK Hp Hh' HQ. pose proof (mk_is_Some _ _ Hp) as Hs.
  destruct (lock_inside R f K p HK Hs) as [_ Hi]. destruct (sr_words _ _ _ HK p h n Hp) as [Hh _].
  eapply wp_st32; [done | done |]. intros m Hm. eapply HQ; [done |].
  apply (sys_set_lock R f); [done | done | | |]; unfold holder, holder_repeat_nr, lock_bytes, span in *.
  - intros b Hbb. apply upd32_ne. lia.
  - by rewrite w32_upd32_ne by lia.
  - by apply w32_upd32_eq.
Qed.

(** The lock seen by its holder: only the count changes. *)
Lemma wp_lock_again G s R K p n (Q : unit -> kstate M -> Prop) :
  sys R s K -> locks K !! p = Some (cur (ks K), n) -> n + 1 < 4294967296 ->
  (forall m, sys R (set_mem m s) (set_lock p (cur (ks K)) (n + 1) K) -> Q tt (set_mem m s)) ->
  wp G (lock_acquire p) s Q.
Proof.
  intros [(f & Hb & HK) He HA Hrun] Hp Hn HQ. unfold lock_acquire.
  apply wp_bind, wp_running_thread. rewrite He. change (page_of (esp (ks K))) with (cur (ks K)).
  apply wp_bind. eapply wp_holder; [done .. |]. rewrite Z.eqb_refl.
  apply wp_bind. eapply wp_repeat; [done .. |]. intros Hu.
  eapply wp_set_repeat; [done .. | unfold is_u32 in *; lia |].
  intros m f' Hm HK'. apply HQ. split; [by exists f' | done ..].
Qed.

Lemma wp_unlock_counts G s R K p n (Q : unit -> kstate M -> Prop) :
  sys R s K -> locks K !! p = Some (cur (ks K), n) -> 0 < n ->
  (forall m, sys R (set_mem m s) (set_lock p (cur (ks K)) (n - 1) K) -> Q tt (set_mem m s)) ->
  wp G (lock_release p) s Q.
Proof.
  intros [(f & Hb & HK) He HA Hrun] Hp Hn HQ. unfold lock_release.
  apply wp_bind, wp_running_thread. rewrite He. change (page_of (esp (ks K))) with (cur (ks K)).
  apply wp_bind. eapply wp_holder; [done .. |]. apply wp_bind, wp_assert; [by rewrite Z.eqb_refl |].
  apply wp_bind. eapply wp_repeat; [done .. |]. intros Hu.
  rewrite (proj2 (Z.ltb_lt 0 n)) by done. apply wp_bind. eapply wp_repeat; [done .. |]. intros _.
  eapply wp_set_repeat; [done .. | unfold is_u32 in *; lia |].
  intros m f' Hm HK'. apply HQ. split; [by exists f' | done ..].
Qed.

Definition not_holder : panic_info :=
  mk_panic "thread/sync.c" 68 "lock_release" "running_thread() == plock->holder".
Definition not_once : panic_info :=
  mk_panic "thread/sync.c" 74 "lock_release" "1 == plock->holder_repeat_nr".

Lemma wp_unlock_panics G s R K p h n (Q : unit -> kstate M -> Prop) :
  sys R s K -> locks K !! p = Some (h, n) -> h <> cur (ks K) \/ n = 0 ->
  (forall s', kmem s' = kmem s -> may_panic G (if h =? cur (ks K) then not_once else not_holder) s') ->
  wp G (lock_release p) s Q.
Proof.
  intros [(f & Hb & HK) He HA Hrun] Hp Hn HQ. unfold lock_release.
  apply wp_bind, wp_running_thread. rewrite He. change (page_of (esp (ks K))) with (cur (ks K)).
  apply wp_bind. eapply wp_holder; [done .. |]. rewrite Z.eqb_sym.
  destruct (Z.eqb_spec h (cur (ks K))) as [Hh | Hh].
  - destruct Hn as [Hn | ->]; [done |]. apply wp_bind, wp_assert; [done |].
    apply wp_bind. eapply wp_repeat; [done .. |]. intros _. cbn [Z.ltb Z.compare].
    apply wp_bind. eapply wp_repeat; [done .. |]. intros _.
    apply wp_bind. by apply wp_assert_fails.
  - apply wp_bind. by apply wp_assert_fails.
Qed.

(** A free semaphore is taken without a hand-over. *)
Lemma wp_sema_down_free G s R K p (Q : unit -> kstate M -> Prop) :
  sys R s K -> semas K !! p = Some 1 ->
  (forall m, sys R (set_mem m s) (set_sema p 0 K) -> Q tt (set_mem m s)) ->
  wp G (sema_down p) s Q.
Proof.
  intros Hsys Hp HQ. unfold sema_down. apply wp_bind, wp_intr_disable, wp_bind.
  eapply (wp_while _ _ (fun _ _ s' => s' = set_if false s) _ 0%nat); [| done | bounded].
  intros n x s' ->. pose proof Hsys as [(f & Hb & HK) He HA Hrun].
  eapply wp_sema_free; [exact Hb | exact HK | done |].
  apply (wp_sema_take G (set_if false s) R K p (kif s)); [| done |].
  { split; [by exists f | done ..]. }
  intros m [(f1 & Hb1 & HK1) He1 HA1 Hrun1]. rewrite set_if_restore by done.
  apply HQ. split; [by exists f1 | done ..].
Qed.

Lemma sema_down_yields s R K K' p : sys R s K -> semas K !! p = Some 0 ->
  sema_block p K = Some K' ->
  exists s' k, sema_down p s = Yield s' k /\ sys R s' K' /\ kif s' = false.
Proof.
  intros [(f & Hb & HK) He HA Hrun] Hp Hbl.
  assert (exists s' k, sema_wait p (set_if false s) = Yield s' k /\ sys R s' K' /\ kif s' = false)
    as (s' & k & Hy & Hs' & Hi').
  { pattern (sema_wait p (set_if false s)). eapply sema_wait_then; try done.
    intros m k Hm Hk. by eexists _, k. }
  destruct (while_yield (fun _ => sema_wait p) tt (set_if false s) s' k Hy) as [k' Hk'].
  exists s'. pattern (sema_down p s). unfold sema_down.
  apply seq_then, wp_intr_disable. unfold cbind at 1. rewrite Hk'. by eexists.
Qed.

(** ** Threads and other components' memory, at the level of the system *)

Lemma wp_sys_unblock G s R K t v q (Q : unit -> kstate M -> Prop) :
  sys R s K -> tasks (ks K) !! t = Some v -> waiting_code (code (tv_status v)) = true ->
  queued_nowhere (ks K) t -> queues (ks K) !! thread_ready_list = Some q ->
  (forall m, sys R (set_mem m s) (with_ks (unblocked t v q (ks K)) K) -> Q tt (set_mem m s)) ->
  wp G (thread_unblock t) s Q.
Proof.
  intros [(f & Hb & HK) He HA Hrun] Hv Hw Hnow Hq HQ.
  eapply wp_thread_unblock; [done | apply (sr_sched _ _ _ HK) | done .. |].
  intros m f' Hm Hr' Ho. apply HQ.
  split; [exists f'; split; [done |] | done | by apply unblocked_wf |].
  - apply (sys_step R f f' K _ HK Hr'); [| done].
    apply (same_objects_trans _ (set_queue thread_ready_list (t :: q) (ks K)));
      [by apply set_queue_objects; eexists |]. apply set_task_objects. by exists v.
  - destruct Hrun as (u & Hu & Hru). exists u. split; [| done]. cbn.
    rewrite lookup_insert_ne; [done |]. change (cur (unblocked t v q (ks K))) with (cur (ks K)).
    intros ->. rewrite Hv in Hu. simplify_eq. by rewrite Hru in Hw.
Qed.

Lemma sys_block_then s R K A' v stat (Phi : outcome (kstate M) unit -> Prop) :
  sys R s K -> tasks (ks K) !! cur (ks K) = Some v -> waiting_code (code stat) = true ->
  sched_next (blocked stat v (ks K)) = Some A' ->
  (forall m k, sys R (switched m A' (set_if false s)) (with_ks A' K) ->
     (forall s', k s' = Done tt (set_if (kif s) s')) ->
     Phi (Yield (switched m A' (set_if false s)) k)) ->
  Phi (thread_block stat s).
Proof.
  intros [(f & Hb & HK) He HA (u & Hu & Hru)] Hv Hw Hn HPhi.
  rewrite Hv in Hu. injection Hu as <-.
  pose proof (blocked_wf _ v stat HA Hv Hru Hw) as HB.
  assert (cur_status (blocked stat v (ks K)) stat) as Hcs
    by (eexists; split; [apply lookup_insert_eq | done]).
  pose proof (sched_next_wf _ stat HB Hcs ltac:(by intros ->)) as Hs. rewrite Hn in Hs.
  eapply thread_block_then; [done | apply (sr_sched _ _ _ HK) | done .. |].
  intros m f' k Hm Hr' Ho Hk. apply HPhi; [| done].
  split; [exists f'; split; [done |] | done | apply Hs | apply Hs].
  apply (sys_step R f f' K A' HK Hr'); [| done].
  eapply same_objects_trans; [| by apply sched_next_objects].
  apply set_task_objects. by exists v.
Qed.

Lemma sys_backs R s K : sys R s K -> backs (kmem s) (own K) (data K).
Proof.
  intros [(f & Hb & HK) _ _ _]. eapply backs_mono; [done | |].
  - intros b Ho. by apply (sr_own _ _ _ HK).
  - intros b Ho. symmetry. by apply (sr_data _ _ _ HK).
Qed.

(** A store to the bytes of another component, seen by the system. *)
Lemma sys_own_store R s K f m f' g : sys_rep R f K -> backs m R f' ->
  kesp s = esp (ks K) -> wf (ks K) -> cur_status (ks K) TASK_RUNNING ->
  (forall b, ~ own K b -> f' b = f b) -> (forall b, own K b -> f' b = g b) ->
  sys R (set_mem m s) (set_data g K).
Proof.
  intros HK Hm He HA Hrun Hn Ho. split; [exists f'; split; [done |] | done ..].
  apply (sys_data_ext R f' (set_data f' K)); [by apply (sys_set_data R f) |].
  intros b Hb. cbn. symmetry. by apply Ho.
Qed.

Lemma upd_eqv f g a v b : (f b = g b) -> upd f a v b = upd g a v b.
Proof.
  intros Hb. destruct (Z.eq_dec b a) as [-> | Hne]; [by rewrite !upd_eq | by rewrite !upd_ne].
Qed.

Lemma upd32_eqv f g a v b : (f b = g b) -> upd32 f a v b = upd32 g a v b.
Proof. intros Hb. rewrite !upd32_bytes. by repeat apply upd_eqv. Qed.

Lemma wp_own_st32 G s R K a v (Q : unit -> kstate M -> Prop) :
  sys R s K -> inside (own K) a 4 ->
  (forall m, sys R (set_mem m s) (set_data (upd32 (data K) a v) K) -> Q tt (set_mem m s)) ->
  wp G (st32 a v) s Q.
Proof.
  intros [(f & Hb & HK) He HA Hrun] Hi HQ. eapply wp_st32; [done | |].
  - intros b Hbb. by apply (sr_own _ _ _ HK), Hi.
  - intros m Hm. apply HQ. eapply sys_own_store; [done .. | |].
    + intros b Hn. apply upd32_ne. destruct (Z.lt_ge_cases b a); [lia |].
      destruct (Z.lt_ge_cases b (a + 4)); [| lia]. exfalso. apply Hn, Hi. unfold span. lia.
    + intros b Ho. apply upd32_eqv. by apply (sr_data _ _ _ HK).
Qed.

Lemma wp_own_st8 G s R K a v (Q : unit -> kstate M -> Prop) :
  sys R s K -> own K a ->
  (forall m, sys R (set_mem m s) (set_data (upd (data K) a (u8 v)) K) -> Q tt (set_mem m s)) ->
  wp G (st8 a v) s Q.
Proof.
  intros [(f & Hb & HK) He HA Hrun] Hi HQ. eapply wp_st8; [done | |].
  - by apply (sr_own _ _ _ HK).
  - intros m Hm. apply HQ. eapply sys_own_store; [done .. | |].
    + intros b Hn. apply upd_ne. by intros ->.
    + intros b Ho. apply upd_eqv. by apply (sr_data _ _ _ HK).
Qed.

(** The lock is free: it is taken, once. *)
Lemma wp_lock_free G s R K p h (Q : unit -> kstate M -> Prop) :
  sys R s K -> locks K !! p = Some (h, 0) -> h <> cur (ks K) ->
  semas K !! semaphore p = Some 1 ->
  (forall m, sys R (set_mem m s) (set_lock p (cur (ks K)) 1 (set_sema (semaphore p) 0 K)) ->
     Q tt (set_mem m s)) ->
  wp G (lock_acquire p) s Q.
Proof.
  intros Hsys Hp Hh Hs HQ. pose proof Hsys as [(f & Hb & HK) He HA Hrun]. unfold lock_acquire.
  apply wp_bind, wp_running_thread. rewrite He. change (page_of (esp (ks K))) with (cur (ks K)).
  apply wp_bind. eapply wp_holder; [done .. |].
  rewrite (proj2 (Z.eqb_neq (cur (ks K)) h)) by done.
  apply wp_bind. eapply wp_sema_down_free; [done | done |].
  intros m1 [(f1 & Hb1 & HK1) He1 HA1 Hrun1].
  apply wp_bind, wp_running_thread. rewrite He1. change (page_of _) with (cur (ks K)).
  assert (is_u32 (cur (ks K))) as Hcu by (apply page_of_u32, HA).
  apply wp_bind. eapply wp_set_holder; [done | done | done | done |]. intros m2 f2 Hm2 HK2.
  apply wp_bind. eapply wp_repeat; [exact Hm2 | exact HK2 | apply lookup_insert_eq |]. intros _.
  apply wp_bind, wp_assert; [done |].
  eapply wp_set_repeat; [exact Hm2 | exact HK2 | apply lookup_insert_eq | done |].
  intros m3 f3 Hm3 HK3. rewrite !set_mem_mem. apply HQ.
  split; [exists f3; split; [done |] | done ..].
  revert HK3. unfold set_lock. cbn. by rewrite insert_insert_eq.
Qed.

(** Taking a lock that is free or already the caller's. *)
Definition lock_ready (K : ksys) (l h n : Z) : Prop :=
  locks K !! l = Some (h, n) /\ n < 4294967295 /\
  (h = cur (ks K) \/ (n = 0 /\ h <> cur (ks K) /\ semas K !! semaphore l = Some 1)).
Definition lock_count (K : ksys) (h n : Z) : Z := if h =? cur (ks K) then n + 1 else 1.

(** A lock that can be had, and that the other locks stay so. *)
Definition lock_usable (K : ksys) (l : Z) : Prop := exists h n, lock_ready K l h n /\ 0 <= n.
Record locks_but (l : Z) (K K' : ksys) : Prop := mk_locks_but {
  lb_usable l' : l' <> l -> lock_usable K l' -> lock_usable K' l';
  lb_semas q : is_Some (semas K' !! q) -> q = semaphore l \/ is_Some (semas K !! q);
  lb_locks q : is_Some (locks K' !! q) -> q = l \/ is_Some (locks K !! q) }.

Lemma locks_but_trans l K K1 K2 : locks_but l K K1 -> locks_but l K1 K2 -> locks_but l K K2.
Proof. intros [U1 S1 L1] [U2 S2 L2]. split; [auto | |]; intros q Hq; [destruct (S2 q Hq) | destruct (L2 q Hq)]; auto. Qed.

Lemma set_lock_but l h n K : locks_but l K (set_lock l h n K).
Proof.
  split; cbn; [| by right |].
  - intros l' Hne (h' & n' & (Hl & Hc) & Hn). exists h', n'. split; [| done]. split; [| exact Hc].
    cbn. by rewrite lookup_insert_ne.
  - intros q [-> | [_ Hq]]%lookup_insert_is_Some; auto.
Qed.

Lemma set_sema_but l v K : locks_but l K (set_sema (semaphore l) v K).
Proof.
  split; cbn; [| | by right].
  - intros l' Hne (h & n & (Hl & Hm & Hc) & Hn). exists h, n. split; [| done]. split; [exact Hl |]. split; [exact Hm |].
    destruct Hc as [Hc | (H1 & H2 & H3)]; [by left | right]. split; [done |]. split; [done |]. cbn.
    rewrite lookup_insert_ne; [exact H3 |]. unfold semaphore. lia.
  - intros q [-> | [_ Hq]]%lookup_insert_is_Some; auto.
Qed.

Lemma lock_ready_usable K l h n : lock_ready K l h n -> 0 <= n -> lock_usable K l.
Proof. intros Hl Hn. by exists h, n. Qed.

(** After the lock was given back by the running thread. *)
Lemma counted_usable K K' l h n : lock_ready K l h n -> 0 <= n -> cur (ks K') = cur (ks K) ->
  locks K' !! l = Some (cur (ks K), lock_count K h n - 1) -> lock_usable K' l.
Proof.
  intros (_ & Hm & _) Hn Hc Hl. exists (cur (ks K)), (lock_count K h n - 1). unfold lock_count in *. rewrite <- Hc in *.
  split; [split; [exact Hl |]; split; [case_match; lia | by left] | case_match; lia].
Qed.

Lemma wp_lock_ready G s R K l h n (Q : unit -> kstate M -> Prop) :
  sys R s K -> lock_ready K l h n ->
  (forall m K', sys R (set_mem m s) K' -> ks K' = ks K -> data K' = data K -> own K' = own K ->
     locks K' !! l = Some (cur (ks K), lock_count K h n) -> locks_but l K K' -> Q tt (set_mem m s)) ->
  wp G (lock_acquire l) s Q.
Proof.
  intros Hs (Hl & Hn & Hc) HQ. unfold lock_count in HQ.
  destruct Hc as [-> | (-> & Hh & Hsem)].
  - rewrite Z.eqb_refl in HQ. eapply wp_lock_again; [done | done | lia |]. intros m Hm.
    eapply HQ; [exact Hm | done .. | apply lookup_insert_eq | apply set_lock_but].
  - rewrite (proj2 (Z.eqb_neq _ _) Hh) in HQ. eapply wp_lock_free; [done .. |]. intros m Hm.
    eapply HQ; [exact Hm | done .. | apply lookup_insert_eq |].
    eapply locks_but_trans; [apply set_sema_but | apply set_lock_but].
Qed.
End rules.

(** ** Properties *)

Section properties.
Context {M : Type} {RM : RawMem M} {RL : RawMemLaws M} {LY : Layout}.

(** [sema_down] on a free semaphore takes it and returns without giving up
    the processor; the interrupt flag is what it was. *)
Theorem sema_down_takes (s : kstate M) R K p :
  sys R s K -> semas K !! p = Some 1 ->
  exists m, sema_down p s = Done tt (set_mem m s) /\ sys R (set_mem m s) (set_sema p 0 K).
Proof.
  intros Hsys Hp.
  destruct (proj1 (wp_seq_only (sema_down p) s (fun _ s' => exists m, s' = set_mem m s /\
    sys R (set_mem m s) (set_sema p 0 K)))) as ([] & s' & Hd & m & -> & Hm); [| by exists m].
  eapply wp_sema_down_free; [done | done |]. intros m Hm. by exists m.
Qed.

(** [sema_down] on a taken semaphore: the thread joins the end of the waiters,
    is blocked, and the next ready thread runs; resumed when the semaphore is
    free it takes it and returns with its interrupt flag. *)
Theorem sema_down_waits (s : kstate M) R K K' p s0 K0 :
  sys R s K -> semas K !! p = Some 0 -> sema_block p K = Some K' ->
  sys R s0 K0 -> kif s0 = false -> semas K0 !! p = Some 1 ->
  exists s' k m, sema_down p s = Yield s' k /\ sys R s' K' /\ kif s' = false /\
    k s0 = Done tt (set_if (kif s) (set_mem m s0)) /\ sys R (set_mem m s0) (set_sema p 0 K0).
Proof.
  intros [(f & Hb & HK) He HA Hrun] Hp Hbl Hsys0 Hif0 Hp0.
  pose (G := mk_protocol (fun s' : kstate M => sys R s' K' /\ kif s' = false)
    (fun _ s' => s' = s0) (fun _ _ => False) (fun _ => False)).
  assert (wpn False G 1 (sema_down p) s (fun n _ s' => n = 0%nat /\ exists m,
    s' = set_if (kif s) (set_mem m s0) /\ sys R (set_mem m s0) (set_sema p 0 K0))) as Hw.
  { unfold sema_down. apply wpn_bind, wpn_seq, wp_intr_disable, wpn_bind. eapply wpn_mono.
    - apply (wpn_while _ _ _ (fun n _ s' => (n = 1%nat /\ s' = set_if false s) \/ (n = 0%nat /\ s' = s0))
        (fun n _ s' => n = 0%nat /\ s' = s0)); [| by left | bounded].
      intros n _ s' [[-> ->] | [-> ->]].
      + unfold wpn. eapply sema_wait_then; try done. intros m k Hm Hk. split; [done |].
        intros s' ->. rewrite Hk. cbn [wpno].
        assert (set_if false s0 = s0) as -> by (unfold set_if; by rewrite <- Hif0).
        split; [lia | by right].
      + pose proof Hsys0 as [(f0 & Hb0 & HK0) He0 HA0 Hrun0].
        apply wpn_seq. by eapply wp_sema_free.
    - intros n [] s' [-> ->]. apply wpn_seq. eapply wp_sema_take; [done | done |].
      intros m Hm. split; [done |]. by exists m. }
  unfold wpn in Hw. destruct (sema_down p s) as [a s1 | s1 k | e s1 | s1 | s1]; cbn in Hw; try tauto.
  - destruct Hw as [Hw _]. done.
  - destruct Hw as [[Hg1 Hg2] Hk]. specialize (Hk s0 eq_refl).
    destruct (k s0) as [[] s2 | | | |] eqn:Hks; cbn in Hk; try tauto.
    destruct Hk as (_ & m & -> & Hm). exists s1, k, m. done.
Qed.

(** C26. However the other threads behave, [sema_down] does nothing but this: it
    returns holding the semaphore, or hands over the processor as a blocked
    waiter, for any number of rounds below the model's loop bound; and when no
    other thread takes the semaphore in between ([steal = False]), one hand-over
    is enough.  The only panic is that no thread is ready. *)
Theorem sema_down_safe (s : kstate M) R K p v n steal :
  sys R s K -> semas K !! p = Some v -> steal \/ (1 <= n)%nat -> Z.of_nat n < Z.pos loop_bound ->
  wpn steal (sema_protocol R (cur (ks K)) p steal) n (sema_down p) s (fun _ _ s' =>
    exists K', sys R s' K' /\ kif s' = kif s /\ cur (ks K') = cur (ks K) /\
      semas K' !! p = Some 0).
Proof. intros. by eapply sema_down_wpn. Qed.

(** [sema_up] frees the semaphore and puts its first waiter, if any, at the
    front of the ready queue; on a free semaphore it ends in its assertion. *)
Theorem sema_up_wakes (s : kstate M) R K p v :
  sys R s K -> semas K !! p = Some v ->
  (v = 0 /\ exists m, sema_up p s = Done tt (set_mem m s) /\
     sys R (set_mem m s) (set_sema p 1 (sema_wake p K))) \/
  (v = 1 /\ exists s', sema_up p s =
     Panic (mk_panic "thread/sync.c" 42 "sema_up" "0 == psema->value") s').
Proof.
  intros Hsys Hp. pose proof Hsys as [(f & Hb & HK) He HA Hrun].
  destruct (sr_value _ _ _ HK p v Hp) as (_ & [-> | ->] & _); [left | right]; (split; [done |]).
  - destruct (proj1 (wp_seq_only (sema_up p) s (fun _ s' => exists m, s' = set_mem m s /\
      sys R (set_mem m s) (set_sema p 1 (sema_wake p K))))) as ([] & s' & Hd & m & -> & Hm); [| by exists m].
    eapply wp_sema_up; [done | done |]. intros m Hm. by exists m.
  - destruct (panics_wp (sema_up p) s (mk_panic "thread/sync.c" 42 "sema_up" "0 == psema->value"))
      as (s' & Hs' & _); [| by exists s'].
    intros G Q HQ. unfold sema_up. apply wp_bind, wp_intr_disable.
    apply wp_bind. eapply wp_value; [done .. |]. apply wp_bind. by apply wp_assert_fails.
Qed.

(** [lock_acquire] by the holder counts; on a free lock it takes it. *)
Theorem lock_acquire_takes (s : kstate M) R K p h n :
  sys R s K -> locks K !! p = Some (h, n) -> n < 4294967295 ->
  h = cur (ks K) \/ (n = 0 /\ semas K !! semaphore p = Some 1) ->
  exists m, lock_acquire p s = Done tt (set_mem m s) /\
    sys R (set_mem m s) (if h =? cur (ks K) then set_lock p h (n + 1) K
                         else set_lock p (cur (ks K)) 1 (set_sema (semaphore p) 0 K)).
Proof.
  intros Hsys Hp Hn Hcase. set (K' := if h =? _ then _ else _).
  destruct (proj1 (wp_seq_only (lock_acquire p) s (fun _ s' => exists m, s' = set_mem m s /\
    sys R (set_mem m s) K'))) as ([] & s' & Hd & m & -> & Hm); [| by exists m].
  unfold K'. destruct (Z.eqb_spec h (cur (ks K))) as [-> | Hh].
  - eapply wp_lock_again; [done | done | lia |]. intros m Hm. by exists m.
  - destruct Hcase as [-> | [-> Hs]]; [done |].
    eapply wp_lock_free; [done .. |]. intros m Hm. by exists m.
Qed.

(** C32. [lock_release] never releases: the holder's call only counts down, also
    from one to zero, and the semaphore stays taken; when the count is zero,
    or for another thread, it ends in an assertion.  It never reaches
    [sema_up]. *)
Theorem lock_release_never_frees (s : kstate M) R K p h n :
  sys R s K -> locks K !! p = Some (h, n) -> 0 <= n ->
  (h = cur (ks K) /\ 0 < n /\ exists m, lock_release p s = Done tt (set_mem m s) /\
     sys R (set_mem m s) (set_lock p h (n - 1) K)) \/
  (exists s', lock_release p s = Panic not_once s' \/ lock_release p s = Panic not_holder s').
Proof.
  intros Hsys Hp Hn.
  destruct (decide (h = cur (ks K) /\ 0 < n)) as [[-> Hlt] | Hno]; [left | right].
  - split; [done |]. split; [done |].
    destruct (proj1 (wp_seq_only (lock_release p) s (fun _ s' => exists m, s' = set_mem m s /\
      sys R (set_mem m s) (set_lock p (cur (ks K)) (n - 1) K)))) as ([] & s' & Hd & m & -> & Hm); [| by exists m].
    eapply wp_unlock_counts; [done .. |]. intros m Hm. by exists m.
  - destruct (panics_wp (lock_release p) s (if h =? cur (ks K) then not_once else not_holder))
      as (s' & Hs' & _).
    { intros G Q HQ. eapply wp_unlock_panics; [done | done | | done].
      destruct (decide (h = cur (ks K))) as [-> | Hne]; [right | by left].
      destruct (decide (0 < n)) as [Hlt | Hge]; [by destruct Hno | lia]. }
    exists s'. destruct (h =? cur (ks K)); [by left | by right].
Qed.

(** So a lock that was acquired and released is still held, with count zero
    and its semaphore taken. *)
Theorem lock_stays_held (s : kstate M) R K p h :
  sys R s K -> locks K !! p = Some (h, 0) -> h <> cur (ks K) -> semas K !! semaphore p = Some 1 ->
  exists m, (lock_acquire p;; lock_release p) s = Done tt (set_mem m s) /\
    sys R (set_mem m s) (set_lock p (cur (ks K)) 0 (set_sema (semaphore p) 0 K)).
Proof.
  intros Hsys Hp Hh Hs. set (K' := set_lock _ _ _ _).
  destruct (proj1 (wp_seq_only (lock_acquire p;; lock_release p) s (fun _ s' => exists m,
    s' = set_mem m s /\ sys R (set_mem m s) K'))) as ([] & s' & Hd & m & -> & Hm); [| by exists m].
  apply wp_bind. eapply wp_lock_free; [done .. |]. intros m1 Hm1.
  eapply wp_unlock_counts; [exact Hm1 | apply lookup_insert_eq | done |].
  intros m2 Hm2. rewrite set_mem_mem in *. exists m2. split; [done |].
  revert Hm2. unfold set_lock. cbn. by rewrite insert_insert_eq.
Qed.

(** A lock held by another thread: [lock_acquire] hands over the processor as
    a blocked waiter of the lock's semaphore. *)
Theorem lock_acquire_waits (s : kstate M) R K K' p h n :
  sys R s K -> locks K !! p = Some (h, n) -> h <> cur (ks K) ->
  semas K !! semaphore p = Some 0 -> sema_block (semaphore p) K = Some K' ->
  exists s' k, lock_acquire p s = Yield s' k /\ sys R s' K' /\ cur (ks K') <> cur (ks K) /\
    locks K' !! p = Some (h, n).
Proof.
  intros Hsys Hp Hh Hs Hbl. pose proof Hsys as [(f & Hb & HK) He HA Hrun].
  destruct (sr_sema _ _ _ HK (semaphore p) ltac:(by eexists)) as (_ & [ts Hts] & _).
  pose proof (sema_block_facts K K' _ ts R f HK HA Hrun ltac:(by eexists) Hts Hbl)
    as (Hc' & _ & _ & Hl').
  destruct (sema_down_yields s R K K' _ Hsys Hs Hbl) as (s' & k & Hy & Hs' & _).
  exists s'. pattern (lock_acquire p s). unfold lock_acquire.
  apply seq_then, wp_running_thread. rewrite He. change (page_of (esp (ks K))) with (cur (ks K)).
  apply seq_then. eapply wp_holder; [done .. |].
  rewrite (proj2 (Z.eqb_neq (cur (ks K)) h)) by done.
  unfold cbind at 1. rewrite Hy. cbn [obind]. eexists. split; [done |]. by rewrite Hl'.
Qed.
End properties.

(** ** Deciding on concrete contents *)

Section deciding.
Context {LY : Layout}.

Definition smap := list (Z * Z).
Definition lmap := list (Z * (Z * Z)).
Definition ksys_of (A : sched) (ss : smap) (ls : lmap) : ksys :=
  mk_ksys A (list_to_map ss) (list_to_map ls) (fun _ => False) (fun _ => 0).

(** The [n] bytes at [a] are none of the scheduler's. *)
Definition freeb (qs : qmap) (ts : tmap) (a n : Z) : bool :=
  forallb (fun '(l, _) => clearb a n l 16) qs && forallb (fun '(t, _) => clearb a n t 4 && clearb a n (t + 6) 7 && clearb a n (t + 29) 27 && clearb a n (t + 68) 4) ts &&
  clearb a n thread_all_list 16.

Definition sys_repb (f : Z -> Z) (qs : qmap) (ts : tmap) (ss : smap) (ls : lmap) : bool :=
  repb f qs ts &&
  forallb (fun '(p, v) => (f p =? v) && ((v =? 0) || (v =? 1)) && (0 <=? p) && (p <? 4294967296) &&
    freeb qs ts p 1 && memb (waiters p) (map fst qs) && negb (waiters p =? thread_ready_list)) ss &&
  forallb (fun '(p, (h, n)) => (w32 f (holder p) =? h) && (w32 f (holder_repeat_nr p) =? n) &&
    (0 <=? p) && (p + 28 <=? 4294967296) && freeb qs ts p 4 && freeb qs ts (p + 24) 4 &&
    forallb (fun '(q, _) => clearb p 4 q 1 && clearb (p + 24) 4 q 1) ss &&
    forallb (fun '(q, _) => (p =? q) || clearb p 28 q 28) ls &&
    memb (semaphore p) (map fst ss)) ls.

Lemma freeb_spec e qs ts a n b : freeb qs ts a n = true -> span a n b ->
  ~ footprint (sched_of e qs ts) b.
Proof.
  unfold freeb. rewrite !andb_true_iff. intros [[H1 H2] H3] Hb.
  intros [(l & [q Hl]%is_Some_elem & Hlb) | [(t & [v Ht]%is_Some_elem & Htb) | Hall]].
  - pose proof (forallb_elem _ _ _ H1 Hl) as Hx. cbn in Hx. unfold clearb, span in *. lia.
  - pose proof (forallb_elem _ _ _ H2 Ht) as Hx. cbn in Hx.
    unfold clearb, task_footprint, task_identity, pid, name, userprog_vaddr, span, task_struct_size in *. lia.
  - unfold clearb, span in *. lia.
Qed.

Lemma dom_spec {A} (xs : list (Z * A)) t : memb t (map fst xs) = true ->
  is_Some ((list_to_map xs : gmap Z A) !! t).
Proof.
  intros Hin%memb_spec. destruct (list_to_map xs !! t) as [x |] eqn:Hx; [by eexists |].
  by apply not_elem_of_list_to_map_2 in Hx.
Qed.

Lemma sys_repb_spec f e qs ts ss ls : sys_repb f qs ts ss ls = true ->
  sys_rep is_u32 f (ksys_of (sched_of e qs ts) ss ls).
Proof.
  unfold sys_repb. rewrite !andb_true_iff. intros [[H1 H2] H3].
  assert (forall p v, (p, v) ∈ ss -> f p = v /\ (v = 0 \/ v = 1) /\ is_u32 p /\
    freeb qs ts p 1 = true /\ memb (waiters p) (map fst qs) = true /\
    waiters p <> thread_ready_list) as HS.
  { intros p v Hp. pose proof (forallb_elem _ _ _ H2 Hp) as Hx. cbn in Hx.
    rewrite !andb_true_iff in Hx. unfold is_u32. intuition lia. }
  assert (forall p h n, (p, (h, n)) ∈ ls -> (w32 f (holder p) = h /\ w32 f (holder_repeat_nr p) = n) /\
    (0 <= p /\ p + 28 <= 4294967296) /\ (freeb qs ts p 4 = true /\ freeb qs ts (p + 24) 4 = true) /\
    (forall q v, (q, v) ∈ ss -> ~ lock_bytes p q) /\
    (forall q x, (q, x) ∈ ls -> p <> q -> clear p 28 q 28) /\
    memb (semaphore p) (map fst ss) = true) as HL.
  { intros p h n Hp. pose proof (forallb_elem _ _ _ H3 Hp) as Hx. cbn in Hx.
    rewrite !andb_true_iff in Hx. destruct Hx as [[[[[[[[Hx1 Hx2] Hx3] Hx4] Hx5] Hx6] Hx7] Hx8] Hx9].
    split; [lia |]. split; [lia |]. split; [done |]. split; [| split; [| done]].
    - intros q v Hq. pose proof (forallb_elem _ _ _ Hx7 Hq) as Hy. cbn in Hy.
      unfold clearb, lock_bytes, span in *. lia.
    - intros q x Hq Hne. pose proof (forallb_elem _ _ _ Hx8 Hq) as Hy. cbn in Hy.
      unfold clearb, clear in *. lia. }
  split; cbn [ks semas locks own ksys_of].
  - by apply repb_spec.
  - intros p v Hp%elem_of_list_to_map_2. by destruct (HS p v Hp) as (? & ? & ? & _).
  - intros p [v Hp]%is_Some_elem. destruct (HS p v Hp) as (_ & _ & _ & Hf & Hq & Hn).
    split; [eapply freeb_spec; [done | unfold span; lia] |]. split; [by apply dom_spec | done].
  - intros p h n Hp%elem_of_list_to_map_2. by apply HL.
  - intros p b [[h n] Hp]%is_Some_elem Hb.
    destruct (HL p h n Hp) as (_ & Hr & [Hf1 Hf2] & Hs & _). split; [| split].
    + unfold lock_bytes, span, is_u32 in *. lia.
    + destruct Hb as [Hb | Hb];
        [by apply (freeb_spec e qs ts p 4) | by apply (freeb_spec e qs ts (p + 24) 4)].
    + intros [v Hv]%is_Some_elem. by apply (Hs b v).
  - intros p q [[h n] Hp]%is_Some_elem [x Hq]%is_Some_elem Hne.
    destruct (HL p h n Hp) as (_ & _ & _ & _ & Hc & _). by apply (Hc q x).
  - intros p [[h n] Hp]%is_Some_elem. apply dom_spec. by apply (HL p h n Hp).
  - done.
  - done.
Qed.

(** Giving bytes of the rest of memory to other components. *)
Definition with_own (P : Z -> Prop) (g : Z -> Z) (K : ksys) : ksys :=
  mk_ksys (ks K) (semas K) (locks K) P g.

Definition ownb (qs : qmap) (ts : tmap) (ss : smap) (ls : lmap) (a n : Z) : bool :=
  (0 <=? a) && (a + n <=? 4294967296) && freeb qs ts a n &&
  forallb (fun '(p, _) => clearb a n p 1) ss && forallb (fun '(p, _) => clearb a n p 28) ls.

Lemma ownb_spec f e qs ts ss ls a n : sys_repb f qs ts ss ls = true ->
  ownb qs ts ss ls a n = true ->
  sys_rep is_u32 f (with_own (span a n) f (ksys_of (sched_of e qs ts) ss ls)).
Proof.
  intros Hr Ho. pose proof (sys_repb_spec f e qs ts ss ls Hr) as HK.
  unfold ownb in Ho. rewrite !andb_true_iff in Ho. destruct Ho as [[[[H1 H2] H3] H4] H5].
  split; cbn [ks semas locks own data with_own]; try apply HK; [done |].
  intros b Hb. split; [unfold span, is_u32 in *; lia |].
  split; [by apply (freeb_spec e qs ts a n) |]. split.
  - intros [v Hv]%is_Some_elem. pose proof (forallb_elem _ _ _ H4 Hv) as Hx. cbn in Hx.
    unfold clearb, span in *. lia.
  - intros p [x Hx]%is_Some_elem Hl. pose proof (forallb_elem _ _ _ H5 Hx) as Hy. cbn in Hy.
    unfold clearb, lock_bytes, span in *. lia.
Qed.
End deciding.

(** A running thread, a ready one and one that waits for the semaphore of a
    lock held by [h], [n] times; the semaphore's value is [v]. *)
Module examples.
#[local] Existing Instance demo_layout.
Import Thread.examples.
Definition L : Z := 0xc0009400.
Definition qs : qmap := [(thread_ready_list, [t2]); (L + 8, [t3])].
Definition mem (h n v : Z) : flat :=
  flat_of (sched_words qs ts ++ [(L, h); (L + 4, v); (L + 24, n)]).
Definition st (h n v : Z) : kstate flat := machine_of (mem h n v).
Definition K (h n v : Z) : ksys :=
  ksys_of (sched_of 0xc009eff0 qs ts) [(L + 4, v)] [(L, (h, n))].

Lemma st_sys h n v : sys_repb (flat_at (mem h n v)) qs ts [(L + 4, v)] [(L, (h, n))] = true ->
  sys is_u32 (st h n v) (K h n v).
Proof.
  intros Hr. split.
  - exists (flat_at (mem h n v)). split; [apply flat_backs | by apply sys_repb_spec].
  - done.
  - apply wfb_spec. by vm_compute.
  - exists v1. split; by vm_compute.
Qed.

Lemma free_sys : sys is_u32 (st 0 0 1) (K 0 0 1).
Proof. apply st_sys. by vm_compute. Qed.
Lemma held_sys : sys is_u32 (st t3 1 0) (K t3 1 0).
Proof. apply st_sys. by vm_compute. Qed.
Lemma mine_sys : sys is_u32 (st t1 2 0) (K t1 2 0).
Proof. apply st_sys. by vm_compute. Qed.

Lemma sema_down_takes_witness : exists m, sema_down (L + 4) (st 0 0 1) = Done tt (set_mem m (st 0 0 1)) /\
  sys is_u32 (set_mem m (st 0 0 1)) (set_sema (L + 4) 0 (K 0 0 1)).
Proof. exact (sema_down_takes (st 0 0 1) is_u32 (K 0 0 1) (L + 4) free_sys eq_refl). Defined.

Lemma sema_down_waits_witness : exists K' s' k m, sema_block (L + 4) (K t3 1 0) = Some K' /\
  sema_down (L + 4) (st t3 1 0) = Yield s' k /\ sys is_u32 s' K' /\
  k (st 0 0 1) = Done tt (set_if false (set_mem m (st 0 0 1))).
Proof.
  destruct (sema_block (L + 4) (K t3 1 0)) as [K' |] eqn:Hb; [| by vm_compute in Hb].
  pose proof (sema_down_waits (st t3 1 0) is_u32 (K t3 1 0) K' (L + 4) (st 0 0 1) (K 0 0 1)
    held_sys eq_refl Hb free_sys eq_refl eq_refl) as (s' & k & m & H1 & H2 & _ & H3 & _).
  exists K', s', k, m. split; [done |]. split; [exact H1 |]. split; [exact H2 | exact H3].
Defined.

Lemma sema_down_safe_witness :
  wpn False (sema_protocol is_u32 t1 (L + 4) False) 1 (sema_down (L + 4)) (st t3 1 0)
    (fun _ _ s' => exists K', sys is_u32 s' K' /\ kif s' = false /\ cur (ks K') = t1 /\
       semas K' !! (L + 4) = Some 0).
Proof.
  exact (sema_down_safe (st t3 1 0) is_u32 (K t3 1 0) (L + 4) 0 1 False held_sys eq_refl
    (or_intror (le_n 1)) ltac:(bounded)).
Defined.

Lemma sema_up_wakes_witness : exists m, sema_up (L + 4) (st t3 1 0) = Done tt (set_mem m (st t3 1 0)) /\
  sys is_u32 (set_mem m (st t3 1 0)) (set_sema (L + 4) 1 (sema_wake (L + 4) (K t3 1 0))).
Proof.
  destruct (sema_up_wakes (st t3 1 0) is_u32 (K t3 1 0) (L + 4) 0 held_sys eq_refl)
    as [[_ Hm] | [Hv _]]; [exact Hm | discriminate].
Defined.

Lemma lock_acquire_takes_witness : exists m, lock_acquire L (st t1 2 0) = Done tt (set_mem m (st t1 2 0)) /\
  sys is_u32 (set_mem m (st t1 2 0)) (set_lock L t1 3 (K t1 2 0)).
Proof.
  exact (lock_acquire_takes (st t1 2 0) is_u32 (K t1 2 0) L t1 2 mine_sys eq_refl ltac:(lia)
    (or_introl eq_refl)).
Defined.

Lemma lock_release_never_frees_witness : exists m,
  lock_release L (st t1 2 0) = Done tt (set_mem m (st t1 2 0)) /\
  sys is_u32 (set_mem m (st t1 2 0)) (set_lock L t1 1 (K t1 2 0)).
Proof.
  destruct (lock_release_never_frees (st t1 2 0) is_u32 (K t1 2 0) L t1 2 mine_sys eq_refl ltac:(lia))
    as [(_ & _ & Hm) | (s' & Hp)]; [exact Hm |].
  exfalso. assert (match lock_release L (st t1 2 0) with Panic _ _ => false | _ => true end = true) as Hn
    by (by vm_compute).
  destruct Hp as [Hp | Hp]; rewrite Hp in Hn; discriminate.
Defined.

Lemma lock_stays_held_witness : exists m,
  (lock_acquire L;; lock_release L) (st 0 0 1) = Done tt (set_mem m (st 0 0 1)) /\
  sys is_u32 (set_mem m (st 0 0 1)) (set_lock L t1 0 (set_sema (L + 4) 0 (K 0 0 1))).
Proof.
  exact (lock_stays_held (st 0 0 1) is_u32 (K 0 0 1) L 0 free_sys eq_refl ltac:(done) eq_refl).
Defined.

Lemma lock_acquire_waits_witness : exists K' s' k, sema_block (L + 4) (K t3 1 0) = Some K' /\
  lock_acquire L (st t3 1 0) = Yield s' k /\ sys is_u32 s' K'.
Proof.
  destruct (sema_block (L + 4) (K t3 1 0)) as [K' |] eqn:Hb; [| by vm_compute in Hb].
  destruct (lock_acquire_waits (st t3 1 0) is_u32 (K t3 1 0) K' L t3 1 held_sys eq_refl
    ltac:(done) eq_refl Hb) as (s' & k & H1 & H2 & _).
  exists K', s', k. split; [done |]. split; [exact H1 | exact H2].
Defined.
End examples.
