(* ===== verification/Ioqueue.v ===== *)
(** device/ioqueue.[ch]: the ring buffer between an interrupt handler and the
    threads that read it, and its refinement of a bounded FIFO. *)

From S2P Require Import Prelude Monad RawMem Machine DList Thread Sync.

(** struct ioqueue: [lock] at 0, [producer] at 28, [consumer] at 32, [buf] at
    36, [head] at 100, [tail] at 104. *)
Definition bufsize : Z := 64.
Definition ioq_lock (ioq : Z) : Z := ioq.
Definition producer (ioq : Z) : Z := ioq + 28.
Definition consumer (ioq : Z) : Z := ioq + 32.
Definition buf (ioq : Z) : Z := ioq + 36.
Definition head_ (ioq : Z) : Z := ioq + 100.
Definition tail_ (ioq : Z) : Z := ioq + 104.

Definition next_pos (pos : Z) : Z := Z.rem (s32 (pos + 1)) bufsize.

Section code.
Context {M : Type} {RM : RawMem M} {LY : Layout}.

Definition ioqueue_init (ioq : Z) : K (M := M) unit :=
  lock_init (ioq_lock ioq);;
  st32 (consumer ioq) 0;; st32 (producer ioq) 0;;
  st32 (tail_ ioq) 0;; st32 (head_ ioq) 0.

Definition ioq_full (ioq : Z) : K (M := M) bool :=
  do st <- intr_get_status;
  ASSERT "device/ioqueue.c" 18 "ioq_full" "INTR_OFF == intr_get_status()" (bool_decide (INTR_OFF = st));;
  do h <- ld32 (head_ ioq); do t <- ld32 (tail_ ioq); cret (next_pos (s32 h) =? s32 t).

Definition ioq_empty (ioq : Z) : K (M := M) bool :=
  do st <- intr_get_status;
  ASSERT "device/ioqueue.c" 23 "ioq_empty" "INTR_OFF == intr_get_status()" (bool_decide (INTR_OFF = st));;
  do h <- ld32 (head_ ioq); do t <- ld32 (tail_ ioq); cret (s32 h =? s32 t).

Definition ioq_wait (waiter : Z) : K (M := M) unit :=
  do w <- ld32 waiter;
  ASSERT "device/ioqueue.c" 28 "ioq_wait" "waiter != NULL && *waiter == NULL"
    (negb (waiter =? 0) && (w =? 0));;
  do cur <- running_thread; st32 waiter cur;;
  thread_block TASK_BLOCKED.

Definition wakeup (waiter : Z) : K (M := M) unit :=
  do w <- ld32 waiter;
  ASSERT "device/ioqueue.c" 34 "wakeup" "*waiter" (negb (w =? 0));;
  do w <- ld32 waiter; thread_unblock w;;
  st32 waiter 0.

(** A round of the loop of [ioq_getchar], of [ioq_putchar]. *)
Definition getchar_wait (ioq : Z) : K (M := M) (unit + unit) :=
  do empty <- ioq_empty ioq;
  if (empty : bool) then
    lock_acquire (ioq_lock ioq);; ioq_wait (consumer ioq);; lock_release (ioq_lock ioq);;
    cret (inl tt)
  else cret (inr tt).

Definition putchar_wait (ioq : Z) : K (M := M) (unit + unit) :=
  do full <- ioq_full ioq;
  if (full : bool) then
    lock_acquire (ioq_lock ioq);; ioq_wait (producer ioq);; lock_release (ioq_lock ioq);;
    cret (inl tt)
  else cret (inr tt).

Definition ioq_getchar (ioq : Z) : K (M := M) Z :=
  do st <- intr_get_status;
  ASSERT "device/ioqueue.c" 40 "ioq_getchar" "INTR_OFF == intr_get_status()" (bool_decide (INTR_OFF = st));;
  while_ (fun _ => getchar_wait ioq) tt;;
  do t <- ld32 (tail_ ioq); do byte <- ld8 (buf ioq + s32 t);
  do t <- ld32 (tail_ ioq); st32 (tail_ ioq) (next_pos (s32 t));;
  do p <- ld32 (producer ioq);
  (when negb (p =? 0) then wakeup (producer ioq));;
  cret (s8 byte).

Definition ioq_putchar (ioq byte : Z) : K (M := M) unit :=
  do st <- intr_get_status;
  ASSERT "device/ioqueue.c" 57 "ioq_putchar" "INTR_OFF == intr_get_status()" (bool_decide (INTR_OFF = st));;
  while_ (fun _ => putchar_wait ioq) tt;;
  do h <- ld32 (head_ ioq); st8 (buf ioq + s32 h) byte;;
  do h <- ld32 (head_ ioq); st32 (head_ ioq) (next_pos (s32 h));;
  do c <- ld32 (consumer ioq);
  when negb (c =? 0) then wakeup (consumer ioq).
End code.

(** ** The abstraction: the bytes in the queue, oldest first *)

Record ring (g : Z -> Z) (q : Z) (cs : list Z) (p c : Z) : Prop := mk_ring {
  ring_head : 0 <= w32 g (head_ q) < 64;
  ring_tail : 0 <= w32 g (tail_ q) < 64;
  ring_len : w32 g (head_ q) = (w32 g (tail_ q) + Z.of_nat (length cs)) mod 64;
  ring_max : Z.of_nat (length cs) <= 63;
  ring_byte i v : cs !! i = Some v -> g (buf q + (w32 g (tail_ q) + Z.of_nat i) mod 64) = v;
  ring_producer : w32 g (producer q) = p;
  ring_consumer : w32 g (consumer q) = c }.

Lemma next_pos_eq x : 0 <= x < 64 -> next_pos (s32 x) = (x + 1) mod 64.
Proof.
  intros Hx. unfold next_pos, bufsize. rewrite !s32_small by (rewrite ?s32_small by lia; lia).
  by rewrite Z.rem_mod_nonneg by lia.
Qed.

Lemma next_pos_range x : 0 <= x < 64 -> 0 <= next_pos (s32 x) < 64.
Proof. intros Hx. rewrite next_pos_eq by done. by apply Z.mod_pos_bound. Qed.

Ltac offsets := unfold buf, head_, tail_, producer, consumer in *.

(** One more byte at the end, one byte less at the front, a new waiter. *)
Lemma ring_put g q cs p c b : ring g q cs p c -> Z.of_nat (length cs) < 63 ->
  ring (upd32 (upd g (buf q + w32 g (head_ q)) (u8 b)) (head_ q) (next_pos (s32 (w32 g (head_ q)))))
    q (cs ++ [u8 b]) p c.
Proof.
  intros [Hh Ht Hl Hm Hb Hp Hc] Hlt. pose proof (next_pos_eq _ Hh) as Hn.
  pose proof (next_pos_range _ Hh) as Hnr.
  assert (w32 (upd32 (upd g (buf q + w32 g (head_ q)) (u8 b)) (head_ q)
    (next_pos (s32 (w32 g (head_ q))))) (tail_ q) = w32 g (tail_ q)) as Htq
    by (offsets; by mem).
  split; rewrite ?Htq.
  - offsets. by mem.
  - done.
  - rewrite length_app, Nat2Z.inj_add. cbn [length].
    rewrite w32_upd32_eq by (unfold is_u32; lia). rewrite Hn, Hl. zlia.
  - rewrite length_app. cbn. lia.
  - intros i v Hi. apply lookup_app_Some in Hi as [Hi | [Hge Hi]].
    + apply lookup_lt_Some in Hi as Hlen. rewrite <- (Hb i v Hi).
      pose proof (Z.mod_pos_bound (w32 g (tail_ q) + Z.of_nat i) 64 ltac:(lia)).
      rewrite upd32_ne by (offsets; lia). apply upd_ne.
      rewrite Hl. intros Heq. zlia.
    + apply list_lookup_singleton_Some in Hi as [Hi <-].
      assert (i = length cs) as -> by lia. rewrite <- Hl.
      rewrite upd32_ne by (offsets; lia). apply upd_eq.
  - offsets. by mem.
  - offsets. by mem.
Qed.

Lemma ring_get g q b cs p c : ring g q (b :: cs) p c ->
  g (buf q + w32 g (tail_ q)) = b /\
  ring (upd32 g (tail_ q) (next_pos (s32 (w32 g (tail_ q))))) q cs p c.
Proof.
  intros [Hh Ht Hl Hm Hb Hp Hc]. pose proof (next_pos_eq _ Ht) as Hn.
  pose proof (next_pos_range _ Ht) as Hnr. cbn [length] in *. split.
  { rewrite <- (Hb 0%nat b eq_refl). rewrite Z.add_0_r. by rewrite Z.mod_small by lia. }
  assert (w32 (upd32 g (tail_ q) (next_pos (s32 (w32 g (tail_ q))))) (head_ q) = w32 g (head_ q))
    as Hhq by (offsets; by mem).
  assert (w32 (upd32 g (tail_ q) (next_pos (s32 (w32 g (tail_ q))))) (tail_ q) =
    next_pos (s32 (w32 g (tail_ q)))) as Htq by (apply w32_upd32_eq; unfold is_u32; lia).
  split; rewrite ?Hhq, ?Htq, ?Hn; try (offsets; by mem).
  - zlia.
  - rewrite Hl. zlia.
  - lia.
  - intros i v Hi. rewrite <- (Hb (S i) v Hi).
    assert (((w32 g (tail_ q) + 1) mod 64 + Z.of_nat i) mod 64 =
      (w32 g (tail_ q) + Z.of_nat (S i)) mod 64) as -> by zlia.
    pose proof (Z.mod_pos_bound (w32 g (tail_ q) + Z.of_nat (S i)) 64 ltac:(lia)).
    apply upd32_ne. offsets. lia.
Qed.

Lemma ring_set_consumer g q cs p c c' : ring g q cs p c -> is_u32 c' ->
  ring (upd32 g (consumer q) c') q cs p c'.
Proof.
  intros [Hh Ht Hl Hm Hb Hp Hc] Hu. split; try (offsets; by mem).
  intros i v Hi. rewrite <- (Hb i v Hi).
  pose proof (Z.mod_pos_bound (w32 g (tail_ q) + Z.of_nat i) 64 ltac:(lia)).
  offsets. rewrite w32_upd32_ne by lia. apply upd32_ne. lia.
Qed.

Lemma ring_set_producer g q cs p c p' : ring g q cs p c -> is_u32 p' ->
  ring (upd32 g (producer q) p') q cs p' c.
Proof.
  intros [Hh Ht Hl Hm Hb Hp Hc] Hu. split; try (offsets; by mem).
  intros i v Hi. rewrite <- (Hb i v Hi).
  pose proof (Z.mod_pos_bound (w32 g (tail_ q) + Z.of_nat i) 64 ltac:(lia)).
  offsets. rewrite w32_upd32_ne by lia. apply upd32_ne. lia.
Qed.

(** Empty and full, as the code tests them. *)
Lemma ring_empty g q cs p c : ring g q cs p c ->
  (s32 (w32 g (head_ q)) =? s32 (w32 g (tail_ q))) = bool_decide (cs = []).
Proof.
  intros [Hh Ht Hl Hm _ _ _]. rewrite !s32_small by lia.
  case_bool_decide as Hc; [subst cs; cbn in Hl; zlia |].
  destruct cs as [| x cs]; [done |]. cbn [length] in *. zlia.
Qed.

Lemma ring_full g q cs p c : ring g q cs p c ->
  (next_pos (s32 (w32 g (head_ q))) =? s32 (w32 g (tail_ q))) = (Z.of_nat (length cs) =? 63).
Proof.
  intros [Hh Ht Hl Hm _ _ _]. rewrite next_pos_eq by done. rewrite s32_small by lia.
  destruct (Z.eqb_spec (Z.of_nat (length cs)) 63); zlia.
Qed.

(** The queue in the memory of the system. *)
Record ioq (K : ksys) (q : Z) (cs : list Z) (p c : Z) : Prop := mk_ioq {
  ioq_own : inside (own K) (q + 28) 80;
  ioq_ring : ring (data K) q cs p c }.

(** A thread that waits for the queue: blocked, and in no other queue. *)
Definition waiter_ok (A : sched) (t : Z) : Prop :=
  t = 0 \/ exists v, tasks A !! t = Some v /\ waiting_code (code (tv_status v)) = true /\
    queued_nowhere A t.

(** What waking the waiter [t] does to the scheduler. *)
Definition wake {LY : Layout} (t : Z) (A : sched) : sched :=
  if t =? 0 then A
  else match tasks A !! t, queues A !! thread_ready_list with
       | Some v, Some q => unblocked t v q A
       | _, _ => A
       end.

Section rules.
Context {M : Type} {RM : RawMem M} {RL : RawMemLaws M} {LY : Layout}.
Implicit Types (s : kstate M) (R : Z -> Prop) (K : ksys) (G : protocol (kstate M)).

Lemma wp_own_ld32 G s R K a (Q : Z -> kstate M -> Prop) :
  sys R s K -> inside (own K) a 4 -> Q (w32 (data K) a) s -> wp G (ld32 a) s Q.
Proof. intros Hs Hi HQ. eapply wp_ld32; [by eapply sys_backs | done | done]. Qed.

Lemma wp_own_ld8 G s R K a (Q : Z -> kstate M -> Prop) :
  sys R s K -> own K a -> (is_u8 (data K a) -> Q (data K a) s) -> wp G (ld8 a) s Q.
Proof. intros Hs Hi HQ. eapply wp_ld8; [by eapply sys_backs | done | done]. Qed.

Lemma own_word (P : Z -> Prop) q k : inside P (q + 28) 80 -> 28 <= k -> k + 4 <= 108 ->
  inside P (q + k) 4.
Proof. intros Ho H1 H2. eapply inside_sub; [done | lia | lia]. Qed.

Lemma wp_ioq_empty G s R K q cs p c (Q : bool -> kstate M -> Prop) :
  sys R s K -> ioq K q cs p c -> kif s = false ->
  Q (bool_decide (cs = [])) s -> wp G (ioq_empty q) s Q.
Proof.
  intros Hs Hq Hi HQ. pose proof (ioq_own _ _ _ _ _ Hq) as Ho. unfold ioq_empty. apply wp_bind, wp_get. rewrite Hi.
  apply wp_bind, wp_assert; [done |].
  apply wp_bind. eapply wp_own_ld32; [done | by apply (own_word (own K) q 100) |].
  apply wp_bind. eapply wp_own_ld32; [done | by apply (own_word (own K) q 104) |].
  apply wp_ret. change (q + 100) with (head_ q). change (q + 104) with (tail_ q).
  by rewrite (ring_empty _ _ _ _ _ (ioq_ring _ _ _ _ _ Hq)).
Qed.

Lemma wp_ioq_full G s R K q cs p c (Q : bool -> kstate M -> Prop) :
  sys R s K -> ioq K q cs p c -> kif s = false ->
  Q (Z.of_nat (length cs) =? 63) s -> wp G (ioq_full q) s Q.
Proof.
  intros Hs Hq Hi HQ. pose proof (ioq_own _ _ _ _ _ Hq) as Ho. unfold ioq_full. apply wp_bind, wp_get. rewrite Hi.
  apply wp_bind, wp_assert; [done |].
  apply wp_bind. eapply wp_own_ld32; [done | by apply (own_word (own K) q 100) |].
  apply wp_bind. eapply wp_own_ld32; [done | by apply (own_word (own K) q 104) |].
  apply wp_ret. change (q + 100) with (head_ q). change (q + 104) with (tail_ q).
  by rewrite (ring_full _ _ _ _ _ (ioq_ring _ _ _ _ _ Hq)).
Qed.

(** [wakeup]: the waiter, a member of the queue at [q + k], becomes ready. *)
Lemma wp_wakeup G s R K a t (Q : unit -> kstate M -> Prop) :
  sys R s K -> inside (own K) a 4 -> w32 (data K) a = t -> t <> 0 -> waiter_ok (ks K) t ->
  (forall m, sys R (set_mem m s) (set_data (upd32 (data K) a 0) (with_ks (wake t (ks K)) K)) ->
     Q tt (set_mem m s)) ->
  wp G (wakeup a) s Q.
Proof.
  intros Hs Hi Ht Hne Hw HQ. unfold wakeup.
  apply wp_bind. eapply wp_own_ld32; [done | done |]. rewrite Ht.
  apply wp_bind, wp_assert; [by rewrite (proj2 (Z.eqb_neq t 0) Hne) |].
  apply wp_bind. eapply wp_own_ld32; [done | done |]. rewrite Ht.
  destruct Hw as [-> | (v & Hv & Hw & Hnow)]; [done |].
  pose proof (sys_wf _ _ _ Hs) as HA. destruct (wf_queue _ HA) as [rq Hrq].
  unfold wake in HQ. rewrite (proj2 (Z.eqb_neq t 0)), Hv, Hrq in HQ by done.
  apply wp_bind. eapply wp_sys_unblock; [done .. |]. intros m Hm.
  eapply wp_own_st32; [exact Hm | done |]. intros m2 Hm2. rewrite set_mem_mem in *.
  by apply HQ.
Qed.

(** Storing a byte when there is room: the byte joins the end, and the
    waiting consumer, if any, becomes ready. *)
Lemma wp_ioq_put G s R K q cs p c b (Q : unit -> kstate M -> Prop) :
  sys R s K -> ioq K q cs p c -> Z.of_nat (length cs) < 63 -> waiter_ok (ks K) c ->
  (forall m K', sys R (set_mem m s) K' -> ioq K' q (cs ++ [u8 b]) p 0 ->
     ks K' = wake c (ks K) -> semas K' = semas K -> locks K' = locks K -> own K' = own K ->
     Q tt (set_mem m s)) ->
  wp G (do h <- ld32 (head_ q); st8 (buf q + s32 h) b;;
        do h <- ld32 (head_ q); st32 (head_ q) (next_pos (s32 h));;
        do c <- ld32 (consumer q);
        when negb (c =? 0) then wakeup (consumer q)) s Q.
Proof.
  intros Hs Hq Hlen Hw HQ. pose proof Hq as [Ho Hr]. pose proof Hr as [Hh Ht _ _ _ _ Hc].
  apply wp_bind. eapply wp_own_ld32; [done | by apply (own_word (own K) q 100) |].
  change (q + 100) with (head_ q). rewrite s32_small by lia.
  apply wp_bind. eapply wp_own_st8; [done | apply Ho; unfold span, buf; lia |]. intros m1 Hm1.
  set (g1 := upd _ _ _) in Hm1.
  assert (w32 g1 (head_ q) = w32 (data K) (head_ q)) as Hh1 by (unfold g1; offsets; by mem).
  apply wp_bind. eapply wp_own_ld32; [exact Hm1 | by apply (own_word (own K) q 100) |].
  change (q + 100) with (head_ q). cbn [data set_data]. rewrite Hh1.
  apply wp_bind. eapply wp_own_st32; [exact Hm1 | by apply (own_word (own K) q 100) |].
  change (q + 100) with (head_ q). cbn [data set_data]. intros m2 Hm2. rewrite set_mem_mem in *.
  pose proof (ring_put _ _ _ _ _ b Hr Hlen) as Hr2. fold g1 in Hr2.
  set (g2 := upd32 g1 _ _) in *.
  apply wp_bind. eapply wp_own_ld32; [exact Hm2 | by apply (own_word (own K) q 32) |].
  change (q + 32) with (consumer q). cbn [data set_data].
  rewrite (ring_consumer _ _ _ _ _ Hr2). destruct (Z.eqb_spec c 0) as [-> | Hne]; cbn [negb].
  - apply wp_ret. eapply (HQ m2 (set_data g2 (set_data g1 K))); try done.
  - eapply wp_wakeup; [exact Hm2 | by apply (own_word (own K) q 32) | | done | done |].
    { apply (ring_consumer _ _ _ _ _ Hr2). }
    intros m3 Hm3. rewrite set_mem_mem in *. eapply (HQ m3); [exact Hm3 | | done ..].
    split; [done |]. by apply ring_set_consumer with c.
Qed.

(** [ioq_putchar] when there is room. *)
Lemma wp_ioq_putchar G s R K q cs p c b (Q : unit -> kstate M -> Prop) :
  sys R s K -> ioq K q cs p c -> kif s = false -> Z.of_nat (length cs) < 63 -> waiter_ok (ks K) c ->
  (forall m K', sys R (set_mem m s) K' -> ioq K' q (cs ++ [u8 b]) p 0 ->
     ks K' = wake c (ks K) -> semas K' = semas K -> locks K' = locks K -> own K' = own K ->
     Q tt (set_mem m s)) ->
  wp G (ioq_putchar q b) s Q.
Proof.
  intros Hs Hq Hi Hlen Hw HQ.
  unfold ioq_putchar. apply wp_bind, wp_get. rewrite Hi. apply wp_bind, wp_assert; [done |].
  apply wp_bind.
  eapply (wp_while _ _ (fun _ _ s' => s' = s) _ 0%nat); [| done | bounded].
  intros n x s' ->. unfold putchar_wait. apply wp_bind. eapply wp_ioq_full; [done .. |].
  rewrite (proj2 (Z.eqb_neq _ 63)) by lia. apply wp_ret.
  eapply wp_ioq_put; [done .. |]. exact HQ.
Qed.

Lemma wp_ioq_get {A} G s R K q b cs p c (e : Z -> cmd (kstate M) A) (Q : A -> kstate M -> Prop) :
  sys R s K -> ioq K q (b :: cs) p c -> waiter_ok (ks K) p ->
  (forall m K', sys R (set_mem m s) K' -> ioq K' q cs 0 c ->
     ks K' = wake p (ks K) -> semas K' = semas K -> locks K' = locks K -> own K' = own K ->
     is_u8 b -> wp G (e b) (set_mem m s) Q) ->
  wp G (do t <- ld32 (tail_ q); do byte <- ld8 (buf q + s32 t);
        do t <- ld32 (tail_ q); st32 (tail_ q) (next_pos (s32 t));;
        do p <- ld32 (producer q);
        (when negb (p =? 0) then wakeup (producer q));;
        e byte) s Q.
Proof.
  intros Hs Hq Hw HQ. pose proof Hq as [Ho Hr]. pose proof Hr as [Hh Ht _ _ _ Hp _].
  destruct (ring_get _ _ _ _ _ _ Hr) as [Hb Hr2].
  apply wp_bind. eapply wp_own_ld32; [done | by apply (own_word (own K) q 104) |].
  change (q + 104) with (tail_ q). rewrite (s32_small (w32 _ _)) by lia.
  apply wp_bind. eapply wp_own_ld8; [done | apply Ho; unfold span, buf; lia |]. rewrite Hb. intros Hbu.
  apply wp_bind. eapply wp_own_ld32; [done | by apply (own_word (own K) q 104) |].
  change (q + 104) with (tail_ q).
  apply wp_bind. eapply wp_own_st32; [done | by apply (own_word (own K) q 104) |]. intros m2 Hm2.
  change (q + 104) with (tail_ q) in Hm2. set (g2 := upd32 _ _ _) in *.
  apply wp_bind. eapply wp_own_ld32; [exact Hm2 | by apply (own_word (own K) q 28) |].
  change (q + 28) with (producer q). cbn [data set_data].
  rewrite (ring_producer _ _ _ _ _ Hr2). destruct (Z.eqb_spec p 0) as [-> | Hne]; cbn [negb].
  - apply wp_bind, wp_ret. eapply (HQ m2 (set_data g2 K)); try done.
  - apply wp_bind.
    eapply wp_wakeup; [exact Hm2 | by apply (own_word (own K) q 28) | | done | done |].
    { apply (ring_producer _ _ _ _ _ Hr2). }
    intros m3 Hm3. rewrite set_mem_mem in *. eapply (HQ m3); [exact Hm3 | | done ..].
    split; [done |]. by apply ring_set_producer with p.
Qed.

(** A reader of the empty queue takes the lock, leaves its address in
    [consumer] and hands over the processor, blocked. *)
Lemma getchar_wait_then s R K A' v q p h n (Phi : outcome (kstate M) (unit + unit) -> Prop) :
  sys R s K -> ioq K q [] p 0 -> kif s = false -> lock_ready K (ioq_lock q) h n ->
  tasks (ks K) !! cur (ks K) = Some v -> sched_next (blocked TASK_BLOCKED v (ks K)) = Some A' ->
  (forall s' k K', sys R s' K' -> kif s' = false -> ioq K' q [] p (cur (ks K)) -> ks K' = A' ->
     locks K' !! q = Some (cur (ks K), lock_count K h n) ->
     (forall s0, kif s0 = false -> k s0 = (lock_release (ioq_lock q);; cret (inl tt)) s0) ->
     Phi (Yield s' k)) ->
  Phi (getchar_wait q s).
Proof.
  intros Hs Hq Hi Hl Hv Hn HPhi. pose proof Hq as [Ho Hr]. unfold getchar_wait.
  apply seq_then. eapply wp_ioq_empty; [done .. |]. rewrite bool_decide_true by done.
  apply seq_then. eapply wp_lock_ready; [done .. |].
  intros m1 K1 Hm1 Hk1 Hd1 Ho1 Hl1 _. unfold cbind at 1. unfold ioq_wait.
  set (Phi1 := fun o : outcome (kstate M) unit => Phi (obind o (fun _ => lock_release (ioq_lock q);; cret (inl tt)))).
  match goal with |- Phi (obind (?c ?s) _) => change (Phi1 (c s)) end.
  assert (ring (data K1) q [] p 0) as Hr1 by (by rewrite Hd1).
  assert (inside (own K1) (q + 28) 80) as Ho2 by (by rewrite Ho1).
  assert (inside (own K1) (consumer q) 4) as Hc by (by apply (own_word (own K1) q 32)).
  apply seq_then. eapply wp_own_ld32; [exact Hm1 | done |]. rewrite (ring_consumer _ _ _ _ _ Hr1).
  pose proof (backs_inside_u32 _ _ _ _ _ (sys_backs _ _ _ Hs) Ho ltac:(lia)) as Hqr.
  apply seq_then, wp_assert; [by rewrite (proj2 (Z.eqb_neq (consumer q) 0)) by (unfold consumer; lia) |].
  apply seq_then, wp_running_thread. rewrite (sys_esp _ _ _ Hm1). change (page_of _) with (cur (ks K1)).
  apply seq_then. eapply wp_own_st32; [exact Hm1 | done |]. intros m2 Hm2. rewrite set_mem_mem in *.
  eapply (sys_block_then _ R _ A' v); [exact Hm2 | by cbn; rewrite Hk1 | done | by cbn; rewrite Hk1 |].
  intros m k Hm Hk. unfold Phi1. cbn [obind].
  assert (is_u32 (cur (ks K1))) as Hcu by (apply page_of_u32, (sys_wf _ _ _ Hm1)).
  eapply HPhi; [exact Hm | done | | done | | ].
  - split; [by cbn; rewrite Ho1 |]. cbn. rewrite <- Hk1. by apply ring_set_consumer with 0.
  - done.
  - intros s0 Hi0. rewrite Hk. cbn [obind kif set_mem].
    assert (set_if (kif s) s0 = s0) as -> by (unfold set_if; by rewrite Hi, <- Hi0). done.
Qed.
(** The reader finds a byte. *)
Lemma wp_ioq_getchar G s R K q b cs p c (Q : Z -> kstate M -> Prop) :
  sys R s K -> ioq K q (b :: cs) p c -> kif s = false -> waiter_ok (ks K) p ->
  (forall m K', sys R (set_mem m s) K' -> ioq K' q cs 0 c ->
     ks K' = wake p (ks K) -> semas K' = semas K -> locks K' = locks K -> own K' = own K -> is_u8 b -> Q (s8 b) (set_mem m s)) ->
  wp G (ioq_getchar q) s Q.
Proof.
  intros Hs Hq Hi Hw HQ. unfold ioq_getchar. apply wp_bind, wp_get. rewrite Hi. apply wp_bind, wp_assert; [done |].
  apply wp_bind.
  eapply (wp_while _ _ (fun _ _ s' => s' = s) _ 0%nat); [| done | bounded].
  intros n x s' ->. unfold getchar_wait. apply wp_bind. eapply wp_ioq_empty; [done .. |].
  rewrite bool_decide_false by done. apply wp_ret.
  eapply wp_ioq_get; [done .. |]. intros m K' Hm Hq' Hk Hse Hl Ho Hu. apply wp_ret.
  by apply (HQ m K').
Qed.

End rules.

(** ** Properties *)

Section properties.
Context {M : Type} {RM : RawMem M} {RL : RawMemLaws M} {LY : Layout}.

(** C29. [ioq_putchar] on a queue that is not full: the byte joins the end, nothing
    else in the queue changes, a waiting reader becomes ready, and the call
    returns at once. *)
Theorem ioq_putchar_appends (s : kstate M) R K q cs p c b :
  sys R s K -> ioq K q cs p c -> kif s = false -> Z.of_nat (length cs) < 63 -> waiter_ok (ks K) c ->
  exists m K', ioq_putchar q b s = Done tt (set_mem m s) /\ sys R (set_mem m s) K' /\
    ioq K' q (cs ++ [u8 b]) p 0 /\ ks K' = wake c (ks K) /\ semas K' = semas K /\ locks K' = locks K.
Proof.
  intros Hs Hq Hi Hlen Hw.
  destruct (proj1 (wp_seq_only (ioq_putchar q b) s (fun _ s' => exists m K', s' = set_mem m s /\
    sys R s' K' /\ ioq K' q (cs ++ [u8 b]) p 0 /\ ks K' = wake c (ks K) /\
    semas K' = semas K /\ locks K' = locks K))) as ([] & s' & Hd & m & K' & -> & Hr);
    [| by exists m, K'].
  eapply wp_ioq_putchar; [done .. |]. intros m K' Hm Hq' Hk Hse Hl _. by exists m, K'.
Qed.

(** C30. [ioq_getchar] on a queue that is not empty returns the oldest byte, as a
    signed char, and removes it; a waiting writer becomes ready. *)
Theorem ioq_getchar_removes (s : kstate M) R K q b cs p c :
  sys R s K -> ioq K q (b :: cs) p c -> kif s = false -> waiter_ok (ks K) p ->
  exists m K', ioq_getchar q s = Done (s8 b) (set_mem m s) /\ sys R (set_mem m s) K' /\
    ioq K' q cs 0 c /\ ks K' = wake p (ks K) /\ semas K' = semas K /\ locks K' = locks K.
Proof.
  intros Hs Hq Hi Hw.
  destruct (proj1 (wp_seq_only (ioq_getchar q) s (fun r s' => r = s8 b /\ exists m K', s' = set_mem m s /\
    sys R s' K' /\ ioq K' q cs 0 c /\ ks K' = wake p (ks K) /\
    semas K' = semas K /\ locks K' = locks K))) as (r & s' & Hd & -> & m & K' & -> & Hr);
    [| by exists m, K'].
  eapply wp_ioq_getchar; [done .. |]. intros m K' Hm Hq' Hk Hse Hl _ _. split; [done |]. by exists m, K'.
Qed.

(** [ioq_getchar] on an empty queue: the reader takes the queue's lock, is
    left in [consumer] and blocked, and the next ready thread runs.  Resumed
    when there is a byte it counts the lock down and returns that byte. *)
Theorem ioq_getchar_waits (s : kstate M) R K A' v q p h n s0 K0 b cs p0 c0 :
  sys R s K -> ioq K q [] p 0 -> kif s = false -> lock_ready K (ioq_lock q) h n ->
  tasks (ks K) !! cur (ks K) = Some v -> sched_next (blocked TASK_BLOCKED v (ks K)) = Some A' ->
  sys R s0 K0 -> kif s0 = false -> cur (ks K0) = cur (ks K) -> ioq K0 q (b :: cs) p0 c0 ->
  waiter_ok (ks K0) p0 -> 0 <= n -> locks K0 !! q = Some (cur (ks K), lock_count K h n) ->
  exists s' k K', ioq_getchar q s = Yield s' k /\ sys R s' K' /\ ks K' = A' /\
    ioq K' q [] p (cur (ks K)) /\
    exists m K1, k s0 = Done (s8 b) (set_mem m s0) /\ sys R (set_mem m s0) K1 /\
      ioq K1 q cs 0 c0 /\ ks K1 = wake p0 (ks K0) /\
      locks K1 !! q = Some (cur (ks K), lock_count K h n - 1).
Proof.
  intros Hs Hq Hi Hl Hv Hn Hs0 Hi0 Hc0 Hq0 Hw0 Hn0 Hl0.
  set (Q1 := fun s1 => exists m K1, s1 = set_mem m s0 /\ sys R s1 K1 /\ ioq K1 q cs 0 c0 /\
    ks K1 = wake p0 (ks K0) /\ locks K1 !! q = Some (cur (ks K), lock_count K h n - 1)).
  pose (G := mk_protocol (fun s' : kstate M => exists K', sys R s' K' /\ ks K' = A' /\
    ioq K' q [] p (cur (ks K))) (fun _ s' => s' = s0) (fun _ _ => False) (fun _ => False)).
  assert (0 < lock_count K h n) as Hcnt by (unfold lock_count; case_match; lia).
  assert (wpn False G 1 (ioq_getchar q) s (fun n r s' => n = 0%nat /\ r = s8 b /\ Q1 s')) as Hw.
  { unfold ioq_getchar. apply wpn_bind, wpn_seq, wp_get. rewrite Hi.
    apply wpn_bind, wpn_seq, wp_assert; [done |]. apply wpn_bind.
    set (K2 := set_lock q (cur (ks K)) (lock_count K h n - 1) K0).
    assert (ioq K2 q (b :: cs) p0 c0) as Hq2 by (by destruct Hq0).
    eapply wpn_mono.
    - apply (wpn_while _ _ _ (fun n _ s' => (n = 1%nat /\ s' = s) \/
          (n = 0%nat /\ exists m, s' = set_mem m s0 /\ sys R s' K2))
        (fun n _ s' => n = 0%nat /\ exists m, s' = set_mem m s0 /\ sys R s' K2)); [| by left | bounded].
      intros n1 _ s1 [[-> ->] | (-> & m & -> & Hm)].
      + unfold wpn. eapply getchar_wait_then; try done.
        intros s' k K' Hs' _ Hq' Hk' _ Hk. split; [by exists K' |].
        intros s2 ->. rewrite Hk by done. apply wpn_bind, wpn_seq.
        eapply wp_unlock_counts; [done | by rewrite Hc0 | done |]. intros m Hm.
        apply wpn_seq, wp_ret. rewrite Hc0 in Hm. split; [lia |]. right. split; [done |]. by exists m.
      + apply wpn_seq. unfold getchar_wait. apply wp_bind.
        eapply (wp_ioq_empty _ _ _ K2); [done | exact Hq2 | done |].
        rewrite bool_decide_false by done. apply wp_ret. split; [done |]. by exists m.
    - intros n1 [] s1 (-> & m & -> & Hm). apply wpn_seq.
      eapply (wp_ioq_get _ _ _ K2); [exact Hm | exact Hq2 | exact Hw0 |].
      intros m2 K3 Hm2 Hq3 Hk3 _ Hl3 _ _. apply wp_ret. split; [done |]. split; [done |].
      exists m2, K3. rewrite set_mem_mem in *. split; [done |]. split; [done |]. split; [done |].
      split; [done |]. rewrite Hl3. apply lookup_insert_eq. }
  unfold wpn in Hw. destruct (ioq_getchar q s) as [a s1 | s1 k | e s1 | s1 | s1]; cbn in Hw; try tauto.
  - destruct Hw as [Hw _]. done.
  - destruct Hw as [(K' & H1 & H2 & H3) Hk]. specialize (Hk s0 eq_refl).
    destruct (k s0) as [r s2 | | | |] eqn:Hks; cbn in Hk; try tauto.
    destruct Hk as (_ & -> & m & K1 & -> & Hr). exists s1, k, K'.
    split; [done |]. split; [done |]. split; [done |]. split; [done |].
    exists m, K1. by rewrite Hks.
Qed.
End properties.

(** The keyboard buffer with the bytes [cs] (at positions 3 and 4), a running
    thread, a ready one and one blocked, which may be the waiting reader. *)
Module examples.
#[local] Existing Instance demo_layout.
Import Thread.examples.
Definition q : Z := 0xc0008060.
Definition qs : qmap := [(thread_ready_list, [t2]); (q + 8, [])].
Definition ss : smap := [(q + 4, 1)].
Definition ls : lmap := [(q, (0, 0))].
Definition mem (h p c : Z) : flat :=
  flat_of (sched_words qs ts ++ [(q, 0); (q + 4, 1); (q + 24, 0); (producer q, p); (consumer q, c);
    (buf q, 97 * 2 ^ 24); (buf q + 4, 98); (head_ q, h); (tail_ q, 3)]).
Definition st (h p c : Z) : kstate flat := machine_of (mem h p c).
Definition K (h p c : Z) : ksys :=
  with_own (span (q + 28) 80) (flat_at (mem h p c)) (ksys_of (sched_of 0xc009eff0 qs ts) ss ls).

Lemma ioq_st_sys h p c : sys_repb (flat_at (mem h p c)) qs ts ss ls = true -> sys is_u32 (st h p c) (K h p c).
Proof.
  intros Hr. split.
  - exists (flat_at (mem h p c)). split; [apply flat_backs |]. apply ownb_spec; [done | by vm_compute].
  - done.
  - apply wfb_spec. by vm_compute.
  - exists v1. split; by vm_compute.
Qed.

Definition ringb (g : Z -> Z) (cs : list Z) (p c : Z) : bool :=
  (0 <=? w32 g (head_ q)) && (w32 g (head_ q) <? 64) &&
  (0 <=? w32 g (tail_ q)) && (w32 g (tail_ q) <? 64) &&
  (w32 g (head_ q) =? (w32 g (tail_ q) + Z.of_nat (length cs)) mod 64) &&
  (Z.of_nat (length cs) <=? 63) &&
  forallb (fun i => match cs !! i with
    | Some v => g (buf q + (w32 g (tail_ q) + Z.of_nat i) mod 64) =? v | None => true end)
    (seq 0 (length cs)) &&
  (w32 g (producer q) =? p) && (w32 g (consumer q) =? c).

Lemma ringb_spec g cs p c : ringb g cs p c = true -> ring g q cs p c.
Proof.
  unfold ringb. rewrite !andb_true_iff.
  intros [[[[[[[[H1 H2] H3] H4] H5] H6] H7] H8] H9]. split; try lia.
  intros i v Hi. pose proof (lookup_lt_Some _ _ _ Hi) as Hlen.
  rewrite forallb_forall in H7. specialize (H7 i ltac:(apply in_seq; lia)). rewrite Hi in H7. lia.
Qed.

Lemma two_sys : sys is_u32 (st 5 0 t3) (K 5 0 t3).
Proof. apply ioq_st_sys. by vm_compute. Qed.
Lemma two_ioq : ioq (K 5 0 t3) q [97; 98] 0 t3.
Proof. split; [intros a Ha; exact Ha |]. apply ringb_spec. by vm_compute. Qed.
Lemma none_sys : sys is_u32 (st 3 0 0) (K 3 0 0).
Proof. apply ioq_st_sys. by vm_compute. Qed.
Lemma none_ioq : ioq (K 3 0 0) q [] 0 0.
Proof. split; [intros a Ha; exact Ha |]. apply ringb_spec. by vm_compute. Qed.

Lemma t3_waits h p c : waiter_ok (ks (K h p c)) t3.
Proof.
  right. exists v3. split; [by vm_compute |]. split; [done |].
  intros l ts' Hl%elem_of_list_to_map_2 Hin.
  unfold qs in Hl. rewrite !elem_of_cons, elem_of_nil in Hl.
  destruct Hl as [[= -> ->] | [[= -> ->] | []]].
  - by apply list_elem_of_singleton in Hin.
  - by apply elem_of_nil in Hin.
Qed.

Lemma ioq_putchar_appends_witness : exists m K', ioq_putchar q 99 (st 5 0 t3) = Done tt (set_mem m (st 5 0 t3)) /\
  ioq K' q [97; 98; 99] 0 0 /\ ks K' = wake t3 (ks (K 5 0 t3)).
Proof.
  destruct (ioq_putchar_appends (st 5 0 t3) is_u32 (K 5 0 t3) q [97; 98] 0 t3 99 two_sys two_ioq
    eq_refl ltac:(cbn; lia) (t3_waits _ _ _)) as (m & K' & H1 & _ & H2 & H3 & _).
  exists m, K'. split; [exact H1 |]. split; [exact H2 | exact H3].
Defined.

Lemma ioq_getchar_removes_witness : exists m K', ioq_getchar q (st 5 0 t3) = Done 97 (set_mem m (st 5 0 t3)) /\
  ioq K' q [98] 0 t3.
Proof.
  destruct (ioq_getchar_removes (st 5 0 t3) is_u32 (K 5 0 t3) q 97 [98] 0 t3 two_sys two_ioq
    eq_refl (or_introl eq_refl)) as (m & K' & H1 & _ & H2 & _).
  exists m, K'. split; [exact H1 | exact H2].
Defined.

(** A state in which the reader goes on: a byte has arrived, and the lock is
    the reader's. *)
Definition ls1 : lmap := [(q, (t1, 1))].
Definition mem1 : flat :=
  flat_of (sched_words qs ts ++ [(q, t1); (q + 4, 0); (q + 24, 1); (producer q, 0); (consumer q, 0);
    (buf q, 97 * 2 ^ 24); (head_ q, 4); (tail_ q, 3)]).
Definition st1 : kstate flat := machine_of mem1.
Definition K1 : ksys :=
  with_own (span (q + 28) 80) (flat_at mem1) (ksys_of (sched_of 0xc009eff0 qs ts) [(q + 4, 0)] ls1).

Lemma one_sys : sys is_u32 st1 K1.
Proof.
  split.
  - exists (flat_at mem1). split; [apply flat_backs |]. apply ownb_spec; by vm_compute.
  - done.
  - apply wfb_spec. by vm_compute.
  - exists v1. split; by vm_compute.
Qed.

Lemma ioq_getchar_waits_witness : exists A' s' k m, ioq_getchar q (st 3 0 0) = Yield s' k /\
  sched_next (blocked TASK_BLOCKED v1 (ks (K 3 0 0))) = Some A' /\
  k st1 = Done 97 (set_mem m st1).
Proof.
  destruct (sched_next (blocked TASK_BLOCKED v1 (ks (K 3 0 0)))) as [A' |] eqn:Hn; [| by vm_compute in Hn].
  unshelve epose proof (ioq_getchar_waits (st 3 0 0) is_u32 (K 3 0 0) A' v1 q 0 0 0 st1 K1 97 [] 0 0
    none_sys none_ioq eq_refl _ _ Hn one_sys eq_refl eq_refl _ (or_introl eq_refl) _ eq_refl)
    as (s' & k & K' & H1 & _ & _ & _ & m & K2 & H2 & _).
  - split; [done |]. split; [lia |]. right. done.
  - by vm_compute.
  - split; [intros a Ha; exact Ha |]. apply ringb_spec. by vm_compute.
  - lia.
  - exists A', s', k, m. split; [exact H1 |]. split; [done | exact H2].
Defined.
End examples.
