(* ===== verification/Global.v ===== *)
(** kernel/global.h: the constants of the descriptor tables, and how the
    processor decodes gates and segment descriptors. *)

From S2P Require Import Prelude Monad RawMem Machine.

(** ** Constants, bit by bit as the macros have them *)

Definition GDT_BASE : Z := 0x900.

Definition DESC_G_4K : Z := 1.
Definition DESC_D_32 : Z := 1.
Definition DESC_L : Z := 0.
Definition DESC_AVL : Z := 0.
Definition DESC_P : Z := 1.
Definition DESC_DPL_0 : Z := 0.
Definition DESC_DPL_3 : Z := 3.
Definition DESC_S_CODE : Z := 1.
Definition DESC_S_DATA : Z := DESC_S_CODE.
Definition DESC_S_SYS : Z := 0.
Definition DESC_TYPE_CODE : Z := 8.
Definition DESC_TYPE_DATA : Z := 2.
Definition DESC_TYPE_TSS : Z := 9.

Definition lor3 (a b c : Z) : Z := Z.lor (Z.lor a b) c.
Definition lor4 (a b c d : Z) : Z := Z.lor (lor3 a b c) d.

Definition selector_of (index ti rpl : Z) : Z := lor3 (Z.shiftl index 3) (Z.shiftl ti 2) rpl.
Definition SELECTOR_K_CODE : Z := selector_of 1 0 0.
Definition SELECTOR_K_DATA : Z := selector_of 2 0 0.
Definition SELECTOR_K_STACK : Z := SELECTOR_K_DATA.
Definition SELECTOR_K_GS : Z := selector_of 3 0 0.
Definition SELECTOR_TSS : Z := selector_of 4 0 0.
Definition SELECTOR_U_CODE : Z := selector_of 5 0 3.
Definition SELECTOR_U_DATA : Z := selector_of 6 0 3.
Definition SELECTOR_U_STACK : Z := SELECTOR_U_DATA.

(** The C operators [||] and [|]: the left operand here is a disjunction. *)
Definition GDT_ATTR_HIGH : Z :=
  Z.b2z (negb (Z.lor (Z.shiftl DESC_G_4K 7) (Z.shiftl DESC_D_32 6) =? 0) ||
         negb (Z.lor (Z.shiftl DESC_L 5) (Z.shiftl DESC_AVL 4) =? 0)).
Definition GDT_CODE_ATTR_LOW_DPL3 : Z :=
  lor4 (Z.shiftl DESC_P 7) (Z.shiftl DESC_DPL_3 5) (Z.shiftl DESC_S_CODE 4) DESC_TYPE_CODE.
Definition GDT_DATA_ATTR_LOW_DPL3 : Z :=
  lor4 (Z.shiftl DESC_P 7) (Z.shiftl DESC_DPL_3 5) (Z.shiftl DESC_S_DATA 4) DESC_TYPE_DATA.

Definition IDT_DESC_P : Z := 1.
Definition IDT_DESC_DPL0 : Z := 0.
Definition IDT_DESC_DPL3 : Z := 3.
Definition IDT_DESC_32_TYPE : Z := 0xE.
Definition IDT_DESC_ATTR_DPL0 : Z :=
  lor3 (Z.shiftl IDT_DESC_P 7) (Z.shiftl IDT_DESC_DPL0 5) IDT_DESC_32_TYPE.
Definition IDT_DESC_ATTR_DPL3 : Z :=
  lor3 (Z.shiftl IDT_DESC_P 7) (Z.shiftl IDT_DESC_DPL3 5) IDT_DESC_32_TYPE.

Definition TSS_DESC_D : Z := 0.
Definition TSS_ATTR_HIGH : Z :=
  Z.lor (lor4 (Z.shiftl DESC_G_4K 7) (Z.shiftl TSS_DESC_D 6) (Z.shiftl DESC_L 5) (Z.shiftl DESC_AVL 4)) 0.
Definition TSS_ATTR_LOW : Z :=
  lor4 (Z.shiftl DESC_P 7) (Z.shiftl DESC_DPL_0 5) (Z.shiftl DESC_S_SYS 4) DESC_TYPE_TSS.

Definition EFLAGS_MBS : Z := Z.shiftl 1 1.
Definition EFLAGS_IF_1 : Z := Z.shiftl 1 9.
Definition EFLAGS_IOPL_0 : Z := Z.shiftl 0 12.

Definition PAGE1 : Z := 4096.
Definition PG_SIZE : Z := 4096.
Definition DIV_ROUND_UP (x step : Z) : Z := (x + step - 1) / step.

(** struct gdt_desc. *)
Record gdt_desc := mk_gdt_desc {
  limit_low_word : Z; base_low_word : Z; base_mid_byte : Z;
  attr_low_byte : Z; limit_high_attr_high : Z; base_high_byte : Z }.

(** ** How the processor reads them (Intel SDM volume 3, 3.4.5 and 6.11) *)

Record segment := mk_segment {
  seg_base : Z; seg_limit : Z; seg_type : Z; seg_s : bool; seg_dpl : Z;
  seg_present : bool; seg_db : bool; seg_granular : bool }.

Definition segment_of (d : gdt_desc) : segment := {|
  seg_base := base_low_word d + 2 ^ 16 * base_mid_byte d + 2 ^ 24 * base_high_byte d;
  seg_limit := limit_low_word d + 2 ^ 16 * (limit_high_attr_high d mod 16);
  seg_type := attr_low_byte d mod 16;
  seg_s := Z.testbit (attr_low_byte d) 4;
  seg_dpl := attr_low_byte d / 32 mod 4;
  seg_present := Z.testbit (attr_low_byte d) 7;
  seg_db := Z.testbit (limit_high_attr_high d) 6;
  seg_granular := Z.testbit (limit_high_attr_high d) 7 |}.

(** The bytes of a segment a descriptor covers: the last offset. *)
Definition seg_last (g : segment) : Z :=
  if seg_granular g then seg_limit g * 4096 + 4095 else seg_limit g.

(** The descriptor at [a] in memory. *)
Definition gdt_desc_at (f : Z -> Z) (a : Z) : gdt_desc :=
  mk_gdt_desc (w16 f a) (w16 f (a + 2)) (f (a + 4)) (f (a + 5)) (f (a + 6)) (f (a + 7)).

Record gate := mk_gate {
  gate_offset : Z; gate_selector : Z; gate_type : Z; gate_dpl : Z; gate_present : bool }.

Definition gate_at (f : Z -> Z) (a : Z) : gate := {|
  gate_offset := w16 f a + 2 ^ 16 * w16 f (a + 6);
  gate_selector := w16 f (a + 2);
  gate_type := f (a + 5) mod 16;
  gate_dpl := f (a + 5) / 32 mod 4;
  gate_present := Z.testbit (f (a + 5)) 7 |}.

(** The operand of lidt and lgdt: a 16-bit limit and a 32-bit base. *)
Definition table_limit (operand : Z) : Z := operand mod 2 ^ 16.
Definition table_base (operand : Z) : Z := operand / 2 ^ 16 mod 2 ^ 32.
