(* ===== verification/Interrupt.v ===== *)
(** kernel/interrupt.c: the interrupt controller, the interrupt descriptor
    table and the table of handlers.  (The interrupt flag is in Machine.v.) *)

From S2P Require Import Prelude Monad RawMem Machine Global.

Definition PIC_M_CTRL : Z := 0x20.
Definition PIC_M_DATA : Z := 0x21.
Definition PIC_S_CTRL : Z := 0xa0.
Definition PIC_S_DATA : Z := 0xa1.
Definition IDT_DESC_CNT : Z := 0x81.

Section code.
Context {M : Type} {RM : RawMem M} {LY : Layout}.

Definition pic_init : K (M := M) unit :=
  outb PIC_M_CTRL 0x11;; outb PIC_M_DATA 0x20;; outb PIC_M_DATA 0x04;; outb PIC_M_DATA 0x01;;
  outb PIC_S_CTRL 0x11;; outb PIC_S_DATA 0x28;; outb PIC_S_DATA 0x02;; outb PIC_S_DATA 0x01;;
  outb PIC_M_DATA 0xf8;; outb PIC_S_DATA 0xbf;;
  put_lit ("pic_init done" ++ nl).

(** struct gate_desc: low offset at 0, selector at 2, dcount at 4, attribute
    at 5, high offset at 6. *)
Definition make_idt_desc (p_gdesc attr function : Z) : K (M := M) unit :=
  st16 p_gdesc (Z.land function 0xffff);;
  st16 (p_gdesc + 6) (Z.land (Z.shiftr function 16) 0xffff);;
  st16 (p_gdesc + 2) SELECTOR_K_CODE;;
  st8 (p_gdesc + 4) 0;;
  st8 (p_gdesc + 5) attr.

Definition idt_desc_init : K (M := M) unit :=
  let lastindex := IDT_DESC_CNT - 1 in
  while_ (fun i =>
    if i <? IDT_DESC_CNT then
      do entry <- ld32 (intr_entry_table + 4 * i);
      make_idt_desc (idt + 8 * i) IDT_DESC_ATTR_DPL0 entry;; cret (inl (i + 1))
    else cret (inr tt)) 0;;
  st32 (intr_entry_table + 4 * lastindex) (fn "syscall_handler");;
  do entry <- ld32 (intr_entry_table + 4 * lastindex);
  make_idt_desc (idt + 8 * lastindex) IDT_DESC_ATTR_DPL3 entry;;
  put_lit ("idt_desc_init done" ++ nl).

(** set_cursor of lib/kernel/print.S, as the bytes it sends. *)
Definition set_cursor (pos : Z) : K (M := M) unit :=
  outb 0x3d4 0x0e;; outb 0x3d5 (u8 (Z.shiftr pos 8));;
  outb 0x3d4 0x0f;; outb 0x3d5 (u8 pos).

(** It returns for the two spurious vectors only; [cr2] is what the processor
    left in that register. *)
Definition general_intr_handler (cr2 vec_nr : Z) : K (M := M) unit :=
  if (0x27 =? vec_nr) || (0x2f =? vec_nr) then cret tt
  else
    while_ (fun cursor_pos =>
      if cursor_pos <? 320 then put_char (chr " "%char);; cret (inl (cursor_pos + 1))
      else cret (inr tt)) 0;;
    set_cursor 0;;
    put_lit ("!!!!!! exception message begin !!!!!!" ++ nl);;
    set_cursor 88;;
    do name <- ld32 (intr_name + 4 * vec_nr); put_str name;;
    put_char 10;;
    (when 14 =? vec_nr then
      put_lit (nl ++ "page fault addr is ");; put_int cr2);;
    put_lit "int vector: 0x";;
    put_int vec_nr;;
    put_char 10;;
    put_lit ("!!!!!! exception message end !!!!!!" ++ nl);;
    hang.

Definition exception_names : list (Z * string) := [
  (0, "#DE Divide Error");
  (1, "#DB Debug Exception");
  (2, "NMI Interrupt");
  (3, "#BP Breakpoint Exception");
  (4, "#OF Overflow Exception");
  (5, "#BR BOUND Range Exceeded Exception");
  (6, "#UD Invalid Opcode Exception");
  (7, "#NM Device Not Avaliable Exception");
  (8, "#DF Double Fault Exception");
  (9, "Coprocessor Segment Overrun");
  (10, "#TS Invalid TSS Exception");
  (11, "#NP Segment Not Present");
  (12, "#SS Stack Fault Exception");
  (13, "#GP General Protection Exception");
  (14, "#PF Page-Fault Exception");
  (16, "#MF x87 FPU Floating-Point Error");
  (17, "#AC Alignment Check Exception");
  (18, "#MC Machine-Check Exception");
  (19, "#XF SIMD Floating-Point Exception") ]%string.

(** The assignments [intr_name[k] = "..."], in order. *)
Fixpoint set_names (names : list (Z * string)) : K (M := M) unit :=
  match names with
  | [] => cret tt
  | (k, name) :: names' => st32 (intr_name + 4 * k) (lit name);; set_names names'
  end.

Definition exception_init : K (M := M) unit :=
  while_ (fun i =>
    if i <? IDT_DESC_CNT then
      st32 (idt_table + 4 * i) (fn "general_intr_handler");;
      st32 (intr_name + 4 * i) (lit "unknown");; cret (inl (i + 1))
    else cret (inr tt)) 0;;
  set_names exception_names.

(** The operand of lidt: the shift is done in 32 bits. *)
Definition idt_operand : Z :=
  Z.lor (8 * IDT_DESC_CNT - 1) (u32 (Z.shiftl idt 16)).

Definition idt_init : K (M := M) unit :=
  put_lit ("idt_init start" ++ nl);;
  idt_desc_init;; exception_init;; pic_init;;
  load_table IDTR idt_operand;;
  put_lit ("idt_init done" ++ nl).

Definition register_handler (vector_no function : Z) : K (M := M) unit :=
  st32 (idt_table + 4 * u8 vector_no) function.
End code.

(** ** What the routines leave in memory *)

(** An interrupt gate for [function]. *)
Definition int_gate (function dpl : Z) : gate := mk_gate function SELECTOR_K_CODE 14 dpl true.

(** Where the handler and the name of a vector are. *)
Section addresses.
Context {LY : Layout}.
Definition handler_addr (i : Z) : Z := idt_table + 4 * i.
Definition name_addr (i : Z) : Z := intr_name + 4 * i.
Definition in_names (a : Z) : Prop := span intr_name (4 * IDT_DESC_CNT) a.
Definition in_handlers (a : Z) : Prop := span idt_table (4 * IDT_DESC_CNT) a.
End addresses.

Ltac tables := unfold handler_addr, name_addr, in_names, in_handlers, span, IDT_DESC_CNT in *.

Section rules.
Context {M : Type} {RM : RawMem M} {RL : RawMemLaws M} {LY : Layout}.
Implicit Types (s : kstate M) (R : Z -> Prop) (f : Z -> Z) (G : protocol (kstate M)).

(** [make_idt_desc] builds the gate the processor will read as [function]. *)
Lemma wp_make_idt_desc G s R f p attr function (Q : unit -> kstate M -> Prop) :
  backs (kmem s) R f -> inside R p 8 -> is_u32 function -> is_u8 attr ->
  (forall m f', backs m R f' ->
     gate_at f' p = mk_gate function SELECTOR_K_CODE (attr mod 16) (attr / 32 mod 4) (Z.testbit attr 7) ->
     (forall a, ~ span p 8 a -> f' a = f a) -> Q tt (set_mem m s)) ->
  wp G (make_idt_desc p attr function) s Q.
Proof.
  intros Hb Hi Hf Ha HQ. unfold make_idt_desc.
  apply wp_bind. eapply wp_st16; [done | region |]. intros m1 H1.
  apply wp_bind. eapply wp_st16; [exact H1 | region |]. intros m2 H2.
  apply wp_bind. eapply wp_st16; [exact H2 | region |]. intros m3 H3.
  apply wp_bind. eapply wp_st8; [exact H3 | region |]. intros m4 H4.
  eapply wp_st8; [exact H4 | region |]. intros m5 H5.
  eapply HQ; [exact H5 | |].
  - unfold gate_at. rewrite !land_ffff, shiftr_div, (u8_small attr) by (done || lia). f_equal; mem.
    + rewrite ?w16_upd16_eq by zlia. unfold is_u32 in Hf. zlia.
    + by rewrite ?w16_upd16_eq.
    + done.
    + done.
    + done.
  - intros a Hs. unfold span in Hs.
    assert (a < p \/ p + 8 <= a) as Hout by lia. by mem.
Qed.

Definition gate_addr (i : Z) : Z := idt + 8 * i.
Definition entry_addr (i : Z) : Z := intr_entry_table + 4 * i.

(** Where the tables are: in memory, apart from each other. *)
Record idt_space R : Prop := mk_idt_space {
  is_idt : inside R idt (8 * IDT_DESC_CNT);
  is_entries : inside R intr_entry_table (4 * IDT_DESC_CNT);
  is_apart : idt + 8 * IDT_DESC_CNT <= intr_entry_table \/
             intr_entry_table + 4 * IDT_DESC_CNT <= idt }.

Definition in_idt (a : Z) : Prop := span idt (8 * IDT_DESC_CNT) a.

Lemma gate_at_ext f f' a : (forall b, span a 8 b -> f' b = f b) -> gate_at f' a = gate_at f a.
Proof.
  intros Hf. unfold gate_at, span in *.
  assert (forall b, a <= b -> b + 2 <= a + 8 -> w16 f' b = w16 f b) as Hw.
  { intros b H1 H2. apply w16_ext. intros c Hc. apply Hf. unfold span in Hc. lia. }
  by rewrite !Hw, (Hf (a + 5)) by lia.
Qed.

Lemma wp_idt_desc_init G s R f (Q : unit -> kstate M -> Prop) :
  backs (kmem s) R f -> idt_space R -> is_u32 (fn "syscall_handler") ->
  (forall m f', backs m R f' ->
     (forall i, 0 <= i < 0x80 -> gate_at f' (gate_addr i) = int_gate (w32 f (entry_addr i)) 0) ->
     gate_at f' (gate_addr 0x80) = int_gate (fn "syscall_handler") 3 ->
     w32 f' (entry_addr 0x80) = fn "syscall_handler" ->
     (forall a, ~ in_idt a -> ~ span (entry_addr 0x80) 4 a -> f' a = f a) ->
     Q tt (put_out (rev (bytes_of ("idt_desc_init done" ++ nl))) (set_mem m s))) ->
  wp G idt_desc_init s Q.
Proof.
  intros Hb [Hi He Hap] Hsys HQ. unfold IDT_DESC_CNT in *. unfold idt_desc_init.
  set (I := fun (n : nat) (i : Z) (s' : kstate M) => exists m f', s' = set_mem m s /\ backs m R f' /\
    0 <= i <= 0x81 /\ Z.of_nat n = 0x81 - i /\
    (forall j, 0 <= j < i -> gate_at f' (gate_addr j) = int_gate (w32 f (entry_addr j)) 0) /\
    (forall a, ~ in_idt a -> f' a = f a)).
  apply wp_bind. eapply (wp_while _ _ I _ 0x81%nat); [| | bounded].
  - intros n i s' (m & f' & -> & Hm & Hir & Hn & Hg & Ho). unfold IDT_DESC_CNT.
    destruct (Z.ltb_spec i 0x81) as [Hlt | Hge].
    + apply wp_bind. eapply wp_ld32; [exact Hm | region |]. intros Hu.
      assert (w32 f' (intr_entry_table + 4 * i) = w32 f (entry_addr i)) as Heq.
      { apply w32_ext. intros b Hbb. apply Ho. unfold in_idt, entry_addr, span, IDT_DESC_CNT in *. lia. }
      rewrite Heq in *. apply wp_bind.
      eapply wp_make_idt_desc; [exact Hm | region | done | done |].
      intros m2 f2 Hm2 Hg2 Ho2. apply wp_ret. exists (Z.to_nat (0x81 - (i + 1))).
      split; [lia |]. exists m2, f2. split; [done |]. split; [done |]. split; [lia |].
      split; [lia |]. split.
      * intros j Hj. destruct (Z.eq_dec j i) as [-> | Hne]; [exact Hg2 |].
        rewrite (gate_at_ext f' f2); [apply Hg; lia |]. intros b Hbb. apply Ho2.
        unfold gate_addr, span in *. lia.
      * intros a Ha. rewrite Ho2; [by apply Ho |]. unfold in_idt, span, IDT_DESC_CNT in *. lia.
    + assert (i = 0x81) as -> by lia. apply wp_ret.
      apply wp_bind. eapply wp_st32; [exact Hm | region |]. intros m2 Hm2.
      apply wp_bind. eapply wp_ld32; [exact Hm2 | region |]. intros _. mem.
      apply wp_bind. eapply wp_make_idt_desc; [exact Hm2 | region | done | done |].
      intros m3 f3 Hm3 Hg3 Ho3. apply wp_modify. apply (HQ m3 f3); [done | | exact Hg3 | |].
      * intros j Hj. rewrite (gate_at_ext f' f3); [apply Hg; lia |]. intros b Hbb.
        unfold gate_addr, span in *. rewrite Ho3 by lia. apply upd32_ne. lia.
      * rewrite <- (w32_upd32_eq f' (entry_addr 0x80) (fn "syscall_handler")) by done.
        apply w32_ext. intros b Hbb. apply Ho3. unfold entry_addr, span in *. lia.
      * intros a Ha1 Ha2. unfold in_idt, entry_addr, span, IDT_DESC_CNT in *.
        rewrite Ho3 by lia. rewrite upd32_ne by lia. apply Ho. unfold in_idt, span, IDT_DESC_CNT. lia.
  - exists (kmem s), f. split; [done |]. split; [done |]. split; [lia |]. split; [lia |].
    split; [lia | done].
Qed.

(** The tables of handlers and of exception names. *)
Record handler_space R : Prop := mk_handler_space {
  hs_handlers : inside R idt_table (4 * IDT_DESC_CNT);
  hs_names : inside R intr_name (4 * IDT_DESC_CNT);
  hs_apart : idt_table + 4 * IDT_DESC_CNT <= intr_name \/ intr_name + 4 * IDT_DESC_CNT <= idt_table }.

(** The name of a vector: the one assigned last. *)
Fixpoint name_of (names : list (Z * string)) (i : Z) (d : string) : string :=
  match names with
  | [] => d
  | (k, name) :: names' => name_of names' i (if k =? i then name else d)
  end.

Lemma wp_set_names G s R f names (d : Z -> string) (Q : unit -> kstate M -> Prop) :
  backs (kmem s) R f -> handler_space R -> (forall t, is_u32 (lit t)) ->
  Forall (fun kn => 0 <= kn.1 < 0x81) names ->
  (forall i, 0 <= i < 0x81 -> w32 f (name_addr i) = lit (d i)) ->
  (forall m f', backs m R f' ->
     (forall i, 0 <= i < 0x81 -> w32 f' (name_addr i) = lit (name_of names i (d i))) ->
     (forall a, ~ in_names a -> f' a = f a) -> Q tt (set_mem m s)) ->
  wp G (set_names names) s Q.
Proof.
  intros Hb Hsp Hlit Hnames. revert s f d Hb. induction Hnames as [| [k name] names Hk _ IH];
    intros s f d Hb Hd HQ; cbn [set_names].
  - apply wp_ret. by apply (HQ (kmem s) f).
  - cbn [fst] in Hk. pose proof (hs_names _ Hsp) as Hi. tables. apply wp_bind.
    eapply wp_st32; [done | region |]. intros m1 Hm1.
    eapply (IH _ _ (fun i => if k =? i then name else d i)); [exact Hm1 | |].
    + intros i Hir. destruct (Z.eqb_spec k i) as [-> | Hne]; [by apply w32_upd32_eq |].
      rewrite w32_upd32_ne by lia. by apply Hd.
    + intros m2 f2 Hm2 Hn2 Ho2. apply (HQ m2 f2); [done | exact Hn2 |].
      intros a Ha. rewrite Ho2 by done. apply upd32_ne. lia.
Qed.

Lemma wp_exception_init G s R f (Q : unit -> kstate M -> Prop) :
  backs (kmem s) R f -> handler_space R -> (forall t, is_u32 (lit t)) ->
  is_u32 (fn "general_intr_handler") ->
  (forall m f', backs m R f' ->
     (forall i, 0 <= i < 0x81 -> w32 f' (handler_addr i) = fn "general_intr_handler" /\
        w32 f' (name_addr i) = lit (name_of exception_names i "unknown")) ->
     (forall a, ~ in_names a -> ~ in_handlers a -> f' a = f a) -> Q tt (set_mem m s)) ->
  wp G exception_init s Q.
Proof.
  intros Hb Hsp Hlit Hfn HQ. pose proof Hsp as [Hh Hn Hap]. unfold exception_init.
  set (I := fun (n : nat) (i : Z) (s' : kstate M) => exists m f', s' = set_mem m s /\ backs m R f' /\
    0 <= i <= 0x81 /\ Z.of_nat n = 0x81 - i /\
    (forall j, 0 <= j < i -> w32 f' (handler_addr j) = fn "general_intr_handler" /\
       w32 f' (name_addr j) = lit "unknown") /\
    (forall a, ~ in_names a -> ~ in_handlers a -> f' a = f a)).
  tables. apply wp_bind. eapply (wp_while _ _ I _ 0x81%nat); [| | bounded].
  - intros n i s' (m & f' & -> & Hm & Hir & Hni & Hg & Ho). unfold IDT_DESC_CNT. tables.
    destruct (Z.ltb_spec i 0x81) as [Hlt | Hge].
    + apply wp_bind. eapply wp_st32; [exact Hm | region |]. intros m1 Hm1.
      apply wp_bind. eapply wp_st32; [exact Hm1 | region |]. intros m2 Hm2.
      apply wp_ret. exists (Z.to_nat (0x81 - (i + 1))). split; [lia |].
      eexists m2, _. split; [done |]. split; [exact Hm2 |]. split; [lia |]. split; [lia |]. tables. split.
      * intros j Hj. destruct (Z.eq_dec j i) as [-> | Hne].
        -- rewrite w32_upd32_ne by lia. rewrite !w32_upd32_eq by done. done.
        -- rewrite !w32_upd32_ne by lia. apply Hg. lia.
      * intros a Ha1 Ha2. rewrite !upd32_ne by lia. by apply Ho.
    + assert (i = 0x81) as -> by lia. apply wp_ret.
      eapply (wp_set_names G _ R f' exception_names (fun _ => "unknown"%string)); [exact Hm | done | done | | |].
      * repeat (constructor; [cbn; lia |]). constructor.
      * intros i Hi. by apply Hg.
      * intros m2 f2 Hm2 Hn2 Ho2. apply (HQ m2 f2); [done | |].
        -- intros i Hi. split; [| by apply Hn2]. rewrite <- (proj1 (Hg i Hi)). tables.
           apply w32_ext. intros b Hbb. apply Ho2. unfold span in *. lia.
        -- intros a Ha1 Ha2. tables. rewrite Ho2 by done. by apply Ho.
  - exists (kmem s), f. tables. split; [done |]. split; [done |]. split; [lia |]. split; [lia |].
    split; [lia | done].
Qed.
End rules.

(** ** [idt_init] *)

Section init.
Context {M : Type} {RM : RawMem M} {RL : RawMemLaws M} {LY : Layout}.

(** The four tables, apart from each other. *)
Record tables_space (R : Z -> Prop) : Prop := mk_tables_space {
  ts_idt : idt_space R;
  ts_handlers : handler_space R;
  ts_apart : forall a, in_idt a \/ span (entry_addr 0x80) 4 a -> in_names a \/ in_handlers a -> False }.

(** What the interrupt controllers are sent: the vectors 0x20 and 0x28, the
    cascade on line 2, and the lines that stay masked. *)
Definition pic_words : list (Z * Z) :=
  [(PIC_M_CTRL, 0x11); (PIC_M_DATA, 0x20); (PIC_M_DATA, 4); (PIC_M_DATA, 1);
   (PIC_S_CTRL, 0x11); (PIC_S_DATA, 0x28); (PIC_S_DATA, 2); (PIC_S_DATA, 1);
   (PIC_M_DATA, 0xf8); (PIC_S_DATA, 0xbf)].

(** What it leaves in memory; [f] is what was there. *)
Record tables_ready (f f' : Z -> Z) : Prop := mk_tables_ready {
  tr_gate i : 0 <= i < 0x80 -> gate_at f' (gate_addr i) = int_gate (w32 f (entry_addr i)) 0;
  tr_syscall : gate_at f' (gate_addr 0x80) = int_gate (fn "syscall_handler") 3;
  tr_handler i : 0 <= i < 0x81 -> w32 f' (handler_addr i) = fn "general_intr_handler" /\
    w32 f' (name_addr i) = lit (name_of exception_names i "unknown") }.

(** The bytes of the interrupt tables. *)
Definition table_bytes (b : Z) : Prop := in_idt b \/ span (entry_addr 0x80) 4 b \/ in_names b \/ in_handlers b.

Lemma wp_idt_init G (s : kstate M) R f (Q : unit -> kstate M -> Prop) :
  backs (kmem s) R f -> tables_space R -> (forall t, is_u32 (lit t)) -> (forall t, is_u32 (fn t)) ->
  (forall s' f', backs (kmem s') R f' -> tables_ready f f' -> (forall b, ~ table_bytes b -> f' b = f b) ->
     grew s s' (rev pic_words) [(IDTR, idt_operand)] -> Q tt s') ->
  wp G idt_init s Q.
Proof.
  intros Hb [Hsp Hsh Hap] Hlit Hfn HQ. unfold idt_init. apply wp_bind, wp_modify, wp_bind.
  eapply wp_idt_desc_init; [exact Hb | done | done |]. intros m1 f1 Hm1 Hg1 Hs1 He1 Ho1.
  apply wp_bind. eapply wp_exception_init; [exact Hm1 | done .. |]. intros m2 f2 Hm2 Ht2 Ho2.
  apply wp_bind. unfold pic_init. do 10 (apply wp_bind, wp_modify). apply wp_modify, wp_bind, wp_modify, wp_modify.
  assert (forall i, 0 <= i <= 0x80 -> gate_at f2 (gate_addr i) = gate_at f1 (gate_addr i)) as Hge.
  { intros i Hi. apply gate_at_ext. intros b Hbb.
    assert (in_idt b) by (unfold in_idt, gate_addr, span, IDT_DESC_CNT in *; lia).
    apply Ho2; intros Hc; apply (Hap b); auto. }
  eapply HQ; [exact Hm2 | | | done].
  - split; [intros i Hi; rewrite Hge by lia; by apply Hg1 | by rewrite Hge by lia | exact Ht2].
  - intros b Hbb. unfold table_bytes in Hbb. rewrite Ho2, Ho1 by tauto. done.
Qed.

Lemma wp_register_handler G (s : kstate M) R f v function (Q : unit -> kstate M -> Prop) :
  backs (kmem s) R f -> inside R (handler_addr v) 4 -> is_u8 v -> is_u32 function ->
  (forall m f', backs m R f' -> w32 f' (handler_addr v) = function ->
     (forall b, ~ span (handler_addr v) 4 b -> f' b = f b) -> Q tt (set_mem m s)) ->
  wp G (register_handler v function) s Q.
Proof.
  intros Hb Hi Hv Hf HQ. unfold register_handler. rewrite u8_small by done.
  eapply wp_st32; [exact Hb | exact Hi |]. intros m Hm. apply (HQ m _ Hm).
  - by apply w32_upd32_eq.
  - intros b Hbb. apply upd32_ne. tables. lia.
Qed.
End init.

(** ** Properties *)

Section properties.
Context {M : Type} {RM : RawMem M} {RL : RawMemLaws M} {LY : Layout}.

(** [idt_init] returns with: a kernel gate for every vector below 0x80 to the
    entry of the assembly table, a user-callable gate for 0x80 to
    [syscall_handler], the general handler and the right name for every vector,
    the controllers programmed, and the table register loaded. *)
Theorem idt_init_installs (s : kstate M) R f :
  backs (kmem s) R f -> tables_space R -> (forall t, is_u32 (lit t)) -> (forall t, is_u32 (fn t)) ->
  exists s' f', idt_init s = Done tt s' /\ backs (kmem s') R f' /\
    (forall i, 0 <= i < 0x80 -> gate_at f' (gate_addr i) = int_gate (w32 f (entry_addr i)) 0) /\
    gate_at f' (gate_addr 0x80) = int_gate (fn "syscall_handler") 3 /\
    (forall i, 0 <= i < 0x81 -> w32 f' (handler_addr i) = fn "general_intr_handler" /\
       w32 f' (name_addr i) = lit (name_of exception_names i "unknown")) /\
    kports s' = rev pic_words ++ kports s /\ ktab s' = (IDTR, idt_operand) :: ktab s /\ kif s' = kif s.
Proof.
  intros Hb Hsp Hlit Hfn.
  destruct (proj1 (wp_seq_only idt_init s (fun _ s' => exists f', backs (kmem s') R f' /\ tables_ready f f' /\
    grew s s' (rev pic_words) [(IDTR, idt_operand)]))) as ([] & s' & Hd & f' & Hm & [H1 H2 H3] & [G1 _ _ _ G2 G3]).
  { eapply wp_idt_init; try done. intros s' f' Hm Ht _ Hg. by exists f'. }
  exists s', f'. done.
Qed.

(** The operand given to lidt: the limit is right, but the base keeps only
    the low 16 bits of the table's address. *)
Theorem idt_operand_truncated : is_u32 idt ->
  table_limit idt_operand = 8 * IDT_DESC_CNT - 1 /\ table_base idt_operand = idt mod 2 ^ 16.
Proof.
  intros Hi. unfold idt_operand, table_limit, table_base, IDT_DESC_CNT.
  assert (u32 (Z.shiftl idt 16) = idt mod 2 ^ 16 * 2 ^ 16) as ->.
  { unfold u32. rewrite Z.shiftl_mul_pow2 by lia. zlia. }
  rewrite lor_disjoint by lia.
  split; zlia.
Qed.

(** [register_handler] replaces the entry of its vector and nothing else. *)
Theorem register_handler_replaces (s : kstate M) R f v function :
  backs (kmem s) R f -> handler_space R -> 0 <= v < 0x81 -> is_u32 function ->
  exists f', runs_to (register_handler v function) s tt R f' /\
    w32 f' (handler_addr v) = function /\
    (forall i, 0 <= i < 0x81 -> i <> v -> w32 f' (handler_addr i) = w32 f (handler_addr i)) /\
    (forall a, ~ span (handler_addr v) 4 a -> f' a = f a).
Proof.
  intros Hb Hsp Hv Hf. pose proof (hs_handlers _ Hsp) as Hi. tables.
  exists (upd32 f (handler_addr v) function). split; [| split; [| split]].
  - apply runs_to_wp. intros Q HQ. unfold register_handler. rewrite u8_small by (unfold is_u8; lia).
    eapply wp_st32; [done | region | exact HQ].
  - by apply w32_upd32_eq.
  - intros i Hir Hne. apply w32_upd32_ne. tables. lia.
  - intros a Ha. apply upd32_ne. tables. lia.
Qed.
End properties.

Module examples.
#[local] Existing Instance demo_layout.
Definition f0 : Z -> Z := flat_at ∅.
Definition st : kstate flat := machine_of ∅.

Lemma tables_ok : tables_space is_u32.
Proof.
  split; [split | split |].
  1, 2, 4, 5: intros a Ha; unfold span, is_u32, IDT_DESC_CNT in *; cbn in *; lia.
  1, 2: unfold IDT_DESC_CNT; cbn; lia.
  intros a. unfold in_idt, in_names, in_handlers, entry_addr, span, IDT_DESC_CNT. cbn. lia.
Qed.

Lemma idt_init_installs_witness : exists s' f', idt_init st = Done tt s' /\ backs (kmem s') is_u32 f' /\
  gate_at f' (gate_addr 0x80) = int_gate 0xc0001000 3.
Proof.
  destruct (idt_init_installs st is_u32 f0 (flat_backs ∅) tables_ok (fun _ => ltac:(done)) (fun _ => ltac:(done)))
    as (s' & f' & H1 & H2 & _ & H3 & _).
  exists s', f'. split; [exact H1 |]. split; [exact H2 | exact H3].
Defined.

Lemma idt_operand_truncated_witness : idt = 0xc0008200 /\ table_base idt_operand = 0x8200.
Proof. split; [done |]. apply (idt_operand_truncated (LY := demo_layout)). done. Defined.

Lemma register_handler_replaces_witness : exists f',
  runs_to (register_handler 0x21 0xc0001234) st tt is_u32 f' /\ w32 f' (handler_addr 0x21) = 0xc0001234.
Proof.
  destruct (register_handler_replaces st is_u32 f0 0x21 0xc0001234 (flat_backs ∅)
    (ts_handlers _ tables_ok) ltac:(lia) ltac:(done)) as (f' & H1 & H2 & _).
  exists f'. split; [exact H1 | exact H2].
Defined.
End examples.
