(* ===== verification/Screen.v ===== *)
(** lib/kernel/print.S: what [put_char] and [set_cursor] do to the text screen.
    The other files keep the characters that were sent; here they become the
    cells of the video memory and the cursor of the controller. *)

From S2P Require Import Prelude Monad RawMem Machine CString.

(** The bytes of the video segment, by offset, and the two cursor registers of
    the controller. *)
Record screen := mk_screen { vram : Z -> Z; crt_hi : Z; crt_lo : Z }.

(** The last offset of the segment (VIDEO_DESC of boot/loader.S: eight pages).
    A store beyond it is a general protection fault, [None] here. *)
Definition video_limit : Z := 0x7fff.
Definition store_gs (off v : Z) (m : Z -> Z) : option (Z -> Z) :=
  if off <=? video_limit then Some (upd m off v) else None.

(** rep movsd, upwards, in the flat segment. *)
Definition movsd (esi edi : Z) (m : Z -> Z) : Z -> Z :=
  fun b => if (edi <=? b) && (b <? edi + 4) then m (esi + (b - edi)) else m b.
Fixpoint rep_movsd (ecx : nat) (esi edi : Z) (m : Z -> Z) : Z -> Z :=
  match ecx with O => m | S ecx => rep_movsd ecx (esi + 4) (edi + 4) (movsd esi edi m) end.

(** .cls: blanks from [ebx] on. *)
Fixpoint cls (ecx : nat) (ebx : Z) (m : Z -> Z) : option (Z -> Z) :=
  match ecx with
  | O => Some m
  | S ecx => m ← store_gs ebx 0x20 m; m ← store_gs (ebx + 1) 0x07 m; cls ecx (ebx + 2) m
  end.

(** .set_cursor, and the function of that name *)
Definition set_crt (bx : Z) (m : Z -> Z) : screen := mk_screen m (u8 (Z.shiftr bx 8)) (u8 bx).
Definition set_cursor_at (pos : Z) (s : screen) : screen := set_crt (u16 pos) (vram s).

(** .roll_screen: the offsets are those of 0xc00b80a0 and 0xc00b8000. *)
Definition roll_screen (m : Z -> Z) : option screen :=
  m ← cls 80 3840 (rep_movsd 960 0xa0 0 m); Some (set_crt 1920 m).

(** .is_line_feed: to the start of the line, and one line down. *)
Definition line_feed (bx : Z) (m : Z -> Z) : option screen :=
  let dx := bx mod 80 in
  let bx := u16 (bx - dx) in let bx := u16 (bx + 80) in
  if s16 bx <? 2000 then Some (set_crt bx m) else roll_screen m.

Definition backspace (bx : Z) (m : Z -> Z) : option screen :=
  let bx := u16 (bx - 1) in let bx := u16 (Z.shiftl bx 1) in
  m ← store_gs bx 0x20 m; let bx := u16 (bx + 1) in
  m ← store_gs bx 0x07 m; let bx := Z.shiftr bx 1 in
  Some (set_crt bx m).

Definition put_other (cl bx : Z) (m : Z -> Z) : option screen :=
  let bx := u16 (Z.shiftl bx 1) in
  m ← store_gs bx cl m; let bx := u16 (bx + 1) in
  m ← store_gs bx 0x07 m; let bx := Z.shiftr bx 1 in let bx := u16 (bx + 1) in
  if s16 bx <? 2000 then Some (set_crt bx m) else line_feed bx m.

Definition put_char_at (c : Z) (s : screen) : option screen :=
  let cl := u8 c in let bx := Z.lor (Z.shiftl (crt_hi s) 8) (crt_lo s) in
  if (cl =? 0xd) || (cl =? 0xa) then line_feed bx (vram s)
  else if cl =? 0x8 then backspace bx (vram s) else put_other cl bx (vram s).

(** The screen after a sequence of characters. *)
Fixpoint put_chars (l : list Z) (s : screen) : option screen :=
  match l with [] => Some s | c :: l => s ← put_char_at c s; put_chars l s end.

(** ** The terminal

    25 lines of 80 cells, one after the other; a cell is the character and 256
    times its attribute.  The position is below 2000. *)
Record terminal := mk_terminal { cells : list Z; pos : Z }.

Definition width : Z := 80.
Definition cells_nr : Z := 2000.
Definition glyph (c : Z) : Z := c + 0x700.
Definition blank : Z := glyph 0x20.

(** The text moves up one line, a blank one comes in at the bottom. *)
Definition scroll (l : list Z) : list Z := drop 80 l ++ replicate 80 blank.

Definition term_newline (t : terminal) : terminal :=
  let p := width * (pos t / width + 1) in
  if p <? cells_nr then mk_terminal (cells t) p else mk_terminal (scroll (cells t)) (cells_nr - width).

Definition term_glyph (c : Z) (t : terminal) : terminal :=
  let t' := mk_terminal (<[Z.to_nat (pos t) := glyph c]> (cells t)) (pos t) in
  if pos t + 1 <? cells_nr then mk_terminal (cells t') (pos t + 1) else term_newline t'.

Definition term_rubout (t : terminal) : option terminal :=
  if pos t =? 0 then None
  else Some (mk_terminal (<[Z.to_nat (pos t - 1) := blank]> (cells t)) (pos t - 1)).

Definition term_put (c : Z) (t : terminal) : option terminal :=
  if (c =? 0xd) || (c =? 0xa) then Some (term_newline t)
  else if c =? 0x8 then term_rubout t else Some (term_glyph c t).

Fixpoint term_puts (l : list Z) (t : terminal) : option terminal :=
  match l with [] => Some t | c :: l => t ← term_put c t; term_puts l t end.

(** The screen shows the terminal's cells, and its cursor is there. *)
Record shows (s : screen) (t : terminal) : Prop := mk_shows {
  sh_len : len (cells t) = cells_nr;
  sh_cell i c : cells t !! i = Some c ->
    vram s (2 * Z.of_nat i) = c mod 256 /\ vram s (2 * Z.of_nat i + 1) = c / 256;
  sh_pos : 0 <= pos t < cells_nr;
  sh_hi : crt_hi s = pos t / 256;
  sh_lo : crt_lo s = pos t mod 256 }.

(** Bytes beyond the cells stay. *)
Definition beyond (m m' : Z -> Z) : Prop := forall b, b < 0 \/ 2 * cells_nr <= b -> m' b = m b.

Lemma shows_cursor s t : shows s t -> Z.lor (Z.shiftl (crt_hi s) 8) (crt_lo s) = pos t.
Proof.
  intros [_ _ Hp -> ->]. rewrite Z.shiftl_mul_pow2 by lia. rewrite (lor_disjoint' _ _ 8) by zlia. zlia.
Qed.

Lemma shows_set_crt m l p : len l = cells_nr ->
  (forall i c, l !! i = Some c -> m (2 * Z.of_nat i) = c mod 256 /\ m (2 * Z.of_nat i + 1) = c / 256) ->
  0 <= p < cells_nr -> shows (set_crt p m) (mk_terminal l p).
Proof.
  intros Hl Hc Hp. unfold cells_nr in *. split; cbn [cells pos vram crt_hi crt_lo set_crt]; try done.
  - rewrite shiftr_div by lia. apply u8_small. unfold is_u8. change (2 ^ 8) with 256. zlia.
Qed.

(** One cell is written. *)
Lemma store_cell s t i c : shows s t -> (i < Z.to_nat cells_nr)%nat -> is_u8 c ->
  exists m, (m ← store_gs (2 * Z.of_nat i) c (vram s); store_gs (2 * Z.of_nat i + 1) 0x07 m) = Some m /\
    beyond (vram s) m /\
    (forall j w, <[i := glyph c]> (cells t) !! j = Some w ->
       m (2 * Z.of_nat j) = w mod 256 /\ m (2 * Z.of_nat j + 1) = w / 256).
Proof.
  intros [Hl Hc _ _ _] Hi Hu. unfold cells_nr in *. unfold store_gs, video_limit.
  rewrite !(proj2 (Z.leb_le _ _)) by lia. cbn [mbind option_bind]. eexists. split; [done |]. split.
  - intros b Hb. unfold cells_nr in *. by rewrite !upd_ne by lia.
  - intros j w. rewrite list_lookup_insert_Some. intros [(<- & <- & _) | (Hne & Hj)].
    + rewrite upd_ne, !upd_eq by lia. unfold glyph, is_u8 in *. zlia.
    + rewrite !upd_ne by lia. by apply Hc.
Qed.

(** ** Rolling *)

Lemma rep_movsd_eq n : forall esi edi m, edi + 4 <= esi ->
  forall b, rep_movsd n esi edi m b =
    if decide (edi <= b < edi + 4 * Z.of_nat n) then m (esi + (b - edi)) else m b.
Proof.
  induction n as [| n IH]; intros esi edi m Hle b; cbn [rep_movsd].
  - rewrite decide_False by lia. done.
  - rewrite IH by lia. unfold movsd. repeat case_decide; try lia.
    + destruct (Z.leb_spec edi (esi + 4 + (b - (edi + 4)))), (Z.ltb_spec (esi + 4 + (b - (edi + 4))) (edi + 4));
        cbn [andb]; try lia; f_equal; lia.
    + destruct (Z.leb_spec edi b), (Z.ltb_spec b (edi + 4)); cbn [andb]; try lia; done.
    + destruct (Z.leb_spec edi b), (Z.ltb_spec b (edi + 4)); cbn [andb]; try lia; done.
Qed.

Lemma cls_eq n : forall ebx m, 0 <= ebx -> ebx + 2 * Z.of_nat n <= video_limit + 1 ->
  exists m', cls n ebx m = Some m' /\
    (forall b, ~ span ebx (2 * Z.of_nat n) b -> m' b = m b) /\
    forall i, 0 <= i < Z.of_nat n -> m' (ebx + 2 * i) = 0x20 /\ m' (ebx + 2 * i + 1) = 0x07.
Proof.
  unfold video_limit. induction n as [| n IH]; intros ebx m H0 Hle; cbn [cls].
  - exists m. split; [done |]. split; [done | lia].
  - unfold store_gs at 1 2, video_limit. rewrite !(proj2 (Z.leb_le _ _)) by lia. cbn [mbind option_bind].
    destruct (IH (ebx + 2) (upd (upd m ebx 0x20) (ebx + 1) 0x07)) as (m' & Hm & Ho & Hi); [lia | lia |].
    exists m'. split; [exact Hm |]. unfold span in *. split.
    + intros b Hb. rewrite Ho by lia. by rewrite !upd_ne by lia.
    + intros i Hir. destruct (Z.eq_dec i 0) as [-> | Hne].
      * rewrite Z.mul_0_r, Z.add_0_r, !Ho by lia. rewrite upd_ne, !upd_eq by lia. done.
      * specialize (Hi (i - 1) ltac:(lia)). by replace (ebx + 2 + 2 * (i - 1)) with (ebx + 2 * i) in Hi by lia.
Qed.

Lemma roll_shows l m : len l = cells_nr ->
  (forall i c, l !! i = Some c -> m (2 * Z.of_nat i) = c mod 256 /\ m (2 * Z.of_nat i + 1) = c / 256) ->
  exists s', roll_screen m = Some s' /\ shows s' (mk_terminal (scroll l) (cells_nr - width)) /\ beyond m (vram s').
Proof.
  intros Hl Hc. unfold roll_screen. set (m1 := rep_movsd 960 0xa0 0 m).
  assert (forall b, m1 b = if decide (0 <= b < 3840) then m (160 + b) else m b) as H1.
  { intros b. unfold m1. rewrite (rep_movsd_eq 960 0xa0 0 m) by lia.
    replace (0 + 4 * Z.of_nat 960) with 3840 by lia. repeat case_decide; try lia; f_equal; lia. }
  destruct (cls_eq 80 3840 m1) as (m2 & -> & Ho & Hb); [lia | unfold video_limit; lia |].
  cbn [mbind option_bind]. eexists. split; [done |]. unfold cells_nr, width, span, len in *. split.
  - change 1920 with (2000 - 80). apply shows_set_crt; unfold cells_nr, len; [| | lia].
    + unfold scroll. rewrite length_app, length_drop, length_replicate. lia.
    + intros i c Hi. unfold scroll in Hi. apply lookup_app_Some in Hi as [Hi | [Hle Hi]].
      * rewrite lookup_drop in Hi. pose proof (lookup_lt_Some _ _ _ Hi).
        destruct (Hc _ _ Hi) as [He Ho']. rewrite !Ho, !H1 by lia. rewrite !decide_True by lia.
        rewrite <- He, <- Ho'. split; f_equal; lia.
      * rewrite length_drop in Hle, Hi. apply lookup_replicate in Hi as [-> Hi].
        destruct (Hb (Z.of_nat i - 1920) ltac:(lia)) as [H2 H3].
        replace (3840 + 2 * (Z.of_nat i - 1920)) with (2 * Z.of_nat i) in H2, H3 by lia. rewrite H2, H3. done.
  - intros b Hbb. unfold cells_nr in *. cbn [vram set_crt]. rewrite Ho, H1 by lia. by rewrite decide_False by lia.
Qed.

(** ** The characters *)

Lemma s16_small x : 0 <= x < 2 ^ 15 -> s16 x = x.
Proof. unfold s16. zlia. Qed.

Lemma line_feed_shows l p m : len l = cells_nr ->
  (forall i c, l !! i = Some c -> m (2 * Z.of_nat i) = c mod 256 /\ m (2 * Z.of_nat i + 1) = c / 256) ->
  0 <= p <= cells_nr -> exists s', line_feed p m = Some s' /\
    (let q := width * (p / width + 1) in
     shows s' (if q <? cells_nr then mk_terminal l q else mk_terminal (scroll l) (cells_nr - width))) /\
    beyond m (vram s').
Proof.
  intros Hl Hc Hp. cbv zeta. unfold line_feed, cells_nr, width in *.
  assert (p - p mod 80 = 80 * (p / 80)) as -> by zlia.
  unfold u16. rewrite !(Z.mod_small _ (2 ^ 16)) by zlia. rewrite s16_small by zlia.
  replace (80 * (p / 80) + 80) with (80 * (p / 80 + 1)) by lia.
  destruct (Z.ltb_spec (80 * (p / 80 + 1)) 2000); [| by apply roll_shows].
  eexists. split; [done |]. split; [| done]. apply shows_set_crt; unfold cells_nr; [done | done | zlia].
Qed.

Lemma backspace_shows s t : shows s t ->
  match term_rubout t with
  | Some t' => exists s', backspace (pos t) (vram s) = Some s' /\ shows s' t' /\ beyond (vram s) (vram s')
  | None => backspace (pos t) (vram s) = None
  end.
Proof.
  intros Hs. pose proof Hs as [Hl Hc Hp _ _]. unfold term_rubout, backspace, cells_nr in *.
  destruct (Z.eqb_spec (pos t) 0) as [-> | Hne]; [by vm_compute |].
  set (i := Z.to_nat (pos t - 1)). destruct (store_cell s t i 0x20 Hs) as (m & Hst & Hb & Hm);
    [unfold i, cells_nr; lia | done |].
  rewrite !(Z.shiftl_mul_pow2 _ 1), !(shiftr_div _ 1) by lia. unfold u16. change (2 ^ 1) with 2.
  rewrite !(Z.mod_small _ (2 ^ 16)) by (rewrite ?Z.mod_small; zlia).
  replace ((pos t - 1) * 2) with (2 * Z.of_nat i) in * by lia.
  destruct (store_gs (2 * Z.of_nat i) 0x20 (vram s)) as [m1 |]; [| done]. cbn [mbind option_bind] in Hst |- *.
  rewrite Hst. cbn [mbind option_bind]. replace ((2 * Z.of_nat i + 1) / 2) with (pos t - 1) by zlia.
  eexists. split; [done |]. split; [| exact Hb]. apply shows_set_crt; unfold cells_nr; [| exact Hm | lia].
  unfold len in *. by rewrite length_insert.
Qed.

Lemma put_other_shows s t c : shows s t -> is_u8 c ->
  exists s', put_other c (pos t) (vram s) = Some s' /\ shows s' (term_glyph c t) /\ beyond (vram s) (vram s').
Proof.
  intros Hs Hu. pose proof Hs as [Hl Hc Hp _ _]. unfold term_glyph, put_other, cells_nr in *. cbv zeta.
  set (i := Z.to_nat (pos t)). destruct (store_cell s t i c Hs) as (m & Hst & Hb & Hm);
    [unfold i, cells_nr; lia | done |].
  rewrite !(Z.shiftl_mul_pow2 _ 1), !(shiftr_div _ 1) by lia. unfold u16. change (2 ^ 1) with 2.
  rewrite !(Z.mod_small (pos t * 2)) by lia. replace (pos t * 2) with (2 * Z.of_nat i) in * by lia.
  rewrite !(Z.mod_small (2 * Z.of_nat i + 1)) by lia.
  destruct (store_gs (2 * Z.of_nat i) c (vram s)) as [m1 |]; [| done]. cbn [mbind option_bind] in Hst |- *.
  rewrite Hst. cbn [mbind option_bind]. replace ((2 * Z.of_nat i + 1) / 2) with (pos t) by zlia.
  rewrite Z.mod_small, s16_small by lia.
  assert (len (<[i := glyph c]> (cells t)) = cells_nr) as Hl' by (unfold len, cells_nr in *; by rewrite length_insert).
  destruct (Z.ltb_spec (pos t + 1) 2000).
  - eexists. split; [done |]. split; [| exact Hb]. apply shows_set_crt; unfold cells_nr; [done | exact Hm | lia].
  - assert (pos t + 1 = 2000) as -> by lia.
    destruct (line_feed_shows _ 2000 m Hl' Hm) as (s' & H1 & H2 & H3); [unfold cells_nr; lia |].
    exists s'. split; [exact H1 |]. split.
    + unfold term_newline, cells_nr, width in *. cbn [cells pos].
      destruct (Z.ltb_spec (80 * (pos t / 80 + 1)) 2000); [zlia | exact H2].
    + intros b Hbb. by rewrite H3, Hb.
Qed.

(** Every character. *)
Lemma put_char_shows s t c : shows s t ->
  match term_put (u8 c) t with
  | Some t' => exists s', put_char_at c s = Some s' /\ shows s' t' /\ beyond (vram s) (vram s')
  | None => pos t = 0 /\ put_char_at c s = None
  end.
Proof.
  intros Hs. unfold put_char_at, term_put. rewrite (shows_cursor s t Hs). cbv zeta.
  pose proof Hs as [Hl Hc Hp _ _]. destruct ((u8 c =? 0xd) || (u8 c =? 0xa)).
  - destruct (line_feed_shows (cells t) (pos t) (vram s) Hl Hc ltac:(lia)) as (s' & H1 & H2 & H3).
    exists s'. split; [exact H1 |]. split; [exact H2 | exact H3].
  - destruct (u8 c =? 8); [| apply put_other_shows; [done | apply u8_range]].
    pose proof (backspace_shows s t Hs) as Hbs. unfold term_rubout in *.
    destruct (Z.eqb_spec (pos t) 0); [done | exact Hbs].
Qed.

(** Plain characters that fit on the rest of the screen. *)
Definition plain (c : Z) : Prop := is_u8 c /\ c <> 0x8 /\ c <> 0xa /\ c <> 0xd.
Definition typeset (l : list Z) (t : terminal) : terminal :=
  mk_terminal (take (Z.to_nat (pos t)) (cells t) ++ map glyph l ++
    drop (Z.to_nat (pos t) + length l) (cells t)) (pos t + len l).

Lemma typeset_glyph c l t : 0 <= pos t -> pos t + 1 < cells_nr -> len (cells t) = cells_nr ->
  typeset l (term_glyph c t) = typeset (c :: l) t.
Proof.
  intros H0 Hp Hl. unfold term_glyph, typeset, len, cells_nr in *. cbn [cells pos].
  rewrite (proj2 (Z.ltb_lt _ _)) by lia. cbn [cells pos length map]. f_equal; [| lia].
  set (i := Z.to_nat (pos t)). replace (Z.to_nat (pos t + 1)) with (S i) by lia.
  rewrite drop_insert_lt by lia. rewrite (insert_take_drop _ i) by lia.
  rewrite take_app. rewrite firstn_all2 by (rewrite length_take; lia). rewrite length_take.
  replace (S i - i `min` length (cells t))%nat with 1%nat by lia. cbn [firstn app].
  rewrite firstn_O, <- app_assoc. cbn [app]. by replace (i + S (length l))%nat with (S i + length l)%nat by lia.
Qed.

(** The screen of a kernel state, from the one the kernel started with. *)
Definition screen_of {M} (s0 : screen) (s : kstate M) : option screen := put_chars (rev (kout s)) s0.

Lemma put_chars_app l l' s : put_chars (l ++ l') s = put_chars l s ≫= put_chars l'.
Proof.
  revert s. induction l as [| c l IH]; intros s; cbn [put_chars app mbind option_bind]; [done |].
  destruct (put_char_at c s); [apply IH | done].
Qed.

Lemma screen_of_put_out {M} s0 o (s : kstate M) :
  screen_of s0 (put_out (rev o) s) = screen_of s0 s ≫= put_chars o.
Proof. unfold screen_of. cbn [kout put_out]. by rewrite rev_app_distr, rev_involutive, put_chars_app. Qed.

(** ** The cursor of the kernel's state

    [Machine.cursor] follows the controller's: the terminal's position moves
    with the characters, and it refuses a backspace exactly where
    [Machine.put_char] faults. *)
Lemma term_put_cursor c t : 0 <= pos t < cells_nr ->
  match term_put c t with
  | Some t' => can_print (pos t) [c] = true /\ pos t' = cursor_step (pos t) c
  | None => can_print (pos t) [c] = false
  end.
Proof.
  intros Hp. unfold term_put, cursor_step, next_line, cells_nr in *. cbn [can_print]. rewrite andb_true_r.
  destruct ((c =? 0xd) || (c =? 0xa)) eqn:Hn.
  - assert ((c =? 0x8) = false) as -> by lia. split; [done |].
    unfold term_newline, cells_nr, width. cbv zeta. by case_match.
  - destruct (c =? 0x8); cbn [andb].
    + unfold term_rubout. by destruct (pos t =? 0).
    + split; [done |]. unfold term_glyph, term_newline, cells_nr, width. cbn [pos].
      destruct (pos t + 1 <? 2000); [done |]. by case_match.
Qed.

Lemma put_chars_shows l : Forall is_u8 l -> forall s t, shows s t ->
  match term_puts l t with
  | Some t' => can_print (pos t) l = true /\ pos t' = cursor_after (pos t) l /\
      exists s', put_chars l s = Some s' /\ shows s' t' /\ beyond (vram s) (vram s')
  | None => can_print (pos t) l = false /\ put_chars l s = None
  end.
Proof.
  induction 1 as [| c l Hc _ IH]; intros s t Hs; cbn [term_puts put_chars].
  - split; [done |]. split; [done |]. by exists s.
  - pose proof (put_char_shows s t c Hs) as Hput. rewrite u8_small in Hput by done.
    pose proof (term_put_cursor c t (sh_pos _ _ Hs)) as Hcur.
    change (can_print (pos t) (c :: l)) with (can_print (pos t) ([c] ++ l)). rewrite can_print_app.
    destruct (term_put c t) as [t1 |]; cbn [mbind option_bind].
    + destruct Hput as (s1 & -> & Hs1 & Hb1), Hcur as [-> Hp1]. cbn [mbind option_bind andb].
      change (cursor_after (pos t) [c]) with (cursor_step (pos t) c).
      change (cursor_after (pos t) (c :: l)) with (cursor_after (cursor_step (pos t) c) l).
      rewrite <- Hp1. specialize (IH s1 t1 Hs1). destruct (term_puts l t1); [| done].
      destruct IH as (Hcp & Hp & s2 & Hr & Hs2 & Hb2). split; [done |]. split; [done |].
      exists s2. split; [done |]. split; [done |]. intros b Hb. by rewrite Hb2, Hb1.
    + destruct Hput as [_ ->]. by rewrite Hcur.
Qed.

(** From the loader's screen on, the position is [cursor]. *)
Lemma screen_cursor {M} v0 t0 (s : kstate M) sc t :
  shows v0 t0 -> pos t0 = BOOT_CURSOR -> Forall is_u8 (kout s) -> screen_of v0 s = Some sc -> shows sc t ->
  pos t = cursor s.
Proof.
  intros H0 Hp Hk Hsc Ht. assert (Forall is_u8 (rev (kout s))) as Hr by (by apply Forall_rev).
  pose proof (put_chars_shows _ Hr v0 t0 H0) as Hput. unfold screen_of in Hsc.
  destruct (term_puts (rev (kout s)) t0) as [t1 |]; [| by destruct Hput; congruence].
  destruct Hput as (_ & Hp1 & s1 & Hs1 & Hsh & _). assert (s1 = sc) as -> by congruence.
  rewrite <- (shows_cursor sc t Ht), (shows_cursor sc t1 Hsh), Hp1, Hp. done.
Qed.

(** [Machine.put_char] is [put_char_at] as far as the rest of the kernel can
    see it. *)
Lemma put_char_screen {M} (s : kstate M) v0 sc t c :
  screen_of v0 s = Some sc -> shows sc t -> pos t = cursor s ->
  match put_char_at c sc with
  | Some sc' => put_char c s = Done tt (put_out [u8 c] s) /\ screen_of v0 (put_out [u8 c] s) = Some sc'
  | None => put_char c s = Fault s
  end.
Proof.
  intros Hsc Hsh Hp. pose proof (put_char_shows sc t c Hsh) as Hput.
  pose proof (term_put_cursor (u8 c) t (sh_pos _ _ Hsh)) as Hcur.
  unfold put_char. rewrite <- Hp. cbn [can_print] in Hcur. rewrite andb_true_r in Hcur.
  destruct (term_put (u8 c) t) as [t' |].
  - destruct Hput as (sc' & Hput & _), Hcur as [Hcur _]. rewrite Hput.
    destruct (_ && _); [done |]. split; [done |].
    change [u8 c] with (rev [u8 c]). rewrite screen_of_put_out, Hsc. cbn [mbind option_bind put_chars].
    assert (put_char_at (u8 c) sc = put_char_at c sc) as -> by (unfold put_char_at; by rewrite (u8_small (u8 c)) by apply u8_range).
    by rewrite Hput.
  - destruct Hput as [_ ->]. by destruct (_ && _).
Qed.

Lemma term_puts_typeset l : forall t, Forall plain l -> 0 <= pos t -> pos t + len l < cells_nr ->
  len (cells t) = cells_nr -> term_puts l t = Some (typeset l t).
Proof.
  induction l as [| c l IH]; intros t Hl H0 Hp Hc; cbn [term_puts].
  - unfold typeset. cbn [map app length]. rewrite Nat.add_0_r, take_drop, len_nil, Z.add_0_r. by destruct t.
  - apply Forall_cons in Hl as [(Hu & H8 & Ha & Hd) Hl]. rewrite len_cons in Hp. pose proof (len_nonneg l).
    unfold term_put. rewrite !(proj2 (Z.eqb_neq _ _)) by done. cbn [orb mbind option_bind].
    rewrite <- typeset_glyph by lia. apply IH; [done | ..]; unfold term_glyph;
      rewrite (proj2 (Z.ltb_lt _ _)) by lia; cbn [pos cells]; [lia | lia |].
    unfold len in *. by rewrite length_insert.
Qed.

Lemma put_chars_typeset l s t : shows s t -> Forall plain l -> pos t + len l < cells_nr ->
  exists s', put_chars l s = Some s' /\ shows s' (typeset l t) /\ beyond (vram s) (vram s').
Proof.
  intros Hs Hl Hp. assert (Forall is_u8 l) as Hu by (eapply Forall_impl; [exact Hl | by intros c [? _]]).
  pose proof (put_chars_shows l Hu s t Hs) as Hput. destruct (sh_pos _ _ Hs) as [H0 _].
  rewrite (term_puts_typeset l t Hl H0 Hp (sh_len _ _ Hs)) in Hput. apply Hput.
Qed.

(** ** Properties *)

(** C8. [put_char] does to the screen what the terminal does: a character goes to
    the cursor's cell in light grey and the cursor moves on, a line feed or a
    carriage return goes to the start of the next line, past the last cell the
    text moves up by one line, and backspace clears the cell before; in the
    first cell it is a general protection fault.  The video memory outside of
    the 25 lines is not touched, and the cursor stays inside them. *)
Theorem put_char_refines s t c : shows s t ->
  match term_put (u8 c) t with
  | Some t' => exists s', put_char_at c s = Some s' /\ shows s' t' /\ beyond (vram s) (vram s')
  | None => pos t = 0 /\ put_char_at c s = None
  end.
Proof.
  apply put_char_shows.
Qed.

(** The screen the boot loader leaves may hold anything. *)
Module examples.
Definition blank_term (p : Z) : terminal := mk_terminal (replicate 2000 blank) p.
Definition blank_screen (p : Z) : screen :=
  mk_screen (fun b => if Z.even b then 0x20 else 0x07) (p / 256) (p mod 256).

Lemma blank_shows p : 0 <= p < cells_nr -> shows (blank_screen p) (blank_term p).
Proof.
  intros Hp. split; try done.
  intros i c [-> _]%lookup_replicate. cbn [vram blank_screen].
  rewrite Z.even_mul, (Z.add_comm _ 1), Z.even_add_mul_2. done.
Qed.

Lemma put_char_refines_witness : exists s', put_char_at 65 (blank_screen 1999) = Some s' /\
  shows s' (mk_terminal (scroll (<[1999%nat := 0x741]> (replicate 2000 blank))) 1920).
Proof.
  destruct (put_char_refines (blank_screen 1999) (blank_term 1999) 65) as (s' & H1 & H2 & _).
  - by apply blank_shows.
  - exists s'. split; [exact H1 | exact H2].
Defined.
End examples.
