(* ===== verification/Tss.v ===== *)
(** userprog/tss.c: the task state segment and the descriptors for it and for
    user code and data; userprog/syscall-init.c and lib/user/syscall.h. *)

From S2P Require Import Prelude Monad RawMem Machine CString Global Thread.

(** struct tss: [esp0] at 4, [ss0] at 8, ..., [trace] at 100, [io_base] at 104. *)
Definition tss_size : Z := 108.
Definition tss_esp0 (t : Z) : Z := t + 4.
Definition tss_ss0 (t : Z) : Z := t + 8.
Definition tss_io_base (t : Z) : Z := t + 104.

Definition make_gdt_desc (desc_addr limit attr_low attr_high : Z) : gdt_desc :=
  let desc_base := desc_addr in {|
    limit_low_word := Z.land limit 0xffff;
    base_low_word := Z.land desc_base 0xffff;
    base_mid_byte := Z.shiftr (Z.land desc_base 0xff0000) 16;
    attr_low_byte := attr_low;
    limit_high_attr_high := u8 (Z.lor (Z.shiftr (Z.land limit 0xf0000) 16) attr_high);
    base_high_byte := Z.shiftr desc_base 24 |}.

(** The enum of lib/user/syscall.h. *)
Definition SYS_GETPID : Z := 0.

Section code.
Context {M : Type} {RM : RawMem M} {LY : Layout}.

Definition update_tss_esp (pthread : Z) : K (M := M) unit :=
  st32 (tss_esp0 tss) (pthread + PG_SIZE).

(** The assignment of a struct gdt_desc. *)
Definition store_desc (a : Z) (d : gdt_desc) : K (M := M) unit :=
  st16 a (limit_low_word d);; st16 (a + 2) (base_low_word d);;
  st8 (a + 4) (base_mid_byte d);; st8 (a + 5) (attr_low_byte d);;
  st8 (a + 6) (limit_high_attr_high d);; st8 (a + 7) (base_high_byte d).

Definition tss_desc_addr : Z := 0xc0000000 + (GDT_BASE + 8 * 4).
Definition gdt_operand : Z := Z.lor (8 * 7 - 1) (Z.shiftl (u32 (0xc0000000 + GDT_BASE)) 16).

(** The descriptor a selector names, as the processor fetches it: from the
    table lgdt has named, within its limit.  There is no local table. *)
Definition desc_addr (gdt selector : Z) : Z := table_base gdt + Z.land selector 0xfff8.
Definition in_gdt (gdt selector : Z) : bool :=
  negb (Z.testbit selector 2) && (Z.lor selector 7 <=? table_limit gdt).
Definition load_desc (selector : Z) : K (M := M) gdt_desc :=
  do gdt <- get (fun s => gdtr (ktab s));
  let a := desc_addr gdt selector in
  if in_gdt gdt selector then
    do l <- ld16 a; do b <- ld16 (a + 2); do m <- ld8 (a + 4);
    do lo <- ld8 (a + 5); do hi <- ld8 (a + 6); do h <- ld8 (a + 7);
    cret (mk_gdt_desc l b m lo hi h)
  else fault.

(** Loading a register with a selector: the descriptor is checked, and a bit of
    it set in memory. *)
Definition use_desc (ok : segment -> bool) (mark selector : Z) : K (M := M) unit :=
  do d <- load_desc selector;
  if ok (segment_of d) then
    do gdt <- get (fun s => gdtr (ktab s));
    st8 (desc_addr gdt selector + 5) (Z.lor (attr_low_byte d) mark)
  else fault.

(** ltr (Intel SDM volume 2): the descriptor must be that of an available task
    state segment, and is marked busy. *)
Definition available_tss (g : segment) : bool := negb (seg_s g) && (seg_type g =? 9) && seg_present g.
Definition ltr (selector : Z) : K (M := M) unit :=
  use_desc available_tss 2 selector;; load_table TR selector.

(** mov to a segment register, at privilege level 0: a present, writable data
    segment, which is marked accessed. *)
Definition writable_data (g : segment) : bool :=
  seg_s g && negb (Z.testbit (seg_type g) 3) && Z.testbit (seg_type g) 1 && seg_present g.
Definition load_sreg (selector : Z) : K (M := M) unit := use_desc writable_data 1 selector.

Definition tss_init : K (M := M) unit :=
  put_lit ("tss_init start" ++ nl);;
  memset tss 0 tss_size;;
  st32 (tss_ss0 tss) SELECTOR_K_STACK;;
  st32 (tss_io_base tss) tss_size;;
  store_desc tss_desc_addr (make_gdt_desc tss (tss_size - 1) TSS_ATTR_LOW TSS_ATTR_HIGH);;
  store_desc (tss_desc_addr + 8) (make_gdt_desc 0 0xfffff GDT_CODE_ATTR_LOW_DPL3 GDT_ATTR_HIGH);;
  store_desc (tss_desc_addr + 16) (make_gdt_desc 0 0xfffff GDT_DATA_ATTR_LOW_DPL3 GDT_ATTR_HIGH);;
  load_table GDTR gdt_operand;;
  ltr SELECTOR_TSS;;
  put_lit ("tss_init and ltr done" ++ nl).

(** userprog/syscall-init.c. *)
Definition sys_getpid : K (M := M) Z :=
  do cur <- running_thread; do p <- ld16 (pid cur); cret (u32 (s16 p)).

Definition syscall_init : K (M := M) unit :=
  put_lit ("syscall_init start" ++ nl);;
  st32 (syscall_table + 4 * SYS_GETPID) (fn "sys_getpid");;
  put_lit ("syscall_init done" ++ nl).
End code.

(** ** The descriptors as the processor reads them *)

(** A descriptor holds the base, the limit and the attributes it was made
    from: 20 bits of limit, 32 of base; the flags are the upper half of
    [attr_high], whose lower half is or-ed into the limit. *)
Lemma make_gdt_desc_segment base limit lo hi : is_u32 base -> 0 <= limit < 2 ^ 20 ->
  is_u8 lo -> is_u8 hi -> hi mod 16 = 0 ->
  segment_of (make_gdt_desc base limit lo hi) =
  mk_segment base limit (lo mod 16) (Z.testbit lo 4) (lo / 32 mod 4) (Z.testbit lo 7)
    (Z.testbit hi 6) (Z.testbit hi 7).
Proof.
  intros Hb Hl Hlo Hhi Hz. unfold is_u32, is_u8 in *.
  assert (Z.land base 0xff0000 = base / 2 ^ 16 mod 2 ^ 8 * 2 ^ 16) as Hbm.
  { change 0xff0000 with (Z.shiftl (Z.ones 8) 16).
    rewrite <- Z.shiftl_mul_pow2, <- Z.land_ones, <- Z.shiftr_div_pow2 by lia.
    by rewrite land_shiftl_ones. }
  assert (Z.land limit 0xf0000 = limit / 2 ^ 16 * 2 ^ 16) as Hlm.
  { change 0xf0000 with (Z.shiftl (Z.ones 4) 16).
    rewrite land_shiftl_ones by lia. rewrite Z.shiftl_mul_pow2, Z.land_ones, Z.shiftr_div_pow2 by lia.
    f_equal. zlia. }
  assert (Z.lor (limit / 2 ^ 16) hi = limit / 2 ^ 16 + hi) as Hor.
  { replace hi with (hi / 16 * 2 ^ 4) by zlia. apply lor_disjoint; zlia. }
  unfold segment_of, make_gdt_desc. cbn [base_low_word base_mid_byte base_high_byte limit_low_word
    limit_high_attr_high attr_low_byte].
  rewrite !land_ffff, Hbm, Hlm, !shiftr_div, !Z.div_mul, Hor by lia.
  rewrite u8_small by (unfold is_u8; zlia).
  f_equal.
  - zlia.
  - zlia.
  - by rewrite <- Hor, Z.lor_spec, (testbit_above _ 4) by zlia.
  - by rewrite <- Hor, Z.lor_spec, (testbit_above _ 4) by zlia.
Qed.

Section rules.
Context {M : Type} {RM : RawMem M} {RL : RawMemLaws M} {LY : Layout}.
Implicit Types (s : kstate M) (R : Z -> Prop) (f : Z -> Z) (G : protocol (kstate M)).

(** The members of a descriptor are within their widths. *)
Definition desc_ok (d : gdt_desc) : Prop :=
  0 <= limit_low_word d < 2 ^ 16 /\ 0 <= base_low_word d < 2 ^ 16 /\ is_u8 (base_mid_byte d) /\
  is_u8 (attr_low_byte d) /\ is_u8 (limit_high_attr_high d) /\ is_u8 (base_high_byte d).

Lemma wp_store_desc G s R f a d (Q : unit -> kstate M -> Prop) :
  backs (kmem s) R f -> inside R a 8 -> desc_ok d ->
  (forall m f', backs m R f' -> gdt_desc_at f' a = d -> (forall b, ~ span a 8 b -> f' b = f b) ->
     Q tt (set_mem m s)) ->
  wp G (store_desc a d) s Q.
Proof.
  intros Hb Hi (H1 & H2 & H3 & H4 & H5 & H6) HQ. unfold store_desc.
  apply wp_bind. eapply wp_st16; [done | region |]. intros m1 Hm1.
  apply wp_bind. eapply wp_st16; [exact Hm1 | region |]. intros m2 Hm2.
  apply wp_bind. eapply wp_st8; [exact Hm2 | region |]. intros m3 Hm3.
  apply wp_bind. eapply wp_st8; [exact Hm3 | region |]. intros m4 Hm4.
  apply wp_bind. eapply wp_st8; [exact Hm4 | region |]. intros m5 Hm5.
  eapply wp_st8; [exact Hm5 | region |]. intros m6 Hm6. rewrite !u8_small in Hm6 by done.
  eapply HQ; [exact Hm6 | |].
  - destruct d as [l b c e g h]. cbn in *. unfold gdt_desc_at. f_equal; by mem.
  - intros c Hc. unfold span in Hc. assert (c < a \/ a + 8 <= c) as Ho by lia. by mem.
Qed.

Lemma gdt_desc_at_ext f f' a : (forall b, span a 8 b -> f' b = f b) ->
  gdt_desc_at f' a = gdt_desc_at f a.
Proof.
  intros Hf. unfold gdt_desc_at, span in *.
  rewrite !(Hf (a + _)) by lia. rewrite (w16_ext f' f a), (w16_ext f' f (a + 2)); [done | |];
    intros b Hb; apply Hf; unfold span in *; lia.
Qed.
End rules.

Section descriptors.
Context {M : Type} {RM : RawMem M} {RL : RawMemLaws M} {LY : Layout}.
Implicit Types (s : kstate M) (R : Z -> Prop) (f : Z -> Z) (G : protocol (kstate M)).

Lemma wp_load_desc G s R f gdt sel (Q : gdt_desc -> kstate M -> Prop) :
  backs (kmem s) R f -> gdtr (ktab s) = gdt -> in_gdt gdt sel = true -> inside R (desc_addr gdt sel) 8 ->
  Q (gdt_desc_at f (desc_addr gdt sel)) s -> wp G (load_desc sel) s Q.
Proof.
  intros Hb Hg Hin Hi HQ. unfold load_desc. apply wp_bind, wp_get. rewrite Hg, Hin. cbv zeta.
  do 2 (apply wp_bind; eapply wp_ld16; [exact Hb | region |]).
  do 4 (apply wp_bind; eapply wp_ld8; [exact Hb | region | intros _]).
  apply wp_ret, HQ.
Qed.

Lemma wp_use_desc G s R f gdt ok mark sel (Q : unit -> kstate M -> Prop) :
  backs (kmem s) R f -> gdtr (ktab s) = gdt -> in_gdt gdt sel = true -> inside R (desc_addr gdt sel) 8 ->
  ok (segment_of (gdt_desc_at f (desc_addr gdt sel))) = true -> is_u8 mark ->
  (forall m, backs m R (upd f (desc_addr gdt sel + 5) (Z.lor (f (desc_addr gdt sel + 5)) mark)) ->
     Q tt (set_mem m s)) -> wp G (use_desc ok mark sel) s Q.
Proof.
  intros Hb Hg Hin Hi Ha Hmk HQ. unfold use_desc. apply wp_bind. eapply wp_load_desc; [done .. |]. rewrite Ha.
  apply wp_bind, wp_get. rewrite Hg. eapply wp_st8; [exact Hb | region |]. intros m Hm.
  apply HQ. cbn [attr_low_byte gdt_desc_at] in Hm. rewrite u8_small in Hm; [exact Hm |].
  assert (is_u8 (f (desc_addr gdt sel + 5))) as Hu by (eapply backs_byte; [exact Hb | region]).
  unfold is_u8 in *. apply (below_of_bits _ 8); [lia |].
  intros i Hi8. by rewrite Z.lor_spec, (testbit_above _ 8), (testbit_above mark 8) by lia.
Qed.
End descriptors.

(** Another attribute byte. *)
Lemma gdt_desc_at_attr f a v : gdt_desc_at (upd f (a + 5) v) a =
  let d := gdt_desc_at f a in
  mk_gdt_desc (limit_low_word d) (base_low_word d) (base_mid_byte d) v (limit_high_attr_high d) (base_high_byte d).
Proof.
  unfold gdt_desc_at. cbn [limit_low_word base_low_word base_mid_byte limit_high_attr_high base_high_byte].
  rewrite upd_eq, !upd_ne by lia. f_equal; apply w16_ext; intros b Hb; apply upd_ne; unfold span in Hb; lia.
Qed.

Lemma tss_desc_ok base : is_u32 base -> desc_ok (make_gdt_desc base (tss_size - 1) TSS_ATTR_LOW TSS_ATTR_HIGH).
Proof.
  intros Hb. unfold desc_ok, make_gdt_desc. cbn [base_low_word base_mid_byte base_high_byte
    limit_low_word limit_high_attr_high attr_low_byte]. unfold is_u32 in Hb.
  assert (Z.land base 0xff0000 = base / 2 ^ 16 mod 2 ^ 8 * 2 ^ 16) as ->.
  { change 0xff0000 with (Z.shiftl (Z.ones 8) 16).
    rewrite <- Z.shiftl_mul_pow2, <- Z.land_ones, <- Z.shiftr_div_pow2 by lia.
    by rewrite land_shiftl_ones. }
  rewrite !land_ffff, !shiftr_div, Z.div_mul by lia.
  split; [done |]. split; [zlia |]. split; [unfold is_u8; zlia |]. split; [done |].
  split; [apply u8_range | unfold is_u8; zlia].
Qed.

(** ** [tss_init] *)

Section init.
Context {M : Type} {RM : RawMem M} {RL : RawMemLaws M} {LY : Layout}.

(** The task state segment and its three descriptors, in different places. *)
Record tss_space (R : Z -> Prop) : Prop := mk_tss_space {
  ss_tss : inside R tss tss_size;
  ss_descs : inside R tss_desc_addr 24;
  ss_null : tss <> 0;
  ss_apart : tss + tss_size <= tss_desc_addr \/ tss_desc_addr + 24 <= tss }.

Record tss_ready (f : Z -> Z) : Prop := mk_tss_ready {
  td_task : segment_of (gdt_desc_at f tss_desc_addr) = mk_segment tss 107 11 false 0 true false true;
  td_code : segment_of (gdt_desc_at f (tss_desc_addr + 8)) = mk_segment 0 0xfffff 8 true 3 true false false;
  td_data : segment_of (gdt_desc_at f (tss_desc_addr + 16)) = mk_segment 0 0xfffff 2 true 3 true false false;
  td_ss0 : w32 f (tss_ss0 tss) = SELECTOR_K_STACK;
  td_io : w16 f (tss + 102) = 0 }.

Definition tss_bytes (b : Z) : Prop := span tss tss_size b \/ span tss_desc_addr 24 b.

Lemma wp_tss_init G (s : kstate M) R f (Q : unit -> kstate M -> Prop) :
  backs (kmem s) R f -> tss_space R ->
  (forall s' f', backs (kmem s') R f' -> tss_ready f' -> (forall b, ~ tss_bytes b -> f' b = f b) ->
     grew s s' [] [(TR, SELECTOR_TSS); (GDTR, gdt_operand)] -> Q tt s') ->
  wp G tss_init s Q.
Proof.
  intros Hb [Hit Hid Hne Hap] HQ. unfold tss_size in *.
  pose proof (backs_inside_u32 _ _ _ _ _ Hb Hit ltac:(lia)) as Htr.
  unfold tss_init. apply wp_bind, wp_modify, wp_bind.
  eapply wp_memset_span; [exact Hb | done | done | done |]. intros m1 f1 Hm1 Hz1 Ho1. unfold span in Hz1.
  apply wp_bind. eapply wp_st32; [exact Hm1 | unfold tss_ss0; region |]. intros m2 Hm2.
  apply wp_bind. eapply wp_st32; [exact Hm2 | unfold tss_io_base; region |]. intros m3 Hm3.
  set (f3 := upd32 _ _ _) in Hm3. apply wp_bind.
  eapply wp_store_desc; [exact Hm3 | region | apply tss_desc_ok; unfold is_u32; lia |]. intros m4 f4 Hm4 Hd4 Ho4.
  apply wp_bind. eapply wp_store_desc; [exact Hm4 | region | by vm_compute |]. intros m5 f5 Hm5 Hd5 Ho5.
  apply wp_bind. eapply wp_store_desc; [exact Hm5 | region | by vm_compute |]. intros m6 f6 Hm6 Hd6 Ho6.
  assert (gdt_desc_at f6 tss_desc_addr = make_gdt_desc tss (tss_size - 1) TSS_ATTR_LOW TSS_ATTR_HIGH) as Hd64.
  { rewrite (gdt_desc_at_ext f5 f6) by (intros b Hbb; apply Ho6; unfold span in *; lia).
    rewrite (gdt_desc_at_ext f4 f5) by (intros b Hbb; apply Ho5; unfold span in *; lia). done. }
  assert (segment_of (gdt_desc_at f6 tss_desc_addr) = mk_segment tss 107 9 false 0 true false true) as Hseg.
  { rewrite Hd64. apply make_gdt_desc_segment; try done. unfold is_u32. lia. }
  apply wp_bind, wp_modify, wp_bind.
  unfold ltr. apply wp_bind. eapply (wp_use_desc _ _ _ f6 gdt_operand); [exact Hm6 | done | done | | | done |];
    change (desc_addr gdt_operand SELECTOR_TSS) with tss_desc_addr; [region | by rewrite Hseg |].
  intros m7 Hm7. apply wp_modify. assert (f6 (tss_desc_addr + 5) = TSS_ATTR_LOW) as Hlo by exact (f_equal attr_low_byte Hd64).
  rewrite Hlo in Hm7. set (f7 := upd _ _ _) in Hm7.
  assert (forall b, b <> tss_desc_addr + 5 -> f7 b = f6 b) as Ho7 by (intros b Hbb; by apply upd_ne).
  apply wp_modify. eapply (HQ _ f7); [exact Hm7 | | | done].
  - unfold span in *. split.
    + assert (gdt_desc_at f7 tss_desc_addr = make_gdt_desc tss (tss_size - 1) (Z.lor TSS_ATTR_LOW 2) TSS_ATTR_HIGH) as ->.
      { unfold f7. by rewrite gdt_desc_at_attr, Hd64. }
      apply make_gdt_desc_segment; try done. unfold is_u32. lia.
    + rewrite (gdt_desc_at_ext f6 f7) by (intros b Hbb; apply Ho7; unfold span in *; lia).
      rewrite (gdt_desc_at_ext f5 f6) by (intros b Hbb; apply Ho6; unfold span in *; lia).
      by rewrite Hd5.
    + rewrite (gdt_desc_at_ext f6 f7) by (intros b Hbb; apply Ho7; unfold span in *; lia). by rewrite Hd6.
    + rewrite <- (w32_upd32_eq f1 (tss_ss0 tss) SELECTOR_K_STACK) by done.
      rewrite <- (w32_upd32_ne (upd32 f1 (tss_ss0 tss) SELECTOR_K_STACK) (tss_io_base tss) 108 (tss_ss0 tss))
        by (unfold tss_ss0, tss_io_base; lia).
      apply w32_ext. intros b Hbb. unfold tss_ss0, span in *. rewrite Ho7, Ho6, Ho5, Ho4 by lia. done.
    + rewrite (w16_ext f7 f3) by (intros b Hbb; unfold span in *; rewrite Ho7, Ho6, Ho5, Ho4 by lia; done).
      unfold f3, tss_io_base, tss_ss0. rewrite !w16_upd32_ne by lia.
      rewrite (w16_ext f1 (fun _ => 0)); [done |]. intros b Hbb. unfold span, tss_size in *.
      by rewrite Hz1 by lia.
  - intros b Hbb. unfold tss_bytes, tss_size, span in *. rewrite Ho7, Ho6, Ho5, Ho4 by lia. unfold f3.
    rewrite !upd32_ne by (unfold tss_ss0, tss_io_base; lia). apply Ho1. unfold span. lia.
Qed.
End init.

(** ** Properties *)

Section properties.
Context {M : Type} {RM : RawMem M} {RL : RawMemLaws M} {LY : Layout}.

(** A descriptor made by [make_gdt_desc] is read back by the processor with
    the base, the limit and the attributes it was made from. *)
Theorem make_gdt_desc_roundtrip base limit lo hi : is_u32 base -> 0 <= limit < 2 ^ 20 ->
  is_u8 lo -> is_u8 hi -> hi mod 16 = 0 ->
  segment_of (make_gdt_desc base limit lo hi) =
  mk_segment base limit (lo mod 16) (Z.testbit lo 4) (lo / 32 mod 4) (Z.testbit lo 7)
    (Z.testbit hi 6) (Z.testbit hi 7).
Proof. apply make_gdt_desc_segment. Qed.

(** C40. [tss_init] installs a task state segment with the kernel's stack selector,
    which ltr finds available and marks busy, and user code and data segments at privilege level 3; but the user segments
    are 16-bit and end at 1 MB (GDT_ATTR_HIGH is 1), and the word at which the
    processor looks for the I/O map base is 0, inside the segment. *)
Theorem tss_init_installs (s : kstate M) R f :
  backs (kmem s) R f -> inside R tss tss_size -> inside R tss_desc_addr 24 -> tss <> 0 ->
  (tss + tss_size <= tss_desc_addr \/ tss_desc_addr + 24 <= tss) ->
  exists s' f', tss_init s = Done tt s' /\ backs (kmem s') R f' /\
    segment_of (gdt_desc_at f' tss_desc_addr) = mk_segment tss 107 11 false 0 true false true /\
    segment_of (gdt_desc_at f' (tss_desc_addr + 8)) = mk_segment 0 0xfffff 8 true 3 true false false /\
    segment_of (gdt_desc_at f' (tss_desc_addr + 16)) = mk_segment 0 0xfffff 2 true 3 true false false /\
    w32 f' (tss_ss0 tss) = SELECTOR_K_STACK /\ w16 f' (tss + 102) = 0 /\
    ktab s' = (TR, SELECTOR_TSS) :: (GDTR, gdt_operand) :: ktab s /\
    table_base gdt_operand = 0xc0000900 /\ table_limit gdt_operand = 8 * 7 - 1.
Proof.
  intros Hb Hit Hid Hne Hap.
  destruct (proj1 (wp_seq_only tss_init s (fun _ s' => exists f', backs (kmem s') R f' /\ tss_ready f' /\
    grew s s' [] [(TR, SELECTOR_TSS); (GDTR, gdt_operand)]))) as ([] & s' & Hd & f' & Hm & [H1 H2 H3 H4 H5] & Hg).
  { eapply (wp_tss_init _ s R f); [exact Hb | by split |]. intros s' f' Hm Ht _ Hg. by exists f'. }
  exists s', f'. pose proof (gw_tab _ _ _ _ Hg) as Htab. done.
Qed.
End properties.

Module examples.
#[local] Existing Instance demo_layout.
Definition st : kstate flat := machine_of ∅.

Lemma make_gdt_desc_roundtrip_witness :
  segment_of (make_gdt_desc 0xc0009300 107 TSS_ATTR_LOW TSS_ATTR_HIGH) =
  mk_segment 0xc0009300 107 9 false 0 true false true.
Proof. apply (make_gdt_desc_roundtrip 0xc0009300 107 TSS_ATTR_LOW TSS_ATTR_HIGH); done. Defined.

Lemma tss_init_installs_witness : exists s' f', tss_init st = Done tt s' /\ backs (kmem s') is_u32 f' /\
  seg_last (segment_of (gdt_desc_at f' (tss_desc_addr + 8))) = 0xfffff.
Proof.
  unshelve epose proof (tss_init_installs st is_u32 (flat_at ∅) (flat_backs ∅) _ _ _ _)
    as (s' & f' & H1 & H2 & _ & H3 & _).
  - intros a Ha. unfold span, is_u32, tss_size in *. cbn in *. lia.
  - intros a Ha. unfold tss_desc_addr, GDT_BASE, span, is_u32 in *. lia.
  - done.
  - right. done.
  - exists s', f'. split; [exact H1 |]. split; [exact H2 |]. by rewrite H3.
Defined.
End examples.
