(* ===== verification/Timer.v ===== *)
(** device/timer.c: the programmable interval timer and the tick handler,
    which ends a thread's time slice. *)

From S2P Require Import Prelude Monad RawMem Machine DList Thread Sync Interrupt.

Definition IRQ0_FREQUENCY : Z := 100.
Definition INPUT_FREQUENCY : Z := 1193180.
Definition COUNTER0_VALUE : Z := INPUT_FREQUENCY / IRQ0_FREQUENCY.
Definition CONTRER0_PORT : Z := 0x40.
Definition COUNTER0_NO : Z := 0.
Definition COUNTER_MODE : Z := 2.
Definition READ_WRITE_LATCH : Z := 3.
Definition PIT_CONTROL_PORT : Z := 0x43.
Definition STACK_MAGIC : Z := 0x19851122.

Definition set_ticks (n : Z) (v : kvars) : kvars :=
  mk_kvars (main_thread v) (thread_tag v) (next_pid v) n (ctrl_status v)
    (shift_status v) (alt_status v) (caps_lock_status v) (ext_scancode v).

Section code.
Context {M : Type} {RM : RawMem M} {LY : Layout}.

Definition frequency_set (counter_port counter_no rwl counter_mode counter_value : Z) : K (M := M) unit :=
  outb PIT_CONTROL_PORT
    (u8 (Z.lor (Z.lor (Z.shiftl counter_no 6) (Z.shiftl rwl 4)) (Z.shiftl counter_mode 1)));;
  outb counter_port (u8 counter_value);;
  outb counter_port (u8 (Z.shiftr counter_value 8)).

Definition intr_timer_handler : K (M := M) unit :=
  do cur_thread <- running_thread;
  do magic <- ld32 (stack_magic cur_thread);
  ASSERT "device/timer.c" 30 "intr_timer_handler" "cur_thread->stack_magic == 0x19851122"
    (magic =? STACK_MAGIC);;
  do e <- ld32 (elapsed_ticks cur_thread); st32 (elapsed_ticks cur_thread) (u32 (e + 1));;
  modify (fun s => set_var (set_ticks (u32 (ticks (kvar s) + 1)) (kvar s)) s);;
  do t <- ld8 (ticks_left cur_thread);
  if 0 =? t then schedule
  else do t <- ld8 (ticks_left cur_thread); st8 (ticks_left cur_thread) (t - 1).

Definition timer_init : K (M := M) unit :=
  put_lit ("timer_init start" ++ nl);;
  frequency_set CONTRER0_PORT COUNTER0_NO READ_WRITE_LATCH COUNTER_MODE COUNTER0_VALUE;;
  register_handler 0x20 (fn "intr_timer_handler");;
  put_lit ("timer_init done" ++ nl).
End code.

(** What the timer chip is sent: channel 0, low byte then high byte, mode 2,
    and the divisor of 100 ticks per second. *)
Definition pit_words : list (Z * Z) :=
  [(PIT_CONTROL_PORT, 0x34); (CONTRER0_PORT, u8 COUNTER0_VALUE); (CONTRER0_PORT, u8 (Z.shiftr COUNTER0_VALUE 8))].

Lemma wp_timer_init {M} {RM : RawMem M} {RL : RawMemLaws M} {LY : Layout} G (s : kstate M) R f
  (Q : unit -> kstate M -> Prop) :
  backs (kmem s) R f -> inside R (handler_addr 0x20) 4 -> is_u32 (fn "intr_timer_handler") ->
  (forall s' f', backs (kmem s') R f' -> w32 f' (handler_addr 0x20) = fn "intr_timer_handler" ->
     (forall b, ~ span (handler_addr 0x20) 4 b -> f' b = f b) -> grew s s' (rev pit_words) [] -> Q tt s') ->
  wp G timer_init s Q.
Proof.
  intros Hb Hi Hf HQ. unfold timer_init. apply wp_bind, wp_modify, wp_bind. unfold frequency_set.
  do 2 (apply wp_bind, wp_modify). apply wp_modify, wp_bind.
  eapply wp_register_handler; [exact Hb | exact Hi | done | exact Hf |]. intros m f' Hm Hw Ho.
  apply wp_modify. by eapply HQ.
Qed.

(** ** The tick on the abstract scheduler *)

(** A tick is counted against the running thread. *)
Definition count_tick (A : sched) : option sched :=
  v ← tasks A !! cur A; Some (set_task (cur A) (with_elapsed (u32 (tv_elapsed v + 1)) v) A).

Definition tick {LY : Layout} (A : sched) : option sched :=
  A1 ← count_tick A; v ← tasks A1 !! cur A1;
  if decide (tv_ticks v = 0) then sched_next A1
  else Some (set_task (cur A1) (with_ticks (tv_ticks v - 1) v) A1).

Section rules.
Context {M : Type} {RM : RawMem M} {RL : RawMemLaws M} {LY : Layout}.
Implicit Types (s : kstate M) (R : Z -> Prop) (f : Z -> Z) (A : sched) (G : protocol (kstate M)).

(** Replacing what a PCB holds besides its status and its stack pointer keeps
    the invariant. *)
Lemma same_status_wf A t v v' : wf A -> tasks A !! t = Some v ->
  tv_status v' = tv_status v -> tv_kstack v' = tv_kstack v -> wf (set_task t v' A).
Proof.
  intros HA Hv Hst Hk.
  assert (forall u w, tasks (set_task t v' A) !! u = Some w -> exists w0, tasks A !! u = Some w0 /\
    tv_status w = tv_status w0 /\ tv_kstack w = tv_kstack w0) as Hw.
  { intros u w. cbn. rewrite lookup_insert_Some. intros [[<- <-] | [_ Hu]]; [by exists v | by exists w]. }
  assert (forall u, is_Some (tasks A !! u) -> is_Some (tasks (set_task t v' A) !! u)) as Hs.
  { intros u Hu. cbn. rewrite lookup_insert_is_Some.
    destruct (decide (t = u)) as [Htu | Htu]; [by left | by right]. }
  destruct HA. split; cbn [esp queues set_task]; try done.
  - intros l ts u Hl Hu. eapply Hs. by eapply wf_member.
  - by apply Hs.
  - intros u w Hu Hne. destruct (Hw u w Hu) as (w0 & H0 & _ & ->). by eapply wf_stacks.
  - intros u w Hu. destruct (Hw u w Hu) as (w0 & H0 & _ & ->). by eapply wf_words.
  - intros q u w Hq Hin Hu. destruct (Hw u w Hu) as (w0 & H0 & -> & _). by eapply wf_ready.
  - intros l ts u w Hl Hne Hin Hu. destruct (Hw u w Hu) as (w0 & H0 & -> & _). by eapply wf_waiters.
  - intros u w Hu Hr. destruct (Hw u w Hu) as (w0 & H0 & Hs0 & _). rewrite Hs0 in Hr. by eapply wf_runnable.
  - intros u w Hu Hr. destruct (Hw u w Hu) as (w0 & H0 & Hs0 & _). rewrite Hs0 in Hr. by eapply wf_running.
Qed.

Lemma wp_task_word G s R f A t v k (Q : Z -> kstate M -> Prop) :
  backs (kmem s) R f -> rep R f A -> tasks A !! t = Some v -> 0 <= k -> k + 4 <= 72 ->
  Q (w32 f (t + k)) s -> wp G (ld32 (t + k)) s Q.
Proof.
  intros Hb HA Ht Hk1 Hk2 HQ.
  eapply wp_ld32; [done | by apply (task_bytes _ _ _ _ k 4 HA) | done].
Qed.

Lemma wp_set_elapsed G s R f A t v n (Q : unit -> kstate M -> Prop) :
  backs (kmem s) R f -> rep R f A -> tasks A !! t = Some v -> is_u32 n ->
  (forall m f', backs m R f' -> rep R f' (set_task t (with_elapsed n v) A) ->
     sched_only A f f' -> Q tt (set_mem m s)) ->
  wp G (st32 (elapsed_ticks t) n) s Q.
Proof.
  intros Hb HA Ht Hn HQ.
  eapply wp_st32; [done | by apply (task_bytes _ _ _ _ 32 _ HA) |]. intros m Hm.
  destruct (rep_write32 R f A t v (with_elapsed n v) 32 n) as [Hr Ho]; try done.
  - lia.
  - destruct (rep_task _ _ _ HA _ _ Ht). split; cbn; fields; by mem.
  - by eapply HQ.
Qed.

Lemma wp_task_ticks G s R f A t v (Q : Z -> kstate M -> Prop) :
  backs (kmem s) R f -> rep R f A -> tasks A !! t = Some v ->
  (is_u8 (tv_ticks v) -> Q (tv_ticks v) s) -> wp G (ld8 (ticks_left t)) s Q.
Proof.
  intros Hb HA Ht HQ.
  eapply wp_ld8; [done | by apply (task_byte _ _ _ _ 29 HA) |].
  by rewrite (at_ticks _ _ _ (rep_task _ _ _ HA _ _ Ht)).
Qed.

(** The state after the counters have been advanced. *)
Definition counted (m : M) s : kstate M :=
  set_var (set_ticks (u32 (ticks (kvar s) + 1)) (kvar s)) (set_mem m s).

Lemma timer_then s R f A v (Phi : outcome (kstate M) unit -> Prop) :
  backs (kmem s) R f -> rep R f A -> wf A -> kif s = false -> kesp s = esp A ->
  tasks A !! cur A = Some v -> tv_status v = TASK_RUNNING -> tv_magic v = STACK_MAGIC ->
  (forall A', tick A = Some A' -> tv_ticks v <> 0 -> forall m f', backs m R f' -> rep R f' A' ->
     sched_only A f f' -> Phi (Done tt (counted m s))) ->
  (forall A', tick A = Some A' -> tv_ticks v = 0 -> forall m f', backs m R f' -> rep R f' A' ->
     sched_only A f f' -> Phi (Yield (switched m A' (counted m s)) (fun s' => Done tt s'))) ->
  Phi (intr_timer_handler s).
Proof.
  intros Hb Hr HA Hif He Hv Hst Hmg Hslice Hswitch. unfold intr_timer_handler.
  apply seq_then, wp_running_thread. rewrite He. change (page_of (esp A)) with (cur A).
  apply seq_then. eapply (wp_task_word _ _ _ _ _ _ _ 68); [done | done | done | done | done |].
  pose proof (rep_task _ _ _ Hr _ _ Hv) as Hat.
  change (cur A + 68) with (stack_magic (cur A)). rewrite (at_magic _ _ _ Hat), Hmg.
  apply seq_then, wp_assert; [by rewrite Z.eqb_refl |].
  apply seq_then. eapply (wp_task_word _ _ _ _ _ _ _ 32); [done | done | done | done | done |].
  change (cur A + 32) with (elapsed_ticks (cur A)). rewrite (at_elapsed _ _ _ Hat).
  apply seq_then. eapply wp_set_elapsed; [done | done | done | apply u32_range |].
  intros m1 f1 Hm1 Hr1 Ho1. apply seq_then, wp_modify. fold (counted m1 s).
  set (v1 := with_elapsed (u32 (tv_elapsed v + 1)) v) in *.
  set (A1 := set_task (cur A) v1 A) in *.
  assert (tasks A1 !! cur A1 = Some v1) as Hv1 by apply lookup_insert_eq.
  assert (wf A1) as HA1 by (by eapply same_status_wf).
  assert (tick A = if decide (tv_ticks v = 0) then sched_next A1
    else Some (set_task (cur A) (with_ticks (tv_ticks v - 1) v1) A1)) as Htick.
  { unfold tick, count_tick. rewrite Hv. cbn [mbind option_bind]. fold v1. fold A1. by rewrite Hv1. }
  assert (sched_only A f f1 -> forall f', sched_only A1 f1 f' -> sched_only A f f') as Htr.
  { intros _ f' Ho. eapply sched_only_trans; [| exact Ho1 | exact Ho].
    intros b. apply set_task_footprint. by exists v. }
  apply seq_then. eapply wp_task_ticks; [exact Hm1 | exact Hr1 | exact Hv1 |]. intros Hu.
  change (tv_ticks v1) with (tv_ticks v) in *.
  destruct (Z.eqb_spec 0 (tv_ticks v)) as [Hz | Hz].
  - rewrite decide_True in Htick by done.
    assert (cur_status A1 TASK_RUNNING) as Hcs by (by exists v1).
    pose proof (sched_next_wf A1 TASK_RUNNING HA1 Hcs ltac:(done)) as Hs.
    destruct (sched_next A1) as [A' |] eqn:Hn; [| by destruct Hs].
    eapply (schedule_then (counted m1 s) R f1 A1 A'); [exact Hm1 | exact Hr1 | done .. | exact Hcs | done | done |].
    intros m f' Hm Hr' Ho.
    change (switched m A' (counted m1 s)) with (switched m A' (counted m s)). eapply Hswitch; [exact Htick | done | exact Hm | done | auto].
  - rewrite decide_False in Htick by done.
    apply seq_then. eapply wp_task_ticks; [exact Hm1 | exact Hr1 | exact Hv1 |]. intros _.
    change (tv_ticks v1) with (tv_ticks v).
    apply seq_done. eapply wp_set_ticks; [exact Hm1 | exact Hr1 | exact Hv1 | unfold is_u8 in *; lia |].
    intros m f' Hm Hr' Ho. change (set_mem m (counted m1 s)) with (counted m s). eapply Hslice; [exact Htick | done | exact Hm | exact Hr' | auto].
Qed.

(** A tick of a thread whose stack has grown over the magic word. *)
Definition stack_overrun : panic_info :=
  mk_panic "device/timer.c" 30 "intr_timer_handler" "cur_thread->stack_magic == 0x19851122".

Lemma handler_overrun s R A v : represents R s A -> tasks A !! cur A = Some v -> tv_magic v <> STACK_MAGIC ->
  exists s', intr_timer_handler s = Panic stack_overrun s'.
Proof.
  intros (f & Hb & Hr & He) Hv Hmg.
  destruct (panics_wp intr_timer_handler s stack_overrun) as (s' & Hs' & _); [| by exists s'].
  intros G Q HQ. unfold intr_timer_handler. apply wp_bind, wp_running_thread.
  rewrite He. change (page_of (esp A)) with (cur A).
  apply wp_bind. eapply (wp_task_word _ _ _ _ _ _ _ 68); [done | done | done | done | done |].
  pose proof (rep_task _ _ _ Hr _ _ Hv) as Hat. change (cur A + 68) with (stack_magic (cur A)).
  rewrite (at_magic _ _ _ Hat), (proj2 (Z.eqb_neq _ _) Hmg). apply wp_bind. by apply wp_assert_fails.
Qed.

(** A tick of a thread whose stack magic is intact. *)
Lemma handler_tick s R A v : represents R s A -> wf A -> kif s = false ->
  tasks A !! cur A = Some v -> tv_status v = TASK_RUNNING -> tv_magic v = STACK_MAGIC ->
  exists A' s', tick A = Some A' /\ represents R s' A' /\ kif s' = false /\
    ticks (kvar s') = u32 (ticks (kvar s) + 1) /\
    intr_timer_handler s = if tv_ticks v =? 0 then Yield s' (fun s'' => Done tt s'') else Done tt s'.
Proof.
  intros (f & Hb & Hr & He) HA Hif Hv Hst Hmg.
  pattern (intr_timer_handler s). eapply timer_then; try done.
  - intros A' Ht Hne m f' Hm Hr' Ho. exists A', (counted m s). split; [done |].
    split; [exists f'; split; [done |]; split; [done |] |].
    + cbn. rewrite He. unfold tick, count_tick in Ht. rewrite Hv in Ht. cbn in Ht.
      rewrite lookup_insert_eq in Ht. cbn in Ht. rewrite decide_False in Ht by done. by injection Ht as <-.
    + rewrite (proj2 (Z.eqb_neq _ _) Hne). done.
  - intros A' Ht Hz m f' Hm Hr' Ho. exists A', (switched m A' (counted m s)). split; [done |].
    split; [by exists f' |]. by rewrite Hz.
Qed.

(** [n] timer interrupts in a row. *)
Fixpoint timer_interrupts (n : nat) : K (M := M) unit :=
  match n with O => cret tt | S n' => intr_timer_handler;; timer_interrupts n' end.
End rules.

(** ** Properties *)

Section properties.
Context {M : Type} {RM : RawMem M} {RL : RawMemLaws M} {LY : Layout}.

(** C31. The timer handler: an overwritten stack magic ends in the assertion;
    otherwise the tick is counted, globally and for the running thread, and
    either its slice shrinks by one and the handler returns, or, the slice being
    used up, one scheduling step is made. *)
Theorem timer_tick_refines (s : kstate M) R A v :
  represents R s A -> wf A -> kif s = false -> tasks A !! cur A = Some v ->
  tv_status v = TASK_RUNNING ->
  (tv_magic v <> STACK_MAGIC -> exists s', intr_timer_handler s = Panic (mk_panic "device/timer.c" 30
     "intr_timer_handler" "cur_thread->stack_magic == 0x19851122") s') /\
  (tv_magic v = STACK_MAGIC -> exists A' s', tick A = Some A' /\ represents R s' A' /\ kif s' = false /\
     ticks (kvar s') = u32 (ticks (kvar s) + 1) /\
     intr_timer_handler s = if tv_ticks v =? 0 then Yield s' (fun s'' => Done tt s'') else Done tt s').
Proof.
  intros Hr HA Hif Hv Hst. split; intros Hmg; [by eapply handler_overrun | by apply handler_tick].
Qed.

(** A thread with [n] ticks left keeps the processor for [n] timer
    interrupts; at the next one it goes to the end of the ready queue and the
    processor is handed over. *)
Theorem slice_lasts (s : kstate M) R A v n : represents R s A -> wf A -> kif s = false ->
  tasks A !! cur A = Some v -> tv_status v = TASK_RUNNING -> tv_magic v = STACK_MAGIC ->
  tv_ticks v = Z.of_nat n ->
  exists A1 s1, timer_interrupts n s = Done tt s1 /\ represents R s1 A1 /\
    cur A1 = cur A /\ queues A1 = queues A /\ u32 (ticks (kvar s1)) = u32 (ticks (kvar s) + Z.of_nat n) /\
    exists A2 s2, intr_timer_handler s1 = Yield s2 (fun s' => Done tt s') /\ represents R s2 A2 /\
      count_tick A1 ≫= sched_next = Some A2.
Proof.
  revert s A v. induction n as [| n IH]; intros s A v Hr HA Hif Hv Hst Hmg Ht; cbn [timer_interrupts].
  - exists A, s. split; [done |]. split; [done |]. split; [done |]. split; [done |]. split.
    { by rewrite Z.add_0_r. }
    destruct (handler_tick s R A v Hr HA Hif Hv Hst Hmg) as (A' & s' & HA' & Hr' & _ & _ & Hh).
    rewrite Ht in Hh. exists A', s'. split; [done |]. split; [done |]. rewrite <- HA'.
    unfold tick, count_tick. rewrite Hv. cbn. rewrite lookup_insert_eq. cbn. by rewrite decide_True.
  - destruct (handler_tick s R A v Hr HA Hif Hv Hst Hmg) as (A' & s' & HA' & Hr' & Hi' & Hk' & Hh).
    rewrite (proj2 (Z.eqb_neq _ _)) in Hh by lia. unfold cbind. rewrite Hh. cbn [obind].
    unfold tick, count_tick in HA'. rewrite Hv in HA'. cbn [mbind option_bind] in HA'.
    set (v1 := with_elapsed _ v) in *. set (A1 := set_task (cur A) v1 A) in *.
    assert (tasks A1 !! cur A1 = Some v1) as Hv1 by apply lookup_insert_eq.
    rewrite Hv1 in HA'. cbn [mbind option_bind] in HA'. change (tv_ticks v1) with (tv_ticks v) in HA'.
    rewrite decide_False in HA' by lia. injection HA' as <-.
    set (A2 := set_task (cur A1) _ A1) in *.
    assert (wf A2) as HA2.
    { eapply (same_status_wf A1 (cur A1) v1); [| done .. ]. by eapply same_status_wf. }
    destruct (IH s' A2 (with_ticks (tv_ticks v - 1) v1) Hr' HA2 Hi') as
      (A3 & s3 & H1 & H2 & H3 & H4 & H5 & H6); [apply lookup_insert_eq | done | done | cbn; lia |].
    exists A3, s3. split; [done |]. split; [done |]. split; [done |]. split; [done |]. split; [| done].
    rewrite H5, Hk'. unfold u32. zlia.
Qed.
End properties.

Module examples.
#[local] Existing Instance demo_layout.
Import Thread.examples.

Lemma timer_tick_refines_witness : exists A' s', tick A0 = Some A' /\ represents is_u32 s' A' /\
  intr_timer_handler st0 = Done tt s'.
Proof.
  destruct (proj2 (timer_tick_refines st0 is_u32 A0 v1 st0_represents A0_wf eq_refl
    ltac:(by vm_compute) eq_refl) eq_refl) as (A' & s' & H1 & H2 & _ & _ & H3).
  exists A', s'. split; [exact H1 |]. split; [exact H2 | exact H3].
Defined.

Lemma slice_lasts_witness : exists A1 s1, timer_interrupts 7 st0 = Done tt s1 /\
  represents is_u32 s1 A1 /\ cur A1 = t1.
Proof.
  destruct (slice_lasts st0 is_u32 A0 v1 7 st0_represents A0_wf eq_refl ltac:(by vm_compute)
    eq_refl eq_refl eq_refl) as (A1 & s1 & H1 & H2 & H3 & _).
  exists A1, s1. split; [exact H1 |]. split; [exact H2 | exact H3].
Defined.
End examples.
