(* ===== verification/Console.v ===== *)
(** device/console.c under the lock of the console: what the three routines put
    on the screen. *)

From S2P Require Import Prelude Monad RawMem Machine CString DList Thread Sync.

Section code.
Context {M : Type} {RM : RawMem M} {LY : Layout}.

Definition console_init : K (M := M) unit := lock_init console_lock.
Definition console_acquire : K (M := M) unit := lock_acquire console_lock.
Definition console_release : K (M := M) unit := lock_release console_lock.
Definition console_put_str (str : Z) : K (M := M) unit :=
  console_acquire;; put_str str;; console_release.
Definition console_put_char (char_asci : Z) : K (M := M) unit :=
  console_acquire;; put_char (u8 char_asci);; console_release.
Definition console_put_int (num : Z) : K (M := M) unit :=
  console_acquire;; put_int num;; console_release.
End code.

(** ** What they print *)

Section console.
Context {M : Type} {RM : RawMem M} {RL : RawMemLaws M} {LY : Layout}.
Implicit Types (s : kstate M) (R : Z -> Prop) (f : Z -> Z) (K : ksys) (G : protocol (kstate M)).

Lemma sys_out R s K o : sys R s K -> sys R (put_out o s) K.
Proof. intros [Hc He Hw Hr]. by split. Qed.
Lemma sys_if R s K b : sys R s K -> sys R (set_if b s) K.
Proof. intros [Hc He Hw Hr]. by split. Qed.

(** [put_str] puts the characters of the string on the screen, unless one of
    them is a backspace in the first cell. *)
Lemma wp_put_str G s R f p l (Q : unit -> kstate M -> Prop) :
  backs (kmem s) R f -> inside R p (len l + 1) -> cstr f p l -> Forall is_u8 l -> len l < 2 ^ 32 ->
  (can_print (cursor s) l = true -> Q tt (put_out (rev l) s)) ->
  (can_print (cursor s) l = false -> forall s', may_fault G s') -> wp G (put_str p) s Q.
Proof.
  intros Hb Hi Hs Hu Hl HQ HF. unfold put_str. pose proof (len_nonneg l) as Hl0.
  eapply (wp_while _ _ (fun n a s' => exists l2 o, n = length l2 /\ cstr f a l2 /\ inside R a (len l2 + 1) /\
    Forall is_u8 l2 /\ rev l = rev l2 ++ o /\ s' = put_out o s /\ can_print (cursor s) l = can_print (cursor s') l2) _ (length l)).
  - clear Hi Hs Hu. intros n a s' (l2 & o & -> & Hs & Hi & Hu & Hr & -> & Hcp). pose proof (len_nonneg l2).
    apply wp_bind. eapply wp_ld8; [exact Hb | apply Hi; unfold span; lia |]. intros _.
    destruct l2 as [| c l2]; cbn [cstr] in Hs.
    + rewrite Hs. cbn [Z.eqb]. apply wp_ret. rewrite Hr in HQ. by apply HQ.
    + destruct Hs as (-> & Hc & Hs). apply Forall_cons in Hu as [Hc8 Hu]. rewrite len_cons in *.
      rewrite (proj2 (Z.eqb_neq c 0)) by done. apply wp_bind, wp_put_char; rewrite u8_small by done; intros Hc1.
      2: { apply HF. rewrite Hcp. cbn [can_print] in *. destruct (negb _); [done | by cbn]. }
      apply wp_ret. exists (length l2).
      split; [cbn; lia |]. exists l2, (c :: o). split; [done |]. split; [done |].
      split; [intros b Hbb; apply Hi; unfold span in *; lia |]. split; [done |].
      split; [by rewrite Hr; cbn; rewrite <- app_assoc |]. split; [by rewrite put_out_app |].
      rewrite Hcp, cursor_put_one. cbn [can_print] in *. by destruct (negb _).
  - exists l, []. do 4 (split; [done |]). split; [by rewrite app_nil_r |]. split; [by destruct s | done].
  - unfold len in Hl. bounded.
Qed.

(** Something is printed under the lock of the console. *)
Lemma wp_console G s R K h n (c : cmd (kstate M) unit) o ok (Q : unit -> kstate M -> Prop) :
  sys R s K -> lock_ready K console_lock h n -> 0 <= n ->
  (forall m K', sys R (set_mem m s) K' -> data K' = data K -> own K' = own K -> forall Q' : unit -> kstate M -> Prop,
     (ok = true -> Q' tt (put_out o (set_mem m s))) -> wp G c (set_mem m s) Q') ->
  (ok = true -> forall m K', sys R (put_out o (set_mem m s)) K' -> ks K' = ks K -> data K' = data K -> own K' = own K ->
     lock_ready K' console_lock (cur (ks K)) (lock_count K h n - 1) -> locks_but console_lock K K' ->
     Q tt (put_out o (set_mem m s))) ->
  wp G (lock_acquire console_lock;; c;; lock_release console_lock) s Q.
Proof.
  intros Hs Hl Hn Hc HQ. apply wp_bind. eapply wp_lock_ready; [exact Hs | exact Hl |].
  intros m1 K1 Hs1 Hk1 Hd1 Ho1 Hl1 Hb1. apply wp_bind. eapply Hc; [exact Hs1 | exact Hd1 | exact Ho1 |]. intros Hok.
  eapply wp_unlock_counts; [apply sys_out, Hs1 | by rewrite Hk1 | unfold lock_count; case_match; lia |].
  intros m2 Hs2. change (set_mem m2 (put_out o (set_mem m1 s))) with (put_out o (set_mem m2 s)) in *.
  eapply (HQ Hok); [exact Hs2 | done | done | done | | eapply locks_but_trans; [exact Hb1 | apply set_lock_but]].
  destruct Hl as (_ & Hmax & _). cbn [ks set_lock].
  split; [cbn; by rewrite lookup_insert_eq, Hk1 |]. split; [unfold lock_count; case_match; lia |].
  left. by rewrite <- Hk1.
Qed.

Lemma wp_console_put_str G s R K h n p l (Q : unit -> kstate M -> Prop) :
  sys R s K -> lock_ready K console_lock h n -> 0 <= n ->
  inside (own K) p (len l + 1) -> cstr (data K) p l -> len l < 2 ^ 32 ->
  (can_print (cursor s) l = true -> forall m K', sys R (put_out (rev l) (set_mem m s)) K' -> ks K' = ks K -> data K' = data K -> own K' = own K ->
     lock_ready K' console_lock (cur (ks K)) (lock_count K h n - 1) -> locks_but console_lock K K' ->
     Q tt (put_out (rev l) (set_mem m s))) ->
  (can_print (cursor s) l = false -> forall s', may_fault G s') ->
  wp G (console_put_str p) s Q.
Proof.
  intros Hs Hl Hn Hi Hstr Hlen HQ HF. eapply wp_console; [exact Hs | exact Hl | exact Hn | | exact HQ].
  intros m K' Hs' Hd Ho Q' HQ'. pose proof (sys_backs _ _ _ Hs') as Hb. rewrite Hd, Ho in Hb.
  eapply wp_put_str; [exact Hb | exact Hi | exact Hstr | | exact Hlen | exact HQ' | exact HF].
  eapply cstr_bytes; [exact Hb | exact Hi | exact Hstr].
Qed.

(** The digits of a number. *)
Lemma wp_console_put_int G s R K h n v (Q : unit -> kstate M -> Prop) :
  sys R s K -> lock_ready K console_lock h n -> 0 <= n ->
  (forall m K', sys R (put_out (rev (int_digits v)) (set_mem m s)) K' -> ks K' = ks K -> data K' = data K ->
     own K' = own K -> lock_ready K' console_lock (cur (ks K)) (lock_count K h n - 1) -> locks_but console_lock K K' ->
     Q tt (put_out (rev (int_digits v)) (set_mem m s))) ->
  wp G (console_put_int v) s Q.
Proof.
  intros Hs Hl Hn HQ. eapply (wp_console _ _ _ _ _ _ _ _ true); [exact Hs | exact Hl | exact Hn | | intros _; exact HQ].
  intros m K' Hs' Hd Ho Q' HQ'. by apply wp_modify, HQ'.
Qed.

Lemma wp_console_put_char G s R K h n c (Q : unit -> kstate M -> Prop) :
  sys R s K -> lock_ready K console_lock h n -> 0 <= n ->
  (can_print (cursor s) [u8 c] = true -> forall m K', sys R (put_out [u8 c] (set_mem m s)) K' -> ks K' = ks K -> data K' = data K -> own K' = own K ->
     lock_ready K' console_lock (cur (ks K)) (lock_count K h n - 1) -> locks_but console_lock K K' ->
     Q tt (put_out [u8 c] (set_mem m s))) ->
  (can_print (cursor s) [u8 c] = false -> forall s', may_fault G s') ->
  wp G (console_put_char c) s Q.
Proof.
  intros Hs Hl Hn HQ HF. eapply wp_console; [exact Hs | exact Hl | exact Hn | | exact HQ].
  intros m K' Hs' Hd Ho Q' HQ'. apply wp_put_char; rewrite (u8_small (u8 c)) by apply u8_range; [exact HQ' |].
  intros Hc. by apply HF.
Qed.
End console.
