(* ===== verification/Steps.v ===== *)
(** The scheduler as a state machine: what can happen to it, one event after the
    other, as a step relation; what holds in every state that can be reached;
    and the code of thread/thread.c and device/timer.c as an implementation. *)

From S2P Require Import Prelude Monad RawMem Machine CString DList Thread Timer.

(** A timer interrupt; the running thread gives up the processor with a status;
    it wakes up another thread. *)
Inductive event := Tick | Wait (stat : task_status) | Wake (t : Z).

Inductive step {LY : Layout} (A : sched) : event -> sched -> Prop :=
| step_tick v A' : tasks A !! cur A = Some v -> tv_magic v = STACK_MAGIC ->
    tick A = Some A' -> step A Tick A'
| step_wait v stat A' : tasks A !! cur A = Some v -> waiting_code (code stat) = true ->
    sched_next (blocked stat v A) = Some A' -> step A (Wait stat) A'
| step_wake t v q : tasks A !! t = Some v -> waiting_code (code (tv_status v)) = true ->
    queued_nowhere A t -> queues A !! thread_ready_list = Some q ->
    step A (Wake t) (unblocked t v q A).

Inductive steps {LY : Layout} (A : sched) : list event -> sched -> Prop :=
| steps_nil : steps A [] A
| steps_snoc es e A1 A2 : steps A es A1 -> step A1 e A2 -> steps A (es ++ [e]) A2.

(** The step an event makes, as a function. *)
Definition do_step {LY : Layout} (A : sched) (e : event) : option sched :=
  match e with
  | Tick =>
      v ← tasks A !! cur A; if decide (tv_magic v = STACK_MAGIC) then tick A else None
  | Wait stat =>
      v ← tasks A !! cur A; if waiting_code (code stat) then sched_next (blocked stat v A) else None
  | Wake t =>
      v ← tasks A !! t; q ← queues A !! thread_ready_list;
      if waiting_code (code (tv_status v)) && bool_decide (map_Forall (fun _ ts => t ∉ ts) (queues A))
      then Some (unblocked t v q A) else None
  end.

Fixpoint do_steps {LY : Layout} (A : sched) (es : list event) : option sched :=
  match es with [] => Some A | e :: es => A1 ← do_step A e; do_steps A1 es end.

Lemma do_step_spec {LY : Layout} A e A' : do_step A e = Some A' <-> step A e A'.
Proof.
  split.
  - destruct e as [| stat | t]; cbn [do_step].
    + destruct (tasks A !! cur A) as [v |] eqn:Hv; [cbn [mbind option_bind] | done].
      case_decide; [| done]. by apply step_tick with v.
    + destruct (tasks A !! cur A) as [v |] eqn:Hv; [cbn [mbind option_bind] | done].
      destruct (waiting_code (code stat)) eqn:Hw; [| done].
      intros Hn. exact (step_wait A v stat A' Hv Hw Hn).
    + destruct (tasks A !! t) as [v |] eqn:Hv; [cbn [mbind option_bind] | done].
      destruct (queues A !! thread_ready_list) as [q |] eqn:Hq; [cbn [mbind option_bind] | done].
      destruct (waiting_code (code (tv_status v))) eqn:Hw; [cbn [andb] | done].
      destruct (bool_decide_reflect (map_Forall (fun _ ts => t ∉ ts) (queues A))) as [Hn |]; [| done].
      intros [= <-]. by apply step_wake.
  - intros [v B Hv Hm Ht | v stat B Hv Hw Hn | t v q Hv Hw Hnow Hq]; cbn [do_step];
      rewrite ?Hv; cbn [mbind option_bind].
    + by rewrite decide_True.
    + by rewrite Hw.
    + rewrite Hq. cbn [mbind option_bind]. rewrite Hw, bool_decide_true; [done |]. exact Hnow.
Qed.

Lemma do_steps_steps {LY : Layout} es A' : forall B, do_steps B es = Some A' ->
  forall es0 A0, steps A0 es0 B -> steps A0 (es0 ++ es) A'.
Proof.
  induction es as [| e es IH]; intros B Hd es0 A0 Hs; cbn [do_steps] in Hd.
  - injection Hd as <-. by rewrite app_nil_r.
  - destruct (do_step B e) as [B1 |] eqn:He; [cbn [mbind option_bind] in Hd | done].
    apply do_step_spec in He. replace (es0 ++ e :: es) with ((es0 ++ [e]) ++ es) by (by rewrite <- app_assoc).
    apply (IH B1 Hd). by eapply steps_snoc.
Qed.

(** ** What is invariant *)

(** A scheduler whose running thread is marked as running. *)
Record sound {LY : Layout} (A : sched) : Prop := mk_sound {
  so_wf : wf A;
  so_running : cur_status A TASK_RUNNING }.

Section invariant.
Context {LY : Layout}.

Lemma waiting_not_ready stat : waiting_code (code stat) = true -> stat <> TASK_READY /\ stat <> TASK_RUNNING.
Proof. by destruct stat. Qed.

Lemma sched_next_sound A A' st : wf A -> cur_status A st -> st <> TASK_READY ->
  sched_next A = Some A' -> sound A'.
Proof.
  intros HA Hst Hnr Hn. pose proof (sched_next_wf A st HA Hst Hnr) as Hs. rewrite Hn in Hs.
  destruct Hs. by split.
Qed.

Lemma tick_cases A A' v : sound A -> tasks A !! cur A = Some v -> tick A = Some A' ->
  exists v1, tv_status v1 = TASK_RUNNING /\ tv_kstack v1 = tv_kstack v /\
    ((tv_ticks v = 0 /\ sched_next (set_task (cur A) v1 A) = Some A') \/
     (tv_ticks v <> 0 /\ A' = set_task (cur A) v1 A)).
Proof.
  intros [HA (w & Hw & Hr)] Hv Ht. rewrite Hv in Hw. injection Hw as <-.
  unfold tick, count_tick in Ht. rewrite Hv in Ht. cbn [mbind option_bind] in Ht.
  set (v1 := with_elapsed _ v) in Ht.
  assert (tasks (set_task (cur A) v1 A) !! cur (set_task (cur A) v1 A) = Some v1) as Hv1 by apply lookup_insert_eq.
  rewrite Hv1 in Ht. cbn [mbind option_bind] in Ht. change (tv_ticks v1) with (tv_ticks v) in Ht. case_decide as Hz.
  - exists v1. split; [exact Hr |]. split; [done |]. by left.
  - exists (with_ticks (tv_ticks v - 1) v1). split; [exact Hr |]. split; [done |]. right. split; [done |].
    injection Ht as <-. unfold set_task. cbn [esp queues tasks all_threads]. f_equal. apply insert_insert_eq.
Qed.

Lemma step_sound A e A' : sound A -> step A e A' -> sound A'.
Proof.
  intros HA Hs. pose proof HA as [Hwf Hrun]. destruct Hs as [v A' Hv Hm Ht | v stat A' Hv Hw Hn | t v q Hv Hw Hnow Hq].
  - destruct (tick_cases A A' v HA Hv Ht) as (v1 & Hr1 & Hk & Hcase).
    pose proof Hrun as (w & Hw & Hst). assert (w = v) as -> by congruence.
    assert (wf (set_task (cur A) v1 A)) as Hwf1 by (eapply same_status_wf; [done | done | congruence | done]).
    assert (cur_status (set_task (cur A) v1 A) TASK_RUNNING) as Hc1
      by (exists v1; split; [apply lookup_insert_eq | done]).
    destruct Hcase as [[_ Hn] | [_ ->]]; [| by split]. by eapply sched_next_sound.
  - pose proof Hrun as (w & Hw' & Hst). assert (w = v) as -> by congruence.
    eapply (sched_next_sound (blocked stat v A)); [by apply blocked_wf | | by apply waiting_not_ready | done].
    exists (with_status stat v). split; [apply lookup_insert_eq | done].
  - split; [by apply unblocked_wf |]. destruct Hrun as (w & Hw' & Hst). exists w. split; [| done].
    change (<[t := with_status TASK_READY v]> (tasks A) !! cur A = Some w).
    rewrite lookup_insert_ne; [done |]. intros Heq. subst t. assert (w = v) as -> by congruence. by rewrite Hst in Hw.
Qed.

Lemma steps_sound A es A' : sound A -> steps A es A' -> sound A'.
Proof. intros HA. induction 1; [done |]. by eapply step_sound. Qed.

(** The threads and queues there are. *)
Lemma step_objects A e A' : sound A -> step A e A' -> same_objects A A'.
Proof.
  intros HA Hs. pose proof HA as [Hwf Hrun]. destruct Hs as [v A' Hv Hm Ht | v stat A' Hv Hw Hn | t v q Hv Hw Hnow Hq].
  - destruct (tick_cases A A' v HA Hv Ht) as (v1 & _ & _ & Hcase).
    assert (same_objects A (set_task (cur A) v1 A)) as Ho by (apply set_task_objects; by exists v).
    destruct Hcase as [[_ Hn] | [_ ->]]; [| done].
    eapply same_objects_trans; [exact Ho | by apply sched_next_objects].
  - eapply same_objects_trans; [apply set_task_objects; by exists v | by apply sched_next_objects].
  - eapply same_objects_trans; [apply (set_queue_objects A thread_ready_list (t :: q)); by exists q |].
    apply set_task_objects. by exists v.
Qed.

Lemma steps_objects A es A' : sound A -> steps A es A' -> same_objects A A'.
Proof.
  intros HA. induction 1 as [| es e A1 A2 Hes IH Hs]; [by split |].
  eapply same_objects_trans; [exact IH |]. eapply step_objects; [by eapply steps_sound | done].
Qed.

Lemma steps_app A es1 A1 es2 A2 : steps A es1 A1 -> steps A1 es2 A2 -> steps A (es1 ++ es2) A2.
Proof.
  intros H1. induction 1 as [| es e B1 B2 _ IH Hs]; [by rewrite app_nil_r |].
  rewrite app_assoc. by eapply steps_snoc.
Qed.
End invariant.

(** ** The code *)

Section code.
Context {M : Type} {RM : RawMem M} {LY : Layout}.

(** A timer interrupt turns interrupts off before its handler runs. *)
Definition perform (e : event) : K (M := M) unit :=
  match e with
  | Tick => modify (set_if false);; intr_timer_handler
  | Wait stat => thread_block stat
  | Wake t => thread_unblock t
  end.

(** The state in which the next event finds the machine: the code returned, or
    it handed over the processor and another thread goes on. *)
Definition after {A} (o : outcome (kstate M) A) : option (kstate M) :=
  match o with Done _ s => Some s | Yield s _ => Some s | _ => None end.

Fixpoint performs (es : list event) (s : kstate M) : option (kstate M) :=
  match es with [] => Some s | e :: es => s ← after (perform e s); performs es s end.
End code.

Section refinement.
Context {M : Type} {RM : RawMem M} {RL : RawMemLaws M} {LY : Layout}.
Implicit Types (s : kstate M) (R : Z -> Prop).

Lemma represents_if R s A b : represents R s A -> represents R (set_if b s) A.
Proof. intros (f & Hf). by exists f. Qed.

Lemma perform_step s R A e A' : represents R s A -> sound A -> step A e A' ->
  exists s', after (perform e s) = Some s' /\ represents R s' A'.
Proof.
  intros Hr HA Hs. pose proof HA as [Hwf Hrun]. destruct Hs as [v A' Hv Hm Ht | v stat A' Hv Hw Hn | t v q Hv Hw Hnow Hq].
  - pose proof Hrun as (w & Hw' & Hst). assert (w = v) as -> by congruence.
    destruct (handler_tick (set_if false s) R A v (represents_if _ _ _ _ Hr) Hwf eq_refl Hv Hst Hm)
      as (B & s' & HB & Hr' & _ & _ & Hh). assert (B = A') as -> by congruence.
    exists s'. split; [| exact Hr']. unfold perform, cbind, modify. cbn [obind]. rewrite Hh. by case_match.
  - pose proof Hrun as (w & Hw' & Hst). assert (w = v) as -> by congruence. destruct Hr as (f & Hb & Hr & He).
    pose proof (blocked_wf A v stat Hwf Hv Hst Hw) as HB. cbn [perform].
    pattern (thread_block stat s). eapply thread_block_then; try done.
    intros m f' k Hm Hr' _ _. eexists. split; [done |]. by exists f'.
  - destruct Hr as (f & Hb & Hr & He).
    destruct (proj1 (wp_seq_only (thread_unblock t) s (fun _ s' => represents R s' (unblocked t v q A))))
      as ([] & s' & Hc & Hr'); [| exists s'; cbn [perform]; by rewrite Hc].
    eapply wp_thread_unblock; [exact Hb | exact Hr | done .. |]. intros m f' Hm Hr' _. by exists f'.
Qed.

Lemma performs_app es1 es2 s : performs (es1 ++ es2) s = performs es1 s ≫= performs es2.
Proof.
  revert s. induction es1 as [| e es IH]; intros s; cbn [performs app mbind option_bind]; [done |].
  destruct (after (perform e s)); [apply IH | done].
Qed.

Lemma performs_steps s R A es A' : represents R s A -> sound A -> steps A es A' ->
  exists s', performs es s = Some s' /\ represents R s' A'.
Proof.
  intros Hr HA. induction 1 as [| es e A1 A2 Hes IH Hs]; [by exists s |].
  destruct IH as (s1 & H1 & Hr1).
  destruct (perform_step s1 R A1 e A2 Hr1 (steps_sound _ _ _ HA Hes) Hs) as (s2 & H2 & Hr2).
  exists s2. split; [| exact Hr2]. rewrite performs_app, H1. cbn [mbind option_bind performs]. by rewrite H2.
Qed.

(** Only threads that are in no queue are woken: [sema_up] takes a thread out of
    the waiters first. *)
Definition wakes_ok (A : sched) (e : event) : Prop :=
  match e with Wake t => is_Some (tasks A !! t) /\ queued_nowhere A t | _ => True end.
Fixpoint wakes_fine (A : sched) (es : list event) : Prop :=
  match es with
  | [] => True
  | e :: es => wakes_ok A e /\ match do_step A e with Some A1 => wakes_fine A1 es | None => True end
  end.

(** Whatever the event, the code makes the step of the machine, or there is none
    and the code ends in an assertion. *)
Lemma perform_any s R A e : represents R s A -> sound A -> wakes_ok A e ->
  match do_step A e with
  | Some A' => exists s', after (perform e s) = Some s' /\ represents R s' A'
  | None => exists p s', perform e s = Panic p s'
  end.
Proof.
  intros Hr HA Hok. destruct (do_step A e) as [A' |] eqn:Hd.
  { apply do_step_spec in Hd. by eapply perform_step. }
  pose proof HA as [Hwf Hrun]. pose proof Hrun as (v & Hv & Hst).
  destruct e as [| stat | t]; cbn [do_step] in Hd; rewrite ?Hv in Hd; cbn [mbind option_bind] in Hd.
  - pose proof (represents_if _ _ _ false Hr) as Hr'.
    assert (tv_magic v <> STACK_MAGIC) as Hm.
    { intros Hm. rewrite decide_True in Hd by done.
      destruct (handler_tick (set_if false s) R A v Hr' Hwf eq_refl Hv Hst Hm) as (A' & _ & Ht & _). congruence. }
    destruct (handler_overrun (set_if false s) R A v Hr' Hv Hm) as [s' Hs']. by exists stack_overrun, s'.
  - destruct (waiting_code (code stat)) eqn:Hw.
    + destruct Hr as (f & Hb & Hr & He). exists nobody_ready. cbn [perform]. pattern (thread_block stat s).
      eapply thread_block_stuck; [done .. | by apply blocked_wf | exact Hd |]. intros s'. by exists s'.
    + destruct (thread_block_refuses s stat Hw) as [s' Hs']. by exists block_refused, s'.
  - destruct Hok as [[w Hw] Hnow]. destruct (wf_queue _ Hwf) as [q Hq].
    rewrite Hw in Hd. cbn [mbind option_bind] in Hd. rewrite Hq in Hd. cbn [mbind option_bind] in Hd.
    rewrite (bool_decide_true (map_Forall _ _)) in Hd by exact Hnow. rewrite andb_true_r in Hd.
    destruct (waiting_code (code (tv_status w))) eqn:Hc; [done |].
    destruct Hr as (f & Hb & Hr & _). destruct (thread_unblock_refuses s R f A t w Hb Hr Hw Hc) as [s' Hs'].
    by exists unblock_refused, s'.
Qed.

Lemma performs_any es : forall s R A, represents R s A -> sound A -> wakes_fine A es ->
  match performs es s with
  | Some s' => exists A', do_steps A es = Some A' /\ represents R s' A'
  | None => exists es1 e es2 s1 p s2, es = es1 ++ e :: es2 /\ performs es1 s = Some s1 /\ perform e s1 = Panic p s2
  end.
Proof.
  induction es as [| e es IH]; intros s R A Hr HA Hok; cbn [performs do_steps]; [by exists A |].
  destruct Hok as [He Hok]. pose proof (perform_any s R A e Hr HA He) as Hp.
  destruct (do_step A e) as [A1 |] eqn:Hd.
  - destruct Hp as (s1 & Hs1 & Hr1). rewrite Hs1. cbn [mbind option_bind].
    assert (sound A1) as HA1 by (eapply step_sound; [exact HA | by apply do_step_spec]).
    specialize (IH s1 R A1 Hr1 HA1 Hok). destruct (performs es s1) as [s' |]; [exact IH |].
    destruct IH as (es1 & e1 & es2 & s2 & p & s3 & -> & H1 & H2).
    exists (e :: es1), e1, es2, s2, p, s3. split; [done |]. split; [| done]. cbn [performs]. by rewrite Hs1.
  - destruct Hp as (p & s1 & Hs1). rewrite Hs1. cbn [after mbind option_bind].
    by exists [], e, es, s, p, s1.
Qed.

(** What soundness says of the threads one by one. *)
Lemma sound_threads A : sound A -> exists q, queues A !! thread_ready_list = Some q /\ NoDup q /\
  forall t v, tasks A !! t = Some v ->
    (tv_status v = TASK_RUNNING <-> t = cur A) /\ (tv_status v = TASK_READY <-> t ∈ q) /\
    (t = cur A \/ t ∈ q \/ waiting_code (code (tv_status v)) = true \/ tv_status v = TASK_DIED).
Proof.
  intros [Hwf (w & Hw & Hst)].
  destruct (wf_queue _ Hwf) as [q Hq]. exists q. split; [exact Hq |].
  split; [by eapply wf_nodup |]. intros t v Hv.
  assert (tv_status v = TASK_RUNNING <-> t = cur A) as H1.
  { split; [by eapply wf_running |]. intros ->. congruence. }
  assert (tv_status v = TASK_READY <-> t ∈ q) as H2.
  { split; [| intros Hin; by eapply wf_ready].
    intros Hr. destruct (wf_runnable _ Hwf _ _ Hv Hr) as (q' & Hq' & Hin). congruence. }
  split; [exact H1 |]. split; [exact H2 |].
  destruct (tv_status v) eqn:Hsv; [left; by apply H1 | right; left; by apply H2 | auto ..].
Qed.

(** ** Properties *)

(** C6. Whatever happens to the scheduler, timer interrupts, threads that give up
    the processor with any status and threads that wake others which are in no
    queue, in any order: the code runs into no fault and no endless loop, and
    as long as no assertion has failed the memory holds the same threads and the
    same queues as before, exactly the thread on whose stack the processor runs
    is marked as running, the threads marked as ready are exactly those of the
    ready queue, each there once, and every other thread has a status that only
    [thread_unblock] ends. *)
Theorem reachable_states_sound s R A es : represents R s A -> sound A -> wakes_fine A es ->
  match performs es s with
  | Some s' => exists A' q, represents R s' A' /\ same_objects A A' /\ wf A' /\
      queues A' !! thread_ready_list = Some q /\ NoDup q /\
      is_Some (tasks A' !! page_of (kesp s')) /\
      forall t v, tasks A' !! t = Some v ->
        (tv_status v = TASK_RUNNING <-> t = page_of (kesp s')) /\ (tv_status v = TASK_READY <-> t ∈ q) /\
        (t = page_of (kesp s') \/ t ∈ q \/ waiting_code (code (tv_status v)) = true \/ tv_status v = TASK_DIED)
  | None => exists es1 e es2 s1 p s2, es = es1 ++ e :: es2 /\ performs es1 s = Some s1 /\ perform e s1 = Panic p s2
  end.
Proof.
  intros Hr HA Hok. pose proof (performs_any es s R A Hr HA Hok) as Hp.
  destruct (performs es s) as [s' |]; [| exact Hp]. destruct Hp as (A' & Hd & Hr').
  pose proof (do_steps_steps es A' A Hd [] A (steps_nil A)) as Hs. cbn [app] in Hs.
  pose proof (steps_sound _ _ _ HA Hs) as HA'. destruct (sound_threads A' HA') as (q & Hq & Hn & Ht).
  assert (page_of (kesp s') = cur A') as Hc by (destruct Hr' as (f & _ & _ & He); by rewrite He).
  rewrite Hc. exists A', q. split; [exact Hr' |]. split; [by eapply steps_objects |]. split; [apply HA' |].
  split; [exact Hq |]. split; [exact Hn |]. split; [| exact Ht].
  destruct (so_running _ HA') as (w & Hw & _). by exists w.
Qed.

(** C5. The code implements the state machine: from a memory that represents the
    scheduler, each event of a run, performed by the thread that has the
    processor then, ends without a fault, a failed assertion or an endless
    loop in a memory that represents the next state. *)
Theorem runs_refine_steps s R A es A' : represents R s A -> sound A -> steps A es A' ->
  exists s', performs es s = Some s' /\ represents R s' A' /\ sound A'.
Proof.
  intros Hr HA Hs. destruct (performs_steps s R A es A' Hr HA Hs) as (s' & H1 & H2).
  exists s'. split; [exact H1 |]. split; [exact H2 |]. by eapply steps_sound.
Qed.
End refinement.

(** The main thread uses up a tick and blocks, the other one wakes it and
    waits. *)
Module examples.
#[local] Existing Instance demo_layout.
Import Thread.examples.

Definition run : list event := [Tick; Wait TASK_BLOCKED; Wake t1; Wait TASK_WAITING].

Lemma A0_sound : sound A0.
Proof. split; [apply A0_wf | apply A0_running]. Qed.

Lemma run_steps A' : do_steps A0 run = Some A' -> steps A0 run A'.
Proof. intros Hd. by apply (do_steps_steps run A' A0 Hd [] A0 (steps_nil A0)). Qed.

Lemma nowhere_spec A t : bool_decide (map_Forall (fun _ ts => t ∉ ts) (queues A)) = true -> queued_nowhere A t.
Proof. intros Hb. apply bool_decide_eq_true in Hb. exact Hb. Qed.

Lemma run_wakes : wakes_fine A0 run.
Proof.
  unfold run. split; [done |]. destruct (do_step A0 Tick) as [A1 |] eqn:H1; [| done].
  split; [done |]. destruct (do_step A1 (Wait TASK_BLOCKED)) as [A2 |] eqn:H2; [| done].
  assert (do_steps A0 [Tick; Wait TASK_BLOCKED] = Some A2) as H12.
  { cbn [do_steps]. rewrite H1. cbn [mbind option_bind]. by rewrite H2. }
  assert (match do_steps A0 [Tick; Wait TASK_BLOCKED] with Some A => wakes_ok A (Wake t1) | None => True end) as Hw.
  { clear. destruct (do_steps A0 [Tick; Wait TASK_BLOCKED]) as [A |] eqn:Hd; [| done]. split.
    - assert (option_map (fun A => bool_decide (is_Some (tasks A !! t1))) (do_steps A0 [Tick; Wait TASK_BLOCKED]) = Some true)
        as Hc by (clear; vm_compute; reflexivity).
      rewrite Hd in Hc. injection Hc as Hc. by apply bool_decide_eq_true in Hc.
    - apply nowhere_spec.
      assert (option_map (fun A => bool_decide (map_Forall (fun _ ts => t1 ∉ ts) (queues A))) (do_steps A0 [Tick; Wait TASK_BLOCKED]) = Some true)
        as Hc by (clear; vm_compute; reflexivity).
      rewrite Hd in Hc. by injection Hc as Hc. }
  rewrite H12 in Hw. split; [exact Hw |].
  destruct (do_step A2 (Wake t1)) as [A3 |]; [| done]. split; [done |]. by destruct (do_step A3 _).
Qed.

Lemma reachable_states_sound_witness : exists s' A', performs run st0 = Some s' /\
  represents is_u32 s' A' /\ wf A' /\ is_Some (tasks A' !! page_of (kesp s')).
Proof.
  destruct (do_steps A0 run) as [A1 |] eqn:Hd; [| by vm_compute in Hd].
  destruct (performs_steps st0 is_u32 A0 run A1 st0_represents A0_sound (run_steps A1 Hd)) as (s' & Hp & _).
  pose proof (reachable_states_sound st0 is_u32 A0 run st0_represents A0_sound run_wakes) as Hs.
  rewrite Hp in Hs. destruct Hs as (A' & q & H1 & _ & H2 & _ & _ & H3 & _). exists s', A'.
  split; [exact Hp |]. split; [exact H1 |]. split; [exact H2 | exact H3].
Defined.

Lemma runs_refine_steps_witness : exists s', performs run st0 = Some s' /\ page_of (kesp s') = t1.
Proof.
  destruct (do_steps A0 run) as [A' |] eqn:Hd; [| by vm_compute in Hd].
  destruct (runs_refine_steps st0 is_u32 A0 run A' st0_represents A0_sound (run_steps A' Hd))
    as (s' & H1 & (f & _ & _ & He) & _).
  exists s'. split; [exact H1 |]. rewrite He.
  assert (option_map cur (do_steps A0 run) = Some t1) as Hc by (by vm_compute).
  rewrite Hd in Hc. by injection Hc.
Defined.
End examples.
