(* ===== verification/Keyboard.v ===== *)
(** device/keyboard.c: from scan codes to characters in the keyboard buffer. *)

From S2P Require Import Prelude Monad RawMem Machine CString DList Thread Sync Ioqueue Interrupt Screen.

Definition KBD_BUF_PORT : Z := 0x60.
Definition shift_l_make : Z := 0x2a.
Definition shift_r_make : Z := 0x36.
Definition alt_l_make : Z := 0x38.
Definition alt_r_make : Z := 0xe038.
Definition ctrl_l_make : Z := 0x1d.
Definition ctrl_r_make : Z := 0xe01d.
Definition caps_lock_make : Z := 0x3a.

(** The characters of the make codes, without and with shift. *)
#[local] Open Scope char_scope.
Definition keymap : list (Z * Z) := [
  (0, 0); (27, 27); (chr "1", chr "!"); (chr "2", chr "@"); (chr "3", chr "#");
  (chr "4", chr "$"); (chr "5", chr "%"); (chr "6", chr "^"); (chr "7", chr "&");
  (chr "8", chr "*"); (chr "9", chr "("); (chr "0", chr ")"); (chr "-", chr "_");
  (chr "=", chr "+"); (8, 8); (9, 9); (chr "q", chr "Q"); (chr "w", chr "W");
  (chr "e", chr "E"); (chr "r", chr "R"); (chr "t", chr "T"); (chr "y", chr "Y");
  (chr "u", chr "U"); (chr "i", chr "I"); (chr "o", chr "O"); (chr "p", chr "P");
  (chr "[", chr "{"); (chr "]", chr "}"); (13, 13); (0, 0); (chr "a", chr "A");
  (chr "s", chr "S"); (chr "d", chr "D"); (chr "f", chr "F"); (chr "g", chr "G");
  (chr "h", chr "H"); (chr "j", chr "J"); (chr "k", chr "K"); (chr "l", chr "L");
  (chr ";", chr ":"); (chr "'", 34); (chr "`", chr "~"); (0, 0); (chr "\", chr "|");
  (chr "z", chr "Z"); (chr "x", chr "X"); (chr "c", chr "C"); (chr "v", chr "V");
  (chr "b", chr "B"); (chr "n", chr "N"); (chr "m", chr "M"); (chr ",", chr "<");
  (chr ".", chr ">"); (chr "/", chr "?"); (0, 0); (chr "*", chr "*"); (0, 0); (32, 32);
  (0, 0)]%Z.
#[local] Close Scope char_scope.

(** ** The handler *)

Definition set_ctrl (b : bool) (v : kvars) : kvars :=
  mk_kvars (main_thread v) (thread_tag v) (next_pid v) (ticks v) b (shift_status v) (alt_status v)
    (caps_lock_status v) (ext_scancode v).
Definition set_shift (b : bool) (v : kvars) : kvars :=
  mk_kvars (main_thread v) (thread_tag v) (next_pid v) (ticks v) (ctrl_status v) b (alt_status v)
    (caps_lock_status v) (ext_scancode v).
Definition set_alt (b : bool) (v : kvars) : kvars :=
  mk_kvars (main_thread v) (thread_tag v) (next_pid v) (ticks v) (ctrl_status v) (shift_status v) b
    (caps_lock_status v) (ext_scancode v).
Definition set_caps (b : bool) (v : kvars) : kvars :=
  mk_kvars (main_thread v) (thread_tag v) (next_pid v) (ticks v) (ctrl_status v) (shift_status v)
    (alt_status v) b (ext_scancode v).
Definition set_ext (b : bool) (v : kvars) : kvars :=
  mk_kvars (main_thread v) (thread_tag v) (next_pid v) (ticks v) (ctrl_status v) (shift_status v)
    (alt_status v) (caps_lock_status v) b.

Definition is_ctrl (c : Z) : bool := (ctrl_l_make =? c) || (ctrl_r_make =? c).
Definition is_shift (c : Z) : bool := (shift_l_make =? c) || (shift_r_make =? c).
Definition is_alt (c : Z) : bool := (alt_l_make =? c) || (alt_r_make =? c).

(** The make codes the handler looks at, and those that only shift changes. *)
Definition known_make (c : Z) : bool :=
  ((0 <? c) && (c <? 0x3b)) || (alt_r_make =? c) || (ctrl_r_make =? c).
Definition shift_only (c : Z) : bool :=
  (c <? 0x0e) || (c =? 0x1a) || (c =? 0x1b) || (c =? 0x2b) || (c =? 0x27) || (c =? 0x28) ||
  (c =? 0x29) || (c =? 0x33) || (c =? 0x34) || (c =? 0x35).

Definition shifted (c : Z) (shift_down_last caps_lock_last : bool) : bool :=
  if shift_only c then shift_down_last
  else if shift_down_last && caps_lock_last then false
  else shift_down_last || caps_lock_last.

Definition key_char (index : Z) (shift : bool) : option Z :=
  p ← keymap !! Z.to_nat index; Some (if shift then snd p else fst p).

Section code.
Context {M : Type} {RM : RawMem M} {LY : Layout}.

Definition upd_var (g : kvars -> kvars) : K (M := M) unit :=
  modify (fun s => set_var (g (kvar s)) s).

Definition intr_keyboard_handler : K (M := M) unit :=
  do shift_down_last <- get (fun s => shift_status (kvar s));
  do caps_lock_last <- get (fun s => caps_lock_status (kvar s));
  do scancode <- inb KBD_BUF_PORT;
  if 0xe0 =? scancode then upd_var (set_ext true)
  else
    do ext <- get (fun s => ext_scancode (kvar s));
    (when ext then upd_var (set_ext false));;
    let scancode := if ext then Z.lor scancode 0xe000 else scancode in
    let break_code := Z.land 0x80 scancode in
    if negb (break_code =? 0) then
      let make_code := Z.land scancode 0xff7f in
      if is_ctrl make_code then upd_var (set_ctrl false)
      else if is_shift make_code then upd_var (set_shift false)
      else if is_alt make_code then upd_var (set_alt false)
      else cret tt
    else if known_make scancode then
      let shift := shifted scancode shift_down_last caps_lock_last in
      let scancode := Z.land scancode 0xff in
      let index := u8 scancode in
      match key_char index shift with
      | None => fault
      | Some cur_char =>
          if negb (cur_char =? 0) then
            do full <- ioq_full kbd_buf;
            when negb full then put_char cur_char;; ioq_putchar kbd_buf cur_char
          else if is_ctrl scancode then upd_var (set_ctrl true)
          else if is_shift scancode then upd_var (set_shift true)
          else if is_alt scancode then upd_var (set_alt true)
          else upd_var (fun v => set_caps (negb (caps_lock_status v)) v)
      end
    else put_lit ("unknown key" ++ nl).

Definition keyboard_init : K (M := M) unit :=
  put_lit ("keyboard init start" ++ nl);;
  ioqueue_init kbd_buf;;
  register_handler 0x21 (fn "intr_keyboard_handler");;
  put_lit ("keyboard init end" ++ nl).
End code.

(** ** What a keyboard does

    A scan code, with the 0xe0 prefix or without, names a key; its top bit says
    that the key is released. *)

Inductive key :=
| KCtrl | KShift | KAlt | KCaps
| KChar (lower upper : Z)
| KNone.

Definition key_of (ext : bool) (c : Z) : key :=
  if ext then
    if c =? 0x1d then KCtrl else if c =? 0x38 then KAlt else KNone
  else if c =? 0x1d then KCtrl
  else if (c =? 0x2a) || (c =? 0x36) then KShift
  else if c =? 0x38 then KAlt
  else if c =? 0x3a then KCaps
  else if c =? 0 then KNone
  else match keymap !! Z.to_nat c with Some (l, u) => KChar l u | None => KNone end.

(** Whether keys are down, caps lock is on, and a prefix has been seen. *)
Record flags := mk_flags { f_ctrl : bool; f_shift : bool; f_alt : bool; f_caps : bool; f_ext : bool }.

Inductive action := Quiet | Unknown | Emit (c : Z).

Definition is_letter (c : Z) : bool := (97 <=? c) && (c <=? 122).

Definition key_step (k : key) (released : bool) (f : flags) : flags * action :=
  let 'mk_flags c s a l _ := f in
  match k with
  | KCtrl => (mk_flags (negb released) s a l false, Quiet)
  | KShift => (mk_flags c (negb released) a l false, Quiet)
  | KAlt => (mk_flags c s (negb released) l false, Quiet)
  | KCaps => (mk_flags c s a (if released then l else negb l) false, Quiet)
  | KChar lower upper =>
      (mk_flags c s a l false, if released then Quiet
        else Emit (if (if is_letter lower then xorb s l else s) then upper else lower))
  | KNone => (mk_flags c s a l false, if released then Quiet else Unknown)
  end.

Definition kbd_step (f : flags) (sc : Z) : flags * action :=
  if sc =? 0xe0 then (mk_flags (f_ctrl f) (f_shift f) (f_alt f) (f_caps f) true, Quiet)
  else key_step (key_of (f_ext f) (sc mod 128)) (128 <=? sc) f.

(** The decisions of the handler, without their effects. *)
Definition decide_code (f : flags) (sc : Z) : option (flags * action) :=
  let 'mk_flags c s a l e := f in
  if 0xe0 =? sc then Some (mk_flags c s a l true, Quiet)
  else
    let sc := if e then Z.lor sc 0xe000 else sc in
    if negb (Z.land 0x80 sc =? 0) then
      let mk := Z.land sc 0xff7f in
      Some (if is_ctrl mk then mk_flags false s a l false
            else if is_shift mk then mk_flags c false a l false
            else if is_alt mk then mk_flags c s false l false
            else mk_flags c s a l false, Quiet)
    else if known_make sc then
      match key_char (u8 (Z.land sc 0xff)) (shifted sc s l) with
      | None => None
      | Some ch =>
          let sc := Z.land sc 0xff in
          Some (if negb (ch =? 0) then (mk_flags c s a l false, Emit ch)
                else if is_ctrl sc then (mk_flags true s a l false, Quiet)
                else if is_shift sc then (mk_flags c true a l false, Quiet)
                else if is_alt sc then (mk_flags c s true l false, Quiet)
                else (mk_flags c s a (negb l) false, Quiet))
      end
    else Some (mk_flags c s a l false, Unknown).

#[global] Instance flags_eq_dec : EqDecision flags.
Proof. solve_decision. Defined.
#[global] Instance action_eq_dec : EqDecision action.
Proof. solve_decision. Defined.

(** For every byte and every state of the flags the handler decides as the
    keyboard does; in particular it never reads outside [keymap]. *)
Lemma decide_code_correct f sc : 0 <= sc < 256 -> decide_code f sc = Some (kbd_step f sc).
Proof.
  intros Hsc. apply (proj1 (bool_decide_eq_true _)).
  revert sc Hsc. apply (zrange_forallb (fun sc => bool_decide (decide_code f sc = Some (kbd_step f sc)))).
  destruct f as [[] [] [] [] []]; by vm_compute.
Qed.


(** ** The handler carries out the step *)

Definition flags_of (v : kvars) : flags :=
  mk_flags (ctrl_status v) (shift_status v) (alt_status v) (caps_lock_status v) (ext_scancode v).
Definition set_flags (f : flags) (v : kvars) : kvars :=
  mk_kvars (main_thread v) (thread_tag v) (next_pid v) (ticks v) (f_ctrl f) (f_shift f) (f_alt f)
    (f_caps f) (f_ext f).

Section rules.
Context {M : Type} {RM : RawMem M} {LY : Layout}.

Definition perform (a : action) : K (M := M) unit :=
  match a with
  | Quiet => cret tt
  | Unknown => put_lit ("unknown key" ++ nl)
  | Emit c => do full <- ioq_full kbd_buf; when negb full then put_char c;; ioq_putchar kbd_buf c
  end.

Ltac run := cbv beta iota delta [obind kvar kinb ctrl_status shift_status alt_status
    caps_lock_status ext_scancode] in *.

Lemma handler_performs s :
  let '(f', a) := kbd_step (flags_of (kvar s)) (u8 (kinb s KBD_BUF_PORT)) in
  intr_keyboard_handler (M := M) s = perform a (set_var (set_flags f' (kvar s)) s).
Proof.
  pose proof (decide_code_correct (flags_of (kvar s)) _ (u8_range (kinb s KBD_BUF_PORT))) as Hd.
  destruct (kbd_step _ _) as [f' a]. destruct s as [m b e [mt tt' np tk c sh al ca ex] o p i r].
  unfold intr_keyboard_handler, decide_code, flags_of, key_char, inb, cbind, get, upd_var, modify in *.
  destruct ex; run; generalize dependent (u8 (i KBD_BUF_PORT)); intros sc Hd;
    (destruct (0xe0 =? sc); [by injection Hd as <- <- |]); run;
    (destruct (negb _); [by repeat case_match; injection Hd as <- <- |]);
    (destruct (known_make _); [| by injection Hd as <- <-]);
    (destruct (keymap !! _); [| done]); cbn [mbind option_bind] in *;
    (destruct (negb _); [by injection Hd as <- <- |]);
    (destruct (is_ctrl _); [| destruct (is_shift _); [| destruct (is_alt _)]]); by injection Hd as <- <-.
Qed.

(** The keyboard sends a scan code: it is in the port, and the handler runs. *)
Definition set_inb (g : Z -> Z) (s : kstate M) : kstate M :=
  mk_kstate (kmem s) (kif s) (kesp s) (kvar s) (kout s) (kports s) g (ktab s).
Definition key_event (sc : Z) : K (M := M) unit :=
  modify (set_inb (fun _ => sc));; intr_keyboard_handler.
Fixpoint key_events (scs : list Z) : K (M := M) unit :=
  match scs with [] => cret tt | sc :: scs' => key_event sc;; key_events scs' end.
End rules.

(** The steps of a sequence of scan codes: what is emitted, and what appears on
    the screen. *)
Fixpoint kbd_run (f : flags) (scs : list Z) : flags * list action :=
  match scs with
  | [] => (f, [])
  | sc :: scs' =>
      let '(f1, a) := kbd_step f sc in let '(f2, l) := kbd_run f1 scs' in (f2, a :: l)
  end.
Definition emitted (a : action) : list Z := match a with Emit c => [c] | _ => [] end.
Definition shown (a : action) : list Z :=
  match a with Emit c => [c] | Unknown => bytes_of ("unknown key" ++ nl) | Quiet => [] end.

Lemma kbd_step_ascii f sc c : 0 <= sc < 256 -> snd (kbd_step f sc) = Emit c -> u8 c = c.
Proof.
  set (ok := fun sc => bool_decide (Forall (fun a => Forall (fun c => u8 c = c) (emitted a)) [snd (kbd_step f sc)])).
  intros Hsc He.
  assert (ok sc = true) as Hok.
  { revert sc Hsc He. intros sc Hsc _. revert sc Hsc. apply (zrange_forallb ok).
    unfold ok. destruct f as [[] [] [] [] []]; by vm_compute. }
  unfold ok in Hok. apply bool_decide_eq_true in Hok. rewrite He in Hok.
  by inversion_clear Hok as [| ? ? Hc _]; inversion_clear Hc.
Qed.

(** The state after a run: memory, flags, and characters on the screen. *)
Definition typed {M} (m : M) (f : flags) (g : Z -> Z) (out : list Z) (s : kstate M) : kstate M :=
  put_out (rev out) (set_var (set_flags f (kvar s)) (set_inb g (set_mem m s))).

Section typing.
Context {M : Type} {RM : RawMem M} {RL : RawMemLaws M} {LY : Layout}.
Implicit Types (s : kstate M) (R : Z -> Prop) (K : ksys) (G : protocol (kstate M)).

Lemma typed_sys R m f g out s K : sys R (set_mem m s) K -> sys R (typed m f g out s) K.
Proof. intros [Hc He Hw Hr]. by split. Qed.

(** One scan code: a character that the queue has no room for is dropped; a
    backspace in the first cell faults. *)
Lemma wp_key_event G s R K cs p c sc f' a (Q : unit -> kstate M -> Prop) :
  sys R s K -> ioq K kbd_buf cs p c -> kif s = false -> waiter_ok (ks K) c -> 0 <= sc < 256 ->
  kbd_step (flags_of (kvar s)) sc = (f', a) ->
  (forall m out c' K', sys R (set_mem m s) K' -> semas K' = semas K -> locks K' = locks K ->
     can_print (cursor s) out = true ->
     ((emitted a = [] \/ Z.of_nat (length cs) < 63) ->
        out = shown a /\ ioq K' kbd_buf (cs ++ emitted a) p c' /\
        (emitted a = [] /\ c' = c /\ ks K' = ks K \/ emitted a <> [] /\ c' = 0 /\ ks K' = wake c (ks K))) ->
     ((emitted a <> [] /\ Z.of_nat (length cs) = 63) -> out = [] /\ K' = K) ->
     Q tt (typed m f' (fun _ => sc) out s)) ->
  (Z.of_nat (length cs) < 63 -> can_print (cursor s) (emitted a) = false -> forall s', may_fault G s') ->
  wp G (key_event sc) s Q.
Proof.
  intros Hs Hq Hi Hw Hsc Hst HQ HF. unfold key_event. apply wp_bind, wp_modify.
  pose proof (handler_performs (set_inb (fun _ => sc) s)) as Hh.
  change (u8 (kinb (set_inb (fun _ : Z => sc) s) KBD_BUF_PORT)) with (u8 sc) in Hh.
  change (kvar (set_inb (fun _ => sc) s)) with (kvar s) in Hh.
  rewrite (u8_small sc) in Hh by done. rewrite Hst in Hh. unfold wp at 1. rewrite Hh.
  match goal with |- wpo _ _ (?c ?s) => change (wp G c s Q) end. clear Hh.
  set (s1 := set_var _ _).
  assert (sys R s1 K) as Hs1 by (destruct Hs; by split).
  destruct a as [| | ch]; cbn [perform].
  - apply wp_ret. apply (HQ (kmem s) [] c K); try done.
    intros _. rewrite app_nil_r. split; [done |]. split; [done |]. by left.
  - apply wp_modify. apply (HQ (kmem s) (bytes_of ("unknown key" ++ nl)) c K); try done.
    + intros _. rewrite app_nil_r. split; [done |]. split; [done |]. by left.
    + intros [He _]. by destruct He.
  - pose proof (kbd_step_ascii (flags_of (kvar s)) sc ch Hsc ltac:(by rewrite Hst)) as Hch.
    apply wp_bind. eapply wp_ioq_full; [exact Hs1 | exact Hq | done |].
    destruct (Z.eqb_spec (Z.of_nat (length cs)) 63) as [Hl | Hl]; cbn [negb].
    + apply wp_ret. apply (HQ (kmem s) [] c K); try done.
      intros [He | He]; [done | cbn in *; lia].
    + pose proof (ring_max _ _ _ _ _ (ioq_ring _ _ _ _ _ Hq)) as Hm.
      apply wp_bind, wp_put_char; change (cursor s1) with (cursor s); rewrite Hch; intros Hcp.
      2: { apply HF; [lia | exact Hcp]. }
      eapply wp_ioq_putchar; [| exact Hq | done | lia | done |].
      { destruct Hs1; by split. }
      rewrite Hch. intros m K' Hm' Hq' Hk Hse Hlo _.
      apply (HQ m [ch] 0 K'); try done.
      * by destruct Hm'.
      * intros _. split; [done |]. split; [done |]. by right.
      * intros [_ He]. lia.
Qed.

(** A sequence of scan codes, when there is room for all their characters. *)
Lemma wp_key_events scs : forall G s R K cs p c f' l (Q : unit -> kstate M -> Prop),
  sys R s K -> ioq K kbd_buf cs p c -> kif s = false -> waiter_ok (ks K) c ->
  Forall (fun sc => 0 <= sc < 256) scs -> kbd_run (flags_of (kvar s)) scs = (f', l) ->
  Z.of_nat (length cs) + Z.of_nat (length (flat_map emitted l)) <= 63 ->
  can_print (cursor s) (flat_map shown l) = true ->
  (forall m g K', sys R (set_mem m s) K' -> semas K' = semas K -> locks K' = locks K ->
     (flat_map emitted l = [] /\ ioq K' kbd_buf cs p c /\ ks K' = ks K \/
      flat_map emitted l <> [] /\ ioq K' kbd_buf (cs ++ flat_map emitted l) p 0 /\ ks K' = wake c (ks K)) ->
     Q tt (typed m f' g (flat_map shown l) s)) ->
  wp G (key_events scs) s Q.
Proof.
  induction scs as [| sc scs IH]; intros G s R K cs p c f' l Q Hs Hq Hi Hw Hb Hr Hlen Hcp HQ; cbn [key_events kbd_run] in *.
  - injection Hr as <- <-. apply wp_ret.
    assert (s = typed (kmem s) (flags_of (kvar s)) (kinb s) [] s) as He
      by (destruct s as [? ? ? [] ? ? ? ?]; done).
    rewrite He. apply (HQ (kmem s) (kinb s) K); try done. by left.
  - apply Forall_cons in Hb as [Hsc Hb].
    destruct (kbd_step (flags_of (kvar s)) sc) as [f1 a] eqn:Hst.
    destruct (kbd_run f1 scs) as [f2 l2] eqn:Hrun. injection Hr as <- <-.
    cbn [flat_map] in *. rewrite length_app in Hlen. rewrite can_print_app in Hcp. apply andb_true_iff in Hcp as [Hcp1 Hcp2].
    apply wp_bind. eapply wp_key_event; [done .. | |].
    2: { intros _ Hno. exfalso. destruct a as [| | ch]; cbn [emitted shown] in *; by rewrite ?Hno in Hcp1. }
    intros m out c' K' Hs1 Hse Hlo _ Hok _.
    destruct Hok as (-> & Hq1 & Hc).
    { destruct a; [by left | by left | right; cbn in Hlen; lia]. }
    eapply (IH _ _ R K' (cs ++ emitted a) p c' f2 l2); [by apply typed_sys | done | done | | done | by destruct f1 | | |].
    + destruct Hc as [(_ & -> & ->) | (_ & -> & _)]; [done | by left].
    + rewrite length_app. lia.
    + unfold typed. rewrite cursor_put_out. exact Hcp2.
    + intros m2 g K2 Hs2 Hse2 Hlo2 Hk2.
      assert (typed m2 f2 g (flat_map shown l2) (typed m f1 (fun _ => sc) (shown a) s) =
        typed m2 f2 g (shown a ++ flat_map shown l2) s) as ->
        by (unfold typed, put_out; cbn; by rewrite rev_app_distr, <- app_assoc).
      apply (HQ m2 g K2); [by destruct Hs2; split | congruence | congruence |].
      rewrite <- app_assoc in Hk2.
      destruct Hc as [(He & -> & Hk) | (He & -> & Hk)], Hk2 as [(He2 & Hq2 & Hk2) | (He2 & Hq2 & Hk2)];
        rewrite ?He, ?He2, ?app_nil_r in *; cbn [app] in *.
      * left. split; [done |]. split; [done |]. congruence.
      * right. split; [done |]. split; [done |]. congruence.
      * right. split; [done |]. split; [done |]. congruence.
      * right. split; [destruct (emitted a); done |]. split; [done |]. rewrite Hk2, Hk. done.
Qed.
End typing.

(** ** A typist

    The scan codes of pressing and releasing the key of a character, with the
    left shift key held around it where the character needs it. *)
Definition find_key (c : Z) : option (Z * bool) :=
  head (omap (fun i => p ← keymap !! Z.to_nat i;
    if c =? 0 then None else if fst p =? c then Some (i, false)
    else if snd p =? c then Some (i, true) else None) (zrange 59)).
Definition typable (c : Z) : bool := (0 <=? c) && (c <? 256) && bool_decide (is_Some (find_key c)).
Definition codes_of (c : Z) : list Z :=
  match find_key c with
  | Some (i, false) => [i; i + 128]
  | Some (i, true) => [0x2a; i; i + 128; 0xaa]
  | None => []
  end.

Definition codes_ok (c : Z) : bool :=
  negb (typable c) ||
  bool_decide (Forall (fun sc => 0 <= sc < 256) (codes_of c) /\
    Forall (fun f => let '(f', l) := kbd_run f (codes_of c) in
      f' = f /\ flat_map emitted l = [c] /\ flat_map shown l = [c])
      [mk_flags false false false false false; mk_flags false false true false false;
       mk_flags true false false false false; mk_flags true false true false false]).

Lemma codes_of_run ct al c : typable c = true -> Forall (fun sc => 0 <= sc < 256) (codes_of c) /\
  let f := mk_flags ct false al false false in
  exists l, kbd_run f (codes_of c) = (f, l) /\ flat_map emitted l = [c] /\ flat_map shown l = [c].
Proof.
  intros Hc.
  assert (0 <= c < 256) as Hr by (unfold typable in Hc; lia).
  assert (codes_ok c = true) as Hok by (clear Hc; revert c Hr; apply (zrange_forallb codes_ok); by vm_compute).
  unfold codes_ok in Hok. rewrite Hc in Hok. apply bool_decide_eq_true in Hok as [Hb Hf].
  split; [done |]. rewrite Forall_forall in Hf. cbv zeta.
  destruct (kbd_run (mk_flags ct false al false false) (codes_of c)) as [f' l] eqn:Hrun.
  specialize (Hf (mk_flags ct false al false false)). rewrite Hrun in Hf.
  destruct Hf as (-> & He & Hs); [| by exists l].
  destruct ct, al; rewrite !elem_of_cons; tauto.
Qed.

Lemma kbd_run_app f l1 l2 f1 a1 : kbd_run f l1 = (f1, a1) ->
  kbd_run f (l1 ++ l2) = let '(f2, a2) := kbd_run f1 l2 in (f2, a1 ++ a2).
Proof.
  revert f f1 a1. induction l1 as [| sc l1 IH]; intros f f1 a1; cbn [kbd_run app].
  - intros [= <- <-]. by destruct (kbd_run f l2).
  - destruct (kbd_step f sc) as [f0 a]. destruct (kbd_run f0 l1) as [f3 a3] eqn:H3.
    intros [= <- <-]. rewrite (IH _ _ _ H3). by destruct (kbd_run f3 l2).
Qed.

Lemma text_run ct al text : Forall (fun c => typable c = true) text ->
  Forall (fun sc => 0 <= sc < 256) (flat_map codes_of text) /\
  let f := mk_flags ct false al false false in
  exists l, kbd_run f (flat_map codes_of text) = (f, l) /\ flat_map emitted l = text /\
    flat_map shown l = text.
Proof.
  cbv zeta. induction 1 as [| c text Hc Ht [IHb (l & Hl & He & Hs)]]; [by split; [| exists []] |].
  destruct (codes_of_run ct al c Hc) as [Hb (l1 & Hl1 & He1 & Hs1)]. cbn [flat_map].
  split; [by apply Forall_app |]. exists (l1 ++ l).
  rewrite (kbd_run_app _ _ _ _ _ Hl1), Hl, !flat_map_app. by rewrite He, Hs, He1, Hs1.
Qed.

Lemma typable_bytes text : Forall (fun c => typable c = true) text -> Forall is_u8 text.
Proof. intros Ht. eapply Forall_impl; [exact Ht |]. intros c Hc. unfold typable in Hc. apply andb_true_iff in Hc as [Hc _]. unfold is_u8. lia. Qed.

(** ** Properties *)

Section properties.
Context {M : Type} {RM : RawMem M} {RL : RawMemLaws M} {LY : Layout}.

(** C27. The keyboard handler on any scan code and in any state of its flags: it
    makes the keyboard's step [kbd_step].  A character the step emits is
    echoed and joins the keyboard buffer, waking a waiting reader, unless the
    buffer is full, in which case it is dropped; the handler never blocks.  But
    when the echo is a backspace and the cursor is in the first cell, the
    handler faults, before the character is in the buffer. *)
Theorem key_event_refines (s : kstate M) R K cs p c sc f' a :
  sys R s K -> ioq K kbd_buf cs p c -> kif s = false -> waiter_ok (ks K) c -> 0 <= sc < 256 ->
  kbd_step (flags_of (kvar s)) sc = (f', a) ->
  if bool_decide (a = Emit 8) && negb (Z.of_nat (length cs) =? 63) && (cursor s =? 0)
  then exists s', key_event sc s = Fault s'
  else exists m out K', key_event sc s = Done tt (typed m f' (fun _ => sc) out s) /\
    sys R (set_mem m s) K' /\ semas K' = semas K /\ locks K' = locks K /\
    match a with
    | Emit ch => if Z.of_nat (length cs) =? 63 then out = [] /\ K' = K
        else out = [ch] /\ ioq K' kbd_buf (cs ++ [ch]) p 0 /\ ks K' = wake c (ks K)
    | Unknown => out = bytes_of ("unknown key" ++ nl) /\ ioq K' kbd_buf cs p c /\ ks K' = ks K
    | Quiet => out = [] /\ ioq K' kbd_buf cs p c /\ ks K' = ks K
    end.
Proof.
  intros Hs Hq Hi Hw Hsc Hst. pose proof (ring_max _ _ _ _ _ (ioq_ring _ _ _ _ _ Hq)) as Hm.
  destruct (_ && _) eqn:Hbs.
  { apply andb_true_iff in Hbs as [[->%bool_decide_eq_true H63]%andb_true_iff H0%Z.eqb_eq].
    apply faults_wp. intros G Q HF. eapply wp_key_event; [done .. | |]; [| intros _ _; apply HF].
    intros m out c' K' _ _ _ Hcp Hroom _. destruct Hroom as (-> & _); [right; lia |].
    by rewrite H0 in Hcp. }
  pattern (key_event sc s). apply seq_done. eapply wp_key_event; [done .. | |].
  2: { intros Hlt Hno. exfalso. destruct a as [| | ch]; cbn [emitted can_print] in Hno; [done | done |].
       rewrite andb_true_r in Hno. apply negb_false_iff, andb_true_iff in Hno as [->%Z.eqb_eq H0].
       rewrite H0, bool_decide_true, (proj2 (Z.eqb_neq _ _)) in Hbs by (done || lia). done. }
  intros m out c' K' Hs' Hse Hl _ Hroom Hfull.
  exists m, out, K'. split; [done |]. split; [done |]. split; [done |]. split; [done |].
  destruct a as [| | ch]; cbn [emitted shown] in *.
  1,2: destruct Hroom as (-> & Hq' & [(_ & -> & Hk) | [[] _]]); [by left | | done];
    by rewrite app_nil_r in Hq'.
  destruct (Z.eqb_spec (Z.of_nat (length cs)) 63) as [Hl63 | Hl63]; [by apply Hfull |].
  destruct Hroom as (-> & Hq' & [[? _] | (_ & -> & Hk)]); [right; lia | done | done].
Qed.

(** C39. Typing a text of characters that are on the keyboard, with no shift or caps
    lock in force and room for them in the buffer, puts that text at the end
    of the keyboard buffer, wakes the waiting reader, leaves the flags as they
    were, and does to the screen what the terminal does with the text (a
    backspace erases), provided the text holds no backspace in the first cell:
    the screen that showed the terminal [t] shows the one [term_puts] makes of
    it.  Plain characters for which there is room appear from the cursor on. *)
Theorem typed_text_arrives (s : kstate M) R K cs p c text v0 sc t t' :
  sys R s K -> ioq K kbd_buf cs p c -> kif s = false -> waiter_ok (ks K) c ->
  shift_status (kvar s) = false -> caps_lock_status (kvar s) = false -> ext_scancode (kvar s) = false ->
  text <> [] -> Forall (fun c => typable c = true) text ->
  Z.of_nat (length cs) + Z.of_nat (length text) <= 63 ->
  screen_of v0 s = Some sc -> shows sc t -> pos t = cursor s -> term_puts text t = Some t' ->
  exists m g K', let s' := typed m (flags_of (kvar s)) g text s in
    key_events (flat_map codes_of text) s = Done tt s' /\
    sys R (set_mem m s) K' /\ semas K' = semas K /\ locks K' = locks K /\
    ioq K' kbd_buf (cs ++ text) p 0 /\ ks K' = wake c (ks K) /\
    (exists sc', screen_of v0 s' = Some sc' /\ shows sc' t') /\
    (Forall plain text -> pos t + len text < cells_nr -> t' = typeset text t).
Proof.
  intros Hs Hq Hi Hw Hsh Hca Hex Hne Ht Hlen Hsc Hshows Hpos Hputs.
  pose proof (put_chars_shows text (typable_bytes text Ht) sc t Hshows) as Hscreen.
  rewrite Hputs in Hscreen. destruct Hscreen as (Hcp & _ & sc' & Hput & Hsh' & _).
  destruct (text_run (ctrl_status (kvar s)) (alt_status (kvar s)) text Ht) as [Hb (l & Hrun & He & Hshown)].
  pattern (key_events (flat_map codes_of text) s). apply seq_done.
  eapply wp_key_events; [done | done | done | done | done | | by rewrite He | by rewrite Hshown, <- Hpos |].
  { unfold flags_of. rewrite Hsh, Hca, Hex. exact Hrun. }
  rewrite He, Hshown. intros m g K' Hs' Hse Hl [[? _] | (_ & Hq' & Hk)]; [done |].
  exists m, g, K'. unfold flags_of. rewrite Hsh, Hca, Hex. do 6 (split; [done |]). split.
  - exists sc'. split; [| done]. unfold typed. rewrite screen_of_put_out.
    match goal with |- screen_of v0 ?s1 ≫= _ = _ => change (screen_of v0 s1) with (screen_of v0 s) end.
    by rewrite Hsc.
  - intros Hpl Hfit. destruct (sh_pos _ _ Hshows) as [H0 _].
    pose proof (term_puts_typeset text t Hpl H0 Hfit (sh_len _ _ Hshows)). congruence.
Qed.
End properties.

(** Releasing one of two held shift keys counts as releasing both. *)
Lemma shift_release_forgets : kbd_run (mk_flags false false false false false) [0x2a; 0x36; 0xb6; 0x1e] =
  (mk_flags false false false false false, [Quiet; Quiet; Quiet; Emit (chr "a"%char)]).
Proof. done. Qed.

Module examples.
#[local] Existing Instance demo_layout.
Import Thread.examples Ioqueue.examples.

(** The first cell, after the loader's line and 1937 backspaces. *)
Definition rubbed_out : kstate flat := put_out (replicate (Z.to_nat BOOT_CURSOR) 8) (st 5 0 t3).

Lemma rubbed_out_sys : sys is_u32 rubbed_out (K 5 0 t3).
Proof. destruct two_sys. by split. Qed.

Lemma key_event_refines_witness : (exists m K', key_event 0x1e (st 5 0 t3) =
    Done tt (typed m (mk_flags false false false false false) (fun _ => 0x1e) [97] (st 5 0 t3)) /\
    ioq K' kbd_buf [97; 98; 97] 0 0) /\
  exists s', key_event 0x0e rubbed_out = Fault s'.
Proof.
  split.
  - destruct (key_event_refines (st 5 0 t3) is_u32 (K 5 0 t3) [97; 98] 0 t3 0x1e
      (mk_flags false false false false false) (Emit 97)
      two_sys two_ioq eq_refl (t3_waits _ _ _) ltac:(lia) eq_refl)
      as (m & out & K' & H1 & _ & _ & _ & H2).
    destruct H2 as (-> & H2 & _). exists m, K'. split; [exact H1 | exact H2].
  - pose proof (key_event_refines rubbed_out is_u32 (K 5 0 t3) [97; 98] 0 t3 0x0e
      (mk_flags false false false false false) (Emit 8)
      rubbed_out_sys two_ioq eq_refl (t3_waits _ _ _) ltac:(lia) eq_refl) as Hf.
    assert (cursor rubbed_out = 0) as Hc by (vm_compute; reflexivity). rewrite Hc in Hf. exact Hf.
Defined.

(** Below the loader's line on an empty screen: two letters, one of which is
    rubbed out. *)
Definition typist : list Z := bytes_of "Hi" ++ [8].
Definition typist_term : terminal := mk_terminal
  (<[1937%nat := glyph (chr "H"%char)]> (<[1938%nat := blank]> (replicate 2000 blank))) 1938.

Lemma typed_text_arrives_witness : exists m g K', let s' := typed m (flags_of vars0) g typist (st 5 0 t3) in
  key_events (flat_map codes_of typist) (st 5 0 t3) = Done tt s' /\
  ioq K' kbd_buf ([97; 98] ++ typist) 0 0 /\
  exists sc', screen_of (Screen.examples.blank_screen BOOT_CURSOR) s' = Some sc' /\ shows sc' typist_term.
Proof.
  destruct (typed_text_arrives (st 5 0 t3) is_u32 (K 5 0 t3) [97; 98] 0 t3 typist
    (Screen.examples.blank_screen BOOT_CURSOR) (Screen.examples.blank_screen BOOT_CURSOR)
    (Screen.examples.blank_term BOOT_CURSOR) typist_term
    two_sys two_ioq eq_refl (t3_waits _ _ _) eq_refl eq_refl eq_refl ltac:(done)
    ltac:(repeat constructor) ltac:(cbn; lia) eq_refl ltac:(by apply Screen.examples.blank_shows) eq_refl
    ltac:(vm_compute; reflexivity)) as (m & g & K' & H1 & _ & _ & _ & H2 & _ & H3 & _).
  exists m, g, K'. split; [exact H1 |]. split; [exact H2 | exact H3].
Defined.
End examples.
