(* ===== verification/Paging.v ===== *)
(** The address translation of the IA-32 processor (Intel SDM volume 3, 4.3:
    32-bit paging, 4 KB pages, supervisor accesses), and the memory of the
    kernel as what it translates to: an implementation of the interface of
    RawMem.v next to the flat one. *)

From S2P Require Import Prelude Monad RawMem.

(** ** Page directory and page table entries *)

Definition frame (x : Z) : Z := x / 4096 * 4096.
Definition present (e : Z) : bool := Z.odd e.
Definition dir_idx (a : Z) : Z := a / 2 ^ 22.
Definition tab_idx (a : Z) : Z := a / 2 ^ 12 mod 2 ^ 10.
Definition page_off (a : Z) : Z := a mod 4096.

(** The page directory register is reloaded. *)
Class Mmu (M : Type) := { set_cr3 : Z -> M -> M }.

(** ** The walk

    [g] is the contents of the physical memory, [c] that of the directory
    register. *)

Section walk.
Context (g : Z -> Z) (c : Z).

Definition pde_at (i : Z) : Z := frame c + 4 * i.
Definition pde (i : Z) : Z := w32 g (pde_at i).
Definition pte_at (a : Z) : Z := frame (pde (dir_idx a)) + 4 * tab_idx a.
Definition pte (a : Z) : Z := w32 g (pte_at a).

Definition translate (a : Z) : option Z :=
  if addr_ok a && present (pde (dir_idx a)) && present (pte a)
  then Some (frame (pte a) + page_off a) else None.

(** The frames that hold the directory and the tables. *)
Definition is_table (p : Z) : Prop :=
  p = frame c \/ exists i, 0 <= i < 1024 /\ present (pde i) = true /\ frame (pde i) = p.

(** The bytes the translation of [a] depends on. *)
Definition walked (a b : Z) : Prop := span (pde_at (dir_idx a)) 4 b \/ span (pte_at a) 4 b.
End walk.

Lemma frame_off x : x = frame x + page_off x.
Proof. unfold frame, page_off. zlia. Qed.

Lemma page_off_range x : 0 <= page_off x < 4096.
Proof. unfold page_off. zlia. Qed.

Lemma frame_add p k : p mod 4096 = 0 -> 0 <= k < 4096 -> frame (p + k) = p.
Proof. unfold frame. intros Hp Hk. zlia. Qed.

Lemma frame_frame x k : 0 <= k < 4096 -> frame (frame x + k) = frame x.
Proof. intros Hk. apply frame_add; [unfold frame; zlia | done]. Qed.

Lemma frame_aligned x : frame x mod 4096 = 0.
Proof. unfold frame. zlia. Qed.

Lemma tab_idx_range a : 0 <= tab_idx a < 1024.
Proof. unfold tab_idx. zlia. Qed.

Lemma dir_idx_range a : is_u32 a -> 0 <= dir_idx a < 1024.
Proof. unfold dir_idx, is_u32. intros. zlia. Qed.

(** Aligned words are the same or apart. *)
Lemma words_apart a b : a mod 4 = 0 -> b mod 4 = 0 -> a = b \/ a + 4 <= b \/ b + 4 <= a.
Proof. intros. zlia. Qed.

Lemma entry_aligned x k : (frame x + 4 * k) mod 4 = 0.
Proof. unfold frame. zlia. Qed.

Lemma translate_Some g c a pa : translate g c a = Some pa <->
  is_u32 a /\ present (pde g c (dir_idx a)) = true /\ present (pte g c a) = true /\
  pa = frame (pte g c a) + page_off a.
Proof.
  unfold translate. destruct (addr_ok a) eqn:Ha, (present (pde g c (dir_idx a))), (present (pte g c a));
    cbn; rewrite ?addr_ok_spec in Ha; split; intros H; simplify_eq; try done;
    destruct H as (Hu & ? & ? & ->); try done; by apply addr_ok_spec in Hu; rewrite Ha in Hu.
Qed.

(** The translation depends on the walked bytes only. *)
Lemma walk_ext g g' c a : (forall b, walked g c a b -> g' b = g b) ->
  pde g' c (dir_idx a) = pde g c (dir_idx a) /\ pte_at g' c a = pte_at g c a /\ pte g' c a = pte g c a.
Proof.
  intros Hg. assert (pde g' c (dir_idx a) = pde g c (dir_idx a)) as Hd.
  { apply w32_ext. intros b Hb. apply Hg. by left. }
  assert (pte_at g' c a = pte_at g c a) as Ht by (unfold pte_at; by rewrite Hd).
  split; [done |]. split; [done |]. unfold pte. rewrite Ht.
  apply w32_ext. intros b Hb. apply Hg. by right.
Qed.

Lemma translate_ext g g' c a : (forall b, walked g c a b -> g' b = g b) ->
  translate g' c a = translate g c a.
Proof.
  intros Hg. destruct (walk_ext g g' c a Hg) as (Hd & Ht & Hp). unfold translate. by rewrite Hd, Hp.
Qed.

(** Addresses of one page are translated together. *)
Lemma same_page a k : a mod 4096 + k < 4096 -> 0 <= k ->
  dir_idx (a + k) = dir_idx a /\ tab_idx (a + k) = tab_idx a /\ page_off (a + k) = page_off a + k.
Proof.
  intros Hk H0. unfold dir_idx, tab_idx, page_off.
  assert ((a + k) / 4096 = a / 4096) as Hp by zlia.
  assert ((a + k) / 2 ^ 22 = a / 2 ^ 22) as -> by zlia.
  change (2 ^ 12) with 4096. rewrite Hp. split; [done |]. split; [done |]. zlia.
Qed.

Lemma pte_at_page g c a k : a mod 4096 + k < 4096 -> 0 <= k -> pte_at g c (a + k) = pte_at g c a.
Proof. intros Hk H0. unfold pte_at. by destruct (same_page a k Hk H0) as (-> & -> & _). Qed.

Lemma translate_page g c a k pa : a mod 4096 + k < 4096 -> 0 <= k ->
  translate g c a = Some pa -> translate g c (a + k) = Some (pa + k).
Proof.
  intros Hk H0 (Hu & Hd & Ht & ->)%translate_Some. apply translate_Some.
  destruct (same_page a k Hk H0) as (Hi & Hj & Ho). unfold pte in *.
  rewrite (pte_at_page _ _ _ _ Hk H0), Hi, Ho. split; [unfold is_u32 in *; zlia |].
  split; [done |]. split; [done |]. lia.
Qed.

Lemma walked_page g c a k b : a mod 4096 + k < 4096 -> 0 <= k -> walked g c (a + k) b -> walked g c a b.
Proof.
  intros Hk H0. unfold walked. rewrite (pte_at_page _ _ _ _ Hk H0).
  by destruct (same_page a k Hk H0) as (-> & _).
Qed.

(** The walked bytes of a mapped address are in tables. *)
Lemma walked_table g c a b : is_u32 a -> present (pde g c (dir_idx a)) = true ->
  walked g c a b -> is_table g c (frame b).
Proof.
  intros Hu Hp [Hb | Hb]; unfold span in Hb.
  - left. pose proof (dir_idx_range a Hu).
    replace b with (frame c + (b - frame c)) by lia. apply frame_frame. unfold pde_at in Hb. lia.
  - right. exists (dir_idx a). split; [by apply dir_idx_range |]. split; [done |].
    pose proof (tab_idx_range a). unfold pte_at in Hb.
    set (t := frame (pde g c (dir_idx a))) in *.
    replace b with (t + (b - t)) by lia. unfold t. symmetry. apply frame_frame. lia.
Qed.

(** ** Paged memory *)

Record paged := mk_paged { phys : flat; cr3 : Z }.

Definition pbyte (m : paged) : Z -> Z := flat_at (phys m).
Definition virt (m : paged) (a : Z) : option Z := translate (pbyte m) (cr3 m) a.

#[global] Instance paged_mmu : Mmu paged := {| set_cr3 c m := mk_paged (phys m) c |}.

#[global] Instance paged_mem : RawMem paged := {|
  ldb m a := pa ← virt m a; Some (pbyte m pa);
  stb m a v := pa ← virt m a; Some (mk_paged (<[pa := v]> (phys m)) (cr3 m)) |}.

Lemma pbyte_put m pa v : forall b, pbyte (mk_paged (<[pa := v]> (phys m)) (cr3 m)) b =
  if b =? pa then u8 v else pbyte m b.
Proof.
  intros b. unfold pbyte, flat_at. cbn. destruct (Z.eqb_spec b pa) as [-> | Hne].
  - by rewrite lookup_insert_eq.
  - by rewrite lookup_insert_ne.
Qed.

Lemma virt_addr m a pa : virt m a = Some pa -> is_u32 a.
Proof. by intros (Hu & _)%translate_Some. Qed.

(** The region [R] is mapped to bytes that no translation of [R] depends on,
    different addresses to different bytes. *)
Definition mapped (m : paged) (R : Z -> Prop) (f : Z -> Z) : Prop :=
  forall a, R a -> exists pa, virt m a = Some pa /\ f a = pbyte m pa /\
    (forall a', R a' -> ~ walked (pbyte m) (cr3 m) a' pa) /\
    (forall a', R a' -> virt m a' = Some pa -> a' = a).

(** Physical bytes [P] that keep their contents, and the directory register. *)
Definition kept (c : Z) (P : Z -> Prop) (g : Z -> Z) (m : paged) : Prop :=
  cr3 m = c /\ forall b, P b -> pbyte m b = g b.

Definition mapped_keeping (c : Z) (P : Z -> Prop) (g : Z -> Z) (m : paged) (R : Z -> Prop) (f : Z -> Z)
  : Prop :=
  mapped m R f /\ kept c P g m /\ forall a pa, R a -> virt m a = Some pa -> ~ P pa.

(** Writing the byte that [a] is mapped to leaves the translations of the
    region alone. *)
Lemma mapped_st m R f a v pa (m' := mk_paged (<[pa := v]> (phys m)) (cr3 m)) :
  mapped m R f -> R a -> is_u8 v -> virt m a = Some pa ->
  mapped m' R (upd f a v) /\ forall a', R a' -> virt m' a' = virt m a'.
Proof.
  intros Hb Ha Hv Hpa. destruct (Hb a Ha) as (pa' & Hpa' & Hfa & Hw & Hinj). simplify_eq.
  assert (forall b, pbyte m' b = if b =? pa then u8 v else pbyte m b) as Hput by apply pbyte_put.
  assert (forall a' b, R a' -> walked (pbyte m) (cr3 m) a' b -> pbyte m' b = pbyte m b) as Hsame.
  { intros a' b Ha' Hwb. rewrite Hput. destruct (Z.eqb_spec b pa) as [-> |]; [| done].
    by destruct (Hw a' Ha'). }
  assert (forall a', R a' -> virt m' a' = virt m a') as Hvirt.
  { intros a' Ha'. apply translate_ext. intros b. by apply Hsame. }
  split; [| done]. intros b HRb. destruct (Hb b HRb) as (pb & Hpb & Hfb & Hwb & Hinjb).
  exists pb. rewrite Hvirt by done. split; [done |]. split; [| split].
  - rewrite Hput. destruct (Z.eqb_spec pb pa) as [-> | Hne].
    + rewrite (Hinj b HRb Hpb), upd_eq. by rewrite u8_small.
    + rewrite upd_ne; [done |]. intros ->. by simplify_eq.
  - intros a' Ha' Hwa. apply (Hwb a' Ha'). revert Hwa. change (cr3 m') with (cr3 m). unfold walked.
    destruct (walk_ext (pbyte m) (pbyte m') (cr3 m) a') as (_ & -> & _); [| done].
    intros b' Hb'. by apply (Hsame a').
  - intros a' Ha'. rewrite Hvirt by done. by apply Hinjb.
Qed.

Lemma mapped_mono m (R R' : Z -> Prop) f f' : mapped m R f ->
  (forall a, R' a -> R a) -> (forall a, R' a -> f' a = f a) -> mapped m R' f'.
Proof.
  intros Hb Hsub Heq a Ha. destruct (Hb a (Hsub a Ha)) as (pa & Hv & Hf & Hw & Hi).
  exists pa. rewrite (Heq a Ha). split; [done |]. split; [done |]. split; auto.
Qed.

#[global] Instance paged_laws : RawMemLaws paged.
Proof.
  apply (Build_RawMemLaws paged paged_mem mapped); cbn.
  - intros m R f a Hb Ha. destruct (Hb a Ha) as (pa & Hv & _). by eapply virt_addr.
  - intros m R f a Hb Ha. destruct (Hb a Ha) as (pa & _ & -> & _). apply u8_range.
  - intros m R f a Hb Ha. destruct (Hb a Ha) as (pa & -> & -> & _). done.
  - intros m R f a v Hb Ha Hv. pose proof (Hb a Ha) as (pa & Hpa & _).
    rewrite Hpa. eexists. split; [done |]. by apply mapped_st.
  - apply mapped_mono.
Defined.

(** The second promise: besides, the bytes [P] keep the contents [g]. *)
Definition keeping_laws (c : Z) (P : Z -> Prop) (g : Z -> Z) : RawMemLaws paged.
Proof.
  apply (Build_RawMemLaws paged paged_mem (mapped_keeping c P g)); cbn.
  - intros m R f a [Hb _] Ha. destruct (Hb a Ha) as (pa & Hv & _). by eapply virt_addr.
  - intros m R f a [Hb _] Ha. destruct (Hb a Ha) as (pa & _ & -> & _). apply u8_range.
  - intros m R f a [Hb _] Ha. destruct (Hb a Ha) as (pa & -> & -> & _). done.
  - intros m R f a v (Hb & [Hc Hg] & HP) Ha Hv. pose proof (Hb a Ha) as (pa & Hpa & _).
    rewrite Hpa. eexists. split; [done |].
    destruct (mapped_st m R f a v pa Hb Ha Hv Hpa) as [Hm Hvirt]. split; [done |]. split.
    + split; [done |]. intros b Hbb. rewrite pbyte_put. destruct (Z.eqb_spec b pa) as [-> | _]; [| by apply Hg].
      by destruct (HP a pa Ha Hpa).
    + intros a' pa' Ha'. rewrite Hvirt by done. by apply HP.
  - intros m R R' f f' (Hb & Hk & HP) Hsub Heq. split; [by eapply mapped_mono |]. split; [done |]. eauto.
Defined.

(** ** Words *)

Lemma ldw_paged m a pa : virt m a = Some pa -> a mod 4 = 0 -> ldw m a = Some (w32 (pbyte m) pa).
Proof.
  intros Hv Ha.
  assert (forall k, 0 <= k < 4 -> ldb m (a + k) = Some (pbyte m (pa + k))) as Hl.
  { intros k Hk. cbn. assert (virt m (a + k) = Some (pa + k)) as ->; [| done].
    apply translate_page; [zlia | lia | done]. }
  pose proof (Hl 0 ltac:(lia)) as H0. rewrite !Z.add_0_r in H0. unfold ldw.
  rewrite H0, !Hl by lia. done.
Qed.

Lemma stw_paged m a pa v : virt m a = Some pa -> a mod 4 = 0 ->
  (forall b, span pa 4 b -> ~ walked (pbyte m) (cr3 m) a b) ->
  exists m', stw m a v = Some m' /\ cr3 m' = cr3 m /\ forall b, pbyte m' b = upd32 (pbyte m) pa v b.
Proof.
  intros Hv Ha Hw.
  set (ok := fun m' => cr3 m' = cr3 m /\ forall b, walked (pbyte m) (cr3 m) a b -> pbyte m' b = pbyte m b).
  assert (forall m1 k x, ok m1 -> 0 <= k < 4 -> is_u8 x -> exists m2, stb m1 (a + k) x = Some m2 /\ ok m2 /\
    forall b, pbyte m2 b = upd (pbyte m1) (pa + k) x b) as Hstep.
  { intros m1 k x [Hc Hok] Hk Hx.
    assert (virt m1 (a + k) = Some (pa + k)) as Hvk.
    { transitivity (virt m (a + k)); [| apply translate_page; [zlia | lia | done]].
      unfold virt. rewrite Hc. apply translate_ext. intros b Hb. apply Hok.
      eapply walked_page; [| | exact Hb]; [zlia | lia]. }
    unfold stb, paged_mem. rewrite Hvk. cbn [mbind option_bind]. eexists. split; [done |].
    set (m2 := mk_paged _ _). assert (forall b, pbyte m2 b = upd (pbyte m1) (pa + k) x b) as Hput.
    { intros b. unfold m2. rewrite pbyte_put. destruct (Z.eqb_spec b (pa + k)) as [-> | Hne].
      - by rewrite upd_eq, u8_small.
      - by rewrite upd_ne. }
    split; [split; [done |] | done]. intros b Hb. rewrite Hput, upd_ne; [by apply Hok |].
    intros ->. apply (Hw (pa + k)); [unfold span; lia | done]. }
  unfold stw.
  destruct (Hstep m 0 (v mod 2 ^ 8)) as (m1 & H1 & Hok1 & Hp1); [done | lia | apply u8_range |].
  rewrite !Z.add_0_r in *. rewrite H1. cbn [mbind option_bind].
  destruct (Hstep m1 1 (v / 2 ^ 8 mod 2 ^ 8)) as (m2 & -> & Hok2 & Hp2); [done | lia | apply u8_range |].
  cbn [mbind option_bind].
  destruct (Hstep m2 2 (v / 2 ^ 16 mod 2 ^ 8)) as (m3 & -> & Hok3 & Hp3); [done | lia | apply u8_range |].
  cbn [mbind option_bind].
  destruct (Hstep m3 3 (v / 2 ^ 24 mod 2 ^ 8)) as (m4 & -> & [Hc4 _] & Hp4); [done | lia | apply u8_range |].
  exists m4. split; [done |]. split; [done |]. intros b. rewrite upd32_bytes, Hp4.
  assert (forall f f' x y, (forall b, f b = f' b) -> forall b, upd f x y b = upd f' x y b) as Hu.
  { intros f f' x y Hf b'. destruct (Z.eq_dec b' x) as [-> |]; [by rewrite !upd_eq | by rewrite !upd_ne]. }
  revert b. apply Hu. intros b. rewrite Hp3. revert b. apply Hu. intros b. rewrite Hp2. revert b. by apply Hu.
Qed.

(** ** The tables seen through themselves

    The last directory entry points to the directory itself, so that the
    tables are mapped in the last 4 MB of the address space. *)

Definition self_mapped (g : Z -> Z) (c : Z) : Prop :=
  present (pde g c 1023) = true /\ frame (pde g c 1023) = frame c.

Definition pde_view (a : Z) : Z := 0xfffff000 + 4 * dir_idx a.
Definition pte_view (a : Z) : Z := 0xffc00000 + 4096 * dir_idx a + 4 * tab_idx a.

Lemma view_indices i j : 0 <= i < 1024 -> 0 <= j < 1024 ->
  let v := 0xffc00000 + 4096 * i + 4 * j in
  is_u32 v /\ dir_idx v = 1023 /\ tab_idx v = i /\ page_off v = 4 * j /\ v mod 4 = 0.
Proof. intros Hi Hj. unfold is_u32, dir_idx, tab_idx, page_off. zlia. Qed.

(** The view of entry [j] of the table of directory entry [i]. *)
Lemma translate_view g c i j : self_mapped g c -> 0 <= i < 1024 -> 0 <= j < 1024 ->
  present (pde g c i) = true ->
  let v := 0xffc00000 + 4096 * i + 4 * j in
  translate g c v = Some (frame (pde g c i) + 4 * j) /\
  forall b, walked g c v b <-> span (pde_at c 1023) 4 b \/ span (pde_at c i) 4 b.
Proof.
  intros [Hp Hs] Hi Hj Hd. destruct (view_indices i j Hi Hj) as (Hu & H1 & H2 & H3 & _). cbv zeta.
  assert (pte_at g c (0xffc00000 + 4096 * i + 4 * j) = pde_at c i) as Hat
    by (unfold pte_at; by rewrite H1, H2, Hs).
  split.
  - apply translate_Some. unfold pte. rewrite Hat, H1, H3. done.
  - intros b. unfold walked. by rewrite Hat, H1.
Qed.

Lemma pte_view_spec g c a : self_mapped g c -> is_u32 a -> present (pde g c (dir_idx a)) = true ->
  translate g c (pte_view a) = Some (pte_at g c a) /\ pte_view a mod 4 = 0 /\
  forall b, walked g c (pte_view a) b <-> span (pde_at c 1023) 4 b \/ span (pde_at c (dir_idx a)) 4 b.
Proof.
  intros Hs Ha Hd. pose proof (dir_idx_range a Ha) as Hi. pose proof (tab_idx_range a) as Hj.
  destruct (translate_view g c _ _ Hs Hi Hj Hd) as [Ht Hw].
  split; [done |]. split; [| done]. by destruct (view_indices _ _ Hi Hj) as (_ & _ & _ & _ & H4).
Qed.

Lemma pde_view_spec g c a : self_mapped g c -> is_u32 a ->
  translate g c (pde_view a) = Some (pde_at c (dir_idx a)) /\ pde_view a mod 4 = 0 /\
  forall b, walked g c (pde_view a) b <-> span (pde_at c 1023) 4 b.
Proof.
  intros Hs Ha. pose proof (dir_idx_range a Ha) as Hi.
  destruct (translate_view g c 1023 (dir_idx a) Hs ltac:(lia) Hi ltac:(apply Hs)) as [Ht Hw].
  unfold pde_view. replace (0xfffff000 + 4 * dir_idx a) with (0xffc00000 + 4096 * 1023 + 4 * dir_idx a) by lia.
  rewrite Ht. split; [by rewrite (proj2 Hs) |].
  split; [by destruct (view_indices 1023 (dir_idx a) ltac:(lia) Hi) as (_ & _ & _ & _ & H4) |].
  intros b. rewrite Hw. tauto.
Qed.

(** ** Adding to the mapping *)

Definition extends (g : Z -> Z) (c : Z) (g' : Z -> Z) : Prop :=
  forall a pa, translate g c a = Some pa -> translate g' c a = Some pa.

Lemma extends_trans g c g1 g2 : extends g c g1 -> extends g1 c g2 -> extends g c g2.
Proof. unfold extends. eauto. Qed.

(** The directory is mapped into itself and no other entry leads to it; above
    the first 4 MB every table belongs to one entry (the loader enters the table
    of the first megabyte twice, at 0 and at 3 GB); the frames [F] are free:
    they hold no table, and nothing is mapped to them. *)
Record vm (g : Z -> Z) (c : Z) (F : Z -> Prop) : Prop := mk_vm {
  vm_cr3 : is_u32 c;
  vm_words b : is_u8 (g b);
  vm_self : self_mapped g c;
  vm_dirs i : 0 <= i < 1023 -> present (pde g c i) = true -> frame (pde g c i) <> frame c;
  vm_inj i j : 1 <= i < 1023 -> 1 <= j < 1023 -> present (pde g c i) = true ->
    present (pde g c j) = true -> frame (pde g c i) = frame (pde g c j) -> i = j;
  vm_frame p : F p -> p mod 4096 = 0 /\ is_u32 p;
  vm_table p : F p -> ~ is_table g c p;
  vm_unmapped p a pa : F p -> translate g c a = Some pa -> frame pa <> p }.

Lemma pde_at_inj c i j : pde_at c i = pde_at c j -> i = j.
Proof. unfold pde_at. lia. Qed.

(** Bytes of a table's entries are in the table's frame. *)
Lemma pde_frame c i b : 0 <= i < 1024 -> span (pde_at c i) 4 b -> frame b = frame c.
Proof.
  unfold span, pde_at. intros Hi Hb. replace b with (frame c + (b - frame c)) by lia.
  apply frame_frame. lia.
Qed.

Lemma pte_frame g c a b : span (pte_at g c a) 4 b -> frame b = frame (pde g c (dir_idx a)).
Proof.
  pose proof (tab_idx_range a). unfold span, pte_at. intros Hb.
  set (t := frame _) in *. replace b with (t + (b - t)) by lia. apply frame_frame. lia.
Qed.

(** Words in different frames. *)
Lemma w32_frame_ext g g' w p : w mod 4 = 0 -> frame w <> p ->
  (forall b, frame b <> p -> g' b = g b) -> w32 g' w = w32 g w.
Proof.
  intros Hw Hp Hg. apply w32_ext. intros b Hb. apply Hg.
  assert (frame b = frame w) as ->; [| done]. unfold span in Hb. unfold frame. zlia.
Qed.

Lemma upd32_u8 f a v b : is_u8 (f b) -> is_u8 (upd32 f a v b).
Proof.
  intros Hb. rewrite upd32_bytes.
  assert (forall h x y, is_u8 y -> is_u8 (h b) -> is_u8 (upd h x y b)) as Hu.
  { intros h x y Hy Hf. destruct (Z.eq_dec b x) as [-> |]; [by rewrite upd_eq | by rewrite upd_ne]. }
  repeat (apply Hu; [apply u8_range |]). done.
Qed.

Section add_page.
Context (g : Z -> Z) (c : Z) (F : Z -> Prop) (Hvm : vm g c F).

(** What is in the tables decides everything. *)
Lemma vm_ext g' : (forall b, is_u8 (g' b)) -> (forall b, is_table g c (frame b) -> g' b = g b) ->
  vm g' c F /\ (forall p, is_table g' c p <-> is_table g c p) /\
  (forall a, translate g' c a = translate g c a) /\
  (forall i, 0 <= i < 1024 -> pde g' c i = pde g c i) /\
  (forall a, is_u32 a -> present (pde g c (dir_idx a)) = true -> pte g' c a = pte g c a).
Proof.
  intros Hu Hg.
  assert (forall i, 0 <= i < 1024 -> pde g' c i = pde g c i) as Hpde.
  { intros i Hi. apply w32_ext. intros b Hb. apply Hg. left. by apply (pde_frame c i). }
  assert (forall p, is_table g' c p <-> is_table g c p) as Htab.
  { intros p. unfold is_table. split; (intros [-> | (i & Hi & Hpi & He)]; [by left | right; exists i]).
    - by rewrite Hpde in Hpi, He.
    - by rewrite Hpde. }
  assert (forall a, is_u32 a -> present (pde g c (dir_idx a)) = true -> pte g' c a = pte g c a) as Hpte.
  { intros a Ha Hp. unfold pte, pte_at. rewrite Hpde by (by apply dir_idx_range).
    apply w32_ext. intros b Hb. apply Hg. eapply walked_table; [exact Ha | exact Hp | by right]. }
  assert (forall a, translate g' c a = translate g c a) as Htr.
  { intros a. unfold translate. destruct (addr_ok a) eqn:Ha; [| done]. apply addr_ok_spec in Ha.
    rewrite Hpde by (by apply dir_idx_range). destruct (present (pde g c (dir_idx a))) eqn:Hp; [| done].
    by rewrite Hpte. }
  split; [| done]. destruct Hvm as [Hc Hb [Hs1 Hs2] Hdirs Hinj Hfr Hta Hun].
  split; [done | done | | | | done | |].
  - unfold self_mapped. by rewrite Hpde by lia.
  - intros i Hi. rewrite Hpde by lia. by apply Hdirs.
  - intros i j Hi Hj. rewrite !Hpde by lia. by apply Hinj.
  - intros p Hp. rewrite Htab. by apply Hta.
  - intros p a pa Hp. rewrite Htr. by apply Hun.
Qed.

Lemma vm_sub (F' : Z -> Prop) : (forall p, F' p -> F p) -> vm g c F'.
Proof. destruct Hvm. intros Hsub. split; eauto. Qed.

(** Entries of different pages above 4 MB are different words. *)
Lemma pte_at_ne a a' : is_u32 a -> is_u32 a' -> 1 <= dir_idx a < 1023 -> 1 <= dir_idx a' < 1023 ->
  present (pde g c (dir_idx a)) = true -> present (pde g c (dir_idx a')) = true ->
  frame a <> frame a' -> pte_at g c a <> pte_at g c a'.
Proof.
  intros Ha Ha' Hd Hd' Hp Hp' Hne He.
  assert (dir_idx a = dir_idx a') as Hdd.
  { apply (vm_inj _ _ _ Hvm); [done .. |].
    rewrite <- (pte_frame g c a (pte_at g c a)), <- (pte_frame g c a' (pte_at g c a')) by (unfold span; lia).
    by rewrite He. }
  apply Hne. unfold pte_at in He. rewrite Hdd in He. assert (tab_idx a = tab_idx a') as Ht by lia.
  unfold dir_idx, tab_idx, frame in *. zlia.
Qed.

(** A frame is entered into an existing table. *)
Section entry.
Context (a v q : Z) (Ha : is_u32 a) (Hd : dir_idx a < 1023) (Hp : present (pde g c (dir_idx a)) = true)
  (Hfree : present (pte g c a) = false) (Hq : frame v = q) (Hv : present v = true) (Hvu : is_u32 v).

Let w := pte_at g c a.
Context (g' : Z -> Z) (Hg' : forall b, g' b = upd32 g w v b).

Lemma entry_w32 x : w32 g' x = w32 (upd32 g w v) x.
Proof. apply w32_ext. intros b _. apply Hg'. Qed.

Lemma entry_pde i : 0 <= i < 1024 -> pde g' c i = pde g c i.
Proof.
  intros Hi. unfold pde. rewrite entry_w32. apply w32_upd32_ne.
  destruct (words_apart w (pde_at c i)) as [He | He]; [apply entry_aligned .. | | lia].
  exfalso. apply (vm_dirs _ _ _ Hvm (dir_idx a)); [pose proof (dir_idx_range a Ha); lia | done |].
  rewrite <- (pte_frame g c a w) by (unfold span, w; lia). rewrite He.
  apply (pde_frame c i); [done |]. unfold span. lia.
Qed.

Lemma entry_pte_at a' : is_u32 a' -> pte_at g' c a' = pte_at g c a'.
Proof. intros Ha'. unfold pte_at. by rewrite entry_pde by (by apply dir_idx_range). Qed.

Lemma entry_translate a' : is_u32 a' -> translate g' c a' =
  if (pte_at g c a' =? w) && present (pde g c (dir_idx a')) then Some (q + page_off a') else translate g c a'.
Proof.
  intros Ha'. unfold translate, pte. rewrite entry_pte_at, entry_pde by (done || by apply dir_idx_range).
  rewrite (proj2 (addr_ok_spec a') Ha'), entry_w32.
  destruct (Z.eqb_spec (pte_at g c a') w) as [-> | Hne]; cbn [andb].
  - rewrite w32_upd32_eq by done. rewrite Hv, Hq. by destruct (present (pde g c (dir_idx a'))).
  - rewrite w32_upd32_ne; [done |].
    destruct (words_apart w (pte_at g c a')) as [He | He]; [apply entry_aligned .. | by rewrite He in Hne | lia].
Qed.

Lemma entry_pte a' : is_u32 a' -> pte_at g c a' <> w -> pte g' c a' = pte g c a'.
Proof.
  intros Ha' Hne. unfold pte. rewrite entry_pte_at, entry_w32 by done. apply w32_upd32_ne.
  destruct (words_apart w (pte_at g c a')) as [He | He]; [apply entry_aligned .. | by rewrite He in Hne | lia].
Qed.

(** Bytes outside the tables are as before. *)
Lemma entry_out b : ~ is_table g c (frame b) -> g' b = g b.
Proof.
  intros Hb. rewrite Hg'. apply upd32_ne. destruct (Z.le_gt_cases (w + 4) b); [by left |].
  destruct (Z.le_gt_cases (b + 1) w); [by right |]. exfalso. apply Hb. right. exists (dir_idx a).
  split; [by apply dir_idx_range |]. split; [done |]. symmetry. apply (pte_frame g c a). unfold span, w in *. lia.
Qed.

Lemma entry_extends : extends g c g'.
Proof.
  intros a' pa Ht. pose proof Ht as (Hu & Hd' & Hp' & _)%translate_Some.
  rewrite entry_translate by done. destruct (Z.eqb_spec (pte_at g c a') w) as [He | _]; [| done].
  exfalso. unfold pte in Hp', Hfree. rewrite He in Hp'. fold w in Hfree. by rewrite Hp' in Hfree.
Qed.

Lemma entry_new a' : 0 <= a' - frame a < 4096 -> translate g' c a' = Some (q + (a' - frame a)).
Proof.
  intros Ha'. assert (is_u32 a') as Hu by (unfold is_u32, frame in *; zlia).
  assert (dir_idx a' = dir_idx a /\ tab_idx a' = tab_idx a /\ page_off a' = a' - frame a) as (H1 & H2 & H3).
  { unfold dir_idx, tab_idx, page_off, frame in *. assert (a' / 2 ^ 12 = a / 2 ^ 12) as -> by zlia.
    split; [zlia |]. split; [done | zlia]. }
  rewrite entry_translate by done. unfold w, pte_at. by rewrite H1, H2, Hp, Z.eqb_refl, H3.
Qed.

Lemma entry_table p : is_table g' c p <-> is_table g c p.
Proof.
  unfold is_table. split; (intros [-> | (i & Hi & Hpi & He)]; [by left | right; exists i]).
  - by rewrite entry_pde in Hpi, He.
  - by rewrite entry_pde.
Qed.

Lemma entry_vm : q mod 4096 = 0 -> vm g' c (fun p => F p /\ p <> q).
Proof.
  intros Hq4. destruct Hvm as [Hc Hb [Hs1 Hs2] Hdirs Hinj Hfr Htab Hun]. split.
  - done.
  - intros b. rewrite Hg'. by apply upd32_u8.
  - unfold self_mapped. by rewrite !entry_pde by lia.
  - intros i Hi. rewrite entry_pde by lia. by apply Hdirs.
  - intros i j Hi Hj. rewrite !entry_pde by lia. by apply Hinj.
  - intros p [Hp' _]. by apply Hfr.
  - intros p [Hp' _]. rewrite entry_table. by apply Htab.
  - intros p a' pa [Hp' Hne] Ht. pose proof Ht as (Hu & _)%translate_Some.
    rewrite entry_translate in Ht by done. destruct (_ && _).
    + injection Ht as <-. rewrite frame_add by (done || apply page_off_range). done.
    + by eapply Hun.
Qed.
End entry.

(** A free frame becomes a new, empty table. *)
Section table.
Context (i v p : Z) (Hi : 0 <= i < 1023) (Habs : present (pde g c i) = false) (Hp : F p)
  (Hfv : frame v = p) (Hv : present v = true) (Hvu : is_u32 v).

(** The entry is written. *)
Context (g1 : Z -> Z) (Hg1 : forall b, g1 b = upd32 g (pde_at c i) v b).

Lemma table_pde j : 0 <= j < 1024 -> pde g1 c j = if j =? i then v else pde g c j.
Proof.
  intros Hj. unfold pde. rewrite (w32_ext g1 (upd32 g (pde_at c i) v)) by (intros; apply Hg1).
  destruct (Z.eqb_spec j i) as [-> | Hne]; [by apply w32_upd32_eq |].
  apply w32_upd32_ne. unfold pde_at. lia.
Qed.

Lemma table_self : self_mapped g1 c.
Proof. unfold self_mapped. rewrite table_pde by lia. rewrite (proj2 (Z.eqb_neq 1023 i)) by lia. apply (vm_self _ _ _ Hvm). Qed.

Lemma table_not_dir : p <> frame c.
Proof. intros He. apply (vm_table _ _ _ Hvm p Hp). by left. Qed.

(** The new table is seen through the directory while it is filled. *)
Lemma table_view g' k : (forall b, frame b <> p -> g' b = g1 b) -> 0 <= k < 4096 ->
  translate g' c (0xffc00000 + 4096 * i + k) = Some (p + k) /\
  forall b, walked g' c (0xffc00000 + 4096 * i + k) b -> frame b <> p.
Proof.
  intros Hg' Hk. pose proof table_not_dir as Hne.
  assert (forall j, 0 <= j < 1024 -> pde g' c j = pde g1 c j) as Hpde.
  { intros j Hj. apply (w32_frame_ext _ _ _ p); [apply entry_aligned | | done].
    rewrite (pde_frame c j) by (done || unfold span; lia). done. }
  assert (self_mapped g' c) as Hs by (unfold self_mapped; rewrite Hpde by lia; apply table_self).
  assert (pde g' c i = v) as Hpi by (rewrite Hpde, table_pde by lia; by rewrite Z.eqb_refl).
  destruct (translate_view g' c i (k / 4) Hs ltac:(lia) ltac:(zlia)) as [Ht Hw]; [by rewrite Hpi |].
  rewrite Hpi, Hfv in Ht. set (u := 0xffc00000 + 4096 * i + 4 * (k / 4)) in *.
  assert (0xffc00000 + 4096 * i + k = u + k mod 4) as -> by (unfold u; zlia).
  assert (u mod 4096 + k mod 4 < 4096 /\ 0 <= k mod 4) as [Hu1 Hu2] by (unfold u; zlia). split.
  - rewrite (translate_page _ _ _ _ _ Hu1 Hu2 Ht). f_equal. zlia.
  - intros b [Hb | Hb]%(walked_page _ _ _ _ _ Hu1 Hu2)%Hw; apply pde_frame in Hb; try lia; by rewrite Hb.
Qed.

(** The table has been cleared. *)
Context (g2 : Z -> Z) (Hg2 : forall b, g2 b = if frame b =? p then 0 else g1 b).

Lemma cleared_out b : frame b <> p -> g2 b = g1 b.
Proof. intros Hb. rewrite Hg2. by rewrite (proj2 (Z.eqb_neq _ _) Hb). Qed.

Lemma cleared_pde j : 0 <= j < 1024 -> pde g2 c j = if j =? i then v else pde g c j.
Proof.
  intros Hj. rewrite <- table_pde by done.
  apply (w32_frame_ext _ _ _ p); [apply entry_aligned | | apply cleared_out].
  rewrite (pde_frame c j) by (done || unfold span; lia). apply not_eq_sym, table_not_dir.
Qed.

Lemma cleared_table q : is_table g2 c q <-> is_table g c q \/ q = p.
Proof.
  unfold is_table. split.
  - intros [-> | (j & Hj & Hpj & He)]; [by left; left |]. rewrite cleared_pde in Hpj, He by done.
    destruct (Z.eqb_spec j i) as [-> | Hne]; [right; congruence | left; right; by exists j].
  - intros [[-> | (j & Hj & Hpj & He)] | ->]; [by left | right; exists j | right; exists i].
    + rewrite cleared_pde by done. destruct (Z.eqb_spec j i) as [-> | Hne]; [by rewrite Habs in Hpj | done].
    + rewrite cleared_pde, Z.eqb_refl by lia. split; [lia | done].
Qed.

(** Bytes outside the tables are as before. *)
Lemma cleared_same b : ~ is_table g2 c (frame b) -> g2 b = g b.
Proof.
  intros Hb. assert (frame b <> p) as Hbp by (intros He; apply Hb, cleared_table; by right).
  rewrite cleared_out, Hg1 by done. apply upd32_ne.
  destruct (Z.le_gt_cases (pde_at c i + 4) b); [by left |]. destruct (Z.le_gt_cases (b + 1) (pde_at c i)); [by right |].
  exfalso. apply Hb. left. apply (pde_frame c i); unfold span; lia.
Qed.

Lemma cleared_zero w : w mod 4 = 0 -> frame w = p -> w32 g2 w = 0.
Proof.
  intros Hw He. assert (forall b, span w 4 b -> g2 b = (fun _ => 0) b) as Hz.
  { intros b Hb. rewrite Hg2. assert (frame b = frame w) as ->; [| by rewrite He, Z.eqb_refl].
    unfold span in Hb. unfold frame. zlia. }
  by rewrite (w32_ext _ _ _ Hz).
Qed.

Lemma cleared_pte_at a : is_u32 a -> dir_idx a <> i -> pte_at g2 c a = pte_at g c a.
Proof.
  intros Ha Hne. unfold pte_at. rewrite cleared_pde by (by apply dir_idx_range).
  by rewrite (proj2 (Z.eqb_neq _ _) Hne).
Qed.

Lemma cleared_pte a : is_u32 a -> dir_idx a < 1023 -> present (pde g c (dir_idx a)) = true ->
  pte g2 c a = pte g c a.
Proof.
  intros Ha Hd Hpd. pose proof (dir_idx_range a Ha) as Hr.
  assert (dir_idx a <> i) as Hne by (intros He; by rewrite He, Habs in Hpd).
  unfold pte. rewrite cleared_pte_at by done.
  assert (is_table g c (frame (pde g c (dir_idx a)))) as Htab by (right; by exists (dir_idx a)).
  assert (frame (pte_at g c a) = frame (pde g c (dir_idx a))) as Hfr
    by (apply (pte_frame g c a); unfold span; lia).
  transitivity (w32 g1 (pte_at g c a)).
  - apply (w32_frame_ext _ _ _ p); [apply entry_aligned | | apply cleared_out].
    rewrite Hfr. intros He. rewrite He in Htab. by apply (vm_table _ _ _ Hvm p).
  - rewrite (w32_ext g1 (upd32 g (pde_at c i) v)) by (intros; apply Hg1). apply w32_upd32_ne.
    destruct (words_apart (pde_at c i) (pte_at g c a)) as [He | He]; [apply entry_aligned .. | | lia].
    exfalso. apply (vm_dirs _ _ _ Hvm (dir_idx a)); [lia | done |]. rewrite <- Hfr, <- He.
    apply (pde_frame c i); [lia |]. unfold span. lia.
Qed.

Lemma cleared_translate a : is_u32 a -> translate g2 c a =
  if dir_idx a =? i then None
  else if (dir_idx a =? 1023) && (tab_idx a =? i) then Some (p + page_off a)
  else translate g c a.
Proof.
  intros Ha. pose proof (dir_idx_range a Ha) as Hd. pose proof (tab_idx_range a) as Ht.
  unfold translate. rewrite (proj2 (addr_ok_spec a) Ha), cleared_pde by done.
  destruct (Z.eqb_spec (dir_idx a) i) as [He | Hne].
  - assert (pte g2 c a = 0) as ->; [| by rewrite andb_false_r].
    apply cleared_zero; [apply entry_aligned |].
    rewrite (pte_frame g2 c a) by (unfold span; lia). by rewrite cleared_pde, He, Z.eqb_refl by lia.
  - pose proof (cleared_pte_at a Ha Hne) as Hat.
    destruct (present (pde g c (dir_idx a))) eqn:Hpd; cbn [andb].
    2: { destruct (Z.eqb_spec (dir_idx a) 1023) as [He |]; [| done].
         rewrite He, (proj1 (vm_self _ _ _ Hvm)) in Hpd. done. }
    destruct (Z.eqb_spec (dir_idx a) 1023) as [He | Hn]; cbn [andb].
    + unfold pte. rewrite Hat. assert (pte_at g c a = pde_at c (tab_idx a)) as ->
        by (unfold pte_at; by rewrite He, (proj2 (vm_self _ _ _ Hvm))).
      change (w32 g2 (pde_at c (tab_idx a))) with (pde g2 c (tab_idx a)). rewrite cleared_pde by done.
      destruct (Z.eqb_spec (tab_idx a) i); [by rewrite Hv, Hfv | done].
    + by rewrite cleared_pte by (done || lia).
Qed.

Lemma cleared_extends : extends g c g2.
Proof.
  intros a pa Ht. pose proof Ht as (Hu & Hd & Hp' & Hpa)%translate_Some. rewrite cleared_translate by done.
  destruct (Z.eqb_spec (dir_idx a) i) as [He | _]; [by rewrite He, Habs in Hd |].
  destruct (Z.eqb_spec (dir_idx a) 1023) as [He | _]; [| done].
  destruct (Z.eqb_spec (tab_idx a) i) as [He' | _]; [| done]. exfalso. revert Hp'. unfold pte.
  assert (pte_at g c a = pde_at c i) as ->
    by (unfold pte_at; by rewrite He, He', (proj2 (vm_self _ _ _ Hvm))).
  change (w32 g (pde_at c i)) with (pde g c i). by rewrite Habs.
Qed.

Lemma cleared_vm : vm g2 c (fun q => F q /\ q <> p).
Proof.
  destruct Hvm as [Hc Hb [Hs1 Hs2] Hdirs Hinj Hfr Htab Hun]. split.
  - done.
  - intros b. rewrite Hg2. destruct (_ =? _); [done |]. rewrite Hg1. by apply upd32_u8.
  - unfold self_mapped. rewrite cleared_pde by lia. by rewrite (proj2 (Z.eqb_neq 1023 i)) by lia.
  - intros j Hj. rewrite cleared_pde by lia. destruct (Z.eqb_spec j i) as [-> | _]; [| by apply Hdirs].
    intros _. rewrite Hfv. apply table_not_dir.
  - assert (forall j, 0 <= j < 1023 -> present (pde g c j) = true -> frame (pde g c j) <> p) as Hnew.
    { intros j Hj Hpj He. apply (Htab p Hp). right. exists j. split; [lia | done]. }
    intros j k Hj Hk. rewrite !cleared_pde by lia.
    destruct (Z.eqb_spec j i) as [-> | Hji], (Z.eqb_spec k i) as [-> | Hki]; [done | | | by apply Hinj].
    + intros _ Hpk He. rewrite Hfv in He. destruct (Hnew k ltac:(lia) Hpk). done.
    + intros Hpj _ He. rewrite Hfv in He. by destruct (Hnew j ltac:(lia) Hpj).
  - intros q [Hq _]. by apply Hfr.
  - intros q [Hq Hne] [Ht | Ht]%cleared_table; [by apply (Htab q) | done].
  - intros q a pa [Hq Hne] Ht. pose proof Ht as (Hu & _)%translate_Some.
    rewrite cleared_translate in Ht by done. destruct (dir_idx a =? i); [done |]. destruct (_ && _).
    + injection Ht as <-. rewrite frame_add by (apply (Hfr p Hp) || apply page_off_range). done.
    + by eapply Hun.
Qed.
End table.
End add_page.

(** ** Regions of the kernel's memory

    A region [R] whose contents are [f], mapped one to one outside the tables,
    in an address space with the free frames [F]. *)

Lemma pbyte_u8 m b : is_u8 (pbyte m b).
Proof. apply u8_range. Qed.

Record vspace (m : paged) (R : Z -> Prop) (f : Z -> Z) (F : Z -> Prop) : Prop := mk_vspace {
  vs_vm : vm (pbyte m) (cr3 m) F;
  vs_region a : R a -> exists pa, virt m a = Some pa /\ f a = pbyte m pa /\
    ~ is_table (pbyte m) (cr3 m) (frame pa) /\ (forall a', R a' -> virt m a' = Some pa -> a' = a) }.

(** The bytes that no address of [R] is mapped to. *)
Definition outside (m : paged) (R : Z -> Prop) (b : Z) : Prop := forall a, R a -> virt m a <> Some b.

(** From [m] to [m'] only bytes of [R] have changed: nothing has moved. *)
Record unmoved (m m' : paged) (R : Z -> Prop) : Prop := mk_unmoved {
  um_cr3 : cr3 m' = cr3 m;
  um_out b : outside m R b -> pbyte m' b = pbyte m b;
  um_table p : is_table (pbyte m') (cr3 m) p <-> is_table (pbyte m) (cr3 m) p;
  um_virt a : virt m' a = virt m a;
  um_pde i : 0 <= i < 1024 -> pde (pbyte m') (cr3 m) i = pde (pbyte m) (cr3 m) i;
  um_pte a : is_u32 a -> present (pde (pbyte m) (cr3 m) (dir_idx a)) = true ->
     pte (pbyte m') (cr3 m) a = pte (pbyte m) (cr3 m) a }.

Section vspace.
Context (m : paged) (R : Z -> Prop) (f : Z -> Z) (F : Z -> Prop) (Hvs : vspace m R f F).

Lemma vspace_mapped : mapped m R f.
Proof.
  intros a Ha. destruct (vs_region _ _ _ _ Hvs a Ha) as (pa & Hv & Hf & Ht & Hi).
  exists pa. split; [done |]. split; [done |]. split; [| done]. intros a' Ha' Hw.
  destruct (vs_region _ _ _ _ Hvs a' Ha') as (pa' & Hv' & _).
  apply translate_Some in Hv' as (Hu & Hp & _). apply Ht. by eapply walked_table.
Qed.

Lemma vspace_keeping : mapped_keeping (cr3 m) (outside m R) (pbyte m) m R f.
Proof.
  split; [apply vspace_mapped |]. split; [done |]. intros a pa Ha Hv Ho. by apply (Ho a).
Qed.

Lemma vspace_sub (R' F' : Z -> Prop) : (forall a, R' a -> R a) -> (forall p, F' p -> F p) -> vspace m R' f F'.
Proof.
  intros HR HF. destruct Hvs as [Hvm Hreg]. split; [by eapply vm_sub |].
  intros a Ha. destruct (Hreg a (HR a Ha)) as (pa & Hv & Hf & Ht & Hi). exists pa. eauto 7.
Qed.

(** What a run that writes only to [R] leaves: the same translations. *)
Lemma vspace_after m' f' :
  mapped_keeping (cr3 m) (outside m R) (pbyte m) m' R f' -> vspace m' R f' F /\ unmoved m m' R.
Proof.
  intros (Hm & [Hc Hk] & _).
  assert (forall b, is_table (pbyte m) (cr3 m) (frame b) -> pbyte m' b = pbyte m b) as Hsame.
  { intros b Hb. apply Hk. intros a Ha Hv. destruct (vs_region _ _ _ _ Hvs a Ha) as (pa & Hv' & _ & Ht & _).
    rewrite Hv in Hv'. by injection Hv' as <-. }
  destruct (vm_ext _ _ _ (vs_vm _ _ _ _ Hvs) (pbyte m') (pbyte_u8 m') Hsame) as (Hvm & Htab & Htr & Hpde & Hpte).
  assert (forall a, virt m' a = virt m a) as Hvirt by (intros a; unfold virt; rewrite Hc; apply Htr).
  split; [| done]. split; [by rewrite Hc |]. intros a Ha.
  destruct (vs_region _ _ _ _ Hvs a Ha) as (pa & Hv & _ & Ht & Hi).
  destruct (Hm a Ha) as (pa' & Hv' & Hf' & _). rewrite Hvirt, Hv in Hv'. injection Hv' as <-.
  exists pa. rewrite Hvirt, Hc, Htab. split; [done |]. split; [done |]. split; [done |].
  intros a' Ha'. rewrite Hvirt. by apply Hi.
Qed.

(** A write to the tables that adds to the mapping leaves the region alone. *)
Lemma vspace_grow m' F' :
  cr3 m' = cr3 m -> vm (pbyte m') (cr3 m) F' -> extends (pbyte m) (cr3 m) (pbyte m') ->
  (forall p, is_table (pbyte m') (cr3 m) p -> is_table (pbyte m) (cr3 m) p \/ F p) ->
  (forall b, ~ is_table (pbyte m') (cr3 m) (frame b) -> pbyte m' b = pbyte m b) ->
  vspace m' R f F'.
Proof.
  intros Hc Hvm Hext Htab Hout. split; [by rewrite Hc |]. intros a Ha.
  destruct (vs_region _ _ _ _ Hvs a Ha) as (pa & Hv & Hf & Ht & Hi).
  assert (~ is_table (pbyte m') (cr3 m) (frame pa)) as Ht'.
  { intros [Ht' | HF]%Htab; [done |]. by apply (vm_unmapped _ _ _ (vs_vm _ _ _ _ Hvs) (frame pa) a pa). }
  exists pa. unfold virt. rewrite Hc, Hout by done. split; [by apply Hext |]. split; [done |].
  split; [done |]. intros a' Ha' Hv'. destruct (vs_region _ _ _ _ Hvs a' Ha') as (pa' & Hva' & _).
  apply Hext in Hva' as Hva2. rewrite Hv' in Hva2. injection Hva2 as <-. by apply Hi.
Qed.
End vspace.
