(* ===== verification/Loader.v ===== *)
(** boot/loader.S: from the registers of the BIOS to the kernel's entry point.
    The detection of memory, the disk, the first page tables, the segments of
    the kernel's file, and the tables that the kernel's memory management
    starts from.  Texts on the screen in real mode are left out. *)

From S2P Require Import Prelude Monad RawMem Machine CString Global Tss Paging.

(** ** include/boot.inc *)

Definition LOADER_BASE_ADDR : Z := 0x900.
Definition KERNEL_BIN_BASE_ADDR : Z := 0x70000.
Definition KERNEL_START_SECTOR : Z := 0x9.
Definition KERNEL_ENTRY_POINT : Z := 0xc0001500.
Definition KERNEL_SECTOR_COUNT : Z := 72.
Definition PAGE_DIR_TABLE_POS : Z := 0x00100000.
Definition KB1 : Z := 0x400.
Definition KB4 : Z := 0x1000.
Definition KB64 : Z := 0x10000.
Definition MB1 : Z := 0x100000.
Definition PT_NULL : Z := 0.

(** The attributes of the loader's entries: user, writable, present. *)
Definition page_attr (x : Z) : Z := Z.lor (Z.lor (Z.lor x 4) 2) 1.

(** ** The data of the loader, at its offsets from 0x900 *)

Definition total_mem_bytes : Z := LOADER_BASE_ADDR + 0x200.
Definition gdt_ptr : Z := total_mem_bytes + 4.
Definition ards_buf : Z := gdt_ptr + 6.
Definition BaseAddrLow : Z := ards_buf.
Definition LengthLow : Z := ards_buf + 8.
Definition ards_nr : Z := ards_buf + 20.

(** The descriptors: none, code, data, video, and three for the kernel. *)
Definition DESC_CODE_HIGH4 : Z :=
  Z.lor 0x00800000 (Z.lor 0x00400000 (Z.lor 0x000f0000 (Z.lor 0x8000 (Z.lor 0x1000 0x800)))).
Definition DESC_DATA_HIGH4 : Z :=
  Z.lor 0x00800000 (Z.lor 0x00400000 (Z.lor 0x000f0000 (Z.lor 0x8000 (Z.lor 0x1000 0x200)))).
Definition DESC_VIDEO_HIGH4 : Z :=
  Z.lor 0x00800000 (Z.lor 0x00400000 (Z.lor 0x8000 (Z.lor 0x1000 (Z.lor 0x200 0x0b)))).
Definition GDT_WORDS : list Z :=
  [0; 0; 0x0000ffff; DESC_CODE_HIGH4; 0x0000ffff; DESC_DATA_HIGH4; 0x80000007; DESC_VIDEO_HIGH4; 0; 0; 0; 0; 0; 0].
(** After the far jump to [p_mode_start], which marks the code segment as
    accessed. *)
Definition GDT_WORDS_JUMPED : list Z := <[3%nat := Z.lor DESC_CODE_HIGH4 0x100]> GDT_WORDS.
Definition GDT_LIMIT : Z := 4 * Z.of_nat (length GDT_WORDS) - 1.
Definition VIDEO_DESC : Z := LOADER_BASE_ADDR + 0x18.

Section code.
Context {M : Type} {RM : RawMem M}.

(** The instruction loop: it counts first and looks then, so that a count of 0
    means 2^32 rounds. *)
Definition asm_loop {X} (body : X -> K (M := M) X) (ecx : Z) (x : X) : K (M := M) X :=
  while_ (fun '(x, ecx) =>
    do x <- body x;
    let ecx := u32 (ecx - 1) in
    if ecx =? 0 then cret (inr x) else cret (inl (x, ecx))) (x, ecx).

(** rep movsb with the direction flag clear. *)
Definition rep_movsb (edi esi ecx : Z) : K (M := M) unit :=
  while_ (fun '(edi, esi, ecx) =>
    if ecx =? 0 then cret (inr tt)
    else do b <- ld8 esi; st8 edi b;; cret (inl (u32 (edi + 1), u32 (esi + 1), ecx - 1))) (edi, esi, ecx).

(** lgdt and sgdt with the operand at [a]. *)
Definition lgdt (a : Z) : K (M := M) unit :=
  do limit <- ld16 a; do base <- ld32 (a + 2); load_table GDTR (Z.lor limit (Z.shiftl base 16)).
Definition sgdt (a : Z) : K (M := M) unit :=
  do v <- get (fun s => gdtr (ktab s)); st16 a (table_limit v);; st32 (a + 2) (table_base v).

(** ** How much memory there is

    The BIOS answers to the three questions: for 0xe820 the next continuation
    value and a descriptor of five words, for 0xe801 the registers ax, bx and
    edx, for 0x88 the register ax; [None] is the carry flag. *)
Context (bios_e820 : Z -> option (Z * list Z)) (bios_e801 : option (Z * Z * Z)) (bios_88 : option Z).

Fixpoint store_words (a : Z) (l : list Z) : K (M := M) unit :=
  match l with [] => cret tt | w :: l' => st32 a w;; store_words (a + 4) l' end.

(** [None]: the first question failed. *)
Definition e820_mem_get_loop : K (M := M) (option Z) :=
  while_ (fun '(ebx, esi) =>
    match bios_e820 ebx with
    | None => cret (inr None)
    | Some (ebx', ards) =>
        store_words ards_buf ards;;
        do n <- ld16 ards_nr; st16 ards_nr (u16 (n + 1));;
        if ebx' =? 0 then cret (inr (Some esi))
        else
          do base <- ld32 BaseAddrLow; do length <- ld32 LengthLow;
          let eax := u32 (base + length) in
          if s32 eax <=? s32 esi then cret (inl (ebx', esi)) else cret (inl (ebx', eax))
    end) (0, 0).

(** mul cx leaves the upper half of the product in dx, and shr moves it out. *)
Definition e801_size (ax bx edx : Z) : Z :=
  let product := ax * KB1 in
  let edx := edx / 2 ^ 16 * 2 ^ 16 + product / 2 ^ 16 in
  let edx := Z.shiftr edx 16 in
  let eax := product mod 2 ^ 16 in
  let edx := Z.lor edx eax in
  let esi := u32 (edx + MB1) in
  u32 (esi + u32 (bx * KB64)).

Definition size_88 (ax : Z) : Z :=
  let product := ax * KB1 in
  let edx := u32 (Z.shiftl (product / 2 ^ 16) 16) in
  let edx := Z.lor edx (product mod 2 ^ 16) in
  u32 (edx + MB1).

(** [edx_88] is what the last question leaves in edx when it fails: hlt only
    waits for the next interrupt. *)
Definition detect_memory (edx_88 : Z) : K (M := M) unit :=
  do e820 <- e820_mem_get_loop;
  let edx :=
    match e820 with
    | Some esi => esi
    | None =>
        match bios_e801 with
        | Some (ax, bx, edx) => e801_size ax bx edx
        | None => match bios_88 with Some ax => size_88 ax | None => edx_88 end
        end
    end in
  st32 total_mem_bytes edx.

(** ** The disk

    [status k] is the answer to the k-th question for the status, [word k] the
    k-th word of the data. *)
Context (status word : nat -> Z).

Definition rd_disk_m_32 (eax ebx ecx : Z) : K (M := M) unit :=
  let esi := eax in
  let di := u16 ecx in
  outb 0x1f2 (u8 ecx);;
  let eax := esi in
  outb 0x1f3 (u8 eax);;
  let eax := Z.shiftr eax 8 in
  outb 0x1f4 (u8 eax);;
  let eax := Z.shiftr eax 8 in
  outb 0x1f5 (u8 eax);;
  let eax := Z.shiftr eax 8 in
  outb 0x1f6 (Z.lor (Z.land eax 0xf) 0xe0);;
  outb 0x1f7 0x20;;
  while_ (fun k => if Z.land (status k) 0x88 =? 0x08 then cret (inr tt) else cret (inl (S k))) 0%nat;;
  let ecx := ecx / 2 ^ 16 * 2 ^ 16 + u16 (di * 256) in
  asm_loop (fun '(ebx, k) => st16 ebx (word k);; cret (u32 (ebx + 2), S k)) ecx (ebx, 0%nat);;
  cret tt.

(** ** The first page tables *)

(** Both loops over entries: successive entries for successive pages. *)
Definition create_entries (ebx esi entry ecx : Z) : K (M := M) unit :=
  asm_loop (fun '(esi, entry) => st32 (ebx + esi * 4) entry;; cret (u32 (esi + 1), u32 (entry + PAGE1))) ecx (esi, entry);;
  cret tt.

Definition setup_page : K (M := M) unit :=
  asm_loop (fun esi => st8 (PAGE_DIR_TABLE_POS + esi) 0;; cret (u32 (esi + 1))) KB4 0;;
  let eax := PAGE_DIR_TABLE_POS + PAGE1 * 1 in
  let ebx := eax in
  let eax := page_attr eax in
  st32 (PAGE_DIR_TABLE_POS + 0x0) eax;;
  st32 (PAGE_DIR_TABLE_POS + 0xc00) eax;;
  st32 (PAGE_DIR_TABLE_POS + PAGE1 - 4) (page_attr PAGE_DIR_TABLE_POS);;
  create_entries ebx 0 (page_attr 0) (MB1 / KB4);;
  create_entries PAGE_DIR_TABLE_POS ((0xc00 + 4) / 4) (page_attr (PAGE_DIR_TABLE_POS + PAGE1 * 2))
    (1022 - (0xc00 + 4) / 4 + 1).

(** ** The kernel's file *)

Definition mem_cpy (dst src size : Z) : K (M := M) unit := rep_movsb dst src size.

(** One turn of [.each_segment].  The arguments of [mem_cpy] are handed over on
    the stack, whose frames are not modelled. *)
Definition each_segment (ebx : Z) : K (M := M) unit :=
  do p_type <- ld8 (ebx + 0);
  if p_type =? PT_NULL then cret tt
  else
    do p_filesz <- ld32 (ebx + 0x10);
    do p_offset <- ld32 (ebx + 0x4);
    do p_vaddr <- ld32 (ebx + 0x8);
    mem_cpy p_vaddr (u32 (p_offset + KERNEL_BIN_BASE_ADDR)) p_filesz.

Definition kernel_init : K (M := M) unit :=
  do e_phoff <- ld32 (KERNEL_BIN_BASE_ADDR + 0x1c);
  let ebx := u32 (e_phoff + KERNEL_BIN_BASE_ADDR) in
  do cx <- ld16 (KERNEL_BIN_BASE_ADDR + 0x2c);
  do dx <- ld16 (KERNEL_BIN_BASE_ADDR + 0x2a);
  asm_loop (fun ebx => each_segment ebx;; cret (u32 (ebx + dx))) cx ebx;;
  cret tt.
End code.

(** ** Into protected mode, and into paging *)

(** The cells [l] of the screen, by their offset from the start of gs. *)
Fixpoint show_cells {M} {RM : RawMem M} (gs : Z) (l : list (Z * Z)) : K (M := M) unit :=
  match l with [] => cret tt | (o, c) :: l' => st8 (gs + o) c;; show_cells gs l' end.

(** The segment registers: ds, es and ss, the stack, gs. *)
Definition SELECTOR_DATA : Z := 0x10.
Definition SELECTOR_VIDEO : Z := 0x18.
Definition load_selectors {M} {RM : RawMem M} : K (M := M) unit :=
  load_sreg SELECTOR_DATA;; load_sreg SELECTOR_DATA;; load_sreg SELECTOR_DATA;;
  modify (set_esp LOADER_BASE_ADDR);;
  load_sreg SELECTOR_VIDEO.

(** The 32-bit code up to the change of the address space. *)
Definition p_mode_start (status word : nat -> Z) : K (M := flat) unit :=
  load_selectors;;
  show_cells 0xb8000 [(0xa0, chr "P"%char)];;
  rd_disk_m_32 status word KERNEL_START_SECTOR KERNEL_BIN_BASE_ADDR KERNEL_SECTOR_COUNT;;
  setup_page;;
  sgdt gdt_ptr;;
  do ebx <- ld32 (gdt_ptr + 2);
  do hi <- ld32 (ebx + (VIDEO_DESC - LOADER_BASE_ADDR) + 4);
  st32 (ebx + (VIDEO_DESC - LOADER_BASE_ADDR) + 4) (Z.lor hi 0xc0000000);;
  do base <- ld32 (gdt_ptr + 2); st32 (gdt_ptr + 2) (Z.lor base 0xc0000000);;
  do esp <- get kesp; modify (set_esp (Z.lor esp 0xc0000000)).

(** The directory register is loaded and bit 31 of cr0 set: from here on the
    memory is behind the tables. *)
Definition turn_on_paging (s : kstate flat) : kstate paged :=
  mk_kstate (mk_paged (kmem s) PAGE_DIR_TABLE_POS) (kif s) (kesp s) (kvar s) (kout s) (kports s) (kinb s) (ktab s).

Definition set_screen_cells : list (Z * Z) :=
  [(0xa0, chr "2"%char); (0xa2, chr " "%char); (0xa3, 0xa4); (0xa4, chr "L"%char); (0xa5, 0xa4); (0xa6, chr "O"%char);
   (0xa7, 0xa4); (0xa8, chr "A"%char); (0xa9, 0xa4); (0xaa, chr "D"%char); (0xab, 0xa4); (0xac, chr "E"%char);
   (0xad, 0xa4); (0xae, chr "R"%char); (0xaf, 0xa4)].
Definition show_kernel_cells : list (Z * Z) :=
  [(0x140, chr "K"%char); (0x142, chr "E"%char); (0x144, chr "R"%char); (0x146, chr "N"%char); (0x148, chr "E"%char);
   (0x14a, chr "L"%char)].

(** The rest, up to the jump to the kernel; gs still has the old base. *)
Definition enter_kernel : K (M := paged) Z :=
  lgdt gdt_ptr;;
  show_cells 0xb8000 set_screen_cells;;
  show_cells 0xb8000 show_kernel_cells;;
  kernel_init;;
  modify (set_esp 0xc009f000);;
  cret KERNEL_ENTRY_POINT.

(** ** Rules *)

Section rules.
Context {M : Type} {RM : RawMem M} {RL : RawMemLaws M}.
Implicit Types (s : kstate M) (R : Z -> Prop) (f : Z -> Z) (G : protocol (kstate M)).

(** [n] rounds, with an invariant of the rounds done. *)
Lemma wp_asm_loop {X} G (body : X -> K (M := M) X) (I : Z -> X -> kstate M -> Prop) n x s (Q : X -> kstate M -> Prop) :
  1 <= n < 4294967296 -> I 0 x s ->
  (forall i x s, 0 <= i < n -> I i x s -> wp G (body x) s (I (i + 1))) ->
  (forall x s, I n x s -> Q x s) -> wp G (asm_loop body n x) s Q.
Proof.
  intros Hn HI Hbody HQ. unfold asm_loop.
  eapply (wp_while _ _ (fun k '(x, ecx) s => ecx = Z.of_nat k /\ 1 <= ecx <= n /\ I (n - ecx) x s) _ (Z.to_nat n)).
  - intros k [x1 ecx] s1 (-> & Hr & HI1). apply wp_bind. eapply wp_mono; [apply (Hbody (n - Z.of_nat k)); [lia | exact HI1] |].
    intros x2 s2 HI2. cbv beta. assert (u32 (Z.of_nat k - 1) = Z.of_nat k - 1) as -> by (apply u32_small; unfold is_u32; lia).
    destruct (Z.eqb_spec (Z.of_nat k - 1) 0) as [He | Hne]; apply wp_ret.
    + apply HQ. by replace n with (n - Z.of_nat k + 1) by lia.
    + exists (k - 1)%nat. split; [lia |]. split; [lia |]. split; [lia |].
      by replace (n - (Z.of_nat k - 1)) with (n - Z.of_nat k + 1) by lia.
  - split; [lia |]. split; [lia |]. by rewrite Z.sub_diag.
  - bounded.
Qed.

(** Entries one after the other. *)
Lemma wp_create_entries G s R f ebx esi entry n (Q : unit -> kstate M -> Prop) :
  backs (kmem s) R f -> inside R (ebx + esi * 4) (4 * n) -> 1 <= n <= 1024 -> 0 <= esi -> esi + n <= 1024 ->
  0 <= entry -> entry + n * 4096 < 4294967296 ->
  (forall m f', backs m R f' -> (forall k, 0 <= k < n -> w32 f' (ebx + (esi + k) * 4) = entry + k * 4096) ->
     (forall b, ~ span (ebx + esi * 4) (4 * n) b -> f' b = f b) -> Q tt (set_mem m s)) ->
  wp G (create_entries ebx esi entry n) s Q.
Proof.
  intros Hb Hi Hn He0 He Hx0 Hx HQ. unfold create_entries. apply wp_bind.
  eapply (wp_asm_loop _ _ (fun i '(esi1, x1) s1 => exists m g, s1 = set_mem m s /\ backs m R g /\
    esi1 = esi + i /\ x1 = entry + i * 4096 /\
    (forall k, 0 <= k < i -> w32 g (ebx + (esi + k) * 4) = entry + k * 4096) /\
    (forall b, ~ span (ebx + esi * 4) (4 * i) b -> g b = f b))).
  - lia.
  - exists (kmem s), f. split; [by destruct s |]. split; [exact Hb |]. split; [lia |]. split; [lia |]. split; [lia | done].
  - intros i [esi1 x1] s1 Hir (m & g & -> & Hg & -> & -> & Hw & Ho). apply wp_bind.
    eapply wp_st32; [exact Hg | eapply inside_sub; [exact Hi | lia ..] |]. intros m2 H2. apply wp_ret.
    exists m2, (upd32 g (ebx + (esi + i) * 4) (entry + i * 4096)). split; [done |]. split; [exact H2 |].
    split; [rewrite u32_small; [lia | unfold is_u32; lia] |].
    split; [unfold PAGE1; rewrite u32_small; [lia | unfold is_u32; lia] |]. split.
    + intros k Hk. destruct (Z.eq_dec k i) as [-> | Hne]; [rewrite w32_upd32_eq; [done | unfold is_u32; lia] |].
      rewrite w32_upd32_ne by lia. apply Hw. lia.
    + intros b Hbb. unfold span in Hbb. rewrite upd32_ne by lia. apply Ho. unfold span. lia.
  - intros [esi1 x1] s1 (m & g & -> & Hg & _ & _ & Hw & Ho). apply wp_ret. by apply (HQ m g).
Qed.

(** The page that is cleared. *)
Lemma wp_clear_page_dir G s R f (Q : Z -> kstate M -> Prop) :
  backs (kmem s) R f -> inside R PAGE_DIR_TABLE_POS 4096 ->
  (forall m f' x, backs m R f' -> (forall b, span PAGE_DIR_TABLE_POS 4096 b -> f' b = 0) ->
     (forall b, ~ span PAGE_DIR_TABLE_POS 4096 b -> f' b = f b) -> Q x (set_mem m s)) ->
  wp G (asm_loop (fun esi => st8 (PAGE_DIR_TABLE_POS + esi) 0;; cret (u32 (esi + 1))) KB4 0) s Q.
Proof.
  intros Hb Hi HQ. eapply (wp_asm_loop _ _ (fun i esi s1 => exists m g, s1 = set_mem m s /\ backs m R g /\ esi = i /\
    (forall b, span PAGE_DIR_TABLE_POS i b -> g b = 0) /\ (forall b, ~ span PAGE_DIR_TABLE_POS i b -> g b = f b))).
  - unfold KB4. lia.
  - exists (kmem s), f. split; [by destruct s |]. split; [exact Hb |]. split; [done |]. split; [unfold span; lia | done].
  - unfold KB4. intros i esi s1 Hir (m & g & -> & Hg & -> & Hz & Ho). apply wp_bind.
    eapply wp_st8; [exact Hg | apply Hi; unfold span; lia |]. intros m2 H2. apply wp_ret.
    exists m2, (upd g (PAGE_DIR_TABLE_POS + i) (u8 0)). split; [done |]. split; [exact H2 |].
    split; [by apply u32_small; unfold is_u32; lia |]. split; intros b Hbb; unfold span in *.
    + destruct (Z.eq_dec b (PAGE_DIR_TABLE_POS + i)) as [-> |]; [by rewrite upd_eq |]. rewrite upd_ne by done. apply Hz. lia.
    + rewrite upd_ne by lia. apply Ho. lia.
  - intros x s1 (m & g & -> & Hg & _ & Hz & Ho). by apply (HQ m g).
Qed.

(** What [setup_page] writes: the directory and the table of the first megabyte. *)
Record first_tables (f' : Z -> Z) : Prop := mk_first_tables {
  ft_low : w32 f' PAGE_DIR_TABLE_POS = 0x101007;
  ft_zero i : 1 <= i < 768 -> w32 f' (PAGE_DIR_TABLE_POS + i * 4) = 0;
  ft_high : w32 f' (PAGE_DIR_TABLE_POS + 768 * 4) = 0x101007;
  ft_kernel i : 769 <= i < 1023 -> w32 f' (PAGE_DIR_TABLE_POS + i * 4) = 0x102007 + (i - 769) * 4096;
  ft_self : w32 f' (PAGE_DIR_TABLE_POS + 1023 * 4) = 0x100007;
  ft_pages i : 0 <= i < 256 -> w32 f' (0x101000 + i * 4) = i * 4096 + 7 }.

Lemma first_tables_ext f f' : first_tables f -> (forall b, span PAGE_DIR_TABLE_POS 0x1400 b -> f' b = f b) -> first_tables f'.
Proof.
  intros [H0 H1 H2 H3 H4 H5] Hf.
  assert (forall a, PAGE_DIR_TABLE_POS <= a -> a + 4 <= PAGE_DIR_TABLE_POS + 0x1400 -> w32 f' a = w32 f a) as Hw.
  { intros a Ha1 Ha2. apply w32_ext. intros b Hb. apply Hf. unfold span in *. lia. }
  unfold PAGE_DIR_TABLE_POS in *.
  split; unfold PAGE_DIR_TABLE_POS; intros; rewrite Hw by lia; auto.
Qed.

Lemma wp_setup_page G s R f (Q : unit -> kstate M -> Prop) :
  backs (kmem s) R f -> inside R PAGE_DIR_TABLE_POS 0x1400 ->
  (forall m f', backs m R f' -> first_tables f' -> (forall b, ~ span PAGE_DIR_TABLE_POS 0x1400 b -> f' b = f b) ->
     Q tt (set_mem m s)) ->
  wp G setup_page s Q.
Proof.
  intros Hb Hi HQ. unfold setup_page. set (P := PAGE_DIR_TABLE_POS) in *. apply wp_bind.
  eapply wp_clear_page_dir; [exact Hb | eapply inside_sub; [exact Hi | unfold P; lia ..] |].
  intros m1 f1 x1 H1 Hz Ho1. fold P in Hz, Ho1. cbv zeta.
  apply wp_bind. eapply wp_st32; [exact H1 | eapply inside_sub; [exact Hi | lia ..] |]. intros m2 H2.
  apply wp_bind. eapply wp_st32; [exact H2 | eapply inside_sub; [exact Hi | lia ..] |]. intros m3 H3.
  apply wp_bind. eapply wp_st32; [exact H3 | eapply inside_sub; [exact Hi | unfold PAGE1; lia ..] |]. intros m4 H4.
  set (f4 := upd32 _ _ _) in H4. change (MB1 / KB4) with 256. change ((0xc00 + 4) / 4) with 769.
  change (1022 - 769 + 1) with 254. change (page_attr 0) with 7. change (P + PAGE1 * 1) with (P + 4096).
  change (page_attr (P + PAGE1 * 2)) with 0x102007.
  apply wp_bind. eapply (wp_create_entries _ _ R f4); [exact H4 | eapply inside_sub; [exact Hi | lia ..] | lia .. |].
  intros m5 f5 H5 Hw5 Ho5. eapply (wp_create_entries _ _ R f5); [exact H5 | eapply inside_sub; [exact Hi | lia ..] | lia .. |].
  intros m6 f6 H6 Hw6 Ho6. apply (HQ m6 f6 H6); fold P.
  2: { intros b Hbb. rewrite Ho6, Ho5 by (unfold span in *; lia). unfold f4, PAGE1. rewrite !upd32_ne by (unfold span in *; lia).
       apply Ho1. unfold span in *. lia. }
  assert (forall a, (forall b, span a 4 b -> ~ span (P + 769 * 4) (4 * 254) b /\ ~ span (P + 4096 + 0 * 4) (4 * 256) b) ->
    w32 f6 a = w32 f4 a) as H64.
  { intros a Ha. apply w32_ext. intros b Hbb. destruct (Ha b Hbb). rewrite Ho6, Ho5; done. }
  assert (forall i, 0 <= i < 1024 -> w32 f1 (P + i * 4) = 0) as Hz1.
  { intros i Hi'. transitivity (w32 (fun _ => 0) (P + i * 4)); [| done]. apply w32_ext. intros b Hbb. apply Hz. unfold span in *. lia. }
  split; fold P.
  - rewrite H64 by (unfold span; lia). unfold f4, PAGE1. rewrite !w32_upd32_ne by lia. rewrite Z.add_0_r. by rewrite w32_upd32_eq.
  - intros i Hi'. rewrite H64 by (unfold span; lia). unfold f4, PAGE1. rewrite !w32_upd32_ne by lia. apply Hz1. lia.
  - rewrite H64 by (unfold span; lia). unfold f4, PAGE1. rewrite w32_upd32_ne by lia. by rewrite w32_upd32_eq.
  - intros i Hi'. pose proof (Hw6 (i - 769) ltac:(lia)) as Hx. by replace (769 + (i - 769)) with i in Hx by lia.
  - rewrite H64 by (unfold span; lia). unfold f4, PAGE1. replace (P + 1023 * 4) with (P + 4096 - 4) by lia. by rewrite w32_upd32_eq.
  - intros i Hi'. transitivity (w32 f5 (P + 4096 + (0 + i) * 4)).
    + change 0x101000 with (P + 4096). rewrite Z.add_0_l. apply w32_ext. intros b Hbb. apply Ho6. unfold span in *. lia.
    + rewrite Hw5 by lia. lia.
Qed.
End rules.

(** ** The tables as the processor walks them *)

(** Frames the kernel may hand out: above the loader's tables. *)
Definition above_tables (p : Z) : Prop := p mod 4096 = 0 /\ 0x200000 <= p < 4294967296.

Section tables.
Context (g : Z -> Z) (Hft : first_tables g) (Hz : forall b, 0x101400 <= b < 0x200000 -> g b = 0)
  (Hu8 : forall b, is_u8 (g b)).
#[local] Abbreviation P := PAGE_DIR_TABLE_POS.

Lemma odd_entry k : present (k * 4096 + 7) = true.
Proof. apply Z.odd_spec. exists (k * 2048 + 3). lia. Qed.

Lemma frame_entry k : frame (k * 4096 + 7) = k * 4096.
Proof. unfold frame. zlia. Qed.

(** The entry [i] of the directory. *)
Definition first_pde (i : Z) : Z :=
  if (i =? 0) || (i =? 768) then 0x101 * 4096 + 7
  else if (769 <=? i) && (i <? 1023) then (0x102 + (i - 769)) * 4096 + 7
  else if i =? 1023 then 0x100 * 4096 + 7 else 0.

Lemma pde_first i : 0 <= i < 1024 -> pde g P i = first_pde i.
Proof.
  intros Hi. destruct Hft as [H0 H1 H2 H3 H4 _]. unfold pde, pde_at, first_pde. change (frame P) with P.
  replace (P + 4 * i) with (P + i * 4) by lia.
  destruct (Z.eqb_spec i 0) as [-> | Hn0]; [by rewrite Z.add_0_r |].
  destruct (Z.eqb_spec i 768) as [-> | Hn1]; [done |]. cbn [orb].
  destruct (Z.leb_spec 769 i) as [Hle | Hlt], (Z.ltb_spec i 1023) as [Hlt' | Hge]; cbn [andb].
  - rewrite H3 by lia. lia.
  - assert (i = 1023) as -> by lia. done.
  - rewrite (proj2 (Z.eqb_neq i 1023)) by lia. apply H1. lia.
  - lia.
Qed.

Lemma first_present i : 0 <= i < 1024 -> present (first_pde i) = (i =? 0) || (768 <=? i).
Proof.
  intros Hi. unfold first_pde.
  destruct (Z.eqb_spec i 0) as [-> | Hn0]; [done |]. destruct (Z.eqb_spec i 768) as [-> | Hn1]; [done |]. cbn [orb].
  destruct (Z.leb_spec 769 i), (Z.ltb_spec i 1023); cbn [andb]; [by rewrite odd_entry, (proj2 (Z.leb_le 768 i)) by lia | | |].
  - assert (i = 1023) as -> by lia. done.
  - rewrite (proj2 (Z.eqb_neq i 1023)), (proj2 (Z.leb_gt 768 i)) by lia. done.
  - lia.
Qed.

Lemma first_frame i : 0 <= i < 1024 -> present (first_pde i) = true ->
  frame (first_pde i) = if (i =? 0) || (i =? 768) then 0x101000 else if i =? 1023 then 0x100000 else 0x102000 + (i - 769) * 4096.
Proof.
  intros Hi. rewrite first_present by done. unfold first_pde.
  destruct (Z.eqb_spec i 0) as [-> | Hn0]; [done |]. destruct (Z.eqb_spec i 768) as [-> | Hn1]; [done |]. cbn [orb].
  intros Hle%Z.leb_le. destruct (Z.eqb_spec i 1023) as [-> | Hne]; [done |].
  rewrite (proj2 (Z.leb_le 769 i)), (proj2 (Z.ltb_lt i 1023)) by lia. cbn [andb]. rewrite frame_entry. lia.
Qed.

(** The entry for an address whose table is there. *)
Lemma pte_first a : is_u32 a -> present (pde g P (dir_idx a)) = true ->
  pte g P a = if (dir_idx a =? 0) || (dir_idx a =? 768) then (if tab_idx a <? 256 then tab_idx a * 4096 + 7 else 0)
              else if dir_idx a =? 1023 then first_pde (tab_idx a) else 0.
Proof.
  intros Ha. pose proof (dir_idx_range a Ha) as Hd. pose proof (tab_idx_range a) as Ht. unfold pte, pte_at.
  rewrite pde_first by done. intros Hp. rewrite first_frame by done.
  assert (forall x, 0x101400 <= x -> x + 4 <= 0x200000 -> w32 g x = 0) as Hz4.
  { intros x H1 H2. transitivity (w32 (fun _ => 0) x); [| done]. apply w32_ext. intros b Hb. apply Hz. unfold span in Hb. lia. }
  rewrite first_present in Hp by done.
  destruct (Z.eqb_spec (dir_idx a) 0) as [H0 | Hn0]; [| destruct (Z.eqb_spec (dir_idx a) 768) as [H1 | Hn1]]; cbn [orb] in *.
  1, 2: destruct (Z.ltb_spec (tab_idx a) 256); [rewrite <- (ft_pages _ Hft) by lia; f_equal; lia | apply Hz4; lia].
  apply Z.leb_le in Hp. destruct (Z.eqb_spec (dir_idx a) 1023) as [H2 | Hn2].
  - rewrite <- pde_first by done. done.
  - apply Hz4; lia.
Qed.

Lemma first_vm : vm g P above_tables.
Proof.
  assert (forall i, 0 <= i < 1024 -> present (pde g P i) = true -> frame (pde g P i) < 0x200000) as Hlow.
  { intros i Hi. rewrite pde_first by done. intros Hp. rewrite first_frame by done. destruct (_ || _); [lia |].
    destruct (Z.eqb_spec i 1023); lia. }
  split.
  - done.
  - exact Hu8.
  - split; by rewrite pde_first.
  - intros i Hi. rewrite pde_first by lia. intros Hp. rewrite first_frame by (lia || done). change (frame P) with 0x100000.
    rewrite first_present in Hp by lia. destruct (Z.eqb_spec i 0); [done |]. destruct (Z.eqb_spec i 768); [done |]. cbn [orb] in *.
    rewrite (proj2 (Z.eqb_neq i 1023)) by lia. lia.
  - intros i j Hi Hj. rewrite !pde_first by lia. intros Hpi Hpj. rewrite !first_frame by (lia || done).
    rewrite !first_present in Hpi, Hpj by lia.
    rewrite !(proj2 (Z.eqb_neq _ 0)), !(proj2 (Z.eqb_neq _ 1023)) in * by lia. cbn [orb] in *.
    destruct (Z.eqb_spec i 768), (Z.eqb_spec j 768); lia.
  - intros p [Hp Hr]. split; [done | unfold is_u32; lia].
  - intros p [Hp Hr] [He | (i & Hi & Hpi & He)]; [change (frame P) with 0x100000 in He; lia |]. specialize (Hlow i Hi Hpi). lia.
  - intros p a pa [Hp Hr] (Hu & Hd & Hpt & ->)%translate_Some He. rewrite frame_add in He by (apply frame_aligned || apply page_off_range).
    rewrite pte_first in Hpt, He by done. pose proof (tab_idx_range a) as Ht.
    destruct (_ || _) eqn:E1; [destruct (Z.ltb_spec (tab_idx a) 256); [| done]; rewrite frame_entry in He; lia |].
    destruct (dir_idx a =? 1023); [| done]. rewrite <- pde_first in Hpt, He by done. specialize (Hlow _ Ht Hpt). lia.
Qed.

(** The first megabyte, at 0 and at 3 GB; nothing else below the tables' own window. *)
Lemma first_translate a : is_u32 a -> a < 0xffc00000 -> translate g P a =
  if a <? 0x100000 then Some a else if (0xc0000000 <=? a) && (a <? 0xc0100000) then Some (a - 0xc0000000) else None.
Proof.
  intros Ha Hlt. pose proof (dir_idx_range a Ha) as Hd. pose proof (tab_idx_range a) as Ht.
  assert (dir_idx a <> 1023) as Hn by (unfold dir_idx, is_u32 in *; zlia).
  pose proof (page_off_range a) as Ho.
  assert (a = dir_idx a * 0x400000 + tab_idx a * 4096 + page_off a) as Hsplit
    by (unfold dir_idx, tab_idx, page_off; zlia).
  pose proof (pte_first a Ha) as Hpte. pose proof (pde_first _ Hd) as Hpde. pose proof (first_present _ Hd) as Hpres.
  unfold translate. rewrite (proj2 (addr_ok_spec a) Ha). cbn [andb]. rewrite <- Hpde in Hpres.
  destruct (present (pde g P (dir_idx a))) eqn:Hp; cbn [andb].
  - rewrite (Hpte eq_refl). rewrite (proj2 (Z.eqb_neq (dir_idx a) 1023) Hn).
    destruct (Z.eqb_spec (dir_idx a) 0) as [H0 | Hn0]; [| destruct (Z.eqb_spec (dir_idx a) 768) as [H1 | Hn1]]; cbn [orb].
    + destruct (Z.ltb_spec (tab_idx a) 256).
      * rewrite odd_entry, frame_entry. rewrite (proj2 (Z.ltb_lt a 0x100000)) by lia. f_equal. lia.
      * rewrite (proj2 (Z.ltb_ge a 0x100000)), (proj2 (Z.leb_gt 0xc0000000 a)) by lia. done.
    + rewrite (proj2 (Z.ltb_ge a 0x100000)), (proj2 (Z.leb_le 0xc0000000 a)) by lia. cbn [andb].
      destruct (Z.ltb_spec (tab_idx a) 256).
      * rewrite odd_entry, frame_entry. rewrite (proj2 (Z.ltb_lt a 0xc0100000)) by lia. f_equal. lia.
      * rewrite (proj2 (Z.ltb_ge a 0xc0100000)) by lia. done.
    + rewrite (proj2 (Z.ltb_ge a 0x100000)) by lia. cbn [orb] in Hpres.
      symmetry in Hpres. apply Z.leb_le in Hpres. rewrite (proj2 (Z.ltb_ge a 0xc0100000)), andb_false_r by lia. done.
  - symmetry in Hpres. apply orb_false_iff in Hpres as [H0%Z.eqb_neq H1%Z.leb_gt].
    rewrite (proj2 (Z.ltb_ge a 0x100000)), (proj2 (Z.leb_gt 0xc0000000 a)) by lia. done.
Qed.

Lemma first_dirs i : 768 <= i < 1024 -> present (pde g P i) = true.
Proof. intros Hi. rewrite pde_first, first_present by lia. by rewrite (proj2 (Z.leb_le 768 i)), orb_true_r by lia. Qed.
End tables.

(** The address space with the first tables. *)
Record first_space (m : paged) : Prop := mk_first_space {
  fs_cr3 : cr3 m = PAGE_DIR_TABLE_POS;
  fs_vm : vm (pbyte m) (cr3 m) above_tables;
  fs_virt a : is_u32 a -> a < 0xffc00000 -> virt m a =
    if a <? 0x100000 then Some a else if (0xc0000000 <=? a) && (a <? 0xc0100000) then Some (a - 0xc0000000) else None;
  fs_dirs i : 768 <= i < 1024 -> present (pde (pbyte m) (cr3 m) i) = true }.

Lemma first_space_intro m : first_tables (flat_at m) -> (forall b, 0x101400 <= b < 0x200000 -> flat_at m b = 0) ->
  first_space (mk_paged m PAGE_DIR_TABLE_POS).
Proof.
  intros Hft Hz. split; [done | | |].
  - apply first_vm; [exact Hft | exact Hz | apply (pbyte_u8 (mk_paged m 0))].
  - intros a Ha Hlt. by apply first_translate.
  - intros i Hi. by apply first_dirs.
Qed.

(** It stays while only mapped memory is written. *)
Lemma first_space_unmoved m m' R : first_space m -> unmoved m m' R -> vm (pbyte m') (cr3 m') above_tables -> first_space m'.
Proof.
  intros [H1 H2 H3 H4] Hum Hvm. split.
  - by rewrite (um_cr3 _ _ _ Hum).
  - exact Hvm.
  - intros a Ha Hlt. rewrite (um_virt _ _ _ Hum). by apply H3.
  - intros i Hi. rewrite (um_cr3 _ _ _ Hum), (um_pde _ _ _ Hum) by lia. by apply H4.
Qed.

(** ** The segments of the kernel's file *)

Record phdr := mk_phdr { ph_type : Z; ph_offset : Z; ph_vaddr : Z; ph_filesz : Z }.

(** The members of the ELF header and of the program headers, in the contents [g]. *)
Definition e_phoff (g : Z -> Z) : Z := w32 g (KERNEL_BIN_BASE_ADDR + 0x1c).
Definition e_phentsize (g : Z -> Z) : Z := w16 g (KERNEL_BIN_BASE_ADDR + 0x2a).
Definition e_phnum (g : Z -> Z) : Z := w16 g (KERNEL_BIN_BASE_ADDR + 0x2c).
Definition phdr_addr (g : Z -> Z) (i : Z) : Z := KERNEL_BIN_BASE_ADDR + e_phoff g + i * e_phentsize g.
Definition phdr_at (g : Z -> Z) (a : Z) : phdr := mk_phdr (g a) (w32 g (a + 4)) (w32 g (a + 8)) (w32 g (a + 16)).
Definition phdrs (g : Z -> Z) (n : Z) : list phdr := map (fun i => phdr_at g (phdr_addr g i)) (zrange n).

(** The bytes of a segment come from the file [g]. *)
Definition load_segment (g f : Z -> Z) (h : phdr) : Z -> Z := fun b =>
  if negb (ph_type h =? PT_NULL) && ((ph_vaddr h <=? b) && (b <? ph_vaddr h + ph_filesz h))
  then g (KERNEL_BIN_BASE_ADDR + ph_offset h + (b - ph_vaddr h)) else f b.
Definition load_segments (g f : Z -> Z) (hs : list phdr) : Z -> Z := foldl (load_segment g) f hs.

Lemma zrange_succ n : 0 <= n -> zrange (n + 1) = zrange n ++ [n].
Proof.
  intros Hn. unfold zrange. replace (Z.to_nat (n + 1)) with (S (Z.to_nat n)) by lia. rewrite seq_S, map_app. cbn.
  by rewrite Z2Nat.id by lia.
Qed.

Lemma phdrs_succ g n : 0 <= n -> phdrs g (n + 1) = phdrs g n ++ [phdr_at g (phdr_addr g n)].
Proof. intros Hn. unfold phdrs. by rewrite zrange_succ, map_app. Qed.

Lemma phdrs_in g n h : In h (phdrs g n) <-> exists i, 0 <= i < n /\ h = phdr_at g (phdr_addr g i).
Proof.
  unfold phdrs. rewrite in_map_iff. split.
  - intros (i & <- & Hi%zrange_spec). by exists i.
  - intros (i & Hi & ->). exists i. split; [done |]. by apply zrange_spec.
Qed.

(** A byte is that of the last segment that has it. *)
Lemma load_segments_out g f hs b :
  (forall h, In h hs -> ph_type h <> PT_NULL -> ~ span (ph_vaddr h) (ph_filesz h) b) -> load_segments g f hs b = f b.
Proof.
  revert f. induction hs as [| h hs IH]; intros f Hn; [done |]. cbn [load_segments foldl].
  change (load_segments g (load_segment g f h) hs b = f b). rewrite IH by (intros x Hx; apply Hn; by right).
  unfold load_segment. destruct (Z.eqb_spec (ph_type h) PT_NULL) as [| Hne]; [done |]. cbn [negb andb].
  pose proof (Hn h ltac:(by left) Hne) as Ho. unfold span in Ho. by destruct (_ && _) eqn:E; [lia |].
Qed.

Lemma load_segments_last g f hs1 h hs2 b : ph_type h <> PT_NULL -> span (ph_vaddr h) (ph_filesz h) b ->
  (forall x, In x hs2 -> ph_type x <> PT_NULL -> ~ span (ph_vaddr x) (ph_filesz x) b) ->
  load_segments g f (hs1 ++ h :: hs2) b = g (KERNEL_BIN_BASE_ADDR + ph_offset h + (b - ph_vaddr h)).
Proof.
  intros Hne Hb Hn. unfold load_segments. rewrite foldl_app. cbn [foldl].
  change (load_segments g (load_segment g (load_segments g f hs1) h) hs2 b = g (KERNEL_BIN_BASE_ADDR + ph_offset h + (b - ph_vaddr h))).
  rewrite load_segments_out by done. unfold load_segment. rewrite (proj2 (Z.eqb_neq _ _) Hne). cbn [negb andb].
  unfold span in Hb. by destruct (_ && _) eqn:E; [| lia].
Qed.

(** A file of [size] bytes that the loader can load. *)
Record loadable (R : Z -> Prop) (f : Z -> Z) (size : Z) : Prop := mk_loadable {
  lo_image : inside R KERNEL_BIN_BASE_ADDR size;
  lo_size : 0x34 <= size /\ KERNEL_BIN_BASE_ADDR + size < 4294967296;
  lo_count : 1 <= e_phnum f;
  lo_headers i : 0 <= i < e_phnum f -> e_phoff f + i * e_phentsize f + 0x14 <= size;
  lo_segment h : In h (phdrs f (e_phnum f)) -> ph_type h <> PT_NULL ->
    ph_offset h + ph_filesz h <= size /\ inside R (ph_vaddr h) (ph_filesz h) /\
    forall b, span (ph_vaddr h) (ph_filesz h) b -> ~ span KERNEL_BIN_BASE_ADDR size b }.

Section kernel_file.
Context {M : Type} {RM : RawMem M} {RL : RawMemLaws M}.
Implicit Types (s : kstate M) (R : Z -> Prop) (f : Z -> Z) (G : protocol (kstate M)).

Lemma wp_mem_cpy G s R f dst src n (Q : unit -> kstate M -> Prop) :
  backs (kmem s) R f -> inside R dst n -> inside R src n -> is_u32 dst -> is_u32 src -> is_u32 n ->
  (forall b, span dst n b -> ~ span src n b) ->
  (forall m f', backs m R f' -> (forall b, span dst n b -> f' b = f (src + (b - dst))) ->
     (forall b, ~ span dst n b -> f' b = f b) -> Q tt (set_mem m s)) ->
  wp G (mem_cpy dst src n) s Q.
Proof.
  intros Hb Hd Hs Hdu Hsu Hn Hdis HQ. unfold mem_cpy, rep_movsb, is_u32 in *.
  eapply (wp_while _ _ (fun k '(edi, esi, ecx) s1 => exists m g, s1 = set_mem m s /\ backs m R g /\
    ecx = Z.of_nat k /\ 0 <= ecx <= n /\ edi = u32 (dst + (n - ecx)) /\ esi = u32 (src + (n - ecx)) /\
    (forall b, span dst (n - ecx) b -> g b = f (src + (b - dst))) /\
    (forall b, ~ span dst (n - ecx) b -> g b = f b)) _ (Z.to_nat n)).
  - intros k [[edi esi] ecx] s1 (m & g & -> & Hg & -> & Hr & -> & -> & Hin & Hout).
    destruct (Z.eqb_spec (Z.of_nat k) 0) as [Hk | Hk].
    + apply wp_ret. rewrite Hk, Z.sub_0_r in *. by apply (HQ m g).
    + set (i := n - Z.of_nat k) in *.
      assert (R (dst + i)) as Hdi by (apply Hd; unfold span; lia). assert (R (src + i)) as Hsi by (apply Hs; unfold span; lia).
      pose proof (backs_addr _ _ _ _ Hg Hdi) as Hdi'. pose proof (backs_addr _ _ _ _ Hg Hsi) as Hsi'.
      rewrite (u32_small (dst + i)), (u32_small (src + i)) by done.
      apply wp_bind. eapply wp_ld8; [exact Hg | exact Hsi |]. intros Hu8.
      apply wp_bind. eapply wp_st8; [exact Hg | exact Hdi |]. intros m2 H2. apply wp_ret. exists (k - 1)%nat.
      split; [lia |]. exists m2, (upd g (dst + i) (u8 (g (src + i)))). split; [done |]. split; [exact H2 |].
      split; [lia |]. split; [lia |]. replace (n - (Z.of_nat k - 1)) with (i + 1) by lia.
      split; [f_equal; lia |]. split; [f_equal; lia |]. rewrite u8_small by done. split; intros b Hbb; unfold span in *.
      * destruct (Z.eq_dec b (dst + i)) as [-> | Hne].
        -- rewrite upd_eq. replace (src + (dst + i - dst)) with (src + i) by lia. apply Hout. intros Hx.
           apply (Hdis (src + i)); lia.
        -- rewrite upd_ne by done. apply Hin. lia.
      * rewrite upd_ne by lia. apply Hout. lia.
  - exists (kmem s), f. rewrite Z2Nat.id, Z.sub_diag, !Z.add_0_r by lia.
    split; [by destruct s |]. split; [exact Hb |]. split; [done |]. split; [lia |].
    split; [by rewrite u32_small |]. split; [by rewrite u32_small |]. split; [unfold span; lia | done].
  - bounded.
Qed.

Lemma loadable_w32 R f size i (x : Z) : loadable R f size -> (forall b, R b -> is_u8 (f b)) -> 0 <= i < e_phnum f ->
  0 <= x -> x + 4 <= 0x14 -> is_u32 (w32 f (phdr_addr f i + x)) /\ inside R (phdr_addr f i) 0x14 /\
  span KERNEL_BIN_BASE_ADDR size (phdr_addr f i).
Proof.
  intros [Hi [Hs Hs'] _ Hh _] Hu Hir Hx1 Hx2. specialize (Hh i Hir).
  assert (forall a n, KERNEL_BIN_BASE_ADDR <= a -> a + n <= KERNEL_BIN_BASE_ADDR + size -> inside R a n) as Hin.
  { intros a n H1 H2 b Hb. apply Hi. unfold span in *. lia. }
  assert (0 <= e_phoff f) as H0.
  { apply w32_range. intros b Hb. apply Hu. eapply (Hin (KERNEL_BIN_BASE_ADDR + 0x1c) 4); [lia | lia | exact Hb]. }
  assert (0 <= e_phentsize f) as H1.
  { apply w16_range. intros b Hb. apply Hu. eapply (Hin (KERNEL_BIN_BASE_ADDR + 0x2a) 2); [lia | lia | exact Hb]. }
  assert (KERNEL_BIN_BASE_ADDR <= phdr_addr f i) as Hge by (unfold phdr_addr; nia).
  assert (phdr_addr f i + 0x14 <= KERNEL_BIN_BASE_ADDR + size) as Hle by (unfold phdr_addr; lia).
  split; [| split; [by apply Hin | unfold span; lia]].
  apply w32_range. intros b Hb. apply Hu. eapply (Hin (phdr_addr f i + x) 4); [lia | lia | exact Hb].
Qed.

Lemma wp_each_segment G s R f g size i (Q : unit -> kstate M -> Prop) :
  loadable R f size -> (forall b, R b -> is_u8 (f b)) -> backs (kmem s) R g ->
  (forall b, span KERNEL_BIN_BASE_ADDR size b -> g b = f b) -> 0 <= i < e_phnum f ->
  (forall m g', backs m R g' -> (forall b, g' b = load_segment f g (phdr_at f (phdr_addr f i)) b) -> Q tt (set_mem m s)) ->
  wp G (each_segment (phdr_addr f i)) s Q.
Proof.
  intros Hlo Hu Hg Himg Hi HQ. set (a := phdr_addr f i) in *. set (h := phdr_at f a).
  fold h in HQ. pose proof (fun x => loadable_w32 R f size i x Hlo Hu Hi) as Hw. fold a in Hw.
  destruct (Hw 0) as (_ & Hia & Hspan); [lia | lia |]. pose proof (lo_headers _ _ _ Hlo i Hi) as Hend. fold a in Hend.
  assert (a + 0x14 <= KERNEL_BIN_BASE_ADDR + size) as Hend' by (unfold a, phdr_addr; lia).
  assert (forall x, 0 <= x -> x + 4 <= 0x14 -> w32 g (a + x) = w32 f (a + x)) as Hgw.
  { intros x H1 H2. apply w32_ext. intros b Hb. apply Himg. unfold span in *. lia. }
  assert (In h (phdrs f (e_phnum f))) as Hin by (apply phdrs_in; by exists i).
  unfold each_segment. rewrite Z.add_0_r. apply wp_bind. eapply wp_ld8; [exact Hg | apply Hia; unfold span; lia |].
  intros _. rewrite Himg by exact Hspan. change (f a) with (ph_type h). destruct (Z.eqb_spec (ph_type h) PT_NULL) as [He | Hne].
  - apply wp_ret. replace s with (set_mem (kmem s) s) by (by destruct s). apply (HQ _ g Hg). intros b.
    unfold load_segment. by rewrite (proj2 (Z.eqb_eq _ _) He).
  - destruct (lo_segment _ _ _ Hlo h Hin Hne) as (Hsz & Hdst & Hdis).
    apply wp_bind. eapply wp_ld32; [exact Hg | eapply inside_sub; [exact Hia | lia ..] |]. intros _.
    apply wp_bind. eapply wp_ld32; [exact Hg | eapply inside_sub; [exact Hia | lia ..] |]. intros _.
    apply wp_bind. eapply wp_ld32; [exact Hg | eapply inside_sub; [exact Hia | lia ..] |]. intros _.
    rewrite !Hgw by lia. change (w32 f (a + 0x10)) with (ph_filesz h). change (w32 f (a + 0x4)) with (ph_offset h).
    change (w32 f (a + 0x8)) with (ph_vaddr h).
    assert (is_u32 (ph_filesz h)) as Hu1 by (apply (Hw 16); lia). assert (is_u32 (ph_offset h)) as Hu2 by (apply (Hw 4); lia).
    assert (is_u32 (ph_vaddr h)) as Hu3 by (apply (Hw 8); lia). destruct (lo_size _ _ _ Hlo) as [Hs1 Hs2].
    rewrite u32_small by (unfold is_u32, KERNEL_BIN_BASE_ADDR in *; lia).
    eapply wp_mem_cpy; [exact Hg | exact Hdst | | exact Hu3 | unfold is_u32, KERNEL_BIN_BASE_ADDR in *; lia | exact Hu1 | |].
    + intros b Hb. apply (lo_image _ _ _ Hlo). unfold is_u32, span in *. lia.
    + intros b Hb Hx. apply (Hdis b Hb). unfold is_u32, span in *. lia.
    + intros m g' H' Hin' Hout'. apply (HQ m g' H'). intros b. unfold load_segment.
      rewrite (proj2 (Z.eqb_neq _ _) Hne). cbn [negb andb].
      destruct (_ && _) eqn:E; [| apply Hout'; unfold span; lia].
      rewrite Hin' by (unfold span; lia). replace (ph_offset h + KERNEL_BIN_BASE_ADDR) with (KERNEL_BIN_BASE_ADDR + ph_offset h) by lia.
      apply Himg. unfold is_u32, span in *. lia.
Qed.

Lemma load_segments_image R f size i b : loadable R f size -> 0 <= i <= e_phnum f -> span KERNEL_BIN_BASE_ADDR size b ->
  load_segments f f (phdrs f i) b = f b.
Proof.
  intros Hlo Hi Hb. apply load_segments_out. intros h (j & Hj & ->)%phdrs_in Hne Hs.
  destruct (lo_segment _ _ _ Hlo (phdr_at f (phdr_addr f j))) as (_ & _ & Hdis); [apply phdrs_in; exists j; split; [lia | done] | done |].
  by apply (Hdis b).
Qed.

Lemma wp_kernel_init G s R f size (Q : unit -> kstate M -> Prop) :
  backs (kmem s) R f -> loadable R f size ->
  (forall m f', backs m R f' -> (forall b, f' b = load_segments f f (phdrs f (e_phnum f)) b) -> Q tt (set_mem m s)) ->
  wp G kernel_init s Q.
Proof.
  intros Hb Hlo HQ. pose proof (fun b => backs_byte _ _ _ b Hb) as Hu. destruct (lo_size _ _ _ Hlo) as [Hs1 Hs2].
  pose proof (lo_image _ _ _ Hlo) as Hi. pose proof (lo_count _ _ _ Hlo) as Hn. unfold kernel_init.
  apply wp_bind. eapply wp_ld32; [exact Hb | eapply inside_sub; [exact Hi | lia ..] |]. intros Hoff.
  apply wp_bind. eapply wp_ld16; [exact Hb | eapply inside_sub; [exact Hi | lia ..] |].
  apply wp_bind. eapply wp_ld16; [exact Hb | eapply inside_sub; [exact Hi | lia ..] |].
  fold (e_phoff f) (e_phnum f) (e_phentsize f) in *.
  assert (0 <= e_phnum f < 2 ^ 16) as Hn'.
  { apply w16_range. intros b Hbb. apply Hu, Hi. unfold span in *. lia. }
  assert (forall i, 0 <= i < e_phnum f -> is_u32 (phdr_addr f i)) as Hua.
  { intros i Hir. destruct (loadable_w32 R f size i 0 Hlo Hu Hir) as (_ & _ & Hsp); [lia | lia |].
    unfold span, is_u32, KERNEL_BIN_BASE_ADDR in *. lia. }
  apply wp_bind. eapply (wp_asm_loop _ _ (fun i ebx s1 => exists m g, s1 = set_mem m s /\ backs m R g /\
    ebx = u32 (phdr_addr f i) /\ forall b, g b = load_segments f f (phdrs f i) b)); [lia | | |].
  - exists (kmem s), f. split; [by destruct s |]. split; [exact Hb |]. split; [| done]. unfold phdr_addr. f_equal. lia.
  - intros i ebx s1 Hir (m & g & -> & Hg & -> & Heq). rewrite (u32_small (phdr_addr f i)) by (by apply Hua).
    apply wp_bind. eapply wp_each_segment; [exact Hlo | exact Hu | exact Hg | | exact Hir |].
    + intros b Hbb. rewrite Heq. eapply load_segments_image; [exact Hlo | lia | exact Hbb].
    + intros m2 g2 H2 Heq2. apply wp_ret. exists m2, g2. split; [done |]. split; [exact H2 |]. split.
      * unfold phdr_addr. f_equal. lia.
      * intros b. rewrite Heq2, phdrs_succ by lia. unfold load_segments. rewrite foldl_app. cbn [foldl]. unfold load_segment.
        by rewrite Heq.
  - intros ebx s1 (m & g & -> & Hg & _ & Heq). apply wp_ret. by apply (HQ m g).
Qed.
End kernel_file.

(** ** The disk and the memory's size *)

Section devices.
Context {M : Type} {RM : RawMem M} {RL : RawMemLaws M}.
Implicit Types (s : kstate M) (R : Z -> Prop) (f : Z -> Z) (G : protocol (kstate M)).

(** The commands for [count] sectors from [lba], latest first. *)
Definition disk_commands (lba count : Z) : list (Z * Z) :=
  [(0x1f7, 0x20); (0x1f6, Z.lor (Z.land (lba / 2 ^ 24) 0xf) 0xe0); (0x1f5, u8 (lba / 2 ^ 16)); (0x1f4, u8 (lba / 2 ^ 8));
   (0x1f3, u8 lba); (0x1f2, u8 count)].

Lemma wp_rd_disk G s R f (status word : nat -> Z) lba a count (Q : unit -> kstate M -> Prop) :
  backs (kmem s) R f -> inside R a (count * 512) -> 1 <= count < 256 -> (forall k, 0 <= word k < 2 ^ 16) ->
  (exists k, Z.of_nat k < 2 ^ 32 /\ Z.land (status k) 0x88 = 0x08) ->
  (forall s' f', backs (kmem s') R f' -> grew s s' (disk_commands lba count) [] -> kout s' = kout s ->
     (forall k, Z.of_nat k < count * 256 -> w16 f' (a + 2 * Z.of_nat k) = word k) ->
     (forall b, ~ span a (count * 512) b -> f' b = f b) -> Q tt s') ->
  wp G (rd_disk_m_32 status word lba a count) s Q.
Proof.
  intros Hb Hi Hc Hw (k0 & Hk0 & Hst) HQ. unfold rd_disk_m_32.
  do 6 (apply wp_bind, wp_modify). set (s1 := put_port _ _).
  apply wp_bind. eapply (wp_while _ _ (fun n k s2 => (n = S k0 - k)%nat /\ (k <= k0)%nat /\ s2 = s1) _ (S k0)).
  { intros n k s2 (-> & Hk & ->). destruct (Z.eqb_spec (Z.land (status k) 0x88) 0x08) as [He | Hne]; apply wp_ret.
    2: { exists (S k0 - S k)%nat. split; [lia |]. split; [lia |]. split; [| done].
         destruct (Nat.eq_dec k k0) as [-> |]; [done | lia]. }
    assert (u16 count = count) as -> by (unfold u16; zlia). assert (u16 (count * 256) = count * 256) as -> by (unfold u16; zlia).
    assert (count / 2 ^ 16 * 2 ^ 16 + count * 256 = count * 256) as -> by zlia.
    apply wp_bind. eapply (wp_asm_loop _ _ (fun i '(ebx, k) s2 => exists m g, s2 = set_mem m s1 /\ backs m R g /\
      ebx = u32 (a + 2 * i) /\ k = Z.to_nat i /\ (forall j, Z.of_nat j < i -> w16 g (a + 2 * Z.of_nat j) = word j) /\
      (forall b, ~ span a (2 * i) b -> g b = f b))); [lia | | |].
    - exists (kmem s), f. split; [by destruct s |]. split; [exact Hb |]. split; [| split; [done | split; [lia | done]]].
      rewrite Z.add_0_r. symmetry. apply u32_small. eapply backs_addr; [exact Hb | apply Hi; unfold span; lia].
    - intros i [ebx k2] s3 Hir (m & g & -> & Hg & -> & -> & Hin & Hout).
      assert (is_u32 (a + 2 * i)) as Hu by (eapply backs_addr; [exact Hb | apply Hi; unfold span; lia]).
      rewrite (u32_small (a + 2 * i)) by done. apply wp_bind.
      eapply wp_st16; [exact Hg | eapply inside_sub; [exact Hi | lia ..] |]. intros m2 H2. apply wp_ret.
      exists m2, (upd16 g (a + 2 * i) (word (Z.to_nat i))). split; [done |]. split; [exact H2 |].
      split; [f_equal; lia |]. split; [lia |]. split.
      + intros j Hj. destruct (Z.eq_dec (Z.of_nat j) i) as [<- | Hne].
        * rewrite w16_upd16_eq; rewrite Nat2Z.id; [done | apply Hw].
        * rewrite w16_upd16_ne by lia. apply Hin. lia.
      + intros b Hbb. unfold span in *. rewrite upd16_ne by lia. apply Hout. lia.
    - intros [ebx k2] s3 (m & g & -> & Hg & _ & _ & Hin & Hout). apply wp_ret.
      apply (HQ _ g); [exact Hg | | done | exact Hin |].
      + split; try done. cbn [kports set_mem s1 put_port]. unfold disk_commands.
        rewrite !Z.shiftr_div_pow2, !Z.div_div by lia. done.
      + intros b Hbb. apply Hout. unfold span in *. lia. }
  - split; [lia |]. split; [lia | done].
  - bounded.
Qed.

(** The BIOS has [l] to say about memory: the continuation values and the
    descriptors, of which the last has the value 0. *)
Fixpoint e820_chain (bios_e820 : Z -> option (Z * list Z)) (ebx : Z) (l : list (Z * list Z)) : Prop :=
  match l with
  | [] => False
  | (e, d) :: l' => bios_e820 ebx = Some (e, d) /\ length d = 5%nat /\ Forall is_u32 d /\
      match l' with [] => e = 0 | _ => e <> 0 /\ e820_chain bios_e820 e l' end
  end.

(** What the loop makes of a descriptor: the end of its memory, compared as a
    signed number. *)
Definition ards_end (d : list Z) : Z := u32 (nth 0 d 0 + nth 2 d 0).
Definition e820_next (esi : Z) (d : list Z) : Z := if s32 (ards_end d) <=? s32 esi then esi else ards_end d.

Definition bios_bytes (b : Z) : Prop := span ards_buf 22 b.

Lemma wp_store_words G s R f l : forall a (Q : unit -> kstate M -> Prop), backs (kmem s) R f -> inside R a (4 * len l) ->
  Forall is_u32 l ->
  (forall m f', backs m R f' -> (forall i, 0 <= i < len l -> w32 f' (a + 4 * i) = nth (Z.to_nat i) l 0) ->
     (forall b, ~ span a (4 * len l) b -> f' b = f b) -> Q tt (set_mem m s)) ->
  wp G (store_words a l) s Q.
Proof.
  revert s f. induction l as [| w l IH]; intros s f a Q Hb Hi Hu HQ; cbn [store_words].
  - apply wp_ret. replace s with (set_mem (kmem s) s) by (by destruct s). apply (HQ _ f Hb); [rewrite len_nil; lia | done].
  - rewrite len_cons in *. pose proof (len_nonneg l). inversion Hu as [| ? ? Hw Hul]; subst. apply wp_bind.
    eapply wp_st32; [exact Hb | eapply inside_sub; [exact Hi | lia ..] |]. intros m1 H1.
    eapply (IH (set_mem m1 s)); [exact H1 | eapply inside_sub; [exact Hi | lia ..] | exact Hul |].
    intros m2 f2 H2 Hw2 Ho2. apply (HQ m2 f2 H2).
    + intros i Hir. destruct (Z.eq_dec i 0) as [-> | Hne].
      * rewrite Z.mul_0_r, Z.add_0_r. cbn. rewrite <- (w32_upd32_eq f a w Hw). apply w32_ext. intros b Hbb.
        apply Ho2. unfold span in *. lia.
      * replace (Z.to_nat i) with (S (Z.to_nat (i - 1))) by lia. cbn [nth]. rewrite <- Hw2 by lia. f_equal. lia.
    + intros b Hbb. unfold span in Hbb. rewrite Ho2 by (unfold span; lia). apply upd32_ne. lia.
Qed.

(** All but the last descriptor count. *)
Lemma wp_e820 G s R f bios_e820 l (Q : option Z -> kstate M -> Prop) :
  backs (kmem s) R f -> inside R ards_buf 22 -> e820_chain bios_e820 0 l -> Z.of_nat (length l) < 2 ^ 32 ->
  (forall m f', backs m R f' -> (forall b, ~ bios_bytes b -> f' b = f b) ->
     Q (Some (foldl e820_next 0 (map snd (removelast l)))) (set_mem m s)) ->
  wp G (e820_mem_get_loop bios_e820) s Q.
Proof.
  intros Hb Hi Hch Hlen HQ. unfold e820_mem_get_loop. unfold bios_bytes, ards_buf in *.
  eapply (wp_while _ _ (fun n '(ebx, esi) s1 => exists m g l2, s1 = set_mem m s /\ backs m R g /\
    (forall b, ~ span (gdt_ptr + 6) 22 b -> g b = f b) /\ n = length l2 /\ e820_chain bios_e820 ebx l2 /\
    foldl e820_next esi (map snd (removelast l2)) = foldl e820_next 0 (map snd (removelast l))) _ (length l)).
  - intros n [ebx esi] s1 (m & g & l2 & -> & Hg & Ho & -> & Hc & Heq). destruct l2 as [| [e d] l2]; [done |].
    destruct Hc as (Hbios & Hd & Hdu & Hrest). rewrite Hbios. pose proof (eq_refl : len d = Z.of_nat (length d)) as Hld. rewrite Hd in Hld.
    change (Z.of_nat 5) with 5 in Hld. apply wp_bind.
    eapply wp_store_words; [exact Hg | rewrite Hld; eapply inside_sub; [exact Hi | unfold ards_buf; lia ..] | exact Hdu |].
    rewrite Hld. intros m1 g1 H1 Hw1 Ho1. unfold ards_buf, ards_nr in *.
    apply wp_bind. eapply wp_ld16; [exact H1 | eapply inside_sub; [exact Hi | unfold ards_buf; lia ..] |].
    apply wp_bind. eapply wp_st16; [exact H1 | eapply inside_sub; [exact Hi | unfold ards_buf; lia ..] |]. intros m2 H2.
    set (g2 := upd16 _ _ _) in H2.
    assert (forall b, ~ span (gdt_ptr + 6) 22 b -> g2 b = f b) as Ho2.
    { intros b Hbb. unfold g2, ards_buf. rewrite upd16_ne by (unfold span in *; lia). rewrite Ho1 by (unfold span in *; lia). by apply Ho. }
    destruct (Z.eqb_spec e 0) as [-> | Hne].
    + apply wp_ret. destruct l2 as [| x l2]; [| by destruct Hrest]. cbn in Heq. rewrite Heq. by apply (HQ m2 g2).
    + destruct l2 as [| x l2]; [done |]. destruct Hrest as [_ Hrest].
      assert (forall i, 0 <= i < 5 -> w32 g2 (gdt_ptr + 6 + 4 * i) = nth (Z.to_nat i) d 0) as Hw2.
      { intros i Hir. rewrite <- Hw1 by lia. apply w32_ext. intros b Hbb. unfold g2, ards_buf. apply upd16_ne. unfold span in Hbb. lia. }
      unfold BaseAddrLow, LengthLow, ards_buf.
      apply wp_bind. eapply wp_ld32; [exact H2 | eapply inside_sub; [exact Hi | unfold ards_buf; lia ..] |]. intros _.
      apply wp_bind. eapply wp_ld32; [exact H2 | eapply inside_sub; [exact Hi | unfold ards_buf; lia ..] |]. intros _.
      pose proof (Hw2 0 ltac:(lia)) as E0. pose proof (Hw2 2 ltac:(lia)) as E2. rewrite Z.mul_0_r, Z.add_0_r in E0.
      change (4 * 2) with 8 in E2. rewrite E0, E2. cbv zeta.
      change (u32 (nth (Z.to_nat 0) d 0 + nth (Z.to_nat 2) d 0)) with (ards_end d).
      assert (foldl e820_next (e820_next esi d) (map snd (removelast (x :: l2))) =
        foldl e820_next 0 (map snd (removelast l))) as Heq' by (rewrite <- Heq; done).
      unfold e820_next in Heq' at 2.
      destruct (s32 (ards_end d) <=? s32 esi); apply wp_ret; (exists (length (x :: l2))); (split; [cbn; lia |]);
        exists m2, g2, (x :: l2); done.
  - exists (kmem s), f, l. split; [by destruct s |]. done.
  - bounded.
Qed.

Lemma wp_detect_memory G s R f bios_e820 bios_e801 bios_88 edx l (Q : unit -> kstate M -> Prop) :
  backs (kmem s) R f -> inside R total_mem_bytes 32 -> e820_chain bios_e820 0 l -> Z.of_nat (length l) < 2 ^ 32 ->
  (forall m f', backs m R f' -> w32 f' total_mem_bytes = foldl e820_next 0 (map snd (removelast l)) ->
     (forall b, ~ bios_bytes b -> ~ span total_mem_bytes 4 b -> f' b = f b) -> Q tt (set_mem m s)) ->
  wp G (detect_memory bios_e820 bios_e801 bios_88 edx) s Q.
Proof.
  intros Hb Hi Hch Hlen HQ. unfold detect_memory. apply wp_bind.
  eapply wp_e820; [exact Hb | eapply inside_sub; [exact Hi | unfold ards_buf, gdt_ptr; lia ..] | exact Hch | exact Hlen |].
  intros m1 f1 H1 Ho1. eapply wp_st32; [exact H1 | eapply inside_sub; [exact Hi | lia ..] |]. intros m2 H2.
  apply (HQ m2 _ H2).
  - apply w32_upd32_eq. assert (forall ds esi, is_u32 esi -> is_u32 (foldl e820_next esi ds)) as Hu; [| by apply Hu].
    induction ds as [| d ds IH]; intros esi He; [done |]. cbn [foldl]. apply IH. unfold e820_next. destruct (_ <=? _); [done |].
    unfold ards_end, u32, is_u32. zlia.
  - intros b Hn1 Hn2. rewrite upd32_ne by (unfold span in Hn2; lia). by apply Ho1.
Qed.

(** Below 2 GB the signed comparison finds the largest end. *)
Lemma e820_next_max esi d : 0 <= esi < 2 ^ 31 -> 0 <= nth 0 d 0 + nth 2 d 0 < 2 ^ 31 ->
  e820_next esi d = Z.max esi (nth 0 d 0 + nth 2 d 0).
Proof.
  intros H1 H2. unfold e820_next, ards_end. rewrite u32_small by (unfold is_u32; lia).
  assert (forall x, 0 <= x < 2 ^ 31 -> s32 x = x) as Hs by (intros x Hx; unfold s32; zlia). rewrite !Hs by done.
  destruct (Z.leb_spec (nth 0 d 0 + nth 2 d 0) esi); lia.
Qed.

Lemma e820_fold_max ds : forall esi, 0 <= esi < 2 ^ 31 -> Forall (fun d => 0 <= nth 0 d 0 + nth 2 d 0 < 2 ^ 31) ds ->
  foldl e820_next esi ds = foldl Z.max esi (map (fun d => nth 0 d 0 + nth 2 d 0) ds).
Proof.
  induction ds as [| d ds IH]; intros esi He Hd; [done |]. inversion Hd as [| ? ? H1 H2]; subst. cbn [foldl map].
  rewrite e820_next_max by done. apply IH; [lia | done].
Qed.
End devices.

(** ** Properties *)

(** [setup_page] leaves page tables with which the kernel's memory management
    can start, when the memory behind them is zero: the directory leads to
    itself, the first megabyte is mapped at 0 and at 3 GB and nothing else
    below the tables' window, all 255 tables of the kernel's gigabyte are
    entered, and every frame from 2 MB on is free.  Besides the directory and
    the first 256 entries of the first table nothing is written: the other
    tables are not cleared. *)
Theorem setup_page_maps (s : kstate flat) :
  (forall b, 0x101400 <= b < 0x200000 -> flat_at (kmem s) b = 0) ->
  exists m, setup_page s = Done tt (set_mem m s) /\ first_space (mk_paged m PAGE_DIR_TABLE_POS) /\
    (forall b, is_u32 b -> ~ span PAGE_DIR_TABLE_POS 0x1400 b -> flat_at m b = flat_at (kmem s) b).
Proof.
  intros Hz. destruct (proj1 (wp_seq_only setup_page s (fun _ s' => exists m f', s' = set_mem m s /\ backs m is_u32 f' /\
    first_tables f' /\ forall b, ~ span PAGE_DIR_TABLE_POS 0x1400 b -> f' b = flat_at (kmem s) b)))
    as ([] & s' & Hc & m & f' & -> & Hb & Hft & Ho).
  { eapply (wp_setup_page _ s is_u32 (flat_at (kmem s))); [apply flat_backs | intros b Hb; unfold span, is_u32, PAGE_DIR_TABLE_POS in *; lia |].
    intros m f' Hm Hft Ho. by exists m, f'. }
  assert (forall b, is_u32 b -> flat_at m b = f' b) as Hmf by (intros b Hu; symmetry; by apply Hb).
  assert (first_tables (flat_at m)) as Hft'.
  { eapply first_tables_ext; [exact Hft |]. intros b Hbb. apply Hmf. unfold span, is_u32, PAGE_DIR_TABLE_POS in *. lia. }
  assert (forall b, 0x101400 <= b < 0x200000 -> flat_at m b = 0) as Hz'.
  { intros b Hbb. rewrite Hmf, Ho by (unfold is_u32, span, PAGE_DIR_TABLE_POS in *; lia). by apply Hz. }
  exists m. split; [exact Hc |]. split; [by apply first_space_intro |]. intros b Hu Hn. by rewrite Hmf, Ho.
Qed.

Section properties.
Context {M : Type} {RM : RawMem M} {RL : RawMemLaws M}.

(** C16. [kernel_init] copies the segments of the kernel's file to their addresses:
    afterwards every byte of a segment that no later segment overwrites is
    the byte of the file, and all bytes outside the segments, the file's among
    them, are unchanged (what the pushes and calls write below the stack pointer
    is not modelled).  The bytes beyond a segment's part of the file, up to
    its size in memory, are among the unchanged ones: they are not cleared. *)
Theorem kernel_init_loads (s : kstate M) R f size : backs (kmem s) R f -> loadable R f size ->
  exists m f', kernel_init s = Done tt (set_mem m s) /\ backs m R f' /\
    (forall hs1 h hs2 k, phdrs f (e_phnum f) = hs1 ++ h :: hs2 -> ph_type h <> PT_NULL -> 0 <= k < ph_filesz h ->
       (forall x, In x hs2 -> ph_type x <> PT_NULL -> ~ span (ph_vaddr x) (ph_filesz x) (ph_vaddr h + k)) ->
       f' (ph_vaddr h + k) = f (KERNEL_BIN_BASE_ADDR + ph_offset h + k)) /\
    (forall b, (forall h, In h (phdrs f (e_phnum f)) -> ph_type h <> PT_NULL -> ~ span (ph_vaddr h) (ph_filesz h) b) ->
       f' b = f b).
Proof.
  intros Hb Hlo. destruct (proj1 (wp_seq_only kernel_init s (fun _ s' => exists m f', s' = set_mem m s /\ backs m R f' /\
    forall b, f' b = load_segments f f (phdrs f (e_phnum f)) b))) as ([] & s' & Hc & m & f' & -> & Hm & Heq).
  { eapply wp_kernel_init; [exact Hb | exact Hlo |]. intros m f' Hm Heq. by exists m, f'. }
  exists m, f'. split; [exact Hc |]. split; [exact Hm |]. split.
  - intros hs1 h hs2 k Hhs Hne Hk Hn. rewrite Heq, Hhs, load_segments_last; [f_equal; lia | done | unfold span; lia | exact Hn].
  - intros b Hn. rewrite Heq. by apply load_segments_out.
Qed.

(** C17. When the BIOS lists the memory, [detect_memory] stores the largest end of
    a range, as long as all ends are below 2 GB, but it leaves before it looks
    at the last range of the list. *)
Theorem detect_memory_e820 (s : kstate M) R f bios_e820 bios_e801 bios_88 edx l :
  backs (kmem s) R f -> inside R total_mem_bytes 32 -> e820_chain bios_e820 0 l -> Z.of_nat (length l) < 2 ^ 32 ->
  exists m f', detect_memory bios_e820 bios_e801 bios_88 edx s = Done tt (set_mem m s) /\ backs m R f' /\
    w32 f' total_mem_bytes = foldl e820_next 0 (map snd (removelast l)) /\
    (Forall (fun d => 0 <= nth 0 d 0 + nth 2 d 0 < 2 ^ 31) (map snd (removelast l)) ->
     w32 f' total_mem_bytes = foldl Z.max 0 (map (fun d => nth 0 d 0 + nth 2 d 0) (map snd (removelast l)))) /\
    (forall b, ~ bios_bytes b -> ~ span total_mem_bytes 4 b -> f' b = f b).
Proof.
  intros Hb Hi Hch Hlen. destruct (proj1 (wp_seq_only (detect_memory bios_e820 bios_e801 bios_88 edx) s (fun _ s' => exists m f',
    s' = set_mem m s /\ backs m R f' /\ w32 f' total_mem_bytes = foldl e820_next 0 (map snd (removelast l)) /\
    forall b, ~ bios_bytes b -> ~ span total_mem_bytes 4 b -> f' b = f b))) as ([] & s' & Hc & m & f' & -> & Hm & Hw & Ho).
  { eapply wp_detect_memory; [exact Hb | exact Hi | exact Hch | exact Hlen |]. intros m f' Hm Hw Ho. by exists m, f'. }
  exists m, f'. split; [exact Hc |]. split; [exact Hm |]. split; [exact Hw |]. split; [| exact Ho].
  intros Hd. rewrite Hw. by apply e820_fold_max.
Qed.
End properties.

(** When the BIOS does not list it, and has 15 MB below 16 MB to report: the
    sum has the upper half of edx in the place of the 15 MB. *)
Theorem e801_size_loses bx edx : 0 <= bx < 0xff00 -> is_u32 edx ->
  e801_size 0x3c00 bx edx = edx / 2 ^ 16 + 0x100000 + bx * 0x10000.
Proof.
  intros Hb He. unfold e801_size, KB1, KB64, MB1, is_u32 in *. change (0x3c00 * 0x400 / 2 ^ 16) with 0xf0.
  change (0x3c00 * 0x400 mod 2 ^ 16) with 0. rewrite Z.lor_0_r, Z.shiftr_div_pow2 by lia.
  assert ((edx / 2 ^ 16 * 2 ^ 16 + 0xf0) / 2 ^ 16 = edx / 2 ^ 16) as -> by zlia. unfold u32. zlia.
Qed.

(** A machine of 32 MB, as an emulator's BIOS lists it. *)
Module examples.
Definition ranges : list (Z * list Z) :=
  [(1, [0; 0; 0x9fc00; 0; 1]); (2, [0x9fc00; 0; 0x400; 0; 2]); (3, [0xf0000; 0; 0x10000; 0; 2]);
   (4, [0x100000; 0; 0x1ee0000; 0; 1]); (5, [0x1fe0000; 0; 0x20000; 0; 2]); (0, [0xfffc0000; 0; 0x40000; 0; 2])].
Definition bios (ebx : Z) : option (Z * list Z) := nth (Z.to_nat ebx) (map Some ranges) None.
Definition real_mode : kstate flat := machine_of (flat_of []).

Lemma detect_memory_e820_witness : exists m, detect_memory bios None None 0 real_mode = Done tt (set_mem m real_mode) /\
  exists f', backs m is_u32 f' /\ w32 f' 0xb00 = 0x2000000.
Proof.
  destruct (detect_memory_e820 real_mode is_u32 (flat_at (flat_of [])) bios None None 0 ranges) as (m & f' & Hc & Hm & _ & Hmax & _).
  - apply flat_backs.
  - intros b Hb. unfold span, total_mem_bytes, LOADER_BASE_ADDR, is_u32 in *. lia.
  - cbn [ranges e820_chain]. repeat match goal with
      | |- _ /\ _ => split
      | |- Forall _ _ => repeat (apply Forall_cons; split; [split; [by apply Z.leb_le | by apply Z.ltb_lt] |]); apply Forall_nil; exact I
      | |- _ <> _ => done
      | |- _ => reflexivity
      end.
  - by vm_compute.
  - exists m. split; [exact Hc |]. exists f'. split; [exact Hm |].
    change 0xb00 with total_mem_bytes. rewrite Hmax; [by vm_compute |]. cbn [ranges removelast map snd].
    repeat (apply Forall_cons; split; [split; [by apply Z.leb_le | by apply Z.ltb_lt] |]). by apply Forall_nil.
Defined.

Lemma setup_page_maps_witness : exists m, setup_page real_mode = Done tt (set_mem m real_mode) /\
  virt (mk_paged m 0x100000) 0xc0001500 = Some 0x1500 /\ virt (mk_paged m 0x100000) 0xc0100000 = None.
Proof.
  destruct (setup_page_maps real_mode) as (m & Hc & [_ _ Hv _] & _).
  { intros b _. unfold flat_at. cbn. by rewrite lookup_empty. }
  change PAGE_DIR_TABLE_POS with 0x100000 in Hv. exists m. split; [exact Hc |].
  assert (forall a, 0 <= a -> a < 0xffc00000 -> is_u32 a) as Hu by (intros a H1 H2; unfold is_u32; lia).
  split; (rewrite Hv; [reflexivity | apply Hu; lia | lia]).
Defined.

(** A file with one segment of 8 bytes at 0x100, for 0xc0001500, and a header
    that is not used. *)
Definition kernel_file : flat := flat_of [
  (0x7001c, 0x34); (0x7002a, 0x20); (0x7002c, 2);
  (0x70034, 0); (0x70054, 1); (0x70058, 0x100); (0x7005c, 0xc0001500); (0x70064, 8);
  (0x70100, 0x11223344); (0x70104, 0x55667788)].
Definition file_state : kstate flat := machine_of kernel_file.

Lemma kernel_init_loads_witness : exists m f', kernel_init file_state = Done tt (set_mem m file_state) /\
  backs m is_u32 f' /\ f' 0xc0001507 = 0x55.
Proof.
  destruct (kernel_init_loads file_state is_u32 (flat_at kernel_file) 0x9000) as (m & f' & Hc & Hm & Hs & _).
  - apply flat_backs.
  - split.
    + intros b Hb. unfold span, KERNEL_BIN_BASE_ADDR, is_u32 in *. lia.
    + by vm_compute.
    + by vm_compute.
    + assert (e_phnum (flat_at kernel_file) = 2) as -> by (by vm_compute).
      assert (e_phoff (flat_at kernel_file) = 0x34) as -> by (by vm_compute).
      assert (e_phentsize (flat_at kernel_file) = 0x20) as -> by (by vm_compute). lia.
    + intros h Hin. assert (phdrs (flat_at kernel_file) (e_phnum (flat_at kernel_file)) =
        [mk_phdr 0 0 0 0; mk_phdr 1 0x100 0xc0001500 8]) as Hh by (by vm_compute). rewrite Hh in Hin.
      destruct Hin as [<- | [<- | []]]; [intros Hne; destruct Hne; reflexivity |]. intros _. cbn [ph_offset ph_filesz ph_vaddr]. split; [lia |].
      unfold inside, span, KERNEL_BIN_BASE_ADDR, is_u32. split; intros; lia.
  - exists m, f'. split; [exact Hc |]. split; [exact Hm |].
    transitivity (flat_at kernel_file (0x70100 + 7)); [| by vm_compute].
    apply (Hs [mk_phdr 0 0 0 0] (mk_phdr 1 0x100 0xc0001500 8) [] 7); [by vm_compute | intros Hne; by vm_compute in Hne | cbn; lia |].
    intros x [].
Defined.
End examples.
