(* ===== verification/Memory.v ===== *)
(** kernel/memory.[ch]: the pools of physical frames, the virtual addresses of
    the kernel and of a process, and the page tables. *)

From S2P Require Import Prelude Monad RawMem Machine CString Bitmap DList Thread Sync Global Paging.

(** enum pool_flags, and the bits of a table entry. *)
Definition PF_KERNEL : Z := 1.
Definition PF_USER : Z := 2.
Definition PG_P_1 : Z := 1.
Definition PG_RW_W : Z := 2.
Definition PG_US_U : Z := 4.

Definition MEM_BITMAP_BASE : Z := 0xc009a000.
Definition K_HEAP_START : Z := 0xc0100000.
Definition PDE_IDX (addr : Z) : Z := Z.shiftr (Z.land addr 0xffc00000) 22.
Definition PTE_IDX (addr : Z) : Z := Z.shiftr (Z.land addr 0x003ff000) 12.

(** struct virtual_addr: [vaddr_bitmap] at 0, [vaddr_start] at 8; struct pool:
    [pool_bitmap] at 0, [phy_addr_start] at 8, [pool_size] at 12, [lock] at 16. *)
Definition vaddr_bitmap (va : Z) : Z := va.
Definition vaddr_start (va : Z) : Z := va + 8.
Definition pool_bitmap (p : Z) : Z := p.
Definition phy_addr_start (p : Z) : Z := p + 8.
Definition pool_size (p : Z) : Z := p + 12.
Definition pool_lock (p : Z) : Z := p + 16.

Definition pte_ptr (vaddr : Z) : Z :=
  Z.lor (Z.lor 0xffc00000 (Z.shiftr (Z.land vaddr 0xffc00000) 10)) (PTE_IDX vaddr * 4).
Definition pde_ptr (vaddr : Z) : Z := Z.lor 0xfffff000 (PDE_IDX vaddr * 4).

(** The entry for the frame [p]: present, writable, for the user. *)
Definition entry_for (p : Z) : Z := lor4 p PG_US_U PG_RW_W PG_P_1.

Section code.
Context {M : Type} {RM : RawMem M} {LY : Layout}.

#[local] Abbreviation ASSERT_ := (ASSERT "kernel/memory.c").
#[local] Abbreviation PANIC_ := (panic_spin "kernel/memory.c").

(** The loop [while(cnt < pg_cnt) bitmap_set(btmp, start + cnt++, 1)]. *)
Definition set_bits (btmp start pg_cnt : Z) : K (M := M) unit :=
  while_ (fun cnt =>
    if cnt <? pg_cnt then
      bitmap_set btmp (u32 (start + cnt)) 1;; cret (inl (u32 (cnt + 1)))
    else cret (inr tt)) 0.

Definition vaddr_get (pf pg_cnt : Z) : K (M := M) Z :=
  if PF_KERNEL =? pf then
    do bit_idx_start <- bitmap_scan (vaddr_bitmap kernel_vaddr) pg_cnt;
    if -1 =? bit_idx_start then cret 0
    else
      set_bits (vaddr_bitmap kernel_vaddr) bit_idx_start pg_cnt;;
      do st <- ld32 (vaddr_start kernel_vaddr);
      cret (u32 (st + bit_idx_start * PG_SIZE))
  else
    do cur <- running_thread;
    do bit_idx_start <- bitmap_scan (vaddr_bitmap (userprog_vaddr cur)) pg_cnt;
    if -1 =? bit_idx_start then cret 0
    else
      set_bits (vaddr_bitmap (userprog_vaddr cur)) bit_idx_start pg_cnt;;
      do st <- ld32 (vaddr_start (userprog_vaddr cur));
      let vaddr_start := u32 (st + bit_idx_start * PG_SIZE) in
      ASSERT_ 57 "vaddr_get" "(uint32_t)vaddr_start < (0xc0000000 - PG_SIZE)"
        (vaddr_start <? 0xc0000000 - PG_SIZE);;
      cret vaddr_start.

Definition size_names : list string := ["B"; "KB"; "MB"; "GB"]%string.

Definition show_memory_size (all_mem : Z) : K (M := M) unit :=
  put_lit "            total_memory:0x";;
  do r <- while_ (fun '(new_size, name_idx, all_mem) =>
    if 0 <? new_size then
      let new_size := Z.shiftr new_size 10 in
      if new_size <=? 0 then cret (inr (name_idx, all_mem))
      else cret (inl (new_size, name_idx + 1, new_size))
    else cret (inr (name_idx, all_mem))) (all_mem, 0, all_mem);
  let '(name_idx, all_mem) := r in
  put_int all_mem;;
  match size_names !! Z.to_nat name_idx with
  | Some name => put_lit name;; put_char 10
  | None => fault
  end.

Definition palloc (m_pool : Z) : K (M := M) Z :=
  do bit_idx <- bitmap_scan (pool_bitmap m_pool) 1;
  if -1 =? bit_idx then cret 0
  else
    bitmap_set (pool_bitmap m_pool) (u32 bit_idx) 1;;
    do st <- ld32 (phy_addr_start m_pool);
    cret (u32 (bit_idx * PG_SIZE + st)).

Definition page_table_add (_vaddr _page_phyaddr : Z) : K (M := M) unit :=
  let vaddr := _vaddr in
  let page_phyaddr := _page_phyaddr in
  let pde := pde_ptr vaddr in
  let pte := pte_ptr vaddr in
  do e <- ld32 pde;
  (if negb (Z.land e 1 =? 0) then
    do t <- ld32 pte;
    ASSERT_ 125 "page_table_add" "!(*pte & 1)" (Z.land t 1 =? 0);;
    do t <- ld32 pte;
    when negb (Z.land t 1 =? 0) then PANIC_ 127 "page_table_add" "pte repeat"
  else
    do pde_phyaddr <- palloc kernel_pool;
    put_int pde_phyaddr;; put_lit nl;;
    st32 pde (entry_for pde_phyaddr);;
    do e <- ld32 pde; put_int e;; put_lit nl;;
    memset (Z.land pte 0xfffff000) 0 PG_SIZE;;
    do t <- ld32 pte;
    ASSERT_ 137 "page_table_add" "!(*pte & 1)" (Z.land t 1 =? 0));;
  st32 pte (entry_for page_phyaddr).

Definition malloc_page (pf pg_cnt : Z) : K (M := M) Z :=
  ASSERT_ 144 "malloc_page" "pg_cnt > 0 && pg_cnt < 3840" ((0 <? pg_cnt) && (pg_cnt <? 3840));;
  do vaddr_start <- vaddr_get pf pg_cnt;
  if vaddr_start =? 0 then cret 0
  else
    let mem_pool := if negb (Z.land pf PF_KERNEL =? 0) then kernel_pool else user_pool in
    while_ (fun '(cnt, vaddr) =>
      if 0 <? cnt then
        do page_phyaddr <- palloc mem_pool;
        if page_phyaddr =? 0 then cret (inr 0)
        else
          page_table_add vaddr page_phyaddr;;
          cret (inl (u32 (cnt - 1), u32 (vaddr + PG_SIZE)))
      else cret (inr vaddr_start)) (pg_cnt, vaddr_start).

Definition get_kernel_pages (pg_cnt : Z) : K (M := M) Z :=
  do vaddr <- malloc_page PF_KERNEL pg_cnt;
  (when negb (vaddr =? 0) then memset vaddr 0 (u32 (pg_cnt * PG_SIZE)));;
  cret vaddr.

Definition get_user_pages (pg_cnt : Z) : K (M := M) Z :=
  lock_acquire (pool_lock user_pool);;
  do vaddr <- malloc_page PF_USER pg_cnt;
  memset vaddr 0 (u32 (pg_cnt * PG_SIZE));;
  lock_release (pool_lock user_pool);;
  cret vaddr.

(** Marking the page of [vaddr] in the virtual addresses [va]. *)
Definition claim_page (line va vaddr : Z) : K (M := M) unit :=
  do st <- ld32 (vaddr_start va);
  let bit_idx := s32 (u32 (vaddr - st) / PG_SIZE) in
  ASSERT_ line "get_a_page" "bit_idx > 0" (0 <? bit_idx);;
  bitmap_set (vaddr_bitmap va) (u32 bit_idx) 1.

Definition get_a_page (pf vaddr : Z) : K (M := M) Z :=
  let mem_pool := if negb (Z.land PF_KERNEL pf =? 0) then kernel_pool else user_pool in
  lock_acquire (pool_lock mem_pool);;
  do cur <- running_thread;
  do dir <- ld32 (pgdir cur);
  (if negb (dir =? 0) && (PF_USER =? pf) then claim_page 192 (userprog_vaddr cur) vaddr
   else
     do dir <- ld32 (pgdir cur);
     if (dir =? 0) && (PF_KERNEL =? pf) then claim_page 197 kernel_vaddr vaddr
     else PANIC_ 200 "get_a_page" ("get_a_page: not allow kernel alloc userspace or " ++
       "user alloc kernelspace by get_a_page"));;
  do page_phyaddr <- palloc mem_pool;
  if page_phyaddr =? 0 then cret 0
  else
    page_table_add vaddr page_phyaddr;;
    lock_release (pool_lock mem_pool);;
    cret vaddr.

Definition addr_v2p (vaddr : Z) : K (M := M) Z :=
  do e <- ld32 (pte_ptr vaddr);
  cret (u32 (Z.land e 0xfffff000 + Z.land vaddr 0xfff)).

(** A line [label] of the report on the pools. *)
Definition show (label : string) (v : Z) (eol : K (M := M) unit) : K unit :=
  put_lit label;; put_int v;; eol.

(** The report on the pool [p], with the labels of [name]. *)
Definition show_pool (name : string) (p : Z) (eol : K (M := M) unit) : K unit :=
  (do b <- bits (pool_bitmap p);
   show ("            " ++ name ++ "_pool_bitmap_start  :") b (put_char 10));;
  (do b <- bits (pool_bitmap p); do n <- btmp_bytes_len (pool_bitmap p);
   show ("            " ++ name ++ "_pool_bitmap_end    :") (u32 (b + n)) (put_char 10));;
  (do st <- ld32 (phy_addr_start p);
   show ("            " ++ name ++ "_pool_phy_addr_start:") st (put_char 10));;
  (do st <- ld32 (phy_addr_start p); do sz <- ld32 (pool_size p);
   show ("            " ++ name ++ "_pool_phy_addr_end  :") (u32 (st + sz)) eol).

Definition mem_pool_init (all_mem : Z) : K (M := M) unit :=
  put_lit ("        mem_pool_init start" ++ nl);;
  show_memory_size all_mem;;
  let page_table_size := PG_SIZE * 256 in
  let used_mem := u32 (page_table_size + 0x100000) in
  let free_mem := u32 (all_mem - used_mem) in
  let all_free_pages := u16 (free_mem / PG_SIZE) in
  let kernel_free_pages := u16 (all_free_pages / 2) in
  let user_free_pages := u16 (all_free_pages - kernel_free_pages) in
  let kbm_length := kernel_free_pages / 8 in
  let ubm_length := user_free_pages / 8 in
  let kp_start := used_mem in
  let up_start := u32 (kp_start + kernel_free_pages * PG_SIZE) in
  st32 (phy_addr_start kernel_pool) kp_start;;
  st32 (pool_size kernel_pool) (kernel_free_pages * PG_SIZE);;
  st32 (pool_bitmap kernel_pool) kbm_length;;
  st32 (phy_addr_start user_pool) up_start;;
  st32 (pool_size user_pool) (user_free_pages * PG_SIZE);;
  st32 (pool_bitmap user_pool) ubm_length;;
  st32 (pool_bitmap kernel_pool + 4) MEM_BITMAP_BASE;;
  st32 (pool_bitmap user_pool + 4) (MEM_BITMAP_BASE + kbm_length);;
  show_pool "kernel" kernel_pool (put_lit (nl ++ nl));;
  show_pool "user" user_pool (put_char 10);;
  bitmap_init (pool_bitmap kernel_pool);;
  bitmap_init (pool_bitmap user_pool);;
  st32 (vaddr_bitmap kernel_vaddr) kbm_length;;
  st32 (vaddr_bitmap kernel_vaddr + 4) (MEM_BITMAP_BASE + kbm_length + ubm_length);;
  st32 (vaddr_start kernel_vaddr) K_HEAP_START;;
  bitmap_init (vaddr_bitmap kernel_vaddr);;
  lock_init (pool_lock kernel_pool);;
  lock_init (pool_lock user_pool);;
  put_lit ("        mem_pool_init done" ++ nl).

Definition mem_init : K (M := M) unit :=
  put_lit ("    mem_init start " ++ nl);;
  do mem_bytes_total <- ld32 0xb00;
  mem_pool_init mem_bytes_total;;
  put_lit ("    mem_init done " ++ nl).
End code.

(** ** The addresses and entries the code computes *)

Lemma PDE_IDX_eq a : is_u32 a -> PDE_IDX a = dir_idx a.
Proof.
  intros Ha. unfold PDE_IDX, dir_idx. change 0xffc00000 with (Z.shiftl (Z.ones 10) 22).
  rewrite land_shiftl_ones, Z.shiftr_shiftl_l, Z.sub_diag, Z.shiftl_0_r by lia.
  rewrite Z.land_ones, shiftr_div by lia. unfold is_u32 in Ha. zlia.
Qed.

Lemma PTE_IDX_eq a : PTE_IDX a = tab_idx a.
Proof.
  unfold PTE_IDX, tab_idx. change 0x003ff000 with (Z.shiftl (Z.ones 10) 12).
  rewrite land_shiftl_ones, Z.shiftr_shiftl_l, Z.sub_diag, Z.shiftl_0_r by lia.
  by rewrite Z.land_ones, shiftr_div by lia.
Qed.

Lemma pde_ptr_eq a : is_u32 a -> pde_ptr a = pde_view a.
Proof.
  intros Ha. unfold pde_ptr, pde_view. rewrite PDE_IDX_eq by done. pose proof (dir_idx_range a Ha).
  change 0xfffff000 with (0xfffff * 2 ^ 12). rewrite lor_disjoint' by lia. lia.
Qed.

Lemma pte_ptr_eq a : is_u32 a -> pte_ptr a = pte_view a.
Proof.
  intros Ha. unfold pte_ptr, pte_view. rewrite PTE_IDX_eq.
  pose proof (dir_idx_range a Ha). pose proof (tab_idx_range a).
  change 0xffc00000 with (Z.shiftl (Z.ones 10) 22). rewrite land_shiftl_ones by lia.
  rewrite Z.land_ones, (shiftr_div a) by lia. fold (dir_idx a). rewrite (Z.mod_small (dir_idx a)) by lia.
  rewrite Z.shiftr_shiftl_l, !Z.shiftl_mul_pow2 by lia. change (22 - 10) with 12.
  change (Z.ones 10) with 0x3ff. rewrite lor_disjoint' by lia.
  replace (0x3ff * 2 ^ 22 + dir_idx a * 2 ^ 12) with ((0x3ff * 2 ^ 10 + dir_idx a) * 2 ^ 12) by lia.
  rewrite lor_disjoint' by lia. lia.
Qed.

(** An entry for [p] is present and leads to [p]. *)
Lemma entry_for_eq p : p mod 4096 = 0 -> entry_for p = p + 7.
Proof.
  intros Hp. unfold entry_for, lor4, lor3, PG_US_U, PG_RW_W, PG_P_1. rewrite <- !Z.lor_assoc.
  change (Z.lor 4 (Z.lor 2 1)) with 7. rewrite Z.lor_comm.
  replace p with (p / 4096 * 2 ^ 12) at 1 by zlia. rewrite lor_disjoint by lia. zlia.
Qed.

Lemma entry_for_spec p : p mod 4096 = 0 -> is_u32 p ->
  frame (entry_for p) = p /\ present (entry_for p) = true /\ is_u32 (entry_for p).
Proof.
  intros Hp Hu. rewrite entry_for_eq by done. split; [apply frame_add; lia |]. split.
  - unfold present. replace (p + 7) with (7 + 2 * (p / 2)) by zlia. by rewrite Z.odd_add_mul_2.
  - unfold is_u32 in *. zlia.
Qed.

(** Bit 0 of an entry, as the code tests it. *)
Lemma present_bit e : (Z.land e 1 =? 0) = negb (present e).
Proof.
  unfold present. change 1 with (Z.ones 1). rewrite Z.land_ones by lia. rewrite Zmod_odd.
  by destruct (Z.odd e).
Qed.

Lemma frame_land a : is_u32 a -> Z.land a 0xfffff000 = frame a.
Proof.
  intros Ha. change 0xfffff000 with (Z.shiftl (Z.ones 20) 12). rewrite land_shiftl_ones by lia.
  rewrite Z.land_ones, shiftr_div, Z.shiftl_mul_pow2 by lia. unfold frame, is_u32 in *. zlia.
Qed.

(** ** Runs of bits *)

Definition in_run (start cnt j : Z) : bool := (start <=? j) && (j <? start + cnt).

Section bits.
Context {M : Type} {RM : RawMem M} {RL : RawMemLaws M} {LY : Layout}.
Implicit Types (s : kstate M) (R : Z -> Prop) (f : Z -> Z) (G : protocol (kstate M)).

(** Writing inside the array of bytes keeps it a bitmap. *)
Lemma is_bitmap_keep R f f' btmp b n : is_bitmap R f btmp b n -> (forall a, ~ span b n a -> f' a = f a) ->
  is_bitmap R f' btmp b n.
Proof.
  intros [H1 H2 H3 H4 H5 H6] Hf. split; try done.
  - rewrite <- H1. apply w32_ext. intros a Ha. apply Hf. unfold span in *. lia.
  - rewrite <- H2. apply w32_ext. intros a Ha. apply Hf. unfold span in *. lia.
Qed.

Lemma set_contents_out f b n i v a : 0 <= i < 8 * n -> ~ span b n a -> set_contents f b i v a = f a.
Proof. intros Hi Ha. unfold set_contents. apply upd_ne. intros ->. apply Ha. unfold span. zlia. Qed.

Lemma wp_set_bits G s R f btmp b n start cnt (Q : unit -> kstate M -> Prop) :
  backs (kmem s) R f -> is_bitmap R f btmp b n -> 0 <= start -> 0 <= cnt -> start + cnt <= 8 * n ->
  (forall m f', backs m R f' -> is_bitmap R f' btmp b n -> (forall a, ~ span b n a -> f' a = f a) ->
     (forall j, 0 <= j -> bit f' b j = bit f b j || in_run start cnt j) -> Q tt (set_mem m s)) ->
  wp G (set_bits btmp start cnt) s Q.
Proof.
  intros Hb Hbm Hst Hcnt Hend HQ. pose proof (bm_size _ _ _ _ _ Hbm) as Hn. unfold set_bits.
  eapply (wp_while _ _ (fun k c s' => exists m g, s' = set_mem m s /\ backs m R g /\ is_bitmap R g btmp b n /\
    (forall a, ~ span b n a -> g a = f a) /\ 0 <= c <= cnt /\ k = Z.to_nat (cnt - c) /\
    (forall j, 0 <= j -> bit g b j = bit f b j || in_run start c j)) _ (Z.to_nat cnt)).
  - intros k c s' (m & g & -> & Hm & Hg & Hout & Hc & -> & Hbits).
    destruct (Z.ltb_spec c cnt) as [Hlt | Hge].
    + rewrite u32_small by (unfold is_u32; lia).
      apply wp_bind. eapply (wp_bitmap_set R g btmp b n Hg _ _ (start + c) true); [done | lia |].
      intros Hu m2 Hm2. apply wp_ret. exists (Z.to_nat (cnt - (c + 1))). split; [lia |].
      exists m2, (set_contents g b (start + c) true). split; [done |]. split; [done |].
      assert (forall a, ~ span b n a -> set_contents g b (start + c) true a = g a) as Ho
        by (intros a; apply set_contents_out; lia).
      split; [by eapply is_bitmap_keep |]. split; [intros a Ha; rewrite Ho by done; by apply Hout |].
      rewrite u32_small by (unfold is_u32; lia). split; [lia |]. split; [done |].
      intros j Hj. rewrite bit_set_contents by (done || lia). rewrite Hbits by done. unfold in_run.
      destruct (Z.eqb_spec j (start + c)); destruct (bit f b j); cbn; lia.
    + apply wp_ret. replace c with cnt in Hbits by lia. by eapply HQ.
  - exists (kmem s), f. split; [by destruct s |]. split; [done |]. split; [done |]. split; [done |].
    split; [lia |]. split; [f_equal; lia |]. intros j Hj. unfold in_run.
    destruct (bit f b j); cbn; lia.
  - bounded.
Qed.
End bits.

(** ** Pools of frames *)

(** The pool at [p] manages the frames from [st] on, by [n] bytes of bits at [b]. *)
Record is_pool (R : Z -> Prop) (f : Z -> Z) (p b n st : Z) : Prop := mk_is_pool {
  pl_bitmap : is_bitmap R f (pool_bitmap p) b n;
  pl_start : w32 f (phy_addr_start p) = st;
  pl_inside : inside R p 16;
  pl_apart : p + 16 <= b \/ b + n <= p;
  pl_aligned : st mod 4096 = 0;
  pl_range : 0 < st /\ st + 4096 * (8 * n) <= 4294967296 }.

Definition frame_of (st i : Z) : Z := st + 4096 * i.

(** The frame with number [i] is free. *)
Definition free_bit (f : Z -> Z) (b n i : Z) : Prop := 0 <= i < 8 * n /\ bit f b i = false.
Definition free_frame (f : Z -> Z) (b n st q : Z) : Prop := exists i, free_bit f b n i /\ q = frame_of st i.

(** The lowest free frame. *)
Definition lowest_free (f : Z -> Z) (b n i : Z) : Prop :=
  free_bit f b n i /\ forall j, 0 <= j < i -> bit f b j = true.

Section pools.
Context {M : Type} {RM : RawMem M} {RL : RawMemLaws M} {LY : Layout}.
Implicit Types (s : kstate M) (R : Z -> Prop) (f : Z -> Z) (G : protocol (kstate M)).

Lemma is_pool_keep R f f' p b n st : is_pool R f p b n st -> (forall a, ~ span b n a -> f' a = f a) ->
  is_pool R f' p b n st.
Proof.
  intros [H1 H2 H3 H4 H5 H6] Hf. split; try done; [by eapply is_bitmap_keep |].
  rewrite <- H2. apply w32_ext. intros a Ha. apply Hf. unfold phy_addr_start, span in *. lia.
Qed.

Lemma frame_of_range R f p b n st i : is_pool R f p b n st -> 0 <= i < 8 * n ->
  is_u32 (frame_of st i) /\ frame_of st i mod 4096 = 0 /\ 0 < frame_of st i.
Proof. intros [_ _ _ _ Ha Hr] Hi. unfold frame_of, is_u32. zlia. Qed.

(** A free frame is allocated: the lowest one. *)
Lemma wp_palloc G s R f p b n st (Q : Z -> kstate M -> Prop) :
  backs (kmem s) R f -> is_pool R f p b n st -> (exists i, free_bit f b n i) ->
  (forall i m f', lowest_free f b n i -> backs m R f' -> is_pool R f' p b n st ->
     (forall a, ~ span b n a -> f' a = f a) ->
     (forall j, 0 <= j -> bit f' b j = bit f b j || (j =? i)) -> Q (frame_of st i) (set_mem m s)) ->
  wp G (palloc p) s Q.
Proof.
  intros Hb Hp Hfree HQ. pose proof Hp as [Hbm Hst Hin Hap Hal Hra]. unfold palloc.
  pose proof (bm_size _ _ _ _ _ Hbm) as Hn.
  apply wp_bind. eapply (wp_bitmap_scan R f _ b n Hbm); [done | lia | done | done | |].
  2: { intros Hno. destruct Hfree as (i & Hi & Hfi). exfalso. apply (Hno i); [lia | |].
       - unfold scan_limit. cbn. lia.
       - intros j Hj. by replace j with i by lia. }
  unfold scan_limit. rewrite Z.eqb_refl. intros i (Hi0 & Hi & Hf & Hfirst).
  assert (lowest_free f b n i) as Hlow.
  { split; [split; [lia | by apply Hf; lia] |]. intros j Hj. apply not_false_iff_true. intros Hbj.
    apply (Hfirst j Hj). intros k Hk. by replace k with j by lia. }
  rewrite (proj2 (Z.eqb_neq (-1) i)), u32_small by (unfold is_u32; lia).
  apply wp_bind. eapply (wp_bitmap_set R f _ b n Hbm _ _ i true); [done | lia |].
  intros Hu m Hm. pose proof (set_contents_out f b n i true) as Hout.
  assert (is_pool R (set_contents f b i true) p b n st) as Hp'.
  { eapply is_pool_keep; [done |]. intros a. apply Hout. lia. }
  apply wp_bind. eapply wp_ld32; [exact Hm | eapply inside_sub; [exact Hin | unfold phy_addr_start; lia ..] |].
  intros _. rewrite (pl_start _ _ _ _ _ _ Hp'). apply wp_ret.
  assert (u32 (i * PG_SIZE + st) = frame_of st i) as ->.
  { unfold PG_SIZE, frame_of. rewrite u32_small; [lia | unfold is_u32; lia]. }
  eapply HQ; [done | done | done | intros a; apply Hout; lia |].
  intros j Hj. rewrite bit_set_contents by (done || lia). destruct (j =? i); [by destruct (bit f b j) |].
  by rewrite orb_false_r.
Qed.

Definition pool_full_panic : panic_info :=
  mk_panic "lib/kernel/bitmap.c" 19 "bitmap_scan" "idx_byte < btmp->btmp_bytes_len".

(** With no free frame left the search of the bitmap ends in its assertion. *)
Lemma wp_palloc_full G s R f p b n st (Q : Z -> kstate M -> Prop) :
  backs (kmem s) R f -> is_pool R f p b n st -> ~ (exists i, free_bit f b n i) ->
  (forall s', kmem s' = kmem s -> may_panic G pool_full_panic s') -> wp G (palloc p) s Q.
Proof.
  intros Hb Hp Hfull HP. pose proof Hp as [Hbm _ _ _ _ _]. unfold palloc. apply wp_bind.
  eapply wp_bitmap_scan_full; [done | done | | done].
  intros i Hi. apply not_false_iff_true. intros Hf. apply Hfull. by exists i.
Qed.
End pools.
