(* ===== verification/Mapping.v ===== *)
(** kernel/memory.c on the paged machine: what the code that edits the page
    tables does to the address translation. *)

From S2P Require Import Prelude Monad RawMem Machine CString Bitmap DList Thread Sync Global Paging Memory.

(** Frames [F] without [q]. *)
Definition without (F : Z -> Prop) (q : Z) : Z -> Prop := fun p => F p /\ p <> q.

(** From [m] to [m'] the page of [a] has been mapped to the frame [q], and
    nothing else has moved; [T] are new tables.  Contents have changed in the
    region [R] only, and in the tables. *)
Record grown (m m' : paged) (R : Z -> Prop) (a q : Z) (T : Z -> Prop) : Prop := mk_grown {
  gr_cr3 : cr3 m' = cr3 m;
  gr_ext a' pa : virt m a' = Some pa -> virt m' a' = Some pa;
  gr_new k : 0 <= k < 4096 -> virt m' (frame a + k) = Some (q + k);
  gr_out b : outside m R b -> ~ is_table (pbyte m') (cr3 m) (frame b) -> pbyte m' b = pbyte m b;
  gr_mono p : is_table (pbyte m) (cr3 m) p -> is_table (pbyte m') (cr3 m) p;
  gr_table p : is_table (pbyte m') (cr3 m) p -> is_table (pbyte m) (cr3 m) p \/ T p;
  gr_pde i : 0 <= i < 1024 -> present (pde (pbyte m) (cr3 m) i) = true ->
    pde (pbyte m') (cr3 m) i = pde (pbyte m) (cr3 m) i;
  gr_pte a' : is_u32 a' -> 1 <= dir_idx a' < 1023 -> present (pde (pbyte m) (cr3 m) (dir_idx a')) = true ->
    frame a' <> frame a -> pte (pbyte m') (cr3 m) a' = pte (pbyte m) (cr3 m) a' }.

Definition no_tables : Z -> Prop := fun _ => False.

(** Steps before the mapping that move nothing, or add an empty table. *)
Lemma unmoved_grown m m1 m2 R a q T : unmoved m m1 R -> grown m1 m2 R a q T -> grown m m2 R a q T.
Proof.
  intros [Hc Ho Ht Hv Hd Hp] [Hc' He Hn Ho' Hm' Ht' Hd' Hp']. rewrite Hc in *. split.
  - done.
  - intros a' pa. rewrite <- Hv. apply He.
  - done.
  - intros b Hb Hnt. rewrite Ho' by (done || (intros x; rewrite Hv; apply Hb)). by apply Ho.
  - intros p Hpt. by apply Hm', Ht.
  - intros p Hpt. rewrite <- Ht. by apply Ht'.
  - intros i Hi Hpi. rewrite Hd' by (rewrite ?Hd; done). by apply Hd.
  - intros a' Ha' Hd1 Hp1 Hne. pose proof (dir_idx_range a' Ha').
    rewrite Hp' by (rewrite ?Hd; done). by apply Hp.
Qed.

(** From [m] to [m'] the frame [p] has become the empty table for the address
    [a]; nothing else has changed. *)
Record tabled (m m' : paged) (a p : Z) : Prop := mk_tabled {
  tb_cr3 : cr3 m' = cr3 m;
  tb_ext a' pa : virt m a' = Some pa -> virt m' a' = Some pa;
  tb_new : present (pde (pbyte m') (cr3 m) (dir_idx a)) = true;
  tb_free : pte (pbyte m') (cr3 m) a = 0;
  tb_out b : ~ is_table (pbyte m') (cr3 m) (frame b) -> pbyte m' b = pbyte m b;
  tb_table x : is_table (pbyte m') (cr3 m) x <-> is_table (pbyte m) (cr3 m) x \/ x = p;
  tb_pde i : 0 <= i < 1024 -> present (pde (pbyte m) (cr3 m) i) = true ->
    pde (pbyte m') (cr3 m) i = pde (pbyte m) (cr3 m) i;
  tb_pte a' : is_u32 a' -> 1 <= dir_idx a' < 1023 -> present (pde (pbyte m) (cr3 m) (dir_idx a')) = true ->
    pte (pbyte m') (cr3 m) a' = pte (pbyte m) (cr3 m) a' }.

Lemma tabled_grown m m1 m2 R a q p : tabled m m1 a p ->
  (forall b, outside m R b -> outside m1 R b) ->
  grown m1 m2 R a q no_tables -> grown m m2 R a q (fun x => x = p).
Proof.
  intros [Hc Hv _ _ Ho Ht Hd Hp] Hout [Hc' He Hn Ho' Hm' Ht' Hd' Hp']. rewrite Hc in *. split.
  - done.
  - intros a' pa Ha'. by apply He, Hv.
  - done.
  - intros b Hb Hnt. rewrite Ho' by auto. apply Ho. intros Hx. by apply Hnt, Hm'.
  - intros x Hx. apply Hm', Ht. by left.
  - intros x Hx. destruct (Ht' x Hx) as [Hx' | []]. by apply Ht.
  - intros i Hi Hpi. rewrite Hd' by (rewrite ?Hd; done). by apply Hd.
  - intros a' Ha' Hd1 Hp1 Hne. pose proof (dir_idx_range a' Ha').
    rewrite Hp' by (rewrite ?Hd; done). by apply Hp.
Qed.

Section rules.
Context {LY : Layout}.
Implicit Types (s : kstate paged) (m : paged) (R F : Z -> Prop) (f : Z -> Z) (G : protocol (kstate paged)).

(** The entries as the code reads them, through the directory. *)
Lemma wp_read_pde G s a (Q : Z -> kstate paged -> Prop) :
  self_mapped (pbyte (kmem s)) (cr3 (kmem s)) -> is_u32 a ->
  Q (pde (pbyte (kmem s)) (cr3 (kmem s)) (dir_idx a)) s -> wp G (ld32 (pde_ptr a)) s Q.
Proof.
  intros Hs Ha HQ. rewrite pde_ptr_eq by done.
  destruct (pde_view_spec _ _ a Hs Ha) as (Hv & Hal & _).
  eapply wp_ld32_at; [by apply ldw_paged | done].
Qed.

Lemma wp_read_pte G s a (Q : Z -> kstate paged -> Prop) :
  self_mapped (pbyte (kmem s)) (cr3 (kmem s)) -> is_u32 a ->
  present (pde (pbyte (kmem s)) (cr3 (kmem s)) (dir_idx a)) = true ->
  Q (pte (pbyte (kmem s)) (cr3 (kmem s)) a) s -> wp G (ld32 (pte_ptr a)) s Q.
Proof.
  intros Hs Ha Hp HQ. rewrite pte_ptr_eq by done.
  destruct (pte_view_spec _ _ a Hs Ha Hp) as (Hv & Hal & _).
  eapply wp_ld32_at; [by apply ldw_paged | done].
Qed.

(** The translation of a mapped address, as the code computes it. *)
Lemma wp_addr_v2p G s a pa (Q : Z -> kstate paged -> Prop) : self_mapped (pbyte (kmem s)) (cr3 (kmem s)) ->
  virt (kmem s) a = Some pa -> Q pa s -> wp G (addr_v2p a) s Q.
Proof.
  intros Hs Hv HQ. pose proof Hv as (Hu & Hd & Hp & Hpa)%translate_Some.
  unfold addr_v2p. apply wp_bind, wp_read_pte; [done .. |]. apply wp_ret.
  set (e := pte (pbyte (kmem s)) (cr3 (kmem s)) a) in *.
  assert (is_u32 e) as He by (apply w32_range; intros b _; apply pbyte_u8).
  rewrite frame_land by done. change 0xfff with (Z.ones 12). rewrite Z.land_ones by lia.
  change (2 ^ 12) with 4096. fold (page_off a). rewrite <- Hpa, u32_small; [done |].
  pose proof (page_off_range a). rewrite Hpa. unfold is_u32, frame in *. zlia.
Qed.

(** Writing a directory entry that is not present. *)
Lemma wp_write_pde G s a v (Q : unit -> kstate paged -> Prop) :
  self_mapped (pbyte (kmem s)) (cr3 (kmem s)) -> is_u32 a -> dir_idx a < 1023 ->
  (forall m', cr3 m' = cr3 (kmem s) ->
     (forall b, pbyte m' b = upd32 (pbyte (kmem s)) (pde_at (cr3 (kmem s)) (dir_idx a)) v b) ->
     Q tt (set_mem m' s)) ->
  wp G (st32 (pde_ptr a) v) s Q.
Proof.
  intros Hs Ha Hd HQ. rewrite pde_ptr_eq by done.
  destruct (pde_view_spec _ _ a Hs Ha) as (Hv & Hal & Hw).
  destruct (stw_paged _ _ _ v Hv Hal) as (m' & Hm' & Hc & Hb).
  - intros b Hb1 Hb2%Hw. unfold span, pde_at in *. lia.
  - eapply wp_st32_at; [done | by apply HQ].
Qed.

(** Entering the frame [q] for the page of [a] into an existing table. *)
Lemma wp_enter G s R f F a q (Q : unit -> kstate paged -> Prop) :
  vspace (kmem s) R f F -> is_u32 a -> 1 <= dir_idx a < 1023 ->
  present (pde (pbyte (kmem s)) (cr3 (kmem s)) (dir_idx a)) = true ->
  present (pte (pbyte (kmem s)) (cr3 (kmem s)) a) = false -> F q ->
  (forall m', vspace m' R f (without F q) -> grown (kmem s) m' R a q no_tables -> Q tt (set_mem m' s)) ->
  wp G (st32 (pte_ptr a) (entry_for q)) s Q.
Proof.
  intros Hvs Ha Hd Hp Hfree HF HQ. pose proof (vs_vm _ _ _ _ Hvs) as Hvm.
  destruct (vm_frame _ _ _ Hvm q HF) as [Hq4 Hqu].
  destruct (entry_for_spec q Hq4 Hqu) as (He1 & He2 & He3). rewrite pte_ptr_eq by done.
  destruct (pte_view_spec _ _ a (vm_self _ _ _ Hvm) Ha Hp) as (Hv & Hal & Hw).
  destruct (stw_paged _ _ _ (entry_for q) Hv Hal) as (m' & Hm' & Hc & Hb).
  { intros b Hb1%pte_frame Hb2%Hw. apply (vm_dirs _ _ _ Hvm (dir_idx a)); [lia | done |].
    rewrite <- Hb1. destruct Hb2 as [Hb2 | Hb2]; (eapply pde_frame; [| exact Hb2]; lia). }
  eapply wp_st32_at; [done |].
  assert (dir_idx a < 1023) as Hd1 by lia.
  assert (grown (kmem s) m' R a q no_tables) as Hgr.
  { split.
    - done.
    - unfold virt. rewrite Hc. by eapply entry_extends with (a := a) (v := entry_for q).
    - intros k Hk. unfold virt. rewrite Hc.
      rewrite (entry_new _ _ F Hvm a (entry_for q) q) by (done || lia). do 2 f_equal. lia.
    - intros b _ Hnt. eapply entry_out with (a := a) (v := entry_for q); try done. intros Ht. by apply Hnt, (entry_table _ _ F Hvm a (entry_for q)).
    - intros p Ht. by apply (entry_table _ _ F Hvm a (entry_for q)).
    - intros p Ht. left. by apply (entry_table _ _ F Hvm a (entry_for q)) in Ht.
    - intros i Hi _. by eapply entry_pde with (a := a) (v := entry_for q).
    - intros a' Ha' Hd' Hp' Hne. eapply entry_pte with (a := a) (v := entry_for q); try done. by apply (pte_at_ne _ _ F Hvm). }
  apply HQ; [| done]. eapply vspace_grow; [exact Hvs | done | | | |].
  - by eapply entry_vm with (a := a) (v := entry_for q).
  - intros a' pa. rewrite <- Hc at 2. apply Hgr.
  - intros p Ht. left. by destruct (gr_table _ _ _ _ _ _ Hgr p Ht).
  - intros b Hnt. eapply entry_out with (a := a) (v := entry_for q); try done. intros Ht. by apply Hnt, (entry_table _ _ F Hvm a (entry_for q)).
Qed.

(** [palloc] on the paged machine: only the pool's bitmap changes. *)
Lemma wp_palloc_vspace G s R f F p b n st (Q : Z -> kstate paged -> Prop) :
  vspace (kmem s) R f F -> is_pool R f p b n st -> (exists i, free_bit f b n i) ->
  (forall i m' f', lowest_free f b n i -> vspace m' R f' F -> unmoved (kmem s) m' R -> is_pool R f' p b n st ->
     (forall a, ~ span b n a -> f' a = f a) ->
     (forall j, 0 <= j -> bit f' b j = bit f b j || (j =? i)) -> Q (frame_of st i) (set_mem m' s)) ->
  wp G (palloc p) s Q.
Proof.
  intros Hvs Hp Hfree HQ.
  eapply (@wp_palloc paged _ (keeping_laws (cr3 (kmem s)) (outside (kmem s) R) (pbyte (kmem s))));
    [by eapply vspace_keeping | done | done |].
  intros i m' f' Hlow Hm' Hp' Hout Hbits. destruct (vspace_after _ _ _ _ Hvs m' f' Hm') as [Hvs' Hum].
  by eapply HQ.
Qed.

(** [page_table_add] when the table is there. *)
Lemma wp_page_table_add_present G s R f F a q (Q : unit -> kstate paged -> Prop) :
  vspace (kmem s) R f F -> is_u32 a -> 1 <= dir_idx a < 1023 ->
  present (pde (pbyte (kmem s)) (cr3 (kmem s)) (dir_idx a)) = true ->
  present (pte (pbyte (kmem s)) (cr3 (kmem s)) a) = false -> F q ->
  (forall m', vspace m' R f (without F q) -> grown (kmem s) m' R a q no_tables -> Q tt (set_mem m' s)) ->
  wp G (page_table_add a q) s Q.
Proof.
  intros Hvs Ha Hd Hp Hfree HF HQ. pose proof (vm_self _ _ _ (vs_vm _ _ _ _ Hvs)) as Hself.
  unfold page_table_add. apply wp_bind, wp_read_pde; [done | done |].
  rewrite present_bit, Hp. cbn [negb].
  apply wp_bind, wp_bind, wp_read_pte; [done | done | done |]. rewrite present_bit, Hfree. cbn [negb].
  apply wp_bind, wp_assert; [done |].
  apply wp_bind, wp_read_pte; [done | done | done |]. rewrite present_bit, Hfree. cbn [negb].
  apply wp_ret. by eapply wp_enter.
Qed.

(** Clearing the page at [u], which is mapped to the frame [p]. *)
Lemma wp_clear_page G s u p (Q : unit -> kstate paged -> Prop) :
  u mod 4096 = 0 -> u <> 0 ->
  (forall m' k, cr3 m' = cr3 (kmem s) -> (forall b, frame b <> p -> pbyte m' b = pbyte (kmem s) b) ->
     0 <= k < 4096 -> virt m' (u + k) = Some (p + k) /\
     forall b, walked (pbyte m') (cr3 m') (u + k) b -> frame b <> p) ->
  p mod 4096 = 0 ->
  (forall m', cr3 m' = cr3 (kmem s) ->
     (forall b, pbyte m' b = if frame b =? p then 0 else pbyte (kmem s) b) -> Q tt (set_mem m' s)) ->
  wp G (memset u 0 PG_SIZE) s Q.
Proof.
  intros Hu Hu0 Hview Hp HQ.
  set (f0 := fun a => pbyte (kmem s) (p + (a - u))).
  eapply (@wp_memset_span paged _ (keeping_laws (cr3 (kmem s)) (fun b => frame b <> p) (pbyte (kmem s))) _ _
    (span u 4096) f0); [| by intros ? ? | done | unfold is_u32, PG_SIZE; lia |].
  - split; [| split; [done |]].
    + intros a Ha. unfold span in Ha. destruct (Hview (kmem s) (a - u) eq_refl ltac:(done) ltac:(lia)) as [Hv Hw].
      replace (u + (a - u)) with a in * by lia. exists (p + (a - u)). split; [done |]. split; [done |]. split.
      * intros a' Ha' Hwa. unfold span in Ha'.
        destruct (Hview (kmem s) (a' - u) eq_refl ltac:(done) ltac:(lia)) as [_ Hw'].
        replace (u + (a' - u)) with a' in * by lia. apply Hw' in Hwa. rewrite frame_add in Hwa by (done || lia). done.
      * intros a' Ha' Hv'. unfold span in Ha'.
        destruct (Hview (kmem s) (a' - u) eq_refl ltac:(done) ltac:(lia)) as [Hv2 _].
        replace (u + (a' - u)) with a' in * by lia. rewrite Hv' in Hv2. injection Hv2 as He. lia.
    + intros a pa Ha Hv. unfold span in Ha. destruct (Hview (kmem s) (a - u) eq_refl ltac:(done) ltac:(lia)) as [Hv2 _].
      replace (u + (a - u)) with a in * by lia. rewrite Hv in Hv2. injection Hv2 as ->.
      rewrite frame_add by (done || lia). tauto.
  - intros m' f' (Hm & [Hc Hk] & _) Hz _. apply HQ; [done |].
    intros b. destruct (Z.eqb_spec (frame b) p) as [He | Hne]; [| by apply Hk].
    pose proof (page_off_range b) as Hb. pose proof (frame_off b) as Hfo. rewrite He in Hfo.
    destruct (Hview m' (page_off b) Hc Hk Hb) as [Hv _].
    destruct (Hm (u + page_off b)) as (pa & Hv' & Hf & _); [unfold span; lia |].
    rewrite Hv in Hv'. injection Hv' as <-. rewrite Hfo, <- Hf. apply Hz. unfold span, PG_SIZE; lia.
Qed.

Lemma PG_SIZE_eq : PG_SIZE = 4096.
Proof. done. Qed.

(** The directory entry and the cleared table, from the allocated frame on:
    the part of [page_table_add] that makes a table. *)
Lemma wp_new_table G s R f F a p (Q : unit -> kstate paged -> Prop) :
  vspace (kmem s) R f F -> is_u32 a -> 1 <= dir_idx a < 1023 ->
  present (pde (pbyte (kmem s)) (cr3 (kmem s)) (dir_idx a)) = false -> F p ->
  (forall m' o, vspace m' R f (without F p) -> tabled (kmem s) m' a p -> Q tt (put_out o (set_mem m' s))) ->
  wp G (st32 (pde_ptr a) (entry_for p);;
        do e <- ld32 (pde_ptr a); put_int e;; put_lit nl;;
        memset (Z.land (pte_ptr a) 0xfffff000) 0 PG_SIZE;;
        do t <- ld32 (pte_ptr a);
        ASSERT "kernel/memory.c" 137 "page_table_add" "!(*pte & 1)" (Z.land t 1 =? 0)) s Q.
Proof.
  intros Hvs Ha Hd Hp HF HQ. pose proof (vs_vm _ _ _ _ Hvs) as Hvm.
  destruct (vm_frame _ _ _ Hvm p HF) as [Hp4 Hpu].
  destruct (entry_for_spec p Hp4 Hpu) as (He1 & He2 & He3).
  set (g := pbyte (kmem s)) in *. set (c := cr3 (kmem s)) in *. set (i := dir_idx a) in *.
  assert (0 <= i < 1023) as Hi by lia.
  apply wp_bind, wp_write_pde; [apply Hvm | done | unfold i in *; lia |]. intros m1 Hc1 Hg1.
  fold g c i in Hg1, Hc1.
  pose proof (table_self g c F Hvm i (entry_for p) Hi Hp He2 He3 (pbyte m1) Hg1) as Hs1.
  pose proof (table_view g c F Hvm i (entry_for p) p Hi Hp HF He1 He2 He3 (pbyte m1) Hg1) as Hview.
  apply wp_bind, wp_read_pde; [by cbn; rewrite Hc1 | done |].
  apply wp_bind, wp_modify, wp_bind, wp_modify. rewrite put_out_app. set (o := _ ++ rev (int_digits _)). clearbody o.
  rewrite pte_ptr_eq by done.
  assert (Z.land (pte_view a) 0xfffff000 = 0xffc00000 + 4096 * i) as ->.
  { pose proof (tab_idx_range a). rewrite frame_land by (unfold is_u32, pte_view; fold i; lia).
    unfold pte_view. fold i. apply frame_add; [zlia | lia]. }
  apply wp_bind, (wp_clear_page _ _ _ p); [zlia | lia | | done |].
  { cbn. intros m' k Hc' Hb Hk. unfold virt. rewrite Hc', Hc1. by apply Hview. }
  cbn. intros m2 Hc2 Hg2. rewrite Hc1 in Hc2.
  pose proof (cleared_vm g c F Hvm i (entry_for p) p Hi Hp HF He1 He2 He3 (pbyte m1) Hg1 (pbyte m2) Hg2) as Hvm2.
  pose proof (cleared_pde g c F Hvm i (entry_for p) p Hi Hp HF He2 He3 (pbyte m1) Hg1 (pbyte m2) Hg2) as Hpde.
  assert (pde (pbyte m2) c i = entry_for p) as Hpi by (rewrite Hpde by lia; by rewrite Z.eqb_refl).
  assert (pte (pbyte m2) c a = 0) as Hpte.
  { apply (cleared_zero g c i (entry_for p) p Hi Hp He2 (pbyte m1) (pbyte m2) Hg2); [apply entry_aligned |].
    rewrite (pte_frame (pbyte m2) c a) by (unfold span; lia). fold i. by rewrite Hpi. }
  assert (tabled (kmem s) m2 a p) as Htb.
  { split; fold g c i.
    - done.
    - unfold virt. rewrite Hc2. fold g c.
      apply (cleared_extends g c F Hvm i (entry_for p) p Hi Hp HF He1 He2 He3 (pbyte m1) Hg1 (pbyte m2) Hg2).
    - by rewrite Hpi.
    - done.
    - apply (cleared_same g c F Hvm i (entry_for p) p Hi Hp HF He1 He2 He3 (pbyte m1) Hg1 (pbyte m2) Hg2).
    - apply (cleared_table g c F Hvm i (entry_for p) p Hi Hp HF He1 He2 He3 (pbyte m1) Hg1 (pbyte m2) Hg2).
    - intros j Hj Hpj. rewrite Hpde by done. destruct (Z.eqb_spec j i) as [-> |]; [by rewrite Hp in Hpj | done].
    - intros a' Ha' Hd' Hp'.
      apply (cleared_pte g c F Hvm i (entry_for p) p Hi Hp HF He2 He3 (pbyte m1) Hg1 (pbyte m2) Hg2); [done | lia | done]. }
  assert (vspace m2 R f (without F p)) as Hvs2.
  { eapply vspace_grow; [exact Hvs | done | exact Hvm2 | | |].
    - intros a' pa Ht. pose proof (tb_ext _ _ _ _ Htb a' pa Ht) as Ht2. unfold virt in Ht2. by rewrite Hc2 in Ht2.
    - intros x Hx%(tb_table _ _ _ _ Htb). destruct Hx as [Hx | ->]; [by left | by right].
    - apply Htb. }
  apply wp_bind. rewrite <- pte_ptr_eq by done. apply wp_read_pte; cbn; rewrite ?Hc2;
    [apply Hvm2 | done | by fold i; rewrite Hpi |].
  rewrite Hpte. apply wp_assert; [done |]. by apply (HQ m2 o).
Qed.

Lemma outside_ext m m1 R f F b : vspace m R f F -> (forall a pa, virt m a = Some pa -> virt m1 a = Some pa) ->
  outside m R b -> outside m1 R b.
Proof.
  intros Hvs Hext Hb a Ha Hv. destruct (vs_region _ _ _ _ Hvs a Ha) as (pa & Hpa & _).
  apply Hext in Hpa as Hpa'. rewrite Hv in Hpa'. injection Hpa' as <-. by apply (Hb a).
Qed.

(** [page_table_add] when there is no table yet: the kernel pool gives one. *)
Lemma wp_page_table_add_absent G s R f F a q kb kn kst (Q : unit -> kstate paged -> Prop) :
  vspace (kmem s) R f F -> is_pool R f kernel_pool kb kn kst ->
  (exists i, free_bit f kb kn i) -> (forall p, free_frame f kb kn kst p -> without F q p) ->
  is_u32 a -> 1 <= dir_idx a < 1023 ->
  present (pde (pbyte (kmem s)) (cr3 (kmem s)) (dir_idx a)) = false -> F q ->
  (forall i m' f' o, lowest_free f kb kn i -> let p := frame_of kst i in
     vspace m' R f' (without (without F p) q) -> grown (kmem s) m' R a q (fun x => x = p) ->
     is_pool R f' kernel_pool kb kn kst -> (forall a, ~ span kb kn a -> f' a = f a) ->
     (forall j, 0 <= j -> bit f' kb j = bit f kb j || (j =? i)) -> Q tt (put_out o (set_mem m' s))) ->
  wp G (page_table_add a q) s Q.
Proof.
  intros Hvs Hkp Hfree HF Ha Hd Hp Hq HQ. pose proof (vm_self _ _ _ (vs_vm _ _ _ _ Hvs)) as Hself.
  unfold page_table_add. apply wp_bind, wp_read_pde; [done | done |].
  rewrite present_bit, Hp. cbn [negb]. apply wp_bind, wp_bind.
  eapply wp_palloc_vspace; [done | done | done |].
  intros i m1 f1 Hlow Hvs1 Hum Hkp1 Hout1 Hbits1. set (p := frame_of kst i).
  apply wp_bind, wp_modify, wp_bind, wp_modify. rewrite put_out_app. set (o1 := _ ++ rev (int_digits _)). clearbody o1.
  assert (without F q p) as [HFp Hpq] by (apply HF; exists i; split; [apply Hlow | done]).
  pose proof (um_cr3 _ _ _ Hum) as Hc1. pose proof (dir_idx_range a Ha) as Hda.
  eapply wp_new_table; [exact Hvs1 | done | done | | exact HFp |].
  { cbn. rewrite Hc1, (um_pde _ _ _ Hum) by done. done. }
  intros m2 o2 Hvs2 Htb. cbn [kmem set_mem put_out] in Htb. pose proof (tb_cr3 _ _ _ _ Htb) as Hc2.
  assert (without F p q) as HFq by (split; [done | by intros ->]).
  eapply wp_enter; [exact Hvs2 | done | done | | | exact HFq |]; cbn; rewrite ?Hc2.
  - apply (tb_new _ _ _ _ Htb).
  - by rewrite (tb_free _ _ _ _ Htb).
  - intros m3 Hvs3 Hgr. cbn in Hgr.
    change (Q tt (put_out o2 (put_out o1 (set_mem m3 s)))). rewrite put_out_app.
    apply (HQ i m3 f1); try done. eapply unmoved_grown; [exact Hum |].
    eapply tabled_grown; [exact Htb | | exact Hgr]. intros b. eapply outside_ext; [exact Hvs1 | apply Htb].
Qed.
End rules.

(** ** Properties *)

Section properties.
Context {LY : Layout}.
Implicit Types (s : kstate paged) (m : paged) (R F : Z -> Prop) (f : Z -> Z).

(** C20. [page_table_add] adds exactly one page to the mapping.  When the page has a
    table, the entry is made and nothing else moves; when it has none, the
    lowest free frame of the kernel's pool becomes its table, cleared and seen
    through the directory; when the page is mapped already, the call ends in
    the assertion. *)
Theorem page_table_add_maps s R f F a q kb kn kst :
  vspace (kmem s) R f F -> is_u32 a -> 1 <= dir_idx a < 1023 -> F q ->
  let table := present (pde (pbyte (kmem s)) (cr3 (kmem s)) (dir_idx a)) in
  let mapped := present (pte (pbyte (kmem s)) (cr3 (kmem s)) a) in
  (table = true -> mapped = false ->
     exists m', page_table_add a q s = Done tt (set_mem m' s) /\ vspace m' R f (without F q) /\
       grown (kmem s) m' R a q no_tables) /\
  (table = false -> is_pool R f kernel_pool kb kn kst -> (exists i, free_bit f kb kn i) ->
   (forall p, free_frame f kb kn kst p -> without F q p) ->
     exists i m' f' o, page_table_add a q s = Done tt (put_out o (set_mem m' s)) /\ lowest_free f kb kn i /\
       let p := frame_of kst i in
       vspace m' R f' (without (without F p) q) /\ grown (kmem s) m' R a q (fun x => x = p) /\
       is_pool R f' kernel_pool kb kn kst /\ (forall b, ~ span kb kn b -> f' b = f b) /\
       forall j, 0 <= j -> bit f' kb j = bit f kb j || (j =? i)) /\
  (table = true -> mapped = true ->
     exists s', page_table_add a q s =
       Panic (mk_panic "kernel/memory.c" 125 "page_table_add" "!(*pte & 1)") s' /\ kmem s' = kmem s).
Proof.
  intros Hvs Ha Hd HF table mapped. split; [| split].
  - intros Ht Hm.
    destruct (proj1 (wp_seq_only (page_table_add a q) s (fun r s' => exists m', s' = set_mem m' s /\
      vspace m' R f (without F q) /\ grown (kmem s) m' R a q no_tables)))
      as ([] & s' & Hc & m' & -> & Hv & Hg); [| by exists m'].
    eapply wp_page_table_add_present; try done. intros m' Hv Hg. by exists m'.
  - intros Ht Hpool Hfree Hw.
    destruct (proj1 (wp_seq_only (page_table_add a q) s (fun r s' => exists i m' f' o,
      s' = put_out o (set_mem m' s) /\ lowest_free f kb kn i /\
      let p := frame_of kst i in
      vspace m' R f' (without (without F p) q) /\ grown (kmem s) m' R a q (fun x => x = p) /\
      is_pool R f' kernel_pool kb kn kst /\ (forall b, ~ span kb kn b -> f' b = f b) /\
      forall j, 0 <= j -> bit f' kb j = bit f kb j || (j =? i))))
      as ([] & s' & Hc & i & m' & f' & o & -> & Hrest); [| by exists i, m', f', o].
    eapply wp_page_table_add_absent; try done. intros i m' f' o Hlow p. by exists i, m', f', o.
  - intros Ht Hm. apply panics_wp. intros G Q HP. pose proof (vm_self _ _ _ (vs_vm _ _ _ _ Hvs)) as Hself.
    unfold page_table_add. apply wp_bind, wp_read_pde; [done | done |].
    fold table. rewrite present_bit. fold table. rewrite Ht. cbn [negb].
    apply wp_bind, wp_bind, wp_read_pte; [done .. |]. rewrite present_bit. fold mapped. rewrite Hm. cbn [negb].
    by apply wp_bind, wp_assert_fails.
Qed.

(** [pde_ptr] and [pte_ptr] find the entries of an address through the entry of
    the directory that leads to itself: they are aligned, and translated to the
    directory entry of the address and, when that is present, to its table
    entry. *)
Theorem pte_ptr_self_map m a : self_mapped (pbyte m) (cr3 m) -> is_u32 a ->
  pde_ptr a mod 4 = 0 /\ virt m (pde_ptr a) = Some (pde_at (cr3 m) (dir_idx a)) /\
  (present (pde (pbyte m) (cr3 m) (dir_idx a)) = true ->
     pte_ptr a mod 4 = 0 /\ virt m (pte_ptr a) = Some (pte_at (pbyte m) (cr3 m) a)).
Proof.
  intros Hs Ha. rewrite pde_ptr_eq, pte_ptr_eq by done.
  destruct (pde_view_spec _ _ a Hs Ha) as (Hv & H4 & _). split; [done |]. split; [done |].
  intros Hp. by destruct (pte_view_spec _ _ a Hs Ha Hp) as (Hv' & H4' & _).
Qed.

(** C38. [addr_v2p] computes the translation the processor makes, for every address
    that is mapped. *)
Theorem addr_v2p_translates s a pa : self_mapped (pbyte (kmem s)) (cr3 (kmem s)) ->
  virt (kmem s) a = Some pa -> addr_v2p a s = Done pa s.
Proof.
  intros Hs Hv. apply returns_wp. intros Q HQ. by eapply wp_addr_v2p.
Qed.
End properties.

(** ** A concrete address space for the examples

    The directory is at 1 MB, one table after it maps the kernel's variables,
    the page of the bitmaps and that of the main thread at 0 and at 3 GB, as
    the loader leaves them; sixteen frames from 2 MB on are free, eight of
    them the kernel's.  The main thread runs, the lock of the process numbers
    is free, and the string "idle" is among the variables.  The control block
    of a process is at 0xc000a000, its page directory at 0xc00b0000. *)
Module examples.
#[local] Existing Instance demo_layout.
Definition demo_queues : qmap := [(thread_ready_list, []); (waiters (semaphore pid_lock), [])].
Definition demo_tasks : tmap := [(Thread.examples.t1, Thread.examples.v1)].
Definition demo_words : list (Z * Z) := [(0xc0008024, 1); (0xc0008600, 0x656c6469); (0xc0008604, 0)].
Definition demo_phys : flat := flat_of (
  map (fun '(a, v) => (a - 0xc0000000, v)) (demo_words ++ sched_words demo_queues demo_tasks) ++ [
  (0x100000, 0x101007); (0x100000 + 4 * 768, 0x101007); (0x100000 + 4 * 1023, 0x100007);
  (0x101000, 0x7); (0x101000 + 4 * 8, 0x8007); (0x101000 + 4 * 0x9a, 0x9a007); (0x101000 + 4 * 0x9e, 0x9e007);
  (0x101000 + 4 * 9, 0x9007); (0x101000 + 4 * 0xa, 0xa007); (0x101000 + 4 * 0xb0, 0xb0007);
  (0xb0000 + 4 * 768, 0x101007); (0xb0000 + 4 * 1023, 0xb0007); (pgdir 0xa000, 0xc00b0000);
  (0x8100, 1); (0x8104, 0xc009a000); (0x8108, 0x200000);
  (0x8180, 2); (0x8184, 0xc009a001); (0x8188, 0xc0100000)]).
Definition demo : paged := mk_paged demo_phys 0x100000.
Definition demo_region : list (Z * Z) := [(0xc0008000, 400); (0xc0008600, 8); (0xc0009300, 108); (0xc000a000, 72); (0xc009a000, 4);
  (0xc009e000, 72); (0xc00b0000, 4096)].
Definition demo_R (a : Z) : Prop := Exists (fun '(b, n) => span b n a) demo_region.
Definition demo_f (a : Z) : Z := pbyte demo (a - 0xc0000000).
Definition demo_F (p : Z) : Prop := exists i, 0 <= i < 64 /\ p = frame_of 0x200000 i.

Lemma demo_region_all (P : Z -> bool) :
  forallb (fun '(b, n) => forallb (fun k => P (b + k)) (zrange n)) demo_region = true ->
  forall a, demo_R a -> P a = true.
Proof.
  intros Hall a Ha. unfold demo_R in Ha. rewrite Exists_exists in Ha. destruct Ha as ([b n] & Hin & Hs).
  rewrite forallb_forall in Hall. apply list_elem_of_In in Hin. specialize (Hall _ Hin). cbv beta iota in Hall.
  rewrite <- (Z.sub_add b a), Z.add_comm. apply (zrange_forallb (fun k => P (b + k)) n Hall).
  unfold span in Hs. lia.
Qed.

(** The directory. *)
Lemma demo_dirs i : 0 <= i < 1024 -> present (pde (pbyte demo) 0x100000 i) = true ->
  (i = 0 \/ i = 768) /\ frame (pde (pbyte demo) 0x100000 i) = 0x101000 \/
  i = 1023 /\ frame (pde (pbyte demo) 0x100000 i) = 0x100000.
Proof.
  intros Hi Hp.
  pose proof (zrange_forallb (fun i => negb (present (pde (pbyte demo) 0x100000 i)) ||
    (((i =? 0) || (i =? 768)) && (frame (pde (pbyte demo) 0x100000 i) =? 0x101000)) ||
    ((i =? 1023) && (frame (pde (pbyte demo) 0x100000 i) =? 0x100000))) 1024
    ltac:(vm_compute; reflexivity) i Hi) as Hc.
  cbv beta in Hc. rewrite Hp in Hc. lia.
Qed.

(** What is mapped lies below the free frames. *)
Lemma demo_entries i : 0 <= i < 1024 ->
  frame (w32 (pbyte demo) (0x101000 + 4 * i)) < 0x200000 /\ frame (w32 (pbyte demo) (0x100000 + 4 * i)) < 0x200000.
Proof.
  intros Hi. pose proof (zrange_forallb (fun i => (frame (w32 (pbyte demo) (0x101000 + 4 * i)) <? 0x200000) &&
    (frame (w32 (pbyte demo) (0x100000 + 4 * i)) <? 0x200000)) 1024 ltac:(vm_compute; reflexivity) i Hi) as Hc.
  cbv beta in Hc. lia.
Qed.

Lemma demo_vm : vm (pbyte demo) 0x100000 demo_F.
Proof.
  split.
  - done.
  - apply pbyte_u8.
  - split; vm_compute; reflexivity.
  - intros i Hi Hp. change (frame 0x100000) with 0x100000. destruct (demo_dirs i ltac:(lia) Hp) as [[_ ->] | [-> _]]; lia.
  - intros i j Hi Hj Hpi Hpj _.
    destruct (demo_dirs i ltac:(lia) Hpi) as [[[|] _] | [? _]], (demo_dirs j ltac:(lia) Hpj) as [[[|] _] | [? _]]; lia.
  - intros p (i & Hi & ->). unfold frame_of, is_u32. zlia.
  - intros p (i & Hi & ->) [He | (j & Hj & Hp & He)]; unfold frame_of in He.
    + change (frame 0x100000) with 0x100000 in He. lia.
    + destruct (demo_dirs j Hj Hp) as [[_ Hd] | [_ Hd]]; rewrite Hd in He; lia.
  - intros p a pa (i & Hi & ->) (Hu & Hd & Hp & ->)%translate_Some.
    rewrite frame_add by (apply frame_aligned || apply page_off_range). unfold frame_of, pte, pte_at.
    pose proof (dir_idx_range a Hu) as Hda. destruct (demo_entries (tab_idx a) (tab_idx_range a)) as [H1 H2].
    destruct (demo_dirs _ Hda Hd) as [[_ ->] | [_ ->]]; lia.
Qed.

Lemma demo_mapped a : demo_R a ->
  virt demo a = Some (a - 0xc0000000) /\
  negb (frame (a - 0xc0000000) =? 0x100000) && negb (frame (a - 0xc0000000) =? 0x101000) = true.
Proof.
  intros Ha.
  pose proof (demo_region_all (fun a => match virt demo a with
      | Some pa => (pa =? a - 0xc0000000) &&
        (negb (frame pa =? 0x100000) && negb (frame pa =? 0x101000)) | None => false end)
    ltac:(vm_compute; reflexivity) a Ha) as Hc. cbv beta in Hc.
  destruct (virt demo a) as [pa |]; [| done]. apply andb_true_iff in Hc as [->%Z.eqb_eq Hf]. done.
Qed.

Lemma demo_vspace : vspace demo demo_R demo_f demo_F.
Proof.
  split; [apply demo_vm |]. intros a Ha. destruct (demo_mapped a Ha) as [Hv Hf].
  exists (a - 0xc0000000). split; [done |]. split; [done |]. split.
  - change (cr3 demo) with 0x100000. intros [He | (j & Hj & Hp & He)].
    + change (frame 0x100000) with 0x100000 in He. lia.
    + destruct (demo_dirs j Hj Hp) as [[_ Hd] | [_ Hd]]; rewrite Hd in He; lia.
  - intros a' Ha' Hv'. destruct (demo_mapped a' Ha') as [Hv2 _]. rewrite Hv' in Hv2. injection Hv2. lia.
Qed.

Lemma demo_inside a n : forallb (fun k => existsb (fun '(b, n) => (b <=? a + k) && (a + k <? b + n)) demo_region) (zrange n) = true ->
  inside demo_R a n.
Proof.
  intros Hall b Hb. unfold span in Hb.
  pose proof (zrange_forallb _ n Hall (b - a) ltac:(lia)) as Hc. cbv beta in Hc.
  apply existsb_exists in Hc as ([x k] & Hin & Hc). unfold demo_R. rewrite Exists_exists.
  exists (x, k). split; [by apply list_elem_of_In |]. unfold span. lia.
Qed.

(** The kernel's pool of frames. *)
Lemma demo_pool : is_pool demo_R demo_f kernel_pool 0xc009a000 1 0x200000.
Proof.
  split; [| vm_compute; reflexivity | apply demo_inside; vm_compute; reflexivity | vm_compute; by left | done | lia].
  split; [vm_compute; reflexivity .. | | | vm_compute; by left | lia];
    apply demo_inside; vm_compute; reflexivity.
Qed.

Definition demo_state : kstate paged := mk_kstate demo false 0xc009eff0 vars0 [] [] (fun _ => 0) [].

Lemma demo_free i : 0 <= i < 8 -> free_bit demo_f 0xc009a000 1 i.
Proof.
  intros Hi. split; [lia |].
  pose proof (zrange_forallb (fun i => negb (bit demo_f 0xc009a000 i)) 8 ltac:(vm_compute; reflexivity) i Hi) as Hc.
  cbv beta in Hc. by apply negb_true_iff in Hc.
Qed.

Lemma page_table_add_maps_witness :
  (exists m', page_table_add 0xc0100000 0x207000 demo_state = Done tt (set_mem m' demo_state) /\
     virt m' 0xc0100005 = Some 0x207005 /\ virt m' 0xc0008100 = Some 0x8100) /\
  (exists m' o, page_table_add 0x1400000 0x208000 demo_state = Done tt (put_out o (set_mem m' demo_state)) /\
     virt m' 0x1400fff = Some 0x208fff).
Proof.
  split.
  - destruct (page_table_add_maps demo_state demo_R demo_f demo_F 0xc0100000 0x207000 0xc009a000 1 0x200000
      demo_vspace) as [Hpres _]; [done | vm_compute; split; congruence | by exists 7 |].
    destruct Hpres as (m' & Hc & _ & Hg); [vm_compute; reflexivity .. |].
    exists m'. split; [exact Hc |]. split; [exact (gr_new _ _ _ _ _ _ Hg 5 ltac:(lia)) |].
    apply (gr_ext _ _ _ _ _ _ Hg). vm_compute. reflexivity.
  - destruct (page_table_add_maps demo_state demo_R demo_f demo_F 0x1400000 0x208000 0xc009a000 1 0x200000
      demo_vspace) as (_ & Habs & _); [done | vm_compute; split; congruence | by exists 8 |].
    destruct Habs as (i & m' & f' & o & Hc & _ & _ & Hg & _).
    + vm_compute; reflexivity.
    + apply demo_pool.
    + exists 0. apply demo_free. lia.
    + intros p (i & [Hi _] & ->). split; [exists i; split; [lia | done] |]. unfold frame_of. lia.
    + exists m', o. split; [exact Hc |]. exact (gr_new _ _ _ _ _ _ Hg 0xfff ltac:(lia)).
Defined.

Lemma pte_ptr_self_map_witness :
  virt demo (pde_ptr 0xc0008100) = Some 0x100c00 /\ virt demo (pte_ptr 0xc0008100) = Some 0x101020.
Proof.
  destruct (pte_ptr_self_map demo 0xc0008100) as (_ & Hv & Hp).
  - split; vm_compute; reflexivity.
  - done.
  - destruct Hp as [_ Hp]; [vm_compute; reflexivity |]. rewrite Hv, Hp. split; vm_compute; reflexivity.
Defined.

Lemma addr_v2p_translates_witness : addr_v2p 0xc0008105 demo_state = Done 0x8105 demo_state.
Proof.
  apply addr_v2p_translates; [split; vm_compute; reflexivity | vm_compute; reflexivity].
Defined.
End examples.
