(* ===== verification/KHeap.v ===== *)
(** kernel/memory.c on the paged machine: the kernel heap.  [vaddr_get],
    [malloc_page] and [get_kernel_pages], from the bitmaps to the new pages. *)

From S2P Require Import Prelude Monad RawMem Machine CString Bitmap DList Thread Sync Global Paging Memory Mapping.

(** ** The kernel's bookkeeping *)

(** The kernel pool, with the bits at [kb], and the kernel's virtual
    addresses, with the bits at [vb]. *)
Record heap_maps := mk_heap_maps {
  kb : Z; kn : Z; kst : Z;      (* bits, bytes of bits, first frame of the pool *)
  vb : Z; vn : Z; vst : Z }.    (* bits, bytes of bits, first address of the heap *)

Definition heap_page (h : heap_maps) (i : Z) : Z := vst h + 4096 * i.

Section heap.
Context {LY : Layout}.

Record is_heap (R : Z -> Prop) (f : Z -> Z) (h : heap_maps) : Prop := mk_is_heap {
  hp_pool : is_pool R f kernel_pool (kb h) (kn h) (kst h);
  hp_vaddr : is_bitmap R f (vaddr_bitmap kernel_vaddr) (vb h) (vn h);
  hp_vstart : w32 f (vaddr_start kernel_vaddr) = vst h;
  hp_vinside : inside R kernel_vaddr 12;
  hp_vapart : kernel_vaddr + 12 <= vb h \/ vb h + vn h <= kernel_vaddr;
  hp_bits : kb h + kn h <= vb h \/ vb h + vn h <= kb h;
  hp_kv : kernel_vaddr + 12 <= kb h \/ kb h + kn h <= kernel_vaddr;
  hp_vk : kernel_pool + 16 <= vb h \/ vb h + vn h <= kernel_pool;
  hp_aligned : vst h mod 4096 = 0;
  hp_range : 2 ^ 22 <= vst h /\ vst h + 4096 * (8 * vn h) <= 0xffc00000 }.

(** The address space under it: free frames are free, pages not handed out
    have a table and no frame. *)
Record heap_space (m : paged) (R : Z -> Prop) (f : Z -> Z) (F : Z -> Prop) (h : heap_maps) : Prop := mk_heap_space {
  hs_heap : is_heap R f h;
  hs_vspace : vspace m R f F;
  hs_frames p : free_frame f (kb h) (kn h) (kst h) p -> F p;
  hs_pages i : free_bit f (vb h) (vn h) i ->
    present (pde (pbyte m) (cr3 m) (dir_idx (heap_page h i))) = true /\
    present (pte (pbyte m) (cr3 m) (heap_page h i)) = false }.

(** Changing bits of the pool, or of the virtual addresses. *)
Lemma is_heap_pool R f f' h : is_heap R f h -> (forall a, ~ span (kb h) (kn h) a -> f' a = f a) ->
  is_heap R f' h /\ (forall j, 0 <= j < 8 * vn h -> bit f' (vb h) j = bit f (vb h) j).
Proof.
  intros [H1 H2 H3 H4 H5 H6 H7 H8 H9 H10] Hf. split; [split; try done |].
  - by eapply is_pool_keep.
  - destruct H2 as [B1 B2 B3 B4 B5 B6]. split; try done.
    + rewrite <- B1. apply w32_ext. intros a Ha. apply Hf. unfold span, vaddr_bitmap in *. lia.
    + rewrite <- B2. apply w32_ext. intros a Ha. apply Hf. unfold span, vaddr_bitmap in *. lia.
  - rewrite <- H3. apply w32_ext. intros a Ha. apply Hf. unfold span, vaddr_start in *. lia.
  - intros j Hj. unfold bit. rewrite Hf; [done |]. unfold span. zlia.
Qed.

Lemma is_heap_vaddr R f f' h : is_heap R f h -> (forall a, ~ span (vb h) (vn h) a -> f' a = f a) ->
  is_heap R f' h /\ (forall j, 0 <= j < 8 * kn h -> bit f' (kb h) j = bit f (kb h) j).
Proof.
  intros [H1 H2 H3 H4 H5 H6 H7 H8 H9 H10] Hf. split; [split; try done |].
  - destruct H1 as [[B1 B2 B3 B4 B5 B6] P2 P3 P4 P5 P6]. unfold pool_bitmap in *. split; try done; [split; try done |].
    + rewrite <- B1. apply w32_ext. intros a Ha. apply Hf. unfold span, pool_bitmap in *. lia.
    + rewrite <- B2. apply w32_ext. intros a Ha. apply Hf. unfold span, pool_bitmap in *. lia.
    + rewrite <- P2. apply w32_ext. intros a Ha. apply Hf. unfold span, phy_addr_start in *. lia.
  - by eapply is_bitmap_keep.
  - rewrite <- H3. apply w32_ext. intros a Ha. apply Hf. unfold span, vaddr_start in *. lia.
  - intros j Hj. unfold bit. rewrite Hf; [done |]. unfold span. zlia.
Qed.

(** The pages of the heap are above 4 MB and below the tables. *)
Lemma heap_page_range R f h i : is_heap R f h -> 0 <= i < 8 * vn h ->
  is_u32 (heap_page h i) /\ heap_page h i mod 4096 = 0 /\ 1 <= dir_idx (heap_page h i) < 1023 /\
  0 < heap_page h i.
Proof.
  intros Hh Hi. pose proof (hp_aligned _ _ _ Hh). pose proof (hp_range _ _ _ Hh).
  unfold heap_page, is_u32, dir_idx. zlia.
Qed.

(** ** Enough free frames *)

Definition enough (f : Z -> Z) (b n : Z) (cnt : Z) : Prop :=
  exists l, NoDup l /\ cnt <= Z.of_nat (length l) /\ Forall (free_bit f b n) l.

Lemma free_bit_dec f b n : (exists i, free_bit f b n i) \/ (forall i, 0 <= i < 8 * n -> bit f b i = true).
Proof.
  destruct (forallb (bit f b) (zrange (8 * n))) eqn:Hall; [right; by apply zrange_forallb |].
  left. apply not_true_iff_false in Hall. rewrite forallb_forall in Hall.
  assert (exists x, In x (zrange (8 * n)) /\ bit f b x = false) as (x & Hx%zrange_spec & Hb); [| by exists x].
  induction (zrange (8 * n)) as [| x l IH]; [exfalso; by apply Hall |].
  destruct (bit f b x) eqn:Hb; [| exists x; split; [by left | done]].
  destruct IH as (y & Hy & Hf); [| exists y; split; [by right | done]].
  intros Hl. apply Hall. intros y [-> | Hy]; auto.
Qed.
End heap.

(** ** Mapping a run of pages *)

(** From [m] to [m'] the pages from [a] on have been mapped to the frames of
    the list [l], and nothing else has moved. *)
Record run_grown (m m' : paged) (R : Z -> Prop) (a : Z) (l : list Z) : Prop := mk_run_grown {
  rg_cr3 : cr3 m' = cr3 m;
  rg_ext a' pa : virt m a' = Some pa -> virt m' a' = Some pa;
  rg_new j q k : l !! j = Some q -> 0 <= k < 4096 -> virt m' (a + 4096 * Z.of_nat j + k) = Some (q + k);
  rg_out b : outside m R b -> ~ is_table (pbyte m') (cr3 m) (frame b) -> pbyte m' b = pbyte m b;
  rg_table p : is_table (pbyte m') (cr3 m) p <-> is_table (pbyte m) (cr3 m) p;
  rg_pde i : 0 <= i < 1024 -> present (pde (pbyte m) (cr3 m) i) = true ->
    pde (pbyte m') (cr3 m) i = pde (pbyte m) (cr3 m) i;
  rg_pte a' : is_u32 a' -> 1 <= dir_idx a' < 1023 -> present (pde (pbyte m) (cr3 m) (dir_idx a')) = true ->
    (frame a' < a \/ a + 4096 * Z.of_nat (length l) <= frame a') ->
    pte (pbyte m') (cr3 m) a' = pte (pbyte m) (cr3 m) a' }.

Lemma unmoved_run m m' R a : unmoved m m' R -> run_grown m m' R a [].
Proof.
  intros [Hc Ho Ht Hv Hd Hp]. split; try done.
  - intros a' pa. by rewrite Hv.
  - intros b Hb _. by apply Ho.
  - intros i Hi _. by apply Hd.
  - intros a' Ha' _ Hp' _. by apply Hp.
Qed.

Lemma grown_table m m' R a q p : grown m m' R a q no_tables ->
  is_table (pbyte m') (cr3 m) p <-> is_table (pbyte m) (cr3 m) p.
Proof. intros Hg. split; [intros [H | []]%(gr_table _ _ _ _ _ _ Hg); exact H | apply (gr_mono _ _ _ _ _ _ Hg)]. Qed.

(** One more page. *)
Lemma run_grown_snoc m m1 m2 R f F a l q : vspace m R f F -> a mod 4096 = 0 ->
  run_grown m m1 R a l -> grown m1 m2 R (a + 4096 * Z.of_nat (length l)) q no_tables ->
  run_grown m m2 R a (l ++ [q]).
Proof.
  intros Hvs Ha [Hc He Hn Ho Ht Hd Hp] Hg. pose proof (fun p => grown_table m1 m2 R _ q p Hg) as Ht2.
  destruct Hg as [Hc' He' Hn' Ho' _ _ Hd' Hp'].
  rewrite Hc in *.
  assert (forall p, is_table (pbyte m2) (cr3 m) p <-> is_table (pbyte m) (cr3 m) p) as Htab.
  { intros p. rewrite Ht2. apply Ht. }
  assert (frame (a + 4096 * Z.of_nat (length l)) = a + 4096 * Z.of_nat (length l)) as Hfr
    by (unfold frame; zlia).
  split.
  - done.
  - intros a' pa Hv. by apply He', He.
  - intros j x k Hj Hk. apply lookup_app_Some in Hj as [Hj | [Hlen Hj]].
    + apply He'. by apply Hn.
    + apply list_lookup_singleton_Some in Hj as [Hz <-].
      replace j with (length l) by lia. rewrite <- Hfr at 1. by apply Hn'.
  - intros b Hb Hnt. rewrite Ho'.
    + apply Ho; [done |]. by rewrite Ht, <- Htab.
    + eapply outside_ext; [exact Hvs | exact He | exact Hb].
    + done.
  - done.
  - intros i Hi Hpi. rewrite Hd' by (rewrite ?Hd; done). by apply Hd.
  - intros a' Ha' Hd1 Hp1 Hne. rewrite length_app in Hne. cbn in Hne. pose proof (dir_idx_range a' Ha').
    rewrite Hp'; [apply Hp; [done .. | lia] | done | done | by rewrite Hd | rewrite Hfr; lia].
Qed.

(** ** Virtual addresses of the kernel *)

Section rules.
Context {LY : Layout}.
Implicit Types (s : kstate paged) (m : paged) (R F : Z -> Prop) (f : Z -> Z) (G : protocol (kstate paged)) (h : heap_maps).

(** There are [cnt] free pages in a row. *)
Definition room (f : Z -> Z) (h : heap_maps) (cnt : Z) : Prop :=
  exists i, 0 <= i /\ i + cnt <= 8 * vn h /\ free_run f (vb h) i cnt.

(** The first run found is inside the bitmap when there is a run inside. *)
Lemma first_fit_room f h cnt r : room f h cnt -> first_fit f (vb h) (scan_limit (vn h) cnt) cnt r ->
  first_fit f (vb h) (8 * vn h) cnt r.
Proof.
  intros (i & Hi & Hend & Hrun) (Hr0 & Hr & Hfree & Hfirst). split; [done |]. split; [| done].
  assert (r <= i); [| lia]. destruct (Z.le_gt_cases r i); [done |]. exfalso. by apply (Hfirst i).
Qed.

Lemma wp_vaddr_get_kernel G s R f F h cnt (Q : Z -> kstate paged -> Prop) :
  heap_space (kmem s) R f F h -> 1 <= cnt < 3840 -> room f h cnt ->
  (forall r m' f', first_fit f (vb h) (8 * vn h) cnt r -> vspace m' R f' F -> unmoved (kmem s) m' R ->
     is_heap R f' h -> (forall a, ~ span (vb h) (vn h) a -> f' a = f a) ->
     (forall j, 0 <= j -> bit f' (vb h) j = bit f (vb h) j || in_run r cnt j) ->
     Q (heap_page h r) (set_mem m' s)) ->
  wp G (vaddr_get PF_KERNEL cnt) s Q.
Proof.
  intros Hhs Hcnt Hroom HQ. pose proof (hs_heap _ _ _ _ _ Hhs) as Hh.
  pose proof (hs_vspace _ _ _ _ _ Hhs) as Hvs. pose proof (hp_vaddr _ _ _ Hh) as Hbm.
  pose proof (bm_size _ _ _ _ _ Hbm) as Hn. pose proof (hp_range _ _ _ Hh) as Hrange.
  unfold vaddr_get, PF_KERNEL. change (1 =? 1) with true. cbv iota. apply wp_bind.
  set (L := keeping_laws (cr3 (kmem s)) (outside (kmem s) R) (pbyte (kmem s))).
  assert (@backs paged _ L (kmem s) R f) as Hb by (by eapply vspace_keeping).
  assert (exists i, 0 <= i < 8 * vn h /\ bit f (vb h) i = false) as Hfree.
  { destruct Hroom as (i & Hi & Hend & Hrun). exists i. split; [lia |]. apply Hrun. lia. }
  eapply (@wp_bitmap_scan paged _ L R f _ (vb h) (vn h) Hbm);
    [exact Hb | lia | unfold is_u32; lia | exact Hfree | |].
  2: { intros Hno. exfalso. destruct Hroom as (i & Hi & Hend & Hrun). apply (Hno i); [done | | done].
       unfold scan_limit. destruct (_ =? _); lia. }
  intros r Hff%first_fit_room; [| done]. pose proof Hff as (Hr0 & Hr & Hrun & _).
  rewrite (proj2 (Z.eqb_neq (-1) r)) by lia. apply wp_bind.
  eapply (@wp_set_bits paged _ L _ _ R f _ (vb h) (vn h)); [exact Hb | exact Hbm | lia .. |].
  intros m' f' Hm' Hbm' Hout Hbits. destruct (vspace_after _ _ _ _ Hvs m' f' Hm') as [Hvs' Hum].
  destruct (is_heap_vaddr _ _ _ _ Hh Hout) as [Hh' _].
  apply wp_bind. eapply (wp_ld32 (RL := L)); [exact Hm' | |].
  { eapply inside_sub; [apply (hp_vinside _ _ _ Hh) | unfold vaddr_start; lia ..]. }
  intros _. rewrite (hp_vstart _ _ _ Hh'). apply wp_ret.
  assert (u32 (vst h + r * PG_SIZE) = heap_page h r) as ->; [| by eapply HQ].
  destruct (heap_page_range _ _ _ r Hh) as [Hu _]; [lia |].
  rewrite PG_SIZE_eq. replace (vst h + r * 4096) with (heap_page h r) by (unfold heap_page; lia).
  by apply u32_small.
Qed.

(** ** The loop of [malloc_page]

    After some rounds the frames [l] have been mapped from [a] on. *)
Record filled (m1 : paged) (R : Z -> Prop) (f1 : Z -> Z) (F : Z -> Prop) (h : heap_maps) (a : Z) (l : list Z)
  (m : paged) (f : Z -> Z) : Prop := mk_filled {
  fi_vspace : vspace m R f (fun p => F p /\ p ∉ l);
  fi_run : run_grown m1 m R a l;
  fi_heap : is_heap R f h;
  fi_bits j : 0 <= j -> bit f (kb h) j = bit f1 (kb h) j || bool_decide (frame_of (kst h) j ∈ l);
  fi_nodup : NoDup l;
  fi_free : Forall (free_frame f1 (kb h) (kn h) (kst h)) l;
  fi_out b : ~ span (kb h) (kn h) b -> f b = f1 b }.

(** A frame that is free still was free, and has not been used. *)
Lemma filled_free m1 R f1 F h a l m f q : filled m1 R f1 F h a l m f ->
  free_frame f (kb h) (kn h) (kst h) q -> free_frame f1 (kb h) (kn h) (kst h) q /\ q ∉ l.
Proof.
  intros Hf (i & [Hi Hb] & ->). rewrite (fi_bits _ _ _ _ _ _ _ _ _ Hf) in Hb by lia.
  apply orb_false_iff in Hb as [Hb Hl%bool_decide_eq_false]. split; [| done]. exists i. done.
Qed.

(** With all frames in use as many have been mapped as there were. *)
Lemma filled_full m1 R f1 F h a l m f cnt : filled m1 R f1 F h a l m f ->
  (forall i, 0 <= i < 8 * kn h -> bit f (kb h) i = true) -> enough f1 (kb h) (kn h) cnt ->
  cnt <= Z.of_nat (length l).
Proof.
  intros Hf Hall (l' & Hnd & Hlen & Hfree).
  assert (NoDup (map (frame_of (kst h)) l')) as Hnd'.
  { apply (NoDup_fmap_2_strong (frame_of (kst h)) l'); [unfold frame_of; lia | done]. }
  assert (map (frame_of (kst h)) l' ⊆+ l) as Hsub.
  { apply NoDup_submseteq; [done |]. intros q Hq. apply list_elem_of_fmap in Hq as (i & -> & Hi).
    rewrite Forall_forall in Hfree. destruct (Hfree i Hi) as [Hr Hb].
    pose proof (fi_bits _ _ _ _ _ _ _ _ _ Hf i ltac:(lia)) as Hbits. rewrite Hall, Hb in Hbits by lia.
    symmetry in Hbits. by apply bool_decide_eq_true in Hbits. }
  apply submseteq_length in Hsub. rewrite length_map in Hsub. lia.
Qed.

Lemma filled_nil m1 R f1 F h a m : vspace m R f1 F -> unmoved m1 m R -> is_heap R f1 h ->
  filled m1 R f1 F h a [] m f1.
Proof.
  intros Hvs Hum Hh. split.
  - eapply vspace_sub; [exact Hvs | done | tauto].
  - by apply unmoved_run.
  - done.
  - intros j Hj. rewrite bool_decide_eq_false_2 by set_solver. by rewrite orb_false_r.
  - constructor.
  - constructor.
  - done.
Qed.

Lemma filled_snoc m1 R f1 F h a l m f i m2 f2 m3 : vspace m1 R f1 F -> a mod 4096 = 0 ->
  filled m1 R f1 F h a l m f -> free_bit f (kb h) (kn h) i ->
  unmoved m m2 R -> (forall b, ~ span (kb h) (kn h) b -> f2 b = f b) ->
  (forall j, 0 <= j -> bit f2 (kb h) j = bit f (kb h) j || (j =? i)) ->
  vspace m3 R f2 (without (fun p => F p /\ p ∉ l) (frame_of (kst h) i)) ->
  grown m2 m3 R (a + 4096 * Z.of_nat (length l)) (frame_of (kst h) i) no_tables ->
  filled m1 R f1 F h a (l ++ [frame_of (kst h) i]) m3 f2.
Proof.
  intros Hvs1 Ha Hf Hi Hum Hout Hbits Hvs Hg.
  destruct (filled_free _ _ _ _ _ _ _ _ _ (frame_of (kst h) i) Hf) as [Hfr Hnl]; [by exists i |].
  destruct Hf as [_ Hrun Hh Hb Hnd Hfree Hf1]. split.
  - eapply vspace_sub; [exact Hvs | done |]. intros p [Hp Hnp]. unfold without. set_solver.
  - eapply run_grown_snoc; [exact Hvs1 | done | exact Hrun |]. by eapply unmoved_grown.
  - by apply (is_heap_pool R f f2 h).
  - intros j Hj. rewrite Hbits, Hb by done. destruct (Z.eqb_spec j i) as [-> | Hne].
    + rewrite orb_true_r, bool_decide_eq_true_2 by set_solver. by rewrite orb_true_r.
    + rewrite orb_false_r. f_equal. apply bool_decide_ext.
      assert (frame_of (kst h) j <> frame_of (kst h) i) by (unfold frame_of; lia). set_solver.
  - apply NoDup_app. split; [done |]. split; [set_solver | apply NoDup_singleton].
  - apply Forall_app. split; [done |]. by constructor.
  - intros b Hbb. rewrite Hout by done. by apply Hf1.
Qed.

(** The pages [r ..] of the heap, as the loop finds them: a table and no frame. *)
Definition fresh (m : paged) (h : heap_maps) (r cnt : Z) : Prop :=
  forall i, r <= i < r + cnt ->
    present (pde (pbyte m) (cr3 m) (dir_idx (heap_page h i))) = true /\
    present (pte (pbyte m) (cr3 m) (heap_page h i)) = false.

(** A page not yet reached is still fresh, also after [palloc]. *)
Lemma filled_fresh m1 R f1 F h l m f m2 r cnt i : filled m1 R f1 F h (heap_page h r) l m f ->
  unmoved m m2 R -> fresh m1 h r cnt -> 0 <= r -> r + cnt <= 8 * vn h ->
  r + Z.of_nat (length l) <= i < r + cnt ->
  present (pde (pbyte m2) (cr3 m2) (dir_idx (heap_page h i))) = true /\
  present (pte (pbyte m2) (cr3 m2) (heap_page h i)) = false.
Proof.
  intros Hf Hum Hfr Hr Hend Hi. destruct (Hfr i ltac:(lia)) as [Hd Ht].
  destruct (heap_page_range _ _ _ i (fi_heap _ _ _ _ _ _ _ _ _ Hf)) as (Hu & Hal & Hdi & _); [lia |].
  pose proof (fi_run _ _ _ _ _ _ _ _ _ Hf) as Hrun. pose proof (dir_idx_range _ Hu).
  rewrite (um_cr3 _ _ _ Hum), (rg_cr3 _ _ _ _ _ Hrun).
  pose proof (um_pde _ _ _ Hum) as Hd2. pose proof (um_pte _ _ _ Hum) as Ht2.
  rewrite (rg_cr3 _ _ _ _ _ Hrun) in Hd2, Ht2.
  pose proof (rg_pde _ _ _ _ _ Hrun _ ltac:(eassumption) Hd) as Hd1.
  rewrite Hd2, Ht2, Hd1 by (rewrite ?Hd1; done). split; [done |].
  rewrite (rg_pte _ _ _ _ _ Hrun); [done .. |]. right.
  assert (frame (heap_page h i) = heap_page h i) as -> by (unfold frame; zlia). unfold heap_page. lia.
Qed.

(** The loop maps all the pages, or ends in the assertion about a full pool. *)
Lemma wp_fill_pages G s R f F h r cnt (Q : Z -> kstate paged -> Prop) :
  vspace (kmem s) R f F -> is_heap R f h -> (forall p, free_frame f (kb h) (kn h) (kst h) p -> F p) ->
  fresh (kmem s) h r cnt -> 0 <= r -> 1 <= cnt < 3840 -> r + cnt <= 8 * vn h ->
  (~ enough f (kb h) (kn h) cnt -> forall s', may_panic G pool_full_panic s') ->
  (forall l m' f', Z.of_nat (length l) = cnt -> filled (kmem s) R f F h (heap_page h r) l m' f' ->
     Q (heap_page h r) (set_mem m' s)) ->
  wp G (while_ (fun '(cnt, vaddr) =>
      if 0 <? cnt then
        do page_phyaddr <- palloc kernel_pool;
        if page_phyaddr =? 0 then cret (inr 0)
        else
          page_table_add vaddr page_phyaddr;;
          cret (inl (u32 (cnt - 1), u32 (vaddr + PG_SIZE)))
      else cret (inr (heap_page h r))) (cnt, heap_page h r)) s Q.
Proof.
  intros Hvs Hh HF Hfresh Hr Hcnt Hend Hpanic HQ.
  destruct (heap_page_range _ _ _ r Hh) as (_ & Hral & _ & _); [lia |].
  eapply (wp_while _ _ (fun k '(c, v) s' => exists l m g, s' = set_mem m s /\
    filled (kmem s) R f F h (heap_page h r) l m g /\ c = cnt - Z.of_nat (length l) /\ 0 <= c /\
    v = heap_page h (r + Z.of_nat (length l)) /\ k = Z.to_nat c) _ (Z.to_nat cnt)).
  - intros k [c v] s' (l & m & g & -> & Hf & -> & Hc & -> & ->).
    destruct (Z.ltb_spec 0 (cnt - Z.of_nat (length l))) as [Hlt | Hge].
    2: { apply wp_ret. eapply (HQ l m g); [lia | exact Hf]. }
    pose proof (fi_heap _ _ _ _ _ _ _ _ _ Hf) as Hgh. pose proof (hp_pool _ _ _ Hgh) as Hpool.
    destruct (heap_page_range _ _ _ (r + Z.of_nat (length l)) Hgh) as (Hu & Hal & Hdi & _); [lia |].
    apply wp_bind. destruct (free_bit_dec g (kb h) (kn h)) as [Hfree | Hfull].
    2: { eapply (@wp_palloc_full paged _ paged_laws _ _ R g);
           [eapply vspace_mapped, Hf | exact Hpool | |].
         - intros (i & Hi & Hb). rewrite Hfull in Hb by done. done.
         - intros s' _. apply Hpanic. intros He.
           pose proof (filled_full _ _ _ _ _ _ _ _ _ cnt Hf Hfull He). lia. }
    eapply wp_palloc_vspace; [exact (fi_vspace _ _ _ _ _ _ _ _ _ Hf) | exact Hpool | exact Hfree |].
    intros i m2 g2 [Hi _] Hvs2 Hum Hpool2 Hout Hbits. cbn [kmem set_mem] in Hum.
    destruct (frame_of_range _ _ _ _ _ _ i Hpool) as (_ & _ & Hpos); [apply Hi |].
    rewrite (proj2 (Z.eqb_neq _ 0)) by lia.
    destruct (filled_fresh _ _ _ _ _ _ _ _ _ _ _ (r + Z.of_nat (length l)) Hf Hum Hfresh) as [Hd Ht]; [lia .. |].
    apply wp_bind. eapply wp_page_table_add_present;
      [exact Hvs2 | exact Hu | exact Hdi | exact Hd | exact Ht | |].
    { destruct (filled_free _ _ _ _ _ _ _ _ _ (frame_of (kst h) i) Hf) as [Hq Hnl]; [by exists i |]. auto. }
    intros m3 Hvs3 Hg. cbn [kmem set_mem] in Hg. apply wp_ret.
    exists (Z.to_nat (cnt - Z.of_nat (length l) - 1)). split; [lia |].
    exists (l ++ [frame_of (kst h) i]), m3, g2. split; [done |].
    rewrite length_app. cbn [length]. split; [| split; [| split; [| split]]].
    + eapply filled_snoc; try done.
      by replace (heap_page h r + 4096 * Z.of_nat (length l)) with (heap_page h (r + Z.of_nat (length l)))
        by (unfold heap_page; lia).
    + rewrite u32_small by (unfold is_u32; lia). lia.
    + rewrite u32_small by (unfold is_u32; lia). lia.
    + rewrite PG_SIZE_eq. pose proof (hp_range _ _ _ Hgh).
      rewrite u32_small by (unfold is_u32, heap_page in *; lia). unfold heap_page. lia.
    + f_equal. rewrite u32_small by (unfold is_u32; lia). lia.
  - exists [], (kmem s), f. split; [by destruct s |]. split.
    { apply filled_nil; [done | | done]. split; done. }
    cbn. rewrite !Z.sub_0_r, !Z.add_0_r. split; [done |]. split; [lia |]. done.
  - bounded.
Qed.

(** ** [malloc_page] for the kernel

    From [m], with the contents [f] and the free frames [F], the pages from
    [r] on have been taken and mapped to the frames [l]. *)
Record allocated (m : paged) (R : Z -> Prop) (f : Z -> Z) (F : Z -> Prop) (h : heap_maps)
  (r cnt : Z) (l : list Z) (m' : paged) (f' : Z -> Z) : Prop := mk_allocated {
  al_first : first_fit f (vb h) (8 * vn h) cnt r;
  al_length : Z.of_nat (length l) = cnt;
  al_nodup : NoDup l;
  al_free : Forall (free_frame f (kb h) (kn h) (kst h)) l;
  al_run : run_grown m m' R (heap_page h r) l;
  al_space : heap_space m' R f' (fun p => F p /\ p ∉ l) h;
  al_frames j : 0 <= j < 8 * kn h -> bit f' (kb h) j = bit f (kb h) j || bool_decide (frame_of (kst h) j ∈ l);
  al_pages j : 0 <= j < 8 * vn h -> bit f' (vb h) j = bit f (vb h) j || in_run r cnt j;
  al_out b : ~ span (kb h) (kn h) b -> ~ span (vb h) (vn h) b -> f' b = f b }.

Lemma unmoved_run_grown m m1 m2 R a l : unmoved m m1 R -> run_grown m1 m2 R a l -> run_grown m m2 R a l.
Proof.
  intros [Hc Ho Ht Hv Hd Hp] [Hc' He Hn Ho' Ht' Hd' Hp']. rewrite Hc in *. split.
  - done.
  - intros a' pa. rewrite <- Hv. apply He.
  - done.
  - intros b Hb Hnt. rewrite Ho' by (done || (intros x; rewrite Hv; apply Hb)). by apply Ho.
  - intros p. by rewrite Ht'.
  - intros i Hi Hpi. rewrite Hd' by (rewrite ?Hd; done). by apply Hd.
  - intros a' Ha' Hd1 Hp1 Hne. pose proof (dir_idx_range a' Ha').
    rewrite Hp' by (rewrite ?Hd; done). by apply Hp.
Qed.

(** Pages that are free have a table and no frame: so do those of a free run. *)
Lemma fresh_run m m1 R f F h r cnt : heap_space m R f F h -> unmoved m m1 R ->
  0 <= r -> r + cnt <= 8 * vn h -> free_run f (vb h) r cnt -> fresh m1 h r cnt.
Proof.
  intros Hhs Hum Hr Hend Hrun i Hi. destruct (hs_pages _ _ _ _ _ Hhs i) as [Hd Ht].
  { split; [lia |]. by apply Hrun. }
  destruct (heap_page_range _ _ _ i (hs_heap _ _ _ _ _ Hhs)) as (Hu & _ & Hdi & _); [lia |].
  pose proof (dir_idx_range _ Hu).
  by rewrite (um_cr3 _ _ _ Hum), (um_pde _ _ _ Hum), (um_pte _ _ _ Hum).
Qed.

Lemma filled_allocated m m1 R f f1 F h r cnt l m' f' :
  heap_space m R f F h -> unmoved m m1 R -> first_fit f (vb h) (8 * vn h) cnt r ->
  (forall b, ~ span (vb h) (vn h) b -> f1 b = f b) ->
  (forall j, 0 <= j -> bit f1 (vb h) j = bit f (vb h) j || in_run r cnt j) ->
  Z.of_nat (length l) = cnt -> filled m1 R f1 F h (heap_page h r) l m' f' ->
  allocated m R f F h r cnt l m' f'.
Proof.
  intros Hhs Hum Hff Hout Hbits Hlen Hf. pose proof (hs_heap _ _ _ _ _ Hhs) as Hh.
  destruct (is_heap_vaddr _ _ _ _ Hh Hout) as [Hh1 Hkb].
  destruct (is_heap_pool _ _ _ _ Hh1 (fi_out _ _ _ _ _ _ _ _ _ Hf)) as [Hh' Hvb].
  destruct Hf as [Hvs Hrun _ Hkb' Hnd Hfree Hout'].
  pose proof (unmoved_run_grown _ _ _ _ _ _ Hum Hrun) as Hrun'.
  assert (forall q, free_frame f1 (kb h) (kn h) (kst h) q -> free_frame f (kb h) (kn h) (kst h) q) as Hff1.
  { intros q (i & [Hi Hb] & ->). exists i. split; [| done]. split; [done |]. by rewrite <- Hkb. }
  split; try done.
  - by eapply Forall_impl.
  - split; [done | done | |].
    + intros p (i & [Hi Hb] & ->). rewrite Hkb' in Hb by lia.
      apply orb_false_iff in Hb as [Hb Hl%bool_decide_eq_false]. split; [| done].
      apply (hs_frames _ _ _ _ _ Hhs), Hff1. by exists i.
    + intros i [Hi Hb]. rewrite Hvb, Hbits in Hb by lia. apply orb_false_iff in Hb as [Hb Hr].
      destruct (hs_pages _ _ _ _ _ Hhs i) as [Hd Ht]; [done |].
      destruct (heap_page_range _ _ _ i Hh) as (Hu & Hal & Hdi & _); [lia |]. pose proof (dir_idx_range _ Hu).
      rewrite (rg_cr3 _ _ _ _ _ Hrun'), (rg_pde _ _ _ _ _ Hrun') by done. split; [done |].
      rewrite (rg_pte _ _ _ _ _ Hrun'); [done .. |].
      assert (frame (heap_page h i) = heap_page h i) as -> by (unfold frame; zlia).
      unfold in_run, heap_page in *. lia.
  - intros j Hj. rewrite Hkb' by lia. by rewrite Hkb.
  - intros j Hj. rewrite Hvb, Hbits by lia. done.
  - intros b Hb1 Hb2. rewrite Hout' by done. by apply Hout.
Qed.

Lemma wp_malloc_page_kernel G s R f F h cnt (Q : Z -> kstate paged -> Prop) :
  heap_space (kmem s) R f F h -> 1 <= cnt < 3840 -> room f h cnt ->
  (~ enough f (kb h) (kn h) cnt -> forall s', may_panic G pool_full_panic s') ->
  (forall r l m' f', allocated (kmem s) R f F h r cnt l m' f' -> Q (heap_page h r) (set_mem m' s)) ->
  wp G (malloc_page PF_KERNEL cnt) s Q.
Proof.
  intros Hhs Hcnt Hroom Hpanic HQ. unfold malloc_page. apply wp_bind, wp_assert; [lia |].
  apply wp_bind. eapply wp_vaddr_get_kernel; [exact Hhs | exact Hcnt | exact Hroom |].
  intros r m1 f1 Hff Hvs1 Hum Hh1 Hout Hbits. pose proof Hff as (Hr & Hend & Hrun & _).
  destruct (heap_page_range _ _ _ r Hh1) as (_ & _ & _ & Hpos); [lia |].
  destruct (is_heap_vaddr _ _ _ _ (hs_heap _ _ _ _ _ Hhs) Hout) as [_ Hkb].
  rewrite (proj2 (Z.eqb_neq _ 0)) by lia.
  assert (forall i, free_bit f1 (kb h) (kn h) i <-> free_bit f (kb h) (kn h) i) as Hfb.
  { intros i. unfold free_bit. split; intros [Hi Hb]; split; rewrite ?Hkb in *; done. }
  change (negb (Z.land PF_KERNEL PF_KERNEL =? 0)) with true. cbv iota.
  eapply wp_fill_pages; [exact Hvs1 | exact Hh1 | | | exact Hr | exact Hcnt | exact Hend | |].
  - intros q (i & Hi & ->). apply (hs_frames _ _ _ _ _ Hhs). exists i. split; [| done]. by apply Hfb.
  - by eapply fresh_run.
  - intros Hno. apply Hpanic. intros (l & Hnd & Hl & Hf). apply Hno. exists l. split; [done |].
    split; [done |]. eapply Forall_impl; [exact Hf |]. intros i. apply Hfb.
  - intros l m' f' Hlen Hf. cbn [kmem set_mem] in Hf.
    change (Q (heap_page h r) (set_mem m' s)). eapply HQ. by eapply filled_allocated.
Qed.

(** ** The new pages as memory *)

(** The region with the [n] bytes from [a] on. *)
Definition with_span (R : Z -> Prop) (a n : Z) : Z -> Prop := fun b => R b \/ span a n b.

(** The page and the offset of an address of a run of pages. *)
Lemma run_address a n b (l : list Z) : Z.of_nat (length l) = n -> span a (4096 * n) b ->
  exists j q k, l !! j = Some q /\ 0 <= k < 4096 /\ b = a + 4096 * Z.of_nat j + k.
Proof.
  intros Hl Hb. unfold span in Hb.
  destruct (lookup_lt_is_Some_2 l (Z.to_nat ((b - a) / 4096))) as [q Hq]; [zlia |].
  exists (Z.to_nat ((b - a) / 4096)), q, ((b - a) mod 4096). split; [done |]. zlia.
Qed.

(** The new pages are mapped outside the tables, and to nothing of the old region. *)
Lemma region_grown m R f F h r cnt l m' f' : heap_space m R f F h -> allocated m R f F h r cnt l m' f' ->
  (forall b, R b -> ~ span (heap_page h r) (4096 * cnt) b) /\
  exists g, vspace m' (with_span R (heap_page h r) (4096 * cnt)) g (fun p => F p /\ p ∉ l) /\
    forall b, R b -> g b = f' b.
Proof.
  intros Hhs [(Hr & Hend & Hfr & _) Hlen Hnd Hfree Hrun Hhs' _ _ _].
  set (a := heap_page h r) in *. pose proof (hs_vspace _ _ _ _ _ Hhs) as Hvs.
  pose proof (vs_vm _ _ _ _ Hvs) as Hvm. pose proof (hs_vspace _ _ _ _ _ Hhs') as Hvs'.
  assert (forall j q, l !! j = Some q -> F q) as HF.
  { intros j q Hq. apply (hs_frames _ _ _ _ _ Hhs). rewrite Forall_forall in Hfree.
    apply Hfree. by eapply list_elem_of_lookup_2. }
  assert (forall b, R b -> ~ span a (4096 * cnt) b) as Hdisj.
  { intros b Hb Hs. destruct (vs_region _ _ _ _ Hvs b Hb) as (pa & Hv & _).
    apply translate_Some in Hv as (_ & _ & Hp & _). unfold span, a, heap_page in Hs.
    assert (exists i k, r <= i < r + cnt /\ 0 <= k < 4096 /\ b = heap_page h i + k) as (i & k & Hi & Hk & ->).
    { exists ((b - vst h) / 4096), ((b - vst h) mod 4096). unfold heap_page. zlia. }
    destruct (hs_pages _ _ _ _ _ Hhs i) as [_ Ht]; [split; [lia | by apply Hfr] |].
    destruct (heap_page_range _ _ _ i (hs_heap _ _ _ _ _ Hhs)) as (_ & Hal & _ & _); [lia |].
    unfold pte in *. rewrite pte_at_page in Hp by lia. by rewrite Hp in Ht. }
  assert (forall j q k, l !! j = Some q -> 0 <= k < 4096 -> frame (q + k) = q) as Hframe.
  { intros j q k Hq Hk. apply frame_add; [| done]. by apply (vm_frame _ _ _ Hvm), (HF j). }
  assert (forall b j q k, R b -> l !! j = Some q -> 0 <= k < 4096 -> virt m' b <> Some (q + k)) as Hold.
  { intros b j q k Hb Hq Hk Hv. destruct (vs_region _ _ _ _ Hvs b Hb) as (pa & Hv0 & _).
    pose proof (rg_ext _ _ _ _ _ Hrun b pa Hv0) as Hv1. rewrite Hv in Hv1. injection Hv1 as Hpa.
    apply (vm_unmapped _ _ _ Hvm q b pa (HF j q Hq) Hv0). rewrite <- Hpa. by apply (Hframe j). }
  split; [done |].
  exists (fun b => match virt m' b with Some pa => pbyte m' pa | None => 0 end). split.
  2: { intros b Hb. by destruct (vs_region _ _ _ _ Hvs' b Hb) as (pa & -> & -> & _). }
  split; [apply Hvs' |]. intros b [Hb | Hb].
  - destruct (vs_region _ _ _ _ Hvs' b Hb) as (pa & Hv & Hf & Ht & Hi). exists pa. rewrite Hv.
    split; [done |]. split; [done |]. split; [done |]. intros b' [Hb' | Hb'] Hv'; [by apply Hi |].
    exfalso. destruct (run_address _ _ _ l Hlen Hb') as (j & q & k & Hq & Hk & ->).
    rewrite (rg_new _ _ _ _ _ Hrun j q k Hq Hk) in Hv'. injection Hv' as <-. by apply (Hold b j q k).
  - destruct (run_address _ _ _ l Hlen Hb) as (j & q & k & Hq & Hk & ->).
    pose proof (rg_new _ _ _ _ _ Hrun j q k Hq Hk) as Hv. exists (q + k). rewrite Hv.
    split; [done |]. split; [done |]. split.
    + rewrite (Hframe j) by done. rewrite (rg_cr3 _ _ _ _ _ Hrun), (rg_table _ _ _ _ _ Hrun).
      by apply (vm_table _ _ _ Hvm), (HF j).
    + intros b' [Hb' | Hb'] Hv'; [by destruct (Hold b' j q k) |].
      destruct (run_address _ _ _ l Hlen Hb') as (j' & q' & k' & Hq' & Hk' & ->).
      rewrite (rg_new _ _ _ _ _ Hrun j' q' k' Hq' Hk') in Hv'. injection Hv' as He.
      assert (q' = q) as -> by (rewrite <- (Hframe j' q' k'), <- (Hframe j q k) by done; by rewrite He).
      rewrite (NoDup_lookup l j j' q Hnd Hq Hq'). lia.
Qed.

(** The bytes of the bookkeeping. *)
Definition heap_bytes (h : heap_maps) (b : Z) : Prop :=
  span kernel_pool 16 b \/ span kernel_vaddr 12 b \/ span (kb h) (kn h) b \/ span (vb h) (vn h) b.

Lemma heap_bytes_inside R f h b : is_heap R f h -> heap_bytes h b -> R b.
Proof.
  intros Hh [Hb | [Hb | [Hb | Hb]]].
  - by apply (pl_inside _ _ _ _ _ _ (hp_pool _ _ _ Hh)).
  - by apply (hp_vinside _ _ _ Hh).
  - apply (bm_bytes _ _ _ _ _ (pl_bitmap _ _ _ _ _ _ (hp_pool _ _ _ Hh))). unfold span in *. lia.
  - apply (bm_bytes _ _ _ _ _ (hp_vaddr _ _ _ Hh)). unfold span in *. lia.
Qed.

(** The bookkeeping, seen in a larger region. *)
Lemma is_heap_mono (R R' : Z -> Prop) f f' h : is_heap R f h -> (forall b, R b -> R' b) ->
  (forall b, span kernel_pool 16 b \/ span kernel_vaddr 12 b -> f' b = f b) -> is_heap R' f' h.
Proof.
  intros [H1 H2 H3 H4 H5 H6 H7 H8 H9 H10] HR Hf.
  assert (forall a n, inside R a n -> inside R' a n) as Hin by (intros a n Ha b Hb; by apply HR, Ha).
  assert (forall x, kernel_pool <= x -> x + 4 <= kernel_pool + 16 -> w32 f' x = w32 f x) as Hp.
  { intros x Hx Hx'. apply w32_ext. intros b Hb. apply Hf. left. unfold span in *. lia. }
  assert (forall x, kernel_vaddr <= x -> x + 4 <= kernel_vaddr + 12 -> w32 f' x = w32 f x) as Hv.
  { intros x Hx Hx'. apply w32_ext. intros b Hb. apply Hf. right. unfold span in *. lia. }
  unfold vaddr_bitmap, vaddr_start in *. split; auto.
  - destruct H1 as [[B1 B2 B3 B4 B5 B6] P2 P3 P4 P5 P6]. unfold pool_bitmap, phy_addr_start in *.
    split; unfold pool_bitmap, phy_addr_start; auto; [split; auto |]; rewrite Hp by lia; done.
  - unfold vaddr_bitmap. destruct H2 as [B1 B2 B3 B4 B5 B6]. split; auto; rewrite Hv by lia; done.
  - unfold vaddr_start. by rewrite Hv by lia.
Qed.

(** Writing to a larger region, outside the bookkeeping. *)
Lemma heap_space_after m m' (R R' : Z -> Prop) f f' F h : heap_space m R f F h ->
  (forall b, R b -> R' b) -> (forall b, heap_bytes h b -> f' b = f b) -> vspace m' R' f' F -> unmoved m m' R' ->
  heap_space m' R' f' F h.
Proof.
  intros Hhs HR Hf Hvs Hum. pose proof (hs_heap _ _ _ _ _ Hhs) as Hh. unfold heap_bytes in Hf.
  assert (forall j, 0 <= j < 8 * kn h -> bit f' (kb h) j = bit f (kb h) j) as Hkb.
  { intros j Hj. unfold bit. rewrite Hf; [done |]. unfold span. do 2 right. left. zlia. }
  assert (forall j, 0 <= j < 8 * vn h -> bit f' (vb h) j = bit f (vb h) j) as Hvb.
  { intros j Hj. unfold bit. rewrite Hf; [done |]. unfold span. do 3 right. zlia. }
  split.
  - eapply is_heap_mono; [exact Hh | exact HR |]. intros b Hb. apply Hf. tauto.
  - done.
  - intros p (i & [Hi Hb] & ->). apply (hs_frames _ _ _ _ _ Hhs). exists i. split; [| done].
    split; [done |]. by rewrite <- Hkb.
  - intros i [Hi Hb]. destruct (hs_pages _ _ _ _ _ Hhs i) as [Hd Ht]; [split; [done | by rewrite <- Hvb] |].
    destruct (heap_page_range _ _ _ i Hh) as (Hu & _ & _ & _); [lia |]. pose proof (dir_idx_range _ Hu).
    by rewrite (um_cr3 _ _ _ Hum), (um_pde _ _ _ Hum), (um_pte _ _ _ Hum).
Qed.

(** ** [get_kernel_pages] *)

(** The new region: the old one as [malloc_page] left it, and pages of zeros. *)
Definition zeroed (R : Z -> Prop) (f' : Z -> Z) (a n : Z) (f'' : Z -> Z) : Prop :=
  (forall b, R b -> f'' b = f' b) /\ (forall b, span a n b -> f'' b = 0).

Lemma wp_get_kernel_pages G s R f F h cnt (Q : Z -> kstate paged -> Prop) :
  heap_space (kmem s) R f F h -> 1 <= cnt < 3840 -> room f h cnt ->
  (~ enough f (kb h) (kn h) cnt -> forall s', may_panic G pool_full_panic s') ->
  (forall r l m1 f1 m' f', allocated (kmem s) R f F h r cnt l m1 f1 ->
     let a := heap_page h r in let R' := with_span R a (4096 * cnt) in
     heap_space m' R' f' (fun p => F p /\ p ∉ l) h -> zeroed R f1 a (4096 * cnt) f' ->
     unmoved m1 m' R' -> Q a (set_mem m' s)) ->
  wp G (get_kernel_pages cnt) s Q.
Proof.
  intros Hhs Hcnt Hroom Hpanic HQ. unfold get_kernel_pages. apply wp_bind.
  eapply wp_malloc_page_kernel; [exact Hhs | exact Hcnt | exact Hroom | exact Hpanic |].
  intros r l m1 f1 Hal. pose proof (al_space _ _ _ _ _ _ _ _ _ _ Hal) as Hhs1.
  destruct (region_grown _ _ _ _ _ _ _ _ _ _ Hhs Hal) as (Hdisj & g & Hvs & Hg).
  destruct (heap_page_range _ _ _ r (hs_heap _ _ _ _ _ Hhs)) as (_ & _ & _ & Hpos).
  { destruct (al_first _ _ _ _ _ _ _ _ _ _ Hal) as (? & ? & _). lia. }
  set (a := heap_page h r) in *. rewrite (proj2 (Z.eqb_neq a 0)) by lia. cbn [negb].
  assert (u32 (cnt * PG_SIZE) = 4096 * cnt) as -> by (rewrite PG_SIZE_eq, u32_small; unfold is_u32; lia).
  set (R' := with_span R a (4096 * cnt)) in *. apply wp_bind.
  eapply (@wp_memset_span paged _ (keeping_laws (cr3 m1) (outside m1 R') (pbyte m1)) _ _ R' g);
    [by eapply vspace_keeping | intros b Hb; by right | lia | unfold is_u32; lia |].
  intros m' f' Hm' Hin Hout. destruct (vspace_after _ _ _ _ Hvs m' f' Hm') as [Hvs' Hum].
  apply wp_ret. change (Q a (set_mem m' s)).
  assert (forall b, R b -> f' b = f1 b) as Hf1.
  { intros b Hb. rewrite Hout by (by apply Hdisj). by apply Hg. }
  eapply (HQ r l m1 f1 m' f'); [exact Hal | | | exact Hum].
  - eapply heap_space_after; [exact Hhs1 | intros b Hb; by left | | exact Hvs' | exact Hum].
    intros b Hb. apply Hf1. eapply heap_bytes_inside; [apply (hs_heap _ _ _ _ _ Hhs1) | exact Hb].
  - split; [done |]. intros b Hb. by rewrite Hin.
Qed.
End rules.

(** ** Properties *)

Section properties.
Context {LY : Layout}.
Implicit Types (s : kstate paged) (m : paged) (R F : Z -> Prop) (f : Z -> Z) (h : heap_maps).

(** C18. [malloc_page] for the kernel: with room in the heap and enough free frames
    it returns the start of the first run of free pages, now mapped to
    different frames that were free; every address that was mapped is mapped
    as before, the bitmaps record the pages and the frames, all else in memory
    keeps its contents, and the bookkeeping invariant holds again. *)
Theorem malloc_page_maps s R f F h cnt :
  heap_space (kmem s) R f F h -> 1 <= cnt < 3840 -> room f h cnt -> enough f (kb h) (kn h) cnt ->
  exists r l m' f', malloc_page PF_KERNEL cnt s = Done (heap_page h r) (set_mem m' s) /\
    allocated (kmem s) R f F h r cnt l m' f'.
Proof.
  intros Hhs Hcnt Hroom Hen.
  destruct (proj1 (wp_seq_only (malloc_page PF_KERNEL cnt) s (fun a s' => exists r l m' f',
    a = heap_page h r /\ s' = set_mem m' s /\ allocated (kmem s) R f F h r cnt l m' f')))
    as (a & s' & Hc & r & l & m' & f' & -> & -> & Hal); [| by exists r, l, m', f'].
  eapply wp_malloc_page_kernel; try done. intros r l m' f' Hal. by exists r, l, m', f'.
Qed.

(** [malloc_page] never returns NULL for want of frames: with room in the heap
    but fewer free frames than pages it ends in the assertion in the search of
    the pool's bitmap; with a page count of 0 or of 3840 and more, in its own. *)
Theorem malloc_page_panics s R f F h cnt : heap_space (kmem s) R f F h ->
  (1 <= cnt < 3840 -> room f h cnt -> ~ enough f (kb h) (kn h) cnt ->
     exists s', malloc_page PF_KERNEL cnt s = Panic pool_full_panic s') /\
  (is_u32 cnt -> ~ 1 <= cnt < 3840 -> exists s', malloc_page PF_KERNEL cnt s =
     Panic (mk_panic "kernel/memory.c" 144 "malloc_page" "pg_cnt > 0 && pg_cnt < 3840") s').
Proof.
  intros Hhs. split.
  - intros Hcnt Hroom Hno.
    destruct (wp_seq_panic (malloc_page PF_KERNEL cnt) s (fun p _ => p = pool_full_panic))
      as (p & s' & Hc & ->); [| by exists s'].
    eapply wp_malloc_page_kernel; try done. intros r l m' f' Hal. apply Hno.
    exists (map (fun q => (q - kst h) / 4096) l). destruct Hal as [_ Hlen Hnd Hfree _ _ _ _ _].
    assert (forall q, q ∈ l -> free_bit f (kb h) (kn h) ((q - kst h) / 4096) /\ q = frame_of (kst h) ((q - kst h) / 4096)) as Hl.
    { intros q Hq. rewrite Forall_forall in Hfree. destruct (Hfree q Hq) as (i & Hi & ->).
      assert ((frame_of (kst h) i - kst h) / 4096 = i) as -> by (unfold frame_of; zlia). done. }
    rewrite length_map. split; [| split; [lia |]].
    + apply (NoDup_fmap_2_strong _ l); [| done]. intros x y Hx Hy He.
      destruct (Hl x Hx) as [_ ->], (Hl y Hy) as [_ ->]. by rewrite He.
    + apply Forall_forall. intros i Hi. apply list_elem_of_fmap in Hi as (q & -> & Hq). by apply Hl.
  - intros Hu Hcnt.
    destruct (panics_wp (malloc_page PF_KERNEL cnt) s
      (mk_panic "kernel/memory.c" 144 "malloc_page" "pg_cnt > 0 && pg_cnt < 3840")) as (s' & Hc & _); [| by exists s'].
    intros G Q Hp. unfold malloc_page. apply wp_bind.
    replace ((0 <? cnt) && (cnt <? 3840)) with false by (unfold is_u32 in Hu; lia).
    by apply wp_assert_fails.
Qed.

(** C19. [get_kernel_pages] returns pages of zeros: the memory region of the kernel
    has grown by the new pages, disjoint from it, which read as zero, and the
    bookkeeping invariant holds in it. *)
Theorem get_kernel_pages_zeroed s R f F h cnt :
  heap_space (kmem s) R f F h -> 1 <= cnt < 3840 -> room f h cnt -> enough f (kb h) (kn h) cnt ->
  exists a (l : list Z) m' f', get_kernel_pages cnt s = Done a (set_mem m' s) /\ a <> 0 /\ a mod 4096 = 0 /\
    (forall b, R b -> ~ span a (4096 * cnt) b) /\
    heap_space m' (with_span R a (4096 * cnt)) f' (fun p => F p /\ p ∉ l) h /\
    (forall b, span a (4096 * cnt) b -> ldb m' b = Some 0) /\
    (forall b, R b -> ~ span (kb h) (kn h) b -> ~ span (vb h) (vn h) b -> ldb m' b = ldb (kmem s) b) /\
    (forall b pa, virt (kmem s) b = Some pa -> virt m' b = Some pa).
Proof.
  intros Hhs Hcnt Hroom Hen.
  destruct (proj1 (wp_seq_only (get_kernel_pages cnt) s (fun a s' => exists r l m1 f1 m' f',
    a = heap_page h r /\ s' = set_mem m' s /\ allocated (kmem s) R f F h r cnt l m1 f1 /\
    heap_space m' (with_span R (heap_page h r) (4096 * cnt)) f' (fun p => F p /\ p ∉ l) h /\
    zeroed R f1 (heap_page h r) (4096 * cnt) f' /\ unmoved m1 m' (with_span R (heap_page h r) (4096 * cnt)))))
    as (a & s' & Hc & r & l & m1 & f1 & m' & f' & -> & -> & Hal & Hhs' & [Hold Hnew] & Hum).
  { eapply wp_get_kernel_pages; try done. intros r l m1 f1 m' f' H1 H2 H3 H4. exists r, l, m1, f1, m', f'. done. }
  pose proof (al_first _ _ _ _ _ _ _ _ _ _ Hal) as (Hr & Hend & _).
  destruct (heap_page_range _ _ _ r (hs_heap _ _ _ _ _ Hhs)) as (_ & H4 & _ & Hpos); [lia |].
  pose proof (hs_vspace _ _ _ _ _ Hhs') as Hvs'.
  assert (forall b, with_span R (heap_page h r) (4096 * cnt) b -> ldb m' b = Some (f' b)) as Hld.
  { intros b Hb. eapply (backs_ld (RawMemLaws := paged_laws)); [eapply vspace_mapped, Hvs' | exact Hb]. }
  exists (heap_page h r), l, m', f'. split; [exact Hc |]. split; [lia |]. split; [done |].
  split; [by eapply region_grown |]. split; [done |]. split; [| split].
  - intros b Hb. rewrite Hld by (by right). by rewrite Hnew.
  - intros b Hb H1 H2. rewrite Hld by (by left). rewrite Hold, (al_out _ _ _ _ _ _ _ _ _ _ Hal) by done.
    symmetry. eapply (backs_ld (RawMemLaws := paged_laws)); [eapply vspace_mapped, hs_vspace, Hhs | exact Hb].
  - intros b pa Hv. rewrite (um_virt _ _ _ Hum). by apply (rg_ext _ _ _ _ _ (al_run _ _ _ _ _ _ _ _ _ _ Hal)).
Qed.
End properties.

Module examples.
#[local] Existing Instance demo_layout.
Import Mapping.examples.

Definition demo_heap : heap_maps := mk_heap_maps 0xc009a000 1 0x200000 0xc009a001 2 0xc0100000.

Lemma demo_is_heap : is_heap demo_R demo_f demo_heap.
Proof.
  split; [apply demo_pool | | vm_compute; reflexivity | apply demo_inside; vm_compute; reflexivity | ..].
  - split; [vm_compute; reflexivity .. | | | vm_compute; by left | vm_compute; split; congruence];
      apply demo_inside; vm_compute; reflexivity.
  - left. by apply Z.leb_le.
  - left. by apply Z.leb_le.
  - left. by apply Z.leb_le.
  - left. by apply Z.leb_le.
  - done.
  - vm_compute. split; congruence.
Qed.

Lemma demo_heap_space : heap_space demo demo_R demo_f demo_F demo_heap.
Proof.
  split; [apply demo_is_heap | apply demo_vspace | |].
  - intros p (i & [Hi _] & ->). exists i. cbn in Hi. split; [lia | done].
  - intros i [Hi _]. cbn in Hi.
    pose proof (zrange_forallb (fun i => present (pde (pbyte demo) (cr3 demo) (dir_idx (heap_page demo_heap i))) &&
      negb (present (pte (pbyte demo) (cr3 demo) (heap_page demo_heap i)))) 16 ltac:(vm_compute; reflexivity) i Hi) as Hc.
    cbv beta in Hc. apply andb_true_iff in Hc as [Hp Hn%negb_true_iff]. done.
Qed.

(** There is room for sixteen pages, but there are only eight frames. *)
Lemma demo_room n : n <= 16 -> room demo_f demo_heap n.
Proof.
  intros Hn. exists 0. cbn. split; [lia |]. split; [lia |]. intros j Hj.
  pose proof (zrange_forallb (fun i => negb (bit demo_f 0xc009a001 i)) 16 ltac:(vm_compute; reflexivity) j ltac:(lia)) as Hc.
  cbv beta in Hc. by apply negb_true_iff in Hc.
Qed.

Lemma demo_enough n : n <= 8 -> enough demo_f (kb demo_heap) (kn demo_heap) n.
Proof.
  intros Hn. exists (zrange 8). split; [by apply (bool_decide_unpack (NoDup (zrange 8))) |].
  split; [exact Hn |]. apply Forall_forall. intros i Hi%list_elem_of_In%zrange_spec. by apply demo_free.
Qed.

Lemma demo_not_enough : ~ enough demo_f (kb demo_heap) (kn demo_heap) 9.
Proof.
  intros (l & Hnd & Hl & Hf). assert (l ⊆+ zrange 8) as Hs%submseteq_length; [| change (length (zrange 8)) with 8%nat in Hs; lia].
  apply NoDup_submseteq; [done |]. intros i Hi. rewrite Forall_forall in Hf. destruct (Hf i Hi) as [Hr _].
  apply list_elem_of_In, zrange_spec. cbn in Hr. lia.
Qed.

Lemma malloc_page_maps_witness : exists r l m' f',
  malloc_page PF_KERNEL 2 demo_state = Done (heap_page demo_heap r) (set_mem m' demo_state) /\
  allocated demo demo_R demo_f demo_F demo_heap r 2 l m' f'.
Proof.
  apply (malloc_page_maps demo_state demo_R demo_f demo_F demo_heap 2);
    [apply demo_heap_space | lia | by apply demo_room | by apply demo_enough].
Defined.

Lemma malloc_page_panics_witness :
  (exists s', malloc_page PF_KERNEL 9 demo_state = Panic pool_full_panic s') /\
  (exists s', malloc_page PF_KERNEL 3840 demo_state =
     Panic (mk_panic "kernel/memory.c" 144 "malloc_page" "pg_cnt > 0 && pg_cnt < 3840") s').
Proof.
  split.
  - destruct (malloc_page_panics demo_state demo_R demo_f demo_F demo_heap 9 demo_heap_space) as [Hp _].
    apply Hp; [lia | by apply demo_room | apply demo_not_enough].
  - destruct (malloc_page_panics demo_state demo_R demo_f demo_F demo_heap 3840 demo_heap_space) as [_ Hp].
    apply Hp; [done | lia].
Defined.

Lemma get_kernel_pages_zeroed_witness : exists a m',
  get_kernel_pages 2 demo_state = Done a (set_mem m' demo_state) /\ ldb m' (a + 8191) = Some 0.
Proof.
  destruct (get_kernel_pages_zeroed demo_state demo_R demo_f demo_F demo_heap 2)
    as (a & l & m' & f' & Hc & _ & _ & _ & _ & Hz & _);
    [apply demo_heap_space | lia | by apply demo_room | by apply demo_enough |].
  exists a, m'. split; [exact Hc |]. apply Hz. unfold span. lia.
Defined.
End examples.
