(* ===== verification/PoolInit.v ===== *)
(** kernel/memory.c, the start: what [mem_pool_init] makes of the memory size
    the loader left at 0xb00. *)

From S2P Require Import Prelude Monad RawMem Machine CString Bitmap DList Thread Sync Global Paging Memory Mapping KHeap.

(** ** The sizes *)

(** The frames counted by [all_free_pages], in 16 bits. *)
Definition free_pages (all_mem : Z) : Z := (all_mem - 0x200000) / 4096 mod 2 ^ 16.
Definition kernel_bytes (all_mem : Z) : Z := free_pages all_mem / 2 / 8.
Definition user_bytes (all_mem : Z) : Z := (free_pages all_mem - free_pages all_mem / 2) / 8.
Definition user_start (all_mem : Z) : Z := 0x200000 + 4096 * (free_pages all_mem / 2).

(** The three bitmaps end below the page of the main thread; the frames of the
    two pools follow one another and are in the memory there is. *)
Lemma sizes_bounds n : 0x200000 <= n < 2 ^ 32 ->
  0 <= kernel_bytes n <= user_bytes n /\ user_bytes n <= 4096 /\
  2 * kernel_bytes n + user_bytes n < 0x4000 /\
  0x200000 + 4096 * (8 * kernel_bytes n) <= user_start n /\
  user_start n + 4096 * (8 * user_bytes n) <= n.
Proof. intros Hn. unfold kernel_bytes, user_bytes, user_start, free_pages. zlia. Qed.

(** ** The size report *)

Ltac powers :=
  repeat match goal with |- context [2 ^ ?e] => let v := eval vm_compute in (2 ^ e) in change (2 ^ e) with v end.

(** How often 1024 goes into the size. *)
Definition magnitude (n : Z) : Z :=
  if n <? 2 ^ 10 then 0 else if n <? 2 ^ 20 then 1 else if n <? 2 ^ 30 then 2 else 3.
Definition unit_name (n : Z) : string := default ""%string (size_names !! Z.to_nat (magnitude n)).
Definition size_report (n : Z) : list Z :=
  bytes_of "            total_memory:0x" ++ int_digits (n / 2 ^ (10 * magnitude n)) ++
  bytes_of (unit_name n) ++ [10].

Section report.
Context {M : Type} {RM : RawMem M} {RL : RawMemLaws M} {LY : Layout}.
Implicit Types (s : kstate M) (R : Z -> Prop) (f : Z -> Z) (G : protocol (kstate M)).

Lemma wp_show_memory_size G s n (Q : unit -> kstate M -> Prop) : is_u32 n ->
  Q tt (put_out (rev (size_report n)) s) -> wp G (show_memory_size n) s Q.
Proof.
  intros Hn HQ. unfold show_memory_size. apply wp_bind, wp_modify. apply wp_bind.
  set (s1 := put_out _ s).
  eapply (wp_mono _ _ _ (fun r s' => r = (magnitude n, n / 2 ^ (10 * magnitude n)) /\ s' = s1)).
  - eapply (wp_while _ _ (fun k '(c, i, a) s' => s' = s1 /\ c = n / 2 ^ (10 * i) /\ a = c /\
      0 <= i <= magnitude n /\ k = Z.to_nat (3 - i)) _ 3%nat).
    + intros k [[c i] a] s' (-> & -> & -> & Hi & ->). unfold is_u32 in Hn.
      assert (i = 0 \/ i = 1 \/ i = 2 \/ i = 3) as Hc.
      { unfold magnitude in Hi. repeat destruct (_ <? _); lia. }
      assert (Z.shiftr (n / 2 ^ (10 * i)) 10 = n / 2 ^ (10 * (i + 1))) as Hs.
      { rewrite shiftr_div, Z.div_div, <- Z.pow_add_r by lia. do 2 f_equal. lia. }
      cbv zeta. rewrite Hs.
      assert ((0 < n / 2 ^ (10 * i) /\ 0 < n / 2 ^ (10 * (i + 1)) /\ i + 1 <= magnitude n) \/
        (n / 2 ^ (10 * (i + 1)) <= 0 /\ i = magnitude n)) as [(H1 & H2 & H3) | [H1 ->]].
      { clear Hs HQ. unfold magnitude in *. destruct Hc as [-> | [-> | [-> | ->]]];
          destruct (Z.ltb_spec n (2 ^ 10)), (Z.ltb_spec n (2 ^ 20)), (Z.ltb_spec n (2 ^ 30)); try lia;
          powers; zlia. }
      * rewrite (proj2 (Z.ltb_lt _ _) H1), (proj2 (Z.leb_gt _ _) H2). apply wp_ret.
        exists (Z.to_nat (3 - (i + 1))). split; [unfold magnitude in H3; repeat destruct (_ <? _); lia |].
        split; [done |]. split; [done |]. split; [done |]. split; [lia | done].
      * rewrite (proj2 (Z.leb_le _ _) H1). destruct (0 <? _); by apply wp_ret.
    + unfold magnitude. rewrite Z.mul_0_r, Z.div_1_r. repeat destruct (_ <? _); done.
    + bounded.
  - intros r s' [-> ->]. apply wp_bind, wp_modify.
    assert (size_names !! Z.to_nat (magnitude n) = Some (unit_name n)) as ->.
    { unfold unit_name, magnitude. repeat destruct (_ <? _); done. }
    apply wp_bind, wp_modify, wp_modify. unfold s1. rewrite !put_out_app.
    replace (_ ++ _) with (rev (size_report n)); [done |].
    unfold size_report. rewrite !rev_app_distr. cbn [rev app]. by rewrite <- !app_assoc.
Qed.
End report.

(** ** The pools *)

(** A lock nobody holds and nobody waits for. *)
Record fresh_lock (R : Z -> Prop) (f : Z -> Z) (p : Z) : Prop := mk_fresh_lock {
  fl_holder : w32 f (holder p) = 0;
  fl_repeat : w32 f (holder_repeat_nr p) = 0;
  fl_value : f (value (semaphore p)) = 1;
  fl_waiters : dlist R f (waiters (semaphore p)) [] }.

(** What the linker has to provide: the two pools and the virtual addresses in
    different places, away from the page frames of the bitmaps. *)
Record pool_layout (R : Z -> Prop) (LY : Layout) : Prop := mk_pool_layout {
  pq_kernel : inside R kernel_pool 44;
  pq_user : inside R user_pool 44;
  pq_vaddr : inside R kernel_vaddr 12;
  pq_bitmaps : inside R MEM_BITMAP_BASE 0x4000;
  pq_ku : kernel_pool + 44 <= user_pool \/ user_pool + 44 <= kernel_pool;
  pq_kv : kernel_pool + 44 <= kernel_vaddr \/ kernel_vaddr + 12 <= kernel_pool;
  pq_uv : user_pool + 44 <= kernel_vaddr \/ kernel_vaddr + 12 <= user_pool;
  pq_kb : kernel_pool + 44 <= MEM_BITMAP_BASE \/ MEM_BITMAP_BASE + 0x4000 <= kernel_pool;
  pq_ub : user_pool + 44 <= MEM_BITMAP_BASE \/ MEM_BITMAP_BASE + 0x4000 <= user_pool;
  pq_vb : kernel_vaddr + 12 <= MEM_BITMAP_BASE \/ MEM_BITMAP_BASE + 0x4000 <= kernel_vaddr }.

Section pools.
Context {M : Type} {RM : RawMem M} {RL : RawMemLaws M} {LY : Layout}.
Implicit Types (s : kstate M) (R : Z -> Prop) (f : Z -> Z) (G : protocol (kstate M)).

Lemma fresh_lock_keep R f f' p : fresh_lock R f p -> (forall a, span p 28 a -> f' a = f a) -> fresh_lock R f' p.
Proof.
  intros [H1 H2 H3 H4] Hf. split.
  - rewrite <- H1. apply w32_ext. intros a Ha. apply Hf. unfold span, holder in *. lia.
  - rewrite <- H2. apply w32_ext. intros a Ha. apply Hf. unfold span, holder_repeat_nr in *. lia.
  - rewrite <- H3. apply Hf. unfold span, value, semaphore. lia.
  - eapply dlist_frame; [| exact H4]. intros x a Hx Ha. apply Hf. unfold nodes, waiters, semaphore in Hx.
    cbn in Hx. rewrite !elem_of_cons, elem_of_nil in Hx. unfold span in *. lia.
Qed.

Lemma wp_lock_init G s R f p (Q : unit -> kstate M -> Prop) :
  backs (kmem s) R f -> inside R p 28 ->
  (forall m f', backs m R f' -> fresh_lock R f' p -> (forall a, ~ span p 28 a -> f' a = f a) -> Q tt (set_mem m s)) ->
  wp G (lock_init p) s Q.
Proof.
  intros Hb Hi HQ. unfold lock_init, sema_init, value, waiters, semaphore, holder, holder_repeat_nr.
  apply wp_bind. eapply wp_st32; [done | region |]. intros m1 H1.
  apply wp_bind. eapply wp_st32; [done | region |]. intros m2 H2.
  apply wp_bind. eapply wp_st8; [done | region |]. intros m3 H3.
  eapply wp_list_init; [done | region |]. intros m4 f4 H4 Hd Hout.
  assert (forall a, a < p + 8 \/ p + 24 <= a -> f4 a = upd (upd32 (upd32 f p 0) (p + 24) 0) (p + 4) (u8 1) a) as Hf4.
  { intros a Ha. apply Hout. unfold span. lia. }
  apply (HQ m4 f4 H4).
  - split; [.. | exact Hd].
    + unfold holder. rewrite (w32_ext f4 (upd (upd32 (upd32 f p 0) (p + 24) 0) (p + 4) (u8 1))); [by mem |].
      intros a Ha. apply Hf4. unfold span in Ha. lia.
    + unfold holder_repeat_nr. rewrite (w32_ext f4 (upd (upd32 (upd32 f p 0) (p + 24) 0) (p + 4) (u8 1))); [by mem |].
      intros a Ha. apply Hf4. unfold span in Ha. lia.
    + unfold value, semaphore. rewrite Hf4 by lia. by mem.
  - intros a Ha. unfold span in Ha. rewrite Hout by (unfold span; lia). by mem.
Qed.

(** The report on a pool reads its words and prints. *)
Lemma wp_show_pool G s R f name p eol o (Q : unit -> kstate M -> Prop) :
  backs (kmem s) R f -> inside R p 16 -> (forall s (Q : unit -> kstate M -> Prop), Q tt (put_out o s) -> wp G eol s Q) ->
  (forall o, Q tt (put_out o s)) -> wp G (show_pool name p eol) s Q.
Proof.
  intros Hb Hi Heol HQ. unfold show_pool, show, bits, btmp_bytes_len, pool_bitmap, phy_addr_start, pool_size.
  assert (forall s lbl v (Q : unit -> kstate M -> Prop), (forall o, Q tt (put_out o s)) ->
    wp G (put_lit lbl;; put_int v;; put_char 10) s Q) as Hline.
  { intros s0 lbl v Q0 HQ0. apply wp_bind, wp_modify, wp_bind, wp_modify, wp_modify.
    rewrite !put_out_app. apply HQ0. }
  apply wp_bind, wp_bind. eapply wp_ld32; [exact Hb | region |]. intros _. apply Hline. intros o1.
  apply wp_bind, wp_bind. eapply wp_ld32; [exact Hb | region |]. intros _.
  apply wp_bind. eapply wp_ld32; [exact Hb | region |]. intros _. apply Hline. intros o2.
  apply wp_bind, wp_bind. eapply wp_ld32; [exact Hb | region |]. intros _. apply Hline. intros o3.
  apply wp_bind. eapply wp_ld32; [exact Hb | region |]. intros _.
  apply wp_bind. eapply wp_ld32; [exact Hb | region |]. intros _.
  apply wp_bind, wp_modify, wp_bind, wp_modify, Heol. rewrite !put_out_app. apply HQ.
Qed.

(** Clearing a bitmap. *)
Lemma wp_bitmap_clear G s R f btmp b n (Q : unit -> kstate M -> Prop) :
  backs (kmem s) R f -> is_bitmap R f btmp b n -> b <> 0 ->
  (forall m f', backs m R f' -> (forall a, span b n a -> f' a = 0) -> (forall a, ~ span b n a -> f' a = f a) ->
     Q tt (set_mem m s)) ->
  wp G (bitmap_init btmp) s Q.
Proof.
  intros Hb Hbm Hb0 HQ. eapply wp_bitmap_init; [exact Hbm | exact Hb | exact Hb0 |]. intros m Hm.
  pose proof (bm_size _ _ _ _ _ Hbm). pose proof (length_replicate (Z.to_nat n) 0) as Hl.
  apply (HQ m _ Hm); intros a Ha; unfold span in Ha.
  - rewrite updl_in by (unfold len; lia). rewrite nth_lookup, lookup_replicate_2; [done | lia].
  - apply updl_out. unfold len. lia.
Qed.

(** The words of a pool: bytes of bits, bits, first frame, size. *)
Definition pool_words f (p n b st sz : Z) : Prop :=
  w32 f (pool_bitmap p) = n /\ w32 f (pool_bitmap p + 4) = b /\
  w32 f (phy_addr_start p) = st /\ w32 f (pool_size p) = sz.

Lemma pool_words_keep f f' p n b st sz : pool_words f p n b st sz -> (forall a, span p 16 a -> f' a = f a) ->
  pool_words f' p n b st sz.
Proof.
  intros (<- & <- & <- & <-) Hf. unfold pool_words, pool_bitmap, phy_addr_start, pool_size.
  split; [| split; [| split]]; apply w32_ext; intros a Ha; apply Hf; unfold span in *; lia.
Qed.

Lemma pool_words_pool R f p n b st sz : pool_words f p n b st sz -> inside R p 16 -> inside R b (n + 1) ->
  p + 16 <= b \/ b + n <= p -> 0 <= n < 2 ^ 27 -> st mod 4096 = 0 -> 0 < st /\ st + 4096 * (8 * n) <= 4294967296 ->
  is_pool R f p b n st.
Proof.
  intros (H1 & H2 & H3 & _) Hp Hb Ha Hn Hst Hr. split; try done. unfold pool_bitmap in *.
  split; try done; [region | lia].
Qed.

Definition boot_heap (n : Z) : heap_maps :=
  mk_heap_maps MEM_BITMAP_BASE (kernel_bytes n) 0x200000
    (MEM_BITMAP_BASE + kernel_bytes n + user_bytes n) (kernel_bytes n) K_HEAP_START.

(** What [mem_pool_init] leaves: the two pools, the kernel's virtual addresses,
    the three bitmaps of zeros one after the other, the two locks. *)
Record pools_ready (R : Z -> Prop) (n : Z) (f : Z -> Z) : Prop := mk_pools_ready {
  pr_kernel : is_pool R f kernel_pool MEM_BITMAP_BASE (kernel_bytes n) 0x200000;
  pr_user : is_pool R f user_pool (MEM_BITMAP_BASE + kernel_bytes n) (user_bytes n) (user_start n);
  pr_heap : is_heap R f (boot_heap n);
  pr_zero a : span MEM_BITMAP_BASE (2 * kernel_bytes n + user_bytes n) a -> f a = 0;
  pr_ksize : w32 f (pool_size kernel_pool) = 4096 * (free_pages n / 2);
  pr_usize : w32 f (pool_size user_pool) = 4096 * (free_pages n - free_pages n / 2);
  pr_klock : fresh_lock R f (pool_lock kernel_pool);
  pr_ulock : fresh_lock R f (pool_lock user_pool) }.

(** The bytes of the memory management. *)
Definition pool_bytes (b : Z) : Prop :=
  span kernel_pool 44 b \/ span user_pool 44 b \/ span kernel_vaddr 12 b \/ span MEM_BITMAP_BASE 0x4000 b.

(** The sizes as the code computes them. *)
Lemma code_sizes n : 0x200000 <= n < 2 ^ 32 -> let used := u32 (PG_SIZE * 256 + 0x100000) in
  let fp := u16 (u32 (n - used) / PG_SIZE) in
  used = 0x200000 /\ fp = free_pages n /\ u16 (fp / 2) = fp / 2 /\ u16 (fp - u16 (fp / 2)) = fp - fp / 2 /\
  u32 (used + u16 (fp / 2) * PG_SIZE) = user_start n /\ u16 (fp / 2) * PG_SIZE = 4096 * (free_pages n / 2) /\
  u16 (fp - u16 (fp / 2)) * PG_SIZE = 4096 * (free_pages n - free_pages n / 2) /\ 0 <= free_pages n < 65536.
Proof.
  intros Hn. cbv zeta. rewrite PG_SIZE_eq. change (u32 (4096 * 256 + 0x100000)) with 0x200000.
  rewrite (u32_small (n - 0x200000)) by (unfold is_u32; lia). fold (u16 (free_pages n)).
  assert (0 <= free_pages n < 65536) as Hf by (unfold free_pages; zlia).
  change (u16 ((n - 0x200000) / 4096)) with (free_pages n). unfold user_start.
  assert (forall x, 0 <= x < 65536 -> u16 x = x) as H16 by (intros x Hx; unfold u16; zlia).
  rewrite (H16 (free_pages n / 2)), (H16 (free_pages n - _)) by zlia.
  rewrite u32_small by (unfold is_u32; zlia). split; [done |]. lia.
Qed.

(** The words are written. *)
Lemma wp_pool_words {A} G s R f kbm ubm kst ust ksz usz b (k : K (M := M) A) (Q : A -> kstate M -> Prop) :
  backs (kmem s) R f -> pool_layout R LY ->
  is_u32 kbm -> is_u32 ubm -> is_u32 kst -> is_u32 ust -> is_u32 ksz -> is_u32 usz -> is_u32 b -> is_u32 (b + kbm) ->
  (forall m f', backs m R f' -> pool_words f' kernel_pool kbm b kst ksz ->
     pool_words f' user_pool ubm (b + kbm) ust usz ->
     (forall a, ~ span kernel_pool 16 a -> ~ span user_pool 16 a -> f' a = f a) -> wp G k (set_mem m s) Q) ->
  wp G (st32 (phy_addr_start kernel_pool) kst;;
        st32 (pool_size kernel_pool) ksz;;
        st32 (pool_bitmap kernel_pool) kbm;;
        st32 (phy_addr_start user_pool) ust;;
        st32 (pool_size user_pool) usz;;
        st32 (pool_bitmap user_pool) ubm;;
        st32 (pool_bitmap kernel_pool + 4) b;;
        st32 (pool_bitmap user_pool + 4) (b + kbm);; k) s Q.
Proof.
  intros Hb HL H1 H2 H3 H4 H5 H6 H7 H8 HQ. destruct HL as [Lk Lu _ _ Lku _ _ _ _ _].
  unfold pool_words, phy_addr_start, pool_size, pool_bitmap in *.
  do 7 (apply wp_bind; eapply wp_st32; [eassumption | region |]; intros ? ?).
  apply wp_bind. eapply wp_st32; [eassumption | region |]. intros mz Hmz. apply (HQ mz _ Hmz).
  - by mem.
  - by mem.
  - intros a Ha1 Ha2. unfold span in *. by mem.
Qed.

(** The kernel's virtual addresses, and their bitmap cleared. *)
Lemma wp_vaddr_init {A} G s R f n b st (k : K (M := M) A) (Q : A -> kstate M -> Prop) :
  backs (kmem s) R f -> inside R kernel_vaddr 12 -> inside R b (n + 1) ->
  kernel_vaddr + 12 <= b \/ b + n <= kernel_vaddr -> 0 <= n < 2 ^ 27 -> is_u32 b -> b <> 0 -> is_u32 st ->
  (forall m f', backs m R f' -> is_bitmap R f' (vaddr_bitmap kernel_vaddr) b n ->
     w32 f' (vaddr_start kernel_vaddr) = st -> (forall a, span b n a -> f' a = 0) ->
     (forall a, ~ span kernel_vaddr 12 a -> ~ span b n a -> f' a = f a) -> wp G k (set_mem m s) Q) ->
  wp G (st32 (vaddr_bitmap kernel_vaddr) n;;
        st32 (vaddr_bitmap kernel_vaddr + 4) b;;
        st32 (vaddr_start kernel_vaddr) st;;
        bitmap_init (vaddr_bitmap kernel_vaddr);; k) s Q.
Proof.
  intros Hb Hk Hi Hap Hn Hbu Hb0 Hst HQ. unfold vaddr_bitmap, vaddr_start in *.
  apply wp_bind. eapply wp_st32; [exact Hb | region |]. intros m1 H1.
  apply wp_bind. eapply wp_st32; [exact H1 | region |]. intros m2 H2.
  apply wp_bind. eapply wp_st32; [exact H2 | region |]. intros m3 H3.
  set (f3 := upd32 _ _ _) in H3.
  assert (w32 f3 kernel_vaddr = n) as Hw1 by (unfold f3; mem; unfold is_u32 in *; lia).
  assert (w32 f3 (kernel_vaddr + 4) = b) as Hw2 by (unfold f3; by mem).
  assert (w32 f3 (kernel_vaddr + 8) = st) as Hw3 by (unfold f3; by mem).
  assert (is_bitmap R f3 kernel_vaddr b n) as Hbm by (split; try done; [region | lia]).
  apply wp_bind. eapply wp_bitmap_clear; [exact H3 | exact Hbm | exact Hb0 |]. intros m f' Hm Hz Hout.
  apply (HQ m f' Hm).
  - by eapply is_bitmap_keep.
  - rewrite <- Hw3. apply w32_ext. intros a Ha. apply Hout. unfold span in *. lia.
  - done.
  - intros a Ha1 Ha2. rewrite Hout by done. unfold f3, span in *. by mem.
Qed.

(** The words of the pools and of the virtual addresses, the zeros and the
    locks make up the invariants of the heap and of the pools. *)
Lemma pools_ready_intro R f n : pool_layout R LY -> 0x200000 <= n < 2 ^ 32 ->
  pool_words f kernel_pool (kernel_bytes n) MEM_BITMAP_BASE 0x200000 (4096 * (free_pages n / 2)) ->
  pool_words f user_pool (user_bytes n) (MEM_BITMAP_BASE + kernel_bytes n) (user_start n)
    (4096 * (free_pages n - free_pages n / 2)) ->
  is_bitmap R f (vaddr_bitmap kernel_vaddr) (MEM_BITMAP_BASE + kernel_bytes n + user_bytes n) (kernel_bytes n) ->
  w32 f (vaddr_start kernel_vaddr) = K_HEAP_START ->
  (forall a, span MEM_BITMAP_BASE (2 * kernel_bytes n + user_bytes n) a -> f a = 0) ->
  fresh_lock R f (pool_lock kernel_pool) -> fresh_lock R f (pool_lock user_pool) ->
  pools_ready R n f.
Proof.
  intros HL Hn Hk Hu Hv Hvs Hz Hkl Hul. destruct (sizes_bounds n Hn) as (H1 & H2 & H3 & H4 & H5).
  destruct HL as [Lk Lu Lv Lb Lku Lkv Luv Lkb Lub Lvb]. unfold MEM_BITMAP_BASE in *.
  assert (user_start n mod 4096 = 0) as Hal by (unfold user_start; zlia).
  assert (is_pool R f kernel_pool 0xc009a000 (kernel_bytes n) 0x200000) as Hkp.
  { eapply pool_words_pool; [exact Hk | region | region | lia ..]. }
  assert (is_pool R f user_pool (0xc009a000 + kernel_bytes n) (user_bytes n) (user_start n)) as Hup.
  { eapply pool_words_pool; [exact Hu | region | region | lia ..]. }
  split; [exact Hkp | exact Hup | | exact Hz | apply Hk | apply Hu | exact Hkl | exact Hul].
  split; unfold boot_heap, K_HEAP_START, vaddr_bitmap, vaddr_start, MEM_BITMAP_BASE in *; cbn [kb kn kst vb vn vst];
    try done; try lia.
Qed.

Lemma wp_mem_pool_init G s R f n (Q : unit -> kstate M -> Prop) :
  backs (kmem s) R f -> pool_layout R LY -> 0x200000 <= n < 2 ^ 32 ->
  (forall m f' o, backs m R f' -> pools_ready R n f' -> (forall b, ~ pool_bytes b -> f' b = f b) ->
     Q tt (put_out o (set_mem m s))) ->
  wp G (mem_pool_init n) s Q.
Proof.
  intros Hb HL Hn HQ. destruct (code_sizes n Hn) as (E0 & E1 & E2 & E3 & E4 & E5 & E6 & Hfp).
  destruct (sizes_bounds n Hn) as (B1 & B2 & B3 & B4 & B5). pose proof HL as [Lk Lu Lv Lb Lku Lkv Luv Lkb Lub Lvb].
  unfold mem_pool_init. cbv zeta. rewrite E4, E5, E6, E3, E2, E1, E0.
  fold (kernel_bytes n). change ((free_pages n - free_pages n / 2) / 8) with (user_bytes n).
  clear E0 E1 E2 E3 E4 E5 E6.
  unfold MEM_BITMAP_BASE in *.
  apply wp_bind, wp_modify, wp_bind, wp_show_memory_size; [unfold is_u32; lia |]. rewrite put_out_app.
  set (o1 := _ ++ _). clearbody o1.
  eapply wp_pool_words; [exact Hb | exact HL | unfold is_u32, user_start in *; zlia .. |].
  intros m1 f1 H1 Hk1 Hu1 Ho1. cbn [kmem set_mem put_out] in *.
  apply wp_bind. eapply (wp_show_pool _ _ R f1); [exact H1 | region | intros; apply wp_modify; eassumption |]. intros o2.
  apply wp_bind. eapply (wp_show_pool _ _ R f1); [exact H1 | region | intros; apply wp_modify; eassumption |]. intros o3.
  assert (is_bitmap R f1 (pool_bitmap kernel_pool) 0xc009a000 (kernel_bytes n)) as Hkb1.
  { destruct Hk1 as (? & ? & _). split; try done; unfold pool_bitmap; [region | region | lia ..]. }
  assert (is_bitmap R f1 (pool_bitmap user_pool) (0xc009a000 + kernel_bytes n) (user_bytes n)) as Hub1.
  { destruct Hu1 as (? & ? & _). split; try done; unfold pool_bitmap; [region | region | lia ..]. }
  apply wp_bind. eapply wp_bitmap_clear; [exact H1 | exact Hkb1 | lia |]. intros m2 f2 H2 Hz2 Ho2.
  assert (is_bitmap R f2 (pool_bitmap user_pool) (0xc009a000 + kernel_bytes n) (user_bytes n)) as Hub2.
  { destruct Hub1 as [U1 U2 U3 U4 U5 U6]. split; try done.
    - rewrite <- U1. apply w32_ext. intros a Ha. apply Ho2. unfold span, pool_bitmap in *. lia.
    - rewrite <- U2. apply w32_ext. intros a Ha. apply Ho2. unfold span, pool_bitmap in *. lia. }
  apply wp_bind. eapply wp_bitmap_clear; [exact H2 | exact Hub2 | lia |]. intros m3 f3 H3 Hz3 Ho3.
  eapply (wp_vaddr_init _ _ R f3); [exact H3 | exact Lv | region | lia | lia | unfold is_u32; lia | lia | done |].
  intros m4 f4 H4 Hv4 Hvs4 Hz4 Ho4.
  apply wp_bind. eapply (wp_lock_init _ _ R f4); [exact H4 | unfold pool_lock; region |]. intros m5 f5 H5 Hl5 Ho5.
  apply wp_bind. eapply (wp_lock_init _ _ R f5); [exact H5 | unfold pool_lock; region |]. intros m6 f6 H6 Hl6 Ho6.
  apply wp_modify. set (e := rev _).
  change (Q tt (put_out e (put_out o3 (put_out o2 (put_out o1 (set_mem m6 s)))))). rewrite !put_out_app.
  apply (HQ m6 f6 _ H6); [apply pools_ready_intro; [exact HL | exact Hn | ..] |]; unfold MEM_BITMAP_BASE, pool_lock in *.
  - eapply pool_words_keep; [exact Hk1 |]. intros a Ha. unfold span in *.
    rewrite Ho6, Ho5, Ho4, Ho3, Ho2 by lia. done.
  - eapply pool_words_keep; [exact Hu1 |]. intros a Ha. unfold span in *.
    rewrite Ho6, Ho5, Ho4, Ho3, Ho2 by lia. done.
  - destruct Hv4 as [V1 V2 V3 V4 V5 V6]. unfold vaddr_bitmap in *. split; try done.
    + rewrite <- V1. apply w32_ext. intros a Ha. unfold span in *. rewrite Ho6, Ho5 by lia. done.
    + rewrite <- V2. apply w32_ext. intros a Ha. unfold span in *. rewrite Ho6, Ho5 by lia. done.
  - rewrite <- Hvs4. apply w32_ext. unfold vaddr_start. intros a Ha. unfold span in *. rewrite Ho6, Ho5 by lia. done.
  - intros a Ha. unfold span in *. rewrite Ho6, Ho5 by lia.
    destruct (Z.lt_ge_cases a (0xc009a000 + kernel_bytes n + user_bytes n)) as [Hlt | Hge]; [| apply Hz4; lia].
    rewrite Ho4 by lia. destruct (Z.lt_ge_cases a (0xc009a000 + kernel_bytes n)) as [Hlt' | Hge']; [| apply Hz3; lia].
    rewrite Ho3 by lia. apply Hz2. lia.
  - eapply fresh_lock_keep; [exact Hl5 |]. intros a Ha. unfold span in *. apply Ho6. lia.
  - exact Hl6.
  - intros a Ha. unfold pool_bytes, MEM_BITMAP_BASE, span in *.
    rewrite Ho6, Ho5, Ho4, Ho3, Ho2 by lia. apply Ho1; lia.
Qed.
End pools.

(** ** Properties *)

Section properties.
Context {M : Type} {RM : RawMem M} {RL : RawMemLaws M} {LY : Layout}.
Implicit Types (s : kstate M) (R : Z -> Prop) (f : Z -> Z) (G : protocol (kstate M)).

Lemma wp_mem_init G s R f n (Q : unit -> kstate M -> Prop) :
  backs (kmem s) R f -> pool_layout R LY -> inside R 0xb00 4 -> w32 f 0xb00 = n -> 0x200000 <= n ->
  (forall m f' o, backs m R f' -> pools_ready R n f' -> (forall b, ~ pool_bytes b -> f' b = f b) ->
     Q tt (put_out o (set_mem m s))) ->
  wp G mem_init s Q.
Proof.
  intros Hb HL Hi Hw Hn HQ. unfold mem_init. apply wp_bind, wp_modify.
  apply wp_bind. eapply wp_ld32; [exact Hb | exact Hi |]. rewrite Hw. intros Hu.
  apply wp_bind. eapply wp_mem_pool_init; [exact Hb | exact HL | unfold is_u32 in Hu; lia |].
  intros m f' o Hm Hr Ho. apply wp_modify. set (e := rev _).
  change (Q tt (put_out e (put_out o (put_out (rev (bytes_of ("    mem_init start " ++ nl))) (set_mem m s))))).
  rewrite !put_out_app. by apply (HQ m f').
Qed.

(** [mem_init] on a machine of at least 2 MB leaves both pools, the kernel's
    virtual addresses and the locks initialised: the invariant of the kernel
    heap holds, all bits are clear, the pools follow one another above 2 MB and
    end inside the memory, and the three bitmaps end below the page of the
    main thread. *)
Theorem mem_init_builds_pools s R f n :
  backs (kmem s) R f -> pool_layout R LY -> inside R 0xb00 4 -> w32 f 0xb00 = n -> 0x200000 <= n ->
  exists m f' o, mem_init s = Done tt (put_out o (set_mem m s)) /\ backs m R f' /\ pools_ready R n f' /\
    0x200000 + 4096 * (8 * kernel_bytes n) <= user_start n /\
    user_start n + 4096 * (8 * user_bytes n) <= n /\
    MEM_BITMAP_BASE + 2 * kernel_bytes n + user_bytes n < 0xc009e000.
Proof.
  intros Hb HL Hi Hw Hn.
  destruct (proj1 (wp_seq_only mem_init s (fun _ s' => exists m f' o, s' = put_out o (set_mem m s) /\
    backs m R f' /\ pools_ready R n f'))) as ([] & s' & Hc & m & f' & o & -> & Hm & Hr).
  { eapply wp_mem_init; try done. intros m f' o Hm Hr _. by exists m, f', o. }
  assert (n < 2 ^ 32) as Hn2.
  { pose proof (backs_w32 _ _ _ _ Hb Hi) as Hu. rewrite Hw in Hu. unfold is_u32 in Hu. lia. }
  destruct (sizes_bounds n ltac:(lia)) as (B1 & B2 & B3 & B4 & B5). unfold MEM_BITMAP_BASE.
  exists m, f', o. split; [exact Hc |]. split; [done |]. split; [done |]. lia.
Qed.

(** C37. The number of frames is kept in 16 bits: on a machine of 258 MB it comes
    out as zero (and on larger ones modulo 65536), both pools are empty, and the
    first allocation of a frame ends in the assertion about a full pool. *)
Theorem mem_init_truncates s R f n :
  backs (kmem s) R f -> pool_layout R LY -> inside R 0xb00 4 -> w32 f 0xb00 = n ->
  0x10200000 <= n < 0x10201000 ->
  exists m o, mem_init s = Done tt (put_out o (set_mem m s)) /\
    exists s', palloc kernel_pool (put_out o (set_mem m s)) = Panic pool_full_panic s'.
Proof.
  intros Hb HL Hi Hw Hn.
  destruct (proj1 (wp_seq_only mem_init s (fun _ s' => exists m f' o, s' = put_out o (set_mem m s) /\
    backs m R f' /\ pools_ready R n f'))) as ([] & s' & Hc & m & f' & o & -> & Hm & Hr).
  { eapply wp_mem_init; [done .. | lia |]. intros m f' o Hm Hr _. by exists m, f', o. }
  exists m, o. split; [exact Hc |].
  assert (kernel_bytes n = 0) as Hk by (unfold kernel_bytes, free_pages; zlia).
  destruct (panics_wp (palloc kernel_pool) (put_out o (set_mem m s)) pool_full_panic) as (s' & Hp & _); [| by exists s'].
  intros G Q HP. eapply wp_palloc_full; [exact Hm | apply Hr | | exact HP].
  intros (i & [Hi0 _]). rewrite Hk in Hi0. lia.
Qed.
End properties.

Module examples.
#[local] Existing Instance demo_layout.
Definition boot_state (n : Z) : kstate flat := machine_of (flat_of [(0xb00, n)]).

Lemma flat_pool_layout : pool_layout is_u32 demo_layout.
Proof.
  split; try (intros a Ha; unfold span, is_u32 in *; cbn in Ha; unfold MEM_BITMAP_BASE in *; lia);
    cbn; unfold MEM_BITMAP_BASE; lia.
Qed.

Lemma mem_init_builds_pools_witness : exists m f' o, mem_init (boot_state 0x2000000) =
  Done tt (put_out o (set_mem m (boot_state 0x2000000))) /\ pools_ready is_u32 0x2000000 f' /\
  kernel_bytes 0x2000000 = 480.
Proof.
  destruct (mem_init_builds_pools (boot_state 0x2000000) is_u32 (flat_at (kmem (boot_state 0x2000000))) 0x2000000)
    as (m & f' & o & Hc & _ & Hr & _).
  - apply flat_backs.
  - apply flat_pool_layout.
  - intros a Ha. unfold span, is_u32 in *. lia.
  - vm_compute. reflexivity.
  - lia.
  - exists m, f', o. split; [exact Hc |]. split; [exact Hr | reflexivity].
Defined.

Lemma mem_init_truncates_witness : exists m o, mem_init (boot_state 0x10200000) =
    Done tt (put_out o (set_mem m (boot_state 0x10200000))) /\
  exists s', palloc kernel_pool (put_out o (set_mem m (boot_state 0x10200000))) = Panic pool_full_panic s'.
Proof.
  apply (mem_init_truncates (boot_state 0x10200000) is_u32 (flat_at (kmem (boot_state 0x10200000))) 0x10200000).
  - apply flat_backs.
  - apply flat_pool_layout.
  - intros a Ha. unfold span, is_u32 in *. lia.
  - vm_compute. reflexivity.
  - lia.
Defined.
End examples.
