(* ===== verification/Task.v ===== *)
(** thread/thread.c: creating threads.  The stack a new thread starts on, the
    thread control block, [thread_start] and [thread_init]; the scheduler
    itself is in Thread.v. *)

From S2P Require Import Prelude Monad RawMem Machine CString Bitmap DList Thread Sync Global Timer Paging.
From S2P Require Import Memory Mapping KHeap PoolInit.

(** struct intr_stack (19 words): [vec_no] at 0, the registers of pushad at 4,
    [gs], [fs], [es], [ds], the error code, and what the processor pushes. *)
Definition intr_stack_size : Z := 76.
Definition edi_ (p : Z) : Z := p + 4.
Definition esi_ (p : Z) : Z := p + 8.
Definition ebp_ (p : Z) : Z := p + 12.
Definition esp_dummy (p : Z) : Z := p + 16.
Definition ebx_ (p : Z) : Z := p + 20.
Definition edx_ (p : Z) : Z := p + 24.
Definition ecx_ (p : Z) : Z := p + 28.
Definition eax_ (p : Z) : Z := p + 32.
Definition gs_ (p : Z) : Z := p + 36.
Definition fs_ (p : Z) : Z := p + 40.
Definition es_ (p : Z) : Z := p + 44.
Definition ds_ (p : Z) : Z := p + 48.
Definition err_code (p : Z) : Z := p + 52.
Definition eip_ (p : Z) : Z := p + 56.
Definition cs_ (p : Z) : Z := p + 60.
Definition eflags_ (p : Z) : Z := p + 64.
Definition esp_ (p : Z) : Z := p + 68.
Definition ss_ (p : Z) : Z := p + 72.

(** struct thread_stack (8 words): [ebp], [ebx], [edi], [esi], [eip],
    [unused_retaddr], [function], [func_arg]. *)
Definition thread_stack_size : Z := 32.
Definition ts_ebp (p : Z) : Z := p.
Definition ts_ebx (p : Z) : Z := p + 4.
Definition ts_edi (p : Z) : Z := p + 8.
Definition ts_esi (p : Z) : Z := p + 12.
Definition ts_eip (p : Z) : Z := p + 16.
Definition ts_function (p : Z) : Z := p + 24.
Definition ts_func_arg (p : Z) : Z := p + 28.

Definition set_next_pid (n : Z) (v : kvars) : kvars :=
  mk_kvars (main_thread v) (thread_tag v) n (ticks v) (ctrl_status v)
    (shift_status v) (alt_status v) (caps_lock_status v) (ext_scancode v).
Definition set_main_thread (t : Z) (v : kvars) : kvars :=
  mk_kvars t (thread_tag v) (next_pid v) (ticks v) (ctrl_status v)
    (shift_status v) (alt_status v) (caps_lock_status v) (ext_scancode v).

Section code.
Context {M : Type} {RM : RawMem M} {LY : Layout}.

#[local] Abbreviation ASSERT_ := (ASSERT "thread/thread.c").

(** The function is given by what calling it does. *)
Definition kernel_thread (function : Z -> K (M := M) unit) (func_arg : Z) : K unit :=
  intr_enable;; function func_arg.

(** [self_kstack] is a pointer to words: the sizes are taken four times. *)
Definition thread_create (pthread function func_arg : Z) : K (M := M) unit :=
  do k <- ld32 (self_kstack pthread); st32 (self_kstack pthread) (u32 (k - 4 * intr_stack_size));;
  do k <- ld32 (self_kstack pthread); st32 (self_kstack pthread) (u32 (k - 4 * thread_stack_size));;
  do kthread_stack <- ld32 (self_kstack pthread);
  st32 (ts_eip kthread_stack) (fn "kernel_thread");;
  st32 (ts_function kthread_stack) function;;
  st32 (ts_func_arg kthread_stack) func_arg;;
  st32 (ts_edi kthread_stack) 0;; st32 (ts_esi kthread_stack) 0;;
  st32 (ts_ebx kthread_stack) 0;; st32 (ts_ebp kthread_stack) 0.

Definition allocate_pid : K (M := M) Z :=
  lock_acquire pid_lock;;
  modify (fun s => set_var (set_next_pid (s16 (next_pid (kvar s) + 1)) (kvar s)) s);;
  do pid <- get (fun s => next_pid (kvar s));
  lock_release pid_lock;;
  cret pid.

Definition init_thread (pthread name_ prio : Z) : K (M := M) unit :=
  memset pthread 0 task_struct_size;;
  do p <- allocate_pid; st16 (pid pthread) p;;
  strcpy (name pthread) name_;;
  do mt <- get (fun s => main_thread (kvar s));
  st32 (status pthread) (if pthread =? mt then code TASK_RUNNING else code TASK_READY);;
  st8 (ticks_left pthread) prio;; st8 (priority pthread) (u8 prio);;
  st32 (elapsed_ticks pthread) 0;;
  st32 (pgdir pthread) 0;;
  st32 (self_kstack pthread) (u32 (pthread + PG_SIZE));;
  st32 (stack_magic pthread) STACK_MAGIC.

(** The two queues every thread is put into. *)
Definition enlist (file : string) (l1 l2 : Z) (func : string) (thread : Z) : K (M := M) unit :=
  do found <- elem_find thread_ready_list (general_tag thread);
  ASSERT file l1 func "!elem_find(&thread_ready_list, &thread->general_tag)" (negb found);;
  list_append thread_ready_list (general_tag thread);;
  do found <- elem_find thread_all_list (all_list_tag thread);
  ASSERT file l2 func "!elem_find(&thread_all_list, &thread->all_list_tag)" (negb found);;
  list_append thread_all_list (all_list_tag thread).

Definition thread_start (name_ prio function func_arg : Z) : K (M := M) Z :=
  do thread <- get_kernel_pages 1;
  init_thread thread name_ prio;;
  thread_create thread function func_arg;;
  enlist "thread/thread.c" 79 83 "thread_start" thread;;
  cret thread.

Definition make_main_thread : K (M := M) unit :=
  do cur <- running_thread;
  modify (fun s => set_var (set_main_thread cur (kvar s)) s);;
  do mt <- get (fun s => main_thread (kvar s));
  init_thread mt (lit "main") 31;;
  do found <- elem_find thread_all_list (all_list_tag mt);
  ASSERT_ 108 "make_main_thread" "!elem_find(&thread_all_list, &main_thread->all_list_tag)" (negb found);;
  list_append thread_all_list (all_list_tag mt).

Definition thread_init : K (M := M) unit :=
  put_lit ("thread_init start" ++ nl);;
  list_init thread_ready_list;;
  list_init thread_all_list;;
  lock_init pid_lock;;
  make_main_thread;;
  put_lit ("thread_init end" ++ nl).

(** thread/switch.S, lines 23 to 28: what a thread whose stack pointer is
    [esp] goes on with: four registers are popped and [ret] jumps.  The result
    is the address it jumps to and the stack pointer there. *)
Definition switch_in (esp : Z) : K (M := M) (Z * Z) :=
  do ebp <- ld32 esp; do ebx <- ld32 (esp + 4); do edi <- ld32 (esp + 8); do esi <- ld32 (esp + 12);
  do eip <- ld32 (esp + 16); cret (eip, esp + 20).

(** The arguments of a function entered with the stack pointer [esp]: above
    the return address. *)
Definition cdecl_arg (esp k : Z) : K (M := M) Z := ld32 (esp + 4 * (k + 1)).
End code.

(** ** The bytes of a thread's page as memory of its own

    While the scheduler's invariant holds, the bytes [P0] that belong to nobody
    else can be used like any memory: the rules of the string routines and of
    the list routines apply to them. *)
Section own_memory.
Context {M : Type} {RM : RawMem M} {RL : RawMemLaws M} {LY : Layout}.

Definition backs_own (R : Z -> Prop) (s : kstate M) (K : ksys) (P0 : Z -> Prop) (m : M) (P : Z -> Prop) (g : Z -> Z)
  : Prop :=
  (forall b, P b -> P0 b) /\ exists d, sys R (set_mem m s) (set_data d K) /\
    (forall b, P b -> d b = g b) /\ (forall b, ~ P0 b -> d b = data K b).

Lemma own_view R s K P0 m P g : (forall b, P0 b -> own K b) -> backs_own R s K P0 m P g ->
  exists d, backs m (own K) d /\ sys R (set_mem m s) (set_data d K) /\
    (forall b, P b -> own K b /\ d b = g b) /\ (forall b, ~ P0 b -> d b = data K b).
Proof.
  intros HP (H0 & d & Hs & Hd & Ho). exists d.
  split; [exact (sys_backs _ _ _ Hs) |]. split; [done |]. split; [| done]. auto.
Qed.

Definition own_laws (R : Z -> Prop) (s : kstate M) (K : ksys) (P0 : Z -> Prop) (HP : forall b, P0 b -> own K b)
  : RawMemLaws M.
Proof.
  apply (Build_RawMemLaws M RM (backs_own R s K P0)).
  - intros m P g a Hb Ha. destruct (own_view _ _ _ _ _ _ _ HP Hb) as (d & Hd & _ & Hg & _).
    eapply backs_addr; [exact Hd | by apply Hg].
  - intros m P g a Hb Ha. destruct (own_view _ _ _ _ _ _ _ HP Hb) as (d & Hd & _ & Hg & _).
    destruct (Hg a Ha) as [Hoa <-]. by eapply backs_byte.
  - intros m P g a Hb Ha. destruct (own_view _ _ _ _ _ _ _ HP Hb) as (d & Hd & _ & Hg & _).
    destruct (Hg a Ha) as [Hoa <-]. by eapply backs_ld.
  - intros m P g a v (H0 & d & Hs & Hd & Ho) Ha Hv. pose proof Hs as [(f & Hb & HK) He HA Hrun].
    destruct (sr_own _ _ _ HK a (HP a (H0 a Ha))) as (HR & _).
    destruct (backs_st _ _ _ a v Hb HR Hv) as (m' & Hm' & Hb'). exists m'. split; [exact Hm' |].
    split; [done |]. exists (upd d a v). split; [| split].
    + change (sys R (set_mem m' (set_mem m s)) (set_data (upd d a v) (set_data d K))).
      eapply sys_own_store; [exact HK | exact Hb' | exact He | exact HA | exact Hrun | |].
      * intros b Hn. apply upd_ne. intros ->. apply Hn. apply HP. by apply H0.
      * intros b Hob. apply upd_eqv. by apply (sr_data _ _ _ HK).
    + intros b Hb2. destruct (Z.eq_dec b a) as [-> |]; [by rewrite !upd_eq |]. rewrite !upd_ne by done. by apply Hd.
    + intros b Hb2. rewrite upd_ne; [by apply Ho |]. intros ->. by apply Hb2, H0.
  - intros m P P' g g' (H0 & d & Hs & Hd & Ho) Hsub Heq. split; [auto |]. exists d. split; [done |].
    split; [| done]. intros b Hb. rewrite Heq by done. by apply Hd, Hsub.
Defined.

Lemma own_laws_intro R s K P0 HP : sys R s K -> @backs M RM (own_laws R s K P0 HP) (kmem s) P0 (data K).
Proof.
  intros Hs. split; [done |]. exists (data K). split; [| done].
  destruct s, K. exact Hs.
Qed.
End own_memory.

(** ** A new thread's stack and control block *)

Section fields.
Context {M : Type} {RM : RawMem M} {RL : RawMemLaws M} {LY : Layout}.
Implicit Types (s : kstate M) (R : Z -> Prop) (f : Z -> Z) (G : protocol (kstate M)).

(** Where the stack of a new thread starts in its page. *)
Definition first_stack (t : Z) : Z := t + 3664.

(** The frame [thread_create] builds. *)
Record first_frame (f : Z -> Z) (t function func_arg : Z) : Prop := mk_first_frame {
  ff_kstack : w32 f (self_kstack t) = first_stack t;
  ff_eip : w32 f (ts_eip (first_stack t)) = fn "kernel_thread";
  ff_function : w32 f (ts_function (first_stack t)) = function;
  ff_arg : w32 f (ts_func_arg (first_stack t)) = func_arg }.

Lemma wp_thread_create G s R f t function func_arg (Q : unit -> kstate M -> Prop) :
  backs (kmem s) R f -> inside R t 4096 -> w32 f (self_kstack t) = t + 4096 ->
  is_u32 function -> is_u32 func_arg -> is_u32 (fn "kernel_thread") ->
  (forall m f', backs m R f' -> first_frame f' t function func_arg ->
     (forall b, ~ span t 4 b -> ~ span (first_stack t) 32 b -> f' b = f b) -> Q tt (set_mem m s)) ->
  wp G (thread_create t function func_arg) s Q.
Proof.
  intros Hb Hi Hk Hfn Harg Hkt HQ. unfold thread_create, first_stack, self_kstack in *.
  pose proof (backs_inside_u32 _ _ _ _ _ Hb Hi ltac:(lia)) as Ht.
  apply wp_bind. eapply wp_ld32; [exact Hb | region |]. rewrite Hk. intros _.
  assert (u32 (t + 4096 - 4 * intr_stack_size) = t + 3792) as ->
    by (unfold intr_stack_size; rewrite u32_small; [lia | unfold is_u32; lia]).
  apply wp_bind. eapply wp_st32; [exact Hb | region |]. intros m1 H1.
  apply wp_bind. eapply wp_ld32; [exact H1 | region |]. rewrite w32_upd32_eq by (unfold is_u32; lia). intros _.
  assert (u32 (t + 3792 - 4 * thread_stack_size) = t + 3664) as ->
    by (unfold thread_stack_size; rewrite u32_small; [lia | unfold is_u32; lia]).
  apply wp_bind. eapply wp_st32; [exact H1 | region |]. intros m2 H2.
  apply wp_bind. eapply wp_ld32; [exact H2 | region |]. rewrite w32_upd32_eq by (unfold is_u32; lia). intros _.
  unfold ts_eip, ts_function, ts_func_arg, ts_edi, ts_esi, ts_ebx, ts_ebp.
  do 6 (apply wp_bind; eapply wp_st32; [eassumption | region |]; intros ? ?).
  eapply wp_st32; [eassumption | region |]. intros mz Hz. apply (HQ mz _ Hz).
  - split; unfold self_kstack, first_stack, ts_eip, ts_function, ts_func_arg; mem; unfold is_u32; lia.
  - intros b Hb1 Hb2. unfold span in *. by mem.
Qed.

(** What [init_thread] leaves in the control block. *)
Definition new_view (st : task_status) (t prio : Z) : tview :=
  mk_tview (t + 4096) st (u8 prio) (u8 prio) 0 0 STACK_MAGIC.

(** The bytes of the control block that [init_thread] writes. *)
Definition block_bytes (t b : Z) : Prop := span t task_struct_size b /\ ~ span (userprog_vaddr t) 12 b.

(** The members after the name. *)
Lemma wp_init_fields G s R f t name_ l prio (Q : unit -> kstate M -> Prop) :
  backs (kmem s) R f -> inside R t 4096 -> inside R name_ (len l + 1) -> cstr f name_ l -> len l <= 16 ->
  t + 4096 <= name_ \/ name_ + len l + 1 <= t -> t + 4096 < 4294967296 ->
  (forall m f', backs m R f' ->
     task_at f' t (new_view (if t =? main_thread (kvar s) then TASK_RUNNING else TASK_READY) t prio) ->
     w16 f' (pid t) = w16 f (pid t) ->
     (forall b, ~ block_bytes t b -> f' b = f b) -> Q tt (set_mem m s)) ->
  wp G (strcpy (name t) name_;;
        do mt <- get (fun s => main_thread (kvar s));
        st32 (status t) (if t =? mt then code TASK_RUNNING else code TASK_READY);;
        st8 (ticks_left t) prio;; st8 (priority t) (u8 prio);;
        st32 (elapsed_ticks t) 0;;
        st32 (pgdir t) 0;;
        st32 (self_kstack t) (u32 (t + PG_SIZE));;
        st32 (stack_magic t) STACK_MAGIC) s Q.
Proof.
  intros Hb Hi Hn Hstr Hl Hap Ht HQ. pose proof (len_nonneg l) as Hl0.
  pose proof (backs_inside_u32 _ _ _ _ _ Hb Hi ltac:(lia)) as Htu. fields.
  apply wp_bind. eapply (wp_strcpy _ _ R f _ _ l); [exact Hb | region | exact Hn | exact Hstr | lia |]. intros m1 H1.
  apply wp_bind, wp_get. cbn [kvar set_mem].
  rewrite PG_SIZE_eq, (u32_small (t + 4096)) by (unfold is_u32; lia).
  set (st := if t =? main_thread (kvar s) then TASK_RUNNING else TASK_READY) in *.
  replace (if t =? main_thread (kvar s) then code TASK_RUNNING else code TASK_READY) with (code st)
    by (unfold st; by destruct (_ =? _)).
  apply wp_bind. eapply wp_st32; [exact H1 | region |]. intros m2 H2.
  apply wp_bind. eapply wp_st8; [exact H2 | region |]. intros m3 H3.
  apply wp_bind. eapply wp_st8; [exact H3 | region |]. intros m4 H4.
  do 3 (apply wp_bind; eapply wp_st32; [eassumption | region |]; intros ? ?).
  eapply wp_st32; [eassumption | region |]. intros mz Hz.
  rewrite (u8_small (u8 prio)) in Hz by apply u8_range.
  pose proof (code_u32 st) as Hc. assert (is_u32 STACK_MAGIC) as Hmagic by done.
  eapply HQ; [exact Hz | | |].
  - split; fields; cbn [tv_kstack tv_status tv_priority tv_ticks tv_elapsed tv_pgdir tv_magic new_view];
      by mem.
  - mem. apply w16_ext. intros b Hbb. apply updl_out. unfold span in Hbb. lia.
  - intros b Hbb. unfold block_bytes, task_struct_size, userprog_vaddr, span in Hbb. mem. apply updl_out. lia.
Qed.
End fields.

(** ** [init_thread] among the other threads *)

Section init.
Context {M : Type} {RM : RawMem M} {RL : RawMemLaws M} {LY : Layout}.
Implicit Types (s : kstate M) (R : Z -> Prop) (f : Z -> Z) (K : ksys) (G : protocol (kstate M)).

Lemma sys_var R s K v : sys R s K -> sys R (set_var v s) K.
Proof. intros [Hc He HA Hrun]. by split. Qed.

(** What a run on one's own bytes [P0] leaves, when it wrote to [P] only. *)
Lemma own_result R s K (P0 P : Z -> Prop) HP m g : @backs M RM (own_laws R s K P0 HP) m P0 g ->
  (forall b, ~ P b -> g b = data K b) ->
  exists d, sys R (set_mem m s) (set_data d K) /\ (forall b, P0 b -> d b = g b) /\
    (forall b, ~ P b -> d b = data K b).
Proof.
  intros Hb Hg. destruct (own_view _ _ _ _ _ _ _ HP Hb) as (d & Hd & Hs & Hdg & Ho). exists d.
  split; [done |]. split; [intros b Hb0; by apply Hdg |]. intros b Hnb.
  destruct (Z.eq_dec (d b) (data K b)) as [| Hne]; [done |]. exfalso.
  assert (~ ~ P0 b) as Hnn by (intros Hn; by apply Hne, Ho).
  apply Hnn. intros Hp. apply Hne. destruct (Hdg b Hp) as [_ ->]. by apply Hg.
Qed.

(** The next process number. *)
Definition fresh_pid (s : kstate M) : Z := s16 (next_pid (kvar s) + 1).
Definition numbered (m : M) (s : kstate M) : kstate M := set_var (set_next_pid (fresh_pid s) (kvar s)) (set_mem m s).

Lemma wp_allocate_pid G s R K h n (Q : Z -> kstate M -> Prop) :
  sys R s K -> lock_ready K pid_lock h n -> 0 <= n ->
  (forall m K', sys R (numbered m s) K' -> ks K' = ks K -> data K' = data K -> own K' = own K ->
     locks K' !! pid_lock = Some (cur (ks K), lock_count K h n - 1) -> locks_but pid_lock K K' ->
     Q (fresh_pid s) (numbered m s)) ->
  wp G allocate_pid s Q.
Proof.
  intros Hs Hl Hn HQ. unfold allocate_pid. apply wp_bind. eapply wp_lock_ready; [exact Hs | exact Hl |].
  intros m K1 Hs1 Hk1 Hd1 Ho1 Hl1 Hb1. apply wp_bind, wp_modify, wp_bind, wp_get, wp_bind.
  eapply wp_unlock_counts; [apply (sys_var R _ K1), Hs1 | by rewrite Hk1 | unfold lock_count; case_match; lia |].
  intros m2 Hs2. apply wp_ret. change (Q (fresh_pid s) (numbered m2 s)).
  eapply HQ; [exact Hs2 | done | done | done | | eapply locks_but_trans; [exact Hb1 | apply set_lock_but]].
  cbn. by rewrite lookup_insert_eq, Hk1.
Qed.

Lemma wp_init_thread G s R K t name_ l prio h n (Q : unit -> kstate M -> Prop) :
  sys R s K -> lock_ready K pid_lock h n -> 0 <= n ->
  inside (own K) t 4096 -> inside (own K) name_ (len l + 1) -> cstr (data K) name_ l -> len l <= 16 ->
  t + 4096 <= name_ \/ name_ + len l + 1 <= t -> t <> 0 -> t + 4096 < 4294967296 ->
  (forall m K', sys R (numbered m s) K' -> ks K' = ks K -> own K' = own K ->
     locks K' !! pid_lock = Some (cur (ks K), lock_count K h n - 1) -> locks_but pid_lock K K' ->
     task_at (data K') t (new_view (if t =? main_thread (kvar s) then TASK_RUNNING else TASK_READY) t prio) ->
     w16 (data K') (pid t) = u16 (fresh_pid s) ->
     (forall b, ~ span t 72 b -> data K' b = data K b) -> Q tt (numbered m s)) ->
  wp G (init_thread t name_ prio) s Q.
Proof.
  intros Hs Hl Hn Ht Hname Hstr Hlen Hap Ht0 Htu HQ. unfold init_thread. pose proof (len_nonneg l) as Hl0.
  set (P0 := fun b => span t 4096 b \/ span name_ (len l + 1) b).
  assert (forall b, P0 b -> own K b) as HP by (intros b [Hb | Hb]; auto).
  assert (inside P0 t 4096) as Hit by (intros b Hb; by left).
  assert (inside P0 name_ (len l + 1)) as Hin by (intros b Hb; by right).
  apply wp_bind. eapply (@wp_memset_span M RM (own_laws R s K P0 HP) _ _ P0 (data K));
    [by apply own_laws_intro | unfold task_struct_size; region | done | done |].
  intros m1 f1 H1 _ Hout1. destruct (own_result R s K P0 (span t 72) HP m1 f1 H1 Hout1) as (d1 & Hs1 & _ & Hd1).
  apply wp_bind. eapply wp_allocate_pid; [exact Hs1 | exact Hl | exact Hn |].
  intros m2 K2 Hs2 Hk2 Hda2 Ho2 Hl2 Hbut. cbn [ks data own set_data] in Hk2, Hda2, Ho2.
  change (fresh_pid (set_mem m1 s)) with (fresh_pid s). change (numbered m2 (set_mem m1 s)) with (numbered m2 s) in *.
  assert (forall b, P0 b -> own K2 b) as HP2 by (intros b Hb; rewrite Ho2; by apply HP).
  pose proof (own_laws_intro R _ K2 P0 HP2 Hs2) as Hb2.
  pose proof (backs_inside_u32 _ _ _ _ _ Hb2 Hit ltac:(lia)) as Htr.
  apply wp_bind. eapply (@wp_st16 M RM (own_laws R (numbered m2 s) K2 P0 HP2)); [exact Hb2 | fields; region |].
  intros m3 H3. eapply (@wp_init_fields M RM (own_laws R (numbered m2 s) K2 P0 HP2) _ _ P0 _ _ name_ l);
    [exact H3 | exact Hit | exact Hin | | exact Hlen | exact Hap | exact Htu |].
  { eapply cstr_ext; [| exact Hstr]. intros b Hb. unfold span in Hb. fields.
    rewrite upd16_ne by lia. rewrite Hda2. apply Hd1. unfold span. lia. }
  intros m4 f4 H4 Htask Hpid Hout4.
  change (set_mem m4 (set_mem m3 (numbered m2 s))) with (numbered m4 s).
  destruct (own_result R (numbered m2 s) K2 P0 (span t 72) HP2 m4 f4 H4) as (d4 & Hs4 & Hd4 & Hd4').
  { intros b Hb. rewrite Hout4 by (by intros [? _]). fields. apply upd16_ne. unfold span in Hb. lia. }
  change (set_mem m4 (numbered m2 s)) with (numbered m4 s) in Hs4.
  eapply HQ; [exact Hs4 | done | done | done | by destruct Hbut as [Hu Hse Hlo]; split | | |]; cbn [data set_data].
  - eapply task_at_ext; [| exact Htask]. intros b [[Hb _] _]. apply Hd4. left. unfold span, task_struct_size in *. lia.
  - transitivity (w16 f4 (pid t)); [| by rewrite Hpid, w16_upd16_mod].
    apply w16_ext. intros b Hb. apply Hd4. left. unfold span in *. fields. lia.
  - intros b Hb. rewrite Hd4' by done. rewrite Hda2. by apply Hd1.
Qed.
End init.

(** ** A new thread in the scheduler *)

Definition set_all (ts : list Z) (A : sched) : sched := mk_sched (esp A) (queues A) (tasks A) ts.

Lemma spans_clear a n c k : 0 < n -> 0 < k -> (forall b, span a n b -> ~ span c k b) -> clear a n c k.
Proof.
  intros Hn Hk Hd. unfold clear. destruct (Z.le_gt_cases (a + n) c); [by left |].
  destruct (Z.le_gt_cases (c + k) a); [by right |]. exfalso.
  apply (Hd (Z.max a c)); unfold span; lia.
Qed.

Section adopt.
Context {LY : Layout}.

(** The thread [t] at the end of both queues. *)
Definition enlisted (t : Z) (q : list Z) (A : sched) : sched :=
  set_all (all_threads A ++ [t]) (set_queue thread_ready_list (q ++ [t]) A).

(** A control block nobody knows becomes a thread. *)
Definition adopt (t : Z) (v : tview) (K : ksys) : ksys :=
  mk_ksys (set_task t v (ks K)) (semas K) (locks K) (fun b => own K b /\ ~ task_footprint t b) (data K).

Lemma rep_new_task R f A t v : rep R f A -> tasks A !! t = None -> inside R t 72 ->
  (forall b, span t 72 b -> ~ footprint A b) -> task_at f t v -> rep R f (set_task t v A).
Proof.
  intros HA Ht Hi Hfp Hv.
  assert (forall u, is_Some (tasks (set_task t v A) !! u) -> u = t \/ is_Some (tasks A !! u)) as His.
  { intros u. cbn. rewrite lookup_insert_is_Some. intros [<- | [_ H]]; auto. }
  assert (forall l, is_Some (queues A !! l) -> clear t 72 l 16) as Hq.
  { intros l Hl. apply spans_clear; [lia .. |]. intros b Hb Hlb. apply (Hfp b Hb). left. by exists l. }
  assert (forall u, is_Some (tasks A !! u) -> clear t 72 u 72) as Hu.
  { intros u Hu. assert (forall b, task_footprint u b -> ~ span t 72 b) as Hn.
    { intros b Hub Hb. apply (Hfp b Hb). right. left. by exists u. }
    pose proof (Hn u) as H1. pose proof (Hn (u + 71)) as H2. clear_lia. }
  split; cbn [queues all_threads set_task].
  - apply (rep_queue _ _ _ HA).
  - intros l ts u Hl Hin. cbn. rewrite lookup_insert_is_Some.
    destruct (decide (t = u)) as [-> | Hne]; [by left |]. right. split; [done |]. by eapply rep_member.
  - apply (rep_single _ _ _ HA).
  - intros u w. cbn. rewrite lookup_insert_Some. intros [[<- <-] | [_ Hw]]; [done |]. by eapply rep_task.
  - intros u [-> | H]%His; [done |]. by apply (rep_inside _ _ _ HA).
  - intros u u' [-> | H]%His [-> | H']%His Hne; [done | | | by apply (rep_tasks _ _ _ HA)].
    + by apply Hu.
    + pose proof (Hu u H) as [Hc | Hc]; [by right | by left].
  - apply (rep_queues _ _ _ HA).
  - intros u l [-> | H]%His Hl; [by apply Hq |]. by apply (rep_tq _ _ _ HA).
  - apply (rep_all _ _ _ HA).
  - intros u Hin%(rep_all_member _ _ _ HA). cbn. rewrite lookup_insert_is_Some.
    destruct (decide (t = u)) as [-> | Hne]; [by left |]. by right.
  - apply (rep_all_queue _ _ _ HA).
  - intros u [-> | H]%His; [| by apply (rep_all_task _ _ _ HA)].
    apply spans_clear; [done | lia |]. intros b Hb Hab. apply (Hfp b Hb). by right; right.
Qed.

Lemma sys_rep_adopt R f K t v : sys_rep R f K -> tasks (ks K) !! t = None -> inside (own K) t 72 ->
  task_at (data K) t v -> sys_rep R f (adopt t v K).
Proof.
  intros HK Ht Hi Hv. pose proof (sr_own _ _ _ HK) as Hown.
  assert (forall b, footprint (set_task t v (ks K)) b -> footprint (ks K) b \/ task_footprint t b) as Hfp.
  { intros b [H | [(u & Hu & Hb) | H]]; [by left; left | | by left; right; right].
    cbn in Hu. rewrite lookup_insert_is_Some in Hu. destruct Hu as [<- | [_ Hu]]; [by right |].
    left. right. left. by exists u. }
  assert (forall b, task_footprint t b -> own K b) as Hit by (intros b [Hb _]; by apply Hi).
  split; cbn [ks semas locks own data adopt].
  - apply rep_new_task; [apply (sr_sched _ _ _ HK) | done | | |].
    + intros b Hb. by apply Hown, Hi.
    + intros b Hb. by apply Hown, Hi.
    + eapply task_at_ext; [| exact Hv]. intros b [Hb _]. apply (sr_data _ _ _ HK). by apply Hit.
  - apply (sr_value _ _ _ HK).
  - intros p Hp. destruct (sr_sema _ _ _ HK p Hp) as (H1 & H2 & H3). split; [| done].
    intros [H | H]%Hfp; [done |]. by apply (Hown p (Hit p H)).
  - apply (sr_words _ _ _ HK).
  - intros p b Hp Hb. destruct (sr_lock _ _ _ HK p b Hp Hb) as (H1 & H2 & H3). split; [done |].
    split; [| done]. intros [H | H]%Hfp; [done |]. by apply (Hown b (Hit b H)) in Hb.
  - apply (sr_locks _ _ _ HK).
  - apply (sr_semaphore _ _ _ HK).
  - intros b [Hb _]. by apply (sr_data _ _ _ HK).
  - intros b [Hb Hnb]. destruct (Hown b Hb) as (H1 & H2 & H3 & H4). split; [done |].
    split; [| done]. by intros [H | H]%Hfp.
Qed.

(** The invariant with the new thread at the end of the ready queue. *)
Lemma enlisted_wf A t v q : wf A -> tasks A !! t = None -> queues A !! thread_ready_list = Some q ->
  tv_status v = TASK_READY -> page_of (tv_kstack v) = t -> is_u32 (tv_kstack v) ->
  wf (enlisted t q (set_task t v A)).
Proof.
  intros HA Ht Hq Hst Hp Hu.
  assert (forall l ts, queues A !! l = Some ts -> ~ t ∈ ts) as Hnow.
  { intros l ts Hl Hin. destruct (wf_member _ HA l ts t Hl Hin) as [w Hw]. by rewrite Ht in Hw. }
  assert (forall l ts, queues (enlisted t q (set_task t v A)) !! l = Some ts ->
    (l = thread_ready_list /\ ts = q ++ [t]) \/ (l <> thread_ready_list /\ queues A !! l = Some ts)) as Hlk.
  { intros l ts. cbn. rewrite lookup_insert_Some. intros [[<- <-] | [Hne H]]; auto. }
  assert (forall u w, tasks (enlisted t q (set_task t v A)) !! u = Some w ->
    (u = t /\ w = v) \/ (u <> t /\ tasks A !! u = Some w)) as Htk.
  { intros u w. cbn. rewrite lookup_insert_Some. intros [[<- <-] | [Hne H]]; auto. }
  assert (cur A <> t) as Hcur by (intros He; destruct (wf_cur _ HA) as [w Hw]; by rewrite He, Ht in Hw).
  split.
  - apply (wf_esp _ HA).
  - cbn. by rewrite lookup_insert_eq.
  - intros l ts [[-> ->] | [_ H]]%Hlk; [| by eapply wf_nodup].
    apply NoDup_app. split; [by eapply wf_nodup |]. split; [| apply NoDup_singleton].
    intros x Hx ->%list_elem_of_singleton. by apply (Hnow _ _ Hq).
  - intros l ts u [[-> ->] | [_ H]]%Hlk Hin; cbn; rewrite lookup_insert_is_Some.
    + apply elem_of_app in Hin as [Hin | ->%list_elem_of_singleton]; [| by left].
      right. split; [intros ->; by apply (Hnow _ _ Hq) | by eapply (wf_member _ HA)].
    + right. split; [intros ->; by apply (Hnow _ _ H) | by eapply (wf_member _ HA)].
  - change (cur (enlisted t q (set_task t v A))) with (cur A). cbn. rewrite lookup_insert_is_Some.
    right. split; [done | apply (wf_cur _ HA)].
  - intros u w [[-> ->] | [_ H]]%Htk Hne; [done |]. by apply (wf_stacks _ HA).
  - intros u w [[-> ->] | [_ H]]%Htk; [done |]. by apply (wf_words _ HA u).
  - intros q' u w [[_ ->] | [Hne _]]%Hlk Hin [[-> ->] | [Hnt H]]%Htk; try done.
    apply elem_of_app in Hin as [Hin | ->%list_elem_of_singleton]; [| done]. by eapply (wf_ready _ HA).
  - intros l ts u w [[-> _] | [_ H]]%Hlk Hne Hin [[-> ->] | [Hnt Hw]]%Htk; try done.
    + by destruct (Hnow _ _ H).
    + by eapply (wf_waiters _ HA l ts u).
  - intros u w [[-> ->] | [_ H]]%Htk Hs; (exists (q ++ [t]); split; [cbn; by rewrite lookup_insert_eq |]).
    + apply elem_of_app. right. by left.
    + destruct (wf_runnable _ HA u w H Hs) as (q' & Hq' & Hin). rewrite Hq in Hq'. injection Hq' as <-.
      apply elem_of_app. by left.
  - intros u w [[-> ->] | [_ H]]%Htk Hs; [by rewrite Hst in Hs |]. by apply (wf_running _ HA u w).
Qed.
End adopt.

Section enlist.
Context {M : Type} {RM : RawMem M} {RL : RawMemLaws M} {LY : Layout}.
Implicit Types (s : kstate M) (R : Z -> Prop) (f : Z -> Z) (A : sched) (K : ksys) (G : protocol (kstate M)).

Lemma all_tags t ts : all_list_tag t ∈ map all_list_tag ts <-> t ∈ ts.
Proof.
  split; [| intros Hin; by apply list_elem_of_fmap_2].
  intros (u & Hu & Hin)%list_elem_of_fmap. unfold all_list_tag in Hu. by replace t with u by lia.
Qed.

Lemma wp_find_all G s R f A t (Q : bool -> kstate M -> Prop) :
  backs (kmem s) R f -> rep R f A -> Q (bool_decide (t ∈ all_threads A)) s ->
  wp G (elem_find thread_all_list (all_list_tag t)) s Q.
Proof.
  intros Hb HA HQ. eapply wp_elem_find; [exact Hb | apply (rep_all _ _ _ HA) |].
  by rewrite (bool_decide_ext _ _ (all_tags t _)).
Qed.

(** The end of the list of all threads. *)
Lemma rep_set_all R f f' A t : rep R f A -> is_Some (tasks A !! t) ->
  dlist R f' thread_all_list (map all_list_tag (all_threads A ++ [t])) ->
  same_outside (all_list_tag t :: nodes thread_all_list (map all_list_tag (all_threads A))) f f' ->
  rep R f' (set_all (all_threads A ++ [t]) A) /\ sched_only A f f'.
Proof.
  intros HA Ht Hd Hout.
  assert (forall n, n ∈ all_list_tag t :: nodes thread_all_list (map all_list_tag (all_threads A)) ->
    n = thread_all_list \/ n = thread_all_list + 8 \/ exists u, is_Some (tasks A !! u) /\ n = all_list_tag u) as Hns.
  { intros n [-> | [-> | [-> | (u & Hu & ->)]]%nodes_all]%elem_of_cons; eauto.
    right. right. exists u. split; [by apply (rep_all_member _ _ _ HA) | done]. }
  assert (forall l ts y n, queues A !! l = Some ts -> y ∈ nodes l (map general_tag ts) ->
    n ∈ all_list_tag t :: nodes thread_all_list (map all_list_tag (all_threads A)) -> apart y n) as Hap.
  { intros l ts y n Hl Hy%nodes_tags Hn%Hns. pose proof (mk_is_Some _ _ Hl) as Hl_.
    pose proof (rep_all_queue _ _ _ HA l Hl_) as Hq.
    destruct Hn as [-> | [-> | (u & Hu & ->)]]; destruct Hy as [-> | [-> | (x & Hx & ->)]];
      unfold clear, apart, task_struct_size, general_tag, all_list_tag in *; try lia.
    1, 2: pose proof (rep_all_task _ _ _ HA x (rep_member _ _ _ HA l ts x Hl Hx)); unfold clear, task_struct_size in *; lia.
    1, 2: pose proof (rep_tq _ _ _ HA u l Hu Hl_); unfold clear, task_struct_size in *; lia.
    destruct (Z.eq_dec x u) as [-> | Hne]; [lia |].
    pose proof (rep_tasks _ _ _ HA x u (rep_member _ _ _ HA l ts x Hl Hx) Hu Hne).
    unfold clear, task_struct_size in *; lia. }
  split.
  - split; try apply HA; cbn [all_threads tasks queues set_all].
    + intros l ts Hl. eapply dlist_outside; [exact Hout | | by apply (rep_queue _ _ _ HA)].
      intros y n Hy Hn. by eapply Hap.
    + intros u v Hu. eapply task_at_ext; [| by apply (rep_task _ _ _ HA)].
      intros b [[Hb _] Hng]. apply Hout. intros n [-> | [-> | (x & Hx & ->)]]%Hns Hnb;
        unfold span, clear, task_struct_size, general_tag, all_list_tag in *.
      * pose proof (rep_all_task _ _ _ HA u (mk_is_Some _ _ Hu)). unfold clear, task_struct_size in *. lia.
      * pose proof (rep_all_task _ _ _ HA u (mk_is_Some _ _ Hu)). unfold clear, task_struct_size in *. lia.
      * destruct (Z.eq_dec x u) as [-> | Hne]; [lia |].
        pose proof (rep_tasks _ _ _ HA x u Hx (mk_is_Some _ _ Hu) Hne). unfold clear, task_struct_size in *. lia.
    + done.
    + intros u [Hu | ->%list_elem_of_singleton]%elem_of_app; [by apply (rep_all_member _ _ _ HA) | done].
  - intros b Hb. apply Hout. intros n [-> | [-> | (x & Hx & ->)]]%Hns Hnb; apply Hb.
    + right. right. unfold span in *. lia.
    + right. right. unfold span in *. lia.
    + right. left. exists x. split; [done | clear_lia].
Qed.

Lemma wp_enlist_all G s R f A t (Q : unit -> kstate M -> Prop) :
  backs (kmem s) R f -> rep R f A -> is_Some (tasks A !! t) -> ~ t ∈ all_threads A ->
  (forall m f', backs m R f' -> rep R f' (set_all (all_threads A ++ [t]) A) -> sched_only A f f' -> Q tt (set_mem m s)) ->
  wp G (list_append thread_all_list (all_list_tag t)) s Q.
Proof.
  intros Hb HA Ht Hn HQ. eapply wp_list_append; [exact Hb | apply (rep_all _ _ _ HA) | | |].
  - by apply (task_bytes _ _ _ _ 44 _ HA).
  - intros y [-> | [-> | (u & Hu & ->)]]%nodes_all.
    + pose proof (rep_all_task _ _ _ HA t Ht). unfold apart, clear, all_list_tag, task_struct_size in *. lia.
    + pose proof (rep_all_task _ _ _ HA t Ht). unfold apart, clear, all_list_tag, task_struct_size in *. lia.
    + assert (t <> u) as Hne by (by intros ->).
      pose proof (rep_tasks _ _ _ HA t u Ht (rep_all_member _ _ _ HA u Hu) Hne).
      unfold apart, clear, all_list_tag, task_struct_size in *. lia.
  - intros m f' Hm Hd Hout. destruct (rep_set_all R f f' A t HA Ht) as [Hr Ho]; [by rewrite map_app | done |].
    by eapply HQ.
Qed.

(** Both queues at once. *)
Lemma wp_enlist G s R f K t q file l1 l2 func (Q : unit -> kstate M -> Prop) :
  backs (kmem s) R f -> sys_rep R f K -> is_Some (tasks (ks K) !! t) -> queued_nowhere (ks K) t ->
  ~ t ∈ all_threads (ks K) -> queues (ks K) !! thread_ready_list = Some q ->
  (forall m f', backs m R f' -> sys_rep R f' (with_ks (enlisted t q (ks K)) K) -> Q tt (set_mem m s)) ->
  wp G (enlist file l1 l2 func t) s Q.
Proof.
  intros Hb HK Ht Hnow Hall Hq HQ. pose proof (sr_sched _ _ _ HK) as HA. unfold enlist.
  apply wp_bind. eapply wp_queue_find; [exact Hb | exact HA | exact Hq |].
  rewrite bool_decide_false by (by eapply Hnow). apply wp_bind, wp_assert; [done |].
  apply wp_bind. eapply wp_enqueue; [exact Hb | exact HA | exact Hq | exact Ht | exact Hnow |].
  intros m1 f1 H1 HA1 Ho1. set (A1 := set_queue thread_ready_list (q ++ [t]) (ks K)) in *.
  apply wp_bind. eapply wp_find_all; [exact H1 | exact HA1 |].
  rewrite bool_decide_false by done. apply wp_bind, wp_assert; [done |].
  eapply wp_enlist_all; [exact H1 | exact HA1 | exact Ht | exact Hall |].
  intros m2 f2 H2 HA2 Ho2. eapply (HQ m2 f2 H2). eapply sys_step; [exact HK | exact HA2 | |].
  - apply set_queue_objects. by exists q.
  - eapply sched_only_trans; [| exact Ho1 | exact Ho2]. intros b. apply set_queue_footprint. by exists q.
Qed.
End enlist.

(** ** A thread is started, on a page that is there *)

Section spawn.
Context {M : Type} {RM : RawMem M} {RL : RawMemLaws M} {LY : Layout}.
Implicit Types (s : kstate M) (R : Z -> Prop) (f : Z -> Z) (K : ksys) (G : protocol (kstate M)).

(** The view of a thread that has just been started. *)
Definition started_view (t prio : Z) : tview :=
  mk_tview (first_stack t) TASK_READY (u8 prio) (u8 prio) 0 0 STACK_MAGIC.

(** A page, a name, and the lock of the process numbers. *)
Record can_start (s : kstate M) (K : ksys) (t name_ : Z) (l : list Z) (h n : Z) : Prop := mk_can_start {
  cs_page : inside (own K) t 4096;
  cs_aligned : t mod 4096 = 0;
  cs_addr : t <> 0 /\ t + 4096 < 4294967296;
  cs_new : tasks (ks K) !! t = None;
  cs_main : t <> main_thread (kvar s);
  cs_name : inside (own K) name_ (len l + 1);
  cs_string : cstr (data K) name_ l;
  cs_length : len l <= 16;
  cs_apart : t + 4096 <= name_ \/ name_ + len l + 1 <= t;
  cs_lock : lock_ready K pid_lock h n;
  cs_count : 0 <= n }.

(** The words of the first frame. *)
Definition frame_words (f : Z -> Z) (t function func_arg : Z) : Prop :=
  w32 f (ts_eip (first_stack t)) = fn "kernel_thread" /\
  w32 f (ts_function (first_stack t)) = function /\ w32 f (ts_func_arg (first_stack t)) = func_arg.

Lemma frame_words_ext f f' t function func_arg : frame_words f t function func_arg ->
  (forall b, span (first_stack t) 32 b -> f' b = f b) -> frame_words f' t function func_arg.
Proof.
  intros (H1 & H2 & H3) Hf. unfold frame_words, first_stack, ts_eip, ts_function, ts_func_arg in *.
  split; [| split]; (erewrite w32_ext; [eassumption |]; intros b Hb; apply Hf; unfold span in *; lia).
Qed.

Lemma frame_words_keep f f' t function func_arg : frame_words f t function func_arg ->
  (forall b, span t 4096 b -> f' b = f b) -> frame_words f' t function func_arg.
Proof. intros Hw Hf. eapply frame_words_ext; [exact Hw |]. intros b Hb. apply Hf. unfold first_stack, span in *. lia. Qed.

(** From [K] to [K'] the thread [t] has been started. *)
Record started (s : kstate M) (K K' : ksys) (t prio function func_arg : Z) (q : list Z) (h n : Z) : Prop := mk_started {
  st_sched : ks K' = enlisted t q (set_task t (started_view t prio) (ks K));
  st_own b : own K' b <-> own K b /\ ~ task_footprint t b;
  st_frame : frame_words (data K') t function func_arg;
  st_pid : w16 (data K') (pid t) = u16 (fresh_pid s);
  st_data b : ~ span t 4096 b -> data K' b = data K b;
  st_lock : locks K' !! pid_lock = Some (cur (ks K), lock_count K h n - 1) }.

Lemma new_view_started t prio f f' function func_arg : task_at f t (new_view TASK_READY t prio) ->
  first_frame f' t function func_arg -> (forall b, ~ span t 4 b -> ~ span (first_stack t) 32 b -> f' b = f b) ->
  task_at f' t (started_view t prio).
Proof.
  intros [H1 H2 H3 H4 H5 H6 H7] Hfr Hout. unfold first_stack in Hout.
  assert (forall a, t + 4 <= a -> a + 4 <= t + 72 -> w32 f' a = w32 f a) as Hw.
  { intros a Ha Ha'. apply w32_ext. intros b Hb. apply Hout; unfold span in *; lia. }
  split; fields; cbn in *.
  - apply (ff_kstack _ _ _ _ Hfr).
  - by rewrite Hw by lia.
  - rewrite Hout; [done | unfold span; lia ..].
  - rewrite Hout; [done | unfold span; lia ..].
  - by rewrite Hw by lia.
  - by rewrite Hw by lia.
  - by rewrite Hw by lia.
Qed.

Lemma first_stack_page t : t mod 4096 = 0 -> is_u32 t -> page_of (first_stack t) = t.
Proof.
  intros Ht Hu. unfold page_of, first_stack. rewrite frame_land by (unfold is_u32 in *; zlia).
  apply frame_add; lia.
Qed.

(** The control block and the stack, before anybody knows the thread. *)
Lemma wp_prepare {A} G s R K t name_ l prio function func_arg h n (k : cmd (kstate M) A) (Q : A -> kstate M -> Prop) :
  sys R s K -> can_start s K t name_ l h n ->
  is_u32 function -> is_u32 func_arg -> is_u32 (fn "kernel_thread") ->
  (forall m K', sys R (numbered m s) K' -> ks K' = ks K -> own K' = own K ->
     locks K' !! pid_lock = Some (cur (ks K), lock_count K h n - 1) ->
     task_at (data K') t (started_view t prio) -> frame_words (data K') t function func_arg ->
     w16 (data K') (pid t) = u16 (fresh_pid s) -> (forall b, ~ span t 4096 b -> data K' b = data K b) ->
     wp G k (numbered m s) Q) ->
  wp G (init_thread t name_ prio;; thread_create t function func_arg;; k) s Q.
Proof.
  intros Hs [Hpg Hal [Ht0 Htu] Hnew Hmt Hnm Hstr Hlen Hap Hlock Hn] Hfn Harg Hkt HQ.
  apply wp_bind. eapply wp_init_thread; [exact Hs | exact Hlock | exact Hn | exact Hpg | exact Hnm | exact Hstr | done ..|].
  intros m1 K1 Hs1 Hk1 Ho1 Hl1 _ Htask Hpid Hd1. rewrite (proj2 (Z.eqb_neq t (main_thread (kvar s)))) in Htask by done.
  set (P0 := span t 4096). assert (forall b, P0 b -> own K1 b) as HP by (intros b Hb; rewrite Ho1; by apply Hpg).
  pose proof (own_laws_intro R _ K1 P0 HP Hs1) as Hb1.
  apply wp_bind. eapply (@wp_thread_create M RM (own_laws R (numbered m1 s) K1 P0 HP) _ _ _ P0);
    [exact Hb1 | by intros b Hb | apply (at_kstack _ _ _ Htask) | exact Hfn | exact Harg | exact Hkt |].
  intros m2 f2 H2 Hfr Hout2.
  destruct (own_result R (numbered m1 s) K1 P0 (fun b => span t 4 b \/ span (first_stack t) 32 b) HP m2 f2 H2)
    as (d2 & Hs2 & Hd2 & Hd2'); [intros b Hb; apply Hout2; tauto |].
  change (set_mem m2 (numbered m1 s)) with (numbered m2 s) in *.
  pose proof (new_view_started _ _ _ _ _ _ Htask Hfr Hout2) as Htask2.
  eapply HQ; [exact Hs2 | exact Hk1 | exact Ho1 | exact Hl1 | | | |]; cbn [data set_data].
  - eapply task_at_ext; [| exact Htask2]. intros b [[Hb _] _]. apply Hd2. unfold P0, span, task_struct_size in *. lia.
  - eapply frame_words_keep; [| exact Hd2]. split; [apply (ff_eip _ _ _ _ Hfr) |].
    split; [apply (ff_function _ _ _ _ Hfr) | apply (ff_arg _ _ _ _ Hfr)].
  - rewrite <- Hpid. apply w16_ext. intros b Hbb. apply Hd2'. unfold first_stack, span in *. fields. lia.
  - intros b Hbb. rewrite Hd2' by (unfold first_stack, span in *; lia). apply Hd1. unfold span in *. lia.
Qed.

(** A control block nobody knows becomes a thread at the end of both queues. *)
Lemma wp_enrol G s R K t v q file l1 l2 func (Q : unit -> kstate M -> Prop) :
  sys R s K -> inside (own K) t 72 -> tasks (ks K) !! t = None -> queues (ks K) !! thread_ready_list = Some q ->
  task_at (data K) t v -> tv_status v = TASK_READY -> page_of (tv_kstack v) = t -> is_u32 (tv_kstack v) ->
  (forall m, sys R (set_mem m s) (with_ks (enlisted t q (set_task t v (ks K))) (adopt t v K)) -> Q tt (set_mem m s)) ->
  wp G (enlist file l1 l2 func t) s Q.
Proof.
  intros [(f & Hb & HK) He HA Hrun] Hi Hnew Hq Htask Hst Hpg Hku HQ.
  pose proof (sys_rep_adopt R f K t v HK Hnew Hi Htask) as HK2.
  eapply (wp_enlist _ _ R f (adopt t v K) t q); [exact Hb | exact HK2 | | | | exact Hq |].
  - cbn. rewrite lookup_insert_eq. by eexists.
  - intros l0 ts0 Hl0 Hin. destruct (wf_member _ HA l0 ts0 t Hl0 Hin) as [w Hw]. by rewrite Hnew in Hw.
  - intros Hin%(rep_all_member _ _ _ (sr_sched _ _ _ HK)). rewrite Hnew in Hin. by destruct Hin.
  - intros m f' Hm HK'. apply HQ. split; [by exists f' | exact He | |]; cbn [ks with_ks adopt].
    + by eapply enlisted_wf.
    + destruct Hrun as (w & Hw & Hs). exists w. split; [| done]. cbn.
      change (cur (enlisted t q (set_task t v (ks K)))) with (cur (ks K)).
      rewrite lookup_insert_ne; [exact Hw |]. intros Heq. by rewrite <- Heq, Hnew in Hw.
Qed.

Lemma wp_spawn G s R K t name_ l prio function func_arg q h n file l1 l2 func (Q : Z -> kstate M -> Prop) :
  sys R s K -> can_start s K t name_ l h n -> queues (ks K) !! thread_ready_list = Some q ->
  is_u32 function -> is_u32 func_arg -> is_u32 (fn "kernel_thread") ->
  (forall m K', sys R (numbered m s) K' -> started s K K' t prio function func_arg q h n -> Q t (numbered m s)) ->
  wp G (init_thread t name_ prio;; thread_create t function func_arg;; enlist file l1 l2 func t;; cret t) s Q.
Proof.
  intros Hs Hcs Hq Hfn Harg Hkt HQ. pose proof Hcs as [Hpg Hal [Ht0 Htu] Hnew _ _ _ _ _ _ _].
  pose proof (backs_inside_u32 _ _ _ _ _ (sys_backs _ _ _ Hs) Hpg ltac:(lia)) as [Ht _].
  eapply wp_prepare; [exact Hs | exact Hcs | exact Hfn | exact Harg | exact Hkt |].
  intros m1 K1 Hs1 Hk1 Ho1 Hl1 Htask Hfw Hpid Hd1. rewrite <- Hk1 in Hnew, Hq.
  apply wp_bind. eapply (wp_enrol _ _ R K1 t (started_view t prio) q); [exact Hs1 | | exact Hnew | exact Hq | exact Htask | done | | |].
  - intros b Hbb. rewrite Ho1. apply Hpg. unfold span in *. lia.
  - apply first_stack_page; [done | unfold is_u32; lia].
  - cbn. unfold is_u32, first_stack. lia.
  - intros m3 Hs3. apply wp_ret. change (set_mem m3 (numbered m1 s)) with (numbered m3 s) in *. eapply HQ; [exact Hs3 |].
    split; cbn [ks with_ks adopt own data locks]; [by rewrite Hk1 | intros b; by rewrite Ho1 | done ..].
Qed.
End spawn.

(** ** Properties *)

Section properties.
Context {M : Type} {RM : RawMem M} {RL : RawMemLaws M} {LY : Layout}.
Implicit Types (s : kstate M) (R : Z -> Prop) (f : Z -> Z).

Lemma kernel_thread_enables (body : Z -> K (M := M) unit) func_arg s :
  kernel_thread body func_arg s = body func_arg (set_if true s).
Proof. destruct s as [m i e v p o c l]. by destruct i. Qed.

(** C35. The frame [thread_create] builds is what the switch expects: a switch to
    the thread's saved stack jumps to [kernel_thread], which finds the function
    and its argument where a caller would have pushed them, turns interrupts
    on and calls the one with the other.  Outside the saved stack pointer and
    the frame nothing is written. *)
Theorem thread_create_runs s R f t function func_arg (body : Z -> K (M := M) unit) :
  backs (kmem s) R f -> inside R t 4096 -> t mod 4096 = 0 -> w32 f (self_kstack t) = t + 4096 ->
  is_u32 function -> is_u32 func_arg -> is_u32 (fn "kernel_thread") ->
  exists m f' e, let s' := set_mem m s in
    thread_create t function func_arg s = Done tt s' /\ backs m R f' /\
    w32 f' (self_kstack t) = e /\ page_of e = t /\
    switch_in e s' = Done (fn "kernel_thread", e + 20) s' /\
    cdecl_arg (e + 20) 0 s' = Done function s' /\ cdecl_arg (e + 20) 1 s' = Done func_arg s' /\
    kernel_thread body func_arg s' = body func_arg (set_if true s') /\
    (forall b, ~ span t 4 b -> ~ span e 32 b -> f' b = f b).
Proof.
  intros Hb Hi Ht Hk Hfn Harg Hkt.
  destruct (proj1 (wp_seq_only (thread_create t function func_arg) s (fun _ s' => exists m f',
    s' = set_mem m s /\ backs m R f' /\ first_frame f' t function func_arg /\
    forall b, ~ span t 4 b -> ~ span (first_stack t) 32 b -> f' b = f b)))
    as ([] & s' & Hc & m & f' & -> & Hb' & [H1 H2 H3 H4] & Hout).
  { eapply wp_thread_create; [exact Hb | exact Hi | done ..|]. intros m f' Hm Hff Hout. by exists m, f'. }
  pose proof (backs_inside_u32 _ _ _ _ _ Hb Hi ltac:(lia)) as Htu.
  exists m, f', (first_stack t). split; [exact Hc |]. split; [exact Hb' |]. split; [exact H1 |].
  split; [apply first_stack_page; [done | unfold is_u32; lia] |].
  unfold first_stack, ts_eip, ts_function, ts_func_arg in *. split; [| split; [| split; [| split]]].
  - apply returns_wp. intros Q HQ. unfold switch_in.
    do 5 (apply wp_bind; eapply wp_ld32; [exact Hb' | region |]; intros _). apply wp_ret. by rewrite H2.
  - apply returns_wp. intros Q HQ. eapply wp_ld32; [exact Hb' | region |]. intros _.
    replace (t + 3664 + 20 + 4 * (0 + 1)) with (t + 3664 + 24) by lia. by rewrite H3.
  - apply returns_wp. intros Q HQ. eapply wp_ld32; [exact Hb' | region |]. intros _.
    replace (t + 3664 + 20 + 4 * (1 + 1)) with (t + 3664 + 28) by lia. by rewrite H4.
  - apply kernel_thread_enables.
  - exact Hout.
Qed.
End properties.

Module examples.
#[local] Existing Instance demo_layout.

Definition page : flat := flat_of [(0xc0100000, 0xc0101000)].
Definition page_state : kstate flat := machine_of page.

Lemma thread_create_runs_witness : exists s' e, page_of e = 0xc0100000 /\
  thread_create 0xc0100000 0xc0001500 77 page_state = Done tt s' /\
  switch_in e s' = Done (0xc0001000, e + 20) s' /\ cdecl_arg (e + 20) 1 s' = Done 77 s'.
Proof.
  destruct (thread_create_runs page_state is_u32 (flat_at page) 0xc0100000 0xc0001500 77 (fun _ => cret tt))
    as (m & f' & e & Hc & _ & _ & Hp & Hs & _ & Ha & _).
  - apply flat_backs.
  - intros b Hb. unfold span, is_u32 in *. lia.
  - done.
  - vm_compute. reflexivity.
  - done.
  - done.
  - done.
  - exists (set_mem m page_state), e. split; [exact Hp |]. split; [exact Hc |]. split; [exact Hs | exact Ha].
Defined.
End examples.
