(* ===== verification/Entry.v ===== *)
(** kernel/kernel.S: how the processor and the entry code save the registers of
    the interrupted code, call the handler and restore them; the system call
    entry, and the stub of lib/user/syscall.c that uses it. *)

From S2P Require Import Prelude Monad RawMem Machine CString Global Thread Interrupt Tss Task.

(** The registers of the interrupted code.  [r_ss] and [r_esp] are its own. *)
Record context := mk_context {
  r_edi : Z; r_esi : Z; r_ebp : Z; r_ebx : Z; r_edx : Z; r_ecx : Z; r_eax : Z;
  r_gs : Z; r_fs : Z; r_es : Z; r_ds : Z;
  r_eip : Z; r_cs : Z; r_eflags : Z; r_esp : Z; r_ss : Z }.

Definition set_eax (v : Z) (c : context) : context :=
  mk_context (r_edi c) (r_esi c) (r_ebp c) (r_ebx c) (r_edx c) (r_ecx c) v
    (r_gs c) (r_fs c) (r_es c) (r_ds c) (r_eip c) (r_cs c) (r_eflags c) (r_esp c) (r_ss c).

(** A selector of privilege 3. *)
Definition outer (cs : Z) : bool := negb (Z.land cs 3 =? 0).

(** Whether the entry of a vector leaves the place of the error code to the
    processor (the second argument of the macro VECTOR). *)
Definition entry_expects_error (n : Z) : bool :=
  existsb (Z.eqb n) [0x08; 0x0a; 0x0b; 0x0d; 0x0e; 0x11; 0x18; 0x1a; 0x1b; 0x1d; 0x1e].

Section code.
Context {M : Type} {RM : RawMem M} {LY : Layout}.

Fixpoint pushes (sp : Z) (vs : list Z) : K (M := M) Z :=
  match vs with [] => cret sp | v :: vs => st32 (sp - 4) v;; pushes (sp - 4) vs end.

(** The processor (Intel SDM volume 3, 6.12.1): an interrupt gate turns
    interrupts off; code of privilege 3 continues on the stack the task state
    segment names; the frame is pushed, and for some exceptions an error code. *)
Definition deliver (c : context) (err : option Z) : K (M := M) Z :=
  modify (set_if false);;
  do sp <- (if outer (r_cs c) then do e <- ld32 (tss_esp0 tss); pushes e [r_ss c; r_esp c] else cret (r_esp c));
  do sp <- pushes sp [r_eflags c; r_cs c; r_eip c];
  match err with Some e => pushes sp [e] | None => cret sp end.

(** The entry code: a zero in the place of the error code, four segments,
    pushad, and the end of interrupt for both controllers. *)
Definition save_context (c : context) (sp : Z) (zero : bool) : K (M := M) Z :=
  do sp <- pushes sp (if zero then [0] else []);
  do sp <- pushes sp [r_ds c; r_es c; r_fs c; r_gs c];
  do sp <- pushes sp [r_eax c; r_ecx c; r_edx c; r_ebx c; sp; r_ebp c; r_esi c; r_edi c];
  outb 0xa0 0x20;; outb 0x20 0x20;;
  cret sp.

(** [intr_exit]: the vector is skipped, popad takes eight words and drops the
    stack pointer among them, four segments are popped, the error code is
    skipped and iret takes the rest; the stack is popped only when the
    privilege changes.  What iret checks of the segments is in [iret_checks]
    below: for the return to interrupted code it is nothing new, since the
    processor was fetching instructions from that segment at that address.
    [start_process], whose frame is not a processor's, makes the checks. *)
Definition intr_exit (p : Z) : K (M := M) context :=
  do edi <- ld32 (edi_ p); do esi <- ld32 (esi_ p); do ebp <- ld32 (ebp_ p); do ebx <- ld32 (ebx_ p);
  do edx <- ld32 (edx_ p); do ecx <- ld32 (ecx_ p); do eax <- ld32 (eax_ p);
  do gs <- ld32 (gs_ p); do fs <- ld32 (fs_ p); do es <- ld32 (es_ p); do ds <- ld32 (ds_ p);
  do eip <- ld32 (eip_ p); do cs <- ld32 (cs_ p); do eflags <- ld32 (eflags_ p);
  modify (set_if (Z.testbit eflags 9));;
  let back := mk_context edi esi ebp ebx edx ecx eax (u16 gs) (u16 fs) (u16 es) (u16 ds) eip (u16 cs) eflags in
  if outer (u16 cs) then do esp <- ld32 (esp_ p); do ss <- ld32 (ss_ p); cret (back esp (u16 ss))
  else modify (set_esp (p + 68));; cret (back (p + 68) SELECTOR_K_STACK).

(** What iret checks on the way to an outer privilege (Intel SDM volume 2): the
    code segment is a present code segment of that privilege that holds the
    first instruction, the stack segment a present writable one of that
    privilege.  Otherwise it raises an exception. *)
Definition code_segment_ok (selector : Z) (g : segment) : bool :=
  let rpl := Z.land selector 3 in
  seg_s g && Z.testbit (seg_type g) 3 &&
  (if Z.testbit (seg_type g) 2 then seg_dpl g <=? rpl else seg_dpl g =? rpl) && seg_present g.
Definition stack_segment_ok (rpl selector : Z) (g : segment) : bool :=
  (Z.land selector 3 =? rpl) && seg_s g && negb (Z.testbit (seg_type g) 3) && Z.testbit (seg_type g) 1 &&
  (seg_dpl g =? rpl) && seg_present g.
Definition iret_checks (c : context) : K (M := M) context :=
  do code <- load_desc (r_cs c);
  do stack <- load_desc (r_ss c);
  if code_segment_ok (r_cs c) (segment_of code) &&
     stack_segment_ok (Z.land (r_cs c) 3) (r_ss c) (segment_of stack) &&
     (r_eip c <=? seg_last (segment_of code))
  then cret c else fault.

(** The entry of vector [n]; [call] is what calling an address does. *)
Definition intr_entry (call : Z -> Z -> K (M := M) unit) (n : Z) (c : context) (err : option Z) : K (M := M) context :=
  do sp <- deliver c err;
  do sp <- save_context c sp (negb (entry_expects_error n));
  do sp <- pushes sp [n];
  do h <- ld32 (idt_table + n * 4);
  modify (set_esp sp);;
  do vec_nr <- ld32 sp; call h vec_nr;;
  intr_exit sp.

(** The entry of the system calls.  [mov al, EOI] has changed the low byte of
    eax when it selects the function. *)
Definition eax_after_eoi (eax : Z) : Z := Z.lor (Z.land eax 0xffffff00) 0x20.

Definition syscall_handler (call : Z -> Z -> Z -> Z -> K (M := M) Z) (c : context) : K (M := M) context :=
  do sp <- deliver c None;
  do sp <- save_context c sp true;
  do sp <- pushes sp [0x80];
  do args <- pushes sp [r_edx c; r_ecx c; r_ebx c];
  do f <- ld32 (syscall_table + eax_after_eoi (r_eax c) * 4);
  modify (set_esp args);;
  do a <- ld32 args; do b <- ld32 (args + 4); do d <- ld32 (args + 8);
  do r <- call f a b d;
  let sp := args + 12 in
  st32 (sp + (1 + 7) * 4) r;;
  intr_exit sp.

(** lib/user/syscall.c: the system call without arguments, made with the other
    registers [c]. *)
Definition _syscall0 call (c : context) (NUMBER : Z) : K (M := M) Z :=
  do c <- syscall_handler call (set_eax NUMBER c); cret (r_eax c).
Definition getpid call (c : context) : K (M := M) Z := _syscall0 call c SYS_GETPID.
End code.

(** ** Stacks of words *)

Fixpoint words_at (f : Z -> Z) (p : Z) (ws : list Z) : Prop :=
  match ws with [] => True | v :: ws => w32 f p = v /\ words_at f (p + 4) ws end.

Lemma words_at_app f p ws ws' :
  words_at f p (ws ++ ws') <-> words_at f p ws /\ words_at f (p + 4 * len ws) ws'.
Proof.
  revert p. induction ws as [| v ws IH]; intros p; cbn [app words_at].
  - rewrite len_nil, Z.add_0_r. tauto.
  - rewrite IH, len_cons. replace (p + 4 + 4 * len ws) with (p + 4 * (1 + len ws)) by lia. tauto.
Qed.

Lemma words_at_ext f f' p ws : words_at f p ws -> (forall b, span p (4 * len ws) b -> f' b = f b) -> words_at f' p ws.
Proof.
  revert p. induction ws as [| v ws IH]; intros p; [done |]. rewrite len_cons. pose proof (len_nonneg ws).
  intros [Hv Hws] Hf. split.
  - rewrite <- Hv. apply w32_ext. intros b Hb. apply Hf. unfold span in *. lia.
  - apply IH; [done |]. intros b Hb. apply Hf. unfold span in *. lia.
Qed.

Section rules.
Context {M : Type} {RM : RawMem M} {RL : RawMemLaws M} {LY : Layout}.
Implicit Types (s : kstate M) (R : Z -> Prop) (f : Z -> Z) (G : protocol (kstate M)).

(** Pushing below the words [ws]. *)
Lemma wp_pushes G s R f sp vs ws (Q : Z -> kstate M -> Prop) :
  backs (kmem s) R f -> inside R (sp - 4 * len vs) (4 * len vs) -> Forall is_u32 vs -> words_at f sp ws ->
  (forall m f', backs m R f' -> words_at f' (sp - 4 * len vs) (rev vs ++ ws) ->
     (forall b, ~ span (sp - 4 * len vs) (4 * len vs) b -> f' b = f b) -> Q (sp - 4 * len vs) (set_mem m s)) ->
  wp G (pushes sp vs) s Q.
Proof.
  revert s f sp ws. induction vs as [| v vs IH]; intros s f sp ws Hb Hi Hu Hw HQ.
  - apply wp_ret. rewrite len_nil, Z.mul_0_r, Z.sub_0_r in HQ. specialize (HQ (kmem s) f Hb Hw ltac:(done)).
    by destruct s.
  - rewrite len_cons in *. pose proof (len_nonneg vs). apply Forall_cons in Hu as [Hv Hu]. cbn [pushes].
    apply wp_bind. eapply wp_st32; [exact Hb | intros b Hbb; apply Hi; unfold span in *; lia |]. intros m Hm.
    replace (sp - 4 * (1 + len vs)) with (sp - 4 - 4 * len vs) in * by lia.
    eapply (IH _ _ _ (v :: ws)); [exact Hm | intros b Hbb; apply Hi; unfold span in *; lia | exact Hu | |].
    + split; [by rewrite w32_upd32_eq |]. replace (sp - 4 + 4) with sp by lia.
      eapply words_at_ext; [exact Hw |]. intros b Hbb. unfold span in Hbb. by rewrite upd32_ne by lia.
    + intros m' f' Hm' Hw' Ho. apply (HQ m' f' Hm').
      * cbn [rev]. by rewrite <- app_assoc.
      * intros b Hbb. unfold span in *. rewrite Ho by lia. apply upd32_ne. lia.
Qed.
End rules.

(** ** The frame of an interrupt *)

(** What one finds on the stack when the handler is called, from the vector
    up; [p] is its address. *)
Definition saved_esp (p : Z) : Z := p + 36.
Definition pushed_ss_esp (c : context) : list Z := if outer (r_cs c) then [r_esp c; r_ss c] else [].
Definition exit_frame (n d code : Z) (c : context) : list Z :=
  [n; r_edi c; r_esi c; r_ebp c; d; r_ebx c; r_edx c; r_ecx c; r_eax c;
   r_gs c; r_fs c; r_es c; r_ds c; code; r_eip c; r_cs c; r_eflags c] ++ pushed_ss_esp c.
Definition intr_frame (n p code : Z) (c : context) : list Z := exit_frame n (saved_esp p) code c.
Definition frame_size (c : context) : Z := if outer (r_cs c) then 76 else 68.

(** Where the frame ends: the processor changes the stack when the privilege
    changes. *)
Definition frame_top (f : Z -> Z) `{Layout} (c : context) : Z :=
  if outer (r_cs c) then w32 f (tss_esp0 tss) else r_esp c.

(** The registers have their widths, and kernel code runs on the kernel's stack
    segment. *)
Record context_ok (c : context) : Prop := mk_context_ok {
  co_words : Forall is_u32 [r_edi c; r_esi c; r_ebp c; r_ebx c; r_edx c; r_ecx c; r_eax c;
    r_eip c; r_eflags c; r_esp c];
  co_selectors : Forall (fun v => 0 <= v < 2 ^ 16) [r_gs c; r_fs c; r_es c; r_ds c; r_cs c; r_ss c];
  co_kernel : outer (r_cs c) = false -> r_ss c = SELECTOR_K_STACK }.

(** Where the frame goes: into memory, below the top of the stack. *)
Record frame_space `{Layout} (R : Z -> Prop) (f : Z -> Z) (c : context) : Prop := mk_frame_space {
  fs_frame : inside R (frame_top f c - frame_size c) (frame_size c);
  fs_tss : inside R (tss_esp0 tss) 4 }.

Lemma u16_is_u32 v : 0 <= v < 2 ^ 16 -> is_u32 v.
Proof. unfold is_u32. lia. Qed.
Lemma u16_small v : 0 <= v < 2 ^ 16 -> u16 v = v.
Proof. apply Z.mod_small. Qed.

(** The registers one by one. *)
Ltac widths :=
  repeat match goal with Hf : Forall _ (_ :: _) |- _ => apply Forall_cons in Hf as [? Hf] end;
  repeat apply Forall_cons_2; try apply Forall_nil_2; try done; try (apply u16_is_u32; done).

Lemma context_ok_set_eax c v : context_ok c -> is_u32 v -> context_ok (set_eax v c).
Proof.
  intros [Hw Hs Hk] Hv. split; cbn [set_eax r_cs r_ss]; [| exact Hs | exact Hk].
  clear Hs Hk. cbn. widths.
Qed.

(** The checks on two descriptors that pass all but for the limit. *)
Lemma wp_iret_checks {M : Type} {RM : RawMem M} {RL : RawMemLaws M} G (s : kstate M) R f gdt c (Q : context -> kstate M -> Prop) :
  backs (kmem s) R f -> gdtr (ktab s) = gdt -> in_gdt gdt (r_cs c) = true -> in_gdt gdt (r_ss c) = true ->
  inside R (desc_addr gdt (r_cs c)) 8 -> inside R (desc_addr gdt (r_ss c)) 8 ->
  let code := segment_of (gdt_desc_at f (desc_addr gdt (r_cs c))) in
  code_segment_ok (r_cs c) code = true ->
  stack_segment_ok (Z.land (r_cs c) 3) (r_ss c) (segment_of (gdt_desc_at f (desc_addr gdt (r_ss c)))) = true ->
  (r_eip c <= seg_last code -> Q c s) -> (seg_last code < r_eip c -> may_fault G s) ->
  wp G (iret_checks c) s Q.
Proof.
  intros Hb Hg Hcs Hss Hic His code Hok Hsk HQ HF. unfold iret_checks.
  apply wp_bind. eapply wp_load_desc; [exact Hb | exact Hg | done | done |].
  apply wp_bind. eapply wp_load_desc; [exact Hb | exact Hg | done | done |].
  fold code. rewrite Hok, Hsk. cbn [andb]. destruct (Z.leb_spec (r_eip c) (seg_last code)); [by apply wp_ret, HQ | by apply HF].
Qed.

Section frames.
Context {M : Type} {RM : RawMem M} {RL : RawMemLaws M} {LY : Layout}.
Implicit Types (s : kstate M) (R : Z -> Prop) (f : Z -> Z) (G : protocol (kstate M)).

(** The state in which the handler of a vector runs, apart from memory and
    stack pointer: interrupts are off and both controllers were told. *)
Definition entered s : kstate M := put_port (0x20, 0x20) (put_port (0xa0, 0x20) (set_if false s)).

(** Below [top] the words [ws] have been pushed; the rest is as in [f0]. *)
Record stacked (f0 : Z -> Z) (top : Z) (ws : list Z) (f : Z -> Z) : Prop := mk_stacked {
  sk_words : words_at f (top - 4 * len ws) ws;
  sk_rest : forall b, ~ span (top - 4 * len ws) (4 * len ws) b -> f b = f0 b }.

Lemma stacked_nil f top : stacked f top [] f.
Proof. by split. Qed.

Lemma wp_push G s R f0 top ws f sp vs (Q : Z -> kstate M -> Prop) :
  sp = top - 4 * len ws -> backs (kmem s) R f -> stacked f0 top ws f ->
  inside R (top - 4 * len (rev vs ++ ws)) (4 * len (rev vs ++ ws)) -> Forall is_u32 vs ->
  (forall m f', backs m R f' -> stacked f0 top (rev vs ++ ws) f' ->
     Q (top - 4 * len (rev vs ++ ws)) (set_mem m s)) ->
  wp G (pushes sp vs) s Q.
Proof.
  intros -> Hb [Hw Ho] Hi Hu HQ. pose proof (len_nonneg vs). pose proof (len_nonneg ws).
  assert (top - 4 * len (rev vs ++ ws) = top - 4 * len ws - 4 * len vs) as He.
  { unfold len. rewrite length_app, length_rev. lia. }
  assert (4 * len (rev vs ++ ws) = 4 * len ws + 4 * len vs) as He' by lia.
  eapply wp_pushes; [exact Hb | intros b Hbb; apply Hi; unfold span in *; lia | exact Hu | exact Hw |].
  intros m f' Hm Hw' Ho'. rewrite He in HQ. apply (HQ m f' Hm). split; rewrite He; [exact Hw' |].
  intros b Hbb. unfold len in Hbb. rewrite length_app, length_rev in Hbb. fold (len vs) in Hbb.
  unfold span, len in *. rewrite Ho' by lia. apply Ho. lia.
Qed.

(** What the processor pushes, latest first. *)
Definition hardware_frame (c : context) (err : option Z) : list Z :=
  match err with Some e => [e] | None => [] end ++ [r_eip c; r_cs c; r_eflags c] ++ pushed_ss_esp c.

Lemma wp_deliver G s R f c err (Q : Z -> kstate M -> Prop) :
  backs (kmem s) R f -> context_ok c -> frame_space R f c -> (forall e, err = Some e -> is_u32 e) ->
  (forall m f', backs m R f' -> stacked f (frame_top f c) (hardware_frame c err) f' ->
     Q (frame_top f c - 4 * len (hardware_frame c err)) (set_if false (set_mem m s))) ->
  wp G (deliver c err) s Q.
Proof.
  intros Hb [Hw Hs _] [Hi Ht] He HQ. unfold deliver.
  apply wp_bind, wp_modify, wp_bind. unfold frame_top, frame_size in Hi.
  assert (forall G' (Q' : Z -> kstate M -> Prop), (forall m f1, backs m R f1 -> stacked f (frame_top f c) (pushed_ss_esp c) f1 ->
    Q' (frame_top f c - 4 * len (pushed_ss_esp c)) (set_if false (set_mem m s))) ->
    wp G' (if outer (r_cs c) then do e <- ld32 (tss_esp0 tss); pushes e [r_ss c; r_esp c] else cret (r_esp c)) (set_if false s) Q') as Hsw.
  { intros G' Q' HQ'. unfold pushed_ss_esp, frame_top in *. destruct (outer (r_cs c)).
    - apply wp_bind. eapply wp_ld32; [exact Hb | exact Ht |]. intros _.
      eapply (wp_push _ _ _ f (w32 f (tss_esp0 tss)) []); [rewrite len_nil; lia | exact Hb | apply stacked_nil | | |].
      + intros b Hbb. apply Hi. unfold span, len in *. cbn in *. lia.
      + widths.
      + intros m f1 Hm Hk. by apply (HQ' m f1).
    - apply wp_ret. replace (r_esp c) with (r_esp c - 4 * len (@nil Z)) at 1 by (rewrite len_nil; lia).
      specialize (HQ' (kmem s) f Hb (stacked_nil _ _)). by destruct s. }
  eapply Hsw. clear Hsw. intros m1 f1 Hm1 Hk1. apply wp_bind.
  assert (forall ws : list Z, 4 * len ws <= frame_size c -> inside R (frame_top f c - 4 * len ws) (4 * len ws)) as Hin.
  { intros ws Hle b Hbb. apply Hi. fold (frame_top f c). fold (frame_size c). unfold span in *. lia. }
  eapply wp_push; [done | exact Hm1 | exact Hk1 | apply Hin | widths |].
  { unfold frame_size, pushed_ss_esp. by destruct (outer _). }
  intros m2 f2 Hm2 Hk2. change (rev _ ++ _) with ([r_eip c; r_cs c; r_eflags c] ++ pushed_ss_esp c) in Hk2.
  unfold hardware_frame in HQ. destruct err as [e |].
  - specialize (He e eq_refl).
    eapply (wp_push _ _ _ f (frame_top f c) ([r_eip c; r_cs c; r_eflags c] ++ pushed_ss_esp c));
      [reflexivity | exact Hm2 | exact Hk2 | | widths |].
    + apply Hin. unfold frame_size, pushed_ss_esp. by destruct (outer _).
    + intros m3 f3 Hm3 Hk3. apply (HQ m3 f3); [exact Hm3 | exact Hk3].
  - apply wp_ret. apply (HQ m2 f2); [exact Hm2 | exact Hk2].
Qed.

(** On entry: the processor's frame, the segments, the registers and the
    vector, with a zero where the processor pushes no error code. *)
Lemma wp_stacked_entry {A} G s R f n c err (k : Z -> cmd (kstate M) A) Q :
  backs (kmem s) R f -> context_ok c -> frame_space R f c -> is_u32 n ->
  (forall e, err = Some e -> is_u32 e) -> entry_expects_error n = bool_decide (is_Some err) ->
  let p := frame_top f c - frame_size c in
  (forall m f', backs m R f' -> words_at f' p (intr_frame n p (default 0 err) c) ->
     (forall b, ~ span p (frame_size c) b -> f' b = f b) -> wp G (k p) (entered (set_mem m s)) Q) ->
  wp G (do sp <- deliver c err; do sp <- save_context c sp (negb (entry_expects_error n));
        do sp <- pushes sp [n]; k sp) s Q.
Proof.
  intros Hb Hc Hsp Hn He Hx p HQ. pose proof Hsp as [Hi _]. pose proof Hc as [Hw Hs _].
  assert (forall ws : list Z, 4 * len ws <= frame_size c -> inside R (frame_top f c - 4 * len ws) (4 * len ws)) as Hin.
  { intros ws Hle b Hbb. apply Hi. unfold span in *. lia. }
  assert (4 * len (intr_frame n p (default 0 err) c) = frame_size c) as Hsize.
  { unfold frame_size, intr_frame, exit_frame, pushed_ss_esp. by destruct (outer _). }
  apply wp_bind. eapply wp_deliver; [done .. |]. intros m1 f1 Hm1 Hk1. apply wp_bind. unfold save_context.
  set (ws1 := default 0 err :: [r_eip c; r_cs c; r_eflags c] ++ pushed_ss_esp c).
  apply wp_bind. eapply wp_push; [done | exact Hm1 | exact Hk1 | apply Hin | |].
  { unfold frame_size, hardware_frame, pushed_ss_esp. rewrite Hx. destruct err, (outer _); by vm_compute. }
  { rewrite Hx. destruct err; cbn; by widths. }
  intros m2 f2 Hm2 Hk2.
  assert (rev (if negb (entry_expects_error n) then [0] else []) ++ hardware_frame c err = ws1) as Hws.
  { rewrite Hx. by destruct err. }
  rewrite Hws in *. clear Hws.
  apply wp_bind. eapply wp_push; [done | exact Hm2 | exact Hk2 | apply Hin | widths |].
  { unfold frame_size, ws1, pushed_ss_esp. by destruct (outer _). }
  intros m3 f3 Hm3 Hk3. cbn [rev app] in Hk3.
  set (ws3 := r_gs c :: _) in Hk3. change (len _) with (len ws3).
  assert (frame_top f c - 4 * len ws3 = saved_esp p) as Hesp.
  { unfold p, saved_esp, frame_size, ws3, ws1, pushed_ss_esp, len. destruct (outer _); cbn [length app]; lia. }
  assert (is_u32 (saved_esp p)) as Hpu.
  { assert (inside R (saved_esp p) 4) as Hi4.
    { unfold saved_esp. intros b Hbb. apply Hi. unfold p, frame_size, span in *. clear Hesp.
      destruct (outer _); lia. }
    pose proof (backs_inside_u32 _ _ _ _ _ Hb Hi4 ltac:(done)). unfold is_u32. lia. }
  rewrite Hesp. apply wp_bind.
  eapply wp_push; [by rewrite Hesp | exact Hm3 | exact Hk3 | apply Hin | |].
  { unfold frame_size, ws3, ws1, pushed_ss_esp. by destruct (outer _). }
  { clear Hk1 Hk2 Hk3. widths. }
  intros m4 f4 Hm4 Hk4. apply wp_bind, wp_modify, wp_bind, wp_modify, wp_ret, wp_bind.
  eapply (wp_push _ _ _ f (frame_top f c)); [reflexivity | exact Hm4 | exact Hk4 | apply Hin | widths |].
  { apply Z.eq_le_incl, Hsize. }
  intros m5 f5 Hm5 Hk5. change (stacked f (frame_top f c) (intr_frame n p (default 0 err) c) f5) in Hk5.
  change (wp G (k (frame_top f c - 4 * len (intr_frame n p (default 0 err) c))) (entered (set_mem m5 s)) Q).
  destruct Hk5 as [Hw5 Ho5]. rewrite Hsize in *. by apply (HQ m5 f5 Hm5).
Qed.

(** On exit the registers are what the frame holds; the words for the vector,
    the stack pointer of pushad and the error code are dropped. *)
Definition exited s (c : context) : kstate M :=
  set_if (Z.testbit (r_eflags c) 9) (if outer (r_cs c) then s else set_esp (r_esp c) s).

Lemma wp_intr_exit G s R f n d p code c (Q : context -> kstate M -> Prop) :
  backs (kmem s) R f -> inside R p (frame_size c) -> words_at f p (exit_frame n d code c) -> context_ok c ->
  (outer (r_cs c) = false -> r_esp c = p + 68) -> Q c (exited s c) -> wp G (intr_exit p) s Q.
Proof.
  intros Hb Hi Hw [_ Hs Hk] Hesp HQ. unfold exit_frame in Hw. apply words_at_app in Hw as [Hw Hx].
  cbn [words_at] in Hw. rewrite <- !Z.add_assoc in Hw. 
  repeat match type of Hw with context [p + (?a + ?b)] => let k := eval vm_compute in (a + b) in change (a + b) with k in Hw end.
  destruct Hw as (_ & Hedi & Hesi & Hebp & _ & Hebx & Hedx & Hecx & Heax & Hgs & Hfs & Hes & Hds & _ & Heip & Hcs & Hfl & _).
  assert (forall o, 0 <= o <= 64 -> inside R (p + o) 4) as Hin.
  { intros o Ho b Hbb. apply Hi. unfold frame_size, span in *. destruct (outer _); lia. }
  unfold intr_exit.
  do 14 (apply wp_bind; eapply wp_ld32; [exact Hb | apply Hin; lia | intros _]).
  apply wp_bind, wp_modify.
  unfold edi_, esi_, ebp_, ebx_, edx_, ecx_, eax_, gs_, fs_, es_, ds_, eip_, cs_, eflags_, esp_, ss_.
  rewrite Hedi, Hesi, Hebp, Hebx, Hedx, Hecx, Heax, Hgs, Hfs, Hes, Hds, Heip, Hcs, Hfl.
  unfold exited, frame_size, pushed_ss_esp in *.
  assert (forall v, In v [r_gs c; r_fs c; r_es c; r_ds c; r_cs c; r_ss c] -> u16 v = v) as Hu.
  { intros v Hv. apply u16_small. rewrite Forall_forall in Hs. apply Hs. by apply list_elem_of_In. }
  rewrite !Hu by (cbn; tauto). destruct (outer (r_cs c)) eqn:Ho.
  - cbn [words_at] in Hx. destruct Hx as (He & Hss & _). change (len _) with 17 in *.
    replace (p + 4 * 17) with (p + 68) in * by lia. replace (p + 68 + 4) with (p + 72) in * by lia.
    apply wp_bind. eapply wp_ld32; [exact Hb | intros b Hbb; apply Hi; unfold span in *; lia |]. intros _.
    apply wp_bind. eapply wp_ld32; [exact Hb | intros b Hbb; apply Hi; unfold span in *; lia |]. intros _.
    rewrite He, Hss, Hu by (cbn; tauto). apply wp_ret. by destruct c.
  - apply wp_bind, wp_modify, wp_ret. rewrite <- Hesp, <- Hk by done. by destruct c.
Qed.

(** What [call] of a handler may do: anything that leaves the frame. *)
Definition keeps_frame (G : protocol (kstate M)) R p ws (h : cmd (kstate M) unit) s (T : kstate M -> Prop) : Prop :=
  wp G h s (fun _ s' => T s' /\ exists f', backs (kmem s') R f' /\ words_at f' p ws).

Lemma wp_intr_entry G s R f call n c err T (Q : context -> kstate M -> Prop) :
  backs (kmem s) R f -> context_ok c -> frame_space R f c -> 0 <= n < IDT_DESC_CNT ->
  (forall e, err = Some e -> is_u32 e) -> entry_expects_error n = bool_decide (is_Some err) ->
  let p := frame_top f c - frame_size c in
  inside R (handler_addr n) 4 -> (forall b, span (handler_addr n) 4 b -> ~ span p (frame_size c) b) ->
  (forall m f', backs m R f' -> words_at f' p (intr_frame n p (default 0 err) c) ->
     (forall b, ~ span p (frame_size c) b -> f' b = f b) ->
     keeps_frame G R p (intr_frame n p (default 0 err) c)
       (call (w32 f (handler_addr n)) n) (set_esp p (entered (set_mem m s))) T) ->
  (forall s', T s' -> Q c (exited s' c)) ->
  wp G (intr_entry call n c err) s Q.
Proof.
  intros Hb Hc Hsp Hn He Hx p Hh Hap Hcall HQ. unfold IDT_DESC_CNT in Hn. unfold intr_entry.
  eapply wp_stacked_entry; [exact Hb | exact Hc | exact Hsp | unfold is_u32; lia | exact He | exact Hx |].
  intros m1 f1 Hm1 Hw1 Ho1. unfold handler_addr in *. fold p in Hw1, Ho1 |- *.
  apply wp_bind. eapply wp_ld32; [exact Hm1 | by replace (n * 4) with (4 * n) by lia |]. intros _.
  replace (n * 4) with (4 * n) by lia. rewrite (w32_ext f1 f) by (intros b Hbb; apply Ho1, Hap, Hbb).
  apply wp_bind, wp_modify, wp_bind.
  eapply wp_ld32; [exact Hm1 | intros b Hbb; apply (fs_frame _ _ _ Hsp); fold p; unfold frame_size, span in *; destruct (outer _); lia |].
  intros _. rewrite (proj1 Hw1). apply wp_bind. eapply wp_mono; [by apply (Hcall m1 f1) |].
  intros [] s' (HT & f' & Hb' & Hw').
  eapply wp_intr_exit; [exact Hb' | exact (fs_frame _ _ _ Hsp) | exact Hw' | exact Hc | | by apply HQ].
  intros Ho. unfold p, frame_top, frame_size. rewrite Ho. lia.
Qed.

(** The frame with another eax. *)
Lemma words_at_insert f p ws i v : words_at f p ws -> (i < length ws)%nat -> is_u32 v ->
  words_at (upd32 f (p + 4 * Z.of_nat i) v) p (<[i := v]> ws).
Proof.
  revert p i. induction ws as [| w ws IH]; intros p i; cbn [length]; [lia |]. intros [Hw Hws] Hi Hv.
  destruct i as [| i]; cbn [insert list_insert words_at].
  - rewrite Z.mul_0_r, Z.add_0_r. split; [by rewrite w32_upd32_eq |].
    eapply words_at_ext; [exact Hws |]. intros b Hb. unfold span in Hb. by rewrite upd32_ne by lia.
  - split; [by rewrite w32_upd32_ne by lia |].
    replace (p + 4 * Z.of_nat (S i)) with (p + 4 + 4 * Z.of_nat i) by lia. apply IH; [done | lia | done].
Qed.

(** Whatever the number in eax, the word taken is not one of the 32 of the
    table: the low byte of eax is the end of interrupt. *)
Definition called (f : Z -> Z) (c : context) : Z := w32 f (syscall_table + eax_after_eoi (r_eax c) * 4).

Lemma eax_after_eoi_mod v : is_u32 v -> eax_after_eoi v = 256 * (v / 256) + 32.
Proof.
  intros Hv. unfold eax_after_eoi. assert (Z.land v 0xffffff00 = v / 256 * 2 ^ 8) as ->.
  { change 0xffffff00 with (Z.shiftl (Z.ones 24) 8). rewrite land_shiftl_ones, Z.shiftl_mul_pow2, shiftr_div, Z.land_ones by lia.
    unfold is_u32 in Hv. rewrite Z.mod_small by zlia. done. }
  change 0x20 with 32. rewrite (lor_disjoint' 32 _ 8) by lia. lia.
Qed.

Lemma wp_syscall_handler G s R f call c T (Q : context -> kstate M -> Prop) :
  backs (kmem s) R f -> context_ok c -> frame_space R f c ->
  let p := frame_top f c - frame_size c in let slot := syscall_table + eax_after_eoi (r_eax c) * 4 in
  inside R (p - 12) 12 -> inside R slot 4 -> (forall b, span slot 4 b -> ~ span (p - 12) (12 + frame_size c) b) ->
  (forall m f', backs m R f' -> words_at f' p (intr_frame 0x80 p 0 c) ->
     (forall b, ~ span (p - 12) (12 + frame_size c) b -> f' b = f b) ->
     wp G (call (called f c) (r_ebx c) (r_ecx c) (r_edx c)) (set_esp (p - 12) (entered (set_mem m s)))
       (fun r s' => is_u32 r /\ T r s' /\ exists f', backs (kmem s') R f' /\ words_at f' p (intr_frame 0x80 p 0 c))) ->
  (forall r s' m, T r s' -> stw (kmem s') (eax_ p) r = Some m -> Q (set_eax r c) (exited (set_mem m s') c)) ->
  wp G (syscall_handler call c) s Q.
Proof.
  intros Hb Hc Hsp p slot Hargs Hslot Hap Hcall HQ. unfold syscall_handler.
  assert (forall o n, 0 <= o -> 0 <= n -> o + n <= 68 -> inside R (p + o) n) as Hin.
  { intros o n Ho Hn Hon b Hbb. apply (fs_frame _ _ _ Hsp). fold p. unfold frame_size, span in *.
    destruct (outer _); lia. }
  pose proof (co_words _ Hc) as Hw.
  eapply (wp_stacked_entry G s R f 0x80 c None); [exact Hb | exact Hc | exact Hsp | done | done | done |].
  intros m1 f1 Hm1 Hw1 Ho1. fold p in Hw1, Ho1 |- *. apply wp_bind. cbn [default] in Hw1.
  eapply (wp_pushes _ _ _ _ _ [r_edx c; r_ecx c; r_ebx c]); [exact Hm1 | exact Hargs | widths | exact Hw1 |].
  intros m2 f2 Hm2 Hw2 Ho2. change (4 * len [r_edx c; r_ecx c; r_ebx c]) with 12 in *.
  apply words_at_app in Hw2 as [Hwa Hw2]. change (p - 12 + 4 * len (rev [r_edx c; r_ecx c; r_ebx c])) with (p - 12 + 12) in Hw2.
  replace (p - 12 + 12) with p in * by lia.
  assert (forall b, ~ span (p - 12) (12 + frame_size c) b -> f2 b = f b) as Ho.
  { intros b Hbb. assert (68 <= frame_size c) by (unfold frame_size; destruct (outer _); lia).
    clear Hap Hin. unfold span in *. rewrite Ho2 by lia. apply Ho1. lia. }
  apply wp_bind. eapply wp_ld32; [exact Hm2 | exact Hslot |]. intros _.
  rewrite (w32_ext f2 f) by (intros b Hbb; apply Ho, Hap, Hbb). fold (called f c).
  apply wp_bind, wp_modify.
  cbn [rev app words_at] in Hwa. destruct Hwa as (H1 & H2 & H3 & _).
  replace (p - 12 + 4 + 4) with (p - 12 + 8) in H3 by lia.
  do 3 (apply wp_bind; eapply wp_ld32; [exact Hm2 | intros b Hbb; apply Hargs; unfold span in *; lia | intros _]).
  rewrite H1, H2, H3. apply wp_bind. eapply wp_mono; [by apply (Hcall m2 f2) |].
  intros r s' (Hr & HT & f' & Hb' & Hw'). apply wp_bind. cbv zeta. replace (p - 12 + 12) with p by lia.
  assert (inside R (p + (1 + 7) * 4) 4) as Hie by (apply Hin; lia).
  destruct (backs_stw _ _ _ _ r Hb' Hie) as (m & Hst & Hm). eapply wp_st32_at; [exact Hst |].
  eapply (wp_intr_exit _ _ R _ 0x80 (saved_esp p) p 0 (set_eax r c)); [exact Hm | exact (fs_frame _ _ _ Hsp) | | by apply context_ok_set_eax | | by apply HQ].
  - apply (words_at_insert f' p (intr_frame 0x80 p 0 c) 8 r) in Hw'; [exact Hw' | cbn; lia | exact Hr].
  - cbn [set_eax r_cs r_esp]. intros Hout. unfold p, frame_top, frame_size. rewrite Hout. lia.
Qed.
End frames.

(** ** Properties *)

Section properties.
Context {M : Type} {RM : RawMem M} {RL : RawMemLaws M} {LY : Layout}.
Implicit Types (s : kstate M) (R : Z -> Prop) (f : Z -> Z) (G : protocol (kstate M)).

(** C7. An interrupt or exception, from kernel or user code, is transparent: the
    function of the table is called with the vector, with interrupts off, the
    controllers told and the stack pointer at the frame; and if it leaves the
    frame alone, whatever else it does, other threads running meanwhile
    included, the interrupted code continues with every register as it was,
    its stack pointer and its interrupt flag included. *)
Theorem intr_entry_restores G s R f call n c err T :
  backs (kmem s) R f -> context_ok c -> frame_space R f c -> 0 <= n < IDT_DESC_CNT ->
  (forall e, err = Some e -> is_u32 e) -> entry_expects_error n = bool_decide (is_Some err) ->
  let p := frame_top f c - frame_size c in
  inside R (handler_addr n) 4 -> (forall b, span (handler_addr n) 4 b -> ~ span p (frame_size c) b) ->
  (forall m f', backs m R f' -> words_at f' p (intr_frame n p (default 0 err) c) ->
     (forall b, ~ span p (frame_size c) b -> f' b = f b) ->
     keeps_frame G R p (intr_frame n p (default 0 err) c)
       (call (w32 f (handler_addr n)) n) (set_esp p (entered (set_mem m s))) T) ->
  wp G (intr_entry call n c err) s (fun c' s' => c' = c /\ exists s1, T s1 /\
    s' = set_if (Z.testbit (r_eflags c) 9) (if outer (r_cs c) then s1 else set_esp (r_esp c) s1)).
Proof.
  intros Hb Hc Hsp Hn He Hx p Hh Hap Hcall. eapply wp_intr_entry; try done.
  intros s' HT. split; [done |]. by exists s'.
Qed.

(** C9. A system call never calls a function of the table of 32: the low byte of eax
    is overwritten before it selects the word, so that the number of the call
    is a multiple of 256 plus 32, and the number of [getpid] becomes 32, just
    past the table.  What is called there gets ebx, ecx and edx, its result is
    the caller's eax, and the other registers are restored. *)
Theorem syscall_misses_table G s R f call c T :
  backs (kmem s) R f -> context_ok c -> frame_space R f c ->
  let p := frame_top f c - frame_size c in let k := eax_after_eoi (r_eax c) in
  inside R (p - 12) 12 -> inside R (syscall_table + k * 4) 4 ->
  (forall b, span (syscall_table + k * 4) 4 b -> ~ span (p - 12) (12 + frame_size c) b) ->
  (forall m f', backs m R f' -> words_at f' p (intr_frame 0x80 p 0 c) ->
     (forall b, ~ span (p - 12) (12 + frame_size c) b -> f' b = f b) ->
     wp G (call (w32 f (syscall_table + k * 4)) (r_ebx c) (r_ecx c) (r_edx c))
       (set_esp (p - 12) (entered (set_mem m s)))
       (fun r s' => is_u32 r /\ T r s' /\
          exists f', backs (kmem s') R f' /\ words_at f' p (intr_frame 0x80 p 0 c))) ->
  32 <= k /\ k mod 256 = 32 /\ (r_eax c = SYS_GETPID -> k = 32) /\
  wp G (syscall_handler call c) s (fun c' s' => exists r s1 m, T r s1 /\ c' = set_eax r c /\
    stw (kmem s1) (eax_ p) r = Some m /\ s' = exited (set_mem m s1) c).
Proof.
  intros Hb Hc Hsp p k Hargs Hslot Hap Hcall.
  assert (is_u32 (r_eax c)) as Hu by (pose proof (co_words _ Hc) as Hw; widths).
  pose proof (eax_after_eoi_mod _ Hu) as Hk. fold k in Hk. unfold is_u32 in Hu.
  split; [zlia |]. split; [zlia |]. split; [intros He; unfold k; by rewrite He |].
  eapply wp_syscall_handler; try done.
  intros r s' m HT Hm. exists r, s', m. done.
Qed.
End properties.

Module examples.
#[local] Existing Instance demo_layout.

(** Kernel code is interrupted by the spurious vector 0x27: its handler
    returns at once. *)
Definition ctx : context :=
  mk_context 1 2 3 4 5 6 7 0x18 0x10 0x10 0x10 0xc0001234 0x08 0x202 0xc009ef80 SELECTOR_K_STACK.
Definition st : kstate flat := machine_of (flat_of [(idt_table + 0x27 * 4, 0xc0001000)]).
Definition call (h n : Z) : K (M := flat) unit := if h =? 0xc0001000 then general_intr_handler 0 n else fault.

Lemma ctx_ok : context_ok ctx.
Proof. split; [| | done]; repeat constructor; done. Qed.

Lemma intr_entry_restores_witness : wp seq_only (intr_entry call 0x27 ctx None) st
  (fun c' s' => c' = ctx /\ kif s' = true /\ kesp s' = 0xc009ef80 /\ kports s' = [(0x20, 0x20); (0xa0, 0x20)]).
Proof.
  eapply wp_mono.
  - eapply (intr_entry_restores seq_only st is_u32 (flat_at _) call 0x27 ctx None
      (fun s' => kports s' = [(0x20, 0x20); (0xa0, 0x20)])).
    + apply flat_backs.
    + apply ctx_ok.
    + split; intros b Hb; [change (span 0xc009ef3c 68 b) in Hb | change (span 0xc0009304 4 b) in Hb];
        unfold span, is_u32 in *; lia.
    + done.
    + done.
    + done.
    + intros b Hb. change (span 0xc000889c 4 b) in Hb. unfold span, is_u32 in *. lia.
    + intros b Hb. change (span 0xc000889c 4 b) in Hb. change (~ span 0xc009ef3c 68 b). unfold span in *. lia.
    + intros m f' Hb Hw Ho. unfold keeps_frame. replace (w32 _ _) with 0xc0001000 by (by vm_compute).
      split; [done |]. by exists f'.
  - intros c' s' (-> & s1 & Hp & ->). split; [done |]. split; [done |]. split; [done | exact Hp].
Defined.

(** User code calls [getpid]: the table holds the function, and the word after
    it, which belongs to something else, is called. *)
Definition uctx : context :=
  mk_context 1 2 3 4 5 6 SYS_GETPID 0 0x33 0x33 0x33 0x08048000 0x2b 0x202 0xbffffff0 0x33.
Definition ust : kstate flat := machine_of (flat_of
  [(tss_esp0 tss, 0xc00a1000); (syscall_table, 0xc0001000); (syscall_table + 128, 0xdead)]).
Lemma ust_top : frame_top (flat_at (kmem ust)) uctx = 0xc00a1000.
Proof. by vm_compute. Qed.
Definition ucall (h a b c : Z) : K (M := flat) Z := cret h.

Lemma syscall_misses_table_witness : wp seq_only (syscall_handler ucall uctx) ust
  (fun c' _ => r_eax c' = 0xdead).
Proof.
  unshelve epose proof (syscall_misses_table seq_only ust is_u32 (flat_at (kmem ust)) ucall uctx (fun r _ => r = 0xdead)
    (flat_backs _) _ _ _ _ _ _) as (_ & _ & _ & Hw); cbv zeta.
  - split; [| | done]; repeat constructor; done.
  - split; intros b Hb; [rewrite ust_top in Hb; change (span 0xc00a0fb4 76 b) in Hb |
      change (span 0xc0009304 4 b) in Hb]; unfold span, is_u32 in *; lia.
  - intros b Hb. rewrite ust_top in Hb. change (span 0xc00a0fa8 12 b) in Hb. unfold span, is_u32 in *. lia.
  - intros b Hb. change (span 0xc0009280 4 b) in Hb. unfold span, is_u32 in *. lia.
  - intros b Hb. rewrite ust_top. change (span 0xc0009280 4 b) in Hb. change (~ span 0xc00a0fa8 88 b).
    unfold span in *. lia.
  - intros m f' Hb Hw Ho. replace (w32 _ _) with 0xdead by (by vm_compute).
    split; [done |]. split; [done |]. by exists f'.
  - eapply wp_mono; [exact Hw |]. intros c' s' (r & s1 & m & -> & -> & _). done.
Defined.
End examples.
