(* ===== verification/Preempt.v ===== *)
(** The timer interrupt as a whole: kernel/kernel.S and device/timer.c put
    together.  The handler runs on the frame of the interrupted thread, other
    threads may run before it returns, and the thread continues as if nothing
    had happened. *)

From S2P Require Import Prelude Monad RawMem Machine CString DList Thread Sync Global Interrupt Tss Timer Entry.

Lemma jump_wf {LY : Layout} A p : wf A -> is_u32 p -> page_of p = cur A -> wf (jump p A).
Proof.
  intros HA Hp Hc. assert (cur (jump p A) = cur A) as Hj by done.
  destruct HA. split; rewrite ?Hj; done.
Qed.

Section preempt.
Context {M : Type} {RM : RawMem M} {RL : RawMemLaws M} {LY : Layout}.
Implicit Types (s : kstate M) (R : Z -> Prop) (f : Z -> Z) (A : sched).

(** A thread that is interrupted with its frame at [p] hands over the
    processor with one step of the scheduler made, and relies on the others to
    leave its frame alone. *)
Definition interrupted R p n A : protocol (kstate M) := mk_protocol
  (fun s => exists A', tick A = Some A' /\ represents R s A' /\ kif s = false)
  (fun s s' => forall f, backs (kmem s) R f ->
     exists f', backs (kmem s') R f' /\ forall b, span p n b -> f' b = f b)
  (fun _ _ => False) (fun _ => False).

(** The running thread, whose stack the frame is on. *)
Record preempted R f A (p n : Z) v : Prop := mk_preempted {
  pr_rep : rep R f A;
  pr_wf : wf A;
  pr_page : page_of p = cur A;
  pr_task : tasks A !! cur A = Some v;
  pr_running : tv_status v = TASK_RUNNING;
  pr_magic : tv_magic v = STACK_MAGIC;
  pr_apart : forall b, span p n b -> ~ footprint A b }.

Lemma jump_footprint A p b : footprint (jump p A) b <-> footprint A b.
Proof. done. Qed.

Lemma wp_timer_preempts R s f A p ws v :
  backs (kmem s) R f -> is_u32 p -> kif s = false -> kesp s = p ->
  preempted R f A p (4 * len ws) v -> words_at f p ws ->
  keeps_frame (interrupted R p (4 * len ws) (jump p A)) R p ws intr_timer_handler s
    (fun s' => tv_ticks v <> 0 -> exists A', tick (jump p A) = Some A' /\
       exists f', backs (kmem s') R f' /\ rep R f' A').
Proof.
  intros Hb Hp Hif He [Hr HA Hpg Hv Hst Hmg Hap] Hw. unfold keeps_frame, wp.
  eapply (timer_then s R f (jump p A) v); [exact Hb | by apply rep_jump | by apply jump_wf | done | done | | done | done | |].
  - change (tasks A !! page_of p = Some v). by rewrite Hpg.
  - intros A' Ht Hne m f' Hm Hr' Ho. split; [intros _; exists A'; split; [done |]; by exists f' |].
    exists f'. split; [exact Hm |]. eapply words_at_ext; [exact Hw |]. intros b Hbb. apply Ho, Hap, Hbb.
  - intros A' Ht Hz m f' Hm Hr' Ho. split.
    + exists A'. split; [done |]. split; [by exists f' | exact Hif].
    + intros s' Hrely. destruct (Hrely f' Hm) as (f2 & Hm2 & Hk). split; [done |]. exists f2.
      split; [exact Hm2 |]. eapply words_at_ext; [exact Hw |]. intros b Hbb. rewrite Hk by done. apply Ho, Hap, Hbb.
Qed.

(** ** Property *)

(** C3. A timer interrupt is invisible to the thread it interrupts, in the kernel
    or in user code: the tick is counted, and when the slice is used up the
    scheduler makes its step and other threads run for as long as they like;
    if these leave the frame on the thread's stack alone, the thread goes on
    with all its registers, its stack and its interrupt flag as they were. *)
Theorem timer_interrupt_transparent R s f A c v (call : Z -> Z -> K (M := M) unit) :
  backs (kmem s) R f -> context_ok c -> frame_space R f c ->
  let p := frame_top f c - frame_size c in
  is_u32 p -> preempted R f A p (frame_size c) v ->
  inside R (handler_addr 0x20) 4 -> (forall b, span (handler_addr 0x20) 4 b -> ~ span p (frame_size c) b) ->
  call (w32 f (handler_addr 0x20)) 0x20 = intr_timer_handler ->
  wp (interrupted R p (frame_size c) (jump p A)) (intr_entry call 0x20 c None) s
    (fun c' s' => c' = c /\ kif s' = Z.testbit (r_eflags c) 9 /\
       (outer (r_cs c) = false -> kesp s' = r_esp c) /\
       (tv_ticks v <> 0 -> exists A', tick (jump p A) = Some A' /\
          exists f', backs (kmem s') R f' /\ rep R f' A')).
Proof.
  intros Hb Hc Hsp p Hp Hpre Hh Hap Hcall.
  assert (4 * len (intr_frame 0x20 p 0 c) = frame_size c) as Hsize.
  { unfold frame_size, intr_frame, exit_frame, pushed_ss_esp. by destruct (outer _). }
  eapply (wp_intr_entry _ s R f call 0x20 c None); [done .. | |].
  - intros m f' Hm Hw Ho. rewrite Hcall. fold p in Hw, Ho |- *. rewrite <- Hsize in Hpre |- * at 1.
    eapply (wp_timer_preempts R _ f' A p); [exact Hm | exact Hp | done | done | | exact Hw].
    destruct Hpre as [Hr HA Hpg Hv Hst Hmg Hd]. split; try done.
    eapply rep_ext; [exact Hr |]. intros b Hfb. apply Ho. intros Hs. apply (Hd b); [by rewrite Hsize | exact Hfb].
  - intros s' HT. split; [done |]. split; [done |]. split; [intros Ho; unfold exited; by rewrite Ho |].
    intros Hne. destruct (HT Hne) as (A' & HA' & f' & Hb' & Hr'). exists A'. split; [done |]. exists f'.
    unfold exited. by destruct (outer _).
Qed.
End preempt.

(** The main thread is interrupted; it has seven ticks left. *)
Module examples.
#[local] Existing Instance demo_layout.
Import Thread.examples.

Definition mem : flat := flat_of (sched_words qs ts ++ [(idt_table + 0x80, 0xc0001000)]).
Definition st : kstate flat := machine_of mem.
Definition call (h n : Z) : K (M := flat) unit := if h =? 0xc0001000 then intr_timer_handler else fault.

Lemma timer_interrupt_transparent_witness :
  wp (interrupted is_u32 0xc009ef3c 68 (jump 0xc009ef3c A0)) (intr_entry call 0x20 Entry.examples.ctx None) st
    (fun c' s' => c' = Entry.examples.ctx /\ kesp s' = 0xc009ef80 /\ exists A', tick (jump 0xc009ef3c A0) = Some A').
Proof.
  eapply wp_mono.
  - eapply (timer_interrupt_transparent is_u32 st (flat_at mem) A0 Entry.examples.ctx v1 call).
    + apply flat_backs.
    + apply Entry.examples.ctx_ok.
    + split; intros b Hb; [change (span 0xc009ef3c 68 b) in Hb | change (span 0xc0009304 4 b) in Hb];
        unfold span, is_u32 in *; lia.
    + done.
    + split; [apply repb_spec; by vm_compute | apply A0_wf | by vm_compute | by vm_compute | done | done |].
      intros b Hb. refine (proj1 (proj2 (sr_own _ _ _ (ownb_spec (flat_at mem) 0xc009eff0 qs ts [] []
        0xc009ef3c 68 _ _) b Hb))); by vm_compute.
    + intros b Hb. change (span 0xc0008880 4 b) in Hb. unfold span, is_u32 in *. lia.
    + intros b Hb. change (span 0xc0008880 4 b) in Hb. change (~ span 0xc009ef3c 68 b). unfold span in *. lia.
    + by replace (w32 _ _) with 0xc0001000 by (by vm_compute).
  - intros c' s' (-> & _ & He & Ht). split; [done |]. split; [by apply He |].
    destruct (Ht ltac:(done)) as (A' & HA' & _). by exists A'.
Defined.
End examples.
