(* ===== verification/Spawn.v ===== *)
(** Starting a thread on the paged machine: [thread_start] from the heap to the
    scheduler. *)

From S2P Require Import Prelude Monad RawMem Machine CString Bitmap DList Thread Sync Global Timer Paging.
From S2P Require Import Memory Mapping KHeap PoolInit Task.

(** ** The kernel's objects in a larger region *)

Section grow.
Context {LY : Layout}.

Lemma footprint_inside R f A b : rep R f A -> footprint A b -> R b.
Proof.
  intros HA [(l & [ts Hl] & Hb) | [(t & Ht & Hb & _) | Hb]].
  - pose proof (rep_queue _ _ _ HA l ts Hl) as Hd.
    destruct (Z.lt_ge_cases b (l + 8)).
    + apply (dl_inside _ _ _ _ Hd l); [by left | unfold span in *; lia].
    + apply (dl_inside _ _ _ _ Hd (l + 8)); [| unfold span in *; lia].
      apply nodes_tags. by right; left.
  - by apply (rep_inside _ _ _ HA t Ht).
  - pose proof (rep_all _ _ _ HA) as Hd. destruct (Z.lt_ge_cases b (thread_all_list + 8)).
    + apply (dl_inside _ _ _ _ Hd thread_all_list); [by left | unfold span in *; lia].
    + apply (dl_inside _ _ _ _ Hd (thread_all_list + 8)); [| unfold span in *; lia].
      apply nodes_all. by right; left.
Qed.

Lemma dlist_region (R R' : Z -> Prop) f l xs : (forall b, R b -> R' b) -> dlist R f l xs -> dlist R' f l xs.
Proof. intros HR [H1 H2 H3 H4]. split; try done. intros x Hx b Hb. by apply HR, (H4 x Hx). Qed.

Lemma rep_grow (R R' : Z -> Prop) f f' A : rep R f A -> (forall b, R b -> R' b) ->
  (forall b, footprint A b -> f' b = f b) -> rep R' f' A.
Proof.
  intros HA HR Hf. apply (rep_ext R' f); [| done]. split; try apply HA.
  - intros l ts Hl. eapply dlist_region; [exact HR | by apply (rep_queue _ _ _ HA)].
  - intros t Ht b Hb. by apply HR, (rep_inside _ _ _ HA t Ht).
  - eapply dlist_region; [exact HR | apply (rep_all _ _ _ HA)].
Qed.

(** Bytes that were nobody's are owned now. *)
Definition own_more (P : Z -> Prop) (g : Z -> Z) (K : ksys) : ksys :=
  mk_ksys (ks K) (semas K) (locks K) (fun b => own K b \/ P b) g.

Lemma sys_rep_grow (R R' P : Z -> Prop) f f' K : sys_rep R f K -> (forall b, R b -> R' b) ->
  (forall b, R b -> ~ own K b -> f' b = f b) -> (forall b, P b -> R' b /\ ~ R b) ->
  sys_rep R' f' (own_more P f' K).
Proof.
  intros HK HR Hf HP. pose proof (sr_sched _ _ _ HK) as HA. pose proof (sr_own _ _ _ HK) as Hown.
  assert (forall p b, is_Some (locks K !! p) -> lock_bytes p b -> f' b = f b) as Hlk.
  { intros p b Hp Hb. destruct (sr_lock _ _ _ HK p b Hp Hb) as (Hr & _ & _). apply Hf; [done |].
    intros Ho. destruct (Hown b Ho) as (_ & _ & _ & Hn). by apply (Hn p). }
  split; cbn [ks semas locks own data own_more].
  - eapply rep_grow; [exact HA | exact HR |]. intros b Hb. apply Hf; [by eapply footprint_inside |].
    intros Ho. destruct (Hown b Ho) as (_ & Hn & _). by apply Hn.
  - intros p v Hp. destruct (sr_value _ _ _ HK p v Hp) as (Hv & H01 & Hr). split; [| auto].
    rewrite Hf; [done | done |]. intros Ho. destruct (Hown p Ho) as (_ & _ & Hn & _). apply Hn. by exists v.
  - apply (sr_sema _ _ _ HK).
  - intros p h n Hp. pose proof (mk_is_Some _ _ Hp) as Hs. destruct (sr_words _ _ _ HK p h n Hp) as [<- <-].
    split; apply w32_ext; intros b Hb; apply (Hlk p b Hs); [by left | by right].
  - intros p b Hp Hb. destruct (sr_lock _ _ _ HK p b Hp Hb) as (H1 & H2). auto.
  - apply (sr_locks _ _ _ HK).
  - apply (sr_semaphore _ _ _ HK).
  - done.
  - intros b [Ho | Hb].
    + destruct (Hown b Ho) as (H1 & H2). auto.
    + destruct (HP b Hb) as [Hr' Hnr]. split; [done |]. split; [| split].
      * intros Hfp. by apply Hnr, (footprint_inside _ _ _ _ HA).
      * intros [v Hv]. by apply Hnr, (sr_value _ _ _ HK b v Hv).
      * intros p Hp Hl. by apply Hnr, (sr_lock _ _ _ HK p b Hp Hl).
Qed.
End grow.

(** ** [thread_start] *)

Section start.
Context {LY : Layout}.
Implicit Types (s : kstate paged) (m : paged) (R F : Z -> Prop) (f : Z -> Z) (K : ksys) (G : protocol (kstate paged))
  (h : heap_maps).

(** The other promise about paged memory is stronger. *)
Lemma sys_keeping c P g R s K : sys (RL := keeping_laws c P g) R s K -> sys (RL := paged_laws) R s K.
Proof. intros [(f & (Hb & _) & HK) He HA Hrun]. split; [by exists f | done ..]. Qed.

(** The kernel's heap is kept by bytes of its own, a name apart from them. *)
Record heap_owned (K : ksys) h (name_ : Z) (l : list Z) : Prop := mk_heap_owned {
  ho_own b : heap_bytes h b -> own K b;
  ho_name b : span name_ (len l + 1) b -> ~ span (kb h) (kn h) b /\ ~ span (vb h) (vn h) b }.

(** After [get_kernel_pages] the scheduler's objects are where they were, and
    the new page is owned by nobody else. *)
Lemma sys_new_page s R f F h K cnt r l m1 f1 m' f' (R' := with_span R (heap_page h r) (4096 * cnt)) :
  sys (RL := paged_laws) R s K -> heap_space (kmem s) R f F h -> (forall b, heap_bytes h b -> own K b) ->
  allocated (kmem s) R f F h r cnt l m1 f1 -> heap_space m' R' f' (fun p => F p /\ p ∉ l) h ->
  zeroed R f1 (heap_page h r) (4096 * cnt) f' ->
  sys (RL := keeping_laws (cr3 m') (outside m' R') (pbyte m')) R' (set_mem m' s)
    (own_more (span (heap_page h r) (4096 * cnt)) f' K) /\
  (forall b, own K b -> ~ span (kb h) (kn h) b -> ~ span (vb h) (vn h) b -> f' b = data K b).
Proof.
  intros [(f0 & Hb0 & HK) He HA Hrun] Hhs Ho Hal Hhs' [Hold Hnew].
  destruct (region_grown _ _ _ _ _ _ _ _ _ _ Hhs Hal) as (Hdisj & _).
  assert (forall b, R b -> f0 b = f b) as Hff.
  { intros b Hb. pose proof (backs_ld (RawMemLaws := paged_laws) _ _ _ b Hb0 Hb) as H1.
    rewrite (backs_ld (RawMemLaws := paged_laws) _ _ _ b (vspace_mapped _ _ _ _ (hs_vspace _ _ _ _ _ Hhs)) Hb) in H1.
    by injection H1. }
  assert (forall b, R b -> ~ span (kb h) (kn h) b -> ~ span (vb h) (vn h) b -> f' b = f0 b) as Hf'.
  { intros b Hb H1 H2. rewrite Hold, (al_out _ _ _ _ _ _ _ _ _ _ Hal) by done. symmetry. by apply Hff. }
  split.
  - split; [exists f'; split | exact He | exact HA | exact Hrun].
    + apply vspace_keeping with (F := fun p => F p /\ p ∉ l). apply (hs_vspace _ _ _ _ _ Hhs').
    + eapply sys_rep_grow; [exact HK | intros b Hb; by left | |].
      * intros b Hb Hno. apply Hf'; [done | |]; intros Hs; apply Hno, Ho; unfold heap_bytes, span in *; lia.
      * intros b Hb. split; [by right |]. intros HR. by apply (Hdisj b).
  - intros b Hb H1 H2. destruct (sr_own _ _ _ HK b Hb) as (HR & _).
    rewrite Hf' by done. by apply (sr_data _ _ _ HK).
Qed.

(** What [thread_start] needs. *)
Record ready_to_start s R f F h K (name_ : Z) (nm : list Z) (lh ln : Z) : Prop := mk_ready_to_start {
  rs_sys : sys (RL := paged_laws) R s K;
  rs_heap : heap_space (kmem s) R f F h;
  rs_owned : heap_owned K h name_ nm;
  rs_room : room f h 1;
  rs_enough : enough f (kb h) (kn h) 1;
  rs_main : is_Some (tasks (ks K) !! main_thread (kvar s));
  rs_name : inside (own K) name_ (len nm + 1);
  rs_string : cstr (data K) name_ nm;
  rs_length : len nm <= 16;
  rs_lock : lock_ready K pid_lock lh ln;
  rs_count : 0 <= ln }.

Lemma start_page s R f F h K name_ nm lh ln r l m1 f1 m' f' :
  ready_to_start s R f F h K name_ nm lh ln -> allocated (kmem s) R f F h r 1 l m1 f1 ->
  heap_space m' (with_span R (heap_page h r) (4096 * 1)) f' (fun p => F p /\ p ∉ l) h ->
  zeroed R f1 (heap_page h r) (4096 * 1) f' ->
  can_start (set_mem m' s) (own_more (span (heap_page h r) (4096 * 1)) f' K) (heap_page h r) name_ nm lh ln.
Proof.
  intros [Hs Hhs [Hho Hhn] _ _ Hmain Hnm Hstr Hlen Hlk Hln] Hal Hhs' Hz.
  destruct (region_grown _ _ _ _ _ _ _ _ _ _ Hhs Hal) as (Hdisj & _).
  destruct (sys_new_page _ _ _ _ _ _ _ _ _ _ _ _ _ Hs Hhs Hho Hal Hhs' Hz) as [_ Hdata].
  pose proof (al_first _ _ _ _ _ _ _ _ _ _ Hal) as (Hr & Hend & _).
  destruct (heap_page_range _ _ _ r (hs_heap _ _ _ _ _ Hhs)) as (Hu & Ha & _ & Hpos); [lia |].
  pose proof (hp_range _ _ _ (hs_heap _ _ _ _ _ Hhs)) as Hrange. pose proof (len_nonneg nm).
  destruct Hs as [(f0 & Hb0 & HK) He HA Hrun].
  assert (forall t, is_Some (tasks (ks K) !! t) -> t <> heap_page h r) as Hnt.
  { intros t Ht ->. apply (Hdisj (heap_page h r)); [| unfold span; lia].
    apply (rep_inside _ _ _ (sr_sched _ _ _ HK) _ Ht). unfold span, task_struct_size. lia. }
  split; cbn [ks own data own_more kvar set_mem].
  - intros b Hb. right. unfold span in *. lia.
  - done.
  - unfold heap_page in *. lia.
  - destruct (tasks (ks K) !! heap_page h r) eqn:Ht; [| done]. exfalso. by apply (Hnt (heap_page h r)).
  - intros Heq. by apply (Hnt _ Hmain).
  - intros b Hb. left. by apply Hnm.
  - eapply cstr_ext; [| exact Hstr]. intros b Hb. destruct (Hhn b Hb). apply Hdata; [by apply Hnm | done ..].
  - done.
  - assert (clear (heap_page h r) 4096 name_ (len nm + 1)) as [Hc | Hc]; [| by left | right; lia].
    apply spans_clear; [lia .. |]. intros b Hb Hb'. apply (Hdisj b); [| unfold span in *; lia].
    by apply (sr_own _ _ _ HK b (Hnm b Hb')).
  - done.
  - done.
Qed.

(** What [thread_start] leaves: a page from the kernel's heap has become a
    thread at the end of the ready queue. *)
Record thread_started s R f F h K (t prio function func_arg lh ln : Z) (l : list Z) (m : paged) (f' : Z -> Z)
  (K' : ksys) (R' := with_span R t 4096) : Prop := mk_thread_started {
  ts_page : exists r m1 f1, t = heap_page h r /\ allocated (kmem s) R f F h r 1 l m1 f1 /\
    (forall b, heap_bytes h b -> own K' b /\ data K' b = f1 b);
  ts_disjoint b : R b -> ~ span t 4096 b;
  ts_sys : sys (RL := paged_laws) R' (numbered m s) K';
  ts_sched : exists q, queues (ks K) !! thread_ready_list = Some q /\
    ks K' = enlisted t q (set_task t (started_view t prio) (ks K));
  ts_frame : frame_words (data K') t function func_arg;
  ts_pid : w16 (data K') (pid t) = u16 (fresh_pid s);
  ts_own b : own K' b <-> own K b \/ span t 4096 b /\ ~ task_footprint t b;
  ts_data b : own K b -> ~ span (kb h) (kn h) b -> ~ span (vb h) (vn h) b -> data K' b = data K b;
  ts_lock : locks K' !! pid_lock = Some (cur (ks K), lock_count K lh ln - 1);
  ts_heap : heap_space m R' f' (fun p => F p /\ p ∉ l) h;
  ts_mapped a pa : virt (kmem s) a = Some pa -> virt m a = Some pa }.

(** The heap's invariant survives what is done with the scheduler's bytes. *)
Lemma started_heap m m' s R' f' F' h K' n : heap_space m' R' f' F' h ->
  sys (RL := keeping_laws (cr3 m') (outside m' R') (pbyte m')) R' (numbered m s) K' ->
  (forall b, heap_bytes h b -> own K' b /\ data K' b = f' b) -> n = numbered m s ->
  sys (RL := paged_laws) R' n K' /\ unmoved m' m R' /\ exists f'', heap_space m R' f'' F' h.
Proof.
  intros Hhs Hs Hh ->. split; [by eapply sys_keeping |]. pose proof Hs as [(f3 & Hb & HK) _ _ _].
  destruct (vspace_after _ _ _ _ (hs_vspace _ _ _ _ _ Hhs) m f3 Hb) as [Hvs Hum]. split; [done |].
  exists f3. eapply heap_space_after; [exact Hhs | done | | exact Hvs | exact Hum].
  intros b Hbb. destruct (Hh b Hbb) as [Ho <-]. by apply (sr_data _ _ _ HK).
Qed.

Lemma wp_thread_start G s R f F h K name_ nm lh ln prio function func_arg (Q : Z -> kstate paged -> Prop) :
  ready_to_start s R f F h K name_ nm lh ln ->
  is_u32 function -> is_u32 func_arg -> is_u32 (fn "kernel_thread") ->
  (forall t l m f' K', thread_started s R f F h K t prio function func_arg lh ln l m f' K' ->
     Q t (numbered m s)) ->
  wp G (thread_start name_ prio function func_arg) s Q.
Proof.
  intros Hready Hfn Harg Hkt HQ. pose proof Hready as [Hs Hhs [Hho _] Hroom Hen _ _ _ _ _ _].
  unfold thread_start. apply wp_bind.
  eapply (wp_get_kernel_pages _ _ _ _ _ h 1); [exact Hhs | done | exact Hroom | done |].
  intros r l m1 f1 m' f' Hal t R' Hhs' Hz Hum.
  destruct (region_grown _ _ _ _ _ _ _ _ _ _ Hhs Hal) as (Hdisj & _). fold t in Hdisj.
  destruct (sys_new_page _ _ _ _ _ _ _ _ _ _ _ _ _ Hs Hhs Hho Hal Hhs' Hz) as [Hs1 Hdata]. fold t R' in Hs1.
  set (K1 := own_more (span t (4096 * 1)) f' K) in *.
  pose proof (start_page _ _ _ _ _ _ _ _ _ _ _ _ _ _ _ _ Hready Hal Hhs' Hz) as Hcs. fold t K1 in Hcs.
  destruct (wf_queue _ (sys_wf _ _ _ Hs)) as [q Hq].
  eapply (@wp_spawn paged _ (keeping_laws (cr3 m') (outside m' R') (pbyte m')));
    [exact Hs1 | exact Hcs | exact Hq | exact Hfn | exact Harg | exact Hkt |].
  intros m2 K' Hs2 [Hk Ho Hfr Hpid Hda Hl].
  change (numbered m2 (set_mem m' s)) with (numbered m2 s) in *.
  assert (forall b, heap_bytes h b -> own K' b /\ data K' b = f' b) as Hheap.
  { intros b Hb. pose proof (Hho b Hb) as Hob.
    assert (~ span t 4096 b) as Hnt.
    { apply Hdisj. eapply heap_bytes_inside; [apply (hs_heap _ _ _ _ _ Hhs) | exact Hb]. }
    rewrite Ho, Hda by done. split; [| done]. split; [by left |]. intros [Hx _]. unfold span, task_struct_size in *. lia. }
  destruct (started_heap m2 m' s R' f' _ h K' _ Hhs' Hs2 Hheap eq_refl) as (Hs3 & Hum2 & f3 & Hhs3).
  apply (HQ t l m2 f3 K'). destruct Hs as [(f0 & Hb0 & HK0) _ _ _].
  assert (forall b, own K b -> ~ span t 4096 b) as Hown
    by (intros b Hb; apply Hdisj, (sr_own _ _ _ HK0 b Hb)).
  split; [| exact Hdisj | exact Hs3 | by exists q | exact Hfr | exact Hpid | | | exact Hl | exact Hhs3 |].
  - exists r, m1, f1. split; [done |]. split; [exact Hal |]. intros b Hb. destruct (Hheap b Hb) as [Hb1 Hb2]. split; [done |].
    rewrite Hb2. apply (proj1 Hz). eapply heap_bytes_inside; [apply (hs_heap _ _ _ _ _ Hhs) | exact Hb].
  - intros b. rewrite Ho. cbn [own K1 own_more]. split; [tauto |].
    intros [Hb | [Hb Hn]]; [| tauto]. split; [by left |]. pose proof (Hown b Hb) as Hx. intros [Hy _]. unfold span, task_struct_size in *. lia.
  - intros b Hb H1 H2. rewrite Hda by (by apply Hown). by apply Hdata.
  - intros a pa Hv. rewrite (um_virt _ _ _ Hum2), (um_virt _ _ _ Hum).
    by apply (rg_ext _ _ _ _ _ (al_run _ _ _ _ _ _ _ _ _ _ Hal)).
Qed.
End start.

(** ** Properties *)

Section properties.
Context {LY : Layout}.

(** C21. [thread_start] takes a page from the kernel's heap, which has room for it,
    and makes it a thread: the page was nobody's and is mapped to a free
    frame; the thread has the given priority, the next process number and a
    first frame for [kernel_thread]; it is the last of the ready queue and of
    the queue of all threads, whose invariant still holds; the lock is given
    back, no address that was mapped has moved, and the heap's invariant holds
    with one frame less. *)
Theorem thread_start_adds s R f F h K name_ nm lh ln prio function func_arg :
  ready_to_start s R f F h K name_ nm lh ln ->
  is_u32 function -> is_u32 func_arg -> is_u32 (fn "kernel_thread") ->
  exists t l m f' K', thread_start name_ prio function func_arg s = Done t (numbered m s) /\
    thread_started s R f F h K t prio function func_arg lh ln l m f' K'.
Proof.
  intros Hr Hfn Harg Hkt.
  destruct (proj1 (wp_seq_only (thread_start name_ prio function func_arg) s (fun t s' => exists l m f' K',
    s' = numbered m s /\ thread_started s R f F h K t prio function func_arg lh ln l m f' K')))
    as (t & s' & Hc & l & m & f' & K' & -> & Hst); [| by exists t, l, m, f', K'].
  eapply wp_thread_start; try done. intros t l m f' K' Hst. by exists l, m, f', K'.
Qed.
End properties.

(** ** Deciding on concrete contents *)

Section deciding.
Context {LY : Layout}.

Lemma dlist_within (R : Z -> Prop) f l xs : dlist is_u32 f l xs ->
  (forall x b, x ∈ nodes l xs -> span x 8 b -> R b) -> dlist R f l xs.
Proof. intros [H1 H2 H3 H4] HR. split; try done. intros x Hx b Hb. by apply (HR x). Qed.

Lemma rep_within (R : Z -> Prop) f A : rep is_u32 f A -> (forall b, footprint A b -> R b) ->
  (forall t, is_Some (tasks A !! t) -> inside R t 72) -> rep R f A.
Proof.
  intros HA HR Ht72.
  assert (forall t b, is_Some (tasks A !! t) -> span t 72 b -> R b) as Ht.
  { intros t b Ht Hb. by apply (Ht72 t). }
  split; try apply HA.
  - intros l ts Hl. apply dlist_within; [by apply (rep_queue _ _ _ HA) |].
    intros x b [-> | [-> | (t & Hin & ->)]]%nodes_tags Hb.
    + apply HR. left. exists l. split; [by eexists | unfold span in *; lia].
    + apply HR. left. exists l. split; [by eexists | unfold span in *; lia].
    + apply (Ht t); [by eapply rep_member | unfold span, general_tag in *; lia].
  - intros t Hs b Hb. by apply (Ht t).
  - apply dlist_within; [apply (rep_all _ _ _ HA) |].
    intros x b [-> | [-> | (t & Hin & ->)]]%nodes_all Hb.
    + apply HR. right. right. unfold span in *; lia.
    + apply HR. right. right. unfold span in *; lia.
    + apply (Ht t); [by apply (rep_all_member _ _ _ HA) | unfold span, all_list_tag in *; lia].
Qed.

Lemma sys_rep_within (R : Z -> Prop) f K : sys_rep is_u32 f K -> (forall b, footprint (ks K) b -> R b) ->
  (forall t, is_Some (tasks (ks K) !! t) -> inside R t 72) ->
  (forall p, is_Some (semas K !! p) -> R p) -> (forall p b, is_Some (locks K !! p) -> lock_bytes p b -> R b) ->
  (forall b, own K b -> R b) -> sys_rep R f K.
Proof.
  intros HK Hf Ht Hs Hl Ho. split; try apply HK.
  - apply rep_within; [apply (sr_sched _ _ _ HK) | done | done].
  - intros p v Hp. destruct (sr_value _ _ _ HK p v Hp) as (H1 & H2 & _). split; [done |]. split; [done |].
    apply Hs. by eexists.
  - intros p b Hp Hb. destruct (sr_lock _ _ _ HK p b Hp Hb) as (_ & H2). split; [by apply (Hl p) | done].
  - intros b Hb. destruct (sr_own _ _ _ HK b Hb) as (_ & H2). split; [by apply Ho | done].
Qed.

(** Several runs of bytes are owned. *)
Definition spans (l : list (Z * Z)) (b : Z) : Prop := Exists (fun '(a, n) => span a n b) l.

(** The runs [l] lie within the runs [r]. *)
Definition withinb (r l : list (Z * Z)) : bool :=
  forallb (fun '(a, n) => forallb (fun k => existsb (fun '(b, n) => (b <=? a + k) && (a + k <? b + n)) r) (zrange n)) l.

Lemma spans_within r l b : withinb r l = true -> spans l b -> spans r b.
Proof.
  intros Hl ([a n] & Hin & Hb)%Exists_exists. pose proof (forallb_elem _ _ _ Hl Hin) as Hx. cbv beta iota in Hx.
  unfold span in Hb. pose proof (zrange_forallb _ n Hx (b - a) ltac:(lia)) as Hc. cbv beta in Hc.
  apply existsb_exists in Hc as ([x k] & Hin' & Hc). apply Exists_exists.
  exists (x, k). split; [by apply list_elem_of_In |]. unfold span. lia.
Qed.

(** What is checked for every byte. *)
Lemma spans_all l (P : Z -> bool) b :
  forallb (fun '(a, n) => forallb (fun k => P (a + k)) (zrange n)) l = true -> spans l b -> P b = true.
Proof.
  intros Hall ([a n] & Hin & Hb)%Exists_exists. pose proof (forallb_elem _ _ _ Hall Hin) as Hx. cbv beta iota in Hx.
  rewrite <- (Z.sub_add a b), Z.add_comm. apply (zrange_forallb (fun k => P (a + k)) n Hx). unfold span in Hb. lia.
Qed.

Lemma spans_inside r a n : withinb r [(a, n)] = true -> inside (spans r) a n.
Proof. intros Hw b Hb. apply (spans_within _ _ _ Hw). by left. Qed.

(** The runs of the system's objects. *)
Definition sys_spans (qs : qmap) (ts : tmap) (ss : smap) (ls : lmap) : list (Z * Z) :=
  map (fun '(l, _) => (l, 16)) qs ++ map (fun '(t, _) => (t, 72)) ts ++ [(thread_all_list, 16)] ++
  map (fun '(p, _) => (p, 1)) ss ++ map (fun '(p, _) => (p, 28)) ls.

Lemma owns_spec f e qs ts ss ls l : sys_repb f qs ts ss ls = true ->
  forallb (fun '(a, n) => ownb qs ts ss ls a n) l = true ->
  sys_rep is_u32 f (with_own (spans l) f (ksys_of (sched_of e qs ts) ss ls)).
Proof.
  intros Hr Ho. pose proof (sys_repb_spec f e qs ts ss ls Hr) as HK.
  split; cbn [ks semas locks own data with_own]; try apply HK; [done |].
  intros b ([a n] & Hin & Hb)%Exists_exists. pose proof (forallb_elem _ _ _ Ho Hin) as Hx. cbv beta iota in Hx.
  by apply (sr_own _ _ _ (ownb_spec f e qs ts ss ls a n Hr Hx) b).
Qed.

Lemma sys_rep_spans f e qs ts ss ls l r : sys_repb f qs ts ss ls = true ->
  forallb (fun '(a, n) => ownb qs ts ss ls a n) l = true -> withinb r (sys_spans qs ts ss ls ++ l) = true ->
  sys_rep (spans r) f (with_own (spans l) f (ksys_of (sched_of e qs ts) ss ls)).
Proof.
  intros Hr Ho Hw.
  assert (forall a n b, (a, n) ∈ sys_spans qs ts ss ls ++ l -> span a n b -> spans r b) as Hin.
  { intros a n b Hin Hb. apply (spans_within _ _ _ Hw), Exists_exists. by exists (a, n). }
  assert (forall A (xs : list (Z * A)) a (n : Z), is_Some ((list_to_map xs : gmap Z A) !! a) ->
    (a, n) ∈ map (fun '(x, _) => (x, n)) xs) as Hmap.
  { intros A xs a n [x Hx]%is_Some_elem. apply list_elem_of_fmap. by exists (a, x). }
  unfold sys_spans in Hin.
  apply sys_rep_within; cbn [ks semas locks own with_own ksys_of]; [by apply owns_spec | | | | |].
  - intros b [(a & Ha & Hb) | [(a & Ha & Hb) | Hb]]; [eapply Hin; [| exact Hb]; rewrite !elem_of_app | |
      eapply Hin; [| exact Hb]; rewrite !elem_of_app].
    + left. left. by apply Hmap.
    + destruct Hb as [Hb _]. apply (Hin a 72); [| exact Hb]. rewrite !elem_of_app. left. right. left. by apply Hmap.
    + left. right. right. left. by left.
  - intros t Ht b Hb. apply (Hin t 72); [| exact Hb]. rewrite !elem_of_app. left. right. left. by apply Hmap.
  - intros p Hp. apply (Hin p 1); [| unfold span; lia]. rewrite !elem_of_app. left. do 3 right. left. by apply Hmap.
  - intros p b Hp Hb. apply (Hin p 28); [rewrite !elem_of_app; left; do 4 right; by apply Hmap |].
    unfold lock_bytes, holder, holder_repeat_nr, span in *. lia.
  - intros b Hb. apply Exists_exists in Hb as ([a n] & Ha & Hb). apply (Hin a n); [| exact Hb].
    apply elem_of_app. by right.
Qed.
End deciding.

(** A thread "idle" is started by the main thread of the concrete machine. *)
Module examples.
#[local] Existing Instance demo_layout.
Import Mapping.examples KHeap.examples.

Definition demo_semas : smap := [(semaphore pid_lock, 1)].
Definition demo_locks : lmap := [(pid_lock, (0, 0))].
Definition demo_own : list (Z * Z) := [(kernel_pool, 16); (kernel_vaddr, 12); (0xc009a000, 4); (0xc0008600, 5)].
Definition demo_sched : sched := sched_of 0xc009eff0 demo_queues demo_tasks.
Definition demo_ksys : ksys := with_own (spans demo_own) demo_f (ksys_of demo_sched demo_semas demo_locks).
Definition start_state : kstate paged := set_var (set_main_thread Thread.examples.t1 vars0) demo_state.

Lemma demo_sys_rep : sys_rep demo_R demo_f demo_ksys.
Proof. apply (sys_rep_spans _ _ _ _ _ _ _ demo_region); vm_compute; reflexivity. Qed.

Lemma start_sys : sys (RL := paged_laws) demo_R start_state demo_ksys.
Proof.
  split.
  - exists demo_f. split; [apply (vspace_mapped _ _ _ _ demo_vspace) | apply demo_sys_rep].
  - done.
  - apply wfb_spec. by vm_compute.
  - exists Thread.examples.v1. split; by vm_compute.
Qed.

Definition idle : list Z := [0x69; 0x64; 0x6c; 0x65].

Lemma start_ready : ready_to_start start_state demo_R demo_f demo_F demo_heap demo_ksys 0xc0008600 idle 0 0.
Proof.
  split; [apply start_sys | apply demo_heap_space | | by apply demo_room | by apply demo_enough | | | | done | | done].
  - split.
    + intros b [Hb | [Hb | [Hb | Hb]]]; revert b Hb; apply (spans_inside demo_own); vm_compute; reflexivity.
    + intros b Hb. change (len idle + 1) with 5 in Hb. cbn [kb kn vb vn demo_heap]. unfold span in *. lia.
  - by exists Thread.examples.v1.
  - apply (spans_inside demo_own). vm_compute. reflexivity.
  - repeat split; vm_compute; congruence.
  - split; [vm_compute; reflexivity |]. split; [done |]. right. split; [done |].
    split; [by vm_compute | vm_compute; reflexivity].
Qed.

Lemma thread_start_adds_witness : exists t m K',
  thread_start 0xc0008600 8 0xc0001500 77 start_state = Done t (numbered m start_state) /\
  all_threads (ks K') = [Thread.examples.t1; t] /\ w16 (data K') (pid t) = 1.
Proof.
  destruct (thread_start_adds start_state demo_R demo_f demo_F demo_heap demo_ksys 0xc0008600 idle 0 0
    8 0xc0001500 77) as (t & l & m & f' & K' & Hc & Hst); [apply start_ready | done ..|].
  exists t, m, K'. split; [exact Hc |]. split.
  - destruct (ts_sched _ _ _ _ _ _ _ _ _ _ _ _ _ _ _ _ Hst) as (q & _ & ->). reflexivity.
  - rewrite (ts_pid _ _ _ _ _ _ _ _ _ _ _ _ _ _ _ _ Hst). reflexivity.
Defined.
End examples.
