(* ===== verification/UserPages.v ===== *)
(** kernel/memory.c for a process: [get_a_page], from the lock of the pool to
    the new translation, among the kernel's objects on the paged machine. *)

From S2P Require Import Prelude Monad RawMem Machine CString Bitmap DList Thread Sync Global Tss Timer Paging.
From S2P Require Import Memory Mapping KHeap PoolInit Task Spawn.

(** ** The kernel's objects and the address space together *)

Section joint.
Context {LY : Layout}.
Implicit Types (s : kstate paged) (m : paged) (R F : Z -> Prop) (f : Z -> Z) (K : ksys) (G : protocol (kstate paged)).

Record runs_in s R f F K : Prop := mk_runs_in {
  ri_space : vspace (kmem s) R f F;
  ri_rep : sys_rep R f K;
  ri_esp : kesp s = esp (ks K);
  ri_wf : wf (ks K);
  ri_run : cur_status (ks K) TASK_RUNNING }.

(** The promise about memory while the tables stay as they are in [m]. *)
Definition kept_laws m R : RawMemLaws paged := keeping_laws (cr3 m) (outside m R) (pbyte m).

Lemma sys_rep_agree R f f' K : sys_rep R f K -> (forall b, R b -> f' b = f b) -> sys_rep R f' K.
Proof.
  intros HK Hf. pose proof (sr_sched _ _ _ HK) as HA. split; try apply HK.
  - apply (rep_ext R f); [exact HA |]. intros b Hb. apply Hf. by eapply footprint_inside.
  - intros p v Hp. destruct (sr_value _ _ _ HK p v Hp) as (Hv & H01 & Hr). by rewrite Hf.
  - intros p h n Hp. pose proof (mk_is_Some _ _ Hp) as Hs. destruct (sr_words _ _ _ HK p h n Hp) as [<- <-].
    split; apply w32_ext; intros b Hb; apply Hf, (sr_lock _ _ _ HK p b Hs); [by left | by right].
  - intros b Hb. rewrite Hf by (by apply (sr_own _ _ _ HK)). by apply (sr_data _ _ _ HK).
Qed.

Lemma runs_in_intro s R f F K : sys (RL := paged_laws) R s K -> vspace (kmem s) R f F -> runs_in s R f F K.
Proof.
  intros [(f0 & Hb0 & HK) He HA Hrun] Hvs. split; [done | | done ..].
  eapply sys_rep_agree; [exact HK |]. intros b Hb.
  pose proof (backs_ld (RawMemLaws := paged_laws) _ _ _ b Hb0 Hb) as H1.
  rewrite (backs_ld (RawMemLaws := paged_laws) _ _ _ b (vspace_mapped _ _ _ _ Hvs) Hb) in H1. by injection H1.
Qed.

Lemma runs_in_backs s R f F K : runs_in s R f F K -> backs (RawMemLaws := kept_laws (kmem s) R) (kmem s) R f.
Proof. intros Hr. eapply vspace_keeping, Hr. Qed.

Lemma runs_in_sys s R f F K : runs_in s R f F K -> sys (RL := kept_laws (kmem s) R) R s K.
Proof.
  intros Hr. pose proof (runs_in_backs _ _ _ _ _ Hr). destruct Hr as [_ HK He HA Hrun].
  split; [by exists f | done ..].
Qed.

Lemma runs_in_paged s R f F K : runs_in s R f F K -> sys (RL := paged_laws) R s K.
Proof. intros Hr. eapply sys_keeping. by eapply runs_in_sys. Qed.

(** What code that keeps to the promise leaves. *)
Lemma runs_in_after s s' R f F K K' : runs_in s R f F K -> sys (RL := kept_laws (kmem s) R) R s' K' ->
  exists f', runs_in s' R f' F K' /\ unmoved (kmem s) (kmem s') R.
Proof.
  intros Hr [(f' & Hb & HK) He HA Hrun]. destruct (vspace_after _ _ _ _ (ri_space _ _ _ _ _ Hr) (kmem s') f' Hb) as [Hvs Hum].
  by exists f'.
Qed.

(** Code that writes to bytes of nobody else. *)
Lemma runs_in_own s s' R f f' F F' K : runs_in s R f F K -> kesp s' = kesp s -> vspace (kmem s') R f' F' ->
  (forall b, ~ own K b -> f' b = f b) -> runs_in s' R f' F' (set_data f' K).
Proof.
  intros [Hv HK He HA Hrun] Hes Hvs Hf. split; [done | by eapply sys_set_data | by rewrite Hes | done | done].
Qed.

Lemma runs_in_data s R f F K b : runs_in s R f F K -> own K b -> f b = data K b.
Proof. intros Hr. apply (sr_data _ _ _ (ri_rep _ _ _ _ _ Hr)). Qed.

(** Taking and giving back a lock. *)
Lemma wp_lock_in G s R f F K l h n (Q : unit -> kstate paged -> Prop) :
  runs_in s R f F K -> lock_ready K l h n ->
  (forall m f' K', runs_in (set_mem m s) R f' F K' -> unmoved (kmem s) m R -> ks K' = ks K -> data K' = data K ->
     own K' = own K -> locks K' !! l = Some (cur (ks K), lock_count K h n) -> Q tt (set_mem m s)) ->
  wp G (lock_acquire l) s Q.
Proof.
  intros Hr Hl HQ. eapply (wp_lock_ready (RL := kept_laws (kmem s) R)); [by eapply runs_in_sys | exact Hl |].
  intros m K' Hs Hk Hd Ho Hl' _. destruct (runs_in_after _ _ _ _ _ _ _ Hr Hs) as (f' & Hr' & Hum). by apply (HQ m f' K').
Qed.

Lemma wp_unlock_in G s R f F K l n (Q : unit -> kstate paged -> Prop) :
  runs_in s R f F K -> locks K !! l = Some (cur (ks K), n) -> 0 < n ->
  (forall m f' K', runs_in (set_mem m s) R f' F K' -> unmoved (kmem s) m R -> ks K' = ks K -> data K' = data K ->
     own K' = own K -> locks K' !! l = Some (cur (ks K), n - 1) -> Q tt (set_mem m s)) ->
  wp G (lock_release l) s Q.
Proof.
  intros Hr Hl Hn HQ. eapply (wp_unlock_counts (RL := kept_laws (kmem s) R)); [by eapply runs_in_sys | exact Hl | exact Hn |].
  intros m Hs. destruct (runs_in_after _ _ _ _ _ _ _ Hr Hs) as (f' & Hr' & Hum).
  eapply (HQ m f'); [exact Hr' | exact Hum | done .. | apply lookup_insert_eq].
Qed.
End joint.

(** ** A page for an address, with a table when there is none *)

Section adding.
Context {LY : Layout}.
Implicit Types (s : kstate paged) (m : paged) (R F : Z -> Prop) (f : Z -> Z) (K : ksys) (G : protocol (kstate paged))
  (h : heap_maps).

(** The frame with the number [o] of the kernel's pool, if there is one. *)
Definition new_table h (o : option Z) (p : Z) : Prop := exists i, o = Some i /\ p = frame_of (kst h) i.

(** The page of [a] is mapped to [q] now; [o] is the number of the frame that
    became its table. *)
Record page_added m m' R f f' F h (a q : Z) (o : option Z) : Prop := mk_page_added {
  pa_table : match o with
    | Some i => present (pde (pbyte m) (cr3 m) (dir_idx a)) = false /\ lowest_free f (kb h) (kn h) i
    | None => present (pde (pbyte m) (cr3 m) (dir_idx a)) = true
    end;
  pa_space : vspace m' R f' (fun p => F p /\ p <> q /\ ~ new_table h o p);
  pa_grown : grown m m' R a q (new_table h o);
  pa_bits j : 0 <= j -> bit f' (kb h) j = bit f (kb h) j || bool_decide (o = Some j);
  pa_out b : ~ span (kb h) (kn h) b -> f' b = f b }.

Lemma grown_tables m m' R a q (T T' : Z -> Prop) : grown m m' R a q T -> (forall p, T p -> T' p) -> grown m m' R a q T'.
Proof. intros [H1 H2 H3 H4 H5 H6 H7 H8] HT. split; try done. intros p Hp. destruct (H6 p Hp); auto. Qed.

Lemma wp_page_added G s R f F h a q (Q : unit -> kstate paged -> Prop) :
  vspace (kmem s) R f F -> is_pool R f kernel_pool (kb h) (kn h) (kst h) ->
  is_u32 a -> 1 <= dir_idx a < 1023 -> F q -> ~ free_frame f (kb h) (kn h) (kst h) q ->
  (forall p, free_frame f (kb h) (kn h) (kst h) p -> F p) ->
  (present (pde (pbyte (kmem s)) (cr3 (kmem s)) (dir_idx a)) = true ->
     present (pte (pbyte (kmem s)) (cr3 (kmem s)) a) = false) ->
  (present (pde (pbyte (kmem s)) (cr3 (kmem s)) (dir_idx a)) = false -> exists i, free_bit f (kb h) (kn h) i) ->
  (forall m' f' o out, page_added (kmem s) m' R f f' F h a q o -> Q tt (put_out out (set_mem m' s))) ->
  wp G (page_table_add a q) s Q.
Proof.
  intros Hvs Hp Ha Hd HF Hq HkF Hun Hen HQ.
  destruct (present (pde (pbyte (kmem s)) (cr3 (kmem s)) (dir_idx a))) eqn:Hpd.
  - eapply wp_page_table_add_present; try done; [by apply Hun |]. intros m' Hvs' Hg.
    apply (HQ m' f None []). split; [done | | | | done].
    + eapply vspace_sub; [exact Hvs' | done |]. by intros p (H1 & H2 & _).
    + eapply grown_tables; [exact Hg |]. intros p [].
    + intros j Hj. rewrite bool_decide_eq_false_2 by done. by rewrite orb_false_r.
  - eapply wp_page_table_add_absent; [exact Hvs | exact Hp | by apply Hen | | exact Ha | exact Hd | exact Hpd | exact HF |].
    { intros p Hpf. split; [by apply HkF |]. by intros ->. }
    intros i m' f' out Hlow p Hvs' Hg Hp' Hout Hbits. apply (HQ m' f' (Some i) out). split; [done | | | | done].
    + eapply vspace_sub; [exact Hvs' | done |]. intros x (H1 & H2 & H3). split; [split; [done |] | done].
      intros ->. apply H3. by exists i.
    + eapply grown_tables; [exact Hg |]. intros x ->. by exists i.
    + intros j Hj. rewrite Hbits by done. f_equal. destruct (Z.eqb_spec j i) as [-> | Hne].
      * by rewrite bool_decide_eq_true_2.
      * rewrite bool_decide_eq_false_2; [done |]. by intros [= ->].
Qed.

(** The heap of the kernel when a page elsewhere has been added. *)
Lemma heap_space_added m m' R f f' F h a q o : heap_space m R f F h -> is_heap R f' h ->
  page_added m m' R f f' F h a q o -> ~ free_frame f (kb h) (kn h) (kst h) q ->
  (forall j, 0 <= j < 8 * vn h -> bit f' (vb h) j = bit f (vb h) j) ->
  (forall i, 0 <= i < 8 * vn h -> frame (heap_page h i) <> frame a) ->
  heap_space m' R f' (fun p => F p /\ p <> q /\ ~ new_table h o p) h.
Proof.
  intros [Hh Hvs Hfr Hpg] Hh' [Ht Hvs' Hg Hbits _] Hq Hvb Hne. split; [done | done | |].
  - intros p (i & [Hi Hb] & ->). rewrite Hbits in Hb by lia. apply orb_false_iff in Hb as [Hb Ho%bool_decide_eq_false].
    assert (free_frame f (kb h) (kn h) (kst h) (frame_of (kst h) i)) as Hff by (by exists i).
    split; [by apply Hfr |]. split; [by intros <- |]. intros (k & -> & Hk). apply Ho. f_equal. unfold frame_of in Hk. lia.
  - intros i [Hi Hb]. rewrite Hvb in Hb by done. destruct (Hpg i) as [Hd Hp]; [done |].
    destruct (heap_page_range _ _ _ i Hh) as (Hu & _ & Hdi & _); [lia |]. pose proof (dir_idx_range _ Hu).
    rewrite (gr_cr3 _ _ _ _ _ _ Hg), (gr_pde _ _ _ _ _ _ Hg) by done. split; [done |].
    rewrite (gr_pte _ _ _ _ _ _ Hg); [done .. |]. by apply Hne.
Qed.
End adding.

(** ** The user's side of the bookkeeping *)

(** The pool for the user's frames, with its bits at [ub], and the virtual
    addresses of the running process, with their bits at [pb]. *)
Record user_maps := mk_user_maps { ub : Z; un : Z; ust : Z; pb : Z; pn : Z; pst : Z }.

Section user.
Context {LY : Layout}.
Implicit Types (s : kstate paged) (m : paged) (R F : Z -> Prop) (f : Z -> Z) (K : ksys) (G : protocol (kstate paged))
  (h : heap_maps) (u : user_maps) (t : Z).

(** The bits, and what does not change. *)
Definition map_bits h u (b : Z) : Prop :=
  span (kb h) (kn h) b \/ span (ub u) (un u) b \/ span (pb u) (pn u) b.
Definition map_words h t (b : Z) : Prop :=
  span kernel_pool 16 b \/ span kernel_vaddr 12 b \/ span (vb h) (vn h) b \/ span user_pool 16 b \/
  span (userprog_vaddr t) 12 b.
Definition map_bytes h t u (b : Z) : Prop := map_bits h u b \/ map_words h t b.

Record user_layout R f h t u : Prop := mk_user_layout {
  ul_heap : is_heap R f h;
  ul_pool : is_pool R f user_pool (ub u) (un u) (ust u);
  ul_above : kst h + 4096 * (8 * kn h) <= ust u;
  ul_bitmap : is_bitmap R f (vaddr_bitmap (userprog_vaddr t)) (pb u) (pn u);
  ul_start : w32 f (vaddr_start (userprog_vaddr t)) = pst u;
  ul_inside : inside R (userprog_vaddr t) 12;
  ul_words b : map_words h t b -> ~ map_bits h u b;
  ul_kernel b : span (kb h) (kn h) b -> ~ span (ub u) (un u) b /\ ~ span (pb u) (pn u) b;
  ul_user b : span (ub u) (un u) b -> ~ span (pb u) (pn u) b }.

(** Writes to the bits keep all the rest. *)
Lemma user_layout_keep R f f' h t u : user_layout R f h t u -> (forall b, map_words h t b -> f' b = f b) ->
  user_layout R f' h t u.
Proof.
  intros [H1 H2 H3 H4 H5 H6 H7 H8 H9] Hf. unfold map_words in Hf.
  assert (forall a n x, (forall b, span a n b -> f' b = f b) -> a <= x -> x + 4 <= a + n -> w32 f' x = w32 f x) as Hw.
  { intros a n x Ha Hx1 Hx2. apply w32_ext. intros b Hb. apply Ha. unfold span in *. lia. }
  assert (forall x, user_pool <= x -> x + 4 <= user_pool + 16 -> w32 f' x = w32 f x) as Hu.
  { intros x. apply Hw. intros b Hb. apply Hf. tauto. }
  assert (forall x, userprog_vaddr t <= x -> x + 4 <= userprog_vaddr t + 12 -> w32 f' x = w32 f x) as Hv.
  { intros x. apply Hw. intros b Hb. apply Hf. tauto. }
  split; try done.
  - eapply is_heap_mono; [exact H1 | done |]. intros b Hb. apply Hf. tauto.
  - destruct H2 as [[B1 B2 B3 B4 B5 B6] P2 P3 P4 P5 P6]. unfold pool_bitmap, phy_addr_start in *.
    split; unfold pool_bitmap, phy_addr_start; auto; [split; auto |]; rewrite Hu by lia; done.
  - unfold vaddr_bitmap in *. destruct H4 as [B1 B2 B3 B4 B5 B6]. split; auto; rewrite Hv by lia; done.
  - unfold vaddr_start in *. by rewrite Hv by lia.
Qed.

(** The layout and the address space. *)
Record user_space m R f F h t u : Prop := mk_user_space {
  us_layout : user_layout R f h t u;
  us_heap : heap_space m R f F h;
  us_frames p : free_frame f (ub u) (un u) (ust u) p -> F p }.

Lemma user_frame_above R f h t u i j : user_layout R f h t u -> 0 <= i < 8 * kn h -> 0 <= j ->
  frame_of (kst h) i <> frame_of (ust u) j.
Proof. intros Hl Hi Hj. pose proof (ul_above _ _ _ _ _ Hl). unfold frame_of. lia. Qed.

(** Bits are those of equal bytes. *)
Lemma bits_same f f' b n j : (forall a, span b n a -> f' a = f a) -> 0 <= j < 8 * n -> bit f' b j = bit f b j.
Proof. intros Hf Hj. unfold bit. rewrite Hf; [done |]. unfold span. zlia. Qed.

(** Code that writes to other bytes, and moves nothing. *)
Lemma user_space_keep m m' R f f' F h t u : user_space m R f F h t u -> vspace m' R f' F -> unmoved m m' R ->
  (forall b, map_bytes h t u b -> f' b = f b) -> user_space m' R f' F h t u.
Proof.
  intros [Hl Hh Hf] Hvs Hum Hb. unfold map_bytes, map_bits, map_words in Hb. split.
  - eapply user_layout_keep; [exact Hl |]. intros b Hw. apply Hb. by right.
  - eapply heap_space_after; [exact Hh | done | | exact Hvs | exact Hum].
    intros b Hx. apply Hb. unfold heap_bytes in Hx. tauto.
  - intros p (i & [Hi Hbit] & ->). apply Hf. exists i. split; [| done]. split; [done |].
    rewrite <- Hbit. symmetry. eapply bits_same; [| exact Hi]. intros a Ha. apply Hb. tauto.
Qed.

(** What [get_a_page] needs to give the running process the page of [a]. *)
Record page_wanted s R f F h u K (a lh ln : Z) (t := cur (ks K)) : Prop := mk_page_wanted {
  pw_runs : runs_in s R f F K;
  pw_space : user_space (kmem s) R f F h t u;
  pw_own b : map_bytes h t u b -> own K b;
  pw_process : exists v, tasks (ks K) !! t = Some v /\ tv_pgdir v <> 0;
  pw_lock : lock_ready K (pool_lock user_pool) lh ln;
  pw_count : 0 <= ln;
  pw_aligned : a mod 4096 = 0;
  pw_range : pst u + 4096 <= a < pst u + 4096 * (8 * pn u) /\ pst u mod 4096 = 0 /\ 0 <= pst u;
  pw_below : a + 4096 <= vst h /\ 1 <= dir_idx a < 1023;
  pw_frame : exists j, free_bit f (ub u) (un u) j;
  pw_unmapped : present (pde (pbyte (kmem s)) (cr3 (kmem s)) (dir_idx a)) = true ->
    present (pte (pbyte (kmem s)) (cr3 (kmem s)) a) = false;
  pw_table : present (pde (pbyte (kmem s)) (cr3 (kmem s)) (dir_idx a)) = false ->
    exists i, free_bit f (kb h) (kn h) i }.

(** ** [get_a_page] *)

Lemma wp_claim_page G s R f F line va a b n st (Q : unit -> kstate paged -> Prop) :
  vspace (kmem s) R f F -> is_bitmap R f (vaddr_bitmap va) b n -> w32 f (vaddr_start va) = st ->
  inside R va 12 -> is_u32 a -> st + 4096 <= a < st + 4096 * (8 * n) -> st mod 4096 = 0 -> 0 <= st ->
  (forall m' f', vspace m' R f' F -> unmoved (kmem s) m' R -> (forall x, ~ span b n x -> f' x = f x) ->
     (forall j, 0 <= j -> bit f' b j = bit f b j || (j =? (a - st) / 4096)) -> Q tt (set_mem m' s)) ->
  wp G (claim_page line va a) s Q.
Proof.
  intros Hvs Hbm Hst Hi Ha Hr Hal Hst0 HQ. pose proof (bm_size _ _ _ _ _ Hbm) as Hn. unfold claim_page.
  assert (backs (RawMemLaws := kept_laws (kmem s) R) (kmem s) R f) as Hb by (by eapply vspace_keeping).
  apply wp_bind. eapply (wp_ld32 (RL := kept_laws (kmem s) R)); [exact Hb | |].
  { eapply inside_sub; [exact Hi | unfold vaddr_start; lia ..]. }
  intros _. rewrite Hst. set (i := (a - st) / 4096) in *.
  assert (1 <= i < 8 * n) as Hir by (unfold i; unfold is_u32 in *; zlia).
  assert (s32 (u32 (a - st) / PG_SIZE) = i) as ->.
  { rewrite u32_small by (unfold is_u32 in *; lia). apply s32_small. fold i. change PG_SIZE with 4096. lia. }
  cbv zeta. rewrite (proj2 (Z.ltb_lt 0 i)) by lia. apply wp_bind, wp_assert; [done |].
  rewrite u32_small by (unfold is_u32; lia).
  eapply (@wp_bitmap_set paged _ (kept_laws (kmem s) R) R f _ b n Hbm _ _ i true); [exact Hb | lia |].
  intros Hu8 m' Hm'. destruct (vspace_after _ _ _ _ Hvs m' _ Hm') as [Hvs' Hum].
  apply (HQ m' _ Hvs' Hum).
  - intros x Hx. apply (set_contents_out f b n); [lia | exact Hx].
  - intros j Hj. rewrite bit_set_contents by (done || lia).
    destruct (j =? i); [by destruct (bit f b j) | by rewrite orb_false_r].
Qed.

(** [unmoved] is kept from one step to the next. *)
Lemma unmoved_trans m m1 m2 R : unmoved m m1 R -> unmoved m1 m2 R -> unmoved m m2 R.
Proof.
  intros [Hc Ho Ht Hv Hd Hp] [Hc' Ho' Ht' Hv' Hd' Hp']. rewrite Hc in *. split.
  - done.
  - intros b Hb. rewrite Ho'; [by apply Ho |]. intros a Ha. rewrite Hv. by apply Hb.
  - intros p. by rewrite Ht'.
  - intros a. by rewrite Hv'.
  - intros i Hi. rewrite Hd' by done. by apply Hd.
  - intros a Ha Hpr. rewrite Hp'; [by apply Hp | done |].
    rewrite Hd; [done |]. by apply dir_idx_range.
Qed.

(** The page of [a] has been given the lowest free frame of the user's pool, the
    number [j]; of the bytes [P] only the bits have changed. *)
Record page_given s R f F h u t (a : Z) (P : Z -> Prop) m' f' (j : Z) (o : option Z) : Prop := mk_page_given {
  pg_lowest : lowest_free f (ub u) (un u) j;
  pg_new k : 0 <= k < 4096 -> virt m' (a + k) = Some (frame_of (ust u) j + k);
  pg_ext a' pa : virt (kmem s) a' = Some pa -> virt m' a' = Some pa;
  pg_cr3 : cr3 m' = cr3 (kmem s);
  pg_table : match o with
    | Some i => present (pde (pbyte (kmem s)) (cr3 (kmem s)) (dir_idx a)) = false /\ lowest_free f (kb h) (kn h) i
    | None => present (pde (pbyte (kmem s)) (cr3 (kmem s)) (dir_idx a)) = true
    end;
  pg_space : user_space m' R f' (fun p => F p /\ p <> frame_of (ust u) j /\ ~ new_table h o p) h t u;
  pg_user x : 0 <= x < 8 * un u -> bit f' (ub u) x = bit f (ub u) x || (x =? j);
  pg_process x : 0 <= x < 8 * pn u -> bit f' (pb u) x = bit f (pb u) x || (x =? (a - pst u) / 4096);
  pg_kernel x : 0 <= x < 8 * kn h -> bit f' (kb h) x = bit f (kb h) x || bool_decide (o = Some x);
  pg_out b : P b -> ~ map_bits h u b -> f' b = f b }.

Definition all_bytes (b : Z) : Prop := True.

(** Bits of one map while another is written. *)
Lemma bits_apart f f' b n c k j : (forall a, ~ span c k a -> f' a = f a) -> (forall a, span b n a -> ~ span c k a) ->
  0 <= j < 8 * n -> bit f' b j = bit f b j.
Proof. intros Hf Ha Hj. eapply bits_same; [| exact Hj]. intros x Hx. by apply Hf, Ha. Qed.

(** The two writes before the page is entered. *)
Record marked R f f1 f2 h u (i j : Z) : Prop := mk_marked {
  mk_out1 b : ~ span (pb u) (pn u) b -> f1 b = f b;
  mk_bits1 x : 0 <= x -> bit f1 (pb u) x = bit f (pb u) x || (x =? i);
  mk_out2 b : ~ span (ub u) (un u) b -> f2 b = f1 b;
  mk_bits2 x : 0 <= x -> bit f2 (ub u) x = bit f1 (ub u) x || (x =? j);
  mk_low : lowest_free f1 (ub u) (un u) j }.

Section marking.
Context (m m2 : paged) (R : Z -> Prop) (f f1 f2 : Z -> Z) (F : Z -> Prop) (h : heap_maps) (u : user_maps) (t i j : Z)
  (Hus : user_space m R f F h t u) (Hm : marked R f f1 f2 h u i j).

Lemma marked_out b : ~ map_bits h u b \/ span (kb h) (kn h) b -> f2 b = f b.
Proof.
  unfold map_bits. intros Hb. pose proof (ul_kernel _ _ _ _ _ (us_layout _ _ _ _ _ _ _ Hus) b) as Hk.
  rewrite (mk_out2 _ _ _ _ _ _ _ _ Hm), (mk_out1 _ _ _ _ _ _ _ _ Hm); [done | |]; intros Hx; tauto.
Qed.

Lemma marked_user x : 0 <= x < 8 * un u -> bit f1 (ub u) x = bit f (ub u) x.
Proof.
  apply (bits_apart f f1 _ _ _ _ _ (mk_out1 _ _ _ _ _ _ _ _ Hm)). apply (us_layout _ _ _ _ _ _ _ Hus).
Qed.

Lemma marked_process x : 0 <= x < 8 * pn u -> bit f2 (pb u) x = bit f1 (pb u) x.
Proof.
  apply (bits_apart f1 f2 _ _ _ _ _ (mk_out2 _ _ _ _ _ _ _ _ Hm)). intros b Hb Hx.
  by apply (ul_user _ _ _ _ _ (us_layout _ _ _ _ _ _ _ Hus) b).
Qed.

Lemma marked_kernel x : 0 <= x < 8 * kn h -> bit f2 (kb h) x = bit f (kb h) x.
Proof. intros Hx. eapply bits_same; [| exact Hx]. intros b Hb. apply marked_out. by right. Qed.

Lemma marked_layout : user_layout R f2 h t u.
Proof.
  eapply user_layout_keep; [apply (us_layout _ _ _ _ _ _ _ Hus) |]. intros b Hw. apply marked_out. left.
  by apply (ul_words _ _ _ _ _ (us_layout _ _ _ _ _ _ _ Hus)).
Qed.

Lemma marked_low : lowest_free f (ub u) (un u) j.
Proof.
  destruct (mk_low _ _ _ _ _ _ _ _ Hm) as [[Hj Hb] Hl]. rewrite marked_user in Hb by done.
  split; [done |]. intros x Hx. rewrite <- marked_user by lia. by apply Hl.
Qed.

Lemma marked_frame : F (frame_of (ust u) j).
Proof. apply (us_frames _ _ _ _ _ _ _ Hus). exists j. split; [apply marked_low | done]. Qed.

Lemma marked_not_kernel : ~ free_frame f2 (kb h) (kn h) (kst h) (frame_of (ust u) j).
Proof.
  intros (x & [Hx _] & He). destruct (marked_low) as [[Hj _] _].
  apply (user_frame_above _ _ _ _ _ x j (us_layout _ _ _ _ _ _ _ Hus)); [done | lia | done].
Qed.

Context (Hvs2 : vspace m2 R f2 F) (Hum : unmoved m m2 R).

Lemma marked_heap : heap_space m2 R f2 F h.
Proof.
  eapply heap_space_after; [apply (us_heap _ _ _ _ _ _ _ Hus) | done | | exact Hvs2 | exact Hum].
  pose proof (ul_words _ _ _ _ _ (us_layout _ _ _ _ _ _ _ Hus)) as Hw. unfold map_words in Hw.
  intros b [Hb | [Hb | [Hb | Hb]]]; apply marked_out; [left; apply Hw; tauto | left; apply Hw; tauto | by right |
    left; apply Hw; tauto].
Qed.

Context (m3 : paged) (f3 : Z -> Z) (a : Z) (o : option Z) (Ha : is_u32 a) (Hal : a mod 4096 = 0) (Hlo : a + 4096 <= vst h)
  (Hadd : page_added m2 m3 R f2 f3 F h a (frame_of (ust u) j) o).

(** The page that has been added is the user's, and its table the kernel's. *)
Lemma added_space : user_space m3 R f3 (fun p => F p /\ p <> frame_of (ust u) j /\ ~ new_table h o p) h t u.
Proof.
  pose proof marked_layout as Hl2. pose proof (pa_out _ _ _ _ _ _ _ _ _ _ Hadd) as Ho3.
  assert (user_layout R f3 h t u) as Hl3.
  { eapply user_layout_keep; [exact Hl2 |]. intros b Hw. apply Ho3. intros Hx.
    apply (ul_words _ _ _ _ _ Hl2 b Hw). by left. }
  split; [exact Hl3 | |].
  - eapply heap_space_added; [apply marked_heap | apply (ul_heap _ _ _ _ _ Hl3) | exact Hadd | apply marked_not_kernel | |].
    + intros x Hx. apply (bits_apart f2 f3 (vb h) (vn h) _ _ x Ho3); [| done]. intros b Hb Hk.
      apply (ul_words _ _ _ _ _ Hl2 b); [by right; right; left | by left].
    + intros x Hx. assert (frame a = a) as -> by (unfold frame; zlia).
      destruct (heap_page_range _ _ _ x (ul_heap _ _ _ _ _ Hl2) Hx) as (_ & Hp & _).
      unfold heap_page, frame in *. zlia.
  - intros p (x & [Hx Hb] & ->).
    assert (bit f3 (ub u) x = bit f2 (ub u) x) as He.
    { apply (bits_apart f2 f3 (ub u) (un u) _ _ x Ho3); [| done]. intros b Hb1 Hb2. by destruct (ul_kernel _ _ _ _ _ Hl2 b Hb2). }
    rewrite He, (mk_bits2 _ _ _ _ _ _ _ _ Hm), marked_user in Hb by lia. apply orb_false_iff in Hb as [Hb Hne].
    split; [apply (us_frames _ _ _ _ _ _ _ Hus); by exists x |]. split; [unfold frame_of; lia |].
    intros (k & -> & Hk). pose proof (pa_table _ _ _ _ _ _ _ _ _ _ Hadd) as [_ [[Hkr _] _]].
    by apply (user_frame_above _ _ _ _ _ k x Hl2); [| lia |].
Qed.

Lemma added_given s : kmem s = m -> i = (a - pst u) / 4096 -> page_given s R f F h u t a all_bytes m3 f3 j o.
Proof.
  intros Hk Hi. pose proof marked_layout as Hl2. pose proof Hadd as [Ht Hvs Hg Hb Ho3].
  assert (frame a = a) as Hfa by (unfold frame; zlia). pose proof (dir_idx_range _ Ha) as Hdr.
  pose proof (um_pde _ _ _ Hum _ Hdr) as Hpde. pose proof (um_cr3 _ _ _ Hum) as Hc.
  split; [apply marked_low | | | | | apply added_space | | | |].
  - intros k Hk'. rewrite <- Hfa. by apply (gr_new _ _ _ _ _ _ Hg).
  - intros a' pa Hv. apply (gr_ext _ _ _ _ _ _ Hg). rewrite Hk in Hv. by rewrite (um_virt _ _ _ Hum).
  - rewrite (gr_cr3 _ _ _ _ _ _ Hg). by rewrite Hc, Hk.
  - rewrite Hk. rewrite Hc, Hpde in Ht. destruct o as [k |]; [| exact Ht]. destruct Ht as (Hpr & [Hkr Hkb] & Hlow).
    split; [exact Hpr |]. rewrite marked_kernel in Hkb by done. split; [by split |].
    intros x Hx. rewrite <- marked_kernel by lia. by apply Hlow.
  - intros x Hx. transitivity (bit f2 (ub u) x).
    + apply (bits_apart f2 f3 (ub u) (un u) _ _ x Ho3); [| done]. intros b Hb1 Hb2.
      by destruct (ul_kernel _ _ _ _ _ Hl2 b Hb2).
    + rewrite (mk_bits2 _ _ _ _ _ _ _ _ Hm) by lia. by rewrite marked_user.
  - intros x Hx. transitivity (bit f2 (pb u) x).
    + apply (bits_apart f2 f3 (pb u) (pn u) _ _ x Ho3); [| done]. intros b Hb1 Hb2.
      by destruct (ul_kernel _ _ _ _ _ Hl2 b Hb2).
    + rewrite marked_process by done. rewrite (mk_bits1 _ _ _ _ _ _ _ _ Hm) by lia. by rewrite Hi.
  - intros x Hx. rewrite Hb by lia. by rewrite marked_kernel.
  - intros b _ Hx. rewrite Ho3; [by apply marked_out; left |]. intros Hy. apply Hx. by left.
Qed.
End marking.

Lemma wp_give_page {A} G s R f F h u t a (k0 k : cmd (kstate paged) A) (Q : A -> kstate paged -> Prop) :
  user_space (kmem s) R f F h t u -> is_u32 a -> a mod 4096 = 0 ->
  pst u + 4096 <= a < pst u + 4096 * (8 * pn u) -> pst u mod 4096 = 0 -> 0 <= pst u ->
  a + 4096 <= vst h -> 1 <= dir_idx a < 1023 -> (exists j, free_bit f (ub u) (un u) j) ->
  (present (pde (pbyte (kmem s)) (cr3 (kmem s)) (dir_idx a)) = true ->
    present (pte (pbyte (kmem s)) (cr3 (kmem s)) a) = false) ->
  (present (pde (pbyte (kmem s)) (cr3 (kmem s)) (dir_idx a)) = false -> exists i, free_bit f (kb h) (kn h) i) ->
  (forall m' f' j o out, page_given s R f F h u t a all_bytes m' f' j o ->
     wp G k (put_out out (set_mem m' s)) Q) ->
  wp G (claim_page 192 (userprog_vaddr t) a;;
        do q <- palloc user_pool;
        if q =? 0 then k0 else page_table_add a q;; k) s Q.
Proof.
  intros Hus Ha Hal Hr Hpal Hp0 Hlo Hd Hfree Hun Htab HQ. pose proof (us_layout _ _ _ _ _ _ _ Hus) as Hl.
  pose proof (hs_vspace _ _ _ _ _ (us_heap _ _ _ _ _ _ _ Hus)) as Hvs. pose proof (ul_words _ _ _ _ _ Hl) as L7.
  apply wp_bind. eapply wp_claim_page; [exact Hvs | apply (ul_bitmap _ _ _ _ _ Hl) | apply (ul_start _ _ _ _ _ Hl) |
    apply (ul_inside _ _ _ _ _ Hl) | done .. |].
  intros m1 f1 Hvs1 Hum1 Ho1 Hb1.
  assert (user_layout R f1 h t u) as Hl1.
  { eapply user_layout_keep; [exact Hl |]. intros b Hw. apply Ho1. intros Hx. apply (L7 b Hw). by right; right. }
  apply wp_bind. eapply wp_palloc_vspace; [exact Hvs1 | apply (ul_pool _ _ _ _ _ Hl1) | |].
  { destruct Hfree as (j & Hj & Hb). exists j. split; [done |].
    rewrite (bits_apart f f1 (ub u) (un u) _ _ j Ho1); [done | apply (ul_user _ _ _ _ _ Hl) | done]. }
  intros j m2 f2 Hlow Hvs2 Hum2 _ Ho2 Hb2. cbn [kmem set_mem] in Hum2.
  pose proof (unmoved_trans _ _ _ _ Hum1 Hum2) as Hum. set (q := frame_of (ust u) j).
  assert (marked R f f1 f2 h u ((a - pst u) / 4096) j) as Hmk by done.
  destruct (frame_of_range _ _ _ _ _ _ j (ul_pool _ _ _ _ _ Hl)) as (_ & _ & Hq0); [apply Hlow |]. fold q in Hq0.
  rewrite (proj2 (Z.eqb_neq q 0)) by lia. pose proof (dir_idx_range _ Ha) as Hdr.
  pose proof (marked_heap _ m2 _ _ _ _ _ _ _ _ _ _ Hus Hmk Hvs2 Hum) as Hh2. apply wp_bind.
  eapply (wp_page_added _ _ R f2 F h); [exact Hvs2 | apply (hp_pool _ _ _ (hs_heap _ _ _ _ _ Hh2)) | exact Ha | exact Hd |
    by eapply marked_frame | by eapply marked_not_kernel | apply (hs_frames _ _ _ _ _ Hh2) | | |];
    cbn [kmem set_mem]; rewrite ?(um_cr3 _ _ _ Hum), ?(um_pde _ _ _ Hum) by done.
  - intros Hx. rewrite (um_pte _ _ _ Hum) by done. by apply Hun.
  - intros Hx. destruct (Htab Hx) as (i & Hi & Hb). exists i. split; [done |].
    by rewrite (marked_kernel _ _ _ _ _ _ _ _ _ _ _ Hus Hmk).
  - intros m3 f3 o out Hadd. change (wp G k (put_out out (set_mem m3 s)) Q). apply (HQ m3 f3 j o out).
    by eapply (added_given _ m2).
Qed.

(** Writes to other bytes before and after: those of the lock. *)
Lemma page_given_around s s1 R f f1 F h u t a (P : Z -> Prop) m3 f3 m5 f5 j o :
  page_given s1 R f1 F h u t a all_bytes m3 f3 j o -> is_u32 a -> (forall b, map_bytes h t u b -> P b) ->
  user_space (kmem s) R f F h t u -> unmoved (kmem s) (kmem s1) R -> (forall b, P b -> f1 b = f b) ->
  unmoved m3 m5 R -> vspace m5 R f5 (fun p => F p /\ p <> frame_of (ust u) j /\ ~ new_table h o p) ->
  (forall b, P b -> f5 b = f3 b) -> page_given s R f F h u t a P m5 f5 j o.
Proof.
  intros [Hl Hn He Hc Ht Hsp Hu Hp Hk Ho] Ha HP Hus Hum Hf1 Hum5 Hvs5 Hf5.
  pose proof Hl as [[Hj _] _]. unfold map_bytes, map_bits in HP.
  assert (forall x, 0 <= x < 8 * un u -> bit f1 (ub u) x = bit f (ub u) x /\ bit f5 (ub u) x = bit f3 (ub u) x) as Bu.
  { intros x Hx. split; (eapply bits_same; [| exact Hx]); intros b Hb; [apply Hf1 | apply Hf5]; apply HP; tauto. }
  assert (forall x, 0 <= x < 8 * pn u -> bit f1 (pb u) x = bit f (pb u) x /\ bit f5 (pb u) x = bit f3 (pb u) x) as Bp.
  { intros x Hx. split; (eapply bits_same; [| exact Hx]); intros b Hb; [apply Hf1 | apply Hf5]; apply HP; tauto. }
  assert (forall x, 0 <= x < 8 * kn h -> bit f1 (kb h) x = bit f (kb h) x /\ bit f5 (kb h) x = bit f3 (kb h) x) as Bk.
  { intros x Hx. split; (eapply bits_same; [| exact Hx]); intros b Hb; [apply Hf1 | apply Hf5]; apply HP; tauto. }
  assert (forall b n i, (forall x, 0 <= x < 8 * n -> bit f1 b x = bit f b x) -> lowest_free f1 b n i -> lowest_free f b n i)
    as Hlow.
  { intros b n i Hb [[Hi H0] H1]. split; [split; [done | by rewrite <- Hb] |].
    intros x Hx. rewrite <- Hb by lia. by apply H1. }
  pose proof (um_cr3 _ _ _ Hum) as Hc1. pose proof (um_pde _ _ _ Hum _ (dir_idx_range _ Ha)) as Hpd.
  split; [| | | | | eapply user_space_keep; [exact Hsp | exact Hvs5 | exact Hum5 |] | | | |].
  - eapply Hlow; [| exact Hl]. intros x Hx. by apply Bu.
  - intros k Hk'. rewrite (um_virt _ _ _ Hum5). by apply Hn.
  - intros a' pa Hv. rewrite (um_virt _ _ _ Hum5). apply He. by rewrite (um_virt _ _ _ Hum).
  - by rewrite (um_cr3 _ _ _ Hum5), Hc, Hc1.
  - rewrite Hc1, Hpd in Ht. destruct o as [k |]; [| exact Ht]. destruct Ht as [Hpr Hlk]. split; [exact Hpr |].
    eapply Hlow; [| exact Hlk]. intros x Hx. by apply Bk.
  - intros b Hb. by apply Hf5, HP.
  - intros x Hx. destruct (Bu x Hx) as [<- ->]. by apply Hu.
  - intros x Hx. destruct (Bp x Hx) as [<- ->]. by apply Hp.
  - intros x Hx. destruct (Bk x Hx) as [<- ->]. by apply Hk.
  - intros b Hb Hx. rewrite Hf5, Ho, Hf1 by done. done.
Qed.

(** What [get_a_page] leaves. *)
Record user_page s R f F h u K (a lh ln : Z) m' f' K' (j : Z) (o : option Z) (t := cur (ks K)) : Prop := mk_user_page {
  up_given : page_given s R f F h u t a (own K) m' f' j o;
  up_runs : runs_in (set_mem m' s) R f' (fun p => F p /\ p <> frame_of (ust u) j /\ ~ new_table h o p) K';
  up_sched : ks K' = ks K;
  up_own : own K' = own K;
  up_lock : locks K' !! pool_lock user_pool = Some (t, lock_count K lh ln - 1) }.

Lemma wp_get_a_page G s R f F h u K a lh ln (Q : Z -> kstate paged -> Prop) :
  page_wanted s R f F h u K a lh ln ->
  (forall m' f' K' j o out, user_page s R f F h u K a lh ln m' f' K' j o -> Q a (put_out out (set_mem m' s))) ->
  wp G (get_a_page PF_USER a) s Q.
Proof.
  intros [Hr Hus Hown (v & Hv & Hdir) Hlk Hln Hal [Hrg [Hpal Hp0]] [Hlo Hd] Hfree Hun Htab] HQ.
  assert (is_u32 a) as Ha.
  { unfold dir_idx in Hd. unfold is_u32. zlia. }
  set (t := cur (ks K)) in *. unfold get_a_page. change (negb (Z.land PF_KERNEL PF_USER =? 0)) with false. cbv iota zeta.
  apply wp_bind. eapply wp_lock_in; [exact Hr | exact Hlk |].
  intros m1 f1 K1 Hr1 Hum1 Hk1 Hd1 Ho1 Hl1. set (s1 := set_mem m1 s) in *.
  assert (forall b, own K b -> f1 b = f b) as Hf1.
  { intros b Hb. rewrite (runs_in_data _ _ _ _ _ b Hr1) by (by rewrite Ho1).
    rewrite (runs_in_data _ _ _ _ _ b Hr Hb). by rewrite Hd1. }
  assert (user_space m1 R f1 F h t u) as Hus1.
  { eapply user_space_keep; [exact Hus | apply (ri_space _ _ _ _ _ Hr1) | exact Hum1 |]. intros b Hb. by apply Hf1, Hown. }
  apply wp_bind, wp_running_thread. assert (page_of (kesp s1) = t) as -> by (rewrite (ri_esp _ _ _ _ _ Hr1), Hk1; done).
  pose proof (sr_sched _ _ _ (ri_rep _ _ _ _ _ Hr1)) as HA. rewrite Hk1 in HA.
  pose proof (rep_task _ _ _ HA _ _ Hv) as Hta.
  apply wp_bind. eapply (wp_task_word (RL := kept_laws m1 R) _ _ _ _ _ _ _ 52);
    [eapply runs_in_backs, Hr1 | exact HA | exact Hv | lia | lia |].
  change (w32 f1 (t + 52)) with (w32 f1 (pgdir t)). rewrite (at_pgdir _ _ _ Hta), (proj2 (Z.eqb_neq _ 0)) by done.
  change (PF_USER =? PF_USER) with true. cbn [negb andb]. pose proof (dir_idx_range _ Ha) as Hdr.
  eapply (wp_give_page _ _ R f1 F h u t a); [exact Hus1 | done .. | | | |];
    cbn [kmem set_mem s1]; rewrite ?(um_cr3 _ _ _ Hum1), ?(um_pde _ _ _ Hum1) by done.
  { destruct Hfree as (j & Hj & Hb). exists j. split; [done |]. rewrite <- Hb. eapply bits_same; [| exact Hj].
    intros b Hbb. apply Hf1, Hown. left. by right; left. }
  { intros Hx. rewrite (um_pte _ _ _ Hum1) by done. by apply Hun. }
  { intros Hx. destruct (Htab Hx) as (i & Hi & Hb). exists i. split; [done |]. rewrite <- Hb.
    eapply bits_same; [| exact Hi]. intros b Hbb. apply Hf1, Hown. left. by left. }
  intros m3 f3 j o out Hg. pose proof (hs_vspace _ _ _ _ _ (us_heap _ _ _ _ _ _ _ (pg_space _ _ _ _ _ _ _ _ _ _ _ _ _ Hg))) as Hvs3.
  set (s3 := put_out out (set_mem m3 s1)). set (F' := fun p => F p /\ p <> frame_of (ust u) j /\ ~ new_table h o p) in *.
  assert (runs_in s3 R f3 F' (set_data f3 K1)) as Hr3.
  { eapply runs_in_own; [exact Hr1 | done | exact Hvs3 |]. rewrite Ho1. intros b Hb.
    apply (pg_out _ _ _ _ _ _ _ _ _ _ _ _ _ Hg); [done |]. intros Hx. by apply Hb, Hown; left. }
  apply wp_bind. eapply (wp_unlock_in _ s3); [exact Hr3 | cbn; rewrite Hk1; exact Hl1 | unfold lock_count; case_match; lia |].
  intros m5 f5 K5 Hr5 Hum5 Hk5 Hd5 Ho5 Hl5. apply wp_ret. cbn [ks data own set_data] in Hk5, Hd5, Ho5.
  change (Q a (put_out out (set_mem m5 s))). apply (HQ m5 f5 K5 j o out).
  assert (forall b, own K b -> f5 b = f3 b) as Hf5.
  { intros b Hb. rewrite (runs_in_data _ _ _ _ _ b Hr5) by (by rewrite Ho5, Ho1). by rewrite Hd5. }
  split.
  - eapply (page_given_around s s1); [exact Hg | exact Ha | exact Hown | exact Hus | exact Hum1 | exact Hf1 |
      exact Hum5 | apply (ri_space _ _ _ _ _ Hr5) | exact Hf5].
  - by destruct Hr5.
  - by rewrite Hk5.
  - by rewrite Ho5.
  - rewrite Hl5. cbn. by rewrite Hk1.
Qed.
End user.

(** ** Properties *)

Section properties.
Context {LY : Layout}.
Implicit Types (s : kstate paged) (R F : Z -> Prop) (f : Z -> Z) (K : ksys) (h : heap_maps) (u : user_maps).

(** C24. [get_a_page] for a running process: the page of the given address, which is
    not the first of its range, is mapped to the lowest free frame of the user's
    pool; when it has no table, the lowest free frame of the kernel's pool
    becomes one.  The bits of the page and of the frames are set and all other
    memory of the kernel is kept; no address that was mapped has moved, and the
    invariants of the scheduler, of the heap and of the user's side hold again,
    with these frames less. *)
Theorem get_a_page_gives s R f F h u K a lh ln : page_wanted s R f F h u K a lh ln ->
  exists m' f' K' j o out, get_a_page PF_USER a s = Done a (put_out out (set_mem m' s)) /\
    user_page s R f F h u K a lh ln m' f' K' j o.
Proof.
  intros Hw.
  destruct (proj1 (wp_seq_only (get_a_page PF_USER a) s (fun r s' => exists m' f' K' j o out,
    r = a /\ s' = put_out out (set_mem m' s) /\ user_page s R f F h u K a lh ln m' f' K' j o)))
    as (r & s' & Hc & m' & f' & K' & j & o & out & -> & -> & Hp); [| by exists m', f', K', j, o, out].
  eapply wp_get_a_page; [exact Hw |]. intros m' f' K' j o out Hp. by exists m', f', K', j, o, out.
Qed.

(** [get_a_page] for the user's side stops the machine, with the pool's lock
    taken, when a kernel thread calls it, and when the page is the first of the
    process's range: 0 is not accepted as an index. *)
Theorem get_a_page_refuses s R f F K v a lh ln (t := cur (ks K)) (st := w32 f (vaddr_start (userprog_vaddr t))) :
  runs_in s R f F K -> tasks (ks K) !! t = Some v -> lock_ready K (pool_lock user_pool) lh ln ->
  inside (own K) (vaddr_start (userprog_vaddr t)) 4 -> st <= a < st + 4096 ->
  exists s', get_a_page PF_USER a s = Panic (if tv_pgdir v =? 0
    then mk_panic "kernel/memory.c" 200 "get_a_page"
      "get_a_page: not allow kernel alloc userspace or user alloc kernelspace by get_a_page"
    else mk_panic "kernel/memory.c" 192 "get_a_page" "bit_idx > 0") s'.
Proof.
  intros Hr Hv Hlk Hown Ha. assert (is_u32 st) as Hst.
  { eapply (backs_w32 (RL := kept_laws (kmem s) R)); [by eapply runs_in_backs |]. intros b Hb.
    by apply (sr_own _ _ _ (ri_rep _ _ _ _ _ Hr)), Hown. }
  set (why := if tv_pgdir v =? 0 then _ else _).
  destruct (wp_seq_panic (get_a_page PF_USER a) s (fun p _ => p = why)) as (p & s' & Hs' & ->); [| by exists s'].
  unfold get_a_page. change (negb (Z.land PF_KERNEL PF_USER =? 0)) with false. cbv iota zeta.
  apply wp_bind. eapply wp_lock_in; [exact Hr | exact Hlk |]. intros m1 f1 K1 Hr1 _ Hk1 Hd1 Ho1 _.
  set (s1 := set_mem m1 s) in *.
  apply wp_bind, wp_running_thread. assert (page_of (kesp s1) = t) as -> by (rewrite (ri_esp _ _ _ _ _ Hr1), Hk1; done).
  pose proof (sr_sched _ _ _ (ri_rep _ _ _ _ _ Hr1)) as HA. rewrite Hk1 in HA.
  pose proof (rep_task _ _ _ HA _ _ Hv) as Hta.
  apply wp_bind. eapply (wp_task_word (RL := kept_laws m1 R) _ _ _ _ _ _ _ 52);
    [eapply runs_in_backs, Hr1 | exact HA | exact Hv | lia | lia |].
  change (w32 f1 (t + 52)) with (w32 f1 (pgdir t)). rewrite (at_pgdir _ _ _ Hta).
  change (PF_USER =? PF_USER) with true. apply wp_bind. subst why. destruct (Z.eqb_spec (tv_pgdir v) 0) as [H0 | H0]; cbn [negb andb].
  - apply wp_bind. eapply (wp_task_word (RL := kept_laws m1 R) _ _ _ _ _ _ _ 52);
      [eapply runs_in_backs, Hr1 | exact HA | exact Hv | lia | lia |].
    change (PF_KERNEL =? PF_USER) with false. change (PF_USER =? PF_KERNEL) with false. rewrite andb_false_r.
    apply wp_panic_spin. by intros s'' _.
  - unfold claim_page. apply wp_bind. eapply (wp_ld32 (RL := kept_laws m1 R)); [eapply runs_in_backs, Hr1 | | intros _].
    { intros b Hb. apply (sr_own _ _ _ (ri_rep _ _ _ _ _ Hr1)). rewrite Ho1. by apply Hown. }
    assert (w32 f1 (vaddr_start (userprog_vaddr t)) = st) as ->.
    { apply w32_ext. intros b Hb. apply Hown in Hb. rewrite (runs_in_data _ _ _ _ _ b Hr1) by (by rewrite Ho1).
      rewrite (runs_in_data _ _ _ _ _ b Hr Hb). by rewrite Hd1. }
    cbv zeta. assert (u32 (a - st) / PG_SIZE = 0) as ->.
    { rewrite u32_small by (unfold is_u32; lia). apply Z.div_small. unfold PG_SIZE. lia. }
    apply wp_bind. change (0 <? s32 0) with false. apply wp_assert_fails. by intros s'' _.
Qed.
End properties.

(** The concrete machine with a process at [proc] that runs, and the main thread
    that is ready. *)
Module examples.
#[local] Existing Instance demo_layout.
Import Mapping.examples KHeap.examples.

Definition proc : Z := 0xc000a000.
Definition user_lock : Z := pool_lock user_pool.
Definition proc_view : tview := mk_tview (proc + 3664) TASK_RUNNING 31 31 0 0xc00b0000 0x19851122.
Definition main_view : tview :=
  mk_tview (Thread.examples.t1 + 3664) TASK_READY 31 7 0 0 0x19851122.
Definition user_queues : qmap :=
  [(thread_ready_list, [Thread.examples.t1]); (waiters (semaphore pid_lock), []); (waiters (semaphore user_lock), [])].
Definition user_tasks : tmap := [(Thread.examples.t1, main_view); (proc, proc_view)].
Definition user_words : list (Z * Z) := [
  (semaphore pid_lock, 1); (semaphore user_lock, 1);
  (user_pool, 1); (user_pool + 4, 0xc009a004); (phy_addr_start user_pool, 0x208000);
  (userprog_vaddr proc, 2040); (userprog_vaddr proc + 4, proc + 0x100); (vaddr_start (userprog_vaddr proc), 0x8048000)].
Definition user_phys : flat := flat_of (
  map (fun '(a, v) => (a - 0xc0000000, v)) (user_words ++ sched_words user_queues user_tasks) ++ [
  (0x100000, 0x101007); (0x100000 + 4 * 768, 0x101007); (0x100000 + 4 * 1023, 0x100007);
  (0x101000, 0x7); (0x101000 + 4 * 8, 0x8007); (0x101000 + 4 * 0x9a, 0x9a007); (0x101000 + 4 * 0x9e, 0x9e007);
  (0x101000 + 4 * 9, 0x9007); (0x101000 + 4 * 0xa, 0xa007); (0x101000 + 4 * 0xb0, 0xb0007);
  (0x8100, 1); (0x8104, 0xc009a000); (0x8108, 0x200000);
  (0x8180, 2); (0x8184, 0xc009a001); (0x8188, 0xc0100000);
  (0x928, 0xffff); (0x92c, 0x000ff800); (0x930, 0xffff); (0x934, 0x000ff200)]).
Definition user_demo : paged := mk_paged user_phys 0x100000.
Definition user_region : list (Z * Z) := [(0xc0000928, 16); (0xc0008000, 400); (0xc0009300, 108); (0xc000a000, 4096); (0xc009a000, 16); (0xc009e000, 72)].
Definition user_R : Z -> Prop := spans user_region.
Definition user_f (a : Z) : Z := pbyte user_demo (a - 0xc0000000).
Definition user_state : kstate paged := mk_kstate user_demo false 0xc000aff0 vars0 [] [] (fun _ => 0) [(GDTR, gdt_operand)].
Definition user_side : user_maps := mk_user_maps 0xc009a004 1 0x208000 (proc + 0x100) 2040 0x8048000.

(** A machine whose tables are those of [demo]. *)
Definition same_tables (m : paged) : bool :=
  forallb (fun k => pbyte m (0x100000 + k) =? pbyte demo (0x100000 + k)) (zrange 0x2000).
Definition maps_low (m : paged) (a : Z) : bool :=
  match virt m a with
  | Some pa => (pa =? a - 0xc0000000) && (negb (frame pa =? 0x100000) && negb (frame pa =? 0x101000))
  | None => false
  end.

Lemma like_demo m : same_tables m = true -> vm (pbyte m) 0x100000 demo_F /\
  (forall p, is_table (pbyte m) 0x100000 p <-> is_table (pbyte demo) 0x100000 p).
Proof.
  intros Hs. destruct (vm_ext _ _ demo_F demo_vm (pbyte m) (pbyte_u8 m)) as (Hvm & Htab & _); [| by split].
  intros b Hb. assert (0 <= b - 0x100000 < 0x2000) as Hr.
  { assert (frame b = 0x100000 \/ frame b = 0x101000) as Hf.
    { destruct Hb as [He | (i & Hi & Hp & He)]; [by left |]. destruct (demo_dirs i Hi Hp) as [[_ Hd] | [_ Hd]]; lia. }
    unfold frame in Hf. zlia. }
  pose proof (zrange_forallb _ _ Hs _ Hr) as Hc. cbv beta in Hc.
  replace (0x100000 + (b - 0x100000)) with b in Hc by lia. by apply Z.eqb_eq.
Qed.

Lemma like_demo_vspace m r : cr3 m = 0x100000 -> same_tables m = true ->
  forallb (fun '(a, n) => forallb (fun k => maps_low m (a + k)) (zrange n)) r = true ->
  vspace m (spans r) (fun a => pbyte m (a - 0xc0000000)) demo_F.
Proof.
  intros Hcr Hs Hr. destruct (like_demo m Hs) as [Hvm Htab].
  assert (forall a, spans r a -> virt m a = Some (a - 0xc0000000) /\
    frame (a - 0xc0000000) <> 0x100000 /\ frame (a - 0xc0000000) <> 0x101000) as Hmap.
  { intros a Ha. pose proof (spans_all r (maps_low m) a Hr Ha) as Hc. unfold maps_low in Hc.
    destruct (virt m a) as [pa |]; [| done]. apply andb_true_iff in Hc as [->%Z.eqb_eq Hf]. split; [done | lia]. }
  split; [by rewrite Hcr |]. intros a Ha. destruct (Hmap a Ha) as (Hv & Hf1 & Hf2).
  exists (a - 0xc0000000). split; [done |]. split; [done |]. split.
  - rewrite Hcr, Htab. intros [He | (j & Hj & Hp & He)]; [done |].
    destruct (demo_dirs j Hj Hp) as [[_ Hd] | [_ Hd]]; rewrite Hd in He; congruence.
  - intros a' Ha' Hv'. destruct (Hmap a' Ha') as [Hv2 _]. rewrite Hv' in Hv2. injection Hv2. lia.
Qed.

Lemma user_vspace : vspace user_demo user_R user_f demo_F.
Proof. apply like_demo_vspace; vm_compute; reflexivity. Qed.

(** The members of these records are decided by computing. *)
Ltac settle := lazymatch goal with
  | |- inside _ _ _ => apply spans_inside; vm_compute; reflexivity
  | |- _ = _ => vm_compute; reflexivity
  | |- _ \/ _ => left; by apply Z.leb_le
  | |- _ /\ _ => split; by vm_compute
  | |- _ <= _ => by apply Z.leb_le
  end.

Lemma user_heap : is_heap user_R user_f demo_heap.
Proof. split; [split; [split |..] | split | ..]; settle. Qed.

Lemma user_heap_space : heap_space user_demo user_R user_f demo_F demo_heap.
Proof.
  split; [apply user_heap | apply user_vspace | |].
  - intros p (i & [Hi _] & ->). exists i. cbn in Hi. split; [lia | done].
  - intros i [Hi _]. cbn in Hi.
    pose proof (zrange_forallb (fun i => present (pde (pbyte user_demo) (cr3 user_demo) (dir_idx (heap_page demo_heap i))) &&
      negb (present (pte (pbyte user_demo) (cr3 user_demo) (heap_page demo_heap i)))) 16 ltac:(vm_compute; reflexivity) i Hi) as Hc.
    cbv beta in Hc. apply andb_true_iff in Hc as [Hp Hn%negb_true_iff]. done.
Qed.

Lemma user_sides : user_layout user_R user_f demo_heap proc user_side.
Proof.
  split; [apply user_heap | split; [split | ..] | .. | split | | | | |]; try settle.
  - intros b Hb Hb'. unfold map_words, map_bits in *. cbn [ub un pb pn kb kn vb vn user_side demo_heap] in *.
    unfold span, kernel_pool, kernel_vaddr, user_pool, userprog_vaddr, proc in *. cbn [demo_layout] in *. lia.
  - intros b Hb. cbn in *. unfold span, proc in *. lia.
  - intros b Hb. cbn in *. unfold span, proc in *. lia.
Qed.

Lemma user_space_holds : user_space user_demo user_R user_f demo_F demo_heap proc user_side.
Proof.
  split; [apply user_sides | apply user_heap_space |]. intros p (i & [Hi _] & ->). exists (i + 8). cbn in Hi |- *.
  split; [lia |]. unfold frame_of. lia.
Qed.

Definition user_semas : smap := [(semaphore pid_lock, 1); (semaphore user_lock, 1)].
Definition user_locks : lmap := [(pid_lock, (0, 0)); (user_lock, (0, 0))].
Definition user_own : list (Z * Z) := [(0xc0000928, 16); (kernel_pool, 16); (kernel_vaddr, 12); (user_pool, 16); (0xc009a000, 16);
  (userprog_vaddr proc, 12); (proc + 0x100, 2041); (proc + 3664, 432)].
Definition user_sched : sched := sched_of 0xc000aff0 user_queues user_tasks.
Definition user_ksys : ksys := with_own (spans user_own) user_f (ksys_of user_sched user_semas user_locks).

Lemma user_runs : runs_in user_state user_R user_f demo_F user_ksys.
Proof.
  split; [apply user_vspace | apply (sys_rep_spans _ _ _ _ _ _ _ user_region); vm_compute; reflexivity | done | |].
  - apply wfb_spec. by vm_compute.
  - exists proc_view. split; by vm_compute.
Qed.

Lemma user_wants : page_wanted user_state user_R user_f demo_F demo_heap user_side user_ksys 0xbfff000 0 0.
Proof.
  split; change (cur (ks user_ksys)) with proc.
  - apply user_runs.
  - apply user_space_holds.
  - intros b Hb. change (spans user_own b). unfold map_bytes, map_bits, map_words in Hb.
    destruct Hb as [[Hb | [Hb | Hb]] | [Hb | [Hb | [Hb | [Hb | Hb]]]]]; revert b Hb;
      apply (spans_inside user_own); vm_compute; reflexivity.
  - by exists proc_view.
  - split; [done |]. split; [done |]. by right.
  - done.
  - done.
  - split; [split; by vm_compute | done].
  - split; [by apply Z.leb_le | split; by vm_compute].
  - exists 0. split; [done | vm_compute; reflexivity].
  - intros Hp. by vm_compute in Hp.
  - intros _. exists 0. split; [done | vm_compute; reflexivity].
Qed.

Lemma get_a_page_gives_witness : exists m' o, get_a_page PF_USER 0xbfff000 user_state =
  Done 0xbfff000 (put_out o (set_mem m' user_state)) /\ virt m' 0xbfff123 = Some 0x208123.
Proof.
  destruct (get_a_page_gives _ _ _ _ _ _ _ _ _ _ user_wants) as (m' & f' & K' & j & o & out & Hc & Hup).
  exists m', out. split; [exact Hc |]. destruct Hup as [[[[Hj H0] Hl] Hn _ _ _ _ _ _ _ _] _ _ _ _].
  assert (j = 0) as ->.
  { destruct (Z.eq_dec j 0) as [-> |]; [done |]. assert (bit user_f (ub user_side) 0 = true) as H1 by (apply Hl; lia).
    by vm_compute in H1. }
  apply (Hn 0x123). lia.
Defined.

Lemma get_a_page_refuses_witness : exists s', get_a_page PF_USER 0x8048000 user_state =
  Panic (mk_panic "kernel/memory.c" 192 "get_a_page" "bit_idx > 0") s'.
Proof.
  apply (get_a_page_refuses user_state user_R user_f demo_F user_ksys proc_view 0x8048000 0 0 user_runs).
  - done.
  - apply user_wants.
  - change (inside (spans user_own) (vaddr_start (userprog_vaddr proc)) 4). apply spans_inside. vm_compute. reflexivity.
  - split; by vm_compute.
Defined.
End examples.
