(* ===== verification/Kernel.v ===== *)
(** The kernel's objects together with its heap of pages: what the steps of a
    long routine keep, and how they compose. *)

From S2P Require Import Prelude Monad RawMem Machine CString Bitmap DList Thread Sync Console Paging.
From S2P Require Import Memory Mapping KHeap PoolInit Task Spawn UserPages.

(** ** Room for several allocations *)

Lemma room_more f h n k : 0 <= k -> room f h (n + k) -> room f h n.
Proof. intros Hk (i & Hi & Hend & Hf). exists i. split; [done |]. split; [lia |]. intros j Hj. apply Hf. lia. Qed.

(** The first fit leaves room for what was planned to follow it. *)
Lemma room_after f f' h n k r : 0 <= n -> 0 <= k -> room f h (n + k) -> first_fit f (vb h) (8 * vn h) n r ->
  (forall j, 0 <= j < 8 * vn h -> bit f' (vb h) j = bit f (vb h) j || in_run r n j) -> room f' h k.
Proof.
  intros Hn Hk (i & Hi & Hend & Hrun) (Hr & Hrn & Hfree & Hfirst) Hbits.
  assert (r <= i) as Hri.
  { destruct (Z.le_gt_cases r i); [done |]. exfalso. apply (Hfirst i); [lia |]. intros j Hj. apply Hrun. lia. }
  destruct (Z.le_gt_cases (r + n) i) as [Hle | Hgt].
  - exists i. split; [done |]. split; [lia |]. intros j Hj. rewrite Hbits, Hrun by lia. unfold in_run. lia.
  - exists (r + n). split; [lia |]. split; [lia |]. intros j Hj. rewrite Hbits, Hrun by lia. unfold in_run. lia.
Qed.

Lemma enough_more f b n c k : 0 <= k -> enough f b n (c + k) -> enough f b n c.
Proof. intros Hk (l & Hnd & Hl & Hf). exists l. split; [done |]. split; [lia | done]. Qed.

Lemma enough_after f f' h c k (l : list Z) : 0 <= k -> enough f (kb h) (kn h) (c + k) -> Z.of_nat (length l) = c -> NoDup l ->
  (forall j, 0 <= j < 8 * kn h -> bit f' (kb h) j = bit f (kb h) j || bool_decide (frame_of (kst h) j ∈ l)) ->
  enough f' (kb h) (kn h) k.
Proof.
  intros Hk (x & Hnd & Hx & Hf) Hl Hndl Hbits. set (p := fun j => frame_of (kst h) j ∉ l).
  exists (filter p x). split; [by apply NoDup_filter |]. split.
  - assert (length (filter (fun j => ~ p j) x) <= length l)%nat as Hle.
    { rewrite <- (length_fmap (frame_of (kst h))). apply submseteq_length, NoDup_submseteq.
      - apply NoDup_fmap_2_strong; [| by apply NoDup_filter]. intros a b _ _ Hab. unfold frame_of in Hab. lia.
      - intros q (j & -> & Hj)%list_elem_of_fmap. apply list_elem_of_filter in Hj as [Hj _].
        destruct (decide (frame_of (kst h) j ∈ l)); [done |]. by destruct Hj. }
    pose proof (Permutation_length (filter_app_complement p x)) as Hpl. rewrite length_app in Hpl. lia.
  - apply Forall_forall. intros j [Hp Hj]%list_elem_of_filter. rewrite Forall_forall in Hf. destruct (Hf j Hj) as [Hr H0].
    split; [done |]. rewrite Hbits, H0 by done. by rewrite bool_decide_false.
Qed.

(** ** The kernel with its heap *)

Section kernel.
Context {LY : Layout}.
Implicit Types (s : kstate paged) (m : paged) (R F P : Z -> Prop) (f : Z -> Z) (K : ksys) (G : protocol (kstate paged))
  (h : heap_maps).

Record kernel_at s R f F h K : Prop := mk_kernel_at {
  ka_runs : runs_in s R f F K;
  ka_heap : heap_space (kmem s) R f F h;
  ka_own b : heap_bytes h b -> own K b }.

Definition heap_bits h (b : Z) : Prop := span (kb h) (kn h) b \/ span (vb h) (vn h) b.

Lemma kernel_intro s R f F h K : sys (RL := paged_laws) R s K -> heap_space (kmem s) R f F h ->
  (forall b, heap_bytes h b -> own K b) -> kernel_at s R f F h K.
Proof. intros Hs Hh Ho. split; [| done ..]. eapply runs_in_intro; [exact Hs | by eapply hs_vspace]. Qed.

Lemma kernel_sys s R f F h K : kernel_at s R f F h K -> sys (RL := kept_laws (kmem s) R) R s K.
Proof. intros Hk. eapply runs_in_sys, Hk. Qed.

Lemma kernel_data s R f F h K b : kernel_at s R f F h K -> own K b -> f b = data K b.
Proof. intros Hk. eapply runs_in_data, Hk. Qed.

Lemma kernel_own s R f F h K b : kernel_at s R f F h K -> own K b -> R b.
Proof. intros Hk Hb. by apply (sr_own _ _ _ (ri_rep _ _ _ _ _ (ka_runs _ _ _ _ _ _ Hk))). Qed.

(** After code that keeps to the promise about memory. *)
Lemma kernel_after s s' R f F h K K' : kernel_at s R f F h K -> sys (RL := kept_laws (kmem s) R) R s' K' ->
  (forall b, heap_bytes h b -> own K' b /\ data K' b = data K b) ->
  exists f', kernel_at s' R f' F h K' /\ unmoved (kmem s) (kmem s') R.
Proof.
  intros Hk Hs Hb. destruct (runs_in_after _ _ _ _ _ _ _ (ka_runs _ _ _ _ _ _ Hk) Hs) as (f' & Hr & Hum).
  exists f'. split; [| exact Hum]. split; [exact Hr | | intros b Hbb; by apply Hb].
  eapply heap_space_after; [apply Hk | done | | apply (ri_space _ _ _ _ _ Hr) | exact Hum].
  intros b Hbb. destruct (Hb b Hbb) as [Ho Hd]. rewrite (runs_in_data _ _ _ _ _ b Hr Ho), Hd.
  symmetry. eapply kernel_data; [exact Hk |]. by apply (ka_own _ _ _ _ _ _ Hk).
Qed.

(** What a step that only writes to the bytes [P], and to the heap's bits,
    keeps; [P] may be new. *)
Record moved P h s R K s' (R' : Z -> Prop) K' : Prop := mk_moved {
  mv_ks : ks K' = ks K;
  mv_own b : own K b -> own K' b;
  mv_new b : own K' b -> own K b \/ P b;
  mv_region b : R b -> R' b;
  mv_data b : own K b -> ~ P b -> ~ heap_bits h b -> data K' b = data K b;
  mv_virt a pa : virt (kmem s) a = Some pa -> virt (kmem s') a = Some pa;
  mv_cr3 : cr3 (kmem s') = cr3 (kmem s);
  mv_lock l : lock_usable K l -> lock_usable K' l }.

Lemma moved_trans P1 P2 P h s R K s1 R1 K1 s2 R2 K2 : moved P1 h s R K s1 R1 K1 -> moved P2 h s1 R1 K1 s2 R2 K2 ->
  (forall b, P1 b \/ P2 b -> P b) -> moved P h s R K s2 R2 K2.
Proof.
  intros [A1 A2 A3 A4 A5 A6 A7 A8] [B1 B2 B3 B4 B5 B6 B7 B8] HP. split; try by auto.
  - by rewrite B1.
  - intros b Hb. destruct (B3 b Hb) as [H | H]; [destruct (A3 b H); auto | auto].
  - intros b Hb Hn Hbits. rewrite B5, A5; auto.
  - by rewrite B7.
Qed.

Lemma moved_mono P P' h s R K s' R' K' : moved P h s R K s' R' K' -> (forall b, P b -> P' b) -> moved P' h s R K s' R' K'.
Proof.
  intros [A1 A2 A3 A4 A5 A6 A7 A8] HP. split; try done.
  - intros b Hb. destruct (A3 b Hb); auto.
  - intros b Hb Hn. apply A5; auto.
Qed.

Lemma unmoved_moved P h s s' R K K' : unmoved (kmem s) (kmem s') R -> ks K' = ks K -> own K' = own K ->
  (forall b, own K b -> ~ P b -> ~ heap_bits h b -> data K' b = data K b) -> (forall l, lock_usable K l -> lock_usable K' l) ->
  moved P h s R K s' R K'.
Proof.
  intros Hum Hk Ho Hd Hl. split; rewrite ?Ho; try done; auto.
  - intros a pa. by rewrite (um_virt _ _ _ Hum).
  - apply (um_cr3 _ _ _ Hum).
Qed.

(** Writes to bytes of one's own. *)
Lemma own_step s R f F h K P m d : kernel_at s R f F h K ->
  sys (RL := kept_laws (kmem s) R) R (set_mem m s) (set_data d K) -> (forall b, ~ P b -> d b = data K b) ->
  (forall b, P b -> ~ heap_bytes h b) ->
  (exists f', kernel_at (set_mem m s) R f' F h (set_data d K)) /\ moved P h s R K (set_mem m s) R (set_data d K) /\
  unmoved (kmem s) m R.
Proof.
  intros Hk Hs Hd HP. destruct (kernel_after _ _ _ _ _ _ _ _ Hk Hs) as (f' & Hk' & Hum).
  { intros b Hb. split; [by apply (ka_own _ _ _ _ _ _ Hk) |]. apply Hd. intros Hp. by apply (HP b Hp). }
  split; [by exists f' |]. split; [| exact Hum]. apply unmoved_moved; [exact Hum | done | done | | done].
  intros b _ Hn _. by apply Hd.
Qed.

(** ** New pages

    There is room for [n] pages, and there are frames for them. *)
Definition budget h K (n : Z) : Prop := room (data K) h n /\ enough (data K) (kb h) (kn h) n.

Lemma budget_more h K n k : 0 <= k -> budget h K (n + k) -> budget h K n.
Proof. intros Hk [Hr He]. split; [by eapply room_more | by eapply enough_more]. Qed.

Record new_pages s R F h K (cnt a : Z) m f' (F' : Z -> Prop) K' (R' := with_span R a (4096 * cnt)) : Prop := mk_new_pages {
  np_at : kernel_at (set_mem m s) R' f' F' h K';
  np_moved : moved (span a (4096 * cnt)) h s R K (set_mem m s) R' K';
  np_fresh b : R b -> ~ span a (4096 * cnt) b;
  np_own b : span a (4096 * cnt) b -> own K' b;
  np_zero b : span a (4096 * cnt) b -> data K' b = 0;
  np_aligned : a mod 4096 = 0;
  np_range : 2 ^ 22 <= a /\ a + 4096 * cnt <= 0xffc00000;
  np_budget k : 0 <= k -> budget h K (cnt + k) -> budget h K' k;
  np_frames p : F' p -> F p }.

Lemma room_ext f f' h n : (forall b, span (vb h) (vn h) b -> f' b = f b) -> room f h n -> room f' h n.
Proof.
  intros Hf (i & Hi & Hend & Hr). exists i. split; [done |]. split; [done |]. intros j Hj. rewrite <- (Hr j Hj).
  eapply bits_same; [exact Hf | lia].
Qed.

Lemma enough_ext f f' b n c : (forall x, span b n x -> f' x = f x) -> enough f b n c -> enough f' b n c.
Proof.
  intros Hf (l & Hnd & Hl & Hfr). exists l. split; [done |]. split; [done |]. eapply Forall_impl; [exact Hfr |].
  intros j [Hj H0]. split; [done |]. rewrite <- H0. by eapply bits_same.
Qed.

Lemma allocated_budget m R f F h r cnt l m1 f1 d f' k : 1 <= cnt < 3840 -> allocated m R f F h r cnt l m1 f1 ->
  (forall b, heap_bytes h b -> f b = d b) -> (forall b, heap_bytes h b -> f' b = f1 b) ->
  (0 <= k -> room d h (cnt + k) -> room f' h k) /\
  (0 <= k -> enough d (kb h) (kn h) (cnt + k) -> enough f' (kb h) (kn h) k).
Proof.
  intros Hcnt Hal Hd Hf'. pose proof (al_first _ _ _ _ _ _ _ _ _ _ Hal) as Hfit. split; intros Hk Hx.
  - eapply (room_after f); [| exact Hk | | exact Hfit |]; [lia | |].
    + eapply room_ext; [| exact Hx]. intros b Hb. apply Hd. by right; right; right.
    + intros j Hj. rewrite <- (al_pages _ _ _ _ _ _ _ _ _ _ Hal j Hj). eapply bits_same; [| exact Hj].
      intros b Hb. apply Hf'. by right; right; right.
  - eapply (enough_after f); [exact Hk | | apply (al_length _ _ _ _ _ _ _ _ _ _ Hal) | apply (al_nodup _ _ _ _ _ _ _ _ _ _ Hal) |].
    + eapply enough_ext; [| exact Hx]. intros b Hb. apply Hd. by right; right; left.
    + intros j Hj. rewrite <- (al_frames _ _ _ _ _ _ _ _ _ _ Hal j Hj). eapply bits_same; [| exact Hj].
      intros b Hb. apply Hf'. by right; right; left.
Qed.

Lemma budget_keep h K K' n : (forall b, heap_bytes h b -> data K' b = data K b) -> budget h K n -> budget h K' n.
Proof.
  intros Hd [Hr He]. split; [eapply room_ext; [| exact Hr] | eapply enough_ext; [| exact He]]; intros b Hb; apply Hd;
    [by right; right; right | by right; right; left].
Qed.

Lemma wp_pages G s R f F h K cnt (Q : Z -> kstate paged -> Prop) :
  kernel_at s R f F h K -> 1 <= cnt < 3840 -> budget h K cnt ->
  (forall a m f' F' K', new_pages s R F h K cnt a m f' F' K' -> Q a (set_mem m s)) ->
  wp G (get_kernel_pages cnt) s Q.
Proof.
  intros Hk Hcnt [Hroom Hen] HQ. pose proof (ka_heap _ _ _ _ _ _ Hk) as Hhs. pose proof (ka_own _ _ _ _ _ _ Hk) as Hho.
  assert (forall b, heap_bytes h b -> f b = data K b) as Hfd by (intros b Hb; eapply kernel_data; [exact Hk | by apply Hho]).
  eapply (wp_get_kernel_pages _ _ _ _ _ h cnt); [exact Hhs | exact Hcnt | | |].
  - eapply room_ext; [| exact Hroom]. intros b Hb. apply Hfd. by right; right; right.
  - intros Hn. destruct Hn. eapply enough_ext; [| exact Hen]. intros b Hb. apply Hfd. by right; right; left.
  - intros r l m1 f1 m' f' Hal a R' Hhs' Hz Hum.
    pose proof (runs_in_paged _ _ _ _ _ (ka_runs _ _ _ _ _ _ Hk)) as Hsys.
    destruct (region_grown _ _ _ _ _ _ _ _ _ _ Hhs Hal) as (Hdisj & _). fold a in Hdisj.
    destruct (sys_new_page _ _ _ _ _ _ _ _ _ _ _ _ _ Hsys Hhs Hho Hal Hhs' Hz) as [Hs1 Hdata]. fold a R' in Hs1.
    set (K1 := own_more (span a (4096 * cnt)) f' K) in *. destruct Hz as [Hold Hnew].
    pose proof (al_first _ _ _ _ _ _ _ _ _ _ Hal) as Hfit. pose proof Hfit as (Hr & Hend & _).
    pose proof (hp_range _ _ _ (hs_heap _ _ _ _ _ Hhs)) as Hrange.
    destruct (heap_page_range _ _ _ r (hs_heap _ _ _ _ _ Hhs)) as (_ & Ha & _ & _); [lia |]. fold a in Ha.
    assert (forall b, heap_bytes h b -> f' b = f1 b) as Hf1.
    { intros b Hb. apply Hold. eapply heap_bytes_inside; [apply (hs_heap _ _ _ _ _ Hhs) | exact Hb]. }
    apply (HQ a m' f' (fun p => F p /\ p ∉ l) K1). split.
    + apply kernel_intro; [eapply sys_keeping, Hs1 | exact Hhs' |]. intros b Hb. left. by apply Hho.
    + split; cbn [ks own data own_more K1]; try by auto.
      * intros b Hb. by left.
      * intros b Hb _ Hbits. apply Hdata; [done | |]; intros Hx; apply Hbits; [by left | by right].
      * intros x pa Hv. cbn [kmem set_mem]. rewrite (um_virt _ _ _ Hum).
        by apply (rg_ext _ _ _ _ _ (al_run _ _ _ _ _ _ _ _ _ _ Hal)).
      * cbn [kmem set_mem]. rewrite (um_cr3 _ _ _ Hum). apply (rg_cr3 _ _ _ _ _ (al_run _ _ _ _ _ _ _ _ _ _ Hal)).
    + exact Hdisj.
    + intros b Hb. by right.
    + exact Hnew.
    + exact Ha.
    + unfold a, heap_page. lia.
    + intros k Hk0 [Hr0 He0].
      destruct (allocated_budget _ _ _ _ _ _ _ _ _ _ (data K) f' k Hcnt Hal Hfd Hf1) as [Hr1 He1]. split; auto.
    + by intros p [Hp _].
Qed.

(** ** Steps on bytes of one's own, and on the console *)

(** The invariant looks at memory and the stack pointer. *)
Lemma kernel_state s s' R f F h K : kernel_at s R f F h K -> kmem s' = kmem s -> kesp s' = kesp s -> kernel_at s' R f F h K.
Proof.
  intros [[H1 H2 H3 H4 H5] H6 H7] Hm He. split; [split | |]; rewrite ?Hm, ?He; done.
Qed.

Lemma wp_put G s R f F h K a v (Q : unit -> kstate paged -> Prop) :
  kernel_at s R f F h K -> inside (own K) a 4 -> (forall b, span a 4 b -> ~ heap_bytes h b) ->
  (forall m f', let K' := set_data (upd32 (data K) a v) K in kernel_at (set_mem m s) R f' F h K' ->
     moved (span a 4) h s R K (set_mem m s) R K' -> unmoved (kmem s) m R -> Q tt (set_mem m s)) ->
  wp G (st32 a v) s Q.
Proof.
  intros Hk Hi Hn HQ. eapply (wp_own_st32 (RL := kept_laws (kmem s) R)); [by eapply kernel_sys | exact Hi |].
  intros m Hs. destruct (own_step _ _ _ _ _ _ (span a 4) _ _ Hk Hs) as ([f' Hk'] & Hmv & Hum); [| exact Hn |].
  - intros b Hb. apply upd32_ne. unfold span in Hb. lia.
  - by apply (HQ m f').
Qed.

Lemma printed s s' R f F h K K' n : kernel_at s R f F h K -> sys (RL := kept_laws (kmem s) R) R s' K' -> ks K' = ks K ->
  data K' = data K -> own K' = own K -> lock_ready K' console_lock (cur (ks K)) n -> 0 <= n -> locks_but console_lock K K' ->
  exists f', kernel_at s' R f' F h K' /\ moved (fun _ => False) h s R K s' R K' /\ unmoved (kmem s) (kmem s') R.
Proof.
  intros Hk Hs Hks Hd Ho Hl Hn Hb. destruct (kernel_after _ _ _ _ _ _ _ _ Hk Hs) as (f' & Hk' & Hum).
  { intros b Hbb. rewrite Ho, Hd. split; [by apply (ka_own _ _ _ _ _ _ Hk) | done]. }
  exists f'. split; [done |]. split; [| done]. apply unmoved_moved; [done | done | done | by intros; rewrite Hd |].
  intros l Hu. destruct (decide (l = console_lock)) as [-> | Hne]; [by eapply lock_ready_usable | by apply Hb].
Qed.

(** Printing a string, and a number. *)
Lemma wp_say G s R f F h K p l (Q : unit -> kstate paged -> Prop) :
  kernel_at s R f F h K -> lock_usable K console_lock -> inside (own K) p (len l + 1) -> cstr (data K) p l -> len l < 2 ^ 32 ->
  can_print (cursor s) l = true ->
  (forall m f' K', let s' := put_out (rev l) (set_mem m s) in kernel_at s' R f' F h K' ->
     moved (fun _ => False) h s R K s' R K' -> data K' = data K -> own K' = own K -> unmoved (kmem s) m R -> Q tt s') ->
  wp G (console_put_str p) s Q.
Proof.
  intros Hk (hh & n & Hl & Hn) Hi Hstr Hlen Hcp HQ.
  eapply (wp_console_put_str (RL := kept_laws (kmem s) R)); [by eapply kernel_sys | exact Hl | exact Hn | exact Hi | exact Hstr | exact Hlen | | congruence].
  intros _ m K' Hs Hks Hd Ho Hl' Hb. destruct (printed _ _ _ _ _ _ _ _ _ Hk Hs Hks Hd Ho Hl') as (f' & Hk' & Hmv & Hum);
    [unfold lock_count; case_match; lia | exact Hb |]. by apply (HQ m f' K').
Qed.

Lemma wp_say_int G s R f F h K v (Q : unit -> kstate paged -> Prop) :
  kernel_at s R f F h K -> lock_usable K console_lock ->
  (forall m f' K', let s' := put_out (rev (int_digits v)) (set_mem m s) in kernel_at s' R f' F h K' ->
     moved (fun _ => False) h s R K s' R K' -> data K' = data K -> own K' = own K -> unmoved (kmem s) m R -> Q tt s') ->
  wp G (console_put_int v) s Q.
Proof.
  intros Hk (hh & n & Hl & Hn) HQ.
  eapply (wp_console_put_int (RL := kept_laws (kmem s) R)); [by eapply kernel_sys | exact Hl | exact Hn |].
  intros m K' Hs Hks Hd Ho Hl' Hb. destruct (printed _ _ _ _ _ _ _ _ _ Hk Hs Hks Hd Ho Hl') as (f' & Hk' & Hmv & Hum);
    [unfold lock_count; case_match; lia | exact Hb |]. by apply (HQ m f' K').
Qed.
End kernel.
