(* ===== verification/Boot.v ===== *)
(** The start of the kernel: [thread_init] makes the running code the main
    thread and establishes the scheduler's invariant. *)

From S2P Require Import Prelude Monad RawMem Machine CString Bitmap DList Thread Sync Ioqueue Global.
From S2P Require Import Interrupt Tss Timer Keyboard Paging Memory Mapping KHeap PoolInit Task.

(** ** The first thread *)

Section first.
Context {LY : Layout}.

(** A control block that is in no queue may be written all over. *)
Lemma rep_reset R f f' A t v : rep R f A -> is_Some (tasks A !! t) -> queued_nowhere A t -> ~ t ∈ all_threads A ->
  task_at f' t v -> (forall b, ~ span t 72 b -> f' b = f b) -> rep R f' (set_task t v A).
Proof.
  intros HA Ht Hq Hall Hv Hf. pose proof (set_task_objects A t v Ht) as [His _].
  split; cbn [queues all_threads set_task]; try apply HA.
  - intros l ts Hl. apply dlist_frame with f; [| by eapply rep_queue].
    intros x a Hx Ha. apply Hf. intros Hat. apply nodes_tags in Hx.
    pose proof (rep_tq _ _ _ HA t l Ht (mk_is_Some _ _ Hl)).
    destruct Hx as [-> | [-> | (u & Hu & ->)]]; [clear_lia .. |].
    assert (t <> u) as Hne by (intros ->; by apply (Hq l ts)).
    pose proof (rep_tasks _ _ _ HA t u Ht (rep_member _ _ _ HA _ _ _ Hl Hu) Hne). clear_lia.
  - intros l ts u Hl Hu. apply His. by eapply rep_member.
  - intros u w. cbn. rewrite lookup_insert_Some. intros [[<- <-] | [Hne Hu]]; [done |].
    eapply task_at_ext; [| by eapply rep_task]. intros b Hb. apply Hf.
    pose proof (rep_tasks _ _ _ HA t u Ht (mk_is_Some _ _ Hu) Hne). clear_lia.
  - intros u Hu. apply (rep_inside _ _ _ HA); by apply His.
  - intros u u' Hu Hu'. apply (rep_tasks _ _ _ HA); by apply His.
  - intros u l Hu. apply (rep_tq _ _ _ HA); by apply His.
  - apply dlist_frame with f; [| apply (rep_all _ _ _ HA)].
    intros x a Hx Ha. apply Hf. intros Hat. apply nodes_all in Hx.
    pose proof (rep_all_task _ _ _ HA t Ht).
    destruct Hx as [-> | [-> | (u & Hu & ->)]]; [clear_lia .. |].
    assert (t <> u) as Hne by (by intros ->).
    pose proof (rep_tasks _ _ _ HA t u Ht (rep_all_member _ _ _ HA u Hu) Hne). clear_lia.
  - intros u Hu. apply His. by apply (rep_all_member _ _ _ HA).
  - intros u Hu. apply (rep_all_task _ _ _ HA); by apply His.
Qed.

(** The thread that runs on the stack [e], known to nobody, in no queue. *)
Definition boot_sched (e : Z) (v : tview) : sched :=
  mk_sched e {[thread_ready_list := []; waiters (semaphore pid_lock) := []]} {[page_of e := v]} [].
Definition boot_ksys (e : Z) (v : tview) (P : Z -> Prop) (g : Z -> Z) : ksys :=
  mk_ksys (boot_sched e v) {[semaphore pid_lock := 1]} {[pid_lock := (0, 0)]} P g.

(** What the linker and the loader provide: the variables and the page of the
    main thread's stack lie apart. *)
Record boot_layout (R P : Z -> Prop) (t : Z) : Prop := mk_boot_layout {
  bl_ready : inside R thread_ready_list 16;
  bl_all : inside R thread_all_list 16;
  bl_lock : inside R pid_lock 28;
  bl_page : inside R t 4096;
  bl_ra : clear thread_ready_list 16 thread_all_list 16;
  bl_rl : clear thread_ready_list 16 pid_lock 28;
  bl_al : clear thread_all_list 16 pid_lock 28;
  bl_tr : clear t 4096 thread_ready_list 16;
  bl_ta : clear t 4096 thread_all_list 16;
  bl_tl : clear t 4096 pid_lock 28;
  bl_own b : P b -> R b /\ ~ span thread_ready_list 16 b /\ ~ span thread_all_list 16 b /\ ~ span pid_lock 28 b /\
    ~ span t 4096 b }.

Lemma boot_rep R P f e v : boot_layout R P (page_of e) ->
  dlist R f thread_ready_list [] -> dlist R f thread_all_list [] -> fresh_lock R f pid_lock ->
  task_at f (page_of e) v -> rep R f (boot_sched e v).
Proof.
  intros [B1 B2 B3 B4 B5 B6 B7 B8 B9 B10 _] Hr Ha Hl Hv.
  assert (forall l ts, queues (boot_sched e v) !! l = Some ts ->
    ts = [] /\ (l = thread_ready_list \/ l = waiters (semaphore pid_lock))) as Hq.
  { intros l ts. cbn. rewrite lookup_insert_Some, lookup_singleton_Some. intros [[<- <-] | (_ & <- & <-)]; auto. }
  assert (forall t, is_Some (tasks (boot_sched e v) !! t) -> t = page_of e) as Ht.
  { intros t [w Hw]. cbn in Hw. rewrite lookup_singleton_Some in Hw. by destruct Hw. }
  unfold waiters, semaphore in *.
  split; cbn [all_threads boot_sched map].
  - intros l ts [-> [-> | ->]]%Hq; [done | apply (fl_waiters _ _ _ Hl)].
  - intros l ts t [-> _]%Hq Hin. by apply elem_of_nil in Hin.
  - intros l l' ts ts' t [-> _]%Hq _ Hin. by apply elem_of_nil in Hin.
  - intros t w. cbn. rewrite lookup_singleton_Some. by intros [<- <-].
  - intros t ->%Ht b Hb. apply B4. unfold span, task_struct_size in *. lia.
  - intros t t' ->%Ht ->%Ht. done.
  - intros l l' [ts [_ Hl1]%Hq] [ts' [_ Hl2]%Hq] Hne. unfold clear in *.
    destruct Hl1 as [-> | ->], Hl2 as [-> | ->]; done || lia.
  - intros t l ->%Ht [ts [_ Hl1]%Hq]. unfold clear, task_struct_size in *. destruct Hl1 as [-> | ->]; lia.
  - done.
  - intros t Hin. by apply elem_of_nil in Hin.
  - intros l [ts [_ Hl1]%Hq]. unfold clear in *. destruct Hl1 as [-> | ->]; lia.
  - intros t ->%Ht. unfold clear, task_struct_size in *. lia.
Qed.

Lemma boot_footprint R P e v b : boot_layout R P (page_of e) -> footprint (boot_sched e v) b ->
  span thread_ready_list 16 b \/ span thread_all_list 16 b \/ span (pid_lock + 8) 16 b \/ span (page_of e) 4096 b.
Proof.
  intros _ [(l & [ts Hl] & Hb) | [(t & [w Hw] & Hb) | Hb]].
  - cbn in Hl. rewrite lookup_insert_Some, lookup_singleton_Some in Hl. unfold waiters, semaphore in Hl.
    destruct Hl as [[<- _] | (_ & <- & _)]; [by left |]. right. right. left. unfold span in *. lia.
  - cbn in Hw. rewrite lookup_singleton_Some in Hw. destruct Hw as [<- _]. do 3 right.
    destruct Hb as [Hb _]. unfold span, task_struct_size in *. lia.
  - by right; left.
Qed.

Lemma boot_sys_rep R P f e v : boot_layout R P (page_of e) ->
  dlist R f thread_ready_list [] -> dlist R f thread_all_list [] -> fresh_lock R f pid_lock ->
  task_at f (page_of e) v -> sys_rep R f (boot_ksys e v P f).
Proof.
  intros HB Hr Ha Hl Hv. pose proof (boot_rep _ _ _ _ _ HB Hr Ha Hl Hv) as HA.
  pose proof (fun b => boot_footprint R P e v b HB) as Hfp. destruct HB as [B1 B2 B3 B4 B5 B6 B7 B8 B9 B10 Hown].
  assert (forall p, is_Some (semas (boot_ksys e v P f) !! p) -> p = pid_lock + 4) as Hs.
  { intros p [w Hw]. cbn in Hw. rewrite lookup_singleton_Some in Hw. by destruct Hw. }
  assert (forall p, is_Some (locks (boot_ksys e v P f) !! p) -> p = pid_lock) as Hk.
  { intros p [w Hw]. cbn in Hw. rewrite lookup_singleton_Some in Hw. by destruct Hw. }
  split; cbn [ks own data boot_ksys].
  - exact HA.
  - intros p w. cbn. rewrite lookup_singleton_Some. intros [<- <-]. split; [apply (fl_value _ _ _ Hl) |].
    split; [by right |]. apply B3. unfold semaphore, span. lia.
  - intros p ->%Hs. split; [| split].
    + intros Hb%Hfp. unfold span, clear in *. lia.
    + exists []. cbn. apply lookup_insert_Some. right. rewrite lookup_singleton_Some.
      unfold waiters, semaphore, clear in *. split; [lia | done].
    + unfold waiters, clear in *. lia.
  - intros p h n. cbn. rewrite lookup_singleton_Some. intros [<- [= <- <-]].
    split; [apply (fl_holder _ _ _ Hl) | apply (fl_repeat _ _ _ Hl)].
  - intros p b ->%Hk Hb. unfold lock_bytes, holder, holder_repeat_nr in Hb. split; [| split].
    + apply B3. unfold span in *. lia.
    + intros Hf%Hfp. unfold span, clear in *. lia.
    + intros Hb'%Hs. unfold span in *. lia.
  - intros p p' ->%Hk ->%Hk. done.
  - intros p ->%Hk. exists 1. cbn. apply lookup_singleton_eq.
  - done.
  - intros b Hb. destruct (Hown b Hb) as (H1 & H2 & H3 & H4 & H5). split; [done |]. split; [| split].
    + intros Hf%Hfp. unfold span in *. lia.
    + intros Hb'%Hs. unfold span in *. lia.
    + intros p ->%Hk Hl'. unfold lock_bytes, holder, holder_repeat_nr, span in *. lia.
Qed.

Lemma boot_wf e v : is_u32 e -> is_u32 (tv_kstack v) -> tv_status v = TASK_RUNNING -> wf (boot_sched e v).
Proof.
  intros He Hk Hst.
  assert (forall l ts, queues (boot_sched e v) !! l = Some ts -> ts = []) as Hq.
  { intros l ts. cbn. rewrite lookup_insert_Some, lookup_singleton_Some. intros [[_ <-] | (_ & _ & <-)]; done. }
  assert (forall t w, tasks (boot_sched e v) !! t = Some w -> t = page_of e /\ w = v) as Ht.
  { intros t w. cbn. rewrite lookup_singleton_Some. by intros [<- <-]. }
  split; try done.
  - exists []. cbn. apply lookup_insert_eq.
  - intros l ts ->%Hq. constructor.
  - intros l ts t ->%Hq Hin. by apply elem_of_nil in Hin.
  - exists v. cbn. apply lookup_singleton_eq.
  - intros t w [-> _]%Ht Hne. done.
  - by intros t w [_ ->]%Ht.
  - intros q t w ->%Hq Hin. by apply elem_of_nil in Hin.
  - intros l ts t w ->%Hq _ Hin. by apply elem_of_nil in Hin.
  - intros t w [_ ->]%Ht Hr. by rewrite Hst in Hr.
  - by intros t w [-> _]%Ht.
Qed.
End first.

(** ** [thread_init] *)

Section thread_init.
Context {M : Type} {RM : RawMem M} {RL : RawMemLaws M} {LY : Layout}.
Implicit Types (s : kstate M) (R P : Z -> Prop) (f : Z -> Z) (K : ksys) (G : protocol (kstate M)).

(** The string the linker has placed for the name of the main thread. *)
Definition main_name P f : Prop := inside P (lit "main") 5 /\ cstr f (lit "main") (bytes_of "main").

(** What is written before the first thread exists. *)
Definition boot_bytes (b : Z) : Prop :=
  span thread_ready_list 16 b \/ span thread_all_list 16 b \/ span pid_lock 28 b.

Lemma wp_boot_lists {A} G s R P f t (k : cmd (kstate M) A) (Q : A -> kstate M -> Prop) :
  backs (kmem s) R f -> boot_layout R P t ->
  (forall m f', backs m R f' -> dlist R f' thread_ready_list [] -> dlist R f' thread_all_list [] ->
     fresh_lock R f' pid_lock -> (forall b, ~ boot_bytes b -> f' b = f b) -> wp G k (set_mem m s) Q) ->
  wp G (list_init thread_ready_list;; list_init thread_all_list;; lock_init pid_lock;; k) s Q.
Proof.
  intros Hb [B1 B2 B3 B4 B5 B6 B7 B8 B9 B10 _] HQ.
  apply wp_bind. eapply wp_list_init; [exact Hb | exact B1 |]. intros m1 f1 H1 Hd1 Ho1.
  apply wp_bind. eapply wp_list_init; [exact H1 | exact B2 |]. intros m2 f2 H2 Hd2 Ho2.
  apply wp_bind. eapply wp_lock_init; [exact H2 | exact B3 |]. intros m3 f3 H3 Hl Ho3. unfold clear, span in *.
  assert (forall l g g', dlist R g l [] -> (forall b, l <= b < l + 16 -> g' b = g b) -> dlist R g' l []) as Hkeep.
  { intros l g g' Hd Hg. eapply dlist_frame; [| exact Hd]. intros x a Hx Ha. apply Hg.
    unfold nodes in Hx. cbn in Hx. rewrite !elem_of_cons, elem_of_nil in Hx. unfold span in *. lia. }
  apply (HQ m3 f3 H3); [| | exact Hl |].
  - apply (Hkeep _ f1); [exact Hd1 |]. intros b Hbb. rewrite Ho3, Ho2 by lia. done.
  - apply (Hkeep _ f2); [exact Hd2 |]. intros b Hbb. rewrite Ho3 by lia. done.
  - intros b Hbb. unfold boot_bytes, span in Hbb. rewrite Ho3, Ho2, Ho1 by lia. done.
Qed.

(** The control block that [memset] leaves. *)
Definition zero_view : tview := mk_tview 0 TASK_RUNNING 0 0 0 0 0.

Lemma zero_task f t : (forall b, span t 72 b -> f b = 0) -> task_at f t zero_view.
Proof.
  intros Hf. assert (forall a, t <= a -> a + 4 <= t + 72 -> w32 f a = 0) as Hw.
  { intros a Ha Ha'. rewrite (w32_ext f (fun _ => 0)); [reflexivity |]. intros b Hb. apply Hf. unfold span in *. lia. }
  split; fields; cbn; first [apply Hw; lia | apply Hf; unfold span; lia].
Qed.

(** The scheduler with the main thread set up, before it is listed. *)
Lemma boot_set_task e v w : set_task (page_of e) w (boot_sched e v) = boot_sched e w.
Proof. unfold set_task, boot_sched. cbn. f_equal. apply insert_singleton_eq. Qed.

Lemma boot_queued_nowhere e v t : queued_nowhere (boot_sched e v) t.
Proof.
  intros l ts Hl Hin. cbn in Hl. rewrite lookup_insert_Some, lookup_singleton_Some in Hl.
  destruct Hl as [[_ <-] | (_ & _ & <-)]; by apply elem_of_nil in Hin.
Qed.

(** [allocate_pid] when nobody but the main thread is there. *)
Lemma wp_first_pid G s R P f v (Q : Z -> kstate M -> Prop) :
  backs (kmem s) R f -> boot_layout R P (page_of (kesp s)) -> is_u32 (kesp s) -> page_of (kesp s) <> 0 ->
  dlist R f thread_ready_list [] -> dlist R f thread_all_list [] -> fresh_lock R f pid_lock ->
  task_at f (page_of (kesp s)) v -> tv_status v = TASK_RUNNING -> is_u32 (tv_kstack v) ->
  (forall m K', sys R (numbered m s) K' -> ks K' = boot_sched (kesp s) v -> own K' = P -> data K' = f ->
     locks K' !! pid_lock = Some (page_of (kesp s), 0) -> locks_but pid_lock (boot_ksys (kesp s) v P f) K' ->
     Q (fresh_pid s) (numbered m s)) ->
  wp G allocate_pid s Q.
Proof.
  intros Hb HB He Ht0 Hr Ha Hl Hv Hst Hk HQ.
  pose proof (boot_sys_rep R P f (kesp s) v HB Hr Ha Hl Hv) as HK. set (K := boot_ksys (kesp s) v P f) in *.
  assert (sys R s K) as Hs.
  { split; [by exists f | done | by apply boot_wf |]. exists v. split; [apply lookup_singleton_eq | done]. }
  eapply (wp_allocate_pid _ _ R K 0 0); [exact Hs | | done |].
  - split; [apply lookup_singleton_eq |]. split; [done |]. right. split; [done |]. split; [| apply lookup_singleton_eq].
    intros He0. by apply Ht0.
  - intros m K' Hs' Hk' Hd' Ho' Hl' Hbut. apply (HQ m K'); try done. rewrite Hl'. unfold lock_count.
    change (cur (ks K)) with (page_of (kesp s)). by rewrite (proj2 (Z.eqb_neq 0 _)) by done.
Qed.

(** [init_thread] for the thread that runs. *)
Lemma wp_first_init G s R P f (t := page_of (kesp s)) (Q : unit -> kstate M -> Prop) :
  backs (kmem s) R f -> boot_layout R P t -> is_u32 (kesp s) -> t <> 0 -> t + 4096 < 4294967296 ->
  main_thread (kvar s) = t -> main_name P f ->
  dlist R f thread_ready_list [] -> dlist R f thread_all_list [] -> fresh_lock R f pid_lock ->
  (forall m f' K', backs m R f' -> sys_rep R f' (with_ks (boot_sched (kesp s) (new_view TASK_RUNNING t 31)) K') ->
     own K' = P -> (forall b, P b -> data K' b = f b) -> locks K' !! pid_lock = Some (t, 0) ->
     w16 f' (pid t) = u16 (fresh_pid s) -> Q tt (numbered m s)) ->
  wp G (init_thread t (lit "main") 31) s Q.
Proof.
  intros Hb HB He Ht0 Htu Hmt [Hni Hns] Hr Ha Hl HQ.
  pose proof HB as [_ _ _ B4 _ _ _ B8 B9 B10 Bown]. unfold init_thread.
  pose proof (backs_inside_u32 _ _ _ _ _ Hb B4 ltac:(lia)) as Htr.
  assert (inside R t 72) as Hi72 by (intros b Hb72; apply B4; unfold span in *; lia).
  apply wp_bind. eapply wp_memset_span; [exact Hb | exact Hi72 | exact Ht0 | done |].
  intros m1 f1 H1 Hz1 Ho1. change (u8 0) with 0 in Hz1.
  assert (forall l, clear t 4096 l 16 -> dlist R f l [] -> dlist R f1 l []) as Hkeep.
  { intros l Hc Hd. eapply dlist_frame; [| exact Hd]. intros x a Hx Hax. apply Ho1.
    unfold nodes in Hx. cbn in Hx. rewrite !elem_of_cons, elem_of_nil in Hx. clear_lia. }
  apply wp_bind. eapply (wp_first_pid _ (set_mem m1 s) R P f1 zero_view); cbn [kesp set_mem kmem];
    [exact H1 | exact HB | exact He | exact Ht0 | by apply Hkeep | by apply Hkeep | | by apply zero_task | done | done |].
  { eapply fresh_lock_keep; [exact Hl |]. intros a Hal. apply Ho1. clear_lia. }
  intros m2 K2 Hs2 Hk2 Hown2 Hd2 Hl2 [_ Hse2 Hlo2]. change (fresh_pid (set_mem m1 s)) with (fresh_pid s).
  change (numbered m2 (set_mem m1 s)) with (numbered m2 s) in *.
  pose proof Hs2 as [(f2 & Hb2 & HK2) _ _ _].
  apply wp_bind. eapply wp_st16; [exact Hb2 | fields; region |]. intros m3 H3.
  assert (forall b, P b -> f2 b = f b) as HfP.
  { intros b Hbb. rewrite <- Hown2 in Hbb. rewrite (sr_data _ _ _ HK2 b Hbb), Hd2. apply Ho1.
    rewrite Hown2 in Hbb. apply Bown in Hbb. clear_lia. }
  assert (clear t 4096 (lit "main") 5) as Hap.
  { apply spans_clear; [done | done |]. intros b Hbt Hbn. by apply (Bown b (Hni b Hbn)). }
  eapply (wp_init_fields _ _ R _ t (lit "main") (bytes_of "main"));
    [exact H3 | exact B4 | | | by vm_compute | change (len (bytes_of "main")) with 4; unfold clear in Hap; lia | exact Htu |].
  { intros b Hbb. by apply Bown, Hni. }
  { eapply cstr_ext; [| exact Hns]. intros b Hbb. change (len (bytes_of "main") + 1) with 5 in Hbb.
    rewrite upd16_ne by (fields; unfold clear, span in *; lia). by apply HfP, Hni. }
  intros m4 f4 H4 Htask Hpid Ho4. change (set_mem m4 (set_mem m3 (numbered m2 s))) with (numbered m4 s).
  change (main_thread (kvar (set_mem m3 (numbered m2 s)))) with (main_thread (kvar s)) in Htask.
  rewrite Hmt, Z.eqb_refl in Htask.
  assert (forall b, ~ block_bytes t b -> f4 b = f2 b) as Hout.
  { intros b Hbb. rewrite Ho4 by done. apply upd16_ne. unfold block_bytes in Hbb. fields. unfold span in *. lia. }
  assert (is_Some (tasks (ks K2) !! t)) as Ht by (rewrite Hk2; eexists; apply lookup_singleton_eq).
  pose proof (fun v => rep_reset R f2 f4 (ks K2) t v (sr_sched _ _ _ HK2) Ht) as Hrep.
  rewrite Hk2 in Hrep. specialize (Hrep _ ltac:(apply boot_queued_nowhere) ltac:(apply not_elem_of_nil) Htask
    (fun b Hb => Hout b (fun H => Hb (proj1 H)))).
  unfold t in Hrep. rewrite boot_set_task in Hrep. fold t in Hrep.
  apply (HQ m4 f4 K2 H4); [| done | | exact Hl2 |].
  - eapply sys_step_but; [exact HK2 | exact Hrep | |].
    + rewrite Hk2, <- (boot_set_task _ zero_view (new_view _ _ _)). apply set_task_objects.
      eexists. apply lookup_singleton_eq.
    + intros b Hbb. apply Hout. intros [Hs _]. unfold task_struct_size in Hs.
      assert (span pid_lock 28 b \/ P b) as [Hl' | HP].
      { destruct Hbb as [Hq | [(p & Hp & Hq) | Hq]]; [left | left | right; by rewrite <- Hown2].
        - destruct (Hse2 b Hq) as [-> | Hb1]; [unfold semaphore, span; lia |]. cbn in Hb1.
          apply lookup_singleton_is_Some in Hb1. subst b. unfold semaphore, span. lia.
        - destruct (Hlo2 p Hp) as [-> | Hp1]; [| cbn in Hp1; apply lookup_singleton_is_Some in Hp1; subst p];
            unfold lock_bytes, holder, holder_repeat_nr, span in *; lia. }
      * clear_lia.
      * apply Bown in HP. clear_lia.
  - intros b Hbb. rewrite Hd2. apply Ho1. apply Bown in Hbb. clear_lia.
  - rewrite Hpid. by rewrite w16_upd16_mod.
Qed.

(** What [thread_init] leaves: one thread, which runs, is in no queue but that
    of all threads, and has the number after the last one given. *)
Record main_started (R P : Z -> Prop) (f : Z -> Z) (s s' : kstate M) (K : ksys) (t := page_of (kesp s)) : Prop :=
  mk_main_started {
  mi_sys : sys R s' K;
  mi_sched : ks K = mk_sched (kesp s) {[thread_ready_list := []; waiters (semaphore pid_lock) := []]}
    {[t := new_view TASK_RUNNING t 31]} [t];
  mi_own : own K = P;
  mi_data b : P b -> data K b = f b;
  mi_lock : locks K !! pid_lock = Some (t, 0);
  mi_vars : kvar s' = set_next_pid (fresh_pid s) (set_main_thread t (kvar s));
  mi_esp : kesp s' = kesp s;
  mi_if : kif s' = kif s;
  mi_inb : kinb s' = kinb s;
  mi_ports : kports s' = kports s;
  mi_tab : ktab s' = ktab s }.

(** What it needs. *)
Record boot_ready (s : kstate M) (R P : Z -> Prop) (f : Z -> Z) (t := page_of (kesp s)) : Prop := mk_boot_ready {
  br_backs : backs (kmem s) R f;
  br_layout : boot_layout R P t;
  br_esp : is_u32 (kesp s);
  br_page : t <> 0 /\ t + 4096 < 4294967296;
  br_name : main_name P f }.

Lemma wp_thread_init G s R P f (Q : unit -> kstate M -> Prop) : boot_ready s R P f ->
  (forall s' K, main_started R P f s s' K -> Q tt s') -> wp G thread_init s Q.
Proof.
  intros [Hb HB He [Ht0 Htu] [Hni Hns]] HQ. unfold thread_init. pose proof (bl_own _ _ _ HB) as Hown.
  apply wp_bind, wp_modify. set (s0 := put_out _ s).
  eapply wp_boot_lists; [exact Hb | exact HB |]. intros m1 f1 H1 Hr Ha Hl Ho1.
  assert (forall b, P b -> f1 b = f b) as Hf1.
  { intros b Hbb. apply Ho1. unfold boot_bytes. destruct (Hown b Hbb) as (_ & ? & ? & ? & _). tauto. }
  apply wp_bind. unfold make_main_thread. apply wp_bind, wp_running_thread.
  change (kesp (set_mem m1 s0)) with (kesp s). set (t := page_of (kesp s)) in *.
  apply wp_bind, wp_modify, wp_bind, wp_get. cbn [kvar main_thread set_var set_main_thread].
  set (s1 := set_var _ (set_mem m1 s0)). apply wp_bind.
  eapply (wp_first_init _ s1 R P f1); [exact H1 | exact HB | exact He | exact Ht0 | exact Htu | done | | exact Hr | exact Ha | exact Hl |].
  { split; [done |]. eapply cstr_ext; [| exact Hns]. intros b Hbb. by apply Hf1, Hni. }
  change (kesp s1) with (kesp s). fold t. intros m2 f2 K2 H2 HK2 Ho2 Hd2 Hl2 _.
  set (A := boot_sched (kesp s) (new_view TASK_RUNNING t 31)) in *. pose proof (sr_sched _ _ _ HK2) as HA.
  assert (is_Some (tasks A !! t)) as Ht by (eexists; apply lookup_singleton_eq).
  apply wp_bind. eapply (wp_find_all _ _ R f2 A); [exact H2 | exact HA |].
  rewrite bool_decide_false by apply not_elem_of_nil. apply wp_bind, wp_assert; [done |].
  eapply (wp_enlist_all _ _ R f2 A); [exact H2 | exact HA | exact Ht | apply not_elem_of_nil |].
  intros m3 f3 H3 HA3 Ho3. apply wp_modify. eapply (HQ _ (with_ks (set_all [t] A) K2)).
  split; [| done | done | | done | done ..].
  - split; [| done | |].
    + exists f3. split; [exact H3 |]. apply (sys_step R f2 f3 (with_ks A K2)); done.
    + pose proof (boot_wf (kesp s) (new_view TASK_RUNNING t 31) He) as Hwf.
      assert (wf A) as [W1 W2 W3 W4 W5 W6 W7 W8 W9 W10 W11]; [| by split].
      apply Hwf; [| done]. cbn. pose proof (backs_inside_u32 _ _ _ _ _ Hb (bl_page _ _ _ HB) ltac:(lia)).
      unfold is_u32. lia.
    + exists (new_view TASK_RUNNING t 31). split; [apply lookup_singleton_eq | done].
  - intros b Hbb. cbn. rewrite Hd2 by done. by apply Hf1.
Qed.
End thread_init.

(** ** Properties *)

Section properties.
Context {M : Type} {RM : RawMem M} {RL : RawMemLaws M} {LY : Layout}.

(** [thread_init] establishes the scheduler's invariant: the code that runs on
    the boot stack becomes the main thread, running, with priority 31, in the
    queue of all threads and in no other; the ready queue is empty, the lock of
    the process numbers is left in its hands (with the count 0), and the bytes
    of other modules are not touched. *)
Theorem thread_init_starts (s : kstate M) (R P : Z -> Prop) (f : Z -> Z) : boot_ready s R P f ->
  exists s' K, thread_init s = Done tt s' /\ main_started R P f s s' K.
Proof.
  intros Hr.
  destruct (proj1 (wp_seq_only thread_init s (fun _ s' => exists K, main_started R P f s s' K)))
    as ([] & s' & Hc & K & HK); [| by exists s', K].
  eapply wp_thread_init; [exact Hr |]. intros s' K HK. by exists K.
Qed.
End properties.

Module examples.
#[local] Existing Instance demo_layout.

(** The string "main" is at 0xc0007000, the boot stack at 0xc009eff0. *)
Definition boot_mem : flat := flat_of [(0xc0007000, 0x6e69616d); (0xc0007004, 0)].
Definition boot_state : kstate flat := machine_of boot_mem.

Lemma boot_state_ready : boot_ready boot_state is_u32 (span 0xc0007000 5) (flat_at boot_mem).
Proof.
  split.
  - apply flat_backs.
  - change (page_of (kesp boot_state)) with 0xc009e000.
    split; try (intros b Hb; unfold span, is_u32 in *; cbn in Hb; lia).
    1-6: unfold clear; cbn; lia.
    intros b Hb. unfold span, is_u32 in *. cbn. lia.
  - done.
  - by vm_compute.
  - split; [by intros b Hb |]. repeat split; vm_compute; congruence.
Qed.

Lemma thread_init_starts_witness : exists s' K, thread_init boot_state = Done tt s' /\
  sys is_u32 s' K /\ all_threads (ks K) = [0xc009e000] /\ next_pid (kvar s') = 1.
Proof.
  destruct (thread_init_starts boot_state is_u32 (span 0xc0007000 5) (flat_at boot_mem) boot_state_ready)
    as (s' & K & Hc & Hm). exists s', K. split; [exact Hc |]. split; [apply (mi_sys _ _ _ _ _ _ Hm) |]. split.
  - by rewrite (mi_sched _ _ _ _ _ _ Hm).
  - by rewrite (mi_vars _ _ _ _ _ _ Hm).
Defined.
End examples.
