(* ===== verification/Init.v ===== *)
(** kernel/init.c: [init_all], from the memory the loader leaves to the kernel's
    invariants all at once. *)

From S2P Require Import Prelude Monad RawMem Machine CString Bitmap DList Thread Sync Ioqueue Global.
From S2P Require Import Interrupt Tss Timer Console Keyboard Paging Memory Mapping KHeap PoolInit Task Boot.

Section code.
Context {M : Type} {RM : RawMem M} {LY : Layout}.

Definition init_all : K (M := M) unit :=
  put_lit ("init_all" ++ nl);;
  idt_init;; mem_init;; thread_init;; timer_init;; console_init;; keyboard_init;; tss_init.
End code.

(** ** New locks in the system *)

Section adopt.
Context {LY : Layout}.

Lemma rep_new_queue (R : Z -> Prop) f A l : rep R f A -> queues A !! l = None -> dlist R f l [] ->
  (forall b, span l 16 b -> ~ footprint A b) -> (forall t, is_Some (tasks A !! t) -> clear t task_struct_size l 16) ->
  rep R f (set_queue l [] A).
Proof.
  intros HA Hl Hd Hfp Ht.
  assert (forall l' ts, queues (set_queue l [] A) !! l' = Some ts -> (l' = l /\ ts = []) \/ queues A !! l' = Some ts) as Hq.
  { intros l' ts. cbn. rewrite lookup_insert_Some. intros [[<- <-] | [_ H]]; auto. }
  assert (forall l' : Z, is_Some (queues (set_queue l [] A) !! l') -> l' = l \/ is_Some (queues A !! l')) as Hqs.
  { intros l' [ts [[-> _] | H]%Hq]; [by left | right; by exists ts]. }
  assert (forall l', is_Some (queues A !! l') -> clear l 16 l' 16) as Hc.
  { intros l' Hl'. apply spans_clear; [lia .. |]. intros b Hb Hb'. apply (Hfp b Hb). left. by exists l'. }
  assert (clear thread_all_list 16 l 16) as Hall.
  { apply spans_clear; [lia .. |]. intros b Hb Hb'. apply (Hfp b Hb'). by right; right. }
  split; cbn [tasks all_threads set_queue]; try apply HA.
  - intros l' ts [[-> ->] | H]%Hq; [done | by apply (rep_queue _ _ _ HA)].
  - intros l' ts t [[_ ->] | H]%Hq Hin; [by apply elem_of_nil in Hin | by eapply (rep_member _ _ _ HA)].
  - intros l1 l2 ts1 ts2 t [[_ ->] | H1]%Hq [[_ ->] | H2]%Hq Hi1 Hi2; try by apply elem_of_nil in Hi1.
    + by apply elem_of_nil in Hi2.
    + by eapply (rep_single _ _ _ HA).
  - intros l1 l2 [-> | H1]%Hqs [-> | H2]%Hqs Hne; [done | by apply Hc | | by apply (rep_queues _ _ _ HA)].
    destruct (Hc l1 H1); [by right | by left].
  - intros t l' Hts [-> | H]%Hqs; [by apply Ht | by apply (rep_tq _ _ _ HA)].
  - intros l' [-> | H]%Hqs; [done | by apply (rep_all_queue _ _ _ HA)].
Qed.

Lemma new_queue_wf A l : wf A -> queues A !! l = None -> wf (set_queue l [] A).
Proof.
  intros HA Hl. pose proof (wf_queue _ HA) as [q Hq0].
  assert (l <> thread_ready_list) as Hne by (intros ->; congruence).
  assert (forall l' ts, queues (set_queue l [] A) !! l' = Some ts -> (l' = l /\ ts = []) \/ queues A !! l' = Some ts) as Hq.
  { intros l' ts. cbn. rewrite lookup_insert_Some. intros [[<- <-] | [_ H]]; auto. }
  split; try apply HA.
  - exists q. cbn. by rewrite lookup_insert_ne.
  - intros l' ts [[_ ->] | H]%Hq; [constructor | by eapply (wf_nodup _ HA)].
  - intros l' ts t [[_ ->] | H]%Hq Hin; [by apply elem_of_nil in Hin | by eapply (wf_member _ HA)].
  - intros q' t v [[He _] | H]%Hq Hin; [congruence | by eapply (wf_ready _ HA)].
  - intros l' ts t v [[_ ->] | H]%Hq Hr Hin; [by apply elem_of_nil in Hin | by eapply (wf_waiters _ HA)].
  - intros t v Hv Hr. destruct (wf_runnable _ HA t v Hv Hr) as (q' & Hq' & Hin). exists q'.
    split; [| done]. cbn. by rewrite lookup_insert_ne.
Qed.

(** A fresh lock at [p], made of bytes that were one's own, comes under the
    system's care. *)
Definition adopt_lock (p : Z) (K : ksys) : ksys :=
  mk_ksys (set_queue (waiters (semaphore p)) [] (ks K)) (<[semaphore p := 1]> (semas K)) (<[p := (0, 0)]> (locks K))
    (fun b => own K b /\ ~ span p 28 b) (data K).

Lemma sys_rep_adopt_lock R f K p : sys_rep R f K -> inside (own K) p 28 -> fresh_lock R f p ->
  is_Some (queues (ks K) !! thread_ready_list) ->
  sys_rep R f (adopt_lock p K) /\ queues (ks K) !! waiters (semaphore p) = None.
Proof.
  intros HK Hi Hl Hrdy. pose proof (sr_own _ _ _ HK) as Hown. pose proof (sr_sched _ _ _ HK) as HA.
  unfold adopt_lock, waiters, semaphore in *. set (l := p + 4 + 4) in *.
  assert (forall b, span p 28 b -> ~ footprint (ks K) b) as Hnf by (intros b Hb; by apply Hown, Hi).
  assert (queues (ks K) !! l = None) as Hnone.
  { destruct (queues (ks K) !! l) as [ts |] eqn:Hq; [| done]. exfalso.
    apply (Hnf l); [unfold l, span; lia |]. left. exists l. split; [by exists ts | unfold span; lia]. }
  split; [| exact Hnone].
  assert (forall b, footprint (set_queue l [] (ks K)) b -> footprint (ks K) b \/ span l 16 b) as Hfp.
  { intros b [(l' & [ts Hl'] & Hb) | [H | H]]; [| by left; right; left | by left; right; right].
    cbn in Hl'. rewrite lookup_insert_Some in Hl'. destruct Hl' as [[<- _] | [_ Hl']]; [by right |].
    left. left. exists l'. split; [by exists ts | done]. }
  assert (forall b, span p 28 b -> ~ span l 16 b -> ~ footprint (set_queue l [] (ks K)) b) as Hnf'.
  { intros b Hb Hnl [H | H]%Hfp; [by apply (Hnf b) | done]. }
  assert (forall b, is_Some (semas K !! b) -> ~ span p 28 b) as Hns.
  { intros b Hb Hs. by apply (Hown b (Hi b Hs)). }
  assert (forall q b, is_Some (locks K !! q) -> lock_bytes q b -> ~ span p 28 b) as Hnl.
  { intros q b Hq Hb Hs. destruct (Hown b (Hi b Hs)) as (_ & _ & _ & Hn). by apply (Hn q). }
  split; cbn [ks semas locks own data].
  - apply rep_new_queue; [exact HA | exact Hnone | apply (fl_waiters _ _ _ Hl) | |].
    + intros b Hb. apply Hnf. unfold l, span in *. lia.
    + intros t Ht. assert (forall b, task_footprint t b -> ~ span p 28 b) as Hn.
      { intros b Htb Hb. apply (Hnf b Hb). right. left. by exists t. }
      clear -Hn. pose proof (Hn t). pose proof (Hn p). pose proof (Hn (p + 27)). pose proof (Hn (t + 32)). pose proof (Hn (t + 71)).
      unfold clear, l. unfold task_footprint, task_struct_size, task_identity, pid, name, userprog_vaddr, span in *. lia.
  - intros q v. rewrite lookup_insert_Some. intros [[<- <-] | [_ Hq]]; [| by apply (sr_value _ _ _ HK)].
    split; [apply (fl_value _ _ _ Hl) |]. split; [by right |]. apply Hown, Hi. unfold span. lia.
  - intros q [v Hq]. rewrite lookup_insert_Some in Hq. destruct Hq as [[<- _] | [Hne Hq]].
    + split; [apply Hnf'; unfold l, span; lia |]. split; [exists []; apply lookup_insert_eq |].
      intros He. destruct Hrdy as [ts Hts]. unfold waiters in He. fold l in He. congruence.
    + destruct (sr_sema _ _ _ HK q (mk_is_Some _ _ Hq)) as (H1 & [ts H2] & H3). split; [| split; [| done]].
      * intros [H | H]%Hfp; [done |]. apply (Hns q (mk_is_Some _ _ Hq)). unfold l, span in *. lia.
      * exists ts. unfold set_queue. cbn [queues]. rewrite lookup_insert_ne; [done |]. intros He. congruence.
  - intros q h n. rewrite lookup_insert_Some. intros [[<- [= <- <-]] | [_ Hq]]; [| by apply (sr_words _ _ _ HK)].
    split; [apply (fl_holder _ _ _ Hl) | apply (fl_repeat _ _ _ Hl)].
  - intros q b [v Hq] Hb. rewrite lookup_insert_Some in Hq. rewrite lookup_insert_is_Some. destruct Hq as [[<- _] | [Hne Hq]].
    + assert (span p 28 b) as Hs by (unfold lock_bytes, span in *; lia). split; [by apply Hown, Hi |]. split.
      * apply Hnf'; [done |]. unfold lock_bytes, l, span in *. lia.
      * intros [He | [_ Hb']]; [unfold lock_bytes, span in *; lia |]. by apply (Hns b).
    + destruct (sr_lock _ _ _ HK q b (mk_is_Some _ _ Hq) Hb) as (H1 & H2 & H3).
      pose proof (Hnl q b (mk_is_Some _ _ Hq) Hb) as Hn. split; [done |]. split.
      * intros [H | H]%Hfp; [done |]. apply Hn. unfold l, span in *. lia.
      * intros [He | [_ Hb']]; [| done]. apply Hn. unfold span. lia.
  - assert (forall q, is_Some (locks K !! q) -> clear p 28 q 28) as Hc.
    { intros q Hq. unfold clear. destruct (Z.le_gt_cases (p + 28) q), (Z.le_gt_cases (q + 28) p); auto. exfalso.
      destruct (Z.le_gt_cases p q).
      - apply (Hnl q q Hq); unfold lock_bytes, span; lia.
      - apply (Hnl q (q + 27) Hq); unfold lock_bytes, span; lia. }
    intros q1 q2. rewrite !lookup_insert_is_Some. intros [<- | [_ H1]] [<- | [_ H2]] Hne; [done | by apply Hc | |
      by apply (sr_locks _ _ _ HK)].
    destruct (Hc q1 H1); [by right | by left].
  - intros q. rewrite !lookup_insert_is_Some. intros [<- | [_ Hq]]; [by left |].
    destruct (decide (p + 4 = q + 4)) as [He | Hne]; [by left | right]. split; [done |]. by apply (sr_semaphore _ _ _ HK).
  - intros b [Hb _]. by apply (sr_data _ _ _ HK).
  - intros b [Hb Hnb]. destruct (Hown b Hb) as (H1 & H2 & H3 & H4). split; [done |]. split; [| split].
    + intros [H | H]%Hfp; [done |]. apply Hnb. unfold l, span in *. lia.
    + rewrite lookup_insert_is_Some. intros [He | [_ H]]; [| done]. apply Hnb. unfold span. lia.
    + intros q. rewrite lookup_insert_is_Some. intros [<- | [_ Hq]]; [| by apply H4].
      intros Hlb. apply Hnb. unfold lock_bytes, span in *. lia.
Qed.

Lemma sys_adopt_lock {M} {RM : RawMem M} {RL : RawMemLaws M} (R : Z -> Prop) (s : kstate M) K p f :
  sys R s K -> inside (own K) p 28 -> fresh_lock R f p -> (forall b, own K b -> f b = data K b) ->
  sys R s (adopt_lock p K).
Proof.
  intros [(f0 & Hb & HK) He HA (v & Hv & Hst)] Hi Hl Hf.
  assert (fresh_lock R f0 p) as Hl0.
  { eapply fresh_lock_keep; [exact Hl |]. intros b Hbb. rewrite Hf by (by apply Hi).
    apply (sr_data _ _ _ HK). by apply Hi. }
  destruct (sys_rep_adopt_lock R f0 K p HK Hi Hl0 (wf_queue _ HA)) as [HK' Hn].
  split; [by exists f0 | exact He | by apply new_queue_wf | by exists v].
Qed.
End adopt.

(** ** The devices *)

Section devices.
Context {LY : Layout}.

(** Every byte belongs to one module at most; [C] are the constants. *)
Record modules_apart (C : Z -> Prop) (label : Z -> nat) : Prop := mk_modules_apart {
  ma_tables b : table_bytes b -> label b = 1%nat;
  ma_pools b : pool_bytes b -> label b = 2%nat;
  ma_console b : span console_lock 28 b -> label b = 3%nat;
  ma_kbd b : span kbd_buf 108 b -> label b = 4%nat;
  ma_tss b : tss_bytes b -> label b = 5%nat;
  ma_constants b : C b -> label b = 6%nat;
  ma_ram b : span 0xb00 4 b -> label b = 7%nat }.

(** What the kernel's memory has to hold. *)
Record modules_space (P : Z -> Prop) : Prop := mk_modules_space {
  mo_tables : tables_space P;
  mo_pools : pool_layout P LY;
  mo_console : inside P console_lock 28;
  mo_kbd : inside P kbd_buf 108;
  mo_tss : tss_space P;
  mo_ram : inside P 0xb00 4 }.

(** The linker's addresses fit into words. *)
Definition linked : Prop := (forall t, is_u32 (lit t)) /\ (forall t, is_u32 (fn t)).

Definition device_bytes (b : Z) : Prop :=
  span (handler_addr 0x20) 4 b \/ span (handler_addr 0x21) 4 b \/ span console_lock 28 b \/ span kbd_buf 108 b \/
  tss_bytes b.

Record devices_ready (R : Z -> Prop) (f : Z -> Z) : Prop := mk_devices_ready {
  dr_timer : w32 f (handler_addr 0x20) = fn "intr_timer_handler";
  dr_keyboard : w32 f (handler_addr 0x21) = fn "intr_keyboard_handler";
  dr_console : fresh_lock R f console_lock;
  dr_kbd_lock : fresh_lock R f kbd_buf;
  dr_kbd : ring f kbd_buf [] 0 0;
  dr_tss : tss_ready f }.

Lemma handler_bytes i b : 0 <= i < 0x81 -> span (handler_addr i) 4 b -> table_bytes b.
Proof. intros Hi Hb. do 3 right. tables. lia. Qed.
End devices.

Lemma tss_ready_keep {LY : Layout} f f' : tss_ready f -> (forall b, tss_bytes b -> f' b = f b) -> tss_ready f'.
Proof.
  intros [H1 H2 H3 H4 H5] Hf. unfold tss_bytes, tss_size in *.
  split; [rewrite <- H1; apply f_equal, gdt_desc_at_ext | rewrite <- H2; apply f_equal, gdt_desc_at_ext |
    rewrite <- H3; apply f_equal, gdt_desc_at_ext | rewrite <- H4; apply w32_ext | rewrite <- H5; apply w16_ext];
    intros b Hb; apply Hf; unfold tss_ss0, span in *; lia.
Qed.

Lemma ring_keep f f' q cs p c : ring f q cs p c -> (forall b, span (q + 28) 80 b -> f' b = f b) -> ring f' q cs p c.
Proof.
  intros [H1 H2 H3 H4 H5 H6 H7] Hf.
  assert (forall a, q + 28 <= a -> a + 4 <= q + 108 -> w32 f' a = w32 f a) as Hw.
  { intros a Ha1 Ha2. apply w32_ext. intros b Hb. apply Hf. unfold span in *. lia. }
  unfold head_, tail_, producer, consumer, buf in *.
  split; unfold head_, tail_, producer, consumer, buf; rewrite ?Hw by lia; try done.
  intros i v Hi. rewrite Hf; [by apply H5 |]. pose proof (Z.mod_pos_bound (w32 f (q + 104) + Z.of_nat i) 64 ltac:(lia)).
  unfold span. lia.
Qed.

Section rules.
Context {M : Type} {RM : RawMem M} {RL : RawMemLaws M} {LY : Layout}.
Implicit Types (s : kstate M) (R P : Z -> Prop) (f : Z -> Z) (K : ksys) (G : protocol (kstate M)).

Lemma wp_ioqueue_init G s R f q (Q : unit -> kstate M -> Prop) :
  backs (kmem s) R f -> inside R q 108 ->
  (forall m f', backs m R f' -> fresh_lock R f' q -> ring f' q [] 0 0 ->
     (forall b, ~ span q 108 b -> f' b = f b) -> Q tt (set_mem m s)) ->
  wp G (ioqueue_init q) s Q.
Proof.
  intros Hb Hi HQ. unfold ioqueue_init, ioq_lock, consumer, producer, tail_, head_.
  apply wp_bind. eapply wp_lock_init; [exact Hb | region |]. intros m1 f1 H1 Hl Ho1.
  apply wp_bind. eapply wp_st32; [exact H1 | region |]. intros m2 H2.
  apply wp_bind. eapply wp_st32; [exact H2 | region |]. intros m3 H3.
  apply wp_bind. eapply wp_st32; [exact H3 | region |]. intros m4 H4.
  eapply wp_st32; [exact H4 | region |]. intros m5 H5. apply (HQ m5 _ H5).
  - eapply fresh_lock_keep; [exact Hl |]. intros b Hbb. unfold span in Hbb. by mem.
  - split; unfold head_, tail_, producer, consumer; mem; cbn; try lia; done.
  - intros b Hbb. unfold span in *. mem. apply Ho1. unfold span. lia.
Qed.

Lemma wp_init_devices G s R f C label (Q : unit -> kstate M -> Prop) :
  backs (kmem s) R f -> modules_space R -> modules_apart C label -> linked ->
  (forall s' f', backs (kmem s') R f' -> devices_ready R f' -> (forall b, ~ device_bytes b -> f' b = f b) ->
     grew s s' (rev pit_words) [(TR, SELECTOR_TSS); (GDTR, gdt_operand)] -> Q tt s') ->
  wp G (timer_init;; console_init;; keyboard_init;; tss_init) s Q.
Proof.
  intros Hb [Ht _ Hc Hk Hs _] Hap [Hlit Hfn] HQ. pose proof (hs_handlers _ (ts_handlers _ Ht)) as Hh.
  apply wp_bind. eapply wp_timer_init; [exact Hb | tables; region | done |]. intros s1 f1 H1 Hw1 Ho1 G1.
  apply wp_bind. eapply wp_lock_init; [exact H1 | exact Hc |]. intros m2 f2 H2 Hl2 Ho2.
  apply wp_bind. unfold keyboard_init. apply wp_bind, wp_modify, wp_bind.
  eapply wp_ioqueue_init; [exact H2 | exact Hk |]. intros m3 f3 H3 Hl3 Hr3 Ho3.
  apply wp_bind. eapply wp_register_handler; [exact H3 | tables; region | done | done |]. intros m4 f4 H4 Hw4 Ho4.
  apply wp_modify. eapply wp_tss_init; [exact H4 | exact Hs |]. intros s5 f5 H5 Htss5 Ho5 G5.
  destruct Hap as [A1 A2 A3 A4 A5 A6 A7].
  assert (forall i b, 0 <= i < 0x81 -> span (handler_addr i) 4 b -> label b = 1%nat) as Ah.
  { intros i b Hi Hbb. apply A1. by eapply handler_bytes. }
  assert (forall b, span (handler_addr 0x20) 4 b -> f5 b = f1 b) as E1.
  { intros b Hbb. pose proof (Ah 0x20 b ltac:(lia) Hbb). rewrite Ho5, Ho4, Ho3, Ho2; [done | ..]; intros Hx.
    - apply A3 in Hx. congruence.
    - apply A4 in Hx. congruence.
    - tables. lia.
    - apply A5 in Hx. congruence. }
  assert (forall b, span (handler_addr 0x21) 4 b -> f5 b = f4 b) as E2.
  { intros b Hbb. pose proof (Ah 0x21 b ltac:(lia) Hbb). apply Ho5. intros Hx. apply A5 in Hx. congruence. }
  assert (forall b, span console_lock 28 b -> f5 b = f2 b) as E3.
  { intros b Hbb. pose proof (A3 b Hbb). rewrite Ho5, Ho4, Ho3; [done | ..]; intros Hx.
    - apply A4 in Hx. congruence.
    - apply (Ah 0x21) in Hx; [congruence | lia].
    - apply A5 in Hx. congruence. }
  assert (forall b, span kbd_buf 108 b -> f5 b = f3 b) as E4.
  { intros b Hbb. pose proof (A4 b Hbb). rewrite Ho5, Ho4; [done | ..]; intros Hx.
    - apply (Ah 0x21) in Hx; [congruence | lia].
    - apply A5 in Hx. congruence. }
  apply (HQ s5 f5 H5).
  - split; [| | | | | exact Htss5].
    + rewrite <- Hw1. by apply w32_ext.
    + rewrite <- Hw4. by apply w32_ext.
    + by eapply fresh_lock_keep.
    + eapply fresh_lock_keep; [exact Hl3 |]. intros b Hbb. apply E4. unfold span in *. lia.
    + eapply ring_keep; [exact Hr3 |]. intros b Hbb. apply E4. unfold span in *. lia.
  - intros b Hbb. unfold device_bytes in Hbb. rewrite Ho5, Ho4, Ho3, Ho2, Ho1 by tauto. done.
  - destruct G1, G5. split; cbn in *; try congruence.
Qed.
End rules.

(** ** In another region *)

Section regions.
Context {LY : Layout}.

Lemma fresh_lock_region (R R' : Z -> Prop) f f' p : fresh_lock R f p -> inside R' p 28 ->
  (forall b, span p 28 b -> f' b = f b) -> fresh_lock R' f' p.
Proof.
  intros Hl Hi Hf. pose proof (fresh_lock_keep _ _ _ _ Hl Hf) as [H1 H2 H3 [D1 D2 D3 D4]]. split; try done. split; try done.
  intros x Hx b Hb. apply Hi. unfold nodes, waiters, semaphore in Hx. cbn in Hx.
  rewrite !elem_of_cons, elem_of_nil in Hx. unfold span in *. lia.
Qed.

Lemma pools_ready_region (R R' : Z -> Prop) n f f' : pools_ready R n f -> pool_layout R' LY -> 0x200000 <= n < 2 ^ 32 ->
  (forall b, pool_bytes b -> f' b = f b) -> pools_ready R' n f'.
Proof.
  intros [K1 K2 K3 Kz Kk Ku Kl Kul] HL Hn Hf. destruct (sizes_bounds n Hn) as (B1 & B2 & B3 & B4 & B5).
  assert (forall a k, (forall b, span a k b -> pool_bytes b) -> forall c, a <= c -> c + 4 <= a + k -> w32 f' c = w32 f c) as Hw.
  { intros a k Ha c Hc1 Hc2. apply w32_ext. intros b Hb. apply Hf, Ha. unfold span in *. lia. }
  assert (forall b, span kernel_pool 44 b -> pool_bytes b) as Pk by (intros b Hb; by left).
  assert (forall b, span user_pool 44 b -> pool_bytes b) as Pu by (intros b Hb; by right; left).
  assert (forall b, span kernel_vaddr 12 b -> pool_bytes b) as Pv by (intros b Hb; by right; right; left).
  assert (forall b, span MEM_BITMAP_BASE 0x4000 b -> pool_bytes b) as Pb by (intros b Hb; by right; right; right).
  destruct K1 as [[a1 a2 _ _ _ _] a3 _ _ _ _], K2 as [[b1 b2 _ _ _ _] b3 _ _ _ _].
  destruct K3 as [_ [c1 c2 _ _ _ _] c3 _ _ _ _ _ _ _]. cbn [kb kn vb vn vst boot_heap] in *.
  pose proof HL as [Lk Lu Lv Lb Lku Lkv Luv Lkb Lub Lvb].
  unfold pool_bitmap, vaddr_bitmap, vaddr_start, phy_addr_start, pool_size, pool_lock in *.
  apply pools_ready_intro; [exact HL | exact Hn | ..]; unfold pool_words, pool_bitmap, vaddr_bitmap, vaddr_start, phy_addr_start, pool_size, pool_lock.
  - rewrite !(Hw kernel_pool 44 Pk) by lia. done.
  - rewrite !(Hw user_pool 44 Pu) by lia. done.
  - split; [by rewrite (Hw kernel_vaddr 12 Pv) by lia | by rewrite (Hw kernel_vaddr 12 Pv) by lia | region | | |].
    + unfold MEM_BITMAP_BASE in *. region.
    + unfold MEM_BITMAP_BASE in *. lia.
    + lia.
  - by rewrite (Hw kernel_vaddr 12 Pv) by lia.
  - intros a Ha. rewrite Hf; [by apply Kz |]. apply Pb. unfold MEM_BITMAP_BASE, span in *. lia.
  - eapply fresh_lock_region; [exact Kl | region |]. intros b Hb. apply Hf, Pk. unfold span in *. lia.
  - eapply fresh_lock_region; [exact Kul | region |]. intros b Hb. apply Hf, Pu. unfold span in *. lia.
Qed.

Lemma pool_layout_mono (P P' : Z -> Prop) : pool_layout P LY -> (forall b, pool_bytes b -> P' b) -> pool_layout P' LY.
Proof.
  intros [L1 L2 L3 L4 L5 L6 L7 L8 L9 L10] HP. split; try assumption; intros b Hb; apply HP; unfold pool_bytes; auto.
Qed.

Lemma pool_bytes_inside (P : Z -> Prop) b : pool_layout P LY -> pool_bytes b -> P b.
Proof. intros [L1 L2 L3 L4 _ _ _ _ _ _] [Hb | [Hb | [Hb | Hb]]]; [by apply L1 | by apply L2 | by apply L3 | by apply L4]. Qed.

Lemma table_bytes_inside (P : Z -> Prop) b : tables_space P -> table_bytes b -> P b.
Proof.
  intros [[T1 T2 T3] [T4 T5 T6] _] [Hb | [Hb | [Hb | Hb]]]; [by apply T1 | | by apply T5 | by apply T4].
  apply T2. unfold entry_addr, span, IDT_DESC_CNT in *. lia.
Qed.

Lemma modules_space_mono (P R : Z -> Prop) : modules_space P -> (forall b, P b -> R b) -> modules_space R.
Proof.
  intros [[[T1 T2 T3] [T4 T5 T6] T7] [L1 L2 L3 L4 L5 L6 L7 L8 L9 L10] C1 C2 [S1 S2 S3 S4] C3] HR.
  assert (forall a n, inside P a n -> inside R a n) as Hi by (intros a n Ha b Hb; by apply HR, Ha).
  split; [split; [split | split |] | split | | | split |]; auto.
Qed.
End regions.

(** ** [init_all] *)

Section init_all.
Context {M : Type} {RM : RawMem M} {RL : RawMemLaws M} {LY : Layout}.
Implicit Types (s : kstate M) (R P C : Z -> Prop) (f : Z -> Z) (K : ksys) (G : protocol (kstate M)).

(** What the loader and the linker leave: the kernel's memory [P], apart from
    the page of the running stack and the scheduler's variables, holds the
    modules' bytes, the constants [C] and the number [n] of bytes of memory. *)
Record init_ready s R P C f n (label : Z -> nat) : Prop := mk_init_ready {
  ir_boot : boot_ready s R P f;
  ir_space : modules_space P;
  ir_apart : modules_apart C label;
  ir_linked : linked;
  ir_constants b : C b -> P b;
  ir_name b : span (lit "main") 5 b -> C b;
  ir_memory : w32 f 0xb00 = n;
  ir_size : 0x200000 <= n }.

Definition handler_of (i : Z) : string :=
  if i =? 0x20 then "intr_timer_handler" else if i =? 0x21 then "intr_keyboard_handler" else "general_intr_handler".

(** The invariants of all modules together. *)
Record kernel_up s R P C f n s' K (t := page_of (kesp s)) : Prop := mk_kernel_up {
  up_sys : sys R s' K;
  up_sched : ks K = set_queue (waiters (semaphore kbd_buf)) [] (set_queue (waiters (semaphore console_lock)) []
    (mk_sched (kesp s) {[thread_ready_list := []; waiters (semaphore pid_lock) := []]} {[t := new_view TASK_RUNNING t 31]} [t]));
  up_pid_lock : locks K !! pid_lock = Some (t, 0);
  up_console : locks K !! console_lock = Some (0, 0) /\ semas K !! semaphore console_lock = Some 1;
  up_keyboard : ioq K kbd_buf [] 0 0 /\ locks K !! ioq_lock kbd_buf = Some (0, 0);
  up_own b : own K b <-> P b /\ ~ span console_lock 28 b /\ ~ span kbd_buf 28 b;
  up_pools : pools_ready (own K) n (data K);
  up_gate i : 0 <= i < 0x80 -> gate_at (data K) (gate_addr i) = int_gate (w32 f (entry_addr i)) 0;
  up_syscall : gate_at (data K) (gate_addr 0x80) = int_gate (fn "syscall_handler") 3;
  up_handler i : 0 <= i < 0x81 -> w32 (data K) (handler_addr i) = fn (handler_of i);
  up_tss : tss_ready (data K);
  up_constants b : C b -> data K b = f b;
  up_vars : kvar s' = set_next_pid (fresh_pid s) (set_main_thread t (kvar s));
  up_esp : kesp s' = kesp s;
  up_if : kif s' = kif s;
  up_ports : kports s' = rev pit_words ++ rev pic_words ++ kports s;
  up_tab : ktab s' = [(TR, SELECTOR_TSS); (GDTR, gdt_operand); (IDTR, idt_operand)] ++ ktab s }.

Lemma sys_grew R s s' K ps ts : sys R (set_mem (kmem s') s) K -> grew s s' ps ts -> sys R s' K.
Proof. intros [Hc He HA Hr] Hg. split; [exact Hc | by rewrite (gw_esp _ _ _ _ Hg) | done | done]. Qed.

(** The devices under the system's care. *)
Lemma wp_adopt_devices G s R P C K label (Q : unit -> kstate M -> Prop) :
  sys R s K -> (forall b, P b <-> own K b) -> modules_space P -> modules_apart C label -> linked -> (forall b, P b -> R b) ->
  (forall s' d K', sys R s' K' -> devices_ready R d -> (forall b, ~ device_bytes b -> d b = data K b) ->
     K' = adopt_lock kbd_buf (adopt_lock console_lock (set_data d K)) ->
     grew s s' (rev pit_words) [(TR, SELECTOR_TSS); (GDTR, gdt_operand)] -> Q tt s') ->
  wp G (timer_init;; console_init;; keyboard_init;; tss_init) s Q.
Proof.
  intros Hs HPo Hsp Hap Hlk HPR HQ. assert (forall b, P b -> own K b) as HP by (intros b; apply HPo).
  eapply (@wp_init_devices M RM (own_laws R s K P HP) _ _ _ P (data K) C label); [by apply own_laws_intro | done .. |].
  intros s' g Hb Hd Ho Hg. destruct (own_result R s K P device_bytes HP (kmem s') g Hb Ho) as (d & Hs' & Hdg & Hd').
  pose proof (sys_grew _ _ _ _ _ _ Hs' Hg) as Hs1. pose proof (modules_space_mono P R Hsp HPR) as HspR.
  destruct Hsp as [Ht _ Hc Hk Hss _].
  assert (inside P (ioq_lock kbd_buf) 28) as Hk28 by (intros b Hbb; apply Hk; unfold ioq_lock, span in *; lia).
  assert (devices_ready R d) as Hdr.
  { destruct Hd as [D1 D2 D3 D4 D5 D6]. pose proof (hs_handlers _ (ts_handlers _ Ht)) as Hh. split.
    - rewrite <- D1. apply w32_ext. intros b Hbb. apply Hdg, Hh. tables. lia.
    - rewrite <- D2. apply w32_ext. intros b Hbb. apply Hdg, Hh. tables. lia.
    - eapply fresh_lock_region; [exact D3 | by intros b Hbb; apply HPR, Hc | by intros b Hbb; apply Hdg, Hc].
    - eapply fresh_lock_region; [exact D4 | by intros b Hbb; apply HPR, Hk28 | by intros b Hbb; apply Hdg, Hk28].
    - eapply ring_keep; [exact D5 |]. intros b Hbb. apply Hdg, Hk. unfold span in *. lia.
    - eapply tss_ready_keep; [exact D6 |]. intros b [Hbb | Hbb]; apply Hdg; [by apply (ss_tss _ Hss) | by apply (ss_descs _ Hss)]. }
  apply (HQ s' d (adopt_lock kbd_buf (adopt_lock console_lock (set_data d K)))); [| exact Hdr | exact Hd' | done | exact Hg].
  apply (sys_adopt_lock R s' _ _ d); [| | apply (dr_kbd_lock _ _ Hdr) | done].
  - apply (sys_adopt_lock R s' _ _ d); [exact Hs1 | | apply (dr_console _ _ Hdr) | done].
    intros b Hbb. by apply HP, Hc.
  - intros b Hbb. split; [by apply HP, Hk28 |]. intros Hx.
    pose proof (ma_console _ _ Hap b Hx). rewrite (ma_kbd _ _ Hap) in H; [done |]. unfold ioq_lock, span in *. lia.
Qed.

(** The pieces put together. *)
Lemma handlers_up f f1 d : tables_ready f f1 -> (forall b, table_bytes b -> ~ device_bytes b -> d b = f1 b) ->
  w32 d (handler_addr 0x20) = fn "intr_timer_handler" -> w32 d (handler_addr 0x21) = fn "intr_keyboard_handler" ->
  (forall i b, 0 <= i < 0x81 -> span (handler_addr i) 4 b -> device_bytes b -> i = 0x20 \/ i = 0x21) ->
  forall i, 0 <= i < 0x81 -> w32 d (handler_addr i) = fn (handler_of i).
Proof.
  intros Ht Hd H20 H21 Hdev i Hi. unfold handler_of.
  destruct (Z.eqb_spec i 0x20) as [-> | Hn0]; [done |]. destruct (Z.eqb_spec i 0x21) as [-> | Hn1]; [done |].
  rewrite <- (proj1 (tr_handler _ _ Ht i Hi)). apply w32_ext. intros b Hb. apply Hd; [by eapply handler_bytes |].
  intros Hx. destruct (Hdev i b Hi Hb Hx); lia.
Qed.

Lemma gates_up f f1 d i : tables_ready f f1 -> (forall b, in_idt b -> d b = f1 b) -> 0 <= i <= 0x80 ->
  gate_at d (gate_addr i) = gate_at f1 (gate_addr i).
Proof.
  intros Ht Hd Hi. apply gate_at_ext. intros b Hb. apply Hd. unfold in_idt, gate_addr, span, IDT_DESC_CNT in *. lia.
Qed.

Lemma kernel_up_intro s R P C f n label s1 f1 f2 s2 s3 K0 s' d o2 m2 :
  init_ready s R P C f n label -> n < 2 ^ 32 ->
  tables_ready f f1 -> (forall b, ~ table_bytes b -> f1 b = f b) ->
  grew s s1 (rev pic_words) [(IDTR, idt_operand)] ->
  pools_ready R n f2 -> (forall b, ~ pool_bytes b -> f2 b = f1 b) -> s2 = put_out o2 (set_mem m2 s1) ->
  main_started R P f2 s2 s3 K0 ->
  sys R s' (adopt_lock kbd_buf (adopt_lock console_lock (set_data d K0))) -> devices_ready R d ->
  (forall b, ~ device_bytes b -> d b = data K0 b) ->
  grew s3 s' (rev pit_words) [(TR, SELECTOR_TSS); (GDTR, gdt_operand)] ->
  kernel_up s R P C f n s' (adopt_lock kbd_buf (adopt_lock console_lock (set_data d K0))).
Proof.
  intros [[_ HB _ _ _] Hsp Hap Hlk HC Hnm Hmem Hsz] Hn32 Ht1 Ho1 G1 Hp2 Ho2 -> [I1 I2 I3 I4 I5 I6 I7 I8 I9 I10 I11] Hs' Hdr Hd G3.
  pose proof Hap as [A1 A2 A3 A4 A5 A6 A7]. pose proof (mo_pools _ Hsp) as Hpl. pose proof (mo_tables _ Hsp) as Htb.
  pose proof (gw_esp _ _ _ _ G1) as He1. pose proof (gw_var _ _ _ _ G1) as Hv1.
  cbn [kesp kvar kports ktab kif put_out set_mem] in *.
  assert (forall b, device_bytes b -> (exists i, (i = 0x20 \/ i = 0x21) /\ span (handler_addr i) 4 b) \/
    (label b = 3%nat \/ label b = 4%nat \/ label b = 5%nat)) as Hdev.
  { intros b [Hb | [Hb | [Hb | [Hb | Hb]]]]; [left; exists 0x20; auto | left; exists 0x21; auto | right ..]; auto. }
  assert (forall b, P b -> ~ device_bytes b -> ~ pool_bytes b -> d b = f1 b) as Hdf.
  { intros b Hb Hn1 Hn2. by rewrite Hd, I4, Ho2. }
  assert (forall b k, label b = k -> k <> 1%nat -> k <> 3%nat -> k <> 4%nat -> k <> 5%nat -> ~ device_bytes b) as Hnd.
  { intros b k Hk H1 H3 H4 H5 [(i & Hi & Hb) | Hl]%Hdev; [| lia].
    rewrite (A1 b) in Hk; [congruence |]. apply (handler_bytes i); [lia | exact Hb]. }
  assert (forall b, table_bytes b -> ~ pool_bytes b) as Htp by (intros b H1%A1 H2%A2; congruence).
  assert (forall i b, 0 <= i < 0x81 -> span (handler_addr i) 4 b -> device_bytes b -> i = 0x20 \/ i = 0x21) as Hdh.
  { intros i b Hi Hb [(j & Hj & Hb') | Hl]%Hdev; [tables; lia |].
    rewrite (A1 b) in Hl; [lia |]. by eapply handler_bytes. }
  assert (forall b, in_idt b -> d b = f1 b) as Hidt.
  { intros b Hb. assert (table_bytes b) as Htbl by (by left).
    apply Hdf; [by apply (is_idt _ (ts_idt _ Htb)) | | by apply Htp].
    intros [(i & Hi & Hb') | Hl]%Hdev; [| rewrite (A1 b Htbl) in Hl; lia].
    apply (ts_apart _ Htb b); [by left | right; tables; lia]. }
  assert (forall i b, 0 <= i < 0x81 -> span (handler_addr i) 4 b -> ~ device_bytes b -> d b = f1 b) as Hhan.
  { intros i b Hi Hb Hn. apply Hdf; [| exact Hn | apply Htp; by eapply handler_bytes].
    apply (hs_handlers _ (ts_handlers _ Htb)). tables. lia. }
  assert (forall b, table_bytes b -> P b) as HPt by (intros b; by apply table_bytes_inside).
  assert (forall b, pool_bytes b -> P b) as HPp by (intros b; by apply pool_bytes_inside).
  assert (P console_lock /\ P kbd_buf) as [HPc HPk].
  { split; [apply (mo_console _ Hsp) | apply (mo_kbd _ Hsp)]; unfold span; lia. }
  assert (forall p, P p -> p <> pid_lock) as Hnp.
  { intros p Hp ->. destruct (bl_own _ _ _ HB _ Hp) as (_ & _ & _ & Hx & _). apply Hx. unfold span. lia. }
  assert (kbd_buf <> console_lock) as Hck.
  { intros Heq. pose proof (A3 console_lock ltac:(unfold span; lia)) as Hl. rewrite <- Heq, A4 in Hl; [done |].
    unfold span. lia. }
  split; cbn [ks data own locks semas adopt_lock set_data].
  - exact Hs'.
  - rewrite I2, He1. done.
  - rewrite lookup_insert_ne by (by apply Hnp). rewrite lookup_insert_ne by (by apply Hnp). by rewrite I5, He1.
  - rewrite lookup_insert_ne, lookup_insert_eq by done. split; [done |].
    rewrite lookup_insert_ne, lookup_insert_eq; [done |]. unfold semaphore. lia.
  - split; [| apply lookup_insert_eq]. split; [| apply (dr_kbd _ _ Hdr)]. cbn [own adopt_lock set_data].
    intros b Hb. assert (span kbd_buf 108 b) as Hb' by (unfold span in *; lia). rewrite I3. split; [split |].
    + by apply (mo_kbd _ Hsp).
    + intros Hx%A3. apply A4 in Hb'. congruence.
    + unfold ioq_lock, span in *. lia.
  - intros b. rewrite I3. unfold ioq_lock. tauto.
  - eapply pools_ready_region; [exact Hp2 | | lia |].
    + apply (pool_layout_mono P); [exact Hpl |]. intros b Hb. cbn [own adopt_lock set_data]. rewrite I3.
      split; [split; [by apply HPp |] |]; intros Hx; apply A2 in Hb; [apply A3 in Hx; congruence |].
      rewrite A4 in Hb; [done |]. unfold ioq_lock, span in *. lia.
    + intros b Hb. assert (~ device_bytes b) as Hx by (eapply Hnd; [by apply A2 | done ..]).
      rewrite Hd by done. by apply I4, HPp.
  - intros i Hi. rewrite (gates_up f f1) by (done || lia). by apply (tr_gate _ _ Ht1).
  - rewrite (gates_up f f1) by (done || lia). apply (tr_syscall _ _ Ht1).
  - apply (handlers_up f f1); [exact Ht1 | | apply (dr_timer _ _ Hdr) | apply (dr_keyboard _ _ Hdr) | exact Hdh].
    intros b Hb Hn. apply Hdf; [by apply HPt | exact Hn | by apply Htp].
  - apply (dr_tss _ _ Hdr).
  - intros b Hb. assert (~ device_bytes b) as Hx by (eapply Hnd; [by apply A6 | done ..]).
    rewrite Hd, I4, Ho2, Ho1; [done | | | by apply HC | done]; intros Hy; [apply A1 in Hy | apply A2 in Hy]; apply A6 in Hb; congruence.
  - rewrite (gw_var _ _ _ _ G3), I6. unfold fresh_pid. cbn. by rewrite Hv1, He1.
  - by rewrite (gw_esp _ _ _ _ G3), I7, He1.
  - rewrite (gw_if _ _ _ _ G3), I8. apply (gw_if _ _ _ _ G1).
  - rewrite (gw_ports _ _ _ _ G3), I10, (gw_ports _ _ _ _ G1). done.
  - rewrite (gw_tab _ _ _ _ G3), I11, (gw_tab _ _ _ _ G1). done.
Qed.

Lemma wp_init_all G s R P C f n label (Q : unit -> kstate M -> Prop) :
  init_ready s R P C f n label ->
  (forall s' K, kernel_up s R P C f n s' K -> Q tt s') -> wp G init_all s Q.
Proof.
  intros [[Hb HB He Ht0 [Hni Hns]] Hsp Hap Hlk HC Hnm Hmem Hsz] HQ.
  pose proof (bl_own _ _ _ HB) as Hown. assert (forall b, P b -> R b) as HPR by (intros b Hbb; by apply Hown).
  pose proof (modules_space_mono P R Hsp HPR) as HspR. pose proof Hap as [A1 A2 A3 A4 A5 A6 A7].
  pose proof (mo_ram _ HspR) as Hram.
  assert (n < 2 ^ 32) as Hn32.
  { pose proof (backs_w32 _ _ _ _ Hb Hram) as Hu. rewrite Hmem in Hu. unfold is_u32 in Hu. lia. }
  unfold init_all. apply wp_bind, wp_modify, wp_bind.
  eapply wp_idt_init; [exact Hb | apply (mo_tables _ HspR) | apply Hlk | apply Hlk |].
  intros s1 f1 H1 Ht1 Ho1 G1. apply wp_bind.
  eapply (wp_mem_init _ s1 R f1 n); [exact H1 | apply (mo_pools _ HspR) | exact Hram | | exact Hsz |].
  { rewrite <- Hmem. apply w32_ext. intros b Hbb. apply Ho1. intros Hx. apply A1 in Hx.
    apply A7 in Hbb. congruence. }
  intros m2 f2 o2 H2 Hp2 Ho2. set (s2 := put_out o2 (set_mem m2 s1)).
  assert (forall b, C b -> f2 b = f b) as HfC.
  { intros b Hbb. apply A6 in Hbb. rewrite Ho2, Ho1; [done | |]; intros Hx; [apply A1 in Hx | apply A2 in Hx]; congruence. }
  assert (kesp s2 = kesp s) as He2 by apply (gw_esp _ _ _ _ G1).
  apply wp_bind. eapply (wp_thread_init _ s2 R P f2).
  { split; rewrite ?He2; try done. split; [exact Hni |]. eapply cstr_ext; [| exact Hns].
    intros b Hbb. apply HfC, Hnm. exact Hbb. }
  intros s3 K0 HK0. pose proof (mi_own _ _ _ _ _ _ HK0) as HoK.
  eapply (wp_adopt_devices _ s3 R P C K0 label); [apply (mi_sys _ _ _ _ _ _ HK0) | by rewrite HoK | done ..|].
  intros s' d K' Hs' Hdr Hd -> G3. eapply HQ. eapply kernel_up_intro; try done.
  destruct G1 as [Ga Gb Gc Gd Ge Gf]. split; [exact Ga | exact Gb | exact Gc | exact Gd | exact Ge | exact Gf].
Qed.

Lemma init_run s R P C f n label : init_ready s R P C f n label ->
  exists s' K, init_all s = Done tt s' /\ kernel_up s R P C f n s' K.
Proof.
  intros Hr. destruct (proj1 (wp_seq_only init_all s (fun _ s' => exists K, kernel_up s R P C f n s' K)))
    as ([] & s' & Hc & K & HK); [| by exists s', K].
  eapply wp_init_all; [exact Hr |]. intros s' K HK. by exists K.
Qed.

(** ** Property *)

(** C2. [init_all], from the memory the loader leaves, establishes the invariants of
    all modules at once: the running code is the main thread and the only one,
    the ready queue is empty, the locks of the console and of the keyboard's
    buffer are free, that of the process numbers is in the main thread's hands
    with the count 0, the buffer is empty, the pools and the kernel's heap are
    ready, every vector has its gate and its handler, those of the timer and of
    the keyboard included, the task state segment is loaded, and the two chips
    are programmed; interrupts are as they were. *)
Theorem init_all_establishes s R P C f n label : init_ready s R P C f n label ->
  exists s' K, init_all s = Done tt s' /\ kernel_up s R P C f n s' K.
Proof. apply init_run. Qed.
End init_all.

Module examples.
#[local] Existing Instance demo_layout.

(** 32 MiB of memory; the string "main" is at 0xc0007000, the boot stack at
    0xc009eff0. *)
Definition loaded : flat := flat_of [(0xb00, 0x2000000); (0xc0007000, 0x6e69616d); (0xc0007004, 0)].
Definition start : kstate flat := machine_of loaded.

Definition constants (b : Z) : Prop := span 0xc0007000 5 b.
Definition kernel_memory (b : Z) : Prop :=
  span 0xb00 4 b \/ span 0xc0000900 0x100 b \/ constants b \/ span 0xc0008040 0x95fc0 b.

Definition between (lo hi b : Z) : bool := (lo <=? b) && (b <? hi).

Definition owner (b : Z) : nat :=
  if between 0xc0007000 0xc0007005 b then 6
  else if between 0xb00 0xb04 b then 7
  else if between 0xc0008040 0xc000805c b then 3
  else if between 0xc0008060 0xc00080cc b then 4
  else if between 0xc0008100 0xc0008200 b then 2
  else if between 0xc009a000 0xc009e000 b then 2
  else if between 0xc0008200 0xc0009300 b then 1
  else if between 0xc0009300 0xc000936c b then 5
  else if between 0xc0000900 0xc0000a00 b then 5 else 0.

(** A range of addresses belongs to one module. *)
Ltac owned := intros b Hb; unfold constants, table_bytes, pool_bytes, tss_bytes, tss_size, tss_desc_addr,
  GDT_BASE, MEM_BITMAP_BASE, in_idt, in_names, in_handlers, entry_addr, span, IDT_DESC_CNT in *; cbn in Hb;
  unfold owner, between; repeat case_match; lia.

Lemma loaded_apart : modules_apart constants owner.
Proof. split; owned. Qed.

Ltac held := intros b Hb; unfold kernel_memory, constants, span, IDT_DESC_CNT, tss_size, tss_desc_addr, GDT_BASE,
  MEM_BITMAP_BASE in *; cbn in *; lia.

Lemma loaded_space : modules_space kernel_memory.
Proof.
  split; [split; [split | split |] | split | | | split |]; try held;
    try (unfold IDT_DESC_CNT, MEM_BITMAP_BASE, tss_size, tss_desc_addr, GDT_BASE; cbn; lia).
  intros a. unfold in_idt, in_names, in_handlers, entry_addr, span, IDT_DESC_CNT. cbn. lia.
Qed.

Lemma loaded_boots : boot_ready start is_u32 kernel_memory (flat_at loaded).
Proof.
  split.
  - apply flat_backs.
  - change (page_of (kesp start)) with 0xc009e000.
    split; try (intros b Hb; unfold span, is_u32 in *; cbn in Hb; lia).
    1-6: unfold clear; cbn; lia.
    intros b Hb. unfold kernel_memory, constants, span, is_u32 in *. cbn in *. lia.
  - done.
  - by vm_compute.
  - split; [intros b Hb; right; right; left; exact Hb |]. repeat split; vm_compute; congruence.
Qed.

Lemma loaded_ready : init_ready start is_u32 kernel_memory constants (flat_at loaded) 0x2000000 owner.
Proof.
  split; [apply loaded_boots | apply loaded_space | apply loaded_apart | by split | | done | by vm_compute | lia].
  intros b Hb. by right; right; left.
Qed.

Lemma init_all_establishes_witness : exists s' K, init_all start = Done tt s' /\ sys is_u32 s' K /\
  pools_ready (own K) 0x2000000 (data K) /\ all_threads (ks K) = [0xc009e000] /\ ioq K kbd_buf [] 0 0.
Proof.
  destruct (init_all_establishes start is_u32 kernel_memory constants (flat_at loaded) 0x2000000 owner loaded_ready)
    as (s' & K & Hc & HK). exists s', K. split; [exact Hc |]. split; [apply (up_sys _ _ _ _ _ _ _ _ HK) |].
  split; [apply (up_pools _ _ _ _ _ _ _ _ HK) |]. split; [| apply (up_keyboard _ _ _ _ _ _ _ _ HK)].
  by rewrite (up_sched _ _ _ _ _ _ _ _ HK).
Defined.
End examples.
