(* ===== verification/Start.v ===== *)
(** kernel/main.c: the start of the kernel, and the two threads that echo the
    keyboard.  The theorem on [main] as a whole is in Main.v. *)

From S2P Require Import Prelude Monad RawMem Machine CString Bitmap DList Thread Sync Ioqueue Global.
From S2P Require Import Interrupt Screen Tss Timer Console Keyboard Paging Memory Mapping KHeap PoolInit Task Spawn Boot Init.

Section code.
Context {M : Type} {RM : RawMem M} {LY : Layout}.

(** One round of the loop of a thread that echoes. *)
Definition echo_round (para : Z) : K (M := M) unit :=
  do old_status <- intr_disable;
  do empty <- ioq_empty kbd_buf;
  (when negb empty then
    console_put_str para;;
    do byte <- ioq_getchar kbd_buf;
    console_put_char byte);;
  intr_set_status old_status;; cret tt.

Definition k_thread_a (arg : Z) : K (M := M) unit :=
  while_ (fun para => echo_round para;; cret (inl para)) arg.

Definition k_thread_b (arg : Z) : K (M := M) unit :=
  while_ (fun para => echo_round para;; cret (inl para)) arg.

Definition main_start : K (M := M) unit :=
  put_lit ("I am kernel" ++ nl);;
  put_int 123;;
  init_all;;
  do addr <- get_kernel_pages 3;
  put_lit (nl ++ "    get_kernel_page start vaddr is ");; put_int addr;; put_lit nl;;
  put_lit ("create thread" ++ nl);;
  thread_start (lit "k_thread_a") 31 (fn "k_thread_a") (lit "argA");;
  thread_start (lit "k_thread_b") 30 (fn "k_thread_b") (lit "argB");;
  intr_enable;; cret tt.

(** The last statement is [while(1)], from which only interrupts lead away. *)
Definition main : K (M := M) unit :=
  main_start;;
  while_ (fun _ => cret (inl tt)) tt.
End code.

(** ** A round of the echo *)

Section echo.
Context {M : Type} {RM : RawMem M} {RL : RawMemLaws M} {LY : Layout}.
Implicit Types (s : kstate M) (R : Z -> Prop) (f : Z -> Z) (K : ksys) (G : protocol (kstate M)).

Lemma wake_cur t A : cur (wake t A) = cur A.
Proof. unfold wake. by repeat case_match. Qed.

(** One round with a byte in the buffer. *)
Lemma wp_echo_round G s R K h n p l b cs pr c (Q : unit -> kstate M -> Prop) :
  sys R s K -> ioq K kbd_buf (b :: cs) pr c -> waiter_ok (ks K) pr ->
  lock_ready K console_lock h n -> 0 <= n ->
  inside (own K) p (len l + 1) -> cstr (data K) p l -> len l < 2 ^ 32 ->
  (forall m K', let s' := put_out (b :: rev l) (set_mem m s) in sys R s' K' -> ioq K' kbd_buf cs 0 c ->
     ks K' = wake pr (ks K) -> own K' = own K ->
     locks K' !! console_lock = Some (cur (ks K), lock_count K h n - 1) ->
     can_print (cursor s) (l ++ [b]) = true -> Q tt s') ->
  (can_print (cursor s) (l ++ [b]) = false -> forall s', may_fault G s') ->
  wp G (echo_round p) s Q.
Proof.
  intros Hs Hq Hw Hl Hn Hi Hstr Hlen HQ HF. rewrite can_print_app in HQ, HF. unfold echo_round. apply wp_bind, wp_intr_disable.
  apply wp_bind. eapply wp_ioq_empty; [apply sys_if, Hs | exact Hq | done |]. rewrite bool_decide_false by done. cbn [negb].
  apply wp_bind, wp_bind. eapply (wp_console_put_str _ _ R K h n p l); [apply sys_if, Hs | exact Hl | exact Hn | exact Hi | exact Hstr | exact Hlen | |];
    change (cursor (set_if false s)) with (cursor s).
  2: { intros Hc. apply HF. by rewrite Hc. }
  intros Hcp1 m1 K1 Hs1 Hk1 Hd1 Ho1 Hl1 _.
  assert (ioq K1 kbd_buf (b :: cs) pr c) as Hq1 by (destruct Hq; split; by rewrite ?Ho1, ?Hd1).
  apply wp_bind. eapply wp_ioq_getchar; [exact Hs1 | exact Hq1 | done | by rewrite Hk1 |].
  intros m2 K2 Hs2 Hq2 Hk2 _ Hl2 Ho2 Hub.
  assert (cur (ks K2) = cur (ks K)) as Hc2 by (rewrite Hk2, Hk1; apply wake_cur).
  assert (lock_ready K2 console_lock (cur (ks K)) (lock_count K h n - 1)) as Hr2.
  { destruct Hl1 as (H1 & H2 & _). split; [by rewrite Hl2 |]. split; [done |]. by left. }
  assert (u8 (s8 b) = b) as Hb by (unfold u8, s8, is_u8 in *; zlia).
  eapply wp_console_put_char; [exact Hs2 | exact Hr2 | unfold lock_count; case_match; lia | |];
    match goal with |- can_print (cursor ?s1) _ = _ -> _ => assert (cursor s1 = cursor_after (cursor s) l) as ->
      by (apply (cursor_put_out l s)) end; rewrite Hb.
  2: { intros Hc. apply HF. by rewrite Hcp1, Hc. }
  intros Hcp3 m3 K3 Hs3 Hk3 Hd3 Ho3 Hl3 _. rewrite Hc2 in Hl3.
  apply wp_bind, wp_intr_set_status, wp_ret. set (s3 := put_out [b] _) in *.
  assert (set_if (kif s) s3 = put_out (b :: rev l) (set_mem m3 s)) as Hst by (by destruct s).
  rewrite Hst. apply (HQ m3 K3); [| | | by rewrite Ho3, Ho2, Ho1 | | by rewrite Hcp1, Hcp3].
  - rewrite <- Hst. by apply sys_if.
  - destruct Hq2. split; by rewrite ?Ho3, ?Hd3.
  - by rewrite Hk3, Hk2, Hk1.
  - destruct Hl3 as (-> & _). do 2 f_equal. unfold lock_count. rewrite Hc2, Z.eqb_refl. lia.
Qed.

(** And without: nothing happens. *)
Lemma wp_echo_idle G s R K p pr c (Q : unit -> kstate M -> Prop) :
  sys R s K -> ioq K kbd_buf [] pr c -> Q tt s -> wp G (echo_round p) s Q.
Proof.
  intros Hs Hq HQ. unfold echo_round. apply wp_bind, wp_intr_disable.
  apply wp_bind. eapply wp_ioq_empty; [apply sys_if, Hs | exact Hq | done |]. rewrite bool_decide_true by done.
  apply wp_bind, wp_ret, wp_bind, wp_intr_set_status, wp_ret. by destruct s.
Qed.
End echo.

(** ** Properties *)

Section properties.
Context {M : Type} {RM : RawMem M} {RL : RawMemLaws M} {LY : Layout}.
Implicit Types (s : kstate M) (R : Z -> Prop) (K : ksys).

(** C28. A round of [k_thread_a] or [k_thread_b] with a byte in the keyboard's
    buffer prints the thread's argument and that byte, which leaves the buffer,
    and wakes the writer that waits; the interrupt flag is what it was, and the
    console's lock stays in the thread's name; where a backspace among these
    characters meets the cursor in the first cell, the round ends in a fault.
    Without a byte the round leaves the machine exactly as it was. *)
Theorem echo_round_prints s R K h n p l cs pr c :
  sys R s K -> ioq K kbd_buf cs pr c -> waiter_ok (ks K) pr ->
  lock_ready K console_lock h n -> 0 <= n ->
  inside (own K) p (len l + 1) -> cstr (data K) p l -> len l < 2 ^ 32 ->
  match cs with
  | [] => echo_round p s = Done tt s
  | b :: cs' =>
      if can_print (cursor s) (l ++ [b])
      then exists m K', let s' := put_out (b :: rev l) (set_mem m s) in
        echo_round p s = Done tt s' /\ sys R s' K' /\ ioq K' kbd_buf cs' 0 c /\
        ks K' = wake pr (ks K) /\ own K' = own K /\
        locks K' !! console_lock = Some (cur (ks K), lock_count K h n - 1)
      else exists s', echo_round p s = Fault s'
  end.
Proof.
  intros Hs Hq Hw Hl Hn Hi Hstr Hlen. destruct cs as [| b cs].
  - apply returns_wp. intros Q HQ. by eapply wp_echo_idle.
  - destruct (can_print (cursor s) (l ++ [b])) eqn:Hcp.
    2: { apply faults_wp. intros G Q HF. eapply wp_echo_round; [done .. | |]; [congruence | intros _; apply HF]. }
    destruct (proj1 (wp_seq_only (echo_round p) s (fun _ s' => exists m K', s' = put_out (b :: rev l) (set_mem m s) /\
      sys R s' K' /\ ioq K' kbd_buf cs 0 c /\ ks K' = wake pr (ks K) /\ own K' = own K /\
      locks K' !! console_lock = Some (cur (ks K), lock_count K h n - 1))))
      as ([] & s' & Hc & m & K' & -> & Hrest); [| by exists m, K'].
    eapply wp_echo_round; [done ..| |]; [| congruence]. intros m K' s' H1 H2 H3 H4 H5 _. by exists m, K'.
Qed.

(** C11. [console_put_str], when the lock of the console can be had, makes the
    characters of the string appear on the screen from the cursor on, in their
    order and in light grey, with every other cell as it was and the cursor
    behind them, if the string holds no control characters and fits above the
    end of the screen. *)
Theorem console_str_on_screen s R K h n p l (v0 : screen) sc t :
  sys R s K -> lock_ready K console_lock h n -> 0 <= n ->
  inside (own K) p (len l + 1) -> cstr (data K) p l ->
  screen_of v0 s = Some sc -> shows sc t -> Forall plain l -> pos t + len l < cells_nr ->
  exists s' sc', console_put_str p s = Done tt s' /\ screen_of v0 s' = Some sc' /\ shows sc' (typeset l t).
Proof.
  intros Hs Hl Hn Hi Hstr Hsc Hsh Hpl Hfit.
  destruct (put_chars_typeset l sc t Hsh Hpl Hfit) as (sc' & Hput & Hsh' & _).
  assert (can_print (cursor s) l = true) as Hcp.
  { apply can_print_all. eapply Forall_impl; [exact Hpl | by intros c (_ & ? & _)]. }
  destruct (proj1 (wp_seq_only (console_put_str p) s (fun _ s' => exists m, s' = put_out (rev l) (set_mem m s))))
    as ([] & s' & Hc & m & ->).
  - eapply wp_console_put_str; [exact Hs | exact Hl | exact Hn | exact Hi | exact Hstr | | |].
    + pose proof (sh_pos _ _ Hsh). unfold cells_nr in *. lia.
    + intros _ m K' _ _ _ _ _ _. by exists m.
    + congruence.
  - exists (put_out (rev l) (set_mem m s)), sc'. split; [exact Hc |]. split; [| exact Hsh'].
    rewrite screen_of_put_out. change (screen_of v0 (set_mem m s)) with (screen_of v0 s). by rewrite Hsc.
Qed.
End properties.

(** The main thread runs the loop of [k_thread_a]; an 'a' has been typed. *)
Module examples.
#[local] Existing Instance demo_layout.
Import Thread.examples.

Definition qs : qmap := [(thread_ready_list, [t2]); (Sync.waiters (semaphore console_lock), [])].
Definition ss : smap := [(semaphore console_lock, 1)].
Definition ls : lmap := [(console_lock, (0, 0))].
Definition argA : list Z := bytes_of "argA".
Definition mem : flat :=
  flat_of (sched_words qs ts ++ [(semaphore console_lock, 1);
    (buf kbd_buf, 97 * 2 ^ 24); (head_ kbd_buf, 4); (tail_ kbd_buf, 3); (0xc0008600, 0x41677261); (0xc0008604, 0)]).
Definition own_spans : list (Z * Z) := [(kbd_buf + 28, 80); (0xc0008600, 5)].
Definition st : kstate flat := machine_of mem.
Definition K : ksys := with_own (spans own_spans) (flat_at mem) (ksys_of (sched_of 0xc009eff0 qs ts) ss ls).

Lemma echo_sys : sys is_u32 st K.
Proof.
  split.
  - exists (flat_at mem). split; [apply flat_backs |]. apply owns_spec; by vm_compute.
  - done.
  - apply wfb_spec. by vm_compute.
  - exists v1. split; by vm_compute.
Qed.

Lemma echo_round_prints_witness : exists m K',
  echo_round 0xc0008600 st = Done tt (put_out (97 :: rev argA) (set_mem m st)) /\ ioq K' kbd_buf [] 0 0.
Proof.
  destruct (echo_round_prints st is_u32 K 0 0 0xc0008600 argA [97] 0 0) as (m & K' & Hc & _ & Hq & _).
  - apply echo_sys.
  - split; [by apply (spans_inside own_spans) | apply Ioqueue.examples.ringb_spec; by vm_compute].
  - by left.
  - split; [done |]. split; [done |]. right. split; [done |]. split; [by vm_compute | done].
  - done.
  - apply (spans_inside own_spans). by vm_compute.
  - repeat split; vm_compute; congruence.
  - by vm_compute.
  - exists m, K'. split; [exact Hc | exact Hq].
Defined.

Lemma console_str_on_screen_witness : exists s' sc', console_put_str 0xc0008600 st = Done tt s' /\
  screen_of (Screen.examples.blank_screen 160) s' = Some sc' /\
  shows sc' (typeset argA (Screen.examples.blank_term 160)).
Proof.
  eapply (console_str_on_screen st is_u32 K 0 0 0xc0008600 argA).
  - apply echo_sys.
  - split; [done |]. split; [done |]. right. split; [done |]. split; [by vm_compute | done].
  - done.
  - apply (spans_inside own_spans). by vm_compute.
  - repeat split; vm_compute; congruence.
  - reflexivity.
  - by apply Screen.examples.blank_shows.
  - repeat constructor; done.
  - by vm_compute.
Defined.
End examples.
