(* ===== verification/Process.v ===== *)
(** userprog/process.c: user processes.  The page directory of a process, the
    switch to it, and the frame it starts from. *)

From S2P Require Import Prelude Monad RawMem Machine CString Bitmap DList Thread Sync Ioqueue Global Tss.
From S2P Require Import Timer Console Paging Memory Mapping KHeap PoolInit Task Entry Spawn.

Definition default_prip : Z := 31.
(** The constant has one zero less than 3 GB has. *)
Definition USER_STACK3_VADDR : Z := 0xc000000 - PAGE1.
Definition USER_VADDR_START : Z := 0x8048000.

Section code.
Context {M : Type} {RM : RawMem M} {MM : Mmu M} {LY : Layout}.

(** [self_kstack] is a pointer to words.  Chained assignments go from right to
    left.  The frame is not one the processor made, so that it matters what
    iret checks. *)
Definition start_process (filename_ : Z) : K (M := M) context :=
  let function := filename_ in
  do cur <- running_thread;
  do k <- ld32 (self_kstack cur); st32 (self_kstack cur) (u32 (k + 4 * thread_stack_size));;
  do proc_stack <- ld32 (self_kstack cur);
  st32 (esp_dummy proc_stack) 0;; st32 (ebp_ proc_stack) 0;; st32 (esi_ proc_stack) 0;; st32 (edi_ proc_stack) 0;;
  st32 (eax_ proc_stack) 0;; st32 (ecx_ proc_stack) 0;; st32 (edx_ proc_stack) 0;; st32 (ebx_ proc_stack) 0;;
  st32 (gs_ proc_stack) 0;;
  st32 (fs_ proc_stack) SELECTOR_U_DATA;; st32 (es_ proc_stack) SELECTOR_U_DATA;;
  st32 (ds_ proc_stack) SELECTOR_U_DATA;;
  st32 (eip_ proc_stack) function;;
  st32 (cs_ proc_stack) SELECTOR_U_CODE;;
  st32 (eflags_ proc_stack) (lor3 EFLAGS_IOPL_0 EFLAGS_MBS EFLAGS_IF_1);;
  do page <- get_a_page PF_USER USER_STACK3_VADDR; st32 (esp_ proc_stack) (u32 (page + PG_SIZE));;
  st32 (ss_ proc_stack) SELECTOR_U_DATA;;
  do c <- intr_exit proc_stack; iret_checks c.

Definition page_dir_activate (p_thread : Z) : K (M := M) unit :=
  do dir <- ld32 (pgdir p_thread);
  do pagedir_phy_addr <- (if negb (dir =? 0) then do dir <- ld32 (pgdir p_thread); addr_v2p dir else cret 0x100000);
  modify (fun s => set_mem (set_cr3 pagedir_phy_addr (kmem s)) s).

Definition process_activate (p_thread : Z) : K (M := M) unit :=
  ASSERT "userprog/process.c" 53 "process_activate" "p_thread" (negb (p_thread =? 0));;
  page_dir_activate p_thread;;
  do dir <- ld32 (pgdir p_thread);
  when negb (dir =? 0) then update_tss_esp p_thread.

Definition create_page_dir : K (M := M) Z :=
  do page_dir_vaddr <- get_kernel_pages 1;
  if page_dir_vaddr =? 0 then
    console_put_str (lit ("create_page_dir: get_kernel_pages failed!" ++ nl));; cret 0
  else
    memcpy (u32 (page_dir_vaddr + 0x300 * 4)) (0xfffff000 + 0x300 * 4) 1024;;
    do new_page_dir_phy_addr <- addr_v2p page_dir_vaddr;
    st32 (page_dir_vaddr + 4 * 1023) (entry_for new_page_dir_phy_addr);;
    cret page_dir_vaddr.

Definition create_user_vaddr_bitmap (user_prog : Z) : K (M := M) unit :=
  let va := userprog_vaddr user_prog in
  st32 (vaddr_start va) USER_VADDR_START;;
  let bytes_len := (0xc0000000 - USER_VADDR_START) / PG_SIZE / 8 in
  let bitmap_pg_cnt := DIV_ROUND_UP bytes_len PG_SIZE in
  do pages <- get_kernel_pages bitmap_pg_cnt;
  st32 (vaddr_bitmap va + 4) pages;;
  st32 (vaddr_bitmap va) bytes_len;;
  bitmap_init (vaddr_bitmap va).

Definition process_execute (filename name_ : Z) : K (M := M) unit :=
  do thread <- get_kernel_pages 1;
  console_put_str (lit "create user thread: name=");;
  console_put_str name_;;
  console_put_int thread;;
  console_put_str (lit nl);;
  init_thread thread name_ default_prip;;
  create_user_vaddr_bitmap thread;;
  thread_create thread (fn "start_process") filename;;
  do dir <- create_page_dir; st32 (pgdir thread) dir;;
  do old_status <- intr_disable;
  enlist "userprog/process.c" 112 115 "process_execute" thread;;
  intr_set_status old_status;;
  console_put_str (lit ("process_execute end" ++ nl)).
End code.

(** ** The directory of a process *)

Section directory.
Context {LY : Layout}.
Implicit Types (s : kstate paged) (m : paged) (R F : Z -> Prop) (f : Z -> Z) (G : protocol (kstate paged))
  (h : heap_maps).

(** Copying from bytes that are none of the region's, and keep the contents [g]. *)
Lemma wp_memcpy_from {RL : RawMemLaws paged} G s R f dst src size g (Q : unit -> kstate paged -> Prop) :
  backs (kmem s) R f -> inside R dst size -> dst <> 0 -> src <> 0 -> is_u32 size ->
  (forall m f' k, backs m R f' -> 0 <= k < size -> ldb m (src + k) = Some (g k)) ->
  (forall k, 0 <= k < size -> is_u8 (g k)) ->
  (forall m f', backs m R f' -> (forall k, 0 <= k < size -> f' (dst + k) = g k) ->
     (forall b, ~ span dst size b -> f' b = f b) -> Q tt (set_mem m s)) ->
  wp G (memcpy dst src size) s Q.
Proof.
  intros Hb Hi Hd Hs Hsz Hg Hg8 HQ. unfold memcpy.
  apply wp_bind, wp_assert; [lia |]. apply wp_bind, wp_assert; [lia |].
  eapply (wp_while _ _ (fun n '(pd, ps, sz) s' => exists k m f', n = Z.to_nat sz /\ 0 <= k <= size /\
    pd = dst + k /\ ps = src + k /\ sz = size - k /\ s' = set_mem m s /\ backs m R f' /\
    (forall j, 0 <= j < k -> f' (dst + j) = g j) /\ (forall b, ~ span dst k b -> f' b = f b)) _ (Z.to_nat size)).
  - intros n [[pd ps] sz] s' (k & m & f' & -> & Hk & -> & -> & -> & -> & Hm & Hin & Hout).
    destruct (Z.ltb_spec 0 (size - k)) as [Hlt | Hge].
    + apply wp_bind. eapply wp_ld8_at; [apply (Hg m f'); [exact Hm | lia] |].
      apply wp_bind. eapply wp_st8; [exact Hm | apply Hi; unfold span; lia |]. intros m' Hm'. apply wp_ret.
      exists (Z.to_nat (size - k - 1)). split; [lia |].
      exists (k + 1), m', (upd f' (dst + k) (u8 (g k))). rewrite u8_small in * by (apply Hg8; lia).
      do 5 (split; [lia |]). split; [done |]. split; [done |]. split.
      * intros j Hj. destruct (Z.eq_dec j k) as [-> |]; [by rewrite upd_eq |]. rewrite upd_ne by lia. apply Hin. lia.
      * intros b Hbb. unfold span in Hbb. rewrite upd_ne by lia. apply Hout. unfold span. lia.
    + assert (k = size) as -> by lia. apply wp_ret. by apply (HQ m f').
  - exists 0, (kmem s), f. split; [f_equal; lia |]. unfold is_u32 in Hsz. do 4 (split; [lia |]).
    split; [by destruct s |]. split; [done |]. split; [lia | done].
  - unfold is_u32 in Hsz. bounded.
Qed.

(** The words of a mapped page, where they are in physical memory. *)
Lemma page_words m R f F a : vspace m R f F -> inside R a 4096 -> a mod 4096 = 0 ->
  exists q, virt m a = Some q /\ q mod 4096 = 0 /\ is_u32 q /\
    forall i, 0 <= i < 1024 -> w32 (pbyte m) (q + 4 * i) = w32 f (a + 4 * i).
Proof.
  intros Hvs Hi Ha. destruct (vs_region _ _ _ _ Hvs a ltac:(apply Hi; unfold span; lia)) as (q & Hv & _).
  pose proof Hv as (Hu & Hd & Hp & Hq)%translate_Some.
  assert (page_off a = 0) as Ho by done. rewrite Ho, Z.add_0_r in Hq.
  assert (is_u32 (pte (pbyte m) (cr3 m) a)) as He by (apply w32_range; intros b _; apply pbyte_u8).
  exists q. split; [done |]. split; [subst q; apply frame_aligned |]. split; [subst q; unfold frame, is_u32 in *; zlia |].
  intros i Hi'. apply w32_shift. intros k Hk.
  destruct (vs_region _ _ _ _ Hvs (a + 4 * i + k) ltac:(apply Hi; unfold span; lia)) as (q' & Hv' & -> & _).
  assert (virt m (a + (4 * i + k)) = Some (q + (4 * i + k))) as Hv2 by (apply translate_page; [lia | lia | done]).
  rewrite Z.add_assoc, Hv' in Hv2. injection Hv2 as ->. f_equal. lia.
Qed.

(** The directory at [c] translates the kernel's addresses as the present one
    does, and nothing below 3 GB. *)
Record shares_kernel (m : paged) (c : Z) : Prop := mk_shares_kernel {
  sk_aligned : c mod 4096 = 0 /\ is_u32 c;
  sk_self : self_mapped (pbyte m) c;
  sk_entry i : 768 <= i < 1023 -> pde (pbyte m) c i = pde (pbyte m) (cr3 m) i;
  sk_kernel v : is_u32 v -> 768 <= dir_idx v < 1023 -> translate (pbyte m) c v = virt m v;
  sk_user i : 0 <= i < 768 -> present (pde (pbyte m) c i) = false }.

Lemma shares_intro m c : c mod 4096 = 0 -> is_u32 c -> pde (pbyte m) c 1023 = entry_for c ->
  (forall i, 768 <= i < 1023 -> pde (pbyte m) c i = pde (pbyte m) (cr3 m) i) ->
  (forall i, 0 <= i < 768 -> pde (pbyte m) c i = 0) -> shares_kernel m c.
Proof.
  intros Hc Hu Hself Hk Hz. destruct (entry_for_spec c Hc Hu) as (Hf & Hp & _). split; [done | | done | |].
  - unfold self_mapped. rewrite Hself, Hf. split; [done |]. unfold frame. zlia.
  - intros v Hv Hd. unfold virt, translate, pte, pte_at. by rewrite Hk.
  - intros i Hi. by rewrite Hz.
Qed.

(** Bytes of the tables are not the region's. *)
Lemma table_outside m R f F b : vspace m R f F -> is_table (pbyte m) (cr3 m) (frame b) -> outside m R b.
Proof.
  intros Hvs Hb a Ha Hv. destruct (vs_region _ _ _ _ Hvs a Ha) as (pa & Hv' & _ & Ht & _).
  rewrite Hv in Hv'. by injection Hv' as <-.
Qed.

(** What the code reads above 0xfffffc00: the directory's upper entries. *)
Lemma read_upper m m' R f f' F k : vspace m R f F ->
  mapped_keeping (cr3 m) (outside m R) (pbyte m) m' R f' -> 0 <= k < 1024 ->
  ldb m' (0xfffff000 + 0x300 * 4 + k) = Some (pbyte m (frame (cr3 m) + 3072 + k)).
Proof.
  intros Hvs Hm' Hk. destruct (vspace_after _ _ _ _ Hvs m' f' Hm') as [_ Hum].
  pose proof (vm_self _ _ _ (vs_vm _ _ _ _ Hvs)) as Hself.
  destruct (pde_view_spec _ _ 0 Hself ltac:(done)) as (Hv & _).
  assert (virt m (0xfffff000 + (3072 + k)) = Some (frame (cr3 m) + (3072 + k))) as Hv2.
  { apply translate_page; [zlia | lia |]. by rewrite <- (Z.add_0_r (frame _)). }
  unfold ldb, paged_mem. rewrite (um_virt _ _ _ Hum). replace (0xfffff000 + 0x300 * 4 + k) with (0xfffff000 + (3072 + k)) by lia.
  rewrite Hv2. cbn. f_equal. rewrite Z.add_assoc. apply (um_out _ _ _ Hum). eapply table_outside; [exact Hvs |]. left.
  rewrite <- Z.add_assoc. apply frame_frame. lia.
Qed.

(** Filling a page of zeros. *)
Lemma wp_fill_dir G s R f F a (Q : Z -> kstate paged -> Prop) :
  vspace (kmem s) R f F -> inside R a 4096 -> a mod 4096 = 0 -> 0 < a -> a + 4096 < 4294967296 ->
  (forall b, span a 4096 b -> f b = 0) ->
  (forall m f' c, vspace m R f' F -> unmoved (kmem s) m R -> virt m a = Some c -> shares_kernel m c ->
     (forall b, ~ span a 4096 b -> f' b = f b) -> Q a (set_mem m s)) ->
  wp G (memcpy (u32 (a + 0x300 * 4)) (0xfffff000 + 0x300 * 4) 1024;;
        do new_page_dir_phy_addr <- addr_v2p a;
        st32 (a + 4 * 1023) (entry_for new_page_dir_phy_addr);; cret a) s Q.
Proof.
  intros Hvs Hi Ha Ha0 Hau Hz HQ. set (m := kmem s) in *.
  assert (u32 (a + 0x300 * 4) = a + 3072) as -> by (rewrite u32_small; unfold is_u32; lia).
  set (RL := keeping_laws (cr3 m) (outside m R) (pbyte m)).
  apply wp_bind. eapply (@wp_memcpy_from RL _ _ R f _ _ _ (fun k => pbyte m (frame (cr3 m) + 3072 + k)));
    [by apply (vspace_keeping _ _ _ _ Hvs) | intros b Hb; apply Hi; unfold span in *; lia | lia | done | done | | |].
  { intros m' f' k Hm' Hk. exact (read_upper _ _ _ _ _ _ _ Hvs Hm' Hk). }
  { intros k _. exact (pbyte_u8 _ _). }
  intros m1 f1 H1 Hin1 Hout1. destruct (vspace_after _ _ _ _ Hvs m1 f1 H1) as [Hvs1 Hum1].
  destruct (page_words _ _ _ _ _ Hvs1 Hi Ha) as (c & Hc & Hc4 & Hcu & _).
  apply wp_bind. eapply (wp_addr_v2p _ (set_mem m1 s) _ c);
    [apply (vm_self _ _ _ (vs_vm _ _ _ _ Hvs1)) | exact Hc |].
  destruct (entry_for_spec c Hc4 Hcu) as (_ & _ & Heu).
  apply wp_bind. eapply (@wp_st32 paged _ RL); [exact H1 | intros b Hb; apply Hi; unfold span in *; lia |].
  intros m2 H2. apply wp_ret. change (set_mem m2 (set_mem m1 s)) with (set_mem m2 s).
  destruct (vspace_after _ _ _ _ Hvs m2 _ H2) as [Hvs2 Hum2].
  destruct (page_words _ _ _ _ _ Hvs2 Hi Ha) as (c' & Hc' & _ & _ & Hw).
  assert (c' = c) as ->.
  { rewrite (um_virt _ _ _ Hum2), <- (um_virt _ _ _ Hum1), Hc in Hc'. by injection Hc'. }
  apply (HQ m2 _ c Hvs2 Hum2 Hc').
  - assert (frame c = c) as Hfc by (unfold frame; zlia). assert (is_u32 (cr3 m)) as _ by apply (vm_cr3 _ _ _ (vs_vm _ _ _ _ Hvs)).
    apply shares_intro; [done | done | ..]; unfold pde at 1, pde_at; rewrite Hfc.
    + rewrite Hw by lia. by rewrite w32_upd32_eq.
    + intros i Hi'. rewrite Hw, w32_upd32_ne by lia. rewrite (um_cr3 _ _ _ Hum2), (um_pde _ _ _ Hum2) by lia.
      apply w32_shift. intros k Hk. unfold pde_at. replace (a + 4 * i + k) with (a + 3072 + (4 * i + k - 3072)) by lia.
      rewrite Hin1 by lia. f_equal. lia.
    + intros i Hi'. rewrite Hw, w32_upd32_ne by lia. rewrite (w32_ext f1 (fun _ => 0)); [reflexivity |].
      intros b Hb. rewrite Hout1 by (unfold span in *; lia). apply Hz. unfold span in *. lia.
  - intros b Hb. unfold span in Hb. rewrite upd32_ne by lia. apply Hout1. unfold span. lia.
Qed.

(** What [create_page_dir] leaves. *)
Record directory_made s R f F h (a c : Z) (l : list Z) (m : paged) (f' : Z -> Z) (R' := with_span R a 4096) : Prop :=
  mk_directory_made {
  dm_page : a <> 0 /\ a mod 4096 = 0;
  dm_disjoint b : R b -> ~ span a 4096 b;
  dm_mapped : virt m a = Some c;
  dm_shares : shares_kernel m c;
  dm_heap : heap_space m R' f' (fun p => F p /\ p ∉ l) h;
  dm_data b : R b -> ~ span (kb h) (kn h) b -> ~ span (vb h) (vn h) b -> f' b = f b;
  dm_virt b pa : virt (kmem s) b = Some pa -> virt m b = Some pa }.

Lemma wp_create_page_dir G s R f F h (Q : Z -> kstate paged -> Prop) :
  heap_space (kmem s) R f F h -> room f h 1 -> enough f (kb h) (kn h) 1 ->
  (forall a c l m f', directory_made s R f F h a c l m f' -> Q a (set_mem m s)) ->
  wp G create_page_dir s Q.
Proof.
  intros Hhs Hroom Hen HQ. unfold create_page_dir. apply wp_bind.
  eapply (wp_get_kernel_pages _ _ _ _ _ h 1); [exact Hhs | done | exact Hroom | done |].
  intros r l m1 f1 m2 f2 Hal a R' Hhs2 [Hold Hnew] Hum.
  destruct (region_grown _ _ _ _ _ _ _ _ _ _ Hhs Hal) as (Hdisj & _). fold a in Hdisj.
  pose proof (al_first _ _ _ _ _ _ _ _ _ _ Hal) as (Hr & Hend & _).
  pose proof (hs_heap _ _ _ _ _ Hhs) as Hh. pose proof (hp_range _ _ _ Hh) as Hrange.
  destruct (heap_page_range _ _ _ r Hh) as (_ & Ha & _ & Hpos); [lia |]. fold a in Ha, Hpos.
  rewrite (proj2 (Z.eqb_neq a 0)) by lia. change (4096 * 1) with 4096 in *.
  eapply (wp_fill_dir _ (set_mem m2 s) R' f2); [apply (hs_vspace _ _ _ _ _ Hhs2) | intros b Hb; by right | exact Ha | lia | | exact Hnew |].
  { unfold a, heap_page in *. lia. }
  intros m f' c Hvs Hum' Hc Hsh Hout. change (kmem (set_mem m2 s)) with m2 in Hum'.
  apply (HQ a c l m f'). split; [split; [lia | done] | exact Hdisj | exact Hc | exact Hsh | | |].
  - eapply heap_space_after; [exact Hhs2 | done | | exact Hvs | exact Hum'].
    intros b Hb. apply Hout, Hdisj. by eapply heap_bytes_inside.
  - intros b Hb H1 H2. rewrite Hout by (by apply Hdisj). rewrite Hold by done. by apply (al_out _ _ _ _ _ _ _ _ _ _ Hal).
  - intros b pa Hv. rewrite (um_virt _ _ _ Hum'), (um_virt _ _ _ Hum).
    by apply (rg_ext _ _ _ _ _ (al_run _ _ _ _ _ _ _ _ _ _ Hal)).
Qed.

(** The address space of the process satisfies the invariant for the kernel's
    memory [R], to which the directory's page at [a] does not belong. *)
Lemma shares_vspace m R f F a c : vspace m (with_span R a 4096) f F -> (forall b, R b -> ~ span a 4096 b) ->
  (forall b, R b -> is_u32 b /\ 768 <= dir_idx b < 1023) -> a mod 4096 = 0 -> virt m a = Some c ->
  shares_kernel m c -> vspace (set_cr3 c m) R f F.
Proof.
  intros Hvs Hdisj HR Ha Hc [[Hc4 Hcu] [Hs1 Hs2] He Hk Hz]. pose proof Hvs as [Hvm Hreg].
  assert (frame c = c) as Hfc by (unfold frame; zlia).
  assert (with_span R a 4096 a) as HaR by (right; unfold span; lia).
  destruct (Hreg a HaR) as (c0 & Hc0 & _ & Hnt & _). rewrite Hc in Hc0. injection Hc0 as <-. rewrite Hfc in Hnt.
  assert (forall i, 0 <= i < 1023 -> present (pde (pbyte m) c i) = true -> 768 <= i) as Hlow.
  { intros i Hi Hp. destruct (Z.lt_ge_cases i 768); [| done]. rewrite Hz in Hp by lia. done. }
  assert (forall p, is_table (pbyte m) c p -> p = c \/ is_table (pbyte m) (cr3 m) p) as Htab.
  { intros p [-> | (i & Hi & Hp & <-)]; [by left |]. destruct (Z.eq_dec i 1023) as [-> | Hne]; [left; by rewrite Hs2 |].
    pose proof (Hlow i ltac:(lia) Hp). right. right. exists i. rewrite <- He by lia. done. }
  split.
  - change (cr3 (set_cr3 c m)) with c. change (pbyte (set_cr3 c m)) with (pbyte m).
    destruct Hvm as [V1 V2 V3 V4 V5 V6 V7 V8]. split; try done.
    + intros i Hi Hp Heq. pose proof (Hlow i Hi Hp). rewrite Hfc, He in * by lia.
      apply Hnt. right. exists i. split; [lia |]. by split.
    + intros i j Hi Hj Hpi Hpj. pose proof (Hlow i ltac:(lia) Hpi). pose proof (Hlow j ltac:(lia) Hpj).
      rewrite !He in * by lia. apply V5; [lia | lia | done ..].
    + intros p Hp [-> | Ht]%Htab; [| by apply (V7 p)]. apply (V8 c a c Hp); [exact Hc | done].
    + intros p v pa Hp Ht Hf. pose proof Ht as (Hu & Hd & Hpt & Hpa)%translate_Some.
      destruct (Z.eq_dec (dir_idx v) 1023) as [He3 | Hne].
      * apply (V7 p Hp). assert (pte_at (pbyte m) c v = pde_at c (tab_idx v)) as Hat
          by (unfold pte_at; by rewrite He3, Hs2).
        unfold pte in Hpt, Hpa. rewrite Hat in Hpt, Hpa. change (w32 (pbyte m) (pde_at c (tab_idx v))) with (pde (pbyte m) c (tab_idx v)) in *.
        rewrite Hpa, frame_frame in Hf by apply page_off_range. pose proof (tab_idx_range v).
        destruct (Htab p) as [-> | Ht']; [right; by exists (tab_idx v) | | done]. exfalso.
        apply (V8 c a c Hp); [exact Hc | done].
      * pose proof (dir_idx_range v Hu). pose proof (Hlow (dir_idx v) ltac:(lia) Hd).
        rewrite Hk in Ht by (done || lia). by apply (V8 p v pa Hp).
  - intros b Hb. destruct (HR b Hb) as [Hbu Hbd].
    destruct (Hreg b (or_introl Hb)) as (pa & Hv & Hfb & Hntb & Hinj). exists pa.
    assert (forall v, R v -> virt (set_cr3 c m) v = virt m v) as Hvirt by (intros v Hvr; apply Hk; apply HR, Hvr).
    rewrite Hvirt by done. split; [done |]. split; [done |]. split.
    + intros [Heq | Ht]%Htab; [| done].
      assert (virt m (a + page_off pa) = Some pa) as Hv2.
      { pose proof (page_off_range pa). transitivity (Some (c + page_off pa)); [apply translate_page; [lia | lia | done] |].
        by rewrite <- Heq, <- frame_off. }
      pose proof (page_off_range pa). apply (Hdisj b Hb).
      rewrite <- (Hinj (a + page_off pa)); [unfold span; lia | right; unfold span; lia | done].
    + intros v Hvr. rewrite Hvirt by done. apply Hinj. by left.
Qed.
End directory.

(** ** Properties *)

Section properties.
Context {LY : Layout}.
Implicit Types (s : kstate paged) (m : paged) (R F : Z -> Prop) (f : Z -> Z) (h : heap_maps).

(** C25. [create_page_dir] returns a page from the kernel's heap that is a page
    directory: under it every kernel address from 3 GB to the last 4 MB is
    translated as it is now, the last entry leads to the directory itself, and
    no address below 3 GB is mapped.  What was mapped stays mapped, memory
    outside the bitmaps keeps its contents and the heap's invariant holds. *)
Theorem create_page_dir_shares s R f F h :
  heap_space (kmem s) R f F h -> room f h 1 -> enough f (kb h) (kn h) 1 ->
  exists a c l m f', create_page_dir s = Done a (set_mem m s) /\ directory_made s R f F h a c l m f'.
Proof.
  intros Hhs Hroom Hen.
  destruct (proj1 (wp_seq_only create_page_dir s (fun a s' => exists c l m f', s' = set_mem m s /\
    directory_made s R f F h a c l m f'))) as (a & s' & Hc & c & l & m & f' & -> & Hd); [| by exists a, c, l, m, f'].
  eapply wp_create_page_dir; try done. intros a c l m f' Hd. by exists c, l, m, f'.
Qed.

(** C34. [process_activate].  For a process whose page directory shares the
    kernel's half, the address space becomes that of the directory, the
    kernel's memory [R] has the contents it had, except that the task state
    segment has the top of the thread's page as the stack for interrupts, and
    the invariant of the address space holds.  For a thread without a directory
    it becomes the space of the kernel's directory at 1 MB, and memory is not
    written. *)
Theorem process_activate_switches s R f F t : t <> 0 -> t + 4096 < 4294967296 ->
  inside R t 72 -> inside R tss tss_size -> (forall b, R b -> is_u32 b /\ 768 <= dir_idx b < 1023) ->
  (forall a c, w32 f (pgdir t) = a -> a <> 0 -> a mod 4096 = 0 -> (forall b, R b -> ~ span a 4096 b) ->
     vspace (kmem s) (with_span R a 4096) f F -> virt (kmem s) a = Some c -> shares_kernel (kmem s) c ->
     exists m, process_activate t s = Done tt (set_mem m s) /\ cr3 m = c /\
       vspace m R (upd32 f (tss_esp0 tss) (t + 4096)) F) /\
  (w32 f (pgdir t) = 0 -> vspace (kmem s) R f F -> vspace (set_cr3 0x100000 (kmem s)) R f F ->
     process_activate t s = Done tt (set_mem (set_cr3 0x100000 (kmem s)) s)).
Proof.
  intros Ht0 Htu Hi Htss HR.
  assert (inside R (pgdir t) 4) as Hp by (intros b Hb; apply Hi; unfold pgdir, span in *; lia).
  split.
  - intros a c Ha Ha0 Ha4 Hdisj Hvs Hc Hsh. set (m1 := set_cr3 c (kmem s)).
    pose proof (shares_vspace _ _ _ _ _ _ Hvs Hdisj HR Ha4 Hc Hsh) as Hvs1. fold m1 in Hvs1.
    pose proof (vspace_mapped _ _ _ _ Hvs) as Hb.
    assert (inside (with_span R a 4096) (pgdir t) 4) as Hp' by (intros b Hbb; left; by apply Hp).
    set (RL := keeping_laws c (outside m1 R) (pbyte m1)).
    destruct (proj1 (wp_seq_only (process_activate t) s (fun _ s' => exists m, s' = set_mem m s /\ cr3 m = c /\
      vspace m R (upd32 f (tss_esp0 tss) (t + 4096)) F))) as ([] & s' & Hd & m & -> & Hm); [| by exists m].
    unfold process_activate, page_dir_activate. apply wp_bind, wp_assert; [lia |].
    apply wp_bind, wp_bind. eapply (@wp_ld32 paged _ paged_laws); [exact Hb | exact Hp' |]. rewrite Ha. intros _.
    rewrite (proj2 (Z.eqb_neq a 0)) by done. cbn [negb]. apply wp_bind, wp_bind.
    eapply (@wp_ld32 paged _ paged_laws); [exact Hb | exact Hp' |]. rewrite Ha. intros _.
    eapply wp_addr_v2p; [apply (vm_self _ _ _ (vs_vm _ _ _ _ Hvs)) | exact Hc |]. apply wp_modify. fold m1.
    pose proof (vspace_keeping _ _ _ _ Hvs1) as Hb1.
    apply wp_bind. eapply (@wp_ld32 paged _ RL); [exact Hb1 | exact Hp |]. rewrite Ha. intros _.
    rewrite (proj2 (Z.eqb_neq a 0)) by done. cbn [negb]. unfold update_tss_esp. rewrite PG_SIZE_eq.
    eapply (@wp_st32 paged _ RL); [exact Hb1 | intros b Hbb; apply Htss; unfold tss_esp0, tss_size, span in *; lia |].
    intros m Hm. destruct (vspace_after _ _ _ _ Hvs1 m _ Hm) as [Hvs2 Hum]. exists m. split; [done |].
    split; [apply (um_cr3 _ _ _ Hum) | exact Hvs2].
  - intros Ha Hvs Hvs1.
    destruct (proj1 (wp_seq_only (process_activate t) s (fun _ s' => s' = set_mem (set_cr3 0x100000 (kmem s)) s)))
      as ([] & s' & Hd & ->); [| done].
    unfold process_activate, page_dir_activate. apply wp_bind, wp_assert; [lia |].
    apply wp_bind, wp_bind. eapply (@wp_ld32 paged _ paged_laws); [by apply (vspace_mapped _ _ _ _ Hvs) | exact Hp |].
    rewrite Ha. intros _. apply wp_bind, wp_ret, wp_modify.
    apply wp_bind. eapply (@wp_ld32 paged _ paged_laws); [by apply (vspace_mapped _ _ _ _ Hvs1) | exact Hp |].
    rewrite Ha. intros _. by apply wp_ret.
Qed.
End properties.

(** The process on the concrete machine. *)
Module examples.
#[local] Existing Instance demo_layout.
Import Mapping.examples KHeap.examples.

Definition proc : Z := 0xc000a000.
Definition dir : Z := 0xc00b0000.

Lemma create_page_dir_shares_witness : exists a c m, create_page_dir demo_state = Done a (set_mem m demo_state) /\
  virt m a = Some c /\ translate (pbyte m) c 0xc0008105 = virt m 0xc0008105 /\ translate (pbyte m) c 0x8105 = None.
Proof.
  assert (is_u32 0xc0008105) as Hv1 by done.
  assert (768 <= dir_idx 0xc0008105 < 1023) as Hv2 by (vm_compute; split; congruence).
  destruct (create_page_dir_shares demo_state demo_R demo_f demo_F demo_heap)
    as (a & c & l & m & f' & Hc & [_ _ Hm [_ _ _ Hk Hu] _ _ _]);
    [apply demo_heap_space | by apply demo_room | by apply demo_enough |].
  exists a, c, m. split; [exact Hc |]. split; [exact Hm |].
  split; [exact (Hk _ Hv1 Hv2) |].
  unfold translate. change (dir_idx 0x8105) with 0. by rewrite (Hu 0), andb_false_r.
Defined.

(** The kernel's memory without the page of the directory. *)
Definition proc_R (b : Z) : Prop := demo_R b /\ ~ span dir 4096 b.

Lemma proc_vspace : vspace demo (with_span proc_R dir 4096) demo_f demo_F.
Proof.
  eapply (vspace_sub _ _ _ _ demo_vspace); [| done]. intros b [[Hb _] | Hb]; [done |].
  revert b Hb. apply demo_inside. vm_compute. reflexivity.
Qed.

Lemma proc_inside a n : inside demo_R a n -> clear a n dir 4096 -> inside proc_R a n.
Proof. intros Hi Hc b Hb. split; [by apply Hi |]. unfold clear, span in *. lia. Qed.

Lemma proc_shares : shares_kernel demo 0xb0000.
Proof.
  apply shares_intro; [done | done | vm_compute; reflexivity | |].
  - intros i Hi. pose proof (zrange_forallb (fun i => (i <? 768) || (i =? 1023) ||
      (pde (pbyte demo) 0xb0000 i =? pde (pbyte demo) (cr3 demo) i)) 1024 ltac:(vm_compute; reflexivity) i ltac:(lia)) as Hc.
    cbv beta in Hc. lia.
  - intros i Hi. pose proof (zrange_forallb (fun i => pde (pbyte demo) 0xb0000 i =? 0) 768
      ltac:(vm_compute; reflexivity) i ltac:(lia)) as Hc. cbv beta in Hc. lia.
Qed.

Lemma proc_kernel b : proc_R b -> is_u32 b /\ 768 <= dir_idx b < 1023.
Proof.
  intros [Hb _]. pose proof (demo_region_all (fun b => (0xc0000000 <=? b) && (b <? 0xff000000))
    ltac:(vm_compute; reflexivity) b Hb) as Hc. cbv beta in Hc. unfold is_u32, dir_idx. zlia.
Qed.

Lemma process_activate_switches_witness :
  (exists m, process_activate proc demo_state = Done tt (set_mem m demo_state) /\ cr3 m = 0xb0000 /\
    exists g, vspace m proc_R g demo_F) /\
  process_activate Thread.examples.t1 demo_state = Done tt (set_mem (set_cr3 0x100000 demo) demo_state).
Proof.
  assert (inside proc_R tss tss_size) as Htss
    by (apply proc_inside; [apply demo_inside; vm_compute; reflexivity | left; by apply Z.leb_le]).
  split.
  - destruct (process_activate_switches demo_state proc_R demo_f demo_F proc) as [Hp _];
      [done | done | | exact Htss | apply proc_kernel |].
    { apply proc_inside; [apply demo_inside; vm_compute; reflexivity | left; by apply Z.leb_le]. }
    destruct (Hp dir 0xb0000) as (m & Hc & Hcr & Hv);
      [vm_compute; reflexivity | done | done | by intros b [_ Hb] | apply proc_vspace | vm_compute; reflexivity |
       apply proc_shares |].
    exists m. split; [exact Hc |]. split; [exact Hcr |]. eexists. exact Hv.
  - destruct (process_activate_switches demo_state proc_R demo_f demo_F Thread.examples.t1) as [_ Hk];
      [done | done | | exact Htss | apply proc_kernel |].
    { apply proc_inside; [apply demo_inside; vm_compute; reflexivity | left; by apply Z.leb_le]. }
    assert (vspace demo proc_R demo_f demo_F) as Hv by (eapply (vspace_sub _ _ _ _ demo_vspace); [by intros b [Hb _] | done]).
    apply Hk; [vm_compute; reflexivity | exact Hv | exact Hv].
Defined.
End examples.
