(* ===== verification/Enter.v ===== *)
(** userprog/process.c: [start_process], by which a new process leaves the
    kernel: the frame on its kernel stack, the page of its user stack, and the
    return from an interrupt that never was. *)

From S2P Require Import Prelude Monad RawMem Machine CString Bitmap DList Thread Sync Global Tss Timer Paging.
From S2P Require Import Memory Mapping KHeap PoolInit Task Entry Spawn UserPages Process.

(** ** The stack pointer of the running thread in its control block *)


Section entering.
Context {LY : Layout}.
Implicit Types (s : kstate paged) (m : paged) (R F : Z -> Prop) (f : Z -> Z) (K : ksys) (G : protocol (kstate paged))
  (h : heap_maps) (u : user_maps).


(** ** Filling the frame *)






(** ** [start_process] *)










End entering.

(** ** Properties *)

Section properties.
Context {LY : Layout}.
Implicit Types (s : kstate paged) (R F : Z -> Prop) (f : Z -> Z) (K : ksys) (h : heap_maps) (u : user_maps).

End properties.

Module examples.
#[local] Existing Instance demo_layout.
Import Mapping.examples KHeap.examples UserPages.examples.


End examples.
