(* ===== verification/Execute.v ===== *)
(** userprog/process.c: [process_execute], which makes a process: its control
    block, the bitmap of its addresses, its first stack frame and its page
    directory, from the kernel's heap to the queues of the scheduler. *)

From S2P Require Import Prelude Monad RawMem Machine CString Bitmap DList Thread Sync Global Timer Console Paging.
From S2P Require Import Memory Mapping KHeap PoolInit Task Spawn UserPages Kernel Process.

(** ** The bitmap of a process's addresses *)

(** One bit for every page from [USER_VADDR_START] to 3 GB. *)
Definition vaddr_bytes : Z := 94199.
Definition vaddr_pages : Z := 23.

Record user_bitmap K (t b : Z) : Prop := mk_user_bitmap {
  um_map : is_bitmap (own K) (data K) (vaddr_bitmap (userprog_vaddr t)) b vaddr_bytes;
  um_start : w32 (data K) (vaddr_start (userprog_vaddr t)) = USER_VADDR_START;
  um_clear j : 0 <= j < 8 * vaddr_bytes -> bit (data K) b j = false }.

Section execute.
Context {LY : Layout}.
Implicit Types (s : kstate paged) (m : paged) (R F P : Z -> Prop) (f : Z -> Z) (K : ksys) (G : protocol (kstate paged))
  (h : heap_maps).

Lemma user_bitmap_keep K K' t b : user_bitmap K t b ->
  (forall x, span (userprog_vaddr t) 12 x \/ span b (vaddr_bytes + 1) x -> (own K x -> own K' x) /\ data K' x = data K x) ->
  user_bitmap K' t b.
Proof.
  intros [[B1 B2 B3 B4 B5 B6] Hst Hcl] Hx. unfold vaddr_bitmap, vaddr_start in *.
  assert (forall a, userprog_vaddr t <= a -> a + 4 <= userprog_vaddr t + 12 -> w32 (data K') a = w32 (data K) a) as Hw.
  { intros a Ha1 Ha2. apply w32_ext. intros x Hb. apply Hx. left. unfold span in *. lia. }
  split; [split; [| | | | done | done] | |]; unfold vaddr_bitmap, vaddr_start in *.
  - by rewrite Hw by lia.
  - by rewrite Hw by lia.
  - intros x Hb. apply Hx; [left; unfold span in *; lia | by apply B3].
  - intros x Hb. apply Hx; [by right | by apply B4].
  - by rewrite Hw by lia.
  - intros j Hj. rewrite <- (Hcl j Hj). eapply bits_same; [| exact Hj]. intros x Hb. apply Hx. right. unfold span in *. lia.
Qed.

(** The bytes are set to zero. *)
Lemma wp_clear_bitmap G s R f F h K va b (Q : unit -> kstate paged -> Prop) :
  kernel_at s R f F h K -> is_bitmap (own K) (data K) va b vaddr_bytes -> b <> 0 ->
  (forall x, span b vaddr_bytes x -> ~ heap_bytes h x) ->
  (forall m f' d, let K' := set_data d K in kernel_at (set_mem m s) R f' F h K' ->
     moved (span b vaddr_bytes) h s R K (set_mem m s) R K' -> unmoved (kmem s) m R ->
     (forall x, span b vaddr_bytes x -> d x = 0) -> (forall x, ~ span b vaddr_bytes x -> d x = data K x) ->
     Q tt (set_mem m s)) ->
  wp G (bitmap_init va) s Q.
Proof.
  intros Hk Hbm Hb0 Hn HQ. set (P0 := fun x => span va 8 x \/ span b (vaddr_bytes + 1) x).
  assert (forall x, P0 x -> own K x) as HP by (intros x [Hx | Hx]; [by apply (bm_struct _ _ _ _ _ Hbm) | by apply (bm_bytes _ _ _ _ _ Hbm)]).
  assert (is_bitmap P0 (data K) va b vaddr_bytes) as Hbm0.
  { destruct Hbm as [B1 B2 B3 B4 B5 B6]. split; [done | done | intros x Hx; by left | intros x Hx; by right | done | done]. }
  set (RL := kept_laws (kmem s) R). pose proof (kernel_sys _ _ _ _ _ _ Hk) as Hs.
  eapply (@wp_bitmap_init paged _ (@own_laws paged _ RL _ R s K P0 HP) P0 (data K)); [exact Hbm0 | by apply own_laws_intro | exact Hb0 |].
  intros m Hm. unfold vaddr_bytes in *.
  assert (forall x, ~ span b 94199 x -> updl (data K) b (replicate (Z.to_nat 94199) 0) x = data K x) as Hout.
  { intros x Hx. apply updl_out. unfold len, span in *. rewrite length_replicate. lia. }
  destruct (@own_result paged _ RL _ R s K P0 (span b 94199) HP m _ Hm Hout) as (d & Hs' & Hd & Hd').
  destruct (own_step _ _ _ _ _ _ (span b 94199) _ _ Hk Hs' Hd' Hn) as ([f' Hk'] & Hmv & Hum).
  apply (HQ m f' d); [exact Hk' | exact Hmv | exact Hum | | exact Hd'].
  intros x Hx. rewrite Hd by (right; unfold span in *; lia).
  rewrite updl_in by (unfold len, span in *; rewrite length_replicate; lia). unfold span in Hx.
  rewrite nth_lookup, lookup_replicate_2; [done | lia].
Qed.

(** What [create_user_vaddr_bitmap] leaves. *)
Record bitmap_made s R F h K t b m f' (F' : Z -> Prop) K' (R' := with_span R b (4096 * vaddr_pages)) : Prop := mk_bitmap_made {
  bd_at : kernel_at (set_mem m s) R' f' F' h K';
  bd_moved : moved (fun x => span (userprog_vaddr t) 12 x \/ span b (4096 * vaddr_pages) x) h s R K (set_mem m s) R' K';
  bd_fresh x : R x -> ~ span b (4096 * vaddr_pages) x;
  bd_bitmap : user_bitmap K' t b;
  bd_own x : span b (4096 * vaddr_pages) x -> own K' x;
  bd_range : b mod 4096 = 0 /\ 2 ^ 22 <= b /\ b + 4096 * vaddr_pages <= 0xffc00000;
  bd_budget k : 0 <= k -> budget h K (vaddr_pages + k) -> budget h K' k;
  bd_frames p : F' p -> F p }.

(** The header of the bitmap is filled in, and the bits are cleared. *)
Lemma wp_fill_bitmap G s R f F h K t b (va := userprog_vaddr t) (Q : unit -> kstate paged -> Prop) :
  kernel_at s R f F h K -> inside (own K) va 12 -> inside (own K) b (4096 * vaddr_pages) ->
  (forall x, span va 12 x \/ span b (4096 * vaddr_pages) x -> ~ heap_bytes h x) ->
  (forall x, span va 12 x -> ~ span b (4096 * vaddr_pages) x) -> 2 ^ 22 <= b -> b + 4096 * vaddr_pages <= 0xffc00000 ->
  w32 (data K) (vaddr_start va) = USER_VADDR_START ->
  (forall m f' K', kernel_at (set_mem m s) R f' F h K' ->
     moved (fun x => span va 12 x \/ span b (4096 * vaddr_pages) x) h s R K (set_mem m s) R K' ->
     (forall x, heap_bytes h x -> data K' x = data K x) -> user_bitmap K' t b -> own K' = own K -> Q tt (set_mem m s)) ->
  wp G (st32 (vaddr_bitmap va + 4) b;; st32 (vaddr_bitmap va) vaddr_bytes;; bitmap_init (vaddr_bitmap va)) s Q.
Proof.
  intros Hk Hi Hib Hn Hdis Hb0 Hbm Hst HQ. unfold vaddr_bitmap, vaddr_start, vaddr_pages in *. change (4096 * 23) with 94208 in *.
  apply wp_bind. eapply wp_put; [exact Hk | eapply inside_sub; [exact Hi | lia ..] | intros x Hx; apply Hn; unfold span in *; lia |].
  intros m1 f1 K1 Hk1 Hm1 Hum1. apply wp_bind.
  eapply (wp_put _ _ R f1 F h K1); [exact Hk1 | eapply inside_sub; [exact Hi | lia ..] | intros x Hx; apply Hn; unfold span in *; lia |].
  intros m2 f2 K2 Hk2 Hm2 Hum2. change (set_mem m2 (set_mem m1 s)) with (set_mem m2 s) in *.
  assert (forall x, ~ span va 8 x -> data K2 x = data K x) as Hd2.
  { intros x Hx. unfold span in Hx. cbn [data set_data K2 K1]. by rewrite !upd32_ne by lia. }
  assert (is_bitmap (own K2) (data K2) va b vaddr_bytes) as Hmap.
  { split; cbn [data own set_data K2 K1].
    - by rewrite w32_upd32_eq.
    - rewrite w32_upd32_ne by lia. rewrite w32_upd32_eq; [done | unfold is_u32; lia].
    - eapply inside_sub; [exact Hi | lia ..].
    - eapply inside_sub; [exact Hib | unfold vaddr_bytes; lia ..].
    - destruct (Z.le_gt_cases (va + 8) b); [by left |]. right. destruct (Z.le_gt_cases (b + vaddr_bytes) va); [done |].
      exfalso. apply (Hdis (Z.max va b)); unfold span, vaddr_bytes in *; lia.
    - done. }
  eapply (wp_clear_bitmap _ _ R f2 F h K2); [exact Hk2 | exact Hmap | lia | intros x Hx; apply Hn; unfold span, vaddr_bytes in *; lia |].
  intros m3 f3 d K3 Hk3 Hm3 Hum3 Hz Hd3. change (set_mem m3 (set_mem m2 s)) with (set_mem m3 s) in *.
  apply (HQ m3 f3 K3); [exact Hk3 | | | | done].
  - eapply moved_trans; [eapply moved_trans; [exact Hm1 | exact Hm2 | intros x Hx; exact Hx] | exact Hm3 |].
    intros x Hx. unfold span, vaddr_bytes in *. lia.
  - intros x Hx. cbn [data set_data K3]. rewrite Hd3, Hd2; [done | |]; intros Hy; apply (Hn x); try done;
      unfold span, vaddr_bytes in *; lia.
  - assert (forall x, span va 12 x -> d x = data K2 x) as Hva.
    { intros x Hx. apply Hd3. intros Hy. apply (Hdis x Hx). unfold span, vaddr_bytes in *. lia. }
    split; cbn [own data set_data K3].
    + destruct Hmap as [B1 B2 B3 B4 B5 B6]. cbn [own data set_data K2 K1] in *. split; try done.
      * rewrite <- B1. apply w32_ext. intros x Hx. apply Hva. unfold span in *. lia.
      * rewrite <- B2. apply w32_ext. intros x Hx. apply Hva. unfold span in *. lia.
    + rewrite <- Hst. apply w32_ext. intros x Hx. unfold vaddr_start in Hx. rewrite Hva, Hd2 by (unfold span in *; lia). done.
    + intros j Hj. unfold bit. rewrite Hz; [by rewrite Z.testbit_0_l | unfold span, vaddr_bytes in *; zlia].
Qed.

Lemma wp_create_user_vaddr_bitmap G s R f F h K t (Q : unit -> kstate paged -> Prop) :
  kernel_at s R f F h K -> inside (own K) (userprog_vaddr t) 12 ->
  (forall x, span (userprog_vaddr t) 12 x -> ~ heap_bytes h x) -> budget h K vaddr_pages ->
  (forall b m f' F' K', bitmap_made s R F h K t b m f' F' K' -> Q tt (set_mem m s)) ->
  wp G (create_user_vaddr_bitmap t) s Q.
Proof.
  intros Hk Hi Hn Hbud HQ. unfold create_user_vaddr_bitmap. set (va := userprog_vaddr t) in *.
  change ((0xc0000000 - USER_VADDR_START) / PG_SIZE / 8) with vaddr_bytes.
  change (DIV_ROUND_UP vaddr_bytes PG_SIZE) with vaddr_pages. cbv zeta.
  apply wp_bind. eapply (wp_put _ _ _ _ _ _ _ (vaddr_start va)); [exact Hk | eapply inside_sub; [exact Hi | unfold vaddr_start; lia ..] |
    intros x Hx; apply Hn; unfold vaddr_start, span in *; lia |].
  intros m1 f1 K1 Hk1 Hm1 Hum1.
  assert (forall x, heap_bytes h x -> data K1 x = data K x) as Hd1.
  { intros x Hx. apply upd32_ne. assert (~ span va 12 x) by (intros Hy; by apply (Hn x)). unfold span, vaddr_start in *. lia. }
  apply wp_bind. eapply wp_pages; [exact Hk1 | done | by eapply budget_keep |].
  intros b m2 f2 F2 K2 [Hk2 Hm2 Hfr Hob Hz Hal [Hb1 Hb2] Hbud2 HF]. change (set_mem m2 (set_mem m1 s)) with (set_mem m2 s) in *.
  set (R' := with_span R b (4096 * vaddr_pages)) in *.
  assert (forall x, own K x -> R x) as HoR by (intros x; by eapply kernel_own).
  assert (forall x, span va 12 x -> ~ span b (4096 * vaddr_pages) x) as Hdis by (intros x Hx; by apply Hfr, HoR, Hi).
  eapply (wp_fill_bitmap _ (set_mem m2 s) R' f2 F2 h K2 t b); [exact Hk2 | intros x Hx; apply (mv_own _ _ _ _ _ _ _ _ Hm2); by apply Hi |
    exact Hob | | exact Hdis | exact Hb1 | exact Hb2 | |].
  - intros x [Hx | Hx] Hh; [by apply (Hn x) |]. apply (Hfr x); [| exact Hx]. apply HoR. by apply (ka_own _ _ _ _ _ _ Hk).
  - transitivity (w32 (data K1) (vaddr_start va)); [| cbn; by rewrite w32_upd32_eq].
    apply w32_ext. intros x Hx. assert (span va 12 x) as Hx' by (unfold vaddr_start, span in *; lia).
    apply (mv_data _ _ _ _ _ _ _ _ Hm2); [by apply Hi | by apply Hdis |]. intros Hy. apply (Hn x Hx'). unfold heap_bytes, heap_bits in *. tauto.
  - intros m3 f3 K3 Hk3 Hm3 Hd3 Hub Ho3. change (set_mem m3 (set_mem m2 s)) with (set_mem m3 s) in *.
    apply (HQ b m3 f3 F2 K3). split; [exact Hk3 | | exact Hfr | exact Hub | by rewrite Ho3 | done | | done].
    + eapply moved_trans; [eapply moved_trans; [exact Hm1 | exact Hm2 | intros x Hx; exact Hx] | exact Hm3 |].
      intros x Hx. unfold span, vaddr_start in *. lia.
    + intros k Hk0 Hbk. eapply budget_keep; [exact Hd3 |]. apply Hbud2; [done |]. by eapply budget_keep.
Qed.

(** ** The control block and the stack *)

(** A step on bytes of one's own that keeps the heap's, with its new contents. *)
Definition own_moved P h s R K s' f' F K' : Prop :=
  kernel_at s' R f' F h K' /\ moved P h s R K s' R K' /\ own K' = own K /\
  (forall x, ~ P x -> data K' x = data K x) /\ unmoved (kmem s) (kmem s') R.

Lemma wp_init_block G s R f F h K t name_ nm prio (Q : unit -> kstate paged -> Prop) :
  kernel_at s R f F h K -> lock_usable K pid_lock -> inside (own K) t 4096 -> inside (own K) name_ (len nm + 1) ->
  cstr (data K) name_ nm -> len nm <= 16 -> t + 4096 <= name_ \/ name_ + len nm + 1 <= t -> t <> 0 -> t + 4096 < 4294967296 ->
  t <> main_thread (kvar s) -> (forall x, span t 4096 x -> ~ heap_bytes h x) ->
  (forall m f' K', own_moved (span t 72) h s R K (numbered m s) f' F K' ->
     task_at (data K') t (new_view TASK_READY t prio) -> w16 (data K') (pid t) = u16 (fresh_pid s) -> Q tt (numbered m s)) ->
  wp G (init_thread t name_ prio) s Q.
Proof.
  intros Hk (hh & n & Hl & Hn0) Hi Hnm Hstr Hlen Hap Ht0 Htu Hmt Hn HQ.
  eapply (@wp_init_thread paged _ (kept_laws (kmem s) R)); [by eapply kernel_sys | exact Hl | exact Hn0 | exact Hi | exact Hnm | exact Hstr | done ..|].
  intros m K' Hs Hks Ho Hl' Hbut Htask Hpid Hd. rewrite (proj2 (Z.eqb_neq t _)) in Htask by done.
  destruct (kernel_after _ _ _ _ _ _ _ _ Hk Hs) as (f' & Hk' & Hum).
  { intros x Hx. rewrite Ho. split; [by apply (ka_own _ _ _ _ _ _ Hk) |]. apply Hd. intros Hy. apply (Hn x); [unfold span in *; lia | done]. }
  apply (HQ m f' K'); [| exact Htask | exact Hpid]. split; [exact Hk' |]. split; [| by split; [exact Ho | split; [exact Hd |]]].
  apply unmoved_moved; [exact Hum | exact Hks | exact Ho | intros x _ Hx _; by apply Hd |].
  intros l Hu. destruct (decide (l = pid_lock)) as [-> | Hne]; [| by apply (lb_usable _ _ _ Hbut)].
  eapply counted_usable; [exact Hl | exact Hn0 | by rewrite Hks | exact Hl'].
Qed.

Lemma wp_first_frame G s R f F h K t prio function func_arg (Q : unit -> kstate paged -> Prop) :
  kernel_at s R f F h K -> inside (own K) t 4096 -> task_at (data K) t (new_view TASK_READY t prio) ->
  (forall x, span t 4096 x -> ~ heap_bytes h x) -> is_u32 function -> is_u32 func_arg -> is_u32 (fn "kernel_thread") ->
  (forall m f' K', own_moved (fun x => span t 4 x \/ span (first_stack t) 32 x) h s R K (set_mem m s) f' F K' ->
     task_at (data K') t (started_view t prio) -> frame_words (data K') t function func_arg -> Q tt (set_mem m s)) ->
  wp G (thread_create t function func_arg) s Q.
Proof.
  intros Hk Hi Htask Hn Hfn Harg Hkt HQ. set (P0 := span t 4096). assert (forall x, P0 x -> own K x) as HP by done.
  set (RL := kept_laws (kmem s) R). pose proof (kernel_sys _ _ _ _ _ _ Hk) as Hs.
  eapply (@wp_thread_create paged _ (@own_laws paged _ RL _ R s K P0 HP) _ _ _ P0);
    [by apply own_laws_intro | by intros x Hx | apply (at_kstack _ _ _ Htask) | exact Hfn | exact Harg | exact Hkt |].
  intros m g Hg Hfr Hout.
  destruct (@own_result paged _ RL _ R s K P0 (fun x => span t 4 x \/ span (first_stack t) 32 x) HP m g Hg) as (d & Hs' & Hd & Hd');
    [intros x Hx; apply Hout; tauto |].
  destruct (own_step _ _ _ _ _ _ (fun x => span t 4 x \/ span (first_stack t) 32 x) _ _ Hk Hs' Hd') as ([f' Hk'] & Hmv & Hum).
  { intros x Hx. apply Hn. unfold first_stack, span in *. lia. }
  pose proof (new_view_started _ _ _ _ _ _ Htask Hfr Hout) as Ht2.
  apply (HQ m f' (set_data d K)); [by split; [exact Hk' | split; [exact Hmv | done]] | |]; cbn [data set_data].
  - eapply task_at_ext; [| exact Ht2]. intros x [[Hx _] _]. apply Hd. unfold P0, span, task_struct_size in *. lia.
  - eapply frame_words_keep; [| exact Hd]. split; [apply (ff_eip _ _ _ _ Hfr) |].
    split; [apply (ff_function _ _ _ _ Hfr) | apply (ff_arg _ _ _ _ Hfr)].
Qed.

(** ** The page directory *)

Record dir_made s R F h K (a c : Z) m f' (F' : Z -> Prop) K' (R' := with_span R a 4096) : Prop := mk_dir_made {
  de_at : kernel_at (set_mem m s) R' f' F' h K';
  de_moved : moved (span a 4096) h s R K (set_mem m s) R' K';
  de_fresh x : R x -> ~ span a 4096 x;
  de_own x : span a 4096 x -> own K' x;
  de_page : a <> 0 /\ a mod 4096 = 0 /\ is_u32 a;
  de_mapped : virt m a = Some c;
  de_shares : shares_kernel m c;
  de_budget k : 0 <= k -> budget h K (1 + k) -> budget h K' k;
  de_frames p : F' p -> F p }.

Lemma wp_dir G s R f F h K (Q : Z -> kstate paged -> Prop) :
  kernel_at s R f F h K -> budget h K 1 ->
  (forall a c m f' F' K', dir_made s R F h K a c m f' F' K' -> Q a (set_mem m s)) ->
  wp G create_page_dir s Q.
Proof.
  intros Hk Hbud HQ. unfold create_page_dir. apply wp_bind. eapply wp_pages; [exact Hk | done | exact Hbud |].
  intros a m1 f1 F1 K1 [Hk1 Hm1 Hfr Ho Hz Hal [Ha1 Ha2] Hbud1 HF]. change (4096 * 1) with 4096 in *. set (R' := with_span R a 4096) in *.
  rewrite (proj2 (Z.eqb_neq a 0)) by lia.
  eapply (wp_fill_dir _ (set_mem m1 s) R' f1 F1 a); [apply (ri_space _ _ _ _ _ (ka_runs _ _ _ _ _ _ Hk1)) | by intros x Hx; right |
    exact Hal | lia | lia | |].
  { intros x Hx. rewrite (kernel_data _ _ _ _ _ _ x Hk1) by (by apply Ho). by apply Hz. }
  intros m f' c Hvs Hum Hc Hsh Hout. cbn [kmem set_mem] in Hum. change (set_mem m (set_mem m1 s)) with (set_mem m s) in *.
  assert (forall x, ~ own K1 x -> f' x = f1 x) as Hout1 by (intros x Hx; apply Hout; intros Hy; by apply Hx, Ho).
  assert (forall x, heap_bytes h x -> ~ span a 4096 x) as Hha.
  { intros x Hx. apply Hfr. eapply kernel_own; [exact Hk |]. by apply (ka_own _ _ _ _ _ _ Hk). }
  apply (HQ a c m f' F1 (set_data f' K1)). split.
  - split; [eapply runs_in_own; [apply Hk1 | done | exact Hvs | exact Hout1] | | apply (ka_own _ _ _ _ _ _ Hk1)].
    eapply heap_space_after; [apply (ka_heap _ _ _ _ _ _ Hk1) | done | | exact Hvs | exact Hum]. intros x Hx. by apply Hout, Hha.
  - eapply (moved_trans (span a 4096) (span a 4096)); [exact Hm1 | | tauto].
    apply unmoved_moved; [exact Hum | done | done | | done]. intros x Hx Hn _. cbn [data set_data].
    rewrite Hout by done. by eapply kernel_data.
  - exact Hfr.
  - exact Ho.
  - split; [lia |]. split; [done |]. unfold is_u32. lia.
  - exact Hc.
  - exact Hsh.
  - intros k Hk0 Hb. eapply budget_keep; [| by apply Hbud1]. intros x Hx. cbn [data set_data].
    rewrite Hout by (by apply Hha). eapply kernel_data; [exact Hk1 |]. apply (ka_own _ _ _ _ _ _ Hk1 x Hx).
  - exact HF.
Qed.

(** Later steps leave the directory. *)
Lemma shares_keep m m' R f f' F F' a c : vspace m R f F -> vspace m' R f' F' -> unmoved m m' R -> inside R a 4096 -> a mod 4096 = 0 ->
  virt m a = Some c -> (forall x, span a 4096 x -> f' x = f x) -> shares_kernel m c -> shares_kernel m' c.
Proof.
  intros Hvs Hvs' Hum Hi Ha Hc Hf [[Hc4 Hcu] [Hs1 Hs2] He Hk Hz].
  assert (forall i, 0 <= i < 1024 -> pde (pbyte m') c i = pde (pbyte m) c i) as Hpde.
  { destruct (page_words _ _ _ _ _ Hvs Hi Ha) as (q & Hq & _ & _ & Hw).
    destruct (page_words _ _ _ _ _ Hvs' Hi Ha) as (q' & Hq' & _ & _ & Hw').
    rewrite (um_virt _ _ _ Hum) in Hq'. rewrite Hc in Hq, Hq'. injection Hq as <-. injection Hq' as <-.
    intros i Hi'. unfold pde, pde_at. assert (frame c = c) as -> by (unfold frame; zlia). rewrite Hw, Hw' by done.
    apply w32_ext. intros x Hx. apply Hf. unfold span in *. lia. }
  assert (forall i, 768 <= i < 1023 -> pde (pbyte m') c i = pde (pbyte m') (cr3 m') i) as He'.
  { intros i Hi'. rewrite (um_cr3 _ _ _ Hum), (um_pde _ _ _ Hum), Hpde by lia. by apply He. }
  split; [done | split; by rewrite Hpde by lia | exact He' | | intros i Hi'; rewrite Hpde by lia; by apply Hz].
  intros v Hv Hd. unfold virt, translate, pte, pte_at. by rewrite He'.
Qed.

(** ** A process before anybody knows it *)

(** The control block when [process_execute] is done with it. *)
Definition process_view (t prio dir : Z) : tview :=
  mk_tview (first_stack t) TASK_READY (u8 prio) (u8 prio) 0 dir STACK_MAGIC.

(** The control block has the view [v] and the process number [n]. *)
Definition block K (t : Z) (v : tview) (n : Z) : Prop := task_at (data K) t v /\ w16 (data K) (pid t) = n.

Lemma block_keep K K' t v n : block K t v n -> (forall x, block_bytes t x -> data K' x = data K x) -> block K' t v n.
Proof.
  intros [Ht Hn] Hx. split.
  - eapply task_at_ext; [| exact Ht]. intros x [[Hb Hni] _]. apply Hx. split; [exact Hb |]. unfold task_identity in Hni. tauto.
  - rewrite <- Hn. apply w16_ext. intros x Hb. apply Hx. unfold block_bytes, task_struct_size, span in *. fields. lia.
Qed.

Lemma block_pgdir K K' t prio n dir : block K t (started_view t prio) n -> data K' = upd32 (data K) (pgdir t) dir -> is_u32 dir ->
  block K' t (process_view t prio dir) n.
Proof.
  intros [[H1 H2 H3 H4 H5 H6 H7] Hn] Hd Hu. rewrite <- Hn. unfold block. rewrite Hd. cbn in *. split.
  - split; cbn [process_view tv_kstack tv_status tv_priority tv_ticks tv_elapsed tv_pgdir tv_magic]; fields; by mem.
  - fields. by mem.
Qed.

Record built s R F h K (t prio filename b dir c : Z) s' (R' : Z -> Prop) f' (F' : Z -> Prop) K' : Prop := mk_built {
  bu_at : kernel_at s' R' f' F' h K';
  bu_moved : moved (fun x => span t 4096 x \/ span b (4096 * vaddr_pages) x \/ span dir 4096 x) h s R K s' R' K';
  bu_fresh x : R x -> ~ span b (4096 * vaddr_pages) x /\ ~ span dir 4096 x;
  bu_apart x : span b (4096 * vaddr_pages) x -> ~ span dir 4096 x;
  bu_own x : span b (4096 * vaddr_pages) x \/ span dir 4096 x -> own K' x;
  bu_block : block K' t (process_view t prio dir) (u16 (fresh_pid s));
  bu_frame : frame_words (data K') t (fn "start_process") filename;
  bu_bitmap : user_bitmap K' t b;
  bu_page : dir <> 0 /\ dir mod 4096 = 0;
  bu_mapped : virt (kmem s') dir = Some c;
  bu_shares : shares_kernel (kmem s') c;
  bu_budget k : 0 <= k -> budget h K (vaddr_pages + (1 + k)) -> budget h K' k;
  bu_frames p : F' p -> F p }.

(** What the building needs. *)
Record can_build s R f F h K (t name_ : Z) (nm : list Z) : Prop := mk_can_build {
  cb_at : kernel_at s R f F h K;
  cb_page : inside (own K) t 4096;
  cb_addr : t <> 0 /\ t + 4096 < 4294967296;
  cb_heap x : span t 4096 x -> ~ heap_bytes h x;
  cb_main : t <> main_thread (kvar s);
  cb_lock : lock_usable K pid_lock;
  cb_name : inside (own K) name_ (len nm + 1);
  cb_string : cstr (data K) name_ nm;
  cb_length : len nm <= 16;
  cb_apart : t + 4096 <= name_ \/ name_ + len nm + 1 <= t;
  cb_budget : budget h K (vaddr_pages + 1) }.

Record half_built s R F h K (t prio b : Z) s' (R' : Z -> Prop) f' (F' : Z -> Prop) K' : Prop := mk_half_built {
  hb_at : kernel_at s' R' f' F' h K';
  hb_moved : moved (fun x => span t 4096 x \/ span b (4096 * vaddr_pages) x) h s R K s' R' K';
  hb_fresh x : R x -> ~ span b (4096 * vaddr_pages) x;
  hb_own x : span b (4096 * vaddr_pages) x -> own K' x;
  hb_block : block K' t (new_view TASK_READY t prio) (u16 (fresh_pid s));
  hb_bitmap : user_bitmap K' t b;
  hb_budget k : 0 <= k -> budget h K (vaddr_pages + k) -> budget h K' k;
  hb_frames p : F' p -> F p }.

Lemma wp_half {A} G s R f F h K t name_ nm prio (k : cmd (kstate paged) A) (Q : A -> kstate paged -> Prop) :
  can_build s R f F h K t name_ nm ->
  (forall b m R' f' F' K', half_built s R F h K t prio b (numbered m s) R' f' F' K' -> wp G k (numbered m s) Q) ->
  wp G (init_thread t name_ prio;; create_user_vaddr_bitmap t;; k) s Q.
Proof.
  intros [Hk Hi [Ht0 Htu] Hn Hmt Hlk Hnm Hstr Hlen Hap Hbud] HQ. apply wp_bind.
  eapply wp_init_block; [exact Hk | exact Hlk | exact Hi | exact Hnm | exact Hstr | done ..|].
  intros m1 f1 K1 (Hk1 & Hm1 & Ho1 & Hd1 & Hum1) Htask Hpid.
  assert (forall x, heap_bytes h x -> data K1 x = data K x) as Hh1.
  { intros x Hx. apply Hd1. intros Hy. apply (Hn x); [unfold span in *; lia | done]. }
  assert (forall x, span (userprog_vaddr t) 12 x -> span t 4096 x) as Hva by (intros x Hx; unfold userprog_vaddr, span in *; lia).
  apply wp_bind. eapply (wp_create_user_vaddr_bitmap _ _ R f1 F h K1 t); [exact Hk1 | intros x Hx; rewrite Ho1; by apply Hi, Hva |
    intros x Hx; by apply Hn, Hva | |].
  { eapply budget_more; [| eapply budget_keep; [exact Hh1 | exact Hbud]]. done. }
  intros b m2 f2 F2 K2 [Hk2 Hm2 Hfr Hub Hob _ Hb2 HF]. change (set_mem m2 (numbered m1 s)) with (numbered m2 s) in *.
  apply (HQ b m2 (with_span R b (4096 * vaddr_pages)) f2 F2 K2). split; [exact Hk2 | | exact Hfr | exact Hob | | exact Hub | | exact HF].
  - eapply moved_trans; [exact Hm1 | exact Hm2 |]. intros x [Hx | [Hx | Hx]]; [left; unfold span in *; lia | left; by apply Hva | by right].
  - apply (block_keep K1); [by split |]. intros x [Hx Hnv].
    assert (span t 4096 x) as Hx' by (unfold task_struct_size, span in *; lia).
    assert (own K1 x) as Hox by (rewrite Ho1; by apply Hi).
    apply (mv_data _ _ _ _ _ _ _ _ Hm2); [exact Hox | intros [Hy | Hy]; [done |]; by apply (Hfr x); [eapply kernel_own |] |].
    intros Hy. apply (Hn x Hx'). unfold heap_bytes, heap_bits in *. tauto.
  - intros n Hk0 Hb. apply Hb2; [done |]. by eapply budget_keep.
Qed.

(** What the directory adds. *)
Record dir_given s R F h K (t prio n filename b dir c : Z) m (R' : Z -> Prop) f' (F' : Z -> Prop) K' : Prop := mk_dir_given {
  dg_at : kernel_at (set_mem m s) R' f' F' h K';
  dg_moved : moved (fun x => span t 4096 x \/ span dir 4096 x) h s R K (set_mem m s) R' K';
  dg_fresh x : R x -> ~ span dir 4096 x;
  dg_own x : span dir 4096 x -> own K' x;
  dg_block : block K' t (process_view t prio dir) n;
  dg_frame : frame_words (data K') t (fn "start_process") filename;
  dg_bitmap : user_bitmap K' t b;
  dg_page : dir <> 0 /\ dir mod 4096 = 0;
  dg_mapped : virt m dir = Some c;
  dg_shares : shares_kernel m c;
  dg_budget k : 0 <= k -> budget h K (1 + k) -> budget h K' k;
  dg_frames p : F' p -> F p }.

Lemma wp_give_dir {A} G s R f F h K t prio n filename b (k : cmd (kstate paged) A) (Q : A -> kstate paged -> Prop) :
  kernel_at s R f F h K -> inside (own K) t 4096 -> (forall x, span t 4096 x -> ~ heap_bytes h x) ->
  block K t (started_view t prio) n -> frame_words (data K) t (fn "start_process") filename -> user_bitmap K t b ->
  inside (own K) b (4096 * vaddr_pages) -> (forall x, span b (4096 * vaddr_pages) x -> ~ heap_bytes h x) ->
  (forall x, span t 4096 x -> ~ span b (4096 * vaddr_pages) x) -> budget h K 1 ->
  (forall dir c m R' f' F' K', dir_given s R F h K t prio n filename b dir c m R' f' F' K' -> wp G k (set_mem m s) Q) ->
  wp G (do dir <- create_page_dir; st32 (pgdir t) dir;; k) s Q.
Proof.
  intros Hk Hi Hn Hbl Hfw Hub Hib Hnb Htb Hbud HQ. apply wp_bind. eapply wp_dir; [exact Hk | exact Hbud |].
  intros dir c m1 f1 F1 K1 [Hk1 Hm1 Hfr Hod (Hd0 & Hd4 & Hdu) Hc Hsh Hb1 HF]. set (R' := with_span R dir 4096) in *.
  assert (forall x, own K x -> ~ heap_bytes h x -> data K1 x = data K x) as Hd1.
  { intros x Hx Hh. apply (mv_data _ _ _ _ _ _ _ _ Hm1); [exact Hx | by eapply Hfr, kernel_own |].
    intros Hy. apply Hh. unfold heap_bytes, heap_bits in *. tauto. }
  assert (forall x, span (pgdir t) 4 x -> span t 4096 x) as Hpt by (intros x Hx; unfold pgdir, span in *; lia).
  apply wp_bind. eapply (wp_put _ (set_mem m1 s) R' f1 F1 h K1); [exact Hk1 | intros x Hx; by apply (mv_own _ _ _ _ _ _ _ _ Hm1), Hi, Hpt |
    intros x Hx; by apply Hn, Hpt |].
  intros m2 f2 K2 Hk2 Hm2 Hum2. change (set_mem m2 (set_mem m1 s)) with (set_mem m2 s) in *. cbn [kmem set_mem] in Hum2.
  assert (forall x, ~ span (pgdir t) 4 x -> data K2 x = data K1 x) as Hd2.
  { intros x Hx. cbn [data set_data K2]. apply upd32_ne. unfold span in Hx. lia. }
  assert (forall x, span dir 4096 x -> ~ span t 4096 x) as Hdt by (intros x Hx Hy; by apply (Hfr x); [eapply kernel_own; [exact Hk | by apply Hi] |]).
  apply (HQ dir c m2 R' f2 F1 K2). split.
  - exact Hk2.
  - eapply moved_trans; [exact Hm1 | exact Hm2 |]. intros x [Hx | Hx]; [by right | left; by apply Hpt].
  - exact Hfr.
  - exact Hod.
  - apply (block_pgdir K1); [| done | done]. eapply block_keep; [exact Hbl |]. intros x [Hx _].
    assert (span t 4096 x) as Hx' by (unfold task_struct_size, span in *; lia). apply Hd1; [by apply Hi | by apply Hn].
  - eapply frame_words_ext; [exact Hfw |]. intros x Hx.
    assert (span t 4096 x) as Hx' by (unfold first_stack, span in *; lia).
    rewrite Hd2, Hd1; [done | by apply Hi | by apply Hn |]. unfold first_stack, pgdir, span in *. lia.
  - eapply user_bitmap_keep; [exact Hub |]. intros x Hx. split; [intros Ho; by apply (mv_own _ _ _ _ _ _ _ _ Hm1) |].
    destruct Hx as [Hx | Hx].
    + assert (span t 4096 x) as Hx' by (unfold userprog_vaddr, span in *; lia).
      rewrite Hd2, Hd1; [done | by apply Hi | by apply Hn |]. unfold userprog_vaddr, pgdir, span in *. lia.
    + assert (span b (4096 * vaddr_pages) x) as Hx' by (unfold vaddr_bytes, vaddr_pages, span in *; lia).
      rewrite Hd2, Hd1; [done | by apply Hib | by apply Hnb |]. intros Hy. by apply (Htb x); [apply Hpt |].
  - by split.
  - rewrite (um_virt _ _ _ Hum2). exact Hc.
  - eapply (shares_keep m1 m2 R' f1 f2 F1 F1 dir c); [apply (ri_space _ _ _ _ _ (ka_runs _ _ _ _ _ _ Hk1)) |
      apply (ri_space _ _ _ _ _ (ka_runs _ _ _ _ _ _ Hk2)) | exact Hum2 | by intros x Hx; right | exact Hd4 | exact Hc | | exact Hsh].
    intros x Hx. rewrite (kernel_data _ _ _ _ _ _ x Hk2) by (by apply Hod). rewrite (kernel_data _ _ _ _ _ _ x Hk1) by (by apply Hod).
    apply Hd2. intros Hy. by apply (Hdt x Hx), Hpt.
  - intros j Hk0 Hb. eapply budget_keep; [| by apply Hb1]. intros x Hx. apply Hd2. intros Hy. by apply (Hn x); [apply Hpt |].
  - exact HF.
Qed.

Lemma wp_build {A} G s R f F h K t name_ nm prio filename (k : cmd (kstate paged) A) (Q : A -> kstate paged -> Prop) :
  can_build s R f F h K t name_ nm -> is_u32 filename -> is_u32 (fn "start_process") -> is_u32 (fn "kernel_thread") ->
  (forall b dir c m R' f' F' K', built s R F h K t prio filename b dir c (numbered m s) R' f' F' K' -> wp G k (numbered m s) Q) ->
  wp G (init_thread t name_ prio;; create_user_vaddr_bitmap t;; thread_create t (fn "start_process") filename;;
        do dir <- create_page_dir; st32 (pgdir t) dir;; k) s Q.
Proof.
  intros Hcb Hfile Hsp Hkt HQ. pose proof Hcb as [Hk Hi [Ht0 Htu] Hn _ _ _ _ _ _ Hbud].
  eapply wp_half; [exact Hcb |]. intros b m1 R1 f1 F1 K1 [Hk1 Hm1 Hfr1 Hob1 Hbl1 Hub1 Hb1 HF1].
  assert (inside (own K1) t 4096) as Hi1 by (intros x Hx; by apply (mv_own _ _ _ _ _ _ _ _ Hm1), Hi).
  assert (forall x, span t 4096 x -> ~ span b (4096 * vaddr_pages) x) as Htb by (intros x Hx; eapply Hfr1, kernel_own; [exact Hk | by apply Hi]).
  apply wp_bind. eapply (wp_first_frame _ _ R1 f1 F1 h K1); [exact Hk1 | exact Hi1 | apply Hbl1 | exact Hn | done ..|].
  intros m2 f2 K2 (Hk2 & Hm2 & Ho2 & Hd2 & Hum2) Htask2 Hfw2. change (set_mem m2 (numbered m1 s)) with (numbered m2 s) in *.
  assert (w16 (data K2) (pid t) = u16 (fresh_pid s)) as Hpid2.
  { rewrite <- (proj2 Hbl1). apply w16_ext. intros x Hx. apply Hd2. unfold first_stack, span in *. fields. lia. }
  assert (forall n, 0 <= n -> budget h K1 n -> budget h K2 n) as Hb2.
  { intros n _. apply budget_keep. intros x Hx. apply Hd2. intros Hy. apply (Hn x); [unfold first_stack, span in *; lia | done]. }
  eapply (wp_give_dir _ (numbered m2 s) R1 f2 F1 h K2 t prio); [exact Hk2 | by rewrite Ho2 | exact Hn | split; [exact Htask2 | exact Hpid2] | exact Hfw2 | | | | exact Htb | |].
  - eapply user_bitmap_keep; [exact Hub1 |]. intros x Hx. rewrite Ho2. split; [done |]. apply Hd2. intros Hy.
    assert (span t 4096 x) as Hx' by (unfold first_stack, span in *; lia).
    destruct Hx as [Hx | Hx]; [unfold userprog_vaddr, first_stack, span in *; lia |].
    apply (Htb x Hx'). unfold vaddr_bytes, vaddr_pages, span in *. lia.
  - by rewrite Ho2.
  - intros x Hx Hh. apply (Hfr1 x); [| exact Hx]. eapply kernel_own; [exact Hk |]. by apply (ka_own _ _ _ _ _ _ Hk).
  - apply Hb2; [done |]. by apply Hb1.
  - intros dir c m3 R3 f3 F3 K3 [Hk3 Hm3 Hfr3 Ho3 Hbl3 Hfw3 Hub3 Hpg Hc Hsh Hb3 HF3].
    change (set_mem m3 (numbered m2 s)) with (numbered m3 s) in *. apply (HQ b dir c m3 R3 f3 F3 K3).
    assert (forall x, span b (4096 * vaddr_pages) x -> R1 x) as HbR by (intros x Hx; by eapply kernel_own, Hob1).
    split; [exact Hk3 | | | intros x Hx; by apply Hfr3, HbR | | | exact Hfw3 | exact Hub3 | exact Hpg | exact Hc | exact Hsh | |].
    + eapply moved_trans; [eapply moved_trans; [exact Hm1 | exact Hm2 | intros x Hx; exact Hx] | exact Hm3 |].
      intros x Hx. unfold first_stack, span in *. lia.
    + intros x Hx. split; [by apply Hfr1 |]. apply Hfr3. by apply (mv_region _ _ _ _ _ _ _ _ Hm1).
    + intros x [Hx | Hx]; [| by apply Ho3]. apply (mv_own _ _ _ _ _ _ _ _ Hm3). rewrite Ho2. by apply Hob1.
    + exact Hbl3.
    + intros n Hk0 Hb. apply Hb3; [done |]. apply Hb2; [lia |]. by apply Hb1; [lia |].
    + intros q Hq. by apply HF1, HF3.
Qed.
(** ** A string that stays *)

Record text h K (p : Z) (l : list Z) : Prop := mk_text {
  tx_own : inside (own K) p (len l + 1);
  tx_string : cstr (data K) p l;
  tx_length : len l < 2 ^ 32;
  tx_printable : Forall (fun c => c <> 0x8) l;
  tx_apart x : span p (len l + 1) x -> ~ heap_bits h x }.

Lemma text_keep P h s R K s' R' K' p l : moved P h s R K s' R' K' -> (forall x, P x -> ~ own K x) -> text h K p l -> text h K' p l.
Proof.
  intros Hm HP [H1 H2 H3 H5 H4]. split; [| | exact H3 | exact H5 | exact H4].
  - intros x Hx. by apply (mv_own _ _ _ _ _ _ _ _ Hm), H1.
  - eapply cstr_ext; [| exact H2]. intros x Hx. apply (mv_data _ _ _ _ _ _ _ _ Hm); [by apply H1 | | by apply H4].
    intros Hy. by apply (HP x Hy), H1.
Qed.

Lemma wp_say_text G s R f F h K p l (Q : unit -> kstate paged -> Prop) :
  kernel_at s R f F h K -> lock_usable K console_lock -> text h K p l ->
  (forall m f' K', let s' := put_out (rev l) (set_mem m s) in kernel_at s' R f' F h K' ->
     moved (fun _ => False) h s R K s' R K' -> data K' = data K -> own K' = own K -> unmoved (kmem s) m R -> Q tt s') ->
  wp G (console_put_str p) s Q.
Proof.
  intros Hk Hl [H1 H2 H3 H4 _] HQ.
  eapply wp_say; [exact Hk | exact Hl | exact H1 | exact H2 | exact H3 | by apply can_print_all |]. intros; by eapply HQ.
Qed.

(** ** The announcement *)

Definition announcement (nm : list Z) (t : Z) : list Z :=
  bytes_of "create user thread: name=" ++ nm ++ int_digits t ++ bytes_of nl.

Record announced s R f F h K (out : list Z) m f' K' : Prop := mk_announced {
  an_at : kernel_at (put_out (rev out) (set_mem m s)) R f' F h K';
  an_moved : moved (fun _ => False) h s R K (put_out (rev out) (set_mem m s)) R K';
  an_data : data K' = data K;
  an_own : own K' = own K }.

Lemma wp_announce {A} G s R f F h K t name_ nm (k : cmd (kstate paged) A) (Q : A -> kstate paged -> Prop) :
  kernel_at s R f F h K -> lock_usable K console_lock -> text h K name_ nm ->
  text h K (lit "create user thread: name=") (bytes_of "create user thread: name=") -> text h K (lit nl) (bytes_of nl) ->
  (forall m f' K', announced s R f F h K (announcement nm t) m f' K' ->
     wp G k (put_out (rev (announcement nm t)) (set_mem m s)) Q) ->
  wp G (console_put_str (lit "create user thread: name=");; console_put_str name_;; console_put_int t;;
        console_put_str (lit nl);; k) s Q.
Proof.
  intros Hk Hl Hn Ht Hnl HQ. assert (forall x : Z, False -> ~ own K x) as HF by done.
  apply wp_bind. eapply wp_say_text; [exact Hk | exact Hl | exact Ht |]. cbv zeta. intros m1 f1 K1 Hk1 Hm1 Hd1 Ho1 _.
  apply wp_bind. eapply wp_say_text; [exact Hk1 | by apply (mv_lock _ _ _ _ _ _ _ _ Hm1) | by eapply text_keep |].
  cbv zeta. intros m2 f2 K2 Hk2 Hm2 Hd2 Ho2 _. pose proof (moved_trans _ _ _ _ _ _ _ _ _ _ _ _ _ Hm1 Hm2 (fun _ H => match H with or_introl a | or_intror a => a end)) as Hm12.
  apply wp_bind. eapply wp_say_int; [exact Hk2 | by apply (mv_lock _ _ _ _ _ _ _ _ Hm12) |].
  cbv zeta. intros m3 f3 K3 Hk3 Hm3 Hd3 Ho3 _. pose proof (moved_trans _ _ _ _ _ _ _ _ _ _ _ _ _ Hm12 Hm3 (fun _ H => match H with or_introl a | or_intror a => a end)) as Hm13.
  apply wp_bind. eapply wp_say_text; [exact Hk3 | by apply (mv_lock _ _ _ _ _ _ _ _ Hm13) | by eapply text_keep |].
  cbv zeta. intros m4 f4 K4 Hk4 Hm4 Hd4 Ho4 _. pose proof (moved_trans _ _ _ _ _ _ _ _ _ _ _ _ _ Hm13 Hm4 (fun _ H => match H with or_introl a | or_intror a => a end)) as Hm14.
  assert (put_out (rev (bytes_of nl)) (set_mem m4 (put_out (rev (int_digits t)) (set_mem m3 (put_out (rev nm) (set_mem m2
    (put_out (rev (bytes_of "create user thread: name=")) (set_mem m1 s))))))) = put_out (rev (announcement nm t)) (set_mem m4 s)) as He.
  { change (put_out (rev (bytes_of nl)) (put_out (rev (int_digits t)) (put_out (rev nm)
      (put_out (rev (bytes_of "create user thread: name=")) (set_mem m4 s)))) = put_out (rev (announcement nm t)) (set_mem m4 s)).
    rewrite !put_out_app. unfold announcement. by rewrite !rev_app_distr, <- !app_assoc. }
  rewrite He in *. apply (HQ m4 f4 K4). split; [exact Hk4 | exact Hm14 | congruence | congruence].
Qed.
(** ** Into the queues *)

Lemma enrolled_usable t v q K l : lock_usable K l -> lock_usable (with_ks (enlisted t q (set_task t v (ks K))) (adopt t v K)) l.
Proof. intros (hh & n & H). by exists hh, n. Qed.

Lemma wp_enrol_kernel G s R f F h K t v q file l1 l2 func (Q : unit -> kstate paged -> Prop) :
  kernel_at s R f F h K -> inside (own K) t 4096 -> (forall x, span t 4096 x -> ~ heap_bytes h x) ->
  tasks (ks K) !! t = None -> queues (ks K) !! thread_ready_list = Some q ->
  task_at (data K) t v -> tv_status v = TASK_READY -> page_of (tv_kstack v) = t -> is_u32 (tv_kstack v) ->
  (forall m f', let K' := with_ks (enlisted t q (set_task t v (ks K))) (adopt t v K) in
     kernel_at (set_mem m s) R f' F h K' -> unmoved (kmem s) m R -> Q tt (set_mem m s)) ->
  wp G (enlist file l1 l2 func t) s Q.
Proof.
  intros Hk Hi Hn Hnew Hq Htask Hst Hpg Hku HQ.
  assert (forall x, span t 72 x -> span t 4096 x) as H72 by (intros x Hx; unfold span in *; lia).
  eapply (wp_enrol (RL := kept_laws (kmem s) R)); [by eapply kernel_sys | intros x Hx; by apply Hi, H72 | exact Hnew | exact Hq |
    exact Htask | exact Hst | exact Hpg | exact Hku |].
  intros m Hs. destruct (kernel_after _ _ _ _ _ _ _ _ Hk Hs) as (f' & Hk' & Hum); [| by apply (HQ m f')].
  intros x Hx. split; [| done]. split; [by apply (ka_own _ _ _ _ _ _ Hk) |]. intros [Hy _]. apply (Hn x); [| exact Hx].
  by apply H72.
Qed.

(** ** The whole of [process_execute] *)

Definition ending : string := "process_execute end" ++ nl.

Record ready_to_execute s R f F h K name_ nm : Prop := mk_ready_to_execute {
  re_at : kernel_at s R f F h K;
  re_console : lock_usable K console_lock;
  re_pid : lock_usable K pid_lock;
  re_main : is_Some (tasks (ks K) !! main_thread (kvar s));
  re_name : text h K name_ nm;
  re_name_length : len nm <= 16;
  re_create : text h K (lit "create user thread: name=") (bytes_of "create user thread: name=");
  re_nl : text h K (lit nl) (bytes_of nl);
  re_end : text h K (lit ending) (bytes_of ending);
  re_budget : budget h K (1 + (vaddr_pages + 1)) }.

(** What it leaves: the thread [t] with the bitmap [b] and the directory [dir]. *)
Record executed s R f F h K filename (t b dir c : Z) s' (R' : Z -> Prop) f' (F' : Z -> Prop) K' : Prop := mk_executed {
  ex_at : kernel_at s' R' f' F' h K';
  ex_sched : exists q, queues (ks K) !! thread_ready_list = Some q /\
    ks K' = enlisted t q (set_task t (process_view t 31 dir) (ks K));
  ex_fresh x : R x -> ~ span t 4096 x /\ ~ span b (4096 * vaddr_pages) x /\ ~ span dir 4096 x;
  ex_pid : w16 (data K') (pid t) = u16 (fresh_pid s);
  ex_frame : frame_words (data K') t (fn "start_process") filename;
  ex_bitmap : user_bitmap K' t b;
  ex_mapped : virt (kmem s') dir = Some c;
  ex_shares : shares_kernel (kmem s') c;
  ex_data x : own K x -> ~ heap_bits h x -> own K' x /\ data K' x = data K x;
  ex_virt a pa : virt (kmem s) a = Some pa -> virt (kmem s') a = Some pa;
  ex_cr3 : cr3 (kmem s') = cr3 (kmem s);
  ex_lock l : lock_usable K l -> lock_usable K' l;
  ex_budget k : 0 <= k -> budget h K (1 + (vaddr_pages + (1 + k))) -> budget h K' k;
  ex_frames p : F' p -> F p }.

(** The page for the control block, and the announcement. *)
Record begun s R F h K nm (t : Z) m f' (F' : Z -> Prop) K' (R' := with_span R t 4096)
    (s' := put_out (rev (announcement nm t)) (set_mem m s)) : Prop := mk_begun {
  bg_at : kernel_at s' R' f' F' h K';
  bg_moved : moved (span t 4096) h s R K s' R' K';
  bg_fresh x : R x -> ~ span t 4096 x;
  bg_own x : span t 4096 x -> own K' x;
  bg_page : 0 < t /\ t mod 4096 = 0 /\ t + 4096 < 4294967296;
  bg_budget k : 0 <= k -> budget h K (1 + k) -> budget h K' k;
  bg_frames p : F' p -> F p }.

Lemma wp_begin {A} G s R f F h K name_ nm (k : Z -> cmd (kstate paged) A) (Q : A -> kstate paged -> Prop) :
  ready_to_execute s R f F h K name_ nm ->
  (forall t m f' F' K', begun s R F h K nm t m f' F' K' -> wp G (k t) (put_out (rev (announcement nm t)) (set_mem m s)) Q) ->
  wp G (do t <- get_kernel_pages 1; console_put_str (lit "create user thread: name=");; console_put_str name_;;
        console_put_int t;; console_put_str (lit nl);; k t) s Q.
Proof.
  intros [Hk Hcon _ _ Hn _ Ht Hnl _ Hbud] HQ. apply wp_bind.
  eapply wp_pages; [exact Hk | done | by eapply budget_more; [| exact Hbud] |]. intros t m1 f1 F1 K1 [Hk1 Hm1 Hfr Ho _ Hal [Ht1 Ht2] Hb1 HF].
  change (4096 * 1) with 4096 in *. set (R' := with_span R t 4096) in *.
  assert (forall x, span t 4096 x -> ~ own K x) as Hfo by (intros x Hx Hy; by apply (Hfr x); [eapply kernel_own |]).
  eapply wp_announce; [exact Hk1 | by apply (mv_lock _ _ _ _ _ _ _ _ Hm1) | by eapply text_keep | by eapply text_keep | by eapply text_keep |].
  intros m f' K' [Hk2 Hm2 Hd2 Ho2]. apply (HQ t m f' F1 K'). split; [exact Hk2 | | exact Hfr | | | | exact HF].
  - eapply moved_trans; [exact Hm1 | exact Hm2 | tauto].
  - intros x Hx. rewrite Ho2. by apply Ho.
  - lia.
  - intros n Hn0 Hb. eapply budget_keep; [| by apply Hb1]. intros x _. by rewrite Hd2.
Qed.

(** From the announcement on. *)
Lemma begun_ready s R f F h K name_ nm t m f' F' K' : ready_to_execute s R f F h K name_ nm ->
  begun s R F h K nm t m f' F' K' ->
  can_build (put_out (rev (announcement nm t)) (set_mem m s)) (with_span R t 4096) f' F' h K' t name_ nm.
Proof.
  intros [Hk _ Hpid [v Hmain] Hn Hlen _ _ _ Hbud] [Hk1 Hm1 Hfr Ho (Ht0 & Hal & Htu) Hb1 HF].
  assert (forall x, span t 4096 x -> ~ own K x) as Hfo by (intros x Hx Hy; by apply (Hfr x); [eapply kernel_own |]).
  pose proof (text_keep _ _ _ _ _ _ _ _ _ _ Hm1 Hfo Hn) as [T1 T2 _ _ _].
  split; [exact Hk1 | exact Ho | by split; [lia |] | | | by apply (mv_lock _ _ _ _ _ _ _ _ Hm1) | exact T1 | exact T2 | exact Hlen | |].
  - intros x Hx Hh. by apply (Hfo x Hx), (ka_own _ _ _ _ _ _ Hk).
  - change (t <> main_thread (kvar s)). intros Heq. apply (Hfr t); [| unfold span; lia]. rewrite Heq.
    apply (rep_inside _ _ _ (sr_sched _ _ _ (ri_rep _ _ _ _ _ (ka_runs _ _ _ _ _ _ Hk))) _ (mk_is_Some _ _ Hmain)).
    unfold span, task_struct_size. lia.
  - pose proof (len_nonneg nm). enough (clear t 4096 name_ (len nm + 1)) as Hc by (unfold clear in Hc; lia).
    apply spans_clear; [lia .. |]. intros x Hx Hy. apply (Hfo x Hx). by apply (tx_own _ _ _ _ Hn).
  - by apply Hb1.
Qed.

(** The control block into the queues, and the last line on the console. *)
Record finished s R F h K (t : Z) (v : tview) (q : list Z) m f' K' (s' := put_out (rev (bytes_of ending)) (set_mem m s)) : Prop :=
  mk_finished {
  fi_at : kernel_at s' R f' F h K';
  fi_sched : ks K' = enlisted t q (set_task t v (ks K));
  fi_own x : own K' x <-> own K x /\ ~ task_footprint t x;
  fi_data : data K' = data K;
  fi_lock l : lock_usable K l -> lock_usable K' l;
  fi_unmoved : unmoved (kmem s) m R }.

Lemma wp_finish G s R f F h K t v q file l1 l2 func (Q : unit -> kstate paged -> Prop) :
  kernel_at s R f F h K -> inside (own K) t 4096 -> (forall x, span t 4096 x -> ~ heap_bytes h x) ->
  tasks (ks K) !! t = None -> queues (ks K) !! thread_ready_list = Some q ->
  task_at (data K) t v -> tv_status v = TASK_READY -> page_of (tv_kstack v) = t -> is_u32 (tv_kstack v) ->
  lock_usable K console_lock -> text h K (lit ending) (bytes_of ending) ->
  (forall x, span (lit ending) (len (bytes_of ending) + 1) x -> ~ span t 4096 x) ->
  (forall m f' K', finished s R F h K t v q m f' K' -> Q tt (put_out (rev (bytes_of ending)) (set_mem m s))) ->
  wp G (do old_status <- intr_disable; enlist file l1 l2 func t;; intr_set_status old_status;;
        console_put_str (lit ending)) s Q.
Proof.
  intros Hk Hi Hnh Hnew Hq Htask Hst Hpg Hku Hcon [E1 E2 E3 E4 E5] Hap HQ. apply wp_bind, wp_intr_disable, wp_bind.
  eapply (wp_enrol_kernel _ (set_if false s) R f F h K t v q); [by eapply kernel_state | exact Hi | exact Hnh | exact Hnew | exact Hq |
    exact Htask | exact Hst | exact Hpg | exact Hku |].
  cbv zeta. intros m1 f1 Hk1 Hum1. apply wp_bind, wp_intr_set_status. set (K1 := with_ks _ _) in *.
  replace (set_if (kif s) (set_mem m1 (set_if false s))) with (set_mem m1 s) by (by destruct s).
  assert (text h K1 (lit ending) (bytes_of ending)) as Hend.
  { split; [| exact E2 | exact E3 | exact E4 | exact E5]. intros x Hx. split; [by apply E1 |]. intros [Hy _].
    apply (Hap x Hx). unfold span, task_struct_size in *. lia. }
  eapply wp_say_text; [eapply kernel_state; [exact Hk1 | done..] | by apply enrolled_usable | exact Hend |].
  cbv zeta. intros m2 f2 K2 Hk2 Hm2 Hd2 Ho2 Hum2. apply (HQ m2 f2 K2). split.
  - exact Hk2.
  - by rewrite (mv_ks _ _ _ _ _ _ _ _ Hm2).
  - intros x. by rewrite Ho2.
  - by rewrite Hd2.
  - intros l Hl. by apply (mv_lock _ _ _ _ _ _ _ _ Hm2), enrolled_usable.
  - by eapply unmoved_trans.
Qed.

(** The three parts together. *)
Lemma executed_intro s R f F h K name_ nm filename t m1 f1 F1 K1 b dir c m2 R2 f2 F2 K2 q m f' K'
    (s1 := put_out (rev (announcement nm t)) (set_mem m1 s))
    (s' := put_out (rev (announcement nm t ++ bytes_of ending)) (numbered m s)) :
  ready_to_execute s R f F h K name_ nm -> begun s R F h K nm t m1 f1 F1 K1 ->
  built s1 (with_span R t 4096) F1 h K1 t default_prip filename b dir c (numbered m2 s1) R2 f2 F2 K2 ->
  queues (ks K) !! thread_ready_list = Some q ->
  finished (numbered m2 s1) R2 F2 h K2 t (process_view t default_prip dir) q m f' K' ->
  executed s R f F h K filename t b dir c s' R2 f' F2 K'.
Proof.
  intros [Hk _ _ _ _ _ _ _ _ _] [_ Hm1 Hfr1 Ho1 _ Hb1 HF1].
  intros [Hk2 Hm2 Hfr2 Hap2 Ho2 [Htask Hpid] Hfw Hub Hpg Hc Hsh Hb2 HF2] Hq [Hk' Hsch Ho' Hd' Hl' Hum].
  pose proof (moved_trans _ _ (fun x => span t 4096 x \/ span b (4096 * vaddr_pages) x \/ span dir 4096 x) _ _ _ _ _ _ _ _ _ _
    Hm1 Hm2 ltac:(tauto)) as Hm12.
  assert (forall x, R x -> ~ span t 4096 x /\ ~ span b (4096 * vaddr_pages) x /\ ~ span dir 4096 x) as Hfr.
  { intros x Hx. split; [by apply Hfr1 |]. apply Hfr2. by left. }
  assert (forall x, span t 72 x -> ~ span b (4096 * vaddr_pages) x /\ ~ span dir 4096 x) as Hnt.
  { intros x Hx. apply Hfr2. right. unfold span in *. lia. }
  assert (s' = put_out (rev (bytes_of ending)) (set_mem m (numbered m2 s1))) as ->.
  { unfold s'. rewrite rev_app_distr, <- put_out_app. done. }
  split; rewrite ?Hd'.
  - exact Hk'.
  - exists q. split; [exact Hq |]. by rewrite Hsch, (mv_ks _ _ _ _ _ _ _ _ Hm12).
  - exact Hfr.
  - exact Hpid.
  - exact Hfw.
  - eapply user_bitmap_keep; [exact Hub |]. intros x Hx. split; [| by rewrite Hd']. intros Ho. apply Ho'.
    split; [exact Ho |]. intros [Hy Hni]. destruct Hx as [Hx | Hx]; [apply Hni; by right; right |].
    apply (proj1 (Hnt x Hy)). unfold vaddr_bytes, vaddr_pages, span in *. lia.
  - cbn [kmem set_mem put_out]. by rewrite (um_virt _ _ _ Hum).
  - eapply (shares_keep _ m R2 f2 f' F2 F2 dir c); [apply (ri_space _ _ _ _ _ (ka_runs _ _ _ _ _ _ Hk2)) |
      apply (ri_space _ _ _ _ _ (ka_runs _ _ _ _ _ _ Hk')) | exact Hum |
      intros x Hx; by eapply kernel_own, Ho2; [| by right] | apply Hpg | exact Hc | | exact Hsh].
    intros x Hx. assert (own K2 x) as Ho by (by apply Ho2; right).
    rewrite (kernel_data _ _ _ _ _ _ x Hk2 Ho), (kernel_data _ _ _ _ _ _ x Hk'), Hd'; [done |]. apply Ho'.
    split; [exact Ho |]. intros [Hy _]. by apply (proj2 (Hnt x Hy)).
  - intros x Hx Hh. pose proof (Hfr x (kernel_own _ _ _ _ _ _ _ Hk Hx)) as (Hn1 & Hn2 & Hn3). split.
    + apply Ho'. split; [by apply (mv_own _ _ _ _ _ _ _ _ Hm12) |]. intros [Hy _]. apply Hn1.
      unfold task_struct_size, span in *. lia.
    + apply (mv_data _ _ _ _ _ _ _ _ Hm12); [exact Hx | tauto | exact Hh].
  - intros a pa Hv. cbn [kmem set_mem put_out]. rewrite (um_virt _ _ _ Hum). by apply (mv_virt _ _ _ _ _ _ _ _ Hm12).
  - cbn [kmem set_mem put_out]. rewrite (um_cr3 _ _ _ Hum). apply (mv_cr3 _ _ _ _ _ _ _ _ Hm12).
  - intros l Hl. by apply Hl', (mv_lock _ _ _ _ _ _ _ _ Hm12).
  - intros n Hn Hb. eapply budget_keep; [intros x _; by rewrite Hd' |].
    apply Hb2; [exact Hn |]. apply Hb1, Hb. unfold vaddr_pages. lia.
  - intros p Hp. by apply HF1, HF2.
Qed.

Lemma wp_process_execute G s R f F h K filename name_ nm (Q : unit -> kstate paged -> Prop) :
  ready_to_execute s R f F h K name_ nm -> is_u32 filename -> is_u32 (fn "start_process") -> is_u32 (fn "kernel_thread") ->
  (forall t b dir c m R' f' F' K', let s' := put_out (rev (announcement nm t ++ bytes_of ending)) (numbered m s) in
     executed s R f F h K filename t b dir c s' R' f' F' K' -> Q tt s') ->
  wp G (process_execute filename name_) s Q.
Proof.
  intros Hre Hfile Hsp Hkt HQ. unfold process_execute. eapply wp_begin; [exact Hre |]. intros t m1 f1 F1 K1 Hbg.
  pose proof (begun_ready _ _ _ _ _ _ _ _ _ _ _ _ _ Hre Hbg) as Hcb.
  eapply wp_build; [exact Hcb | exact Hfile | exact Hsp | exact Hkt |]. intros b dir c m2 R2 f2 F2 K2 Hbu.
  pose proof Hre as [Hk Hcon _ _ _ _ _ _ Hend _]. pose proof Hbg as [_ Hm1 Hfr1 Ho1 (Ht0 & Hal & Htu) _ _].
  pose proof Hbu as [Hk2 Hm2 _ _ _ [Htask _] _ _ _ _ _ _ _]. pose proof (bu_fresh _ _ _ _ _ _ _ _ _ _ _ _ _ _ _ _ Hbu) as Hfr2.
  pose proof (moved_trans _ _ (fun x => span t 4096 x \/ span b (4096 * vaddr_pages) x \/ span dir 4096 x) _ _ _ _ _ _ _ _ _ _
    Hm1 Hm2 ltac:(tauto)) as Hm12.
  assert (forall x, span t 4096 x -> ~ own K x) as Hfo by (intros x Hx Hy; by apply (Hfr1 x); [eapply kernel_own |]).
  assert (forall x, span t 4096 x \/ span b (4096 * vaddr_pages) x \/ span dir 4096 x -> ~ own K x) as Hfo'.
  { intros x Hx Hy. destruct Hx as [Hx | Hx]; [by apply (Hfo x) |].
    destruct (Hfr2 x) as [H1 H2]; [left; by eapply kernel_own | tauto]. }
  destruct (wf_queue _ (sys_wf _ _ _ (kernel_sys _ _ _ _ _ _ Hk))) as [q Hq].
  eapply (wp_finish _ (numbered m2 _) R2 f2 F2 h K2 t (process_view t default_prip dir) q).
  - exact Hk2.
  - intros x Hx. by apply (mv_own _ _ _ _ _ _ _ _ Hm2), Ho1.
  - intros x Hx Hh. by apply (Hfo x Hx), (ka_own _ _ _ _ _ _ Hk).
  - rewrite (mv_ks _ _ _ _ _ _ _ _ Hm12). destruct (tasks (ks K) !! t) as [v |] eqn:Hv; [| done]. exfalso.
    apply (Hfr1 t); [| unfold span; lia].
    apply (rep_inside _ _ _ (sr_sched _ _ _ (ri_rep _ _ _ _ _ (ka_runs _ _ _ _ _ _ Hk))) _ (mk_is_Some _ _ Hv)).
    unfold span, task_struct_size. lia.
  - by rewrite (mv_ks _ _ _ _ _ _ _ _ Hm12).
  - exact Htask.
  - done.
  - apply first_stack_page; [done | unfold is_u32; lia].
  - cbn. unfold is_u32, first_stack. lia.
  - by apply (mv_lock _ _ _ _ _ _ _ _ Hm12).
  - by eapply text_keep.
  - intros x Hx Hy. apply (Hfo x Hy). by apply (tx_own _ _ _ _ Hend).
  - intros m f' K' Hfi.
    assert (put_out (rev (bytes_of ending)) (set_mem m (numbered m2 (put_out (rev (announcement nm t)) (set_mem m1 s)))) =
      put_out (rev (announcement nm t ++ bytes_of ending)) (numbered m s)) as ->.
    { rewrite rev_app_distr, <- put_out_app. done. }
    eapply (HQ t b dir c m). by eapply executed_intro.
Qed.
End execute.

(** ** Properties *)

Section properties.
Context {LY : Layout}.

(** C22. [process_execute] makes a process of a page, 23 pages for a bitmap and a
    page for a directory, when the kernel's heap has them: the control block's
    page was nobody's; the block has the default priority, the next process
    number, the bitmap of the user's addresses with every bit clear, and the
    directory, which maps the kernel as the current one does and nothing
    below 3 GB; its first frame enters [start_process] with the file's
    address.  The thread is the last of the ready queue and of the queue of
    all threads, whose invariant still holds, interrupts are as they were,
    both locks can be had again, no address that was mapped has moved, and
    what others own, the heap's bits apart, is unchanged.  The console shows
    the announcement and the end. *)
Theorem process_execute_adds s R f F h K filename name_ nm : ready_to_execute s R f F h K name_ nm ->
  is_u32 filename -> is_u32 (fn "start_process") -> is_u32 (fn "kernel_thread") ->
  exists t b dir c m R' f' F' K', let s' := put_out (rev (announcement nm t ++ bytes_of ending)) (numbered m s) in
    process_execute filename name_ s = Done tt s' /\ executed s R f F h K filename t b dir c s' R' f' F' K'.
Proof.
  intros Hre Hfile Hsp Hkt.
  destruct (proj1 (wp_seq_only (process_execute filename name_) s (fun _ s' => exists t b dir c m R' f' F' K',
    s' = put_out (rev (announcement nm t ++ bytes_of ending)) (numbered m s) /\
    executed s R f F h K filename t b dir c s' R' f' F' K')))
    as ([] & s' & Hc & t & b & dir & c & m & R' & f' & F' & K' & -> & Hex); [| by exists t, b, dir, c, m, R', f', F', K'].
  eapply wp_process_execute; [exact Hre | exact Hfile | exact Hsp | exact Hkt |].
  cbv zeta. intros t b dir c m R' f' F' K' Hex. by exists t, b, dir, c, m, R', f', F', K'.
Qed.
End properties.

(** A process "user" on the concrete machine, with 32 pages and frames free. *)
Module examples.
Import Mapping.examples KHeap.examples UserPages.examples.

(** The link map of [demo], with the texts apart. *)
#[local] Instance text_layout : Layout := {|
  thread_ready_list := 0xc0008000;
  thread_all_list := 0xc0008010;
  pid_lock := 0xc0008020;
  console_lock := 0xc0008040;
  kbd_buf := 0xc0008060;
  kernel_pool := 0xc0008100;
  user_pool := 0xc0008140;
  kernel_vaddr := 0xc0008180;
  idt := 0xc0008200;
  idt_table := 0xc0008800;
  intr_name := 0xc0008c00;
  intr_entry_table := 0xc0009000;
  syscall_table := 0xc0009200;
  tss := 0xc0009300;
  fn := fun _ => 0xc0001000;
  lit := fun t => if String.eqb t ending then 0xc00086c0 else if String.eqb t nl then 0xc0008680 else 0xc0008640 |}.

Definition texts : list (Z * string) :=
  [(0xc0008600, "user"); (0xc0008640, "create user thread: name="); (0xc0008680, nl); (0xc00086c0, ending)].
Definition text_words : list (Z * Z) :=
  concat (map (fun '(a, t) => imap (fun i b => (a + Z.of_nat i, b)) (bytes_of t ++ [0])) texts).

Definition exec_queues : qmap :=
  [(thread_ready_list, []); (waiters (semaphore pid_lock), []); (waiters (semaphore console_lock), [])].
Definition exec_tasks : tmap := [(Thread.examples.t1, Thread.examples.v1)].
Definition exec_phys : flat := flat_of (
  map (fun '(a, v) => (a - 0xc0000000, v))
    ((semaphore pid_lock, 1) :: (semaphore console_lock, 1) :: text_words ++ sched_words exec_queues exec_tasks) ++ [
  (0x100000, 0x101007); (0x100000 + 4 * 768, 0x101007); (0x100000 + 4 * 1023, 0x100007);
  (0x101000, 0x7); (0x101000 + 4 * 8, 0x8007); (0x101000 + 4 * 0x9a, 0x9a007); (0x101000 + 4 * 0x9e, 0x9e007);
  (0x101000 + 4 * 9, 0x9007); (0x101000 + 4 * 0xa, 0xa007); (0x101000 + 4 * 0xb0, 0xb0007);
  (0x8100, 4); (0x8104, 0xc009a000); (0x8108, 0x200000);
  (0x8180, 4); (0x8184, 0xc009a010); (0x8188, 0xc0100000)]).
Definition exec_demo : paged := mk_paged exec_phys 0x100000.
Definition exec_region : list (Z * Z) := [(0xc0008000, 400); (0xc0008600, 256); (0xc009a000, 32); (0xc009e000, 72)].
Definition exec_R : Z -> Prop := spans exec_region.
Definition exec_f (a : Z) : Z := pbyte exec_demo (a - 0xc0000000).
Definition exec_heap : heap_maps := mk_heap_maps 0xc009a000 4 0x200000 0xc009a010 4 0xc0100000.
Definition exec_state : kstate paged := set_var (set_main_thread Thread.examples.t1 vars0)
  (mk_kstate exec_demo false 0xc009eff0 vars0 [] [] (fun _ => 0) []).

Lemma exec_heap_space : heap_space exec_demo exec_R exec_f demo_F exec_heap.
Proof.
  split; [split; [split; [split |..] | split | ..]; settle | apply like_demo_vspace; vm_compute; reflexivity | |].
  - intros p (i & [Hi _] & ->). exists i. cbn in Hi. split; [lia | done].
  - intros i [Hi _]. cbn in Hi.
    pose proof (zrange_forallb (fun i => present (pde (pbyte exec_demo) (cr3 exec_demo) (dir_idx (heap_page exec_heap i))) &&
      negb (present (pte (pbyte exec_demo) (cr3 exec_demo) (heap_page exec_heap i)))) 32 ltac:(vm_compute; reflexivity) i Hi) as Hc.
    cbv beta in Hc. apply andb_true_iff in Hc as [Hp Hn%negb_true_iff]. done.
Qed.

Definition exec_semas : smap := [(semaphore pid_lock, 1); (semaphore console_lock, 1)].
Definition exec_locks : lmap := [(pid_lock, (0, 0)); (console_lock, (0, 0))].
Definition exec_own : list (Z * Z) := [(kernel_pool, 16); (kernel_vaddr, 12); (0xc009a000, 32); (0xc0008600, 256)].
Definition exec_sched : sched := sched_of 0xc009eff0 exec_queues exec_tasks.
Definition exec_ksys : ksys := with_own (spans exec_own) exec_f (ksys_of exec_sched exec_semas exec_locks).

Lemma exec_at : kernel_at exec_state exec_R exec_f demo_F exec_heap exec_ksys.
Proof.
  apply kernel_intro; [| apply exec_heap_space |].
  - split; [| done | apply wfb_spec; by vm_compute | exists Thread.examples.v1; split; by vm_compute].
    exists exec_f. split; [apply (vspace_mapped _ _ _ _ (hs_vspace _ _ _ _ _ exec_heap_space)) |].
    apply (sys_rep_spans _ _ _ _ _ _ _ exec_region); vm_compute; reflexivity.
  - intros b [Hb | [Hb | [Hb | Hb]]]; revert b Hb; apply (spans_inside exec_own); vm_compute; reflexivity.
Qed.

Lemma exec_budget : budget exec_heap exec_ksys 32.
Proof.
  split.
  - exists 0. split; [lia |]. split; [by apply Z.leb_le |]. intros j Hj.
    pose proof (zrange_forallb (fun i => negb (bit exec_f 0xc009a010 i)) 32 ltac:(vm_compute; reflexivity) j ltac:(lia)) as Hc.
    cbv beta in Hc. by apply negb_true_iff in Hc.
  - exists (zrange 32). split; [by apply (bool_decide_unpack (NoDup (zrange 32))) |]. split; [by apply Z.leb_le |].
    apply Forall_forall. intros i Hi%list_elem_of_In%zrange_spec. split; [cbn; lia |].
    pose proof (zrange_forallb (fun i => negb (bit exec_f 0xc009a000 i)) 32 ltac:(vm_compute; reflexivity) i ltac:(lia)) as Hc.
    cbv beta in Hc. by apply negb_true_iff in Hc.
Qed.

Lemma exec_text p l : (0xc0008600 <=? p) && (p + len l <? 0xc0008700) && cstrb exec_f p l && forallb (fun c => negb (c =? 0x8)) l = true ->
  text exec_heap exec_ksys p l.
Proof.
  intros [[[H1%Z.leb_le H2%Z.ltb_lt]%andb_true_iff H3]%andb_true_iff H4]%andb_true_iff. pose proof (len_nonneg l). split.
  - intros b Hb. do 3 right. left. unfold span in *. lia.
  - by apply (cstrb_spec exec_f).
  - lia.
  - apply List.Forall_forall. intros c Hc. rewrite forallb_forall in H4. specialize (H4 c Hc). lia.
  - intros x Hx Hy. unfold heap_bits, span in *. cbn in Hy. lia.
Qed.

Lemma exec_usable l : l = pid_lock \/ l = console_lock -> lock_usable exec_ksys l.
Proof.
  intros [-> | ->]; exists 0, 0; (split; [| done]); (split; [vm_compute; reflexivity |]); (split; [done |]); right;
    (split; [done |]); (split; [by vm_compute | vm_compute; reflexivity]).
Qed.

Lemma exec_ready : ready_to_execute exec_state exec_R exec_f demo_F exec_heap exec_ksys 0xc0008600 (bytes_of "user").
Proof.
  split; [apply exec_at | apply exec_usable; by right | apply exec_usable; by left | by exists Thread.examples.v1 | |
    by apply Z.leb_le | | | | by apply (budget_more _ _ _ 7), exec_budget]; apply exec_text; vm_compute; reflexivity.
Qed.

Lemma process_execute_adds_witness : exists t m K',
  process_execute 0xc0001500 0xc0008600 exec_state =
    Done tt (put_out (rev (announcement (bytes_of "user") t ++ bytes_of ending)) (numbered m exec_state)) /\
  all_threads (ks K') = [Thread.examples.t1; t] /\ w16 (data K') (pid t) = 1 /\
  w32 (data K') (vaddr_start (userprog_vaddr t)) = 0x8048000.
Proof.
  destruct (process_execute_adds exec_state exec_R exec_f demo_F exec_heap exec_ksys 0xc0001500 0xc0008600 (bytes_of "user"))
    as (t & b & dir & c & m & R' & f' & F' & K' & Hc & Hex); [apply exec_ready | done ..|].
  exists t, m, K'. split; [exact Hc |]. split; [| split].
  - destruct (ex_sched _ _ _ _ _ _ _ _ _ _ _ _ _ _ _ _ Hex) as (q & _ & ->). reflexivity.
  - rewrite (ex_pid _ _ _ _ _ _ _ _ _ _ _ _ _ _ _ _ Hex). reflexivity.
  - exact (um_start _ _ _ (ex_bitmap _ _ _ _ _ _ _ _ _ _ _ _ _ _ _ _ Hex)).
Defined.
End examples.
