(* ===== verification/LoadKernel.v ===== *)
(** boot/loader.S from the protected mode to the kernel's entry point: the file
    is read, the tables are made, paging is turned on and the segments are
    copied, with what the kernel finds when it starts. *)

From S2P Require Import Prelude Monad RawMem Machine CString Global Tss Paging Loader.

(** The bytes of the file, as the disk hands them over. *)
Record on_disk (status word : nat -> Z) (file : Z -> Z) : Prop := mk_on_disk {
  od_ready : exists k, Z.of_nat k < 2 ^ 32 /\ Z.land (status k) 0x88 = 0x08;
  od_word k : word k = file (2 * Z.of_nat k) + 2 ^ 8 * file (2 * Z.of_nat k + 1);
  od_bytes j : is_u8 (file j) }.

(** What the real mode leaves: the descriptors, the register that leads to them,
    and cleared memory where the tables will be. *)
Record real_mode_done (s : kstate flat) : Prop := mk_real_mode_done {
  rm_gdt i : 0 <= i < 14 -> w32 (flat_at (kmem s)) (LOADER_BASE_ADDR + 4 * i) = nth (Z.to_nat i) GDT_WORDS_JUMPED 0;
  rm_gdtr : gdtr (ktab s) = Z.lor GDT_LIMIT (Z.shiftl LOADER_BASE_ADDR 16);
  rm_zero b : 0x101400 <= b < 0x200000 -> flat_at (kmem s) b = 0 }.

(** What is written before paging, the mark in the descriptor of the data
    segment included, and the loader's stack, whose frames are not modelled. *)
Definition written (b : Z) : Prop :=
  span (LOADER_BASE_ADDR - 0x40) 0x40 b \/ span 0xb8000 0xa1 b \/ span KERNEL_BIN_BASE_ADDR 0x9000 b \/ span PAGE_DIR_TABLE_POS 0x1400 b \/ span gdt_ptr 6 b \/
  b = 0x915 \/ span (VIDEO_DESC + 4) 4 b.

Record protected_mode (file f g : Z -> Z) : Prop := mk_protected_mode {
  pm_file j : 0 <= j < 0x9000 -> g (KERNEL_BIN_BASE_ADDR + j) = file j;
  pm_tables : first_tables g;
  pm_video : w32 g (VIDEO_DESC + 4) = Z.lor (Z.lor DESC_VIDEO_HIGH4 0x100) 0xc0000000;
  pm_limit : w16 g gdt_ptr = GDT_LIMIT;
  pm_base : w32 g (gdt_ptr + 2) = 0xc0000900;
  pm_rest b : ~ written b -> g b = f b }.

Section rules.
Context {M : Type} {RM : RawMem M} {RL : RawMemLaws M}.
Implicit Types (s : kstate M) (R : Z -> Prop) (f : Z -> Z) (G : protocol (kstate M)).

Lemma wp_show_cells G s R f gs n l : forall (Q : unit -> kstate M -> Prop), backs (kmem s) R f -> inside R gs n ->
  Forall (fun oc => 0 <= oc.1 < n) l ->
  (forall m f', backs m R f' -> (forall b, ~ span gs n b -> f' b = f b) -> Q tt (set_mem m s)) ->
  wp G (show_cells gs l) s Q.
Proof.
  revert s f. induction l as [| [o c] l IH]; intros s f Q Hb Hi Hl HQ; cbn [show_cells].
  - apply wp_ret. replace s with (set_mem (kmem s) s) by (by destruct s). by apply (HQ _ f).
  - inversion Hl as [| ? ? Ho Hl']; subst. cbn in Ho. apply wp_bind.
    eapply wp_st8; [exact Hb | apply Hi; unfold span; lia |]. intros m1 H1.
    eapply (IH (set_mem m1 s)); [exact H1 | exact Hi | exact Hl' |]. intros m2 f2 H2 Ho2. apply (HQ m2 f2 H2).
    intros b Hbb. rewrite Ho2 by done. apply upd_ne. intros ->. apply Hbb. unfold span. lia.
Qed.

Lemma wp_lgdt G s R f a limit base (Q : unit -> kstate M -> Prop) : backs (kmem s) R f -> inside R a 6 ->
  w16 f a = limit -> w32 f (a + 2) = base ->
  Q tt (put_table (GDTR, Z.lor limit (Z.shiftl base 16)) s) -> wp G (lgdt a) s Q.
Proof.
  intros Hb Hi <- <- HQ. unfold lgdt. apply wp_bind. eapply wp_ld16; [exact Hb | eapply inside_sub; [exact Hi | lia ..] |].
  apply wp_bind. eapply wp_ld32; [exact Hb | eapply inside_sub; [exact Hi | lia ..] |]. intros _. by apply wp_modify.
Qed.

Lemma wp_sgdt G s R f a (Q : unit -> kstate M -> Prop) : backs (kmem s) R f -> inside R a 6 ->
  (forall m, let v := gdtr (ktab s) in
     backs m R (upd32 (upd16 f a (table_limit v)) (a + 2) (table_base v)) -> Q tt (set_mem m s)) -> wp G (sgdt a) s Q.
Proof.
  intros Hb Hi HQ. unfold sgdt. apply wp_bind, wp_get, wp_bind.
  eapply wp_st16; [exact Hb | eapply inside_sub; [exact Hi | lia ..] |]. intros m1 H1.
  eapply wp_st32; [exact H1 | eapply inside_sub; [exact Hi | lia ..] |]. intros m2 H2. by apply (HQ m2).
Qed.
End rules.

(** ** Before paging *)

Lemma word_bytes f a v : (forall b, span a 4 b -> is_u8 (f b)) -> w32 f a = v ->
  w16 f a = v mod 2 ^ 16 /\ w16 f (a + 2) = v / 2 ^ 16 /\
  f a = v mod 2 ^ 8 /\ f (a + 1) = v / 2 ^ 8 mod 2 ^ 8 /\ f (a + 2) = v / 2 ^ 16 mod 2 ^ 8 /\ f (a + 3) = v / 2 ^ 24.
Proof.
  intros Hu <-.
  assert (w32 f a = f a + 2 ^ 8 * f (a + 1) + 2 ^ 16 * f (a + 2) + 2 ^ 24 * f (a + 3)) as -> by reflexivity.
  assert (w16 f a = f a + 2 ^ 8 * f (a + 1)) as -> by reflexivity.
  assert (w16 f (a + 2) = f (a + 2) + 2 ^ 8 * f (a + 2 + 1)) as -> by reflexivity.
  replace (a + 2 + 1) with (a + 3) by lia.
  pose proof (Hu a ltac:(unfold span; lia)). pose proof (Hu (a + 1) ltac:(unfold span; lia)).
  pose proof (Hu (a + 2) ltac:(unfold span; lia)). pose proof (Hu (a + 3) ltac:(unfold span; lia)).
  unfold is_u8 in *. repeat split; zlia.
Qed.

(** A descriptor from its two words, and the second word of a descriptor. *)
Lemma desc_words f a lo hi : (forall b, span a 8 b -> is_u8 (f b)) -> w32 f a = lo -> w32 f (a + 4) = hi ->
  gdt_desc_at f a = mk_gdt_desc (lo mod 2 ^ 16) (lo / 2 ^ 16) (hi mod 2 ^ 8) (hi / 2 ^ 8 mod 2 ^ 8)
    (hi / 2 ^ 16 mod 2 ^ 8) (hi / 2 ^ 24).
Proof.
  intros Hu H1 H2. destruct (word_bytes f a _ ltac:(intros b Hb; apply Hu; unfold span in *; lia) H1) as (A1 & A2 & _).
  destruct (word_bytes f (a + 4) _ ltac:(intros b Hb; apply Hu; unfold span in *; lia) H2) as (_ & _ & B1 & B2 & B3 & B4).
  replace (a + 4 + 1) with (a + 5) in B2 by lia. replace (a + 4 + 2) with (a + 6) in B3 by lia.
  replace (a + 4 + 3) with (a + 7) in B4 by lia.
  unfold gdt_desc_at. by rewrite A1, A2, B1, B2, B3, B4.
Qed.

Lemma desc_word_high f a d : gdt_desc_at f a = d ->
  w32 f (a + 4) = base_mid_byte d + 2 ^ 8 * attr_low_byte d + 2 ^ 16 * limit_high_attr_high d + 2 ^ 24 * base_high_byte d.
Proof.
  intros <-. cbn [gdt_desc_at base_mid_byte attr_low_byte limit_high_attr_high base_high_byte].
  replace (a + 5) with (a + 4 + 1) by lia. replace (a + 6) with (a + 4 + 2) by lia. by replace (a + 7) with (a + 4 + 3) by lia.
Qed.

(** Loading the segment registers marks the two descriptors. *)
Lemma wp_load_selectors G (s : kstate flat) (Q : unit -> kstate flat -> Prop) : real_mode_done s ->
  (forall m f', backs m is_u32 f' -> (forall b, b <> 0x915 -> b <> 0x91d -> f' b = flat_at (kmem s) b) ->
     w32 f' 0x91c = Z.lor DESC_VIDEO_HIGH4 0x100 -> Q tt (set_esp LOADER_BASE_ADDR (set_mem m s))) ->
  wp G load_selectors s Q.
Proof.
  intros [Hgdt Hgdtr _] HQ. set (f := flat_at (kmem s)) in *.
  assert (forall b, is_u8 (f b)) as Hu by apply (pbyte_u8 (mk_paged (kmem s) 0)).
  pose proof (desc_words f 0x910 _ _ (fun b _ => Hu b) (Hgdt 4 ltac:(lia)) (Hgdt 5 ltac:(lia))) as Hd.
  pose proof (desc_words f 0x918 _ _ (fun b _ => Hu b) (Hgdt 6 ltac:(lia)) (Hgdt 7 ltac:(lia))) as Hv.
  assert (forall a, 0 <= a < 0x1000 -> inside is_u32 a 8) as Hin by (intros a Ha b Hb; unfold span, is_u32 in *; lia).
  assert (forall g v b, b <> 0x910 + 5 -> upd g (0x910 + 5) v b = g b) as Hne by (intros; by apply upd_ne).
  set (gdt := Z.lor GDT_LIMIT _) in Hgdtr.
  assert (desc_addr gdt SELECTOR_DATA = 0x910 /\ in_gdt gdt SELECTOR_DATA = true) as [Ad Id] by (split; vm_compute; reflexivity).
  assert (desc_addr gdt SELECTOR_VIDEO = 0x918 /\ in_gdt gdt SELECTOR_VIDEO = true) as [Av Iv] by (split; vm_compute; reflexivity).
  clearbody gdt. unfold load_selectors, load_sreg.
  apply wp_bind. eapply (wp_use_desc _ s is_u32 f); [apply flat_backs | exact Hgdtr | exact Id | | | done |]; rewrite Ad; [by apply Hin | by rewrite Hd |].
  intros m1 H1. set (f1 := upd f _ _) in H1.
  assert (gdt_desc_at f1 0x910 = mk_gdt_desc 0xffff 0 0 0x93 0xcf 0) as Hd1.
  { unfold f1. rewrite gdt_desc_at_attr, Hd. change (f (0x910 + 5)) with (attr_low_byte (gdt_desc_at f 0x910)). by rewrite Hd. }
  apply wp_bind. eapply (wp_use_desc _ _ is_u32 f1); [exact H1 | exact Hgdtr | exact Id | | | done |]; rewrite Ad; [by apply Hin | by rewrite Hd1 |].
  intros m2 H2. set (f2 := upd f1 _ _) in H2.
  assert (gdt_desc_at f2 0x910 = mk_gdt_desc 0xffff 0 0 0x93 0xcf 0) as Hd2.
  { unfold f2. rewrite gdt_desc_at_attr, Hd1. change (f1 (0x910 + 5)) with (attr_low_byte (gdt_desc_at f1 0x910)). by rewrite Hd1. }
  apply wp_bind. eapply (wp_use_desc _ _ is_u32 f2); [exact H2 | exact Hgdtr | exact Id | | | done |]; rewrite Ad; [by apply Hin | by rewrite Hd2 |].
  intros m3 H3. set (f3 := upd f2 _ _) in H3.
  assert (forall b, b <> 0x915 -> f3 b = f b) as Ho3 by (intros b Hb; unfold f3, f2, f1; by rewrite !Hne).
  assert (gdt_desc_at f3 0x918 = mk_gdt_desc 7 0x8000 0x0b 0x92 0xc0 0) as Hv3.
  { rewrite (gdt_desc_at_ext f f3) by (intros b Hb; apply Ho3; unfold span in Hb; lia). by rewrite Hv. }
  apply wp_bind, wp_modify.
  eapply (wp_use_desc _ _ is_u32 f3); [exact H3 | exact Hgdtr | exact Iv | | | done |]; rewrite Av; [by apply Hin | by rewrite Hv3 |].
  intros m4 H4. set (f4 := upd f3 _ _) in H4.
  apply (HQ m4 f4); [exact H4 | |].
  - intros b B1 B2. transitivity (f3 b); [apply upd_ne; lia | by apply Ho3].
  - change 0x91c with (0x918 + 4). rewrite (desc_word_high f4 0x918 (mk_gdt_desc 7 0x8000 0x0b 0x93 0xc0 0)); [done |].
    unfold f4. rewrite gdt_desc_at_attr, Hv3. change (f3 (0x918 + 5)) with (attr_low_byte (gdt_desc_at f3 0x918)). by rewrite Hv3.
Qed.

Lemma file_bytes file f word n a : (forall j, is_u8 (file j)) -> (forall b, span a (2 * n) b -> is_u8 (f b)) ->
  (forall k, word k = file (2 * Z.of_nat k) + 2 ^ 8 * file (2 * Z.of_nat k + 1)) ->
  (forall k, Z.of_nat k < n -> w16 f (a + 2 * Z.of_nat k) = word k) ->
  forall j, 0 <= j < 2 * n -> f (a + j) = file j.
Proof.
  intros Hfile Hf Hword Hw j Hj. pose proof (Hw (Z.to_nat (j / 2)) ltac:(zlia)) as Hx. rewrite Hword in Hx.
  rewrite Z2Nat.id in Hx by zlia. set (x := a + 2 * (j / 2)) in *.
  assert (w16 f x = f x + 2 ^ 8 * f (x + 1)) as E16 by reflexivity. rewrite E16 in Hx.
  pose proof (Hf x ltac:(unfold span, x; zlia)) as U1. pose proof (Hf (x + 1) ltac:(unfold span, x; zlia)) as U2.
  pose proof (Hfile (2 * (j / 2))) as U3. pose proof (Hfile (2 * (j / 2) + 1)) as U4. unfold is_u8 in *.
  assert (j = 2 * (j / 2) \/ j = 2 * (j / 2) + 1) as [E | E] by zlia; rewrite E.
  - change (f x = file (2 * (j / 2))). lia.
  - replace (a + (2 * (j / 2) + 1)) with (x + 1) by (unfold x; lia). lia.
Qed.

Lemma wp_p_mode_start G s status word file (Q : unit -> kstate flat -> Prop) :
  real_mode_done s -> on_disk status word file ->
  (forall s' g, backs (kmem s') is_u32 g -> protected_mode file (flat_at (kmem s)) g ->
     kesp s' = 0xc0000900 -> kif s' = kif s -> kvar s' = kvar s -> kout s' = kout s -> ktab s' = ktab s -> kinb s' = kinb s ->
     kports s' = disk_commands KERNEL_START_SECTOR KERNEL_SECTOR_COUNT ++ kports s -> Q tt s') ->
  wp G (p_mode_start status word) s Q.
Proof.
  intros [Hgdt Hgdtr Hz] [Hready Hword Hfile] HQ. set (f := flat_at (kmem s)) in *. unfold p_mode_start.
  assert (forall a n, 0 <= a -> a + n <= 4294967296 -> inside is_u32 a n) as Hin.
  { intros a n H1 H2 b Hb. unfold span, is_u32 in *. lia. }
  apply wp_bind. eapply wp_load_selectors; [by split |]. fold f. intros m0 f0 H0 Ho0 Hv0. apply wp_bind.
  eapply (wp_show_cells _ (set_esp LOADER_BASE_ADDR (set_mem m0 s)) is_u32 f0 _ 0xa1); [exact H0 | apply Hin; lia | by repeat constructor |].
  intros m1 f1 H1 Ho1. set (s1 := set_mem m1 _).
  apply wp_bind. eapply (wp_rd_disk _ s1 is_u32 f1); [exact H1 | apply Hin; unfold KERNEL_BIN_BASE_ADDR, KERNEL_SECTOR_COUNT; lia |
    unfold KERNEL_SECTOR_COUNT; lia | | exact Hready |].
  { intros k. rewrite Hword. pose proof (Hfile (2 * Z.of_nat k)). pose proof (Hfile (2 * Z.of_nat k + 1)). unfold is_u8 in *. lia. }
  intros s2 f2 H2 [G1 G2 G3 G4 G5 G6] Gout Hf2 Ho2. change (KERNEL_SECTOR_COUNT * 512) with 0x9000 in Ho2.
  change (KERNEL_SECTOR_COUNT * 256) with 0x4800 in Hf2.
  apply wp_bind. eapply (wp_setup_page _ s2 is_u32 f2); [exact H2 | apply Hin; unfold PAGE_DIR_TABLE_POS; lia |].
  intros m3 f3 H3 Htab Ho3. apply wp_bind. eapply (wp_sgdt _ _ is_u32 f3); [exact H3 | apply Hin; vm_compute; congruence |].
  cbv zeta. assert (gdtr (ktab (set_mem m3 s2)) = Z.lor GDT_LIMIT (Z.shiftl LOADER_BASE_ADDR 16)) as ->.
  { change (gdtr (ktab s2) = Z.lor GDT_LIMIT (Z.shiftl LOADER_BASE_ADDR 16)). rewrite G6. exact Hgdtr. }
  change (table_limit (Z.lor GDT_LIMIT (Z.shiftl LOADER_BASE_ADDR 16))) with 55.
  change (table_base (Z.lor GDT_LIMIT (Z.shiftl LOADER_BASE_ADDR 16))) with 0x900.
  change (gdt_ptr + 2) with 0xb06. change gdt_ptr with 0xb04. change (VIDEO_DESC - LOADER_BASE_ADDR) with 24.
  intros m4 H4. apply wp_bind. eapply wp_ld32; [exact H4 | apply Hin; lia |]. intros _. rewrite w32_upd32_eq by done.
  change (0x900 + 24 + 4) with 0x91c. set (f4 := upd32 _ _ _) in *.
  apply wp_bind. eapply wp_ld32; [exact H4 | apply Hin; lia |]. intros _.
  assert (w32 f4 0x91c = Z.lor DESC_VIDEO_HIGH4 0x100) as ->.
  { rewrite <- Hv0. unfold f4. rewrite w32_upd32_ne, w32_upd16_ne by lia.
    apply w32_ext. intros b Hb. unfold span in Hb. rewrite Ho3, Ho2, Ho1; [done | ..]; unfold span, KERNEL_BIN_BASE_ADDR, PAGE_DIR_TABLE_POS; lia. }
  apply wp_bind. eapply wp_st32; [exact H4 | apply Hin; lia |]. intros m5 H5.
  apply wp_bind. eapply wp_ld32; [exact H5 | apply Hin; lia |]. intros _.
  assert (w32 (upd32 f4 0x91c (Z.lor (Z.lor DESC_VIDEO_HIGH4 0x100) 0xc0000000)) 0xb06 = 0x900) as ->
    by (rewrite w32_upd32_ne by lia; unfold f4; by rewrite w32_upd32_eq).
  apply wp_bind. eapply wp_st32; [exact H5 | apply Hin; lia |]. intros m6 H6. set (f6 := upd32 _ _ _) in H6.
  apply wp_bind, wp_get, wp_modify.
  assert (forall b, ~ span 0xb04 6 b -> ~ span 0x91c 4 b -> f6 b = f3 b) as Ho6.
  { intros b N1 N2. unfold f6, f4. unfold span in N1, N2. rewrite !upd32_ne, upd16_ne by lia. done. }
  apply (HQ _ f6); [exact H6 | | | exact G1 | exact G3 | exact Gout | exact G6 | exact G4 | exact G5].
  - split.
    + intros j Hj. rewrite Ho6, Ho3 by (unfold span, KERNEL_BIN_BASE_ADDR, PAGE_DIR_TABLE_POS; lia).
      apply (file_bytes file f2 word 0x4800 KERNEL_BIN_BASE_ADDR); [exact Hfile | | exact Hword | exact Hf2 | lia].
      intros b Hb. apply (backs_byte _ _ _ b H2). unfold span, is_u32, KERNEL_BIN_BASE_ADDR in *. lia.
    + eapply first_tables_ext; [exact Htab |]. intros b Hb. apply Ho6; unfold span, PAGE_DIR_TABLE_POS in *; lia.
    + change (VIDEO_DESC + 4) with 0x91c. unfold f6. rewrite w32_upd32_ne by lia. by rewrite w32_upd32_eq.
    + change gdt_ptr with 0xb04. unfold f6, f4. rewrite !w16_upd32_ne by lia. by rewrite w16_upd16_eq.
    + change (gdt_ptr + 2) with 0xb06. unfold f6. by rewrite w32_upd32_eq.
    + intros b Hb. unfold written in Hb. change gdt_ptr with 0xb04 in Hb. change (VIDEO_DESC + 4) with 0x91c in Hb.
      rewrite Ho6, Ho3, Ho2, Ho1 by tauto. apply Ho0; [tauto |]. intros ->. unfold span in Hb. lia.
  - cbn [kesp set_esp set_mem]. rewrite G2. done.
Qed.

(** ** The kernel's view of the first megabyte

    Everything is used at its high address, but what the loader and the kernel
    reach through the low ones: the size of the memory and the operand of lgdt,
    the kernel's file, and the loader's line on the screen. *)

Definition low_bytes (b : Z) : Prop := span 0xb00 10 b \/ span KERNEL_BIN_BASE_ADDR 0x9000 b \/ span 0xb8000 0x200 b.
Definition kernel_region (a : Z) : Prop := low_bytes a \/ (0xc0000000 <= a < 0xc0100000 /\ ~ low_bytes (a - 0xc0000000)).
Definition phys_of (a : Z) : Z := if a <? 0xc0000000 then a else a - 0xc0000000.

Lemma kernel_region_range a : kernel_region a -> 0 <= phys_of a < 0x100000 /\ is_u32 a /\
  ((a = phys_of a /\ low_bytes a) \/ (a = phys_of a + 0xc0000000 /\ ~ low_bytes (phys_of a))).
Proof.
  unfold phys_of, is_u32. intros [Hl | [Hr Hn]].
  - assert (0 <= a < 0x100000) as Hr by (unfold low_bytes, span, KERNEL_BIN_BASE_ADDR in Hl; lia).
    rewrite (proj2 (Z.ltb_lt a 0xc0000000)) by lia. split; [lia |]. split; [lia |]. by left.
  - rewrite (proj2 (Z.ltb_ge a 0xc0000000)) by lia. split; [lia |]. split; [lia |]. right. split; [lia | done].
Qed.

Lemma loader_vspace m : first_tables (flat_at m) -> (forall b, 0x101400 <= b < 0x200000 -> flat_at m b = 0) ->
  vspace (mk_paged m PAGE_DIR_TABLE_POS) kernel_region (fun a => flat_at m (phys_of a)) above_tables.
Proof.
  intros Hft Hz. set (p := mk_paged m PAGE_DIR_TABLE_POS).
  assert (forall a, kernel_region a -> virt p a = Some (phys_of a)) as Hv.
  { intros a Ha. destruct (kernel_region_range a Ha) as (Hr & Hu & Hc). unfold virt. cbn [p cr3].
    rewrite first_translate; [| exact Hft | exact Hz | exact Hu | lia].
    destruct Hc as [[E _] | [E _]].
    - rewrite (proj2 (Z.ltb_lt a 0x100000)) by lia. by rewrite <- E.
    - rewrite (proj2 (Z.ltb_ge a 0x100000)), (proj2 (Z.leb_le 0xc0000000 a)), (proj2 (Z.ltb_lt a 0xc0100000)) by lia.
      cbn [andb]. f_equal. lia. }
  split; [apply first_vm; [exact Hft | exact Hz | apply (pbyte_u8 p)] |].
  intros a Ha. exists (phys_of a). split; [by apply Hv |]. split; [done |].
  destruct (kernel_region_range a Ha) as (Hr & Hu & Hc). split.
  - assert (frame (phys_of a) < 0x100000) as Hlt by (unfold frame; zlia). intros [He | (i & Hi & Hp & He)].
    + change (frame (cr3 p)) with 0x100000 in He. lia.
    + cbn [p cr3] in *. change (pbyte p) with (flat_at m) in *. rewrite pde_first in Hp, He by done.
      rewrite first_frame in He by done. rewrite first_present in Hp by done.
      destruct (Z.eqb_spec i 0), (Z.eqb_spec i 768), (Z.eqb_spec i 1023); cbn [orb] in *; lia.
  - intros a' Ha' Hv'. rewrite (Hv a' Ha') in Hv'. injection Hv' as He.
    destruct (kernel_region_range a' Ha') as (_ & _ & Hc'). rewrite He in Hc'.
    destruct Hc as [[E Hl] | [E Hl]], Hc' as [[E' Hl'] | [E' Hl']]; try congruence.
Qed.

(** ** From the file to the entry point *)

(** Where the kernel may be loaded to: below the file, from the second page on. *)
Definition load_region (b : Z) : Prop := span KERNEL_BIN_BASE_ADDR 0x9000 b \/ 0xc0001000 <= b < 0xc0070000.

Lemma load_region_kernel b : load_region b -> kernel_region b.
Proof.
  intros [Hb | Hb]; [left; by right; left |]. right. split; [lia |]. unfold low_bytes, span, KERNEL_BIN_BASE_ADDR. lia.
Qed.

Lemma loadable_mono (R R' : Z -> Prop) f size : loadable R f size -> (forall b, R b -> R' b) -> loadable R' f size.
Proof.
  intros [H1 H2 H3 H4 H5] HR. split; try done.
  - intros b Hb. by apply HR, H1.
  - intros h Hh Hne. destruct (H5 h Hh Hne) as (A & B & C). split; [done |]. split; [| done]. intros b Hb. by apply HR, B.
Qed.

(** What is loaded depends on the file only. *)
Lemma loadable_ext R f f' size : loadable R f size -> (forall b, is_u8 (f b)) ->
  (forall b, span KERNEL_BIN_BASE_ADDR size b -> f' b = f b) ->
  loadable R f' size /\ phdrs f' (e_phnum f') = phdrs f (e_phnum f).
Proof.
  intros Hlo Hu Hf. pose proof Hlo as [H1 [H2 H2'] H3 H4 H5].
  assert (forall a n, KERNEL_BIN_BASE_ADDR <= a -> a + n <= KERNEL_BIN_BASE_ADDR + size -> forall b, span a n b -> f' b = f b) as Hin.
  { intros a n A1 A2 b Hb. apply Hf. unfold span in *. lia. }
  assert (e_phoff f' = e_phoff f) as E1 by (apply w32_ext, Hin; lia).
  assert (e_phentsize f' = e_phentsize f) as E2 by (apply w16_ext, Hin; lia).
  assert (e_phnum f' = e_phnum f) as E3 by (apply w16_ext, Hin; lia).
  assert (phdrs f' (e_phnum f') = phdrs f (e_phnum f)) as E4.
  { rewrite E3. unfold phdrs. apply map_ext_in. intros i Hi%zrange_spec. unfold phdr_addr. rewrite E1, E2. fold (phdr_addr f i).
    destruct (loadable_w32 R f size i 0 Hlo (fun b _ => Hu b) Hi) as (_ & _ & Hs); [lia | lia |].
    specialize (H4 i Hi). unfold span in Hs.
    assert (phdr_addr f i + 0x14 <= KERNEL_BIN_BASE_ADDR + size) as Hend by (unfold phdr_addr; lia).
    unfold phdr_at. f_equal; [apply Hf; unfold span; lia | apply w32_ext, Hin; lia ..]. }
  split; [| done]. split; [done | done | by rewrite E3 | intros i; rewrite E1, E2, E3; apply H4 | rewrite E4; exact H5].
Qed.

(** A byte that is neither on the loader's line nor in a segment. *)
Definition untouched (hs : list phdr) (b : Z) : Prop :=
  ~ span 0xb8000 0x200 b /\ forall h, In h hs -> ph_type h <> PT_NULL -> ~ span (ph_vaddr h) (ph_filesz h) b.

Lemma wp_enter_kernel G (s : kstate paged) f file (hs := phdrs file (e_phnum file)) (Q : Z -> kstate paged -> Prop) :
  vspace (kmem s) kernel_region f above_tables -> w16 f gdt_ptr = GDT_LIMIT -> w32 f (gdt_ptr + 2) = 0xc0000900 ->
  loadable load_region file 0x9000 -> (forall b, is_u8 (file b)) ->
  (forall b, span KERNEL_BIN_BASE_ADDR 0x9000 b -> f b = file b) ->
  (forall m f2, vspace m kernel_region f2 above_tables -> unmoved (kmem s) m kernel_region ->
     (forall hs1 h hs2 k, hs = hs1 ++ h :: hs2 -> ph_type h <> PT_NULL -> 0 <= k < ph_filesz h ->
        (forall x, In x hs2 -> ph_type x <> PT_NULL -> ~ span (ph_vaddr x) (ph_filesz x) (ph_vaddr h + k)) ->
        f2 (ph_vaddr h + k) = file (KERNEL_BIN_BASE_ADDR + ph_offset h + k)) ->
     (forall b, untouched hs b -> f2 b = f b) ->
     Q KERNEL_ENTRY_POINT (set_esp 0xc009f000 (set_mem m (put_table (GDTR, gdt_operand) s)))) ->
  wp G enter_kernel s Q.
Proof.
  intros Hvs Hlim Hbase Hlo Hu Hfile HQ. set (R := kernel_region) in *. unfold enter_kernel.
  assert (inside R gdt_ptr 6) as I1 by (intros b Hb; left; left; unfold span, gdt_ptr, total_mem_bytes, LOADER_BASE_ADDR in *; lia).
  assert (inside R 0xb8000 0x200) as I2 by (intros b Hb; left; by right; right).
  pose proof (vspace_keeping _ _ _ _ Hvs) as Hb.
  set (RL := keeping_laws (cr3 (kmem s)) (outside (kmem s) R) (pbyte (kmem s))).
  apply wp_bind. eapply (@wp_lgdt paged _ RL _ s R f); [exact Hb | exact I1 | exact Hlim | exact Hbase |].
  change (Z.lor GDT_LIMIT (Z.shiftl 0xc0000900 16)) with gdt_operand. set (s1 := put_table _ s).
  apply wp_bind. eapply (@wp_show_cells paged _ RL _ s1 R f _ 0x200); [exact Hb | exact I2 | by repeat constructor |].
  intros m2 f2 H2 Ho2. apply wp_bind.
  eapply (@wp_show_cells paged _ RL _ _ R f2 _ 0x200); [exact H2 | exact I2 | by repeat constructor |].
  intros m3 f3 H3 Ho3.
  assert (forall b, ~ span 0xb8000 0x200 b -> f3 b = f b) as Ho by (intros b Hn; by rewrite Ho3, Ho2).
  assert (forall b, span KERNEL_BIN_BASE_ADDR 0x9000 b -> f3 b = file b) as Hfile3.
  { intros b Hbb. rewrite Ho; [by apply Hfile |]. unfold span, KERNEL_BIN_BASE_ADDR in *. lia. }
  destruct (loadable_ext _ _ f3 _ Hlo Hu Hfile3) as [Hlo3 Ehs].
  apply wp_bind. eapply (@wp_kernel_init paged _ RL _ _ R f3 0x9000); [exact H3 | by eapply loadable_mono, load_region_kernel |].
  intros m4 f4 H4 Heq. rewrite Ehs in Heq. apply wp_bind, wp_modify, wp_ret.
  destruct (vspace_after _ _ _ _ Hvs m4 f4 H4) as [Hvs4 Hum].
  apply (HQ m4 f4); [exact Hvs4 | exact Hum | |].
  - intros hs1 h hs2 k Hhs Hne Hk Hn. rewrite Heq. fold hs. rewrite Hhs, load_segments_last; [| done | unfold span; lia | exact Hn].
    replace (KERNEL_BIN_BASE_ADDR + ph_offset h + (ph_vaddr h + k - ph_vaddr h)) with (KERNEL_BIN_BASE_ADDR + ph_offset h + k) by lia.
    apply Hfile3. destruct (lo_segment _ _ _ Hlo h) as (Hsz & _ & _); [fold hs; rewrite Hhs; apply in_app_iff; right; by left | done |].
    assert (In h hs) as Hin by (rewrite Hhs; apply in_app_iff; right; by left). apply phdrs_in in Hin as (i & Hi & ->).
    destruct (loadable_w32 _ _ _ i 4 Hlo (fun b _ => Hu b) Hi) as ([H0 _] & _); [lia | lia |].
    cbn [ph_offset phdr_at] in *. unfold span. lia.
  - intros b [Hn1 Hn2]. rewrite Heq, load_segments_out by exact Hn2. by apply Ho.
Qed.

(** The video segment as the processor reads it. *)
Lemma video_segment f a : (forall b, span a 8 b -> is_u8 (f b)) -> w32 f a = 0x80000007 ->
  w32 f (a + 4) = Z.lor (Z.lor DESC_VIDEO_HIGH4 0x100) 0xc0000000 ->
  segment_of (gdt_desc_at f a) = mk_segment 0xc00b8000 7 3 true 0 true true true.
Proof. intros Hu H1 H2. by rewrite (desc_words f a _ _ Hu H1 H2). Qed.

(** What paging finds. *)
Lemma entered_vspace s s1 file g (f := fun a => flat_at (kmem s1) (phys_of a)) :
  real_mode_done s -> backs (kmem s1) is_u32 g -> protected_mode file (flat_at (kmem s)) g ->
  vspace (kmem (turn_on_paging s1)) kernel_region f above_tables /\ first_space (kmem (turn_on_paging s1)) /\ w16 f gdt_ptr = GDT_LIMIT /\
  w32 f (gdt_ptr + 2) = 0xc0000900 /\
  (forall b, span KERNEL_BIN_BASE_ADDR 0x9000 b -> f b = file (b - KERNEL_BIN_BASE_ADDR)) /\
  (forall b, kernel_region b -> ~ written (phys_of b) -> f b = flat_at (kmem s) (phys_of b)) /\
  (w32 f 0xc0000918 = 0x80000007 /\ w32 f (0xc0000918 + 4) = Z.lor (Z.lor DESC_VIDEO_HIGH4 0x100) 0xc0000000).
Proof.
  intros [Hgdt _ Hz] Hg [P1 P2 P3 P4 P5 P6].
  assert (forall b, is_u32 b -> flat_at (kmem s1) b = g b) as Eg by (intros b Hu; symmetry; by apply Hg).
  assert (forall b, 0 <= b < 0xc0000000 -> f b = g b) as El.
  { intros b Hb. unfold f, phys_of. rewrite (proj2 (Z.ltb_lt b 0xc0000000)) by lia. apply Eg. unfold is_u32. lia. }
  assert (forall b, 0 <= b < 0x100000 -> f (b + 0xc0000000) = g b) as Eh.
  { intros b Hb. unfold f, phys_of. rewrite (proj2 (Z.ltb_ge (b + 0xc0000000) 0xc0000000)) by lia.
    replace (b + 0xc0000000 - 0xc0000000) with b by lia. apply Eg. unfold is_u32. lia. }
  assert (first_tables (flat_at (kmem s1))) as Hft.
  { eapply first_tables_ext; [exact P2 |]. intros b Hb. apply Eg. unfold span, is_u32, PAGE_DIR_TABLE_POS in *. lia. }
  assert (forall b, 0x101400 <= b < 0x200000 -> flat_at (kmem s1) b = 0) as Hz1.
  { intros b Hb. rewrite Eg, P6; [by apply Hz | | unfold is_u32; lia].
    unfold written, span. change gdt_ptr with 0xb04. change (VIDEO_DESC + 4) with 0x91c.
    unfold LOADER_BASE_ADDR, KERNEL_BIN_BASE_ADDR, PAGE_DIR_TABLE_POS. lia. }
  split; [by apply loader_vspace |]. split; [by apply first_space_intro |].
  split; [rewrite <- P4; apply w16_ext; intros b Hb; apply El; change gdt_ptr with 0xb04 in Hb; unfold span in Hb; lia |].
  split; [rewrite <- P5; apply w32_ext; intros b Hb; apply El; change gdt_ptr with 0xb04 in Hb; unfold span in Hb; lia |].
  split.
  { intros b Hb. unfold span, KERNEL_BIN_BASE_ADDR in *. rewrite El by lia. rewrite <- P1 by lia. f_equal. lia. }
  split.
  { intros b Hb Hn. destruct (kernel_region_range b Hb) as (Hr & _). unfold f. rewrite Eg by (unfold is_u32; lia). by apply P6. }
  split.
  - transitivity (w32 (flat_at (kmem s)) 0x918); [| exact (Hgdt 6 ltac:(lia))]. apply (w32_shift f _ 0xc0000918 0x918).
    intros k Hk. replace (0xc0000918 + k) with (0x918 + k + 0xc0000000) by lia. rewrite Eh by lia. apply P6.
    unfold written, span. change gdt_ptr with 0xb04. change (VIDEO_DESC + 4) with 0x91c.
    unfold LOADER_BASE_ADDR, KERNEL_BIN_BASE_ADDR, PAGE_DIR_TABLE_POS. lia.
  - rewrite <- P3. change (VIDEO_DESC + 4) with 0x91c. apply (w32_shift f _ (0xc0000918 + 4) 0x91c).
    intros k Hk. replace (0xc0000918 + 4 + k) with (0x91c + k + 0xc0000000) by lia. apply Eh. lia.
Qed.

(** What the kernel finds. *)
Record kernel_entered (s : kstate flat) (file : Z -> Z) (s1 : kstate flat) (m : paged) (f2 : Z -> Z) (img := fun a => file (a - KERNEL_BIN_BASE_ADDR))
    (hs := phdrs img (e_phnum img)) : Prop := mk_kernel_entered {
  ke_space : vspace m kernel_region f2 above_tables;
  ke_first : first_space m;
  ke_segment hs1 h hs2 k : hs = hs1 ++ h :: hs2 -> ph_type h <> PT_NULL -> 0 <= k < ph_filesz h ->
    (forall x, In x hs2 -> ph_type x <> PT_NULL -> ~ span (ph_vaddr x) (ph_filesz x) (ph_vaddr h + k)) ->
    f2 (ph_vaddr h + k) = file (ph_offset h + k);
  ke_rest b : kernel_region b -> untouched hs b -> ~ written (phys_of b) -> f2 b = flat_at (kmem s) (phys_of b);
  ke_memory : w32 f2 total_mem_bytes = w32 (flat_at (kmem s)) total_mem_bytes;
  ke_video : segment_of (gdt_desc_at f2 0xc0000918) = mk_segment 0xc00b8000 7 3 true 0 true true true;
  ke_if : kif s1 = kif s;
  ke_vars : kvar s1 = kvar s;
  ke_ports : kports s1 = disk_commands KERNEL_START_SECTOR KERNEL_SECTOR_COUNT ++ kports s }.

(** The state at the entry point. *)
Definition at_entry (m : paged) (s1 : kstate flat) : kstate paged :=
  set_esp 0xc009f000 (set_mem m (put_table (GDTR, gdt_operand) (turn_on_paging s1))).

Lemma loader_run s status word file (img := fun a => file (a - KERNEL_BIN_BASE_ADDR)) (hs := phdrs img (e_phnum img)) :
  real_mode_done s -> on_disk status word file -> loadable load_region img 0x9000 ->
  exists s1 m f2, p_mode_start status word s = Done tt s1 /\
    enter_kernel (turn_on_paging s1) = Done KERNEL_ENTRY_POINT (at_entry m s1) /\ kernel_entered s file s1 m f2.
Proof.
  intros Hrm Hdisk Hlo.
  destruct (proj1 (wp_seq_only (p_mode_start status word) s (fun _ s' => exists g, backs (kmem s') is_u32 g /\
    protected_mode file (flat_at (kmem s)) g /\ kif s' = kif s /\ kvar s' = kvar s /\
    kports s' = disk_commands KERNEL_START_SECTOR KERNEL_SECTOR_COUNT ++ kports s)))
    as ([] & s1 & Hc1 & g & Hg & Hpm & Hif & Hvar & Hports).
  { eapply wp_p_mode_start; [exact Hrm | exact Hdisk |]. intros s' g H1 H2 _ H3 H4 _ _ _ H5. by exists g. }
  destruct (entered_vspace s s1 file g Hrm Hg Hpm) as (Hvs & Hfs & Hlim & Hbase & Hfile & Hrest & Hvid).
  set (f := fun a => flat_at (kmem s1) (phys_of a)) in *.
  destruct (proj1 (wp_seq_only enter_kernel (turn_on_paging s1) (fun e s2 => exists m f2, e = KERNEL_ENTRY_POINT /\
    s2 = set_esp 0xc009f000 (set_mem m (put_table (GDTR, gdt_operand) (turn_on_paging s1))) /\
    vspace m kernel_region f2 above_tables /\ first_space m /\
    (forall hs1 h hs2 k, hs = hs1 ++ h :: hs2 -> ph_type h <> PT_NULL -> 0 <= k < ph_filesz h ->
       (forall x, In x hs2 -> ph_type x <> PT_NULL -> ~ span (ph_vaddr x) (ph_filesz x) (ph_vaddr h + k)) ->
       f2 (ph_vaddr h + k) = file (ph_offset h + k)) /\
    (forall b, untouched hs b -> f2 b = f b)))) as (e & s2 & Hc2 & m & f2 & -> & -> & Hvs2 & Hcr & Hseg & Hunt).
  { eapply (wp_enter_kernel _ _ f img); [exact Hvs | exact Hlim | exact Hbase | exact Hlo | intros b; apply (od_bytes _ _ _ Hdisk) | exact Hfile |].
    intros m f2 Hvs2 Hum Hseg Hunt. exists m, f2. split; [done |]. split; [done |]. split; [exact Hvs2 |].
    split; [eapply first_space_unmoved; [exact Hfs | exact Hum | apply Hvs2] |].
    split; [| exact Hunt]. intros hs1 h hs2 k H1 H2 H3 H4. rewrite (Hseg hs1 h hs2 k H1 H2 H3 H4). unfold img. f_equal. lia. }
  assert (forall b, ~ span 0xb8000 0x200 b -> ~ load_region b -> f2 b = f b) as Hout.
  { intros b H1 H2. apply Hunt. split; [done |]. intros h Hh Hne Hs. apply H2. by apply (lo_segment _ _ _ Hlo h Hh Hne). }
  exists s1, m, f2. split; [exact Hc1 |]. split; [exact Hc2 |].
  split; [exact Hvs2 | exact Hcr | exact Hseg | intros b Hb H1 H2; rewrite Hunt by done; by apply Hrest | | | done..].
  - apply w32_ext. intros b Hb. unfold span, total_mem_bytes, LOADER_BASE_ADDR in Hb.
    rewrite Hout by (unfold load_region, span, KERNEL_BIN_BASE_ADDR; lia).
    assert (phys_of b = b) as Ep by (unfold phys_of; by rewrite (proj2 (Z.ltb_lt b 0xc0000000)) by lia).
    transitivity (flat_at (kmem s) (phys_of b)); [| by rewrite Ep].
    apply Hrest; [left; left; unfold span; lia |]. rewrite Ep. unfold written, span. change gdt_ptr with 0xb04.
    change (VIDEO_DESC + 4) with 0x91c. unfold LOADER_BASE_ADDR, KERNEL_BIN_BASE_ADDR, PAGE_DIR_TABLE_POS. lia.
  - assert (forall b, span 0xc0000918 8 b -> f2 b = f b) as He.
    { intros b Hb. apply Hout; unfold load_region, span, KERNEL_BIN_BASE_ADDR in *; lia. }
    apply video_segment.
    + intros b Hb. rewrite He by done. apply (pbyte_u8 (mk_paged (kmem s1) 0)).
    + rewrite <- (proj1 Hvid). apply w32_ext. intros b Hb. apply He. unfold span in *. lia.
    + rewrite <- (proj2 Hvid). apply w32_ext. intros b Hb. apply He. unfold span in *. lia.
Qed.

(** ** Properties *)

(** C15. The loader's 32-bit part takes the machine from the real mode to the
    kernel's entry point, when the disk answers and holds a file whose
    segments belong between the second page and the file: paging is on with
    the first tables, the kernel's view of the first megabyte is mapped one to
    one outside the tables, every frame from 2 MB on is free, and the segments
    hold the bytes of the file; everything else of the first megabyte that
    neither the loader nor its loads of the segment registers write is as the real mode left it, the size of
    the memory among it.  The stack starts at 0xc009f000, the register of the
    descriptors has the operand that [tss_init] will load again, and the video
    segment begins at 0xc00b8000 and is marked accessed. *)
Theorem loader_enters_kernel (s : kstate flat) status word file (img := fun a => file (a - KERNEL_BIN_BASE_ADDR)) :
  real_mode_done s -> on_disk status word file -> loadable load_region img 0x9000 ->
  exists s1 m f2, p_mode_start status word s = Done tt s1 /\
    enter_kernel (turn_on_paging s1) = Done KERNEL_ENTRY_POINT (at_entry m s1) /\ kernel_entered s file s1 m f2.
Proof. apply loader_run. Qed.

(** A file with one segment of 8 bytes at 0x100, for 0xc0001500. *)
Module examples.
Definition loader_image : flat := flat_of (map (fun i => (0x900 + 4 * i, nth (Z.to_nat i) GDT_WORDS_JUMPED 0)) (zrange 14) ++ [(0xb00, 0x2000000)]).
Definition real_state : kstate flat := put_table (GDTR, Z.lor GDT_LIMIT (Z.shiftl LOADER_BASE_ADDR 16)) (machine_of loader_image).
Definition file (j : Z) : Z := flat_at Loader.examples.kernel_file (KERNEL_BIN_BASE_ADDR + j).
Definition word (k : nat) : Z := file (2 * Z.of_nat k) + 2 ^ 8 * file (2 * Z.of_nat k + 1).

Lemma real_state_done : real_mode_done real_state.
Proof.
  split.
  - intros i Hi. pose proof (zrange_forallb (fun i => w32 (flat_at loader_image) (LOADER_BASE_ADDR + 4 * i) =? nth (Z.to_nat i) GDT_WORDS_JUMPED 0)
      14 ltac:(vm_compute; reflexivity) i Hi) as Hc. by apply Z.eqb_eq.
  - reflexivity.
  - intros b Hb. change (flat_at loader_image b = 0). unfold flat_at.
    assert (loader_image !! b = None) as ->; [| done]. apply not_elem_of_dom. intros Hin.
    assert (set_Forall (fun b => b < 0x101400) (dom loader_image)) as Hall by (apply (bool_decide_unpack _); by vm_compute).
    specialize (Hall b Hin). cbv beta in Hall. lia.
Qed.

Lemma file_on_disk : on_disk (fun _ => 0x58) word file.
Proof. split; [by exists 0%nat | done | intros j; apply (pbyte_u8 (mk_paged Loader.examples.kernel_file 0))]. Qed.

Lemma file_loadable : loadable load_region (fun a => file (a - KERNEL_BIN_BASE_ADDR)) 0x9000.
Proof.
  set (img := fun a => file (a - KERNEL_BIN_BASE_ADDR)). assert (e_phnum img = 2) as E1 by (by vm_compute).
  split; rewrite ?E1.
  - intros b Hb. by left.
  - by vm_compute.
  - lia.
  - assert (e_phoff img = 0x34) as -> by (by vm_compute). assert (e_phentsize img = 0x20) as -> by (by vm_compute). lia.
  - intros h Hin. assert (phdrs img 2 = [mk_phdr 0 0 0 0; mk_phdr 1 0x100 0xc0001500 8]) as Hh by (by vm_compute). rewrite Hh in Hin.
    destruct Hin as [<- | [<- | []]]; [intros Hne; destruct Hne; reflexivity |]. intros _. cbn [ph_offset ph_filesz ph_vaddr].
    split; [lia |]. unfold inside, load_region, span, KERNEL_BIN_BASE_ADDR. split; intros; lia.
Qed.

Lemma loader_enters_kernel_witness : exists s1 s2, p_mode_start (fun _ => 0x58) word real_state = Done tt s1 /\
  enter_kernel (turn_on_paging s1) = Done 0xc0001500 s2 /\ kesp s2 = 0xc009f000 /\
  exists f2, vspace (kmem s2) kernel_region f2 above_tables /\ f2 0xc0001507 = 0x55 /\ w32 f2 0xb00 = 0x2000000.
Proof.
  destruct (loader_enters_kernel real_state (fun _ => 0x58) word file real_state_done file_on_disk file_loadable)
    as (s1 & m & f2 & Hc1 & Hc2 & [Hvs _ Hseg _ Hmem _ _ _ _]).
  exists s1. eexists. split; [exact Hc1 |]. split; [exact Hc2 |]. split; [reflexivity |]. exists f2. split; [exact Hvs |]. split.
  - transitivity (file (0x100 + 7)); [| by vm_compute].
    apply (Hseg [mk_phdr 0 0 0 0] (mk_phdr 1 0x100 0xc0001500 8) [] 7); [by vm_compute | intros Hne; by vm_compute in Hne | cbn; lia |].
    intros x [].
  - transitivity (w32 (flat_at loader_image) 0xb00); [exact Hmem | by vm_compute].
Defined.
End examples.
