(* ===== verification/Bringup.v ===== *)
(** From the real mode to the running kernel: boot/loader.S followed by
    [init_all] (kernel/init.c), on the memory behind the loader's own tables.
    What the loader leaves is what the initialisation needs, and what both
    leave is what the heap of pages and the threads start from. *)

From S2P Require Import Prelude Monad RawMem Machine CString Bitmap DList Thread Sync Global Interrupt Tss Paging Loader LoadKernel.
From S2P Require Import Memory Mapping KHeap PoolInit Task Spawn UserPages Kernel Boot Init.

(** A string of the kernel is in a segment of its file that no later one covers. *)
Record in_file (file : Z -> Z) (hs : list phdr) (p : Z) (l : list Z) : Prop := mk_in_file {
  if_segment : exists hs1 h hs2, hs = hs1 ++ h :: hs2 /\ ph_type h <> PT_NULL /\
    (forall b, span p (len l + 1) b -> span (ph_vaddr h) (ph_filesz h) b) /\
    (forall b x, span p (len l + 1) b -> In x hs2 -> ph_type x <> PT_NULL -> ~ span (ph_vaddr x) (ph_filesz x) b) /\
    cstr (fun b => file (ph_offset h + (b - ph_vaddr h))) p l }.

Section bringup.
Context {LY : Layout}.

(** What the linker promises: the kernel's memory [P] and its parts, with the
    stack of the first thread in the page at 0xc009e000. *)
Record linked_kernel (P C : Z -> Prop) (label : Z -> nat) (e : Z) (file : Z -> Z) (hs : list phdr) : Prop := mk_linked_kernel {
  lk_stack : is_u32 e /\ page_of e = 0xc009e000;
  lk_layout : boot_layout kernel_region P 0xc009e000;
  lk_space : modules_space P;
  lk_apart : modules_apart C label;
  lk_linked : linked;
  lk_constants b : C b -> P b;
  lk_name b : span (lit "main") 5 b -> C b;
  lk_main : in_file file hs (lit "main") (bytes_of "main") }.

Lemma entered_cstr s file s1 m f2 (img := fun a => file (a - KERNEL_BIN_BASE_ADDR)) p l :
  kernel_entered s file s1 m f2 -> in_file file (phdrs img (e_phnum img)) p l -> cstr f2 p l.
Proof.
  intros [_ _ Hseg _ _ _ _ _ _] [(hs1 & h & hs2 & Hhs & Hne & Hin & Hout & Hstr)].
  eapply cstr_ext; [| exact Hstr]. intros b Hb. pose proof (Hin b Hb) as Hs. unfold span in Hs.
  replace b with (ph_vaddr h + (b - ph_vaddr h)) at 1 by lia.
  apply (Hseg hs1 h hs2); [exact Hhs | exact Hne | lia |].
  intros x Hx Hxn. replace (ph_vaddr h + (b - ph_vaddr h)) with b by lia. by apply Hout.
Qed.

Lemma entered_ready s file s1 m f2 P C label e (img := fun a => file (a - KERNEL_BIN_BASE_ADDR)) n
    (s2 := set_esp e (at_entry m s1)) :
  kernel_entered s file s1 m f2 -> linked_kernel P C label e file (phdrs img (e_phnum img)) ->
  w32 (flat_at (kmem s)) total_mem_bytes = n -> 0x200000 <= n ->
  init_ready (RL := kept_laws m kernel_region) s2 kernel_region P C f2 n label.
Proof.
  intros Hke Hlk Hn Hsz. pose proof (entered_cstr _ _ _ _ _ _ _ Hke (lk_main _ _ _ _ _ _ Hlk)) as Hstr.
  destruct Hlk as [[He Hp] HB Hsp Hap Hli HC Hnm _]. destruct Hke as [Hvs _ _ _ Hmem _ _ _ _].
  assert (page_of (kesp s2) = 0xc009e000) as Hpg by exact Hp.
  split; [| exact Hsp | exact Hap | exact Hli | exact HC | exact Hnm | by rewrite <- Hn, <- Hmem | exact Hsz].
  split; rewrite ?Hpg.
  - by eapply vspace_keeping.
  - exact HB.
  - exact He.
  - lia.
  - split; [intros b Hb; by apply HC, Hnm | exact Hstr].
Qed.

(** The heap after [mem_init], in the loader's address space. *)
Lemma booted_heap_space m R f n : is_heap R f (boot_heap n) -> vspace m R f above_tables -> first_space m ->
  0x200000 <= n < 2 ^ 32 -> heap_space m R f above_tables (boot_heap n).
Proof.
  intros Hh Hvs [_ Hvm Hv Hd] Hn. destruct (sizes_bounds n Hn) as (B1 & B2 & B3 & B4 & B5).
  split; [exact Hh | exact Hvs | |].
  - intros p (i & [Hi _] & ->). cbn [boot_heap kb kn kst] in *. unfold above_tables, frame_of. split; [zlia |]. lia.
  - intros i [Hi _]. cbn [boot_heap vn] in Hi. set (a := heap_page (boot_heap n) i).
    assert (a = 0xc0100000 + 4096 * i) as Ha by reflexivity.
    assert (is_u32 a) as Hu by (unfold is_u32; lia).
    assert (present (pde (pbyte m) (cr3 m) (dir_idx a)) = true) as Hp by (apply Hd; unfold dir_idx; zlia).
    split; [exact Hp |]. destruct (present (pte (pbyte m) (cr3 m) a)) eqn:Hpt; [| done]. exfalso.
    assert (virt m a = Some (frame (pte (pbyte m) (cr3 m) a) + page_off a)) as Hva by (by apply translate_Some).
    rewrite Hv in Hva by (done || lia). rewrite (proj2 (Z.ltb_ge a 0x100000)), (proj2 (Z.ltb_ge a 0xc0100000)), andb_false_r in Hva by lia.
    done.
Qed.

(** Every page of the heap is free, and every frame. *)
Lemma booted_budget K n : pools_ready (own K) n (data K) -> 0x200000 <= n < 2 ^ 32 -> budget (boot_heap n) K (8 * kernel_bytes n).
Proof.
  intros Hp Hn. destruct (sizes_bounds n Hn) as (B1 & B2 & _). cbn [boot_heap vn kb kn vb].
  assert (forall b0 j, MEM_BITMAP_BASE <= b0 -> b0 + kernel_bytes n <= MEM_BITMAP_BASE + (2 * kernel_bytes n + user_bytes n) ->
    0 <= j < 8 * kernel_bytes n -> bit (data K) b0 j = false) as Hz.
  { intros b0 j H1 H2 Hj. unfold bit. rewrite (pr_zero _ _ _ Hp) by (unfold span; zlia). apply Z.testbit_0_l. }
  split.
  - exists 0. cbn [boot_heap vn vb]. split; [lia |]. split; [lia |]. intros j Hj. apply Hz; lia.
  - cbn [boot_heap kb kn]. exists (zrange (8 * kernel_bytes n)).
    unfold zrange. split; [apply NoDup_fmap_2; [apply _ | apply NoDup_seq] |].
    split; [rewrite length_map, length_seq; lia |]. apply Forall_forall. intros j Hj.
    assert (0 <= j < 8 * kernel_bytes n) as Hr by (by apply zrange_spec, list_elem_of_In). split; [lia |]. apply Hz; lia.
Qed.

(** What [init_all] leaves when it started in the loader's address space. *)
Lemma booted_kernel m s P C f n s' K (R := kernel_region) : kernel_up (RL := kept_laws m R) s R P C f n s' K ->
  vspace m R f above_tables -> first_space m -> 0x200000 <= n < 2 ^ 32 ->
  exists f', kernel_at s' R f' above_tables (boot_heap n) K /\ first_space (kmem s') /\
    budget (boot_heap n) K (8 * kernel_bytes n).
Proof.
  intros HK Hvs Hfs Hn. pose proof (up_pools (RL := kept_laws m R) _ _ _ _ _ _ _ _ HK) as Hp.
  pose proof (up_sys (RL := kept_laws m R) _ _ _ _ _ _ _ _ HK) as [(f' & Hb & HR) He HA Hrun].
  destruct (vspace_after _ _ _ _ Hvs (kmem s') f' Hb) as [Hvs' Hum].
  assert (first_space (kmem s')) as Hfs' by (eapply first_space_unmoved; [exact Hfs | exact Hum | apply Hvs']).
  exists f'. split; [| split; [exact Hfs' | by apply booted_budget]].
  split; [by split | | intros b; eapply heap_bytes_inside, Hp].
  apply booted_heap_space; [| done ..]. eapply is_heap_mono; [apply Hp | apply (sr_own _ _ _ HR) |].
  intros b Hbb. apply (sr_data _ _ _ HR). eapply heap_bytes_inside; [apply Hp |]. unfold heap_bytes. tauto.
Qed.

(** ** Property *)

(** C4. From the real mode to the kernel's first instruction after
    [init_all]: the loader's 32-bit part fills the tables, reads the file,
    turns paging on and copies the segments, and [init_all] then finds all it
    needs.  In the end the modules' invariants hold together, the code runs in
    the address space that the loader has built, and the heap of kernel pages
    has this space under it, with all its pages and as many frames free.  The
    linker's promise is that the kernel's data do not overlap and that no
    segment covers the string of the main thread's name; [e] is the stack
    pointer that the frame of [main] leaves. *)
Theorem machine_boots (s : kstate flat) status word file P C label e n
    (img := fun a => file (a - KERNEL_BIN_BASE_ADDR)) (hs := phdrs img (e_phnum img)) (R := kernel_region) :
  real_mode_done s -> on_disk status word file -> loadable load_region img 0x9000 ->
  linked_kernel P C label e file hs -> w32 (flat_at (kmem s)) total_mem_bytes = n -> 0x200000 <= n < 2 ^ 32 ->
  exists s1 m f2 s3 K f3, p_mode_start status word s = Done tt s1 /\
    enter_kernel (turn_on_paging s1) = Done KERNEL_ENTRY_POINT (at_entry m s1) /\
    init_all (set_esp e (at_entry m s1)) = Done tt s3 /\
    kernel_up (RL := kept_laws m R) (set_esp e (at_entry m s1)) R P C f2 n s3 K /\
    kernel_at s3 R f3 above_tables (boot_heap n) K /\ first_space (kmem s3) /\ budget (boot_heap n) K (8 * kernel_bytes n).
Proof.
  intros Hrm Hdisk Hlo Hlk Hn Hsz. destruct (loader_run s status word file Hrm Hdisk Hlo) as (s1 & m & f2 & Hc1 & Hc2 & Hke).
  assert (init_ready (RL := kept_laws m R) (set_esp e (at_entry m s1)) R P C f2 n label) as Hr by (eapply entered_ready; eauto; lia).
  destruct (init_run (RL := kept_laws m R) _ _ _ _ _ _ _ Hr) as (s3 & K & Hc3 & HK).
  destruct (booted_kernel _ _ _ _ _ _ _ _ HK (ke_space _ _ _ _ _ Hke) (ke_first _ _ _ _ _ Hke) Hsz) as (f3 & H1 & H2 & H3).
  by exists s1, m, f2, s3, K, f3.
Qed.
End bringup.

(** The kernel's file has its code's first bytes for 0xc0001500 and three names
    for 0xc0007000; main runs with its stack pointer 16 bytes below the top. *)
Module examples.
Definition file_layout : Layout := {|
  thread_ready_list := 0xc0008000;
  thread_all_list := 0xc0008010;
  pid_lock := 0xc0008020;
  console_lock := 0xc0008040;
  kbd_buf := 0xc0008060;
  kernel_pool := 0xc0008100;
  user_pool := 0xc0008140;
  kernel_vaddr := 0xc0008180;
  idt := 0xc0008200;
  idt_table := 0xc0008800;
  intr_name := 0xc0008c00;
  intr_entry_table := 0xc0009000;
  syscall_table := 0xc0009200;
  tss := 0xc0009300;
  fn := fun _ => 0xc0001000;
  lit := fun t => if String.eqb t "k_thread_a" then 0xc0007010 else if String.eqb t "k_thread_b" then 0xc0007020 else 0xc0007000 |}.
#[local] Existing Instance file_layout.

Definition kernel_file : flat := flat_of [
  (0x7001c, 0x34); (0x7002a, 0x20); (0x7002c, 2);
  (0x70034, 1); (0x70038, 0x100); (0x7003c, 0xc0001500); (0x70044, 8);
  (0x70054, 1); (0x70058, 0x200); (0x7005c, 0xc0007000); (0x70064, 0x30);
  (0x70100, 0x11223344); (0x70104, 0x55667788); (0x70200, 0x6e69616d); (0x70204, 0);
  (0x70210, 0x68745f6b); (0x70214, 0x64616572); (0x70218, 0x615f);
  (0x70220, 0x68745f6b); (0x70224, 0x64616572); (0x70228, 0x625f)].
Definition file (j : Z) : Z := flat_at kernel_file (KERNEL_BIN_BASE_ADDR + j).
Definition word (k : nat) : Z := file (2 * Z.of_nat k) + 2 ^ 8 * file (2 * Z.of_nat k + 1).
Definition segments : list phdr := [mk_phdr 1 0x100 0xc0001500 8; mk_phdr 1 0x200 0xc0007000 0x30].
Definition constants (b : Z) : Prop := span 0xc0007000 0x30 b.
Definition memory (b : Z) : Prop :=
  span 0xb00 4 b \/ span 0xc0000900 0x100 b \/ constants b \/ span 0xc0008040 0x67fc0 b \/ span 0xc0079000 0x25000 b.
Definition owner (b : Z) : nat := if Init.examples.between 0xc0007000 0xc0007030 b then 6 else Init.examples.owner b.

Lemma names_on_disk : on_disk (fun _ => 0x58) word file.
Proof. split; [by exists 0%nat | done | intros j; apply (pbyte_u8 (mk_paged kernel_file 0))]. Qed.

Ltac in_memory := intros b Hb; unfold memory, constants, span, IDT_DESC_CNT, tss_size, tss_desc_addr, GDT_BASE,
  MEM_BITMAP_BASE in *; cbn in *; lia.

Lemma memory_space : modules_space memory.
Proof.
  split; [split; [split | split |] | split | | | split |]; try in_memory;
    try (unfold IDT_DESC_CNT, MEM_BITMAP_BASE, tss_size, tss_desc_addr, GDT_BASE; cbn; lia).
  intros a. unfold in_idt, in_names, in_handlers, entry_addr, span, IDT_DESC_CNT. cbn. lia.
Qed.

Lemma memory_apart : modules_apart constants owner.
Proof.
  split; intros b Hb; unfold constants, table_bytes, pool_bytes, tss_bytes, tss_size, tss_desc_addr,
    GDT_BASE, MEM_BITMAP_BASE, in_idt, in_names, in_handlers, entry_addr, span, IDT_DESC_CNT in *; cbn in Hb;
    unfold owner, Init.examples.owner, Init.examples.between; repeat case_match; lia.
Qed.

Lemma memory_layout : boot_layout kernel_region memory 0xc009e000.
Proof.
  split; try (unfold clear; cbn; lia);
    intros b Hb; unfold memory, constants, kernel_region, low_bytes, span, KERNEL_BIN_BASE_ADDR in *; cbn in *; lia.
Qed.

Section image.
Let img := fun a => file (a - KERNEL_BIN_BASE_ADDR).

Lemma file_segments : e_phnum img = 2 /\ phdrs img (e_phnum img) = segments.
Proof. by vm_compute. Qed.

Lemma names_loadable : loadable load_region img 0x9000.
Proof.
  destruct file_segments as [E1 E2]. split.
  - intros b Hb. by left.
  - unfold KERNEL_BIN_BASE_ADDR. lia.
  - rewrite E1. lia.
  - rewrite E1. assert (e_phoff img = 0x34) as -> by (by clear; vm_compute). assert (e_phentsize img = 0x20) as -> by (by clear; vm_compute). lia.
  - rewrite E2. intros h [<- | [<- | []]] _; cbn [ph_offset ph_filesz ph_vaddr]; (split; [lia |]);
      unfold inside, load_region, span, KERNEL_BIN_BASE_ADDR; split; intros; lia.
Qed.

(** The strings of the second segment. *)
Lemma file_string p l : (0xc0007000 <=? p) && (p + len l <? 0xc0007030) &&
  cstrb (fun b => file (0x200 + (b - 0xc0007000))) p l = true -> in_file file (phdrs img (e_phnum img)) p l.
Proof.
  intros Hc. apply andb_true_iff in Hc as [Hr Hc]. apply cstrb_spec in Hc. rewrite (proj2 file_segments). split.
  exists [mk_phdr 1 0x100 0xc0001500 8], (mk_phdr 1 0x200 0xc0007000 0x30), []. cbn [ph_type ph_offset ph_vaddr ph_filesz].
  split; [done |]. split; [done |]. split; [intros b Hb; unfold span in *; lia |]. split; [intros b x _ [] | exact Hc].
Qed.

Lemma file_linked : linked_kernel memory constants owner 0xc009eff0 file (phdrs img (e_phnum img)).
Proof.
  split; [by split | apply memory_layout | apply memory_space | apply memory_apart | | in_memory | in_memory |].
  - split; intros t; cbn; repeat case_match; done.
  - apply file_string. by vm_compute.
Qed.
End image.

Lemma machine_boots_witness : exists s1 m s3 K f3, p_mode_start (fun _ => 0x58) word LoadKernel.examples.real_state = Done tt s1 /\
  enter_kernel (turn_on_paging s1) = Done 0xc0001500 (at_entry m s1) /\ init_all (set_esp 0xc009eff0 (at_entry m s1)) = Done tt s3 /\
  kernel_at s3 kernel_region f3 above_tables (boot_heap 0x2000000) K /\ all_threads (ks K) = [0xc009e000] /\
  budget (boot_heap 0x2000000) K 3840.
Proof.
  destruct (machine_boots LoadKernel.examples.real_state (fun _ => 0x58) word file memory constants owner 0xc009eff0
    0x2000000 LoadKernel.examples.real_state_done names_on_disk names_loadable file_linked) as (s1 & m & f2 & s3 & K & f3 & H1 & H2 & H3 & H4 & H5 & _ & H6).
  - by vm_compute.
  - lia.
  - exists s1, m, s3, K, f3. split; [exact H1 |]. split; [exact H2 |]. split; [exact H3 |]. split; [exact H5 |].
    split; [| exact H6]. by rewrite (up_sched _ _ _ _ _ _ _ _ H4).
Defined.
End examples.
