(* ===== verification/Main.v ===== *)
(** kernel/main.c as a whole: from the real mode to the loop in which the main
    thread waits for interrupts, with the two echoing threads in the queue. *)

From S2P Require Import Prelude Monad RawMem Machine CString Bitmap DList Thread Sync Global Interrupt Tss Paging Loader LoadKernel.
From S2P Require Import Memory Mapping KHeap PoolInit Task Spawn UserPages Kernel Boot Init Start Execute Bringup.

(** ** One more thread *)

Section threads.
Context {LY : Layout}.
Implicit Types (s : kstate paged) (m : paged) (R F : Z -> Prop) (f : Z -> Z) (K : ksys) (G : protocol (kstate paged))
  (h : heap_maps).

Record thread_added s R h K (t prio function func_arg : Z) m f' (F' : Z -> Prop) K' (R' := with_span R t 4096) : Prop := mk_thread_added {
  ta_at : kernel_at (numbered m s) R' f' F' h K';
  ta_sched : exists q, queues (ks K) !! thread_ready_list = Some q /\
    ks K' = enlisted t q (set_task t (started_view t prio) (ks K));
  ta_frame : frame_words (data K') t function func_arg;
  ta_fresh b : R b -> ~ span t 4096 b;
  ta_page b : span t 4096 b -> ~ task_footprint t b -> own K' b;
  ta_data b : own K b -> ~ heap_bits h b -> own K' b /\ data K' b = data K b;
  ta_lock : lock_usable K' pid_lock;
  ta_budget k : 0 <= k -> budget h K (1 + k) -> budget h K' k }.

Lemma wp_add_thread G s R f F h K name_ nm prio function func_arg (Q : Z -> kstate paged -> Prop) :
  kernel_at s R f F h K -> budget h K 1 -> is_Some (tasks (ks K) !! main_thread (kvar s)) ->
  text h K name_ nm -> len nm <= 16 -> lock_usable K pid_lock ->
  is_u32 function -> is_u32 func_arg -> is_u32 (fn "kernel_thread") ->
  (forall t m f' F' K', thread_added s R h K t prio function func_arg m f' F' K' -> Q t (numbered m s)) ->
  wp G (thread_start name_ prio function func_arg) s Q.
Proof.
  intros Hk [Hroom Hen] Hmain [T1 T2 T3 _ T4] Hlen (lh & ln & Hl & Hln) Hfn Harg Hkt HQ.
  assert (forall b, heap_bytes h b -> f b = data K b) as Hfd
    by (intros b Hb; eapply kernel_data; [exact Hk | by apply (ka_own _ _ _ _ _ _ Hk)]).
  eapply (wp_thread_start _ s R f F h K name_ nm lh ln); [| exact Hfn | exact Harg | exact Hkt |].
  - split; [eapply runs_in_paged, Hk | apply Hk | split; [apply Hk |] | | | exact Hmain | exact T1 | exact T2 | exact Hlen | exact Hl | exact Hln].
    + intros b Hb. specialize (T4 b Hb). unfold heap_bits in T4. tauto.
    + eapply room_ext; [| exact Hroom]. intros b Hb. apply Hfd. by right; right; right.
    + eapply enough_ext; [| exact Hen]. intros b Hb. apply Hfd. by right; right; left.
  - intros t l m f' K' [(r & m1 & f1 & _ & Hal & Hbits) Hdis Hsys Hsch Hfr _ Hown Hdat Hlk Hhs _].
    eapply (HQ t m f' _ K'). split; [| exact Hsch | exact Hfr | exact Hdis | | | |].
    + apply kernel_intro; [exact Hsys | exact Hhs |]. intros b Hb. by apply Hbits.
    + intros b Hb Hn. apply Hown. by right.
    + intros b Hb Hn. unfold heap_bits in Hn. split; [apply Hown; by left | apply Hdat; tauto].
    + destruct Hl as (H1 & H2 & H3). eexists _, _. split; [split; [exact Hlk |]; split |].
      * unfold lock_count. case_match; lia.
      * left. destruct Hsch as (q & _ & ->). reflexivity.
      * unfold lock_count. case_match; lia.
    + intros k Hk0 [Hr0 He0].
      destruct (allocated_budget _ _ _ _ _ _ 1 _ _ _ (data K) (data K') k ltac:(lia) Hal Hfd (fun b Hb => proj2 (Hbits b Hb))) as [Hr1 He1]. split; auto.
Qed.

(** The bytes that are owned by nobody in particular stay so. *)
Definition stays h K K' : Prop := forall b, own K b -> ~ heap_bits h b -> own K' b /\ data K' b = data K b.

Lemma stays_trans h K1 K2 K3 : stays h K1 K2 -> stays h K2 K3 -> stays h K1 K3.
Proof. intros H1 H2 b Hb Hn. destruct (H1 b Hb Hn) as [Ho <-]. by apply H2. Qed.

Lemma text_stays h K K' p l : stays h K K' -> text h K p l -> text h K' p l.
Proof.
  intros Hs [T1 T2 T3 T5 T4]. split; [intros b Hb; by apply Hs; [apply T1 | apply T4] | | exact T3 | exact T5 | exact T4].
  eapply cstr_ext; [| exact T2]. intros b Hb. by apply Hs; [apply T1 | apply T4].
Qed.

Lemma new_pages_stay s R f F h K cnt a m f' F' K' : kernel_at s R f F h K -> new_pages s R F h K cnt a m f' F' K' -> stays h K K'.
Proof.
  intros Hk Hnp b Hb Hn. pose proof (np_moved _ _ _ _ _ _ _ _ _ _ _ Hnp) as Hm. split; [by apply (mv_own _ _ _ _ _ _ _ _ Hm) |].
  apply (mv_data _ _ _ _ _ _ _ _ Hm); [exact Hb | | exact Hn]. apply (np_fresh _ _ _ _ _ _ _ _ _ _ _ Hnp). by eapply kernel_own.
Qed.

Lemma kernel_task s R f F h K t : kernel_at s R f F h K -> is_Some (tasks (ks K) !! t) -> inside R t task_struct_size.
Proof. intros Hk Ht b Hb. by apply (rep_inside _ _ _ (sr_sched _ _ _ (ri_rep _ _ _ _ _ (ka_runs _ _ _ _ _ _ Hk))) t Ht). Qed.

(** What is added lies outside the heap's bitmaps. *)
Lemma fresh_bits s R f F h K t n : kernel_at s R f F h K -> (forall b, R b -> ~ span t n b) -> forall b, span t n b -> ~ heap_bits h b.
Proof.
  intros Hk Hf b Hb Hh. apply (Hf b); [| exact Hb]. eapply heap_bytes_inside; [apply (hs_heap _ _ _ _ _ (ka_heap _ _ _ _ _ _ Hk)) |].
  unfold heap_bits, heap_bytes in *. tauto.
Qed.
End threads.

(** ** Up to the loop *)

Section main.
Context {LY : Layout}.

Lemma init_ready_out {RL : RawMemLaws paged} s R P C f n label c :
  init_ready (RL := RL) s R P C f n label -> init_ready (RL := RL) (put_out c s) R P C f n label.
Proof. intros [[H1 H2 H3 H4 H5] H6 H7 H8 H9 H10 H11 H12]. by split. Qed.

(** A constant of the kernel after [init_all]. *)
Lemma constant_text {RL : RawMemLaws paged} s R P C f n label s' K p l :
  kernel_up (RL := RL) s R P C f n s' K -> modules_apart C label -> 0x200000 <= n < 2 ^ 32 ->
  (forall b, C b -> P b) -> (forall b, span p (len l + 1) b -> C b) -> cstr f p l -> len l < 2 ^ 32 ->
  Forall (fun c => c <> 0x8) l -> text (boot_heap n) K p l.
Proof.
  intros HK [A1 A2 A3 A4 A5 A6 A7] Hn HCP HC Hstr Hlen Hpr. destruct (sizes_bounds n Hn) as (B1 & B2 & B3 & _).
  split; [| | exact Hlen | exact Hpr |].
  - intros b Hb. apply (up_own _ _ _ _ _ _ _ _ HK). split; [by apply HCP, HC |]. specialize (A6 b (HC b Hb)).
    split; intros Hx; [apply A3 in Hx; congruence |].
    assert (span kbd_buf 108 b) as Hy by (unfold span in *; lia). apply A4 in Hy. congruence.
  - eapply cstr_ext; [| exact Hstr]. intros b Hb. apply (up_constants _ _ _ _ _ _ _ _ HK). by apply HC.
  - intros b Hb Hx. specialize (A6 b (HC b Hb)). assert (pool_bytes b) as Hy; [| apply A2 in Hy; congruence].
    do 3 right. unfold heap_bits, span in *. cbn [boot_heap kb kn vb vn] in Hx. lia.
Qed.

(** What main leaves when it reaches its loop: three zeroed pages at [a], and
    two threads [ta] and [tb] that are ready. *)
Record main_running (s : kstate paged) (t n a ta tb : Z) (s' : kstate paged) (R' : Z -> Prop) f' (F' : Z -> Prop) K' : Prop := mk_main_running {
  mr_at : kernel_at s' R' f' F' (boot_heap n) K';
  mr_if : kif s' = true;
  mr_esp : kesp s' = kesp s;
  mr_ready : queues (ks K') !! thread_ready_list = Some [ta; tb];
  mr_all : all_threads (ks K') = [t; ta; tb];
  mr_main : tasks (ks K') !! t = Some (new_view TASK_RUNNING t 31);
  mr_a : tasks (ks K') !! ta = Some (started_view ta 31);
  mr_b : tasks (ks K') !! tb = Some (started_view tb 30);
  mr_frame_a : frame_words (data K') ta (fn "k_thread_a") (lit "argA");
  mr_frame_b : frame_words (data K') tb (fn "k_thread_b") (lit "argB");
  mr_pages b : span a (4096 * 3) b -> own K' b /\ data K' b = 0;
  mr_apart b : ~ (span a (4096 * 3) b /\ span ta 4096 b) /\ ~ (span a (4096 * 3) b /\ span tb 4096 b) /\ ~ (span ta 4096 b /\ span tb 4096 b);
  mr_budget : budget (boot_heap n) K' (8 * kernel_bytes n - 5) }.

Lemma wp_main_threads G (s0 s : kstate paged) R f F K t n (Q : unit -> kstate paged -> Prop) :
  kernel_at s R f F (boot_heap n) K -> budget (boot_heap n) K (8 * kernel_bytes n) -> 5 <= 8 * kernel_bytes n ->
  queues (ks K) !! thread_ready_list = Some [] -> tasks (ks K) = {[t := new_view TASK_RUNNING t 31]} -> all_threads (ks K) = [t] ->
  lock_usable K pid_lock -> main_thread (kvar s) = t -> kesp s = kesp s0 ->
  text (boot_heap n) K (lit "k_thread_a") (bytes_of "k_thread_a") -> text (boot_heap n) K (lit "k_thread_b") (bytes_of "k_thread_b") ->
  linked ->
  (forall a ta tb s' R' f' F' K', main_running s0 t n a ta tb s' R' f' F' K' -> Q tt s') ->
  wp G (do addr <- get_kernel_pages 3;
    put_lit (nl ++ "    get_kernel_page start vaddr is ");; put_int addr;; put_lit nl;;
    put_lit ("create thread" ++ nl);;
    thread_start (lit "k_thread_a") 31 (fn "k_thread_a") (lit "argA");;
    thread_start (lit "k_thread_b") 30 (fn "k_thread_b") (lit "argB");;
    intr_enable;; cret tt) s Q.
Proof.
  intros Hk Hbud H5 Hq Ht Hall Hlock Hmt Hesp Hta Htb [Hlit Hfn] HQ. set (h := boot_heap n) in *.
  apply wp_bind. eapply (wp_pages _ s R f F h K 3); [exact Hk | lia | eapply (budget_more h K 3 (8 * kernel_bytes n - 3)); [lia | by replace (3 + (8 * kernel_bytes n - 3)) with (8 * kernel_bytes n) by lia] |].
  intros a m1 f1 F1 K1 Hnp. pose proof (new_pages_stay _ _ _ _ _ _ _ _ _ _ _ _ Hk Hnp) as Hst1.
  pose proof (np_at _ _ _ _ _ _ _ _ _ _ _ Hnp) as Hk1. pose proof (np_moved _ _ _ _ _ _ _ _ _ _ _ Hnp) as Hm1.
  pose proof (mv_ks _ _ _ _ _ _ _ _ Hm1) as Hks1.
  assert (budget h K1 (8 * kernel_bytes n - 3)) as Hb1.
  { apply (np_budget _ _ _ _ _ _ _ _ _ _ _ Hnp); [lia |]. by replace (3 + (8 * kernel_bytes n - 3)) with (8 * kernel_bytes n) by lia. }
  do 4 apply wp_bind, wp_modify. set (s1 := put_out _ _). set (R1 := with_span R a (4096 * 3)) in *.
  assert (kernel_at s1 R1 f1 F1 h K1) as Hk1' by (eapply kernel_state; [exact Hk1 | done | done]).
  assert (kvar s1 = kvar s) as Hv1 by done.
  apply wp_bind. eapply (wp_add_thread _ s1 R1 f1 F1 h K1 _ (bytes_of "k_thread_a")); [exact Hk1' | | | by eapply text_stays | by vm_compute | | apply Hfn | apply Hlit | apply Hfn |].
  { eapply (budget_more h K1 1 (8 * kernel_bytes n - 4)); [lia |]. by replace (1 + (8 * kernel_bytes n - 4)) with (8 * kernel_bytes n - 3) by lia. }
  { rewrite Hv1, Hmt, Hks1, Ht, lookup_singleton_eq. by eexists. }
  { by apply (mv_lock _ _ _ _ _ _ _ _ Hm1). }
  intros ta m2 f2 F2 K2 Ha. destruct Ha as [Hk2 (q & Hq2 & Hks2) Hfra Hfr2 Hpg2 Hst2 Hlk2 Hbud2].
  assert (q = []) as -> by (rewrite Hks1, Hq in Hq2; by injection Hq2). rewrite Hks1 in Hks2. clear Hq2.
  assert (budget h K2 (8 * kernel_bytes n - 4)) as Hb2.
  { apply Hbud2; [lia |]. by replace (1 + (8 * kernel_bytes n - 4)) with (8 * kernel_bytes n - 3) by lia. }
  pose proof (kernel_task _ _ _ _ _ _ t Hk ltac:(rewrite Ht, lookup_singleton_eq; by eexists)) as Htr.
  assert (t <> ta) as Hne1.
  { intros <-. apply (Hfr2 t); [left; apply Htr | ]; unfold span, task_struct_size; lia. }
  apply wp_bind. set (s2 := numbered m2 s1) in *. set (R2 := with_span R1 ta 4096) in *.
  eapply (wp_add_thread _ s2 R2 f2 F2 h K2 _ (bytes_of "k_thread_b")); [exact Hk2 | | | eapply text_stays; [exact Hst2 | by eapply text_stays] | by vm_compute | exact Hlk2 | apply Hfn | apply Hlit | apply Hfn |].
  { eapply (budget_more h K2 1 (8 * kernel_bytes n - 5)); [lia |]. by replace (1 + (8 * kernel_bytes n - 5)) with (8 * kernel_bytes n - 4) by lia. }
  { change (main_thread (kvar s2)) with (main_thread (kvar s)). rewrite Hmt, Hks2. cbn. rewrite lookup_insert_ne, Ht, lookup_singleton_eq by done. by eexists. }
  intros tb m3 f3 F3 K3 [Hk3 (q & Hq3 & Hks3) Hfrb Hfr3 Hpg3 Hst3 _ Hbud3].
  assert (q = [ta]) as -> by (rewrite Hks2 in Hq3; cbn in Hq3; rewrite lookup_insert_eq in Hq3; by injection Hq3).
  assert (t <> tb /\ ta <> tb) as [Hne2 Hne3].
  { split; intros <-; [apply (Hfr3 t); [left; left; apply Htr | ]; unfold span, task_struct_size; lia |].
    apply (Hfr3 ta); [right |]; unfold span; lia. }
  apply wp_bind, wp_intr_enable, wp_ret. eapply (HQ a ta tb). split.
  - eapply kernel_state; [exact Hk3 | done | done].
  - done.
  - exact Hesp.
  - rewrite Hks3. cbn. by rewrite lookup_insert_eq.
  - rewrite Hks3, Hks2. cbn. by rewrite Hall.
  - rewrite Hks3, Hks2. cbn. by rewrite !lookup_insert_ne, Ht, lookup_singleton_eq by done.
  - rewrite Hks3, Hks2. cbn. by rewrite lookup_insert_ne, lookup_insert_eq by done.
  - rewrite Hks3. cbn. by rewrite lookup_insert_eq.
  - eapply frame_words_ext; [exact Hfra |]. intros b Hb.
    assert (span ta 4096 b /\ ~ task_footprint ta b) as [Hx1 Hx2].
    { unfold first_stack, task_footprint, span, task_struct_size in *. lia. }
    apply Hst3; [by apply Hpg2 |]. eapply fresh_bits; [exact Hk1' | exact Hfr2 | exact Hx1].
  - exact Hfrb.
  - intros b Hb. assert (~ heap_bits h b) as Hn1 by (eapply fresh_bits; [exact Hk | apply Hnp | exact Hb]).
    destruct (Hst2 b) as [Ho2 Hd2]; [by apply (np_own _ _ _ _ _ _ _ _ _ _ _ Hnp) | exact Hn1 |].
    destruct (Hst3 b Ho2 Hn1) as [Ho3 Hd3]. split; [exact Ho3 |]. rewrite Hd3, Hd2. by apply (np_zero _ _ _ _ _ _ _ _ _ _ _ Hnp).
  - intros b. split; [| split]; intros [H1 H2]; [apply (Hfr2 b); [by right |] | apply (Hfr3 b); [left; by right |] | apply (Hfr3 b); [by right |]]; exact H2.
  - apply Hbud3; [lia |]. by replace (1 + (8 * kernel_bytes n - 5)) with (8 * kernel_bytes n - 4) by lia.
Qed.

(** The names of the two threads are constants of the kernel's file, too. *)
Definition names_linked (C : Z -> Prop) (file : Z -> Z) (hs : list phdr) : Prop :=
  forall t, t ∈ ["k_thread_a"; "k_thread_b"] -> (forall b, span (lit t) (len (bytes_of t) + 1) b -> C b) /\ in_file file hs (lit t) (bytes_of t).

Lemma wp_main_start G m s P C f n label (R := kernel_region) (Q : unit -> kstate paged -> Prop) :
  init_ready (RL := kept_laws m R) s R P C f n label -> vspace m R f above_tables -> first_space m ->
  0x200000 <= n < 2 ^ 32 -> 5 <= 8 * kernel_bytes n ->
  (forall t, t ∈ ["k_thread_a"; "k_thread_b"] -> (forall b, span (lit t) (len (bytes_of t) + 1) b -> C b) /\ cstr f (lit t) (bytes_of t)) ->
  (forall a ta tb s' R' f' F' K', main_running s (page_of (kesp s)) n a ta tb s' R' f' F' K' -> Q tt s') ->
  wp G main_start s Q.
Proof.
  intros Hr Hvs Hfs Hn H5 Hnames HQ. unfold main_start. do 2 apply wp_bind, wp_modify. apply wp_bind.
  eapply (wp_init_all (RL := kept_laws m R)); [by do 2 apply init_ready_out |].
  intros s3 K HK. destruct (booted_kernel _ _ _ _ _ _ _ _ HK Hvs Hfs Hn) as (f3 & Hk & _ & Hb).
  assert (forall t, t ∈ ["k_thread_a"; "k_thread_b"] -> text (boot_heap n) K (lit t) (bytes_of t)) as Htx.
  { intros t Ht. destruct (Hnames t Ht) as [HC Hstr]. eapply (constant_text (RL := kept_laws m R));
      [exact HK | apply Hr | exact Hn | apply (ir_constants (RL := kept_laws m R) _ _ _ _ _ _ _ Hr) | exact HC | exact Hstr | |];
    apply list_elem_of_In in Ht; destruct Ht as [<- | [<- | []]]; first [by vm_compute | by repeat constructor]. }
  pose proof (up_sched _ _ _ _ _ _ _ _ HK) as Hsch.
  eapply (wp_main_threads _ s s3 R f3 above_tables K (page_of (kesp s)) n).
  - exact Hk.
  - exact Hb.
  - exact H5.
  - rewrite Hsch. cbn. rewrite !lookup_insert. by repeat case_decide.
  - by rewrite Hsch.
  - by rewrite Hsch.
  - exists (page_of (kesp s)), 0. split; [| lia]. split; [apply (up_pid_lock _ _ _ _ _ _ _ _ HK) |]. split; [lia |]. left. by rewrite Hsch.
  - by rewrite (up_vars _ _ _ _ _ _ _ _ HK).
  - by rewrite (up_esp _ _ _ _ _ _ _ _ HK).
  - apply Htx, list_elem_of_In. by left.
  - apply Htx, list_elem_of_In. by right; left.
  - apply (ir_linked (RL := kept_laws m R) _ _ _ _ _ _ _ Hr).
  - exact HQ.
Qed.

(** ** Property *)

(** C1. From the real mode to the loop of [main]: when the disk answers and holds
    a kernel file whose parts fit, the loader's 32-bit part and then [main] run
    without a fault, a failed assertion or a hand-over, and [main] reaches its
    endless loop.  There the kernel's invariants hold together over the
    loader's address space and its heap: the main thread runs, with interrupts
    on, three new pages hold zeros, and the two threads are in the queue, in
    the order of their creation, with their priorities and with frames from
    which [k_thread_a] and [k_thread_b] will start on their arguments; five
    pages of the heap are spent.  [e] is the stack pointer that [main]'s own
    frame leaves, anywhere in the page below 0xc009f000. *)
Theorem machine_starts (s : kstate flat) status word file P C label e n
    (img := fun a => file (a - KERNEL_BIN_BASE_ADDR)) (hs := phdrs img (e_phnum img)) :
  real_mode_done s -> on_disk status word file -> loadable load_region img 0x9000 ->
  linked_kernel P C label e file hs -> names_linked C file hs ->
  w32 (flat_at (kmem s)) total_mem_bytes = n -> 0x200000 <= n < 2 ^ 32 -> 5 <= 8 * kernel_bytes n ->
  exists s1 m s3 a ta tb R' f' F' K', p_mode_start status word s = Done tt s1 /\
    enter_kernel (turn_on_paging s1) = Done KERNEL_ENTRY_POINT (at_entry m s1) /\
    main (set_esp e (at_entry m s1)) = Hang s3 /\
    main_running (set_esp e (at_entry m s1)) (page_of e) n a ta tb s3 R' f' F' K'.
Proof.
  intros Hrm Hdisk Hlo Hlk Hnm Hn Hsz H5. destruct (loader_run s status word file Hrm Hdisk Hlo) as (s1 & m & f2 & Hc1 & Hc2 & Hke).
  set (s2 := set_esp e (at_entry m s1)).
  assert (init_ready (RL := kept_laws m kernel_region) s2 kernel_region P C f2 n label) as Hr by (eapply entered_ready; eauto; lia).
  destruct (proj1 (wp_seq_only main_start s2 (fun _ s' => exists a ta tb R' f' F' K', main_running s2 (page_of e) n a ta tb s' R' f' F' K')))
    as ([] & s3 & Hc3 & a & ta & tb & R' & f' & F' & K' & Hrun).
  { eapply wp_main_start; [exact Hr | apply Hke | apply Hke | exact Hsz | exact H5 | |].
    - intros t Ht. destruct (Hnm t Ht) as [HC Hf]. split; [exact HC |]. by eapply entered_cstr.
    - intros a ta tb s' R' f' F' K' H. by exists a, ta, tb, R', f', F', K'. }
  exists s1, m, s3, a, ta, tb, R', f', F', K'. split; [exact Hc1 |]. split; [exact Hc2 |]. split; [| exact Hrun].
  change (obind (main_start s2) (fun _ => while_ (R := unit) (fun _ => cret (inl tt)) tt) = Hang s3). rewrite Hc3. cbn [obind]. by apply while_spin.
Qed.
End main.

Module examples.
Import Bringup.examples.
#[local] Existing Instance file_layout.

Lemma file_names (img := fun a => file (a - KERNEL_BIN_BASE_ADDR)) : names_linked constants file (phdrs img (e_phnum img)).
Proof.
  assert (len (bytes_of "k_thread_a") = 10 /\ len (bytes_of "k_thread_b") = 10) as [E1 E2] by (by vm_compute).
  assert (lit "k_thread_a" = 0xc0007010 /\ lit "k_thread_b" = 0xc0007020) as [E3 E4] by (by vm_compute).
  intros t Ht%list_elem_of_In. destruct Ht as [<- | [<- | []]]; (split; [intros b; rewrite ?E1, ?E2, ?E3, ?E4; unfold constants, span; lia |]);
    apply file_string; clear; by vm_compute.
Qed.

Lemma machine_starts_witness : exists s1 s2 s3 K ta tb, p_mode_start (fun _ => 0x58) word LoadKernel.examples.real_state = Done tt s1 /\
  enter_kernel (turn_on_paging s1) = Done 0xc0001500 s2 /\ main (set_esp 0xc009eff0 s2) = Hang s3 /\ kif s3 = true /\
  queues (ks K) !! thread_ready_list = Some [ta; tb] /\ budget (boot_heap 0x2000000) K 3835.
Proof.
  destruct (machine_starts LoadKernel.examples.real_state (fun _ => 0x58) word file memory constants owner 0xc009eff0
    0x2000000 LoadKernel.examples.real_state_done names_on_disk names_loadable file_linked file_names)
    as (s1 & m & s3 & a & ta & tb & R' & f' & F' & K' & H1 & H2 & H3 & [_ Hif _ Hq _ _ _ _ _ _ _ _ Hb]).
  - by vm_compute.
  - lia.
  - by apply Z.leb_le.
  - exists s1, (at_entry m s1), s3, K', ta, tb. split; [exact H1 |]. split; [exact H2 |]. split; [exact H3 |]. split; [exact Hif |].
    split; [exact Hq | exact Hb].
Defined.
End examples.
